(* ===== verification/_CoqProject ===== *)
-Q . S2P
Prelude.v
Types.v
Machine.v
Logic.v
Pcb.v
PcbQueue.v
PcbAlloc.v
PcbTree.v
Forest.v
Asl.v
AslSpec.v
Scheduler.v
SchedulerSpec.v
Initial.v
Invariant.v
InvariantOps.v
Syscalls.v
HandlerBase.v
SyscallSpec.v
TerminateSpec.v
Semaphores.v
Interrupts.v
InterruptSpec.v
Exceptions.v
Exits.v
Typing.v
ExceptionSpec.v
Contract.v
Isolation.v
AbsKernel.v
Refinement.v
BootSpec.v
System.v
Simulation.v
AbsDeadlock.v
Readback.v
Fairness.v
Units.v
Demo.v
SystemProps.v
QueueModel.v
PcbProps.v
AslModel.v
AslProps.v
CallProps.v
KernelProps.v
Bits.v
TrapProps.v
SchedProps.v
UserCode.v
Processor.v
ProcessorSpec.v
P2test.v
P2run.v
P2props.v
P1test.v
P1testSpec.v
P1testProps.v
Testers.v
TestersSpec.v
TestersArrays.v
TestersProps.v
