(* ===== verification/Prelude.v ===== *)
(** * The PandOS nucleus

    A model of the nucleus of PandOS for the uMPS3 machine (phase1/ and phase2/ of the repository)
    and the theorems that make it correct.

    ** The program

    phase1/pcb.c keeps the process control blocks: a pool, process queues (circular doubly linked
    lists known by their tail) and process trees. phase1/asl.c keeps the active semaphore list: a
    sorted singly linked list of descriptors, each with the queue of the processes blocked on one
    semaphore. phase2/initial.c boots the machine and starts the first process, phase2/scheduler.c
    dispatches, phase2/exceptions.c is the entry point for exceptions, with the system calls SYS1
    to SYS8 and the traps, phase2/interrupts.c serves the processor timer, the interval timer and
    the devices. phase1/p1test.c is a test of the first two; phase2/p2test.c is the test of the
    nucleus, a first process and the processes it creates; phase3/testers/ are user programs for a
    support level that is not in the repository.

    ** How it is modelled

    Memory is one store per type of object (pcbs, semaphore descriptors, ints, processor states,
    support structures), so pointers are addresses and aliasing is explicit; [kstate] (Types.v)
    holds the stores, the globals and the hardware registers. Kernel code is a function in the
    monad [K]: from a state it returns a value, gives up the processor by one of LDST, LDCXT,
    HALT, PANIC, WAIT ([Stop]), or faults (bad pointer, out of fuel). Integers are [Z], the C
    conversions written [u32] and [i32]. The two clocks are read from streams ([Machine]).

    - Prelude.v: the monad, linked lists over a field, frames, integer conversions, automation.
    - Types.v: const.h and types.h. Machine.v: memory accesses, STCK, LDIT and the external
      instructions; the class [Machine] of what the linker and the hardware decide, and
      [MachineOk] of the documented memory layout. Logic.v: total-correctness triples ([stops c s
      R]: no fault, no loop, gives up the processor with [R]).
    - Pcb.v (pcb.c), Asl.v (asl.c), Scheduler.v (scheduler.c), Initial.v (initial.c), Syscalls.v
      and Exceptions.v (exceptions.c), Interrupts.v (interrupts.c), P1test.v (p1test.c): the
      definitions, named as in the C.
    - PcbQueue.v, PcbAlloc.v, PcbTree.v, Forest.v, AslSpec.v, SchedulerSpec.v: what each operation
      does to the list, tree or map it represents.
    - Invariant.v, InvariantOps.v: [kernel_inv s v hands] says that every pcb is in one place,
      seen as the view [v]; one lemma per move. HandlerBase.v adds the running process and the
      process count ([nucleus_inv]). Readback.v computes the view from the links.
    - SyscallSpec.v, TerminateSpec.v, InterruptSpec.v, ExceptionSpec.v, BootSpec.v: each handler
      from any state of the invariant. Contract.v: what the handlers promise to the entry point,
      the class [HandlerContract], and the theorem that an exception keeps the promise of its
      handler. Semaphores.v: values against queues. Isolation.v: an instance of the contract, what
      an exception leaves alone.
    - From the text alone: Exits.v, the events with which the nucleus gives up the processor;
      Typing.v, every variable and field keeps to its C type.
    - AbsKernel.v: the abstract kernel, a specification without memory (a running process, a ready
      list, a value and a queue per semaphore, the process tree, the soft-block count) with one
      step per request and the way it gives up the processor. Refinement.v: each exception makes
      the step of its request, the second instance of the contract; System.v: the nucleus and its
      environment as a transition system; Simulation.v: its runs are runs of the abstract kernel.
    - What holds of every stretch of a run, first on the abstract kernel: AbsDeadlock.v, deadlocks
      and the soft-block count; Fairness.v, the lines of waiting processes; Units.v, the units of
      a semaphore.
    - UserCode.v: user programs as interaction trees. Processor.v: a processor that runs them on
      the nucleus, with a terminal, the timers and a TLB; a saved program counter names a
      continuation. ProcessorSpec.v: its steps are steps of the running system. P2test.v
      (p2test.c): the test program; P2run.v: a machine that runs it.
    - Testers.v (phase3/testers): C strings, local arrays and the services of the support level,
      which is a parameter, and the programs; TestersSpec.v, TestersArrays.v: what they do.
    - QueueModel.v, AslModel.v: sequences of queue and ASL operations refine lists and a finite
      map. Bits.v: masks and shifts. Demo.v: a concrete machine on which the theorems are
      evaluated.
    - SystemProps.v, KernelProps.v, PcbProps.v, AslProps.v, CallProps.v, TrapProps.v,
      SchedProps.v, P1testProps.v, P2props.v, TestersProps.v: the properties (C1, C2, ...) with
      their evaluations.

    ** What the theorems show

    Safety: after boot, any admissible exception is served without fault and without looping, and
    the invariant holds again (SystemProps.v). Refinement: queues are lists, the ASL is a map to
    queues (PcbProps.v, AslProps.v), and the whole nucleus is the abstract kernel, from the boot
    on, whatever user code and hardware do (KernelProps.v, P2props.v). The soft-block count is the
    number of processes that wait for a device or the clock (plus the SYS5 that found their
    interrupt there), so the scheduler panics in deadlocks only, and a deadlock is for ever; an
    exception leaves the processes it does not concern alone; values keep to their C types
    (KernelProps.v). Function: every system call, trap and interrupt handler on every branch,
    errors included (CallProps.v, TrapProps.v). Units of a semaphore are neither created nor lost,
    so it lets no more processes through than it has units, and a line of waiting processes, ready
    or blocked, only moves forward: nobody is overtaken, nobody starves (KernelProps.v,
    SchedProps.v). Round-robin progress, exactness of the accounting, agreement of the device
    indices (CallProps.v, SchedProps.v). The test programs: p1test.c passes for every machine
    whose terminal works; p2test.c, run step by step on the nucleus, prints its lines and halts,
    with and without preemption, and panics on a device faster than its driver; the phase 3
    testers print what they should, and leave C where TestersProps.v says.

    [admissible] is what the theorems ask of an exception: a code of 0 to 12, an interrupt when no
    process runs, and in kernel mode valid pointers and device numbers in the arguments (the code
    does not check them). [outside] is what user code and the hardware may do between exceptions:
    anything but to the variables of the nucleus. The deadlock test is right for processes that do
    P and V on semaphores of their own only ([ordinary]): a kernel-mode process could do a P on
    the address of a device semaphore, and the count would miss it.

    ** Fuel

    Loops over a queue or a child list have 21 units of fuel ([walk_fuel]): a list has at most the
    20 pcbs of the table, plus the last test. The search of the ASL has 23 for 22 descriptors; the
    recursion of terminateProcess has 21 for a tree of at most 20 generations. Under the invariant
    none runs out, which the [stops] theorems include. Waiting for the terminal in p1test.c takes
    as its fuel the bound the terminal keeps. The machine of Processor.v takes any number of
    steps; p2test.c halts within 3500, or 4000 with preemption. The loop of strlen has one unit
    more than the object has elements, and the recursion of fib n has n.

    ** Not modelled

    The simulator's libumps (its instructions appear as their documented effect) and the support
    level, which are not in the repository; wrap-around of the time-of-day register between two
    readings beyond 32-bit arithmetic; in p2test.c the stack of a process (it is part of its
    continuation) and the memory a TLB entry would map; the picture of asciiArt.c, a parameter. *)
From stdpp Require Export base tactics list list_numbers sorting gmap vector finite.
From Stdlib Require Export ZArith Lia Bool.

#[global] Open Scope Z_scope.

(** ** Machine integers

    The nucleus is 32-bit MIPS code.  An [unsigned int] (and a pointer) is a [Z]
    in [0, 2^32); a [signed int] is a [Z] in [-2^31, 2^31).  [u32] and [i32] are the
    conversions to those types; arithmetic is written with the conversion around it. *)
Definition u32 (z : Z) : Z := z mod 2 ^ 32.

Definition i32 (z : Z) : Z := (z + 2 ^ 31) mod 2 ^ 32 - 2 ^ 31.

Definition in_u32 (z : Z) : Prop := 0 <= z < 2 ^ 32.

Definition in_i32 (z : Z) : Prop := - 2 ^ 31 <= z < 2 ^ 31.

(** [((void * )0xFFFFFFFF)], the null pointer of const.h. *)
Definition NULL : Z := 0xFFFFFFFF.

(** ** Outcomes

    A piece of kernel code, run from a state, does one of three things: it returns a value
    ([Ret]); it hands the processor over by one of the instructions that do not come back
    ([Stop]); or it does something the model gives no meaning to ([Fault]: a dereference of
    an address that holds no object of the expected type, or a loop that used up its fuel). *)
Inductive fault : Type :=
| BadPointer (a : Z)
| OutOfFuel.

Inductive outcome (S E A : Type) : Type :=
| Ret (a : A) (s : S)
| Stop (e : E) (s : S)
| Fault (f : fault).
Arguments Ret {S E A} a s.
Arguments Stop {S E A} e s.
Arguments Fault {S E A} f.

Definition M (S E A : Type) : Type := S -> outcome S E A.

Definition ret {S E A} (a : A) : M S E A := fun s => Ret a s.

Definition bind {S E A B} (m : M S E A) (k : A -> M S E B) : M S E B :=
  fun s => match m s with
           | Ret a s' => k a s'
           | Stop e s' => Stop e s'
           | Fault f => Fault f
           end.

Definition stop {S E A} (e : E) : M S E A := fun s => Stop e s.

Definition crash {S E A} (f : fault) : M S E A := fun _ => Fault f.

Definition gets {S E A} (f : S -> A) : M S E A := fun s => Ret (f s) s.

Definition modify {S E} (f : S -> S) : M S E unit := fun s => Ret tt (f s).

Declare Scope kernel_scope.
Delimit Scope kernel_scope with kernel.
Notation "'do' x <- m ; k" := (bind m (fun x => k))
  (at level 10, x name, m at level 100, k at level 200) : kernel_scope.
Notation "'do!' m ; k" := (bind m (fun _ => k))
  (at level 10, m at level 100, k at level 200) : kernel_scope.
#[global] Open Scope kernel_scope.

(** [for (i = first; i < last; i++) body(i)], over the list of the values [i] takes. *)
Fixpoint for_each {S E I} (l : list I) (body : I -> M S E unit) : M S E unit :=
  match l with
  | [] => ret tt
  | i :: l' => do! body i; for_each l' body
  end.

(** ** Linked structures

    A link field is seen as a partial function from addresses to addresses ([None]: nothing is
    stored there).  [is_list nx c l]: following [nx] from [c] visits the nodes [l] and ends
    in [NULL]. *)
Fixpoint is_list (nx : Z -> option Z) (c : Z) (l : list Z) : Prop :=
  match l with
  | [] => c = NULL
  | x :: l' => c = x /\ x <> NULL /\ exists n, nx x = Some n /\ is_list nx n l'
  end.

(** [chain R l]: [R] relates each node of [l] but the last to its successor in [l]. *)
Fixpoint chain (R : Z -> Z -> Prop) (l : list Z) : Prop :=
  match l with
  | [] => True
  | x :: l' => match l' with [] => True | y :: _ => R x y /\ chain R l' end
  end.

(** A field of the structure stored at [x] in the store [h]. *)
Definition fld {R A} (f : R -> A) (h : gmap Z R) (x : Z) : option A := f <$> h !! x.

(** [frame er X h h']: [h'] differs from [h] at most at the addresses [X], and there only in the
    fields that [er] erases. *)
Definition frame {R} (er : R -> R) (X : list Z) (h h' : gmap Z R) : Prop :=
  forall x, er <$> h' !! x = er <$> h !! x /\ (x ∉ X -> h' !! x = h !! x).

(** * Lemmas *)

(** ** Integers *)
Lemma u32_small z : in_u32 z -> u32 z = z.
Proof. apply Z.mod_small. Qed.

Lemma u32_range z : in_u32 (u32 z).
Proof. apply Z.mod_pos_bound. lia. Qed.

Lemma i32_small z : in_i32 z -> i32 z = z.
Proof. intros [? ?]. unfold i32. rewrite Z.mod_small; lia. Qed.

Lemma i32_range z : in_i32 (i32 z).
Proof. unfold i32, in_i32. pose proof (Z.mod_pos_bound (z + 2 ^ 31) (2 ^ 32)). lia. Qed.

Lemma u32_i32 z : u32 (i32 z) = u32 z.
Proof.
  unfold u32, i32. rewrite Zminus_mod_idemp_l. f_equal. lia.
Qed.

(** Counting up and down, inside the range. *)
Lemma iter_inc c n : - 2 ^ 31 <= n -> n + Z.of_nat c < 2 ^ 31 -> Nat.iter c (fun x => i32 (x + 1)) n = n + Z.of_nat c.
Proof.
  intros Hn. induction c as [|c IH]; intros Hc; [cbn; lia|]. rewrite Nat.iter_succ, IH by lia.
  rewrite i32_small; unfold in_i32; lia.
Qed.

Lemma iter_dec n z : in_i32 z -> in_i32 (z - Z.of_nat n) -> Nat.iter n (fun z => i32 (z - 1)) z = z - Z.of_nat n.
Proof.
  revert z. induction n as [|n IH]; intros z Hz Hn; [cbn; lia|]. rewrite Nat.iter_succ.
  unfold in_i32 in *. rewrite IH by (unfold in_i32; lia). rewrite i32_small by (unfold in_i32; lia). lia.
Qed.

(** ** The monad *)
Lemma bind_ret {S E A B} (m : M S E A) (k : A -> M S E B) s a s' :
  m s = Ret a s' -> bind m k s = k a s'.
Proof. unfold bind. by intros ->. Qed.

Lemma bind_stop {S E A B} (m : M S E A) (k : A -> M S E B) s e s' :
  m s = Stop e s' -> bind m k s = Stop e s'.
Proof. unfold bind. by intros ->. Qed.

Lemma bind_gets {S E A B} (f : S -> A) (k : A -> M S E B) s : bind (gets f) k s = k (f s) s.
Proof. done. Qed.

Lemma bind_modify {S E B} (f : S -> S) (k : unit -> M S E B) s : bind (modify f) k s = k tt (f s).
Proof. done. Qed.

Lemma bind_pure {S E A B} (a : A) (k : A -> M S E B) s : bind (ret a) k s = k a s.
Proof. done. Qed.

Lemma bind_assoc {S E A B C} (m : M S E A) (f : A -> M S E B) (g : B -> M S E C) s :
  bind (bind m f) g s = bind m (fun a => bind (f a) g) s.
Proof. unfold bind. by destruct (m s). Qed.

Lemma bind_ext {S E A B} (m : M S E A) (f g : A -> M S E B) s :
  (forall a s', f a s' = g a s') -> bind m f s = bind m g s.
Proof. intros H. unfold bind. destruct (m s); auto. Qed.

Lemma for_each_app {S E I} (l1 l2 : list I) (body : I -> M S E unit) s :
  for_each (l1 ++ l2) body s = bind (for_each l1 body) (fun _ => for_each l2 body) s.
Proof.
  revert s. induction l1 as [|i l1 IH]; intros s; [done|].
  cbn. rewrite bind_assoc. apply bind_ext. intros _. apply IH.
Qed.

Lemma for_each_fmap {S E I J} (f : I -> J) (l : list I) (body : J -> M S E unit) s :
  for_each (f <$> l) body s = for_each l (fun i => body (f i)) s.
Proof.
  revert s. induction l as [|i l IH]; intros s; [done|].
  cbn. apply bind_ext. intros _. apply IH.
Qed.

Lemma for_each_cons {S E I} i (l : list I) (body : I -> M S E unit) :
  for_each (i :: l) body = bind (body i) (fun _ => for_each l body).
Proof. done. Qed.

(** ** Fields and frames *)
Section fields.
Context {R : Type}.
Implicit Types (h : gmap Z R) (x y : Z).

Lemma fld_alter_eq {A} (f : R -> A) g h x v :
  (forall r, f (g r) = v) -> is_Some (h !! x) -> fld f (alter g x h) x = Some v.
Proof.
  intros Hf [r Hr]. unfold fld. rewrite lookup_alter_eq, Hr. cbn. by rewrite Hf.
Qed.

Lemma fld_alter_ne {A} (f : R -> A) g h x y :
  x <> y -> fld f (alter g x h) y = fld f h y.
Proof. intros. unfold fld. by rewrite lookup_alter_ne. Qed.

Lemma fld_alter_other {A} (f : R -> A) g h x y :
  (forall r, f (g r) = f r) -> fld f (alter g x h) y = fld f h y.
Proof.
  intros Hf. unfold fld. rewrite lookup_alter. case_decide; [|done].
  destruct (h !! x) eqn:E; subst; rewrite E; cbn; by rewrite ?Hf.
Qed.

Lemma fld_alter {A} (f : R -> A) g h x r :
  h !! x = Some r -> fld f (alter g x h) x = Some (f (g r)).
Proof. intros Hr. unfold fld. by rewrite lookup_alter_eq, Hr. Qed.

Lemma fld_is_Some {A} (f : R -> A) h x v : fld f h x = Some v -> is_Some (h !! x).
Proof. unfold fld. intros (r & -> & _)%fmap_Some. eauto. Qed.

Lemma frame_refl (er : R -> R) X h : frame er X h h.
Proof. by intros x. Qed.

Lemma frame_trans (er : R -> R) X h1 h2 h3 :
  frame er X h1 h2 -> frame er X h2 h3 -> frame er X h1 h3.
Proof.
  intros H12 H23 x. destruct (H12 x) as [E1 O1], (H23 x) as [E2 O2]. split; [congruence|].
  intros. by rewrite O2, O1.
Qed.

Lemma frame_alter (er : R -> R) X h g x :
  (forall r, er (g r) = er r) -> x ∈ X -> frame er X h (alter g x h).
Proof.
  intros Hg Hx y. rewrite lookup_alter. case_decide; [subst|done]. split; [|done].
  rewrite <- option_fmap_compose. destruct (h !! y); cbn; by rewrite ?Hg.
Qed.

Lemma frame_mono (er : R -> R) X Y h h' : X ⊆ Y -> frame er X h h' -> frame er Y h h'.
Proof. intros HXY H x. destruct (H x). split; set_solver. Qed.

Lemma frame_weaken (er er' : R -> R) X h h' :
  (forall r, er' (er r) = er' r) -> frame er X h h' -> frame er' X h h'.
Proof.
  intros Hw H x. destruct (H x) as [E O]. split; [|done].
  destruct (h !! x), (h' !! x); cbn in *; simplify_eq; [|done].
  f_equal. rewrite <- (Hw r), <- (Hw r0). congruence.
Qed.

Lemma frame_fld {A} (f : R -> A) (er : R -> R) X h h' x :
  (forall r, f (er r) = f r) -> frame er X h h' -> fld f h' x = fld f h x.
Proof.
  intros Hf H. unfold fld. destruct (H x) as [E _].
  destruct (h !! x), (h' !! x); cbn in *; simplify_eq; [|done].
  f_equal. rewrite <- (Hf r), <- (Hf r0). congruence.
Qed.

Lemma frame_fld_notin {A} (f : R -> A) (er : R -> R) X h h' x :
  x ∉ X -> frame er X h h' -> fld f h' x = fld f h x.
Proof. intros Hx H. unfold fld. destruct (H x) as [_ O]. by rewrite O. Qed.

Lemma frame_is_Some (er : R -> R) X h h' x :
  frame er X h h' -> is_Some (h' !! x) <-> is_Some (h !! x).
Proof.
  intros H. destruct (H x) as [E _].
  rewrite <- (fmap_is_Some er (h' !! x)), E. apply fmap_is_Some.
Qed.
End fields.

(** ** Lists reached by a link *)
Section is_list.
Implicit Types (nx : Z -> option Z) (c : Z) (l : list Z).

Lemma is_list_ext nx nx' c l :
  (forall x, x ∈ l -> nx' x = nx x) -> is_list nx c l -> is_list nx' c l.
Proof.
  revert c. induction l as [|x l IH]; intros c Hx; [done|].
  intros (-> & ? & n & Hn & Hl). split_and!; [done..|].
  exists n. split; [rewrite Hx; set_solver|]. apply IH; [set_solver|done].
Qed.

Lemma is_list_det nx c l1 l2 : is_list nx c l1 -> is_list nx c l2 -> l1 = l2.
Proof.
  revert c l2. induction l1 as [|x l1 IH]; intros c [|y l2]; cbn; [done|intros; destruct_and?; congruence..|].
  intros (-> & ? & n & ? & ?) (-> & ? & n' & ? & ?). simplify_eq. f_equal. eauto.
Qed.

Lemma is_list_not_NULL nx c l : is_list nx c l -> NULL ∉ l.
Proof.
  revert c. induction l as [|x l IH]; intros c; [set_solver|].
  intros (-> & ? & n & ? & ?%IH). rewrite not_elem_of_cons. done.
Qed.

(** The link of a node inside the list. *)
Lemma is_list_app nx c l1 x l2 :
  is_list nx c (l1 ++ x :: l2) ->
  exists n, nx x = Some n /\ is_list nx n l2 /\ x <> NULL.
Proof.
  revert c. induction l1 as [|y l1 IH]; intros c; [intros (-> & ? & n & ? & ?); eauto|].
  intros (? & ? & n & ? & H). eauto.
Qed.

Lemma is_list_suffix nx c l1 x l2 : is_list nx c (l1 ++ x :: l2) -> is_list nx x (x :: l2).
Proof. intros (n & ? & ? & ?)%is_list_app. cbn. eauto. Qed.

Lemma is_list_NoDup nx c l : is_list nx c l -> NoDup l.
Proof.
  revert c. induction l as [|x l IH]; intros c Hx; [constructor|].
  assert (c = x) as -> by apply Hx.
  pose proof Hx as (_ & _ & n & Hn & Hl). constructor; [|eauto].
  intros (l1 & l2 & ->)%list_elem_of_split.
  apply is_list_suffix in Hl. pose proof (is_list_det _ _ _ _ Hx Hl) as E.
  apply (f_equal length) in E. cbn in E. rewrite length_app in E. cbn in E. lia.
Qed.

(** Redirecting the node before [l2] to the list [c2]. *)
Lemma is_list_splice nx nx' c l1 x l2 n l3 :
  is_list nx c (l1 ++ x :: l2) ->
  (forall y, y ∈ l1 -> nx' y = nx y) -> nx' x = Some n -> is_list nx' n l3 ->
  is_list nx' c (l1 ++ x :: l3).
Proof.
  revert c. induction l1 as [|y l1 IH]; intros c.
  - intros (-> & ? & _) _ ? ?. cbn. eauto.
  - intros (-> & ? & m & ? & H) Hy ? ?. cbn. split_and!; [done..|].
    exists m. split; [rewrite Hy; set_solver|]. apply IH; set_solver.
Qed.
End is_list.

(** ** Chains *)
Section chains.
Implicit Types (P : Z -> Z -> Prop) (l : list Z).

Lemma chain_app P l1 l2 :
  chain P (l1 ++ l2) <->
  chain P l1 /\ chain P l2 /\
  (forall x y, last l1 = Some x -> head l2 = Some y -> P x y).
Proof.
  induction l1 as [|x l1 IH]; [naive_solver|].
  destruct l1 as [|y l1].
  - cbn. destruct l2; naive_solver.
  - change ((x :: y :: l1) ++ l2) with (x :: y :: (l1 ++ l2)).
    change (y :: l1 ++ l2) with ((y :: l1) ++ l2).
    cbn [chain]. change (last (x :: y :: l1)) with (last (y :: l1)).
    change ((y :: l1) ++ l2) with (y :: l1 ++ l2) in *. cbn [chain] in IH. naive_solver.
Qed.
End chains.

(** ** Filters *)
Lemma list_filter_all {A} (P : A -> Prop) `{!forall x, Decision (P x)} (l : list A) :
  (forall x, x ∈ l -> P x) -> filter P l = l.
Proof.
  induction l as [|x l IH]; intros Hl; [done|]. rewrite filter_cons_True by (apply Hl; set_solver).
  f_equal. apply IH. set_solver.
Qed.

Lemma filter_without (l1 : list Z) p (l2 : list Z) :
  NoDup (l1 ++ p :: l2) -> filter (fun x => x <> p) (l1 ++ p :: l2) = l1 ++ l2.
Proof.
  intros (_ & H1 & H2)%NoDup_app. apply NoDup_cons in H2 as [H2 _].
  rewrite filter_app, filter_cons_False by tauto. f_equal; apply list_filter_all; intros x Hx ->.
  - by eapply H1; [|left].
  - done.
Qed.

(** ** Arrays filled by a loop *)
Lemma foldl_vinsert_lookup {A n} (g : fin n -> A) (l : list (fin n)) (v : vec A n) i :
  foldl (fun v j => vinsert j (g j) v) v l !!! i = if decide (i ∈ l) then g i else v !!! i.
Proof.
  revert v. induction l as [|j l IH]; intros v; [done|]. cbn [foldl]. rewrite IH.
  destruct (decide (i ∈ l)); [by rewrite decide_True by set_solver|].
  destruct (decide (j = i)) as [->|].
  - by rewrite vlookup_insert, decide_True by set_solver.
  - by rewrite vlookup_insert_ne, decide_False by set_solver.
Qed.

Lemma foldl_vinsert {A n} (w v : vec A n) :
  foldl (fun v j => vinsert j (w !!! j) v) v (enum (fin n)) = w.
Proof.
  apply vec_eq. intros i. rewrite foldl_vinsert_lookup, decide_True; [done|apply elem_of_enum].
Qed.

(** ** Automation *)
#[global] Arguments alter : simpl never.
#[global] Arguments bind : simpl never.


(** Reads of a field through a sequence of updates. *)
Ltac fld_simp :=
  simpl;
  repeat first
    [ rewrite fld_alter_other by (intros; reflexivity)
    | rewrite fld_alter_ne by (solve [assumption | symmetry; assumption | congruence])
    | erewrite fld_alter_eq; [|intros; simpl; reflexivity|] ].

Ltac solve_frame :=
  first
    [ apply frame_refl
    | eapply frame_trans;
      [|apply frame_alter; [intros; reflexivity|set_solver]]; solve_frame ].

Create HintDb kernel.
