(* ===== verification/Types.v ===== *)
(** * Data of the nucleus: h/const.h and h/types.h

    The constants of const.h and the structures of types.h, with a setter per field.  A structure
    is a record with the C fields; a fixed-size array is a vector of that size.  The last record,
    [kstate], is the whole state the nucleus works on: the globals of pcb.c, asl.c, initial.c,
    exceptions.c and interrupts.c, memory as one store per type of object, and the hardware
    registers it reads and writes. *)
From S2P Require Export Prelude.

(** ** const.h *)
Definition WORDLEN : Z := 4.
Definition TRUE : Z := 1.
Definition FALSE : Z := 0.
Definition PSECOND : Z := 100000.
Definition DISKINT : Z := 3.
Definition FLASHINT : Z := 4.
Definition NETWINT : Z := 5.
Definition PRNTINT : Z := 6.
Definition TERMINT : Z := 7.
Definition READY : Z := 1.
Definition BUSY : Z := 3.
Definition RESET : Z := 0.
Definition ACK : Z := 1.
Definition RAMSTART : Z := 0x20000000.
Definition BIOSDATAPAGE : Z := 0x0FFFF000.
Definition PASSUPVECTOR : Z := 0x0FFFF900.
Definition KERNELSTACK : Z := 0x20001000.
Definition PGFAULTEXCEPT : Z := 0.
Definition GENERALEXCEPT : Z := 1.
Definition ALLOFF : Z := 0x0.
Definition USERPON : Z := 0x00000008.
Definition IEPON : Z := 0x00000004.
Definition IECON : Z := 0x00000001.
Definition PLTON : Z := 0x08000000.
Definition IMON : Z := 0x0000FF00.
Definition IECOFF : Z := 0xFFFFFFFE.
Definition INTERRUPTS_BIT_CONST_DEVICE_0 : Z := 0x00000001.
Definition INTERRUPTS_BIT_CONST_DEVICE_1 : Z := 0x00000002.
Definition INTERRUPTS_BIT_CONST_DEVICE_2 : Z := 0x00000004.
Definition INTERRUPTS_BIT_CONST_DEVICE_3 : Z := 0x00000008.
Definition INTERRUPTS_BIT_CONST_DEVICE_4 : Z := 0x00000010.
Definition INTERRUPTS_BIT_CONST_DEVICE_5 : Z := 0x00000020.
Definition INTERRUPTS_BIT_CONST_DEVICE_6 : Z := 0x00000040.
Definition INTERRUPTS_BIT_CONST_DEVICE_7 : Z := 0x00000080.
Definition DEVICE_0 : Z := 0.
Definition DEVICE_1 : Z := 1.
Definition DEVICE_2 : Z := 2.
Definition DEVICE_3 : Z := 3.
Definition DEVICE_4 : Z := 4.
Definition DEVICE_5 : Z := 5.
Definition DEVICE_6 : Z := 6.
Definition DEVICE_7 : Z := 7.
Definition LINE1 : Z := 1.
Definition LINE2 : Z := 2.
Definition LINE3 : Z := 3.
Definition LINE4 : Z := 4.
Definition LINE5 : Z := 5.
Definition LINE6 : Z := 6.
Definition LINE7 : Z := 7.
Definition SYS1_NUM : Z := 1.
Definition SYS2_NUM : Z := 2.
Definition SYS3_NUM : Z := 3.
Definition SYS4_NUM : Z := 4.
Definition SYS5_NUM : Z := 5.
Definition SYS6_NUM : Z := 6.
Definition SYS7_NUM : Z := 7.
Definition SYS8_NUM : Z := 8.
Definition CAUSE_INT_MASK : Z := 0x1F.
Definition A8_BITS_ON : Z := 0xFF.
Definition EXC_RESERVED_INSTRUCTION : Z := 10.
Definition EXC_CODE_SHIFT : Z := 2.
Definition EXC_CODE_MASK : Z := 0x0000007C.
Definition IP_LINE1_TIMER_BIT : Z := 0x00000200.
Definition IP_LINE2_TIMER_BIT : Z := 0x00000400.
Definition PLT_TIME_SLICE : Z := 5000.
Definition INTERVAL_TIMER : Z := 100000.
Definition INF_TIME : Z := 0xFFFFFFFF.
Definition MAX_DEVICE_COUNT : Z := 49.
Definition CLOCK_INDEX : Z := MAX_DEVICE_COUNT - 1.
Definition BASE_LINE : Z := 3.
Definition PROCESS_INIT_START : Z := 0.
Definition MAXPROC : Z := 20.
Definition MAXINT : Z := 0x0FFFFFFF.
Definition SUCCESS_CONST : Z := 0.
Definition ERROR_CONST : Z := -1.

(** Sizes of arrays are [nat]s. *)
Definition STATEREGNUM : nat := 31.
Definition DEVINTNUM : nat := 5.
Definition DEVPERINT : nat := 8.

(** ** types.h *)
(** A processor state: the [int s_reg[STATEREGNUM]] registers are signed. *)
Record state_t : Type := MkState {
  s_entryHI : Z;
  s_cause : Z;
  s_status : Z;
  s_pc : Z;
  s_reg : vec Z STATEREGNUM
}.
#[export] Instance state_t_eq_dec : EqDecision state_t.
Proof. solve_decision. Defined.

(** [s_reg[i]], and the registers the nucleus names. *)
Definition reg_ix (i : nat) : fin STATEREGNUM :=
  match Fin.of_nat i STATEREGNUM with inleft f => f | inright _ => Fin.F1 end.
(** The values of a loop counter over the registers. *)
Definition regs : list (fin STATEREGNUM) := enum (fin STATEREGNUM).

Definition s_v0 : fin STATEREGNUM := reg_ix 1.
Definition s_a0 : fin STATEREGNUM := reg_ix 3.
Definition s_a1 : fin STATEREGNUM := reg_ix 4.
Definition s_a2 : fin STATEREGNUM := reg_ix 5.
Definition s_a3 : fin STATEREGNUM := reg_ix 6.
Definition s_t9 : fin STATEREGNUM := reg_ix 24.
Definition s_sp : fin STATEREGNUM := reg_ix 26.

Definition set_s_entryHI (v : Z) (r : state_t) : state_t :=
  MkState v (s_cause r) (s_status r) (s_pc r) (s_reg r).
Definition set_s_cause (v : Z) (r : state_t) : state_t :=
  MkState (s_entryHI r) v (s_status r) (s_pc r) (s_reg r).
Definition set_s_status (v : Z) (r : state_t) : state_t :=
  MkState (s_entryHI r) (s_cause r) v (s_pc r) (s_reg r).
Definition set_s_pc (v : Z) (r : state_t) : state_t :=
  MkState (s_entryHI r) (s_cause r) (s_status r) v (s_reg r).
Definition set_s_reg (v : vec Z STATEREGNUM) (r : state_t) : state_t :=
  MkState (s_entryHI r) (s_cause r) (s_status r) (s_pc r) v.
Definition set_reg (i : fin STATEREGNUM) (v : Z) (r : state_t) : state_t :=
  set_s_reg (vinsert i v (s_reg r)) r.

Record context_t : Type := MkContext {
  c_stackPtr : Z;
  c_status : Z;
  c_pc : Z
}.
#[export] Instance context_t_eq_dec : EqDecision context_t.
Proof. solve_decision. Defined.

Record support_t : Type := MkSupport {
  sup_asid : Z;
  sup_exceptState : vec state_t 2;
  sup_exceptContext : vec context_t 2
}.
#[export] Instance support_t_eq_dec : EqDecision support_t.
Proof. solve_decision. Defined.

Definition set_sup_exceptState (v : vec state_t 2) (r : support_t) : support_t :=
  MkSupport (sup_asid r) v (sup_exceptContext r).

(** The process control block.  Pointers are addresses. *)
Record pcb_t : Type := MkPcb {
  p_next : Z;
  p_prev : Z;
  p_prnt : Z;
  p_child : Z;
  p_lSib : Z;
  p_rSib : Z;
  p_s : state_t;
  p_time : Z;
  p_semAdd : Z;
  p_supportStruct : Z
}.
#[export] Instance pcb_t_eq_dec : EqDecision pcb_t.
Proof. solve_decision. Defined.

Definition set_p_next (v : Z) (r : pcb_t) : pcb_t :=
  MkPcb v (p_prev r) (p_prnt r) (p_child r) (p_lSib r) (p_rSib r) (p_s r) (p_time r) (p_semAdd
    r) (p_supportStruct r).
Definition set_p_prev (v : Z) (r : pcb_t) : pcb_t :=
  MkPcb (p_next r) v (p_prnt r) (p_child r) (p_lSib r) (p_rSib r) (p_s r) (p_time r) (p_semAdd
    r) (p_supportStruct r).
Definition set_p_prnt (v : Z) (r : pcb_t) : pcb_t :=
  MkPcb (p_next r) (p_prev r) v (p_child r) (p_lSib r) (p_rSib r) (p_s r) (p_time r) (p_semAdd
    r) (p_supportStruct r).
Definition set_p_child (v : Z) (r : pcb_t) : pcb_t :=
  MkPcb (p_next r) (p_prev r) (p_prnt r) v (p_lSib r) (p_rSib r) (p_s r) (p_time r) (p_semAdd r)
    (p_supportStruct r).
Definition set_p_lSib (v : Z) (r : pcb_t) : pcb_t :=
  MkPcb (p_next r) (p_prev r) (p_prnt r) (p_child r) v (p_rSib r) (p_s r) (p_time r) (p_semAdd
    r) (p_supportStruct r).
Definition set_p_rSib (v : Z) (r : pcb_t) : pcb_t :=
  MkPcb (p_next r) (p_prev r) (p_prnt r) (p_child r) (p_lSib r) v (p_s r) (p_time r) (p_semAdd
    r) (p_supportStruct r).
Definition set_p_s (v : state_t) (r : pcb_t) : pcb_t :=
  MkPcb (p_next r) (p_prev r) (p_prnt r) (p_child r) (p_lSib r) (p_rSib r) v (p_time r)
    (p_semAdd r) (p_supportStruct r).
Definition set_p_time (v : Z) (r : pcb_t) : pcb_t :=
  MkPcb (p_next r) (p_prev r) (p_prnt r) (p_child r) (p_lSib r) (p_rSib r) (p_s r) v (p_semAdd
    r) (p_supportStruct r).
Definition set_p_semAdd (v : Z) (r : pcb_t) : pcb_t :=
  MkPcb (p_next r) (p_prev r) (p_prnt r) (p_child r) (p_lSib r) (p_rSib r) (p_s r) (p_time r) v
    (p_supportStruct r).
Definition set_p_supportStruct (v : Z) (r : pcb_t) : pcb_t :=
  MkPcb (p_next r) (p_prev r) (p_prnt r) (p_child r) (p_lSib r) (p_rSib r) (p_s r) (p_time r)
    (p_semAdd r) v.

(** The semaphore descriptor; [s_procQ] is the tail of a process queue. *)
Record semd_t : Type := MkSemd {
  s_next : Z;
  s_semAdd : Z;
  s_procQ : Z
}.
#[export] Instance semd_t_eq_dec : EqDecision semd_t.
Proof. solve_decision. Defined.

Definition set_s_next (v : Z) (r : semd_t) : semd_t :=
  MkSemd v (s_semAdd r) (s_procQ r).
Definition set_s_semAdd (v : Z) (r : semd_t) : semd_t :=
  MkSemd (s_next r) v (s_procQ r).
Definition set_s_procQ (v : Z) (r : semd_t) : semd_t :=
  MkSemd (s_next r) (s_semAdd r) v.

(** A device register; for a terminal, [d_status]/[d_command] are the receiver and
    [d_data0]/[d_data1] the transmitter. *)
Record device_t : Type := MkDevice {
  d_status : Z;
  d_command : Z;
  d_data0 : Z;
  d_data1 : Z
}.
#[export] Instance device_t_eq_dec : EqDecision device_t.
Proof. solve_decision. Defined.

Definition t_recv_status : device_t -> Z := d_status.
Definition t_transm_status : device_t -> Z := d_data0.

Definition set_d_command (v : Z) (r : device_t) : device_t :=
  MkDevice (d_status r) v (d_data0 r) (d_data1 r).
Definition set_d_data1 (v : Z) (r : device_t) : device_t :=
  MkDevice (d_status r) (d_command r) (d_data0 r) v.
Definition set_t_recv_command : Z -> device_t -> device_t := set_d_command.
Definition set_t_transm_command : Z -> device_t -> device_t := set_d_data1.

(** The bus register area at RAMBASEADDR. *)
Record devregarea_t : Type := MkDevregarea {
  rambase : Z;
  ramsize : Z;
  execbase : Z;
  execsize : Z;
  bootbase : Z;
  bootsize : Z;
  todhi : Z;
  todlo : Z;
  intervaltimer : Z;
  timescale : Z;
  TLB_Floor_Addr : Z;
  inst_dev : vec Z DEVINTNUM;
  interrupt_dev : vec Z DEVINTNUM;
  devreg : vec device_t (DEVINTNUM * DEVPERINT)
}.
#[export] Instance devregarea_t_eq_dec : EqDecision devregarea_t.
Proof. solve_decision. Defined.

Definition set_todlo (v : Z) (r : devregarea_t) : devregarea_t :=
  MkDevregarea (rambase r) (ramsize r) (execbase r) (execsize r) (bootbase r) (bootsize r)
    (todhi r) v (intervaltimer r) (timescale r) (TLB_Floor_Addr r) (inst_dev r) (interrupt_dev
    r) (devreg r).
Definition set_intervaltimer (v : Z) (r : devregarea_t) : devregarea_t :=
  MkDevregarea (rambase r) (ramsize r) (execbase r) (execsize r) (bootbase r) (bootsize r)
    (todhi r) (todlo r) v (timescale r) (TLB_Floor_Addr r) (inst_dev r) (interrupt_dev r)
    (devreg r).
Definition set_interrupt_dev (v : vec Z DEVINTNUM) (r : devregarea_t) : devregarea_t :=
  MkDevregarea (rambase r) (ramsize r) (execbase r) (execsize r) (bootbase r) (bootsize r)
    (todhi r) (todlo r) (intervaltimer r) (timescale r) (TLB_Floor_Addr r) (inst_dev r) v
    (devreg r).
Definition set_devreg (v : vec device_t (DEVINTNUM * DEVPERINT)) (r : devregarea_t) : devregarea_t :=
  MkDevregarea (rambase r) (ramsize r) (execbase r) (execsize r) (bootbase r) (bootsize r)
    (todhi r) (todlo r) (intervaltimer r) (timescale r) (TLB_Floor_Addr r) (inst_dev r)
    (interrupt_dev r) v.

Record passupvector_t : Type := MkPassup {
  tlb_refll_handler : Z;
  tlb_refll_stackPtr : Z;
  exception_handler : Z;
  exception_stackPtr : Z
}.
#[export] Instance passupvector_t_eq_dec : EqDecision passupvector_t.
Proof. solve_decision. Defined.

Definition set_tlb_refll_handler (v : Z) (r : passupvector_t) : passupvector_t :=
  MkPassup v (tlb_refll_stackPtr r) (exception_handler r) (exception_stackPtr r).
Definition set_tlb_refll_stackPtr (v : Z) (r : passupvector_t) : passupvector_t :=
  MkPassup (tlb_refll_handler r) v (exception_handler r) (exception_stackPtr r).
Definition set_exception_handler (v : Z) (r : passupvector_t) : passupvector_t :=
  MkPassup (tlb_refll_handler r) (tlb_refll_stackPtr r) v (exception_stackPtr r).
Definition set_exception_stackPtr (v : Z) (r : passupvector_t) : passupvector_t :=
  MkPassup (tlb_refll_handler r) (tlb_refll_stackPtr r) (exception_handler r) v.

(** [sizeof] of the two table entries: six link words, 35 words of processor state and three
    more words; three words. *)
Definition sizeof_pcb_t : Z := 6 * WORDLEN + (4 + 31) * WORDLEN + 3 * WORDLEN.
Definition sizeof_semd_t : Z := 3 * WORDLEN.

(** ** The state of the nucleus

    - [pcbs], [semds]: the pcb_t and semd_t objects by address; [pcbFree_h], [semd_h] and
      [semdFree_h] the static list heads of pcb.c and asl.c;
    - [processCount] ... [savedExceptionState]: the globals of initial.c, then [sysCallNum]
      (exceptions.c) and [current_process_time_left] (interrupts.c);
    - [ints], [states], [supports], [pvars]: the other [int], [state_t], [support_t] and [pcb_PTR]
      objects in memory, by address; the array [semaphoreDevices] lies in [ints] and the BIOS
      data page in [states];
    - [bus], [passup], [cp0_status], [cp0_timer]: the bus registers, the pass-up vector and the
      two coprocessor registers the nucleus writes;
    - [tod_reads], [plt_reads]: how many times the two clocks have been read. *)
Record kstate : Type := MkK {
  pcbs : gmap Z pcb_t;
  pcbFree_h : Z;
  semds : gmap Z semd_t;
  semd_h : Z;
  semdFree_h : Z;
  processCount : Z;
  softBlockedCount : Z;
  readyQueue : Z;
  currentProcess : Z;
  start_TOD : Z;
  curr_TOD : Z;
  interrupt_TOD : Z;
  savedExceptionState : Z;
  sysCallNum : Z;
  current_process_time_left : Z;
  ints : gmap Z Z;
  states : gmap Z state_t;
  supports : gmap Z support_t;
  pvars : gmap Z Z;
  bus : devregarea_t;
  passup : passupvector_t;
  cp0_status : Z;
  cp0_timer : Z;
  tod_reads : nat;
  plt_reads : nat
}.

Definition set_pcbs (v : gmap Z pcb_t) (s : kstate) : kstate :=
  MkK v (pcbFree_h s) (semds s) (semd_h s) (semdFree_h s) (processCount s) (softBlockedCount s)
    (readyQueue s) (currentProcess s) (start_TOD s) (curr_TOD s) (interrupt_TOD s)
    (savedExceptionState s) (sysCallNum s) (current_process_time_left s) (ints s) (states s)
    (supports s) (pvars s) (bus s) (passup s) (cp0_status s) (cp0_timer s) (tod_reads s)
    (plt_reads s).
Definition set_pcbFree_h (v : Z) (s : kstate) : kstate :=
  MkK (pcbs s) v (semds s) (semd_h s) (semdFree_h s) (processCount s) (softBlockedCount s)
    (readyQueue s) (currentProcess s) (start_TOD s) (curr_TOD s) (interrupt_TOD s)
    (savedExceptionState s) (sysCallNum s) (current_process_time_left s) (ints s) (states s)
    (supports s) (pvars s) (bus s) (passup s) (cp0_status s) (cp0_timer s) (tod_reads s)
    (plt_reads s).
Definition set_semds (v : gmap Z semd_t) (s : kstate) : kstate :=
  MkK (pcbs s) (pcbFree_h s) v (semd_h s) (semdFree_h s) (processCount s) (softBlockedCount s)
    (readyQueue s) (currentProcess s) (start_TOD s) (curr_TOD s) (interrupt_TOD s)
    (savedExceptionState s) (sysCallNum s) (current_process_time_left s) (ints s) (states s)
    (supports s) (pvars s) (bus s) (passup s) (cp0_status s) (cp0_timer s) (tod_reads s)
    (plt_reads s).
Definition set_semd_h (v : Z) (s : kstate) : kstate :=
  MkK (pcbs s) (pcbFree_h s) (semds s) v (semdFree_h s) (processCount s) (softBlockedCount s)
    (readyQueue s) (currentProcess s) (start_TOD s) (curr_TOD s) (interrupt_TOD s)
    (savedExceptionState s) (sysCallNum s) (current_process_time_left s) (ints s) (states s)
    (supports s) (pvars s) (bus s) (passup s) (cp0_status s) (cp0_timer s) (tod_reads s)
    (plt_reads s).
Definition set_semdFree_h (v : Z) (s : kstate) : kstate :=
  MkK (pcbs s) (pcbFree_h s) (semds s) (semd_h s) v (processCount s) (softBlockedCount s)
    (readyQueue s) (currentProcess s) (start_TOD s) (curr_TOD s) (interrupt_TOD s)
    (savedExceptionState s) (sysCallNum s) (current_process_time_left s) (ints s) (states s)
    (supports s) (pvars s) (bus s) (passup s) (cp0_status s) (cp0_timer s) (tod_reads s)
    (plt_reads s).
Definition set_processCount (v : Z) (s : kstate) : kstate :=
  MkK (pcbs s) (pcbFree_h s) (semds s) (semd_h s) (semdFree_h s) v (softBlockedCount s)
    (readyQueue s) (currentProcess s) (start_TOD s) (curr_TOD s) (interrupt_TOD s)
    (savedExceptionState s) (sysCallNum s) (current_process_time_left s) (ints s) (states s)
    (supports s) (pvars s) (bus s) (passup s) (cp0_status s) (cp0_timer s) (tod_reads s)
    (plt_reads s).
Definition set_softBlockedCount (v : Z) (s : kstate) : kstate :=
  MkK (pcbs s) (pcbFree_h s) (semds s) (semd_h s) (semdFree_h s) (processCount s) v (readyQueue
    s) (currentProcess s) (start_TOD s) (curr_TOD s) (interrupt_TOD s) (savedExceptionState s)
    (sysCallNum s) (current_process_time_left s) (ints s) (states s) (supports s) (pvars s) (bus
    s) (passup s) (cp0_status s) (cp0_timer s) (tod_reads s) (plt_reads s).
Definition set_readyQueue (v : Z) (s : kstate) : kstate :=
  MkK (pcbs s) (pcbFree_h s) (semds s) (semd_h s) (semdFree_h s) (processCount s)
    (softBlockedCount s) v (currentProcess s) (start_TOD s) (curr_TOD s) (interrupt_TOD s)
    (savedExceptionState s) (sysCallNum s) (current_process_time_left s) (ints s) (states s)
    (supports s) (pvars s) (bus s) (passup s) (cp0_status s) (cp0_timer s) (tod_reads s)
    (plt_reads s).
Definition set_currentProcess (v : Z) (s : kstate) : kstate :=
  MkK (pcbs s) (pcbFree_h s) (semds s) (semd_h s) (semdFree_h s) (processCount s)
    (softBlockedCount s) (readyQueue s) v (start_TOD s) (curr_TOD s) (interrupt_TOD s)
    (savedExceptionState s) (sysCallNum s) (current_process_time_left s) (ints s) (states s)
    (supports s) (pvars s) (bus s) (passup s) (cp0_status s) (cp0_timer s) (tod_reads s)
    (plt_reads s).
Definition set_start_TOD (v : Z) (s : kstate) : kstate :=
  MkK (pcbs s) (pcbFree_h s) (semds s) (semd_h s) (semdFree_h s) (processCount s)
    (softBlockedCount s) (readyQueue s) (currentProcess s) v (curr_TOD s) (interrupt_TOD s)
    (savedExceptionState s) (sysCallNum s) (current_process_time_left s) (ints s) (states s)
    (supports s) (pvars s) (bus s) (passup s) (cp0_status s) (cp0_timer s) (tod_reads s)
    (plt_reads s).
Definition set_curr_TOD (v : Z) (s : kstate) : kstate :=
  MkK (pcbs s) (pcbFree_h s) (semds s) (semd_h s) (semdFree_h s) (processCount s)
    (softBlockedCount s) (readyQueue s) (currentProcess s) (start_TOD s) v (interrupt_TOD s)
    (savedExceptionState s) (sysCallNum s) (current_process_time_left s) (ints s) (states s)
    (supports s) (pvars s) (bus s) (passup s) (cp0_status s) (cp0_timer s) (tod_reads s)
    (plt_reads s).
Definition set_interrupt_TOD (v : Z) (s : kstate) : kstate :=
  MkK (pcbs s) (pcbFree_h s) (semds s) (semd_h s) (semdFree_h s) (processCount s)
    (softBlockedCount s) (readyQueue s) (currentProcess s) (start_TOD s) (curr_TOD s) v
    (savedExceptionState s) (sysCallNum s) (current_process_time_left s) (ints s) (states s)
    (supports s) (pvars s) (bus s) (passup s) (cp0_status s) (cp0_timer s) (tod_reads s)
    (plt_reads s).
Definition set_savedExceptionState (v : Z) (s : kstate) : kstate :=
  MkK (pcbs s) (pcbFree_h s) (semds s) (semd_h s) (semdFree_h s) (processCount s)
    (softBlockedCount s) (readyQueue s) (currentProcess s) (start_TOD s) (curr_TOD s)
    (interrupt_TOD s) v (sysCallNum s) (current_process_time_left s) (ints s) (states s)
    (supports s) (pvars s) (bus s) (passup s) (cp0_status s) (cp0_timer s) (tod_reads s)
    (plt_reads s).
Definition set_sysCallNum (v : Z) (s : kstate) : kstate :=
  MkK (pcbs s) (pcbFree_h s) (semds s) (semd_h s) (semdFree_h s) (processCount s)
    (softBlockedCount s) (readyQueue s) (currentProcess s) (start_TOD s) (curr_TOD s)
    (interrupt_TOD s) (savedExceptionState s) v (current_process_time_left s) (ints s) (states
    s) (supports s) (pvars s) (bus s) (passup s) (cp0_status s) (cp0_timer s) (tod_reads s)
    (plt_reads s).
Definition set_current_process_time_left (v : Z) (s : kstate) : kstate :=
  MkK (pcbs s) (pcbFree_h s) (semds s) (semd_h s) (semdFree_h s) (processCount s)
    (softBlockedCount s) (readyQueue s) (currentProcess s) (start_TOD s) (curr_TOD s)
    (interrupt_TOD s) (savedExceptionState s) (sysCallNum s) v (ints s) (states s) (supports s)
    (pvars s) (bus s) (passup s) (cp0_status s) (cp0_timer s) (tod_reads s) (plt_reads s).
Definition set_ints (v : gmap Z Z) (s : kstate) : kstate :=
  MkK (pcbs s) (pcbFree_h s) (semds s) (semd_h s) (semdFree_h s) (processCount s)
    (softBlockedCount s) (readyQueue s) (currentProcess s) (start_TOD s) (curr_TOD s)
    (interrupt_TOD s) (savedExceptionState s) (sysCallNum s) (current_process_time_left s) v
    (states s) (supports s) (pvars s) (bus s) (passup s) (cp0_status s) (cp0_timer s) (tod_reads
    s) (plt_reads s).
Definition set_states (v : gmap Z state_t) (s : kstate) : kstate :=
  MkK (pcbs s) (pcbFree_h s) (semds s) (semd_h s) (semdFree_h s) (processCount s)
    (softBlockedCount s) (readyQueue s) (currentProcess s) (start_TOD s) (curr_TOD s)
    (interrupt_TOD s) (savedExceptionState s) (sysCallNum s) (current_process_time_left s) (ints
    s) v (supports s) (pvars s) (bus s) (passup s) (cp0_status s) (cp0_timer s) (tod_reads s)
    (plt_reads s).
Definition set_supports (v : gmap Z support_t) (s : kstate) : kstate :=
  MkK (pcbs s) (pcbFree_h s) (semds s) (semd_h s) (semdFree_h s) (processCount s)
    (softBlockedCount s) (readyQueue s) (currentProcess s) (start_TOD s) (curr_TOD s)
    (interrupt_TOD s) (savedExceptionState s) (sysCallNum s) (current_process_time_left s) (ints
    s) (states s) v (pvars s) (bus s) (passup s) (cp0_status s) (cp0_timer s) (tod_reads s)
    (plt_reads s).
Definition set_pvars (v : gmap Z Z) (s : kstate) : kstate :=
  MkK (pcbs s) (pcbFree_h s) (semds s) (semd_h s) (semdFree_h s) (processCount s)
    (softBlockedCount s) (readyQueue s) (currentProcess s) (start_TOD s) (curr_TOD s)
    (interrupt_TOD s) (savedExceptionState s) (sysCallNum s) (current_process_time_left s) (ints
    s) (states s) (supports s) v (bus s) (passup s) (cp0_status s) (cp0_timer s) (tod_reads s)
    (plt_reads s).
Definition set_bus (v : devregarea_t) (s : kstate) : kstate :=
  MkK (pcbs s) (pcbFree_h s) (semds s) (semd_h s) (semdFree_h s) (processCount s)
    (softBlockedCount s) (readyQueue s) (currentProcess s) (start_TOD s) (curr_TOD s)
    (interrupt_TOD s) (savedExceptionState s) (sysCallNum s) (current_process_time_left s) (ints
    s) (states s) (supports s) (pvars s) v (passup s) (cp0_status s) (cp0_timer s) (tod_reads s)
    (plt_reads s).
Definition set_passup (v : passupvector_t) (s : kstate) : kstate :=
  MkK (pcbs s) (pcbFree_h s) (semds s) (semd_h s) (semdFree_h s) (processCount s)
    (softBlockedCount s) (readyQueue s) (currentProcess s) (start_TOD s) (curr_TOD s)
    (interrupt_TOD s) (savedExceptionState s) (sysCallNum s) (current_process_time_left s) (ints
    s) (states s) (supports s) (pvars s) (bus s) v (cp0_status s) (cp0_timer s) (tod_reads s)
    (plt_reads s).
Definition set_cp0_status (v : Z) (s : kstate) : kstate :=
  MkK (pcbs s) (pcbFree_h s) (semds s) (semd_h s) (semdFree_h s) (processCount s)
    (softBlockedCount s) (readyQueue s) (currentProcess s) (start_TOD s) (curr_TOD s)
    (interrupt_TOD s) (savedExceptionState s) (sysCallNum s) (current_process_time_left s) (ints
    s) (states s) (supports s) (pvars s) (bus s) (passup s) v (cp0_timer s) (tod_reads s)
    (plt_reads s).
Definition set_cp0_timer (v : Z) (s : kstate) : kstate :=
  MkK (pcbs s) (pcbFree_h s) (semds s) (semd_h s) (semdFree_h s) (processCount s)
    (softBlockedCount s) (readyQueue s) (currentProcess s) (start_TOD s) (curr_TOD s)
    (interrupt_TOD s) (savedExceptionState s) (sysCallNum s) (current_process_time_left s) (ints
    s) (states s) (supports s) (pvars s) (bus s) (passup s) (cp0_status s) v (tod_reads s)
    (plt_reads s).
Definition set_tod_reads (v : nat) (s : kstate) : kstate :=
  MkK (pcbs s) (pcbFree_h s) (semds s) (semd_h s) (semdFree_h s) (processCount s)
    (softBlockedCount s) (readyQueue s) (currentProcess s) (start_TOD s) (curr_TOD s)
    (interrupt_TOD s) (savedExceptionState s) (sysCallNum s) (current_process_time_left s) (ints
    s) (states s) (supports s) (pvars s) (bus s) (passup s) (cp0_status s) (cp0_timer s) v
    (plt_reads s).
Definition set_plt_reads (v : nat) (s : kstate) : kstate :=
  MkK (pcbs s) (pcbFree_h s) (semds s) (semd_h s) (semdFree_h s) (processCount s)
    (softBlockedCount s) (readyQueue s) (currentProcess s) (start_TOD s) (curr_TOD s)
    (interrupt_TOD s) (savedExceptionState s) (sysCallNum s) (current_process_time_left s) (ints
    s) (states s) (supports s) (pvars s) (bus s) (passup s) (cp0_status s) (cp0_timer s)
    (tod_reads s) v.

#[global] Arguments reg_ix : simpl never.
#[global] Arguments s_v0 : simpl never.
#[global] Arguments s_a0 : simpl never.
#[global] Arguments s_a1 : simpl never.
#[global] Arguments s_a2 : simpl never.
#[global] Arguments s_a3 : simpl never.
#[global] Arguments s_t9 : simpl never.
#[global] Arguments s_sp : simpl never.
#[global] Arguments BIOSDATAPAGE : simpl never.
