(* ===== verification/Machine.v ===== *)
(** * The machine interface

    How nucleus code reads and writes memory, registers and clocks: the monad [K] with one
    access operation per kind of object, the macros of const.h, and the instructions wrapped by
    libumps (an external library), which appear as what they do to the machine registers or, for
    those that do not come back, as the [Stop] outcome of the code that executed them. *)
From S2P Require Export Types.

(** What the linker and the hardware decide: the addresses of the static tables and of the
    functions whose address the nucleus stores, and the readings of the two clocks (the raw TODLO
    register at the n-th time-of-day read, the processor timer at the n-th [getTIMER]). *)
Class Machine : Type := {
  pcbFreeTable : Z;
  semdTable : Z;
  semaphoreDevices : Z;
  test_addr : Z;
  uTLB_RefillHandler_addr : Z;
  exceptionHandler_addr : Z;
  todlo_at : nat -> Z;
  plt_at : nat -> Z
}.

(** The documented memory layout: RAM starts at RAMSTART and ends below the top address, so the
    three static arrays lie between RAMSTART and [NULL]. *)
Class MachineOk (m : Machine) : Prop := {
  pcbFreeTable_ram :
    RAMSTART <= pcbFreeTable /\ pcbFreeTable + MAXPROC * sizeof_pcb_t <= NULL;
  semdTable_ram :
    RAMSTART <= semdTable /\ semdTable + (MAXPROC + 2) * sizeof_semd_t <= NULL;
  semaphoreDevices_ram :
    RAMSTART <= semaphoreDevices /\ semaphoreDevices + MAX_DEVICE_COUNT * WORDLEN <= NULL
}.

(** How nucleus code gives up the processor: a processor state is loaded (LDST), a context is
    loaded (LDCXT), or the machine halts, panics or waits for an interrupt. *)
Inductive exit_event : Type :=
| Ldst (st : state_t)
| Ldcxt (stackPtr status pc : Z)
| Halt
| Panic
| Wait.

Abbreviation K := (M kstate exit_event).

(** ** Objects in memory *)

(** [p->f] *)
Definition get_pcb {A} (p : Z) (f : pcb_t -> A) : K A :=
  fun s => match pcbs s !! p with
           | Some x => Ret (f x) s
           | None => Fault (BadPointer p)
           end.

(** [p->f = v], the update given as a function on the structure *)
Definition upd_pcb (p : Z) (f : pcb_t -> pcb_t) : K unit :=
  fun s => match pcbs s !! p with
           | Some _ => Ret tt (set_pcbs (alter f p (pcbs s)) s)
           | None => Fault (BadPointer p)
           end.

Definition get_semd {A} (a : Z) (f : semd_t -> A) : K A :=
  fun s => match semds s !! a with
           | Some x => Ret (f x) s
           | None => Fault (BadPointer a)
           end.

Definition upd_semd (a : Z) (f : semd_t -> semd_t) : K unit :=
  fun s => match semds s !! a with
           | Some _ => Ret tt (set_semds (alter f a (semds s)) s)
           | None => Fault (BadPointer a)
           end.

(** [*a] and [*a = v] for an [int *a] *)
Definition load_int (a : Z) : K Z :=
  fun s => match ints s !! a with
           | Some v => Ret v s
           | None => Fault (BadPointer a)
           end.

Definition store_int (a : Z) (v : Z) : K unit :=
  fun s => match ints s !! a with
           | Some _ => Ret tt (set_ints (<[a := v]> (ints s)) s)
           | None => Fault (BadPointer a)
           end.

(** The lvalues a [pcb_PTR *tp] points to: nothing (a null [tp]), the global [readyQueue], the
    [s_procQ] field of a semaphore descriptor, or another [pcb_PTR] variable in memory. *)
Inductive pcb_PTR_PTR : Type :=
| TP_NULL
| TP_readyQueue
| TP_procQ (a : Z)
| TP_var (a : Z).

Definition tp_get (tp : pcb_PTR_PTR) (s : kstate) : option Z :=
  match tp with
  | TP_NULL => None
  | TP_readyQueue => Some (readyQueue s)
  | TP_procQ a => s_procQ <$> semds s !! a
  | TP_var a => pvars s !! a
  end.

Definition tp_set (tp : pcb_PTR_PTR) (v : Z) (s : kstate) : kstate :=
  match tp with
  | TP_NULL => s
  | TP_readyQueue => set_readyQueue v s
  | TP_procQ a => set_semds (alter (set_s_procQ v) a (semds s)) s
  | TP_var a => set_pvars (<[a := v]> (pvars s)) s
  end.

Definition load_tp (tp : pcb_PTR_PTR) : K Z :=
  fun s => match tp_get tp s with
           | Some v => Ret v s
           | None => Fault (BadPointer NULL)
           end.

Definition store_tp (tp : pcb_PTR_PTR) (v : Z) : K unit :=
  fun s => match tp_get tp s with
           | Some _ => Ret tt (tp_set tp v s)
           | None => Fault (BadPointer NULL)
           end.

(** The objects a [state_PTR] points to: a state in memory, the [p_s] of a pcb, or one of the two
    exception states of a support structure. *)
Inductive state_ref : Type :=
| SR_mem (a : Z)
| SR_pcb (p : Z)
| SR_sup (a : Z) (i : fin 2).

Definition state_get (r : state_ref) (s : kstate) : option state_t :=
  match r with
  | SR_mem a => states s !! a
  | SR_pcb p => p_s <$> pcbs s !! p
  | SR_sup a i => (fun u => sup_exceptState u !!! i) <$> supports s !! a
  end.

Definition state_alter (r : state_ref) (f : state_t -> state_t) (s : kstate) : kstate :=
  match r with
  | SR_mem a => set_states (alter f a (states s)) s
  | SR_pcb p => set_pcbs (alter (fun x => set_p_s (f (p_s x)) x) p (pcbs s)) s
  | SR_sup a i =>
      set_supports
        (alter (fun u => set_sup_exceptState
                           (vinsert i (f (sup_exceptState u !!! i)) (sup_exceptState u)) u)
               a (supports s)) s
  end.

Definition state_addr (r : state_ref) : Z :=
  match r with SR_mem a | SR_pcb a | SR_sup a _ => a end.

Definition get_state {A} (r : state_ref) (f : state_t -> A) : K A :=
  fun s => match state_get r s with
           | Some x => Ret (f x) s
           | None => Fault (BadPointer (state_addr r))
           end.

Definition upd_state (r : state_ref) (f : state_t -> state_t) : K unit :=
  fun s => match state_get r s with
           | Some _ => Ret tt (state_alter r f s)
           | None => Fault (BadPointer (state_addr r))
           end.

Definition get_support {A} (a : Z) (f : support_t -> A) : K A :=
  fun s => match supports s !! a with
           | Some x => Ret (f x) s
           | None => Fault (BadPointer a)
           end.

(** ** Clocks and control registers *)
Section hardware.
Context {m : Machine}.

(** [STCK(T)]: the next time-of-day reading, TODLO divided by TIMESCALE as signed integers (the
    time scale is a positive constant of the machine). *)
Definition STCK : K Z :=
  fun s => let raw := todlo_at (tod_reads s) in
           Ret (Z.quot (i32 raw) (i32 (timescale (bus s))))
               (set_tod_reads (S (tod_reads s)) (set_bus (set_todlo raw (bus s)) s)).

(** [LDIT(T)] *)
Definition LDIT (T : Z) : K unit :=
  modify (fun s => set_bus (set_intervaltimer (u32 (i32 (T * i32 (timescale (bus s))))) (bus s)) s).

Definition getTIMER : K Z :=
  fun s => Ret (plt_at (plt_reads s)) (set_plt_reads (S (plt_reads s)) s).

End hardware.

Definition setTIMER (t : Z) : K unit := modify (set_cp0_timer (u32 t)).
Definition setSTATUS (v : Z) : K unit := modify (set_cp0_status v).

Definition LDST {A} (st : state_t) : K A := stop (Ldst st).
Definition LDCXT {A} (stackPtr status pc : Z) : K A := stop (Ldcxt stackPtr status pc).
Definition HALT {A} : K A := stop Halt.
Definition PANIC {A} : K A := stop Panic.
Definition WAIT {A} : K A := stop Wait.

(** * Lemmas *)
Lemma get_pcb_ok {A} p (f : pcb_t -> A) v s :
  fld f (pcbs s) p = Some v -> get_pcb p f s = Ret v s.
Proof. unfold fld, get_pcb. by intros (r & -> & ->)%fmap_Some. Qed.

Lemma upd_pcb_ok p f s :
  is_Some (pcbs s !! p) -> upd_pcb p f s = Ret tt (set_pcbs (alter f p (pcbs s)) s).
Proof. unfold upd_pcb. by intros [r ->]. Qed.

Lemma get_semd_ok {A} a (f : semd_t -> A) v s :
  fld f (semds s) a = Some v -> get_semd a f s = Ret v s.
Proof. unfold fld, get_semd. by intros (r & -> & ->)%fmap_Some. Qed.

Lemma upd_semd_ok a f s :
  is_Some (semds s !! a) -> upd_semd a f s = Ret tt (set_semds (alter f a (semds s)) s).
Proof. unfold upd_semd. by intros [r ->]. Qed.

Lemma load_int_ok a v s : ints s !! a = Some v -> load_int a s = Ret v s.
Proof. unfold load_int. by intros ->. Qed.

Lemma store_int_ok a v s :
  is_Some (ints s !! a) -> store_int a v s = Ret tt (set_ints (<[a := v]> (ints s)) s).
Proof. unfold store_int. by intros [r ->]. Qed.

Lemma load_tp_ok tp v s : tp_get tp s = Some v -> load_tp tp s = Ret v s.
Proof. unfold load_tp. by intros ->. Qed.

Lemma store_tp_ok tp v s : is_Some (tp_get tp s) -> store_tp tp v s = Ret tt (tp_set tp v s).
Proof. unfold store_tp. by intros [r ->]. Qed.

Lemma get_state_ok {A} r (f : state_t -> A) v s :
  f <$> state_get r s = Some v -> get_state r f s = Ret v s.
Proof. unfold get_state. by intros (x & -> & ->)%fmap_Some. Qed.

Lemma upd_state_ok r f s :
  is_Some (state_get r s) -> upd_state r f s = Ret tt (state_alter r f s).
Proof. unfold upd_state. by intros [x ->]. Qed.

(** A queue pointer is not stored among the pcbs. *)
Lemma tp_get_set_pcbs tp h s : tp_get tp (set_pcbs h s) = tp_get tp s.
Proof. by destruct tp. Qed.

Lemma pcbs_tp_set tp v s : pcbs (tp_set tp v s) = pcbs s.
Proof. by destruct tp. Qed.

Lemma tp_set_set_pcbs tp v h s : tp_set tp v (set_pcbs h s) = set_pcbs h (tp_set tp v s).
Proof. by destruct tp. Qed.

Lemma tp_get_set tp v s : is_Some (tp_get tp s) -> tp_get tp (tp_set tp v s) = Some v.
Proof.
  destruct tp; cbn; [by intros []|done| |].
  - rewrite lookup_alter_eq. intros [r (x & E & _)%fmap_Some]. by rewrite E.
  - intros _. apply lookup_insert_eq.
Qed.

Lemma tp_set_id tp v s : tp_get tp s = Some v -> tp_set tp v s = s.
Proof.
  destruct s, tp; cbn; intros H; [done|by simplify_eq|..].
  - unfold set_semds; cbn. rewrite alter_id; [done|].
    intros x Hx. rewrite Hx in H. cbn in H. simplify_eq. by destruct x.
  - unfold set_pvars; cbn. by rewrite insert_id.
Qed.

Lemma set_pcbs_set_pcbs h h' s : set_pcbs h (set_pcbs h' s) = set_pcbs h s.
Proof. done. Qed.

Lemma set_pcbs_id s : set_pcbs (pcbs s) s = s.
Proof. by destruct s. Qed.

Lemma is_Some_alter {R} (g : R -> R) x (h : gmap Z R) y :
  is_Some (h !! y) -> is_Some (alter g x h !! y).
Proof. by rewrite lookup_alter_is_Some. Qed.

#[export] Hint Resolve is_Some_alter fld_is_Some : kernel.
Lemma is_Some_fmap {A B} (f : A -> B) (o : option A) : is_Some o -> is_Some (f <$> o).
Proof. apply fmap_is_Some. Qed.
#[export] Hint Resolve is_Some_fmap : kernel.
#[export] Hint Extern 1 (is_Some (Some _)) => eexists; reflexivity : kernel.

(** Updates of one state, composed. *)
Lemma state_alter_alter r f g s :
  state_alter r f (state_alter r g s) = state_alter r (fun st => f (g st)) s.
Proof.
  destruct r; cbn; unfold set_states, set_pcbs, set_supports; cbn; f_equal;
    rewrite alter_alter_eq; [done|done|].
  apply alter_ext. intros u _. unfold set_sup_exceptState; cbn. f_equal.
  rewrite vlookup_insert. apply vec_eq. intros j. destruct (decide (i = j)) as [->|].
  - by rewrite !vlookup_insert.
  - by rewrite !vlookup_insert_ne.
Qed.

Lemma state_get_alter r f s : state_get r (state_alter r f s) = f <$> state_get r s.
Proof.
  destruct r; cbn; rewrite lookup_alter_eq, <- ?option_fmap_compose; [done|..].
  - by destruct (pcbs s !! p).
  - destruct (supports s !! a); cbn; [by rewrite vlookup_insert|done].
Qed.

Lemma state_alter_ext r f g s : (forall st, f st = g st) -> state_alter r f s = state_alter r g s.
Proof.
  intros H. destruct r; cbn; f_equal; apply alter_ext; intros ? _; by rewrite H.
Qed.

(** [a] and the state of [r] are different objects. *)
Definition separate (a : Z) (r : state_ref) : Prop :=
  match r with SR_mem b => a <> b | _ => True end.

Lemma state_get_alter_separate a r f s :
  separate a r -> state_get (SR_mem a) (state_alter r f s) = state_get (SR_mem a) s.
Proof. destruct r; cbn; [|done..]. intros. by rewrite lookup_alter_ne. Qed.

Lemma for_each_upd_pcb {I} (l : list I) p (f : I -> pcb_t -> pcb_t) s :
  is_Some (pcbs s !! p) ->
  for_each l (fun i => upd_pcb p (f i)) s =
    Ret tt (set_pcbs (alter (fun r => foldl (fun r i => f i r) r l) p (pcbs s)) s).
Proof.
  revert s. induction l as [|i l IH]; intros s Hp; cbn [for_each].
  - rewrite alter_id, set_pcbs_id by done. done.
  - erewrite bind_ret by (by apply upd_pcb_ok). rewrite IH by (cbn; by apply is_Some_alter).
    cbn. rewrite alter_alter_eq, set_pcbs_set_pcbs. done.
Qed.

(** Loops that write all the registers of a state. *)
Lemma foldl_set_reg (g : fin STATEREGNUM -> Z) l st :
  foldl (fun st i => set_reg i (g i) st) st l =
  set_s_reg (foldl (fun v i => vinsert i (g i) v) (s_reg st) l) st.
Proof.
  revert st. induction l as [|i l IH]; intros st; [by destruct st|].
  cbn [foldl]. by rewrite IH.
Qed.

Lemma foldl_set_p_s {I} (f : I -> state_t -> state_t) l r :
  foldl (fun r i => set_p_s (f i (p_s r)) r) r l =
  set_p_s (foldl (fun st i => f i st) (p_s r) l) r.
Proof.
  revert r. induction l as [|i l IH]; intros r; [by destruct r|].
  cbn [foldl]. by rewrite IH.
Qed.

Lemma foldl_regs (w v : vec Z STATEREGNUM) :
  foldl (fun v j => vinsert j (w !!! j) v) v regs = w.
Proof. apply foldl_vinsert. Qed.

Lemma elem_of_regs i : i ∈ regs.
Proof. apply elem_of_enum. Qed.

#[global] Opaque regs.
#[global] Arguments for_each : simpl never.

(** ** Symbolic execution

    [kstep] runs the first operation of the program in the goal, discharging its side condition
    with what the context says of the fields read and of the objects that exist. *)
Ltac kside :=
  simpl; rewrite ?tp_get_set_pcbs, ?pcbs_tp_set; simpl; fld_simp;
  rewrite ?lookup_alter_is_Some;
  solve [eassumption | reflexivity | eauto 20 with kernel].

Ltac kstep :=
  lazymatch goal with
  | |- context [bind (bind ?m ?f) ?g ?s] => rewrite (bind_assoc m f g s)
  | |- context [bind (ret ?a) ?k ?s] => rewrite (bind_pure a k s); cbv beta
  | |- context [bind (gets ?f) ?k ?s] => rewrite (bind_gets f k s); cbv beta
  | |- context [bind (modify ?f) ?k ?s] => rewrite (bind_modify f k s); cbv beta
  | |- context [bind (get_pcb ?p ?f) ?k ?s] =>
      erewrite (bind_ret (get_pcb p f) k s); [|apply get_pcb_ok; kside]
  | |- context [bind (upd_pcb ?p ?f) ?k ?s] =>
      erewrite (bind_ret (upd_pcb p f) k s); [|apply upd_pcb_ok; kside]
  | |- context [bind (get_semd ?p ?f) ?k ?s] =>
      erewrite (bind_ret (get_semd p f) k s); [|apply get_semd_ok; kside]
  | |- context [bind (upd_semd ?p ?f) ?k ?s] =>
      erewrite (bind_ret (upd_semd p f) k s); [|apply upd_semd_ok; kside]
  | |- context [bind (load_tp ?p) ?k ?s] =>
      erewrite (bind_ret (load_tp p) k s); [|apply load_tp_ok; kside]
  | |- context [bind (store_tp ?p ?v) ?k ?s] =>
      erewrite (bind_ret (store_tp p v) k s); [|apply store_tp_ok; kside]
  | |- context [bind (get_state ?r ?f) ?k ?s] =>
      erewrite (bind_ret (get_state r f) k s); [|apply get_state_ok; kside]
  | |- context [bind (upd_state ?r ?f) ?k ?s] =>
      erewrite (bind_ret (upd_state r f) k s); [|apply upd_state_ok; kside]
  | |- context [bind (load_int ?a) ?k ?s] =>
      erewrite (bind_ret (load_int a) k s); [|apply load_int_ok; kside]
  | |- context [bind (store_int ?a ?v) ?k ?s] =>
      erewrite (bind_ret (store_int a v) k s); [|apply store_int_ok; kside]
  | |- upd_pcb ?p ?f ?s = _ => rewrite (upd_pcb_ok p f s) by kside
  | |- store_tp ?p ?v ?s = _ => rewrite (store_tp_ok p v s) by kside
  | |- get_pcb ?p ?f ?s = _ => erewrite (get_pcb_ok p f); [|kside]
  | |- upd_semd ?p ?f ?s = _ => rewrite (upd_semd_ok p f s) by kside
  end; simpl; rewrite ?set_pcbs_set_pcbs.

(** Decide the test of an [if] from the context. *)
Ltac kif :=
  match goal with
  | |- context [?a =? ?a] => rewrite (Z.eqb_refl a)
  | H : ?a <> ?b |- context [?a =? ?b] => rewrite (proj2 (Z.eqb_neq a b) H)
  | H : ?b <> ?a |- context [?a =? ?b] => rewrite (proj2 (Z.eqb_neq a b) (not_eq_sym H))
  | H : ?a = ?b |- context [?a =? ?b] => rewrite (proj2 (Z.eqb_eq a b) H)
  end; cbn [orb andb negb].

Ltac ksteps := repeat first [kif | kstep].
