(* ===== verification/Logic.v ===== *)
(** * Total-correctness triples for kernel code

    [wp m s Q R]: run from [s], [m] does not fault; it returns a value and a state that satisfy
    [Q], or gives up the processor with an event and a state that satisfy [R]. *)
From S2P Require Export Machine.

Definition wp {S E A} (m : M S E A) (s : S) (Q : A -> S -> Prop) (R : E -> S -> Prop) : Prop :=
  match m s with
  | Ret a s' => Q a s'
  | Stop e s' => R e s'
  | Fault _ => False
  end.

(** Code that never comes back. *)
Definition stops {S E A} (m : M S E A) (s : S) (R : E -> S -> Prop) : Prop :=
  wp m s (fun _ _ => False) R.

Section wp.
Context {S E : Type}.
Implicit Types (s : S) (R : E -> S -> Prop).

Lemma wp_Ret {A} (m : M S E A) s a s' (Q : A -> S -> Prop) R :
  m s = Ret a s' -> Q a s' -> wp m s Q R.
Proof. unfold wp. by intros ->. Qed.

Lemma wp_Stop {A} (m : M S E A) s e s' (Q : A -> S -> Prop) R :
  m s = Stop e s' -> R e s' -> wp m s Q R.
Proof. unfold wp. by intros ->. Qed.

Lemma wp_ret {A} (a : A) s (Q : A -> S -> Prop) R : Q a s -> wp (ret a) s Q R.
Proof. done. Qed.

Lemma wp_bind {A B} (m : M S E A) (k : A -> M S E B) s Q R :
  wp m s (fun a s' => wp (k a) s' Q R) R -> wp (bind m k) s Q R.
Proof. unfold wp, bind. by destruct (m s). Qed.

(** A returning prefix of known effect. *)
Lemma wp_bind_Ret {A B} (m : M S E A) (k : A -> M S E B) s a s' Q R :
  m s = Ret a s' -> wp (k a) s' Q R -> wp (bind m k) s Q R.
Proof. intros Hm Hk. apply wp_bind. by eapply wp_Ret. Qed.

Lemma wp_mono {A} (m : M S E A) s (Q Q' : A -> S -> Prop) (R R' : E -> S -> Prop) :
  (forall a s', Q a s' -> Q' a s') -> (forall e s', R e s' -> R' e s') ->
  wp m s Q R -> wp m s Q' R'.
Proof. intros HQ HR. unfold wp. destruct (m s); auto. Qed.

(** What follows code that never comes back is not executed. *)
Lemma stops_bind {A B} (m : M S E A) (k : A -> M S E B) s R :
  stops m s R -> stops (bind m k) s R.
Proof. intros H. apply wp_bind. eapply wp_mono; [|by intros|exact H]. by intros. Qed.

Lemma stops_wp {A} (m : M S E A) s Q R : stops m s R -> wp m s Q R.
Proof. by apply wp_mono. Qed.

Lemma wp_elim_stops {A} (m : M S E A) s R : stops m s R -> exists e s', m s = Stop e s' /\ R e s'.
Proof. unfold stops, wp. destruct (m s); [done| |done]. eauto. Qed.

Lemma stops_intro {A} (m : M S E A) s e s' R : m s = Stop e s' -> R e s' -> stops m s R.
Proof. intros. by eapply wp_Stop. Qed.

Lemma stops_mono {A} (m : M S E A) s (R R' : E -> S -> Prop) :
  (forall e s', R e s' -> R' e s') -> stops m s R -> stops m s R'.
Proof. intros H. apply wp_mono; auto. Qed.
End wp.
