(* ===== verification/Pcb.v ===== *)
(** * Process control blocks: phase1/pcb.c

    Allocation of pcbs from a free list, process queues (circular doubly linked lists known by
    their tail) and process trees (child lists).  The definitions follow the C statement by
    statement; the loops carry fuel, one unit per iteration. *)
From S2P Require Export Machine.

(** A walk over a queue or a child list visits each of the MAXPROC pcbs at most once, and ends
    with one more test. *)
Definition walk_fuel : nat := 21.

Section allocation.
Context {m : Machine}.

Definition freePcb (p : Z) : K unit :=
  if p =? NULL then ret tt
  else
    do h <- gets pcbFree_h;
    if h =? NULL then
      do! upd_pcb p (set_p_next NULL);
      do! upd_pcb p (set_p_prev NULL);
      modify (set_pcbFree_h p)
    else
      do! upd_pcb p (set_p_next h);
      do! upd_pcb p (set_p_prev NULL);
      do! upd_pcb h (set_p_prev p);
      modify (set_pcbFree_h p).

(** [&pcbFreeTable[i]] *)
Definition pcb_addr (i : Z) : Z := pcbFreeTable + i * sizeof_pcb_t.

Definition initPcbs : K unit :=
  do! modify (set_pcbFree_h NULL);
  for_each (seqZ 0 MAXPROC) (fun i => freePcb (pcb_addr i)).

Definition allocPcb : K Z :=
  do h <- gets pcbFree_h;
  if h =? NULL then ret NULL
  else
    let p := h in
    do n <- get_pcb p p_next;
    do! modify (set_pcbFree_h n);
    do! upd_pcb p (set_p_next NULL);
    do! upd_pcb p (set_p_prev NULL);
    do! upd_pcb p (set_p_prnt NULL);
    do! upd_pcb p (set_p_child NULL);
    do! upd_pcb p (set_p_lSib NULL);
    do! upd_pcb p (set_p_rSib NULL);
    do! for_each regs
          (fun j => upd_pcb p (fun x => set_p_s (set_reg j 0 (p_s x)) x));
    do! upd_pcb p (set_p_time 0);
    do! upd_pcb p (set_p_semAdd NULL);
    do! upd_pcb p (set_p_supportStruct NULL);
    ret p.

End allocation.

(** ** Process queues *)
Definition tp_is_null (tp : pcb_PTR_PTR) : bool :=
  match tp with TP_NULL => true | _ => false end.

Definition mkEmptyProcQ : Z := NULL.

Definition emptyProcQ (tp : Z) : bool := tp =? NULL.

Definition insertProcQ (tp : pcb_PTR_PTR) (p : Z) : K unit :=
  if p =? NULL then ret tt
  else
    do t <- load_tp tp;
    if t =? NULL then
      do! upd_pcb p (set_p_next p);
      do! upd_pcb p (set_p_prev p);
      store_tp tp p
    else
      let tail := t in
      do head <- get_pcb tail p_next;
      do! upd_pcb tail (set_p_next p);
      do! upd_pcb p (set_p_prev tail);
      do! upd_pcb p (set_p_next head);
      do! upd_pcb head (set_p_prev p);
      store_tp tp p.

Definition removeProcQ (tp : pcb_PTR_PTR) : K Z :=
  if tp_is_null tp then ret NULL
  else
    do t <- load_tp tp;
    if t =? NULL then ret NULL
    else
      let tail := t in
      do head <- get_pcb tail p_next;
      do! (if head =? tail then store_tp tp NULL
           else
             do n <- get_pcb head p_next;
             do! upd_pcb tail (set_p_next n);
             do n <- get_pcb head p_next;
             upd_pcb n (set_p_prev tail));
      do! upd_pcb head (set_p_next NULL);
      do! upd_pcb head (set_p_prev NULL);
      ret head.

(** The body of the [if (current == p)] of [outProcQ]: unlink [current] and return [p]. *)
Definition outProcQ_found (tp : pcb_PTR_PTR) (current p : Z) : K Z :=
  do n <- get_pcb current p_next;
  do! (if n =? current then store_tp tp NULL
       else
         do v <- get_pcb current p_prev;
         do n <- get_pcb current p_next;
         do! upd_pcb v (set_p_next n);
         do n <- get_pcb current p_next;
         do v <- get_pcb current p_prev;
         do! upd_pcb n (set_p_prev v);
         do t <- load_tp tp;
         if current =? t then
           do v <- get_pcb current p_prev;
           store_tp tp v
         else ret tt);
  do! upd_pcb p (set_p_next NULL);
  do! upd_pcb p (set_p_prev NULL);
  ret p.

Fixpoint outProcQ_loop (fuel : nat) (tp : pcb_PTR_PTR) (tail p current : Z) : K Z :=
  match fuel with
  | O => crash OutOfFuel
  | S fuel =>
      if current =? p then outProcQ_found tp current p
      else
        do current <- get_pcb current p_next;
        do head <- get_pcb tail p_next;
        if current =? head then ret NULL else outProcQ_loop fuel tp tail p current
  end.

Definition outProcQ (tp : pcb_PTR_PTR) (p : Z) : K Z :=
  if tp_is_null tp then ret NULL
  else
    do t <- load_tp tp;
    if (t =? NULL) || (p =? NULL) then ret NULL
    else
      let tail := t in
      do current <- get_pcb tail p_next;
      outProcQ_loop walk_fuel tp tail p current.

Definition headProcQ (tp : Z) : K Z :=
  if tp =? NULL then ret NULL else get_pcb tp p_next.

(** ** Process trees *)
Definition emptyChild (p : Z) : K bool :=
  if p =? NULL then ret true
  else do c <- get_pcb p p_child; ret (c =? NULL).

Definition insertChild (prnt p : Z) : K unit :=
  if (prnt =? NULL) || (p =? NULL) then ret tt
  else
    do c <- get_pcb prnt p_child;
    if c =? NULL then
      do! upd_pcb prnt (set_p_child p);
      do! upd_pcb p (set_p_prnt prnt);
      do! upd_pcb p (set_p_lSib NULL);
      upd_pcb p (set_p_rSib NULL)
    else
      do! upd_pcb p (set_p_prnt prnt);
      do! upd_pcb p (set_p_lSib NULL);
      do c <- get_pcb prnt p_child;
      do! upd_pcb p (set_p_rSib c);
      do c <- get_pcb prnt p_child;
      do! upd_pcb c (set_p_lSib p);
      upd_pcb prnt (set_p_child p).

Definition removeChild (p : Z) : K Z :=
  if p =? NULL then ret NULL
  else
    do c <- get_pcb p p_child;
    if c =? NULL then ret NULL
    else
      do child <- get_pcb p p_child;
      do r <- get_pcb child p_rSib;
      do! upd_pcb p (set_p_child r);
      do! upd_pcb child (set_p_prnt NULL);
      do! upd_pcb child (set_p_rSib NULL);
      do! upd_pcb child (set_p_lSib NULL);
      ret child.

(** [while (cur != NULL && cur->p_rSib != p) cur = cur->p_rSib;] *)
Fixpoint outChild_loop (fuel : nat) (p cur : Z) : K Z :=
  match fuel with
  | O => crash OutOfFuel
  | S fuel =>
      if cur =? NULL then ret cur
      else
        do r <- get_pcb cur p_rSib;
        if r =? p then ret cur else outChild_loop fuel p r
  end.

Definition outChild (p : Z) : K Z :=
  if p =? NULL then ret NULL
  else
    do prnt <- get_pcb p p_prnt;
    if prnt =? NULL then ret NULL
    else
      do first <- get_pcb prnt p_child;
      do found <- (if first =? p then do! removeChild prnt; ret true
                   else
                     do cur <- outChild_loop walk_fuel p first;
                     if cur =? NULL then ret false
                     else
                       do r <- get_pcb p p_rSib;
                       do! upd_pcb cur (set_p_rSib r);
                       do r <- get_pcb p p_rSib;
                       do! (if r =? NULL then ret tt else upd_pcb r (set_p_lSib cur));
                       ret true);
      if found : bool then
        do! upd_pcb p (set_p_prnt NULL);
        do! upd_pcb p (set_p_rSib NULL);
        do! upd_pcb p (set_p_lSib NULL);
        ret p
      else ret NULL.

(** * Lemmas *)
Lemma walk_fuel_eq : walk_fuel = 21%nat.
Proof. reflexivity. Qed.

#[global] Opaque walk_fuel.
