(* ===== verification/PcbQueue.v ===== *)
(** * Process queues

    What a queue of pcb.c is, and what each operation does to it.  [is_queue h t l]: in the pcb
    store [h], the tail pointer [t] is that of the circular doubly linked list whose nodes are,
    from head to tail, [l]. *)
From S2P Require Export Pcb.

(** [x] and [y] are neighbours: [x->p_next == y] and [y->p_prev == x]. *)
Definition dlink (h : gmap Z pcb_t) (x y : Z) : Prop :=
  fld p_next h x = Some y /\ fld p_prev h y = Some x.

Definition cycle (h : gmap Z pcb_t) (l : list Z) : Prop :=
  chain (dlink h) l /\ (forall x y, head l = Some x -> last l = Some y -> dlink h y x).

Definition is_queue (h : gmap Z pcb_t) (t : Z) (l : list Z) : Prop :=
  t = default NULL (last l) /\ NoDup l /\ (NULL ∉ l) /\ cycle h l.

(** The link fields of a queue, erased. *)
Definition erase_links (r : pcb_t) : pcb_t := set_p_next 0 (set_p_prev 0 r).

(** * Lemmas *)
Section cycles.
Implicit Types (h : gmap Z pcb_t) (l : list Z) (x y t p : Z).

Lemma cycle_rotate h l1 l2 : cycle h (l1 ++ l2) -> cycle h (l2 ++ l1).
Proof.
  unfold cycle. rewrite !chain_app. intros [(H1 & H2 & H12) Hc].
  destruct l1 as [|a l1], l2 as [|b l2]; rewrite ?app_nil_r in *; cbn [app] in *;
    try (split_and!; [done..| |]; naive_solver).
  split_and!; [done|done| |].
  - intros x y Hx Hy. apply Hc; [done|]. rewrite app_comm_cons, last_app_cons in *. exact Hx.
  - intros x y Hx Hy. apply H12; [|done]. rewrite app_comm_cons, last_app_cons in Hy. exact Hy.
Qed.

(** Only the [p_next] of the last node and the [p_prev] of the first may change. *)
Lemma chain_interior h h' l :
  NoDup l -> chain (dlink h) l ->
  (forall x, x ∈ l -> last l <> Some x -> fld p_next h' x = fld p_next h x) ->
  (forall y, y ∈ l -> head l <> Some y -> fld p_prev h' y = fld p_prev h y) ->
  chain (dlink h') l.
Proof.
  induction l as [|x l IH]; [done|]. intros Hnd Hc Hn Hp.
  apply NoDup_cons in Hnd as [Hx Hnd]. destruct l as [|y l]; [done|].
  destruct Hc as [[H1 H2] Hc]. split.
  - split.
    + rewrite Hn; [done|set_solver|]. intros E.
      apply Hx. apply last_Some_elem_of. exact E.
    + rewrite Hp; [done|set_solver|]. cbn. intros E. simplify_eq. set_solver.
  - apply IH; [done|done| |].
    + intros z Hz Hl. apply Hn; [set_solver|exact Hl].
    + intros z Hz Hl. apply Hp; [set_solver|]. cbn. intros E. simplify_eq.
Qed.
End cycles.

Section queues.
Implicit Types (h : gmap Z pcb_t) (l : list Z) (x y t p : Z).

Lemma is_queue_nil h : is_queue h NULL [].
Proof. split_and!; [done|constructor|set_solver|done..]. Qed.

Lemma is_queue_NULL h l : is_queue h NULL l -> l = [].
Proof.
  intros (Ht & _ & Hn & _). destruct (last l) as [t|] eqn:E; [|by apply last_None].
  cbn in Ht. subst. by apply last_Some_elem_of in E.
Qed.

(** A queue with a non-null tail has a head, which the tail points to. *)
Lemma is_queue_tail h t l :
  is_queue h t l -> t <> NULL ->
  last l = Some t /\ exists x, head l = Some x /\ fld p_next h t = Some x /\ fld p_prev h x = Some t.
Proof.
  intros (Ht & _ & _ & _ & Hc) Hn. destruct (last l) as [y|] eqn:E; [|done].
  cbn in Ht. subst. split; [done|]. destruct l as [|x l]; [done|]. exists x.
  by destruct (Hc x y eq_refl eq_refl).
Qed.

Lemma is_queue_cons h t x l :
  is_queue h t (x :: l) ->
  t <> NULL /\ x <> NULL /\ last (x :: l) = Some t /\ dlink h t x /\
  (t ∈ x :: l) /\ (x ∉ l) /\ (NULL ∉ l).
Proof.
  intros (Ht & Hnd & Hn & _ & Hc). destruct (last (x :: l)) as [y|] eqn:E.
  - cbn in Ht. subst. apply NoDup_cons in Hnd as [? ?].
    pose proof (last_Some_elem_of _ _ E). split_and!; try done; [| |by apply Hc|]; set_solver.
  - by apply last_None in E.
Qed.

(** Every node is a pcb of the store. *)
Lemma chain_node h l x y : chain (dlink h) l -> last l = Some y -> x ∈ l -> x <> y ->
  is_Some (h !! x).
Proof.
  induction l as [|z l IH]; [done|]. destruct l as [|w l].
  - cbn. intros _ ? ->%list_elem_of_singleton ?. simplify_eq.
  - intros [[H _] Hc] Hl Hx ?. apply elem_of_cons in Hx as [->|Hx].
    + by eapply fld_is_Some.
    + apply IH; [done|exact Hl|done|done].
Qed.

Lemma is_queue_node h t l x : is_queue h t l -> x ∈ l -> is_Some (h !! x).
Proof.
  intros Hq Hx. destruct l as [|y l]; [set_solver|].
  pose proof (is_queue_cons _ _ _ _ Hq) as (? & ? & Hl & [Ht _] & _).
  destruct (decide (x = t)) as [->|]; [by eapply fld_is_Some|].
  eapply chain_node; [apply Hq|exact Hl|done|done].
Qed.

Lemma is_queue_ext h h' t l :
  (forall x, x ∈ l -> fld p_next h' x = fld p_next h x /\ fld p_prev h' x = fld p_prev h x) ->
  is_queue h t l -> is_queue h' t l.
Proof.
  intros Hx (Ht & Hnd & Hn & Hc & He). split_and!; [done..|split].
  - eapply chain_interior; [done|done| |]; intros x ? _; by apply Hx.
  - intros x y Hhd Hl. destruct (He x y Hhd Hl).
    pose proof (last_Some_elem_of _ _ Hl). apply head_Some_elem_of in Hhd.
    split; [rewrite (proj1 (Hx y ltac:(done)))|rewrite (proj2 (Hx x ltac:(done)))]; done.
Qed.

Lemma is_queue_frame h h' t l X :
  frame erase_links X h h' -> (forall x, x ∈ l -> x ∉ X) -> is_queue h t l -> is_queue h' t l.
Proof.
  intros Hf Hd. apply is_queue_ext. intros x Hx%Hd.
  by rewrite !(frame_fld_notin _ _ _ _ _ _ Hx Hf).
Qed.

(** Joining [p] between the tail [t] and the head [x]. *)
Lemma is_queue_join h h' t x l p :
  is_queue h t (x :: l) -> p <> NULL -> p ∉ x :: l ->
  (forall y, y ∈ x :: l -> y <> t -> fld p_next h' y = fld p_next h y) ->
  (forall y, y ∈ x :: l -> y <> x -> fld p_prev h' y = fld p_prev h y) ->
  dlink h' t p -> dlink h' p x ->
  is_queue h' p ((x :: l) ++ [p]).
Proof.
  intros Hq Hp Hpl Hn Hv Htp Hpx.
  pose proof (is_queue_cons _ _ _ _ Hq) as (_ & _ & Hl & _).
  destruct Hq as (_ & Hnd & Hnl & Hc & _). unfold is_queue, cycle.
  rewrite last_snoc, chain_app. split_and!; [done| |set_solver| |done| |].
  - apply NoDup_app. split_and!; [done|set_solver|apply NoDup_singleton].
  - eapply chain_interior; [done|exact Hc| |].
    + intros y Hy Hy'. apply Hn; [done|]. intros ->. by rewrite Hl in Hy'.
    + intros y Hy Hy'. apply Hv; [done|]. intros ->. by cbn in Hy'.
  - intros a b Ha Hb. rewrite Hl in Ha. cbn in Hb. by simplify_eq.
  - intros a b Ha Hb. cbn in Ha. by simplify_eq.
Qed.

(** Unlinking the head: the tail [t] and the second node [y] become neighbours. *)
Lemma cycle_unlink h h' x y l t :
  NoDup (x :: y :: l) -> cycle h (x :: y :: l) -> last (y :: l) = Some t ->
  (forall z, z ∈ y :: l -> z <> t -> fld p_next h' z = fld p_next h z) ->
  (forall z, z ∈ y :: l -> z <> y -> fld p_prev h' z = fld p_prev h z) ->
  dlink h' t y ->
  cycle h' (y :: l).
Proof.
  intros [_ Hnd]%NoDup_cons [[_ Hc] _] Hl Hn Hv Hty. split.
  - eapply chain_interior; [done|exact Hc| |].
    + intros z Hz Hz'. apply Hn; [done|]. intros ->. by rewrite Hl in Hz'.
    + intros z Hz Hz'. apply Hv; [done|]. intros ->. by cbn in Hz'.
  - intros a b Ha Hb. rewrite Hl in Hb. cbn in Ha. by simplify_eq.
Qed.

(** The neighbours of a node, and the queue without it. *)
Lemma is_queue_neighbours h t l1 p l2 :
  is_queue h t (l1 ++ p :: l2) ->
  exists v y, last (p :: l2 ++ l1) = Some v /\ head (l2 ++ l1 ++ [p]) = Some y /\
              dlink h v p /\ dlink h p y.
Proof.
  intros (_ & _ & _ & Hc). apply cycle_rotate in Hc as [Hc He]. cbn [app] in *.
  destruct (l2 ++ l1) as [|y l] eqn:E.
  - apply app_eq_nil in E as [-> ->]. exists p, p. by destruct (He p p).
  - destruct Hc as [Hpy Hc]. destruct (last (y :: l)) as [v|] eqn:Hl; [|by apply last_None in Hl].
    exists v, y. split_and!; [done| |by apply He|done].
    rewrite app_assoc, E. done.
Qed.

Lemma is_queue_unlink h h' t l1 p l2 v y :
  is_queue h t (l1 ++ p :: l2) -> last (l2 ++ l1) = Some v -> head (l2 ++ l1) = Some y ->
  (forall z, z ∈ l1 ++ l2 -> z <> v -> fld p_next h' z = fld p_next h z) ->
  (forall z, z ∈ l1 ++ l2 -> z <> y -> fld p_prev h' z = fld p_prev h z) ->
  dlink h' v y ->
  is_queue h' (default NULL (last (l1 ++ l2))) (l1 ++ l2).
Proof.
  intros (_ & Hnd & Hn & Hc) Hl Hh Hnx Hpv Hvy.
  assert (NoDup (p :: l2 ++ l1)) as Hnd'.
  { rewrite <- (Permutation_middle l1), (Permutation_app_comm l1) in Hnd. done. }
  split_and!; [done| |set_solver|].
  - apply NoDup_cons in Hnd' as [_ ?]. by rewrite Permutation_app_comm.
  - apply cycle_rotate in Hc. apply cycle_rotate. cbn [app] in Hc.
    destruct (l2 ++ l1) as [|y' l] eqn:E; [done|]. cbn in Hh. simplify_eq.
    eapply cycle_unlink; [done|exact Hc|exact Hl|..|done].
    + intros z Hz. apply Hnx. rewrite <- E in Hz. set_solver.
    + intros z Hz. apply Hpv. rewrite <- E in Hz. set_solver.
Qed.

Lemma is_queue_tail_without h t l1 p l2 :
  is_queue h t (l1 ++ p :: l2) ->
  (p = t <-> l2 = []) /\ (l2 <> [] -> last (l1 ++ l2) = Some t).
Proof.
  intros (Ht & Hnd & _). rewrite last_app, last_cons in Ht.
  apply NoDup_app in Hnd as (_ & _ & [Hp _]%NoDup_cons). rewrite last_app.
  destruct (last l2) as [b|] eqn:E; cbn in Ht; subst.
  - apply last_Some_elem_of in E. split; [|done]. split; [|intros ->]; set_solver.
  - apply last_None in E. done.
Qed.

Lemma is_queue_next h t l1 x y l2 : is_queue h t (l1 ++ x :: y :: l2) -> fld p_next h x = Some y.
Proof.
  intros (_ & _ & _ & Hc & _). apply chain_app in Hc as (_ & [[H _] _] & _). done.
Qed.
End queues.

(** ** The operations *)
Section operations.
Implicit Types (s : kstate) (tp : pcb_PTR_PTR) (l : list Z) (t p : Z).

Lemma insertProcQ_ok tp t l p s :
  tp_get tp s = Some t -> is_queue (pcbs s) t l ->
  p <> NULL -> is_Some (pcbs s !! p) -> p ∉ l ->
  exists h', insertProcQ tp p s = Ret tt (tp_set tp p (set_pcbs h' s)) /\
             is_queue h' p (l ++ [p]) /\ frame erase_links (p :: l) (pcbs s) h'.
Proof.
  intros Htp Hq Hp Hs Hpl. unfold insertProcQ. kif.
  destruct l as [|x l].
  - assert (t = NULL) as -> by apply Hq.
    eexists. split; [ksteps; reflexivity|]. split; [|solve_frame].
    unfold is_queue, cycle. split_and!; [done|apply NoDup_singleton|set_solver|done|].
    intros ? ? [= <-] [= <-]. split; fld_simp; eauto with kernel.
  - pose proof (is_queue_cons _ _ _ _ Hq) as (Ht & Hx & Hl & [Htx Hxt] & Htl & Hxl & _).
    assert (p <> t /\ p <> x) as [] by set_solver.
    eexists. split; [ksteps; reflexivity|]. split; [|solve_frame].
    eapply is_queue_join; [exact Hq|done|done|..].
    + intros y Hy ?. assert (p <> y) by set_solver. by fld_simp.
    + intros y Hy ?. assert (p <> y) by set_solver. by fld_simp.
    + split; fld_simp; eauto with kernel.
    + split; fld_simp; eauto with kernel.
Qed.

Lemma removeProcQ_ok tp t x l s :
  tp_get tp s = Some t -> is_queue (pcbs s) t (x :: l) ->
  exists h', removeProcQ tp s = Ret x (tp_set tp (default NULL (last l)) (set_pcbs h' s)) /\
             is_queue h' (default NULL (last l)) l /\ frame erase_links (x :: l) (pcbs s) h' /\
             fld p_next h' x = Some NULL /\ fld p_prev h' x = Some NULL.
Proof.
  intros Htp Hq. unfold removeProcQ.
  pose proof (is_queue_cons _ _ _ _ Hq) as (Ht & Hx & Hl & [Htx Hxt] & Htl & Hxl & _).
  assert (tp_is_null tp = false) as -> by (destruct tp; done).
  destruct l as [|y l].
  - assert (t = x) as -> by set_solver.
    eexists. split; [ksteps; rewrite pcbs_tp_set, <- tp_set_set_pcbs; reflexivity|].
    split; [apply is_queue_nil|]. split; [solve_frame|].
    split; fld_simp; eauto with kernel.
  - change (last (x :: y :: l)) with (last (y :: l)) in Hl.
    assert (default NULL (last (y :: l)) = t) as Hdt by (by rewrite Hl).
    assert (t ∈ y :: l) by (by apply last_Some_elem_of).
    assert (x <> t /\ x <> y) as [] by set_solver.
    pose proof (is_queue_next _ _ [] x y l Hq) as Hxy.
    assert (is_Some (pcbs s !! y)) by (eapply is_queue_node; [exact Hq|set_solver]).
    eexists. split; [ksteps; rewrite Hdt, tp_set_set_pcbs, tp_set_id by done; reflexivity|].
    split; [|split; [solve_frame|split; fld_simp; eauto with kernel]].
    apply (is_queue_unlink _ _ t [] x (y :: l) t y Hq); [by rewrite app_nil_r|done|..].
    + intros z Hz ?. assert (x <> z) by set_solver. by fld_simp.
    + intros z Hz ?. assert (x <> z) by set_solver. by fld_simp.
    + split; fld_simp; eauto with kernel.
Qed.

Lemma removeProcQ_empty tp s : tp_get tp s = Some NULL -> removeProcQ tp s = Ret NULL s.
Proof.
  intros Htp. unfold removeProcQ. destruct (tp_is_null tp); [done|]. by ksteps.
Qed.

Lemma headProcQ_ok s t l : is_queue (pcbs s) t l -> headProcQ t s = Ret (default NULL (head l)) s.
Proof.
  intros Hq. unfold headProcQ. destruct l as [|x l].
  - assert (t = NULL) as -> by apply Hq. done.
  - pose proof (is_queue_cons _ _ _ _ Hq) as (Ht & _ & _ & [Htx _] & _). kif.
    by apply get_pcb_ok.
Qed.

Lemma outProcQ_found_ok tp t l1 p l2 s :
  tp_get tp s = Some t -> is_queue (pcbs s) t (l1 ++ p :: l2) ->
  exists h', outProcQ_found tp p p s =
               Ret p (tp_set tp (default NULL (last (l1 ++ l2))) (set_pcbs h' s)) /\
             is_queue h' (default NULL (last (l1 ++ l2))) (l1 ++ l2) /\
             frame erase_links (l1 ++ p :: l2) (pcbs s) h' /\
             fld p_next h' p = Some NULL /\ fld p_prev h' p = Some NULL.
Proof.
  intros Htp Hq. unfold outProcQ_found.
  pose proof (is_queue_neighbours _ _ _ _ _ Hq) as (v & y & Hv & Hy & [Hvp Hpv] & [Hpy Hyp]).
  pose proof Hq as (_ & Hnd & _). apply NoDup_app in Hnd as (_ & Hp1 & [Hp2 _]%NoDup_cons).
  assert (p ∉ l2 ++ l1) as Hp12 by set_solver.
  destruct (l2 ++ l1) as [|a l] eqn:E.
  - apply app_eq_nil in E as [-> ->]. cbn in Hv, Hy. simplify_eq.
    eexists. split; [ksteps; rewrite pcbs_tp_set, <- tp_set_set_pcbs; reflexivity|].
    split; [apply is_queue_nil|]. split; [solve_frame|]. split; fld_simp; eauto with kernel.
  - change (last (p :: a :: l)) with (last (a :: l)) in Hv. rewrite app_assoc, E in Hy.
    cbn in Hy. simplify_eq.
    assert (v ∈ y :: l) by (by apply last_Some_elem_of).
    assert (p <> v /\ p <> y) as [] by set_solver.
    assert (forall z, z ∈ y :: l -> z ∈ l1 ++ p :: l2) as Hin.
    { intros z. rewrite <- E, !elem_of_app, elem_of_cons. tauto. }
    assert (v ∈ l1 ++ p :: l2 /\ y ∈ l1 ++ p :: l2) as [] by (split; apply Hin; set_solver).
    pose proof (is_queue_tail_without _ _ _ _ _ Hq) as [Hpt Hlt].
    eexists. split; [|split; [|split; [|split]]].
    + ksteps. destruct (decide (l2 = [])) as [Hl2|Hl2].
      * rewrite (proj2 (Z.eqb_eq p t)) by tauto. ksteps.
        subst l2. rewrite app_nil_r. cbn [app] in E. rewrite E, Hv. ksteps.
        rewrite pcbs_tp_set, <- tp_set_set_pcbs. reflexivity.
      * rewrite (proj2 (Z.eqb_neq p t)) by tauto. ksteps.
        rewrite (Hlt Hl2). cbn [default]. rewrite tp_set_set_pcbs, tp_set_id by done. reflexivity.
    + eapply (is_queue_unlink _ _ t l1 p l2 v y Hq); [by rewrite E|by rewrite E|..].
      * intros z Hz ?. assert (p <> z) by set_solver. fld_simp. reflexivity.
      * intros z Hz ?. assert (p <> z) by set_solver. fld_simp. reflexivity.
      * split; fld_simp; eauto with kernel.
    + solve_frame.
    + fld_simp; eauto with kernel.
    + fld_simp; eauto with kernel.
Qed.

(** The walk of [outProcQ] from the node [cur] on: it finds [p] among the nodes left to visit, or
    comes back to the head. *)
Lemma outProcQ_walk tp t l1 l2 cur p fuel s :
  is_queue (pcbs s) t (l1 ++ l2) -> head l2 = Some cur -> (length l2 <= fuel)%nat ->
  outProcQ_loop fuel tp t p cur s =
    if decide (p ∈ l2) then outProcQ_found tp p p s else Ret NULL s.
Proof.
  intros Hq. revert l1 l2 cur Hq. induction fuel as [|fuel IH]; intros l1 l2 cur Hq Hc Hf.
  { destruct l2; [done|]. cbn in Hf. lia. }
  destruct l2 as [|x l2]; [done|]. cbn in Hc. simplify_eq. cbn [outProcQ_loop].
  destruct (Z.eqb_spec cur p) as [->|Hne]; [by rewrite decide_True by set_solver|].
  assert (t <> NULL) as Ht.
  { destruct l1; cbn [app] in Hq; apply is_queue_cons in Hq as [? _]; done. }
  destruct (is_queue_tail _ _ _ Hq Ht) as (Hl & hd & Hhd & Hthd & _).
  rewrite last_app in Hl. destruct l2 as [|y l2].
  - cbn in Hl. simplify_eq. ksteps. rewrite decide_False by set_solver. done.
  - pose proof (is_queue_next _ _ _ _ _ _ Hq) as Hy.
    assert (y <> hd).
    { pose proof Hq as (_ & Hnd & _). intros ->.
      apply NoDup_app in Hnd as (_ & Hd & [Hcy _]%NoDup_cons).
      destruct l1 as [|z l1]; cbn in Hhd; simplify_eq; [set_solver|].
      apply (Hd hd); set_solver. }
    ksteps. rewrite (IH (l1 ++ [cur]) (y :: l2) y); [|by rewrite <- app_assoc|done|cbn in *; lia].
    destruct (decide (p ∈ y :: l2)), (decide (p ∈ cur :: y :: l2)); (done || set_solver).
Qed.

Lemma outProcQ_ok tp t l1 p l2 s :
  tp_get tp s = Some t -> is_queue (pcbs s) t (l1 ++ p :: l2) ->
  (length (l1 ++ p :: l2) <= walk_fuel)%nat ->
  exists h', outProcQ tp p s =
               Ret p (tp_set tp (default NULL (last (l1 ++ l2))) (set_pcbs h' s)) /\
             is_queue h' (default NULL (last (l1 ++ l2))) (l1 ++ l2) /\
             frame erase_links (l1 ++ p :: l2) (pcbs s) h' /\
             fld p_next h' p = Some NULL /\ fld p_prev h' p = Some NULL.
Proof.
  intros Htp Hq Hlen.
  destruct (outProcQ_found_ok tp t l1 p l2 s Htp Hq) as (h' & Hrun & Hres).
  exists h'. split; [|exact Hres]. rewrite <- Hrun. unfold outProcQ.
  assert (tp_is_null tp = false) as -> by (by destruct tp).
  assert (t <> NULL /\ p <> NULL) as [].
  { pose proof Hq as (_ & _ & Hn & _). split; [|set_solver].
    intros ->. apply is_queue_NULL in Hq. by destruct l1. }
  destruct (is_queue_tail _ _ _ Hq ltac:(done)) as (_ & hd & Hhd & Hthd & _).
  ksteps. rewrite (outProcQ_walk tp t [] _ hd p walk_fuel s Hq Hhd Hlen).
  by rewrite decide_True by set_solver.
Qed.

Lemma outProcQ_not_found tp t l p s :
  tp_get tp s = Some t -> is_queue (pcbs s) t l -> p ∉ l -> (length l <= walk_fuel)%nat ->
  outProcQ tp p s = Ret NULL s.
Proof.
  intros Htp Hq Hp Hlen. unfold outProcQ.
  assert (tp_is_null tp = false) as -> by (by destruct tp).
  destruct (Z.eqb_spec t NULL) as [->|Ht]; [by ksteps|].
  destruct (is_queue_tail _ _ _ Hq Ht) as (_ & hd & Hhd & Hthd & _).
  ksteps. destruct (Z.eqb_spec p NULL); cbn [orb]; [done|].
  ksteps. rewrite (outProcQ_walk tp t [] l hd p walk_fuel s Hq Hhd Hlen).
  by rewrite decide_False.
Qed.
End operations.
