(* ===== verification/PcbAlloc.v ===== *)
(** * Allocation of pcbs

    The free list of pcb.c, and what [allocPcb], [freePcb] and [initPcbs] do to it. *)
From S2P Require Export PcbQueue.

(** The free list is the list of nodes [l]. *)
Definition free_list (s : kstate) (l : list Z) : Prop :=
  is_list (fld p_next (pcbs s)) (pcbFree_h s) l.

(** A pcb as [allocPcb] hands it out: every link, the registers, the time, the semaphore and the
    support structure are reset; the other four words of the processor state stay. *)
Definition fresh_pcb (r : pcb_t) : pcb_t :=
  MkPcb NULL NULL NULL NULL NULL NULL
    (set_s_reg (vreplicate STATEREGNUM 0) (p_s r)) 0 NULL NULL.

(** The table of pcbs, in order. *)
Definition pcb_table `{Machine} : list Z := pcb_addr <$> seqZ 0 MAXPROC.

(** * Lemmas *)
Section free_list.
Implicit Types (s : kstate) (l : list Z) (p : Z).

Lemma free_list_det s l1 l2 : free_list s l1 -> free_list s l2 -> l1 = l2.
Proof. apply is_list_det. Qed.

Lemma free_list_nil s : pcbFree_h s = NULL -> free_list s [].
Proof. done. Qed.

Lemma free_list_NULL s l : free_list s l -> pcbFree_h s = NULL -> l = [].
Proof. destruct l; [done|]. intros (? & ? & _). congruence. Qed.

Lemma free_list_node s l p : free_list s l -> p ∈ l -> is_Some (pcbs s !! p).
Proof.
  intros Hl (l1 & l2 & ->)%list_elem_of_split.
  apply is_list_app in Hl as (n & ? & _). by eapply fld_is_Some.
Qed.

(** The loop that clears the registers. *)
Lemma clear_registers p s :
  is_Some (pcbs s !! p) ->
  for_each regs
    (fun j => upd_pcb p (fun x => set_p_s (set_reg j 0 (p_s x)) x)) s =
  Ret tt (set_pcbs (alter (fun r => set_p_s (set_s_reg (vreplicate STATEREGNUM 0) (p_s r)) r)
                          p (pcbs s)) s).
Proof.
  intros Hp. rewrite for_each_upd_pcb by done. do 2 f_equal. apply alter_ext. intros r _.
  rewrite (foldl_set_p_s (fun j => set_reg j 0)), (foldl_set_reg (fun _ => 0)).
  do 2 f_equal. apply vec_eq. intros i.
  rewrite foldl_vinsert_lookup, decide_True by apply elem_of_regs.
  by rewrite vlookup_replicate.
Qed.

Lemma allocPcb_ok s p l :
  free_list s (p :: l) ->
  exists n, allocPcb s = Ret p (set_pcbFree_h n (set_pcbs (alter fresh_pcb p (pcbs s)) s)) /\
            free_list (set_pcbFree_h n (set_pcbs (alter fresh_pcb p (pcbs s)) s)) l.
Proof.
  intros Hl. pose proof (is_list_NoDup _ _ _ Hl) as [Hp _]%NoDup_cons.
  destruct Hl as (Hh & Hn & n & Hpn & Hl).
  assert (is_Some (pcbs s !! p)) by eauto with kernel.
  exists n. split.
  - unfold allocPcb. kstep. rewrite Hh. ksteps.
    erewrite (bind_ret (for_each _ _)) by (apply clear_registers; kside).
    cbn. ksteps. unfold ret, set_pcbFree_h, set_pcbs. cbn. do 2 f_equal.
    rewrite !alter_alter_eq. by apply alter_ext.
  - unfold free_list. cbn. eapply is_list_ext; [|exact Hl].
    intros x Hx. by rewrite fld_alter_ne by set_solver.
Qed.

Lemma allocPcb_none s : free_list s [] -> allocPcb s = Ret NULL s.
Proof. intros Hl. unfold allocPcb. kstep. cbn in Hl. rewrite Hl. done. Qed.

Lemma freePcb_ok s p l :
  free_list s l -> p <> NULL -> is_Some (pcbs s !! p) -> p ∉ l ->
  exists h', freePcb p s = Ret tt (set_pcbFree_h p (set_pcbs h' s)) /\
             free_list (set_pcbFree_h p (set_pcbs h' s)) (p :: l) /\
             frame erase_links (p :: l) (pcbs s) h'.
Proof.
  intros Hl Hp Hs Hpl. unfold freePcb. kif. kstep.
  destruct l as [|x l].
  - cbn in Hl. rewrite Hl. eexists. split; [ksteps; reflexivity|]. split; [|solve_frame].
    unfold free_list. cbn. split_and!; [done..|].
    exists NULL. split; [|done]. fld_simp; eauto with kernel.
  - pose proof (free_list_node _ _ x Hl ltac:(set_solver)) as Hxs.
    pose proof Hl as (Hh & Hx & _). rewrite Hh.
    assert (p <> x) by set_solver.
    eexists. split; [ksteps; reflexivity|]. split; [|solve_frame].
    unfold free_list. cbn [pcbs set_pcbFree_h set_pcbs pcbFree_h]. split_and!; [done..|].
    exists x. split; [fld_simp; eauto with kernel|].
    unfold free_list in Hl. rewrite Hh in Hl. eapply is_list_ext; [|exact Hl].
    intros z Hz. assert (p <> z) by set_solver. by fld_simp.
Qed.

Lemma freePcb_each ps s acc :
  free_list s acc -> NoDup (ps ++ acc) -> NULL ∉ ps -> (forall p, p ∈ ps -> is_Some (pcbs s !! p)) ->
  exists h' c, for_each ps freePcb s = Ret tt (set_pcbFree_h c (set_pcbs h' s)) /\
               free_list (set_pcbFree_h c (set_pcbs h' s)) (reverse ps ++ acc) /\
               frame erase_links (ps ++ acc) (pcbs s) h'.
Proof.
  revert s acc. induction ps as [|p ps IH]; intros s acc Hl Hnd Hn Hs.
  - exists (pcbs s), (pcbFree_h s). split; [by destruct s|]. split; [done|apply frame_refl].
  - cbn [app] in Hnd. apply NoDup_cons in Hnd as [Hp Hnd].
    destruct (freePcb_ok s p acc) as (h1 & Hrun & Hl1 & Hf1); [done|set_solver..|].
    edestruct (IH (set_pcbFree_h p (set_pcbs h1 s)) (p :: acc)) as (h2 & c & Hrun2 & Hl2 & Hf2).
    + done.
    + rewrite <- Permutation_middle. by apply NoDup_cons.
    + set_solver.
    + intros q Hq. cbn. apply (frame_is_Some _ _ _ _ _ Hf1). set_solver.
    + exists h2, c. split; [|split].
      * rewrite for_each_cons, (bind_ret _ _ _ _ _ Hrun). exact Hrun2.
      * rewrite reverse_cons, <- app_assoc. exact Hl2.
      * eapply frame_trans; eapply frame_mono; [|exact Hf1| |exact Hf2]; set_solver.
Qed.
End free_list.

Section init.
Context {m : Machine} {mok : MachineOk m}.

Lemma pcb_addr_inj i j : pcb_addr i = pcb_addr j -> i = j.
Proof. unfold pcb_addr, sizeof_pcb_t, WORDLEN. lia. Qed.

Lemma pcb_table_NoDup : NoDup pcb_table.
Proof.
  apply NoDup_fmap_2; [|apply NoDup_seqZ]. intros i j. apply pcb_addr_inj.
Qed.

Lemma elem_of_pcb_table p : p ∈ pcb_table <-> exists i, 0 <= i < MAXPROC /\ p = pcb_addr i.
Proof.
  unfold pcb_table. rewrite list_elem_of_fmap. setoid_rewrite elem_of_seqZ.
  split; intros (i & ? & ?); exists i; split; lia || done.
Qed.

Lemma pcb_table_range p : p ∈ pcb_table -> RAMSTART <= p < NULL.
Proof.
  intros (i & ? & ->)%elem_of_pcb_table. destruct pcbFreeTable_ram.
  unfold pcb_addr, sizeof_pcb_t, WORDLEN, MAXPROC in *. lia.
Qed.

Lemma pcb_table_not_NULL : NULL ∉ pcb_table.
Proof. intros ?%pcb_table_range. lia. Qed.

Lemma pcb_table_length : length pcb_table = 20%nat.
Proof. reflexivity. Qed.

Lemma initPcbs_ok s :
  (forall p, p ∈ pcb_table -> is_Some (pcbs s !! p)) ->
  exists h' c, initPcbs s = Ret tt (set_pcbFree_h c (set_pcbs h' s)) /\
               free_list (set_pcbFree_h c (set_pcbs h' s)) (reverse pcb_table) /\
               frame erase_links pcb_table (pcbs s) h'.
Proof.
  intros Hs. unfold initPcbs. kstep.
  rewrite <- (for_each_fmap pcb_addr _ freePcb). fold pcb_table.
  edestruct (freePcb_each pcb_table (set_pcbFree_h NULL s) []) as (h' & c & Hrun & Hl & Hf).
  - by apply free_list_nil.
  - rewrite app_nil_r. apply pcb_table_NoDup.
  - apply pcb_table_not_NULL.
  - exact Hs.
  - exists h', c. rewrite app_nil_r in Hl, Hf. split; [exact Hrun|]. split; [exact Hl|exact Hf].
Qed.
End init.
