(* ===== verification/PcbTree.v ===== *)
(** * Process trees

    The children of a pcb: [children h p l] when the list that starts at [p->p_child] and follows
    [p_rSib] visits the pcbs [l], each with [p] as its parent.  The field [p_lSib] is written by
    the operations and read by none, and is not part of the predicate. *)
From S2P Require Export PcbAlloc.

Definition children (h : gmap Z pcb_t) (p : Z) (l : list Z) : Prop :=
  exists c, fld p_child h p = Some c /\ is_list (fld p_rSib h) c l /\
            forall x, x ∈ l -> fld p_prnt h x = Some p.

(** The fields of the process tree, erased. *)
Definition erase_tree (r : pcb_t) : pcb_t :=
  set_p_prnt 0 (set_p_child 0 (set_p_lSib 0 (set_p_rSib 0 r))).

(** From [h] to [h'], only the child list of [q] and the tree fields of the nodes [l] change. *)
Definition others_kept (q : Z) (l : list Z) (h h' : gmap Z pcb_t) : Prop :=
  (forall r, r <> q -> fld p_child h' r = fld p_child h r) /\
  (forall x, x ∉ l -> fld p_rSib h' x = fld p_rSib h x /\ fld p_prnt h' x = fld p_prnt h x).

(** * Lemmas *)
Section children.
Implicit Types (h : gmap Z pcb_t) (s : kstate) (p q r x : Z) (l k : list Z).

Lemma children_node h p l x : children h p l -> x ∈ l -> is_Some (h !! x).
Proof. intros (c & _ & _ & Hp) Hx. eapply fld_is_Some, Hp, Hx. Qed.

Lemma children_self h p l : children h p l -> is_Some (h !! p).
Proof. intros (c & ? & _). by eapply fld_is_Some. Qed.

Lemma children_not_NULL h p l : children h p l -> NULL ∉ l.
Proof. intros (c & _ & Hl & _). by eapply is_list_not_NULL. Qed.

Lemma children_NoDup h p l : children h p l -> NoDup l.
Proof. intros (c & _ & Hl & _). by eapply is_list_NoDup. Qed.

Lemma children_det h p l k : children h p l -> children h p k -> l = k.
Proof.
  intros (c & Hc & Hl & _) (d & Hd & Hk & _). simplify_eq. by eapply is_list_det.
Qed.

Lemma children_disjoint h p q l k x :
  children h p l -> children h q k -> p <> q -> x ∈ l -> x ∉ k.
Proof.
  intros (_ & _ & _ & Hp) (_ & _ & _ & Hq) Hne Hl Hk.
  specialize (Hp _ Hl). specialize (Hq _ Hk). congruence.
Qed.

Lemma children_keep h h' q l :
  fld p_child h' q = fld p_child h q ->
  (forall x, x ∈ l -> fld p_rSib h' x = fld p_rSib h x /\ fld p_prnt h' x = fld p_prnt h x) ->
  children h q l -> children h' q l.
Proof.
  intros Hc Ho (c & Hrc & Hl & Hp). exists c. split; [by rewrite Hc|]. split.
  - eapply is_list_ext; [|exact Hl]. intros x Hx. by apply Ho.
  - intros x Hx. destruct (Ho x Hx) as [_ ->]. auto.
Qed.

Lemma children_others q l h h' r k :
  others_kept q l h h' -> r <> q -> (forall x, x ∈ k -> x ∉ l) -> children h r k -> children h' r k.
Proof.
  intros [Hc Ho] Hr Hd. apply children_keep; [by apply Hc|]. intros x Hx. by apply Ho, Hd.
Qed.

Lemma emptyChild_ok s p l :
  children (pcbs s) p l -> p <> NULL -> emptyChild p s = Ret (bool_decide (l = [])) s.
Proof.
  intros (c & Hc & Hl & _) Hp. unfold emptyChild. kif. ksteps. unfold ret. f_equal.
  destruct l as [|x l]; [cbn in Hl; by subst|]. destruct Hl as (-> & ? & _). by kif.
Qed.

Lemma insertChild_ok s q p l :
  children (pcbs s) q l -> q <> NULL -> p <> NULL -> is_Some (pcbs s !! p) -> p ∉ l ->
  exists h', insertChild q p s = Ret tt (set_pcbs h' s) /\ children h' q (p :: l) /\
             others_kept q [p] (pcbs s) h' /\ frame erase_tree (q :: p :: l) (pcbs s) h'.
Proof.
  intros Hch Hq Hp Hs Hpl. pose proof (children_self _ _ _ Hch) as Hqs.
  pose proof (fun x => children_node _ _ _ x Hch) as Hxs.
  destruct Hch as (c & Hc & Hl & Hpr). unfold insertChild. do 2 kif. ksteps.
  destruct l as [|x l].
  - cbn in Hl. subst c. eexists. split; [ksteps; reflexivity|]. split; [|split].
    + exists p. split; [fld_simp; eauto with kernel|]. split.
      * split_and!; [done..|]. exists NULL. split; [fld_simp; eauto with kernel|done].
      * intros y ->%list_elem_of_singleton. fld_simp; eauto 20 with kernel.
    + split; [intros r ?; fld_simp; done|].
      intros y Hy. assert (p <> y) by set_solver. split; fld_simp; done.
    + solve_frame.
  - pose proof Hl as (-> & Hx & _). assert (p <> x) by set_solver.
    assert (is_Some (pcbs s !! x)) by (apply Hxs; set_solver).
    eexists. split; [ksteps; reflexivity|]. split; [|split].
    + exists p. split; [fld_simp; eauto with kernel|]. split.
      * split_and!; [done..|]. exists x. split; [fld_simp; eauto with kernel|].
        eapply is_list_ext; [|exact Hl]. intros y Hy. assert (p <> y) by set_solver. by fld_simp.
      * intros y [->|Hy]%elem_of_cons; [fld_simp; eauto 20 with kernel|].
        assert (p <> y) by set_solver. fld_simp. auto.
    + split; [intros r ?; fld_simp; done|].
      intros y Hy. assert (p <> y) by set_solver. split; fld_simp; done.
    + solve_frame.
Qed.

Lemma removeChild_ok s q x l :
  children (pcbs s) q (x :: l) -> q <> NULL ->
  exists h', removeChild q s = Ret x (set_pcbs h' s) /\ children h' q l /\
             fld p_prnt h' x = Some NULL /\
             others_kept q [x] (pcbs s) h' /\ frame erase_tree (q :: x :: l) (pcbs s) h'.
Proof.
  intros Hch Hq. pose proof (children_NoDup _ _ _ Hch) as [Hx _]%NoDup_cons.
  destruct Hch as (c & Hc & (-> & Hxn & n & Hn & Hl) & Hpr).
  pose proof (Hpr x ltac:(set_solver)) as Hxq.
  unfold removeChild. kif. ksteps.
  eexists. split; [ksteps; reflexivity|]. split; [|split; [|split]].
  - exists n. split; [fld_simp; eauto 20 with kernel|]. split.
    + eapply is_list_ext; [|exact Hl]. intros y Hy. assert (x <> y) by set_solver. by fld_simp.
    + intros y Hy. assert (x <> y) by set_solver. fld_simp. apply Hpr. set_solver.
  - fld_simp; eauto 20 with kernel.
  - split; [intros r ?; fld_simp; done|].
    intros y Hy. assert (x <> y) by set_solver. split; fld_simp; done.
  - solve_frame.
Qed.

Lemma removeChild_none s q : children (pcbs s) q [] -> removeChild q s = Ret NULL s.
Proof.
  intros (c & Hc & Hl & _). cbn in Hl. subst. unfold removeChild.
  destruct (q =? NULL); [done|]. by ksteps.
Qed.

(** The search of [outChild] stops at the left sibling of [p]. *)
Lemma outChild_walk s p c l1 x l2 fuel :
  is_list (fld p_rSib (pcbs s)) c (l1 ++ x :: p :: l2) -> NoDup (l1 ++ x :: p :: l2) ->
  (length l1 < fuel)%nat ->
  outChild_loop fuel p c s = Ret x s.
Proof.
  revert c l1. induction fuel as [|fuel IH]; intros c l1 Hl Hnd Hf; [lia|].
  cbn [outChild_loop]. destruct l1 as [|y l1].
  - destruct Hl as (-> & Hx & n & Hn & -> & _). by ksteps.
  - destruct Hl as (-> & Hy & n & Hn & Hl). kif. ksteps.
    assert (n <> p).
    { intros ->. cbn in Hnd. apply NoDup_cons in Hnd as [_ Hnd].
      destruct l1; destruct Hl as [-> _]; cbn in Hnd; apply NoDup_cons in Hnd as [Hn' _];
        apply Hn'; rewrite ?elem_of_app, !elem_of_cons; tauto. }
    kif. apply (IH _ l1); [done|apply NoDup_cons in Hnd as [_ Hnd]; exact Hnd|cbn in Hf; lia].
Qed.

(** The right sibling [n] of [p] becomes that of its left sibling [x]. *)
Lemma unlink_child h h' q l1 x p l2 n :
  children h q (l1 ++ x :: p :: l2) -> fld p_rSib h p = Some n ->
  (forall r, fld p_child h' r = fld p_child h r) ->
  fld p_rSib h' x = Some n ->
  (forall y, x <> y -> p <> y -> fld p_rSib h' y = fld p_rSib h y) ->
  (forall y, p <> y -> fld p_prnt h' y = fld p_prnt h y) ->
  fld p_prnt h' p = Some NULL -> frame erase_tree (q :: l1 ++ x :: p :: l2) h h' ->
  children h' q (l1 ++ x :: l2) /\ fld p_prnt h' p = Some NULL /\
  others_kept q [x; p] h h' /\ frame erase_tree (q :: l1 ++ x :: p :: l2) h h'.
Proof.
  intros Hch Hn Hc Hx Hr Hp Hpn Hf. split; [|split; [done|split; [|done]]].
  - pose proof (children_NoDup _ _ _ Hch) as (_ & Hd & [Hxl [Hpl _]%NoDup_cons]%NoDup_cons)%NoDup_app.
    destruct Hch as (c & Hqc & Hl & Hpr). exists c. rewrite Hc. split; [done|]. split.
    + eapply is_list_splice; [exact Hl| |exact Hx|].
      * intros y Hy%Hd. apply Hr; set_solver.
      * destruct (is_list_app (fld p_rSib h) c (l1 ++ [x]) p l2) as (n' & Hn' & Hl2 & _);
          [by rewrite <- app_assoc|]. simplify_eq.
        eapply is_list_ext; [|exact Hl2]. intros y Hy. apply Hr; set_solver.
    + intros y Hy. rewrite Hp; [apply Hpr; set_solver|]. intros ->.
      apply elem_of_app in Hy as [Hy%Hd|]; set_solver.
  - split; [auto|]. intros y Hy. rewrite Hr, Hp by set_solver. done.
Qed.

(** [outChild] on the first child, and on a later one. *)
Lemma outChild_first s q p l :
  children (pcbs s) q (p :: l) -> q <> NULL ->
  exists h', outChild p s = Ret p (set_pcbs h' s) /\ children h' q l /\
             fld p_prnt h' p = Some NULL /\ others_kept q [p] (pcbs s) h' /\
             frame erase_tree (q :: p :: l) (pcbs s) h'.
Proof.
  intros Hch Hq. pose proof (children_NoDup _ _ _ Hch) as [Hp _]%NoDup_cons.
  destruct (removeChild_ok s q p l Hch Hq) as (h1 & Hrun & Hch1 & Hp1 & [Hc1 Ho1] & Hf1).
  destruct Hch as (c & Hc & (-> & Hpn & _) & Hpr).
  pose proof (Hpr p ltac:(set_solver)) as Hpq. assert (is_Some (h1 !! p)) by eauto with kernel.
  unfold outChild. ksteps. rewrite (bind_ret _ _ _ _ _ Hrun).
  eexists. split; [ksteps; reflexivity|]. split; [|split; [|split]].
  - eapply children_keep; [| |exact Hch1]; [by fld_simp|].
    intros x Hx. assert (p <> x) by set_solver. split; fld_simp; done.
  - fld_simp; eauto 20 with kernel.
  - split; [intros r ?; fld_simp; auto|].
    intros x Hx. assert (p <> x) by set_solver. destruct (Ho1 x Hx). split; fld_simp; done.
  - eapply frame_trans; [exact Hf1|solve_frame].
Qed.

Lemma outChild_later s q l1 x p l2 :
  children (pcbs s) q (l1 ++ x :: p :: l2) -> q <> NULL -> (length l1 < walk_fuel)%nat ->
  exists h', outChild p s = Ret p (set_pcbs h' s) /\ children h' q (l1 ++ x :: l2) /\
             fld p_prnt h' p = Some NULL /\ others_kept q [x; p] (pcbs s) h' /\
             frame erase_tree (q :: l1 ++ x :: p :: l2) (pcbs s) h'.
Proof.
  intros Hch Hq Hlen. pose proof (children_NoDup _ _ _ Hch) as Hnd.
  pose proof (fun x => children_node _ _ _ x Hch) as Hxs.
  pose proof (children_not_NULL _ _ _ Hch) as Hnn.
  pose proof Hnd as Hnd'. apply NoDup_app in Hnd' as (Hnd1 & Hd & [Hx [Hp _]%NoDup_cons]%NoDup_cons).
  pose proof Hch as (c & Hc & Hl & Hpr).
  destruct (is_list_app (fld p_rSib (pcbs s)) c (l1 ++ [x]) p l2) as (n & Hn & Hl2 & Hp0);
    [by rewrite <- app_assoc|].
  assert (fld p_prnt (pcbs s) p = Some q) as Hpq by (apply Hpr; set_solver).
  assert (is_Some (pcbs s !! x)) by (apply Hxs; set_solver).
  assert (p <> x /\ x <> NULL /\ c <> p) as (? & ? & ?).
  { split; [set_solver|]. split; [set_solver|]. intros ->.
    destruct l1 as [|y l1]; destruct Hl as [-> _]; set_solver. }
  pose proof (outChild_walk _ _ _ _ _ _ _ Hl Hnd Hlen) as Hrun.
  unfold outChild. ksteps. rewrite (bind_ret _ _ _ _ _ Hrun). ksteps.
  assert (n = NULL \/ n <> NULL /\ n ∈ l2) as [-> | [Hnn' Hnl]].
  { destruct l2 as [|y l2]; [left; exact Hl2|]. destruct Hl2 as (-> & ? & _). set_solver. }
  - eexists. split; [ksteps; reflexivity|].
    eapply (unlink_child _ _ _ l1 x p l2 NULL Hch Hn);
      [intros; fld_simp; eauto 20 with kernel..|solve_frame].
  - assert (is_Some (pcbs s !! n)) by (apply Hxs; set_solver).
    eexists. split; [ksteps; reflexivity|].
    eapply (unlink_child _ _ _ l1 x p l2 n Hch Hn);
      [intros; fld_simp; eauto 20 with kernel..|solve_frame].
Qed.

Lemma outChild_orphan s p : fld p_prnt (pcbs s) p = Some NULL -> outChild p s = Ret NULL s.
Proof. intros Hp. unfold outChild. destruct (p =? NULL); [done|]. by ksteps. Qed.
End children.
