(* ===== verification/Forest.v ===== *)
(** * The process forest

    The trees of pcbs.c over all the live pcbs: every pcb has the list of its children, every
    child knows its parent, and no pcb is its own ancestor. *)
From S2P Require Export PcbTree.
From stdpp Require Export functions.

Record forest (h : gmap Z pcb_t) (live : list Z) (kids : Z -> list Z) : Prop := {
  forest_children : forall p, p ∈ live -> children h p (kids p);
  forest_live : forall p c, p ∈ live -> c ∈ kids p -> c ∈ live;
  forest_parent : forall c, c ∈ live -> exists q, fld p_prnt h c = Some q /\
                    (q = NULL \/ (q ∈ live) /\ c ∈ kids q);
  forest_rank : exists rank : Z -> nat, forall p c, p ∈ live -> c ∈ kids p -> (rank p < rank c)%nat
}.

Section forest.
Implicit Types (h : gmap Z pcb_t) (live : list Z) (kids : Z -> list Z) (p q c x : Z).

Lemma forest_perm h live live' kids :
  (forall x, x ∈ live <-> x ∈ live') -> forest h live kids -> forest h live' kids.
Proof.
  intros E [Hc Hl Hp [rank Hr]]. split.
  - intros p Hp'. apply Hc. by apply E.
  - intros p c ?%E ?. apply E. eauto.
  - intros c Hc'%E. destruct (Hp c Hc') as (q & ? & Hq). exists q. rewrite <- E. done.
  - exists rank. intros p c ?%E. auto.
Qed.

Lemma forest_ext h h' live kids :
  (forall x, x ∈ live -> fld p_child h' x = fld p_child h x /\ fld p_rSib h' x = fld p_rSib h x /\
             fld p_prnt h' x = fld p_prnt h x) ->
  forest h live kids -> forest h' live kids.
Proof.
  intros E [Hc Hl Hp Hr]. split; [|done| |done].
  - intros p Hp'. eapply children_keep; [by apply E|intros; split; apply E; eauto|auto].
  - intros c Hc'. destruct (E c Hc') as (_ & _ & ->). auto.
Qed.

(** The parent of a child is unique. *)
Lemma forest_child h live kids p c :
  forest h live kids -> p ∈ live -> c ∈ kids p -> fld p_prnt h c = Some p.
Proof. intros Hf Hp Hc. destruct (forest_children _ _ _ Hf p Hp) as (? & _ & _ & H). auto. Qed.

Lemma forest_no_self h live kids p : forest h live kids -> p ∈ live -> p ∉ kids p.
Proof. intros Hf Hp Hc. destruct (forest_rank _ _ _ Hf) as [rank Hr]. specialize (Hr p p Hp Hc). lia. Qed.

(** A fresh pcb is a tree of its own. *)
Lemma forest_new h live kids p :
  forest h live kids -> p ∉ live -> fld p_child h p = Some NULL -> fld p_prnt h p = Some NULL ->
  forest h (p :: live) (<[p := []]> kids).
Proof.
  intros Hf Hp Hc Hpr. assert (forall x, x ∈ live -> x <> p) as Hne by set_solver.
  destruct Hf as [Hch Hl Hpa [rank Hr]]. split.
  - intros x [->|Hx]%elem_of_cons.
    + rewrite fn_lookup_insert. exists NULL. split_and!; [done|done|set_solver].
    + rewrite fn_lookup_insert_ne by (by apply not_eq_sym, Hne). auto.
  - intros x c [->|Hx]%elem_of_cons; [rewrite fn_lookup_insert; set_solver|].
    rewrite fn_lookup_insert_ne by (by apply not_eq_sym, Hne). intros. apply elem_of_cons. eauto.
  - intros c [->|Hx]%elem_of_cons; [eauto|]. destruct (Hpa c Hx) as (q & ? & Hq). exists q.
    split; [done|]. destruct Hq as [|[Hq ?]]; [by left|right].
    rewrite fn_lookup_insert_ne by (by apply not_eq_sym, Hne). split; [by apply elem_of_cons; right|done].
  - exists rank. intros x c [->|Hx]%elem_of_cons; [rewrite fn_lookup_insert; set_solver|].
    rewrite fn_lookup_insert_ne by (by apply not_eq_sym, Hne). auto.
Qed.

(** Freeing a leaf that has no parent. *)
Lemma forest_drop h live live' kids p :
  forest h live kids -> (forall x, x ∈ live <-> x = p \/ x ∈ live') -> p ∉ live' ->
  kids p = [] -> fld p_prnt h p = Some NULL -> p <> NULL -> NULL ∉ live -> forest h live' kids.
Proof.
  intros Hf E Hp Hk Hpr HpN Hn. assert (p ∈ live) by set_solver.
  pose proof (fun q Hq => forest_child _ _ _ q p Hf Hq) as Hno.
  destruct Hf as [Hch Hl Hpa [rank Hr]]. split.
  - intros x Hx. apply Hch. set_solver.
  - intros x c Hx Hc. assert (x ∈ live) as Hxl by set_solver.
    apply (Hl x c) in Hxl as Hcl; [|done]. apply E in Hcl as [->|]; [|done].
    specialize (Hno x Hxl Hc). rewrite Hpr in Hno. simplify_eq.
  - intros c Hc. destruct (Hpa c ltac:(set_solver)) as (q & Hq & Hor). exists q. split; [done|].
    destruct Hor as [|[Hql Hcq]]; [by left|right]. apply E in Hql as [->|]; [|done].
    rewrite Hk in Hcq. set_solver.
  - exists rank. intros x c Hx. apply Hr. set_solver.
Qed.

(** The general step: the list of children of [q] changes. *)
Lemma forest_update h h' live kids q l nodes :
  forest h live kids -> q ∈ live -> children h' q l -> others_kept q nodes h h' ->
  (forall r x, r ∈ live -> r <> q -> x ∈ kids r -> x ∉ nodes) ->
  (forall x, x ∈ l -> x ∈ live) ->
  (forall c, c ∈ live -> fld p_prnt h' c = Some NULL \/ c ∈ l \/
                         fld p_prnt h' c = fld p_prnt h c /\ c ∉ kids q) ->
  (exists rank : Z -> nat, forall p c, p ∈ live -> c ∈ (<[q := l]> kids) p -> (rank p < rank c)%nat) ->
  forest h' live (<[q := l]> kids).
Proof.
  intros [Hch Hl Hpa _] Hq Hql Ho Hd Hll Hpar Hr. split; [| | |done].
  - intros p Hp. destruct (decide (p = q)) as [->|]; [by rewrite fn_lookup_insert|].
    rewrite fn_lookup_insert_ne by done. eapply children_others; [done|done| |auto].
    intros x. by apply Hd.
  - intros p c Hp. destruct (decide (p = q)) as [->|]; [rewrite fn_lookup_insert; auto|].
    rewrite fn_lookup_insert_ne by done. eauto.
  - intros c Hc. destruct (Hpar c Hc) as [HN|[Hcl|[E Hnq]]]; [eauto| |].
    + exists q. destruct Hql as (? & _ & _ & Hp). split; [auto|]. right.
      by rewrite fn_lookup_insert.
    + destruct (Hpa c Hc) as (r & Hr' & Hor). exists r. rewrite E. split; [done|].
      destruct Hor as [|[Hrl Hcr]]; [by left|right]. rewrite fn_lookup_insert_ne; [done|].
      by intros ->.
Qed.

Lemma forest_insertChild s live kids q p :
  forest (pcbs s) live kids -> q ∈ live -> p ∈ live -> p <> q -> NULL ∉ live ->
  fld p_prnt (pcbs s) p = Some NULL -> kids p = [] ->
  exists h', insertChild q p s = Ret tt (set_pcbs h' s) /\
             forest h' live (<[q := p :: kids q]> kids) /\ frame erase_tree (q :: p :: kids q) (pcbs s) h'.
Proof.
  intros Hf Hq Hp Hpq Hn Hpr Hk.
  assert (forall r, r ∈ live -> p ∉ kids r) as Hno.
  { intros r Hr Hin. pose proof (forest_child _ _ _ _ _ Hf Hr Hin). by simplify_eq. }
  assert (is_Some (pcbs s !! p)) by (by eapply fld_is_Some).
  destruct (insertChild_ok s q p (kids q)) as (h' & Hrun & Hch & Ho & Hfr);
    [by apply Hf|set_solver|set_solver|done|auto|].
  exists h'. split_and!; [done| |done]. pose proof Ho as [_ Hkeep].
  eapply forest_update; [done..| | | |].
  - intros r x Hr _ Hx ->%list_elem_of_singleton. by apply (Hno r).
  - intros x [->|Hx]%elem_of_cons; [done|]. by eapply (forest_live _ _ _ Hf q).
  - intros c Hc. destruct (decide (c ∈ p :: kids q)) as [|Hcn]; [by auto|right; right].
    apply not_elem_of_cons in Hcn as [? ?]. split; [|done]. apply Hkeep. set_solver.
  - destruct (forest_rank _ _ _ Hf) as [rank Hr].
    exists (<[p := S (rank q)]> rank). intros x c Hx Hc.
    assert (x <> p) as Hxp.
    { intros ->. rewrite fn_lookup_insert_ne in Hc by done. rewrite Hk in Hc. set_solver. }
    rewrite (fn_lookup_insert_ne _ p x) by done.
    destruct (decide (x = q)) as [->|].
    + rewrite fn_lookup_insert in Hc. apply elem_of_cons in Hc as [->|Hc].
      * rewrite fn_lookup_insert. lia.
      * rewrite fn_lookup_insert_ne by (intros ->; by apply (Hno q)). auto.
    + rewrite fn_lookup_insert_ne in Hc by done.
      rewrite fn_lookup_insert_ne by (intros ->; by apply (Hno x)). auto.
Qed.

(** Removing one child, whatever the operation that did it. *)
Lemma forest_orphan h h' live kids q l1 x l2 nodes :
  forest h live kids -> q ∈ live -> kids q = l1 ++ x :: l2 -> NULL ∉ live ->
  children h' q (l1 ++ l2) -> fld p_prnt h' x = Some NULL -> others_kept q nodes h h' ->
  (forall y, y ∈ nodes -> y ∈ kids q) -> forest h' live (<[q := l1 ++ l2]> kids).
Proof.
  intros Hf Hq Hk Hn Hch Hx Ho Hnodes.
  assert (forall r y, r ∈ live -> r <> q -> y ∈ kids r -> y ∉ kids q) as Hdisj.
  { intros r y Hr Hne Hy Hy'. pose proof (forest_child _ _ _ _ _ Hf Hr Hy).
    pose proof (forest_child _ _ _ _ _ Hf Hq Hy'). congruence. }
  pose proof Ho as [_ Hkeep]. eapply forest_update; [done..| | | |].
  - intros r y Hr Hne Hy Hin. by eapply (Hdisj r y), Hnodes.
  - intros y Hy. apply (forest_live _ _ _ Hf q); [done|]. rewrite Hk. set_solver.
  - intros c Hc. destruct (decide (c = x)) as [->|]; [by left|right].
    destruct (decide (c ∈ kids q)) as [Hck|Hck].
    + left. rewrite Hk in Hck. set_solver.
    + right. split; [|done]. apply Hkeep. intros ?. by apply Hck, Hnodes.
  - destruct (forest_rank _ _ _ Hf) as [rank Hr]. exists rank. intros y c Hy Hc.
    apply (Hr y c Hy). destruct (decide (y = q)) as [->|].
    + rewrite fn_lookup_insert in Hc. rewrite Hk. set_solver.
    + by rewrite fn_lookup_insert_ne in Hc by done.
Qed.

Lemma forest_removeChild s live kids q x l :
  forest (pcbs s) live kids -> q ∈ live -> NULL ∉ live -> kids q = x :: l ->
  exists h', removeChild q s = Ret x (set_pcbs h' s) /\ forest h' live (<[q := l]> kids) /\
             fld p_prnt h' x = Some NULL /\ frame erase_tree (q :: x :: l) (pcbs s) h'.
Proof.
  intros Hf Hq Hn Hk. pose proof (forest_children _ _ _ Hf q Hq) as Hch. rewrite Hk in Hch.
  destruct (removeChild_ok s q x l Hch ltac:(set_solver)) as (h' & Hrun & Hch' & Hp & Ho & Hfr).
  exists h'. split_and!; [done| |done|done].
  eapply (forest_orphan _ _ _ _ q [] x l [x]); [done..|]. rewrite Hk. set_solver.
Qed.

Lemma forest_outChild s live kids p :
  forest (pcbs s) live kids -> p ∈ live -> NULL ∉ live ->
  (forall q, q ∈ live -> (length (kids q) <= walk_fuel)%nat) ->
  exists h' kids' r, outChild p s = Ret r (set_pcbs h' s) /\ forest h' live kids' /\
    fld p_prnt h' p = Some NULL /\ (forall q, q ∈ live -> kids' q = filter (fun x => x <> p) (kids q)) /\
    frame erase_tree live (pcbs s) h'.
Proof.
  intros Hf Hp Hn Hlen. destruct (forest_parent _ _ _ Hf p Hp) as (q & Hpq & [->|[Hq Hpk]]).
  { exists (pcbs s), kids, NULL. split_and!; [by rewrite outChild_orphan, set_pcbs_id|done..| |apply frame_refl].
    intros r Hr. symmetry. apply list_filter_all. intros x Hx ->.
    rewrite (forest_child _ _ _ _ _ Hf Hr Hx) in Hpq. congruence. }
  pose proof (forest_children _ _ _ Hf q Hq) as Hch. pose proof (Hlen q Hq) as Hl.
  assert (p <> q) by (intros ->; by eapply forest_no_self).
  assert (forall l1 l2 r, kids q = l1 ++ p :: l2 -> r ∈ live ->
    (<[q := l1 ++ l2]> kids) r = filter (fun x => x <> p) (kids r)) as Hrest.
  { intros l1 l2 r E Hr. destruct (decide (r = q)) as [->|].
    - rewrite fn_lookup_insert, E, filter_without; [done|]. rewrite <- E. by eapply children_NoDup.
    - rewrite fn_lookup_insert_ne by done. symmetry. apply list_filter_all. intros x Hx ->.
      rewrite (forest_child _ _ _ _ _ Hf Hr Hx) in Hpq. congruence. }
  assert (kids q ⊆ live) as Hsub by (intros x; by apply (forest_live _ _ _ Hf q)).
  destruct (kids q) as [|y l] eqn:Hk; [set_solver|].
  destruct (decide (p = y)) as [->|].
  - destruct (outChild_first s q y l Hch ltac:(set_solver)) as (h' & Hrun & Hch' & Hp' & Ho & Hfr).
    exists h', (<[q := l]> kids), y. split_and!; [done| |done| |].
    + eapply (forest_orphan _ _ _ _ q [] y l [y]); [done..|]. rewrite Hk. set_solver.
    + intros r. by apply (Hrest []).
    + eapply frame_mono; [|exact Hfr]. set_solver.
  - apply elem_of_cons in Hpk as [?|(l1 & l2 & ->)%list_elem_of_split]; [done|].
    destruct (exists_last (l := y :: l1) ltac:(done)) as (l0 & x & E).
    assert (y :: l1 ++ p :: l2 = l0 ++ x :: p :: l2) as E2.
    { rewrite app_comm_cons, E, <- app_assoc. done. }
    rewrite E2 in *. rewrite length_app in Hl. cbn in Hl.
    destruct (outChild_later s q l0 x p l2 Hch ltac:(set_solver) ltac:(lia))
      as (h' & Hrun & Hch' & Hp' & Ho & Hfr).
    exists h', (<[q := (l0 ++ [x]) ++ l2]> kids), p. split_and!; [done| |done| |].
    + eapply (forest_orphan _ _ _ _ q (l0 ++ [x]) p l2 [x; p]); try done.
      * by rewrite Hk, <- app_assoc.
      * by rewrite <- app_assoc.
      * rewrite Hk. set_solver.
    + intros r. apply Hrest. by rewrite <- app_assoc.
    + eapply frame_mono; [|exact Hfr]. set_solver.
Qed.
End forest.
