(* ===== verification/Asl.v ===== *)
(** * The active semaphore list: phase1/asl.c

    Semaphore descriptors live in a table of MAXPROC + 2 entries, on a free list or on the ASL, a
    singly linked list sorted by semaphore address that starts at a dummy descriptor of key 0;
    each active descriptor owns the queue of the processes blocked on its semaphore. *)
From S2P Require Export Pcb.

Definition MAXSEMDS : Z := MAXPROC + 2.

(** A walk over the ASL visits each descriptor at most once, and ends with one more test. *)
Definition asl_fuel : nat := 23.

Definition freeSemd (a : Z) : K unit :=
  if a =? NULL then ret tt
  else
    do h <- gets semdFree_h;
    if h =? NULL then
      do! upd_semd a (set_s_next NULL);
      modify (set_semdFree_h a)
    else
      do! upd_semd a (set_s_next h);
      modify (set_semdFree_h a).

Definition allocSemd : K Z :=
  do h <- gets semdFree_h;
  if h =? NULL then ret NULL
  else
    let newSemd := h in
    do n <- get_semd h s_next;
    do! modify (set_semdFree_h n);
    do! upd_semd newSemd (set_s_next NULL);
    ret newSemd.

Section initASL.
Context {m : Machine}.

(** [&semdTable[i]] *)
Definition semd_addr (i : Z) : Z := semdTable + i * sizeof_semd_t.

Definition initASL : K unit :=
  do! modify (set_semdFree_h NULL);
  do! for_each (seqZ 0 MAXSEMDS) (fun i => freeSemd (semd_addr i));
  do h <- allocSemd;
  do! modify (set_semd_h h);
  do! upd_semd h (set_s_semAdd 0);
  do! upd_semd h (set_s_procQ mkEmptyProcQ);
  do dummyTail <- allocSemd;
  do! upd_semd dummyTail (set_s_semAdd MAXINT);
  do! upd_semd dummyTail (set_s_procQ mkEmptyProcQ);
  do h <- gets semd_h;
  do! upd_semd h (set_s_next dummyTail);
  upd_semd dummyTail (set_s_next NULL).

End initASL.

(** The loop of [getSemd]; the result is the returned descriptor and the value left in the
    out-parameter [*prev]. *)
Fixpoint getSemd_loop (fuel : nat) (semAdd curr parent : Z) : K (Z * Z) :=
  match fuel with
  | O => crash OutOfFuel
  | S fuel =>
      if curr =? NULL then ret (curr, parent)
      else
        do key <- get_semd curr s_semAdd;
        if key <? semAdd then
          do n <- get_semd curr s_next;
          getSemd_loop fuel semAdd n curr
        else ret (curr, parent)
  end.

Definition getSemd (semAdd : Z) : K (Z * Z) :=
  do h <- gets semd_h;
  getSemd_loop asl_fuel semAdd h NULL.

(** [curr == NULL || curr->s_semAdd != semAdd] *)
Definition not_found (curr semAdd : Z) : K bool :=
  if curr =? NULL then ret true
  else do key <- get_semd curr s_semAdd; ret (negb (key =? semAdd)).

(** The end of [insertBlocked]: [p] joins the queue of the descriptor [curr]. *)
Definition insertBlocked_enqueue (semAdd p curr : Z) : K bool :=
  do! upd_pcb p (set_p_semAdd semAdd);
  do! insertProcQ (TP_procQ curr) p;
  ret false.

(** The result is TRUE when a descriptor is needed and none is free. *)
Definition insertBlocked (semAdd p : Z) : K bool :=
  do r <- getSemd semAdd;
  let curr := fst r in
  let prev := snd r in
  do nf <- not_found curr semAdd;
  if nf : bool then
    do f <- gets semdFree_h;
    if f =? NULL then ret true
    else
      do newSemd <- allocSemd;
      do! upd_semd newSemd (set_s_semAdd semAdd);
      do! upd_semd newSemd (set_s_procQ mkEmptyProcQ);
      do! upd_semd newSemd (set_s_next curr);
      do! upd_semd prev (set_s_next newSemd);
      insertBlocked_enqueue semAdd p newSemd
  else insertBlocked_enqueue semAdd p curr.

(** The end of [removeBlocked] and [outBlocked]: an empty descriptor leaves the ASL. *)
Definition release_if_empty (curr prev : Z) : K unit :=
  do q <- get_semd curr s_procQ;
  if emptyProcQ q then
    do! (if prev =? NULL then ret tt
         else
           do n <- get_semd curr s_next;
           upd_semd prev (set_s_next n));
    freeSemd curr
  else ret tt.

Definition removeBlocked (semAdd : Z) : K Z :=
  do r <- getSemd semAdd;
  let curr := fst r in
  let prev := snd r in
  do nf <- not_found curr semAdd;
  if nf : bool then ret NULL
  else
    do removed <- removeProcQ (TP_procQ curr);
    do! (if removed =? NULL then ret tt else upd_pcb removed (set_p_semAdd NULL));
    do! release_if_empty curr prev;
    ret removed.

Definition outBlocked (p : Z) : K Z :=
  if p =? NULL then ret NULL
  else
    do k <- get_pcb p p_semAdd;
    if k =? NULL then ret NULL
    else
      do r <- getSemd k;
      let curr := fst r in
      let prev := snd r in
      do nf <- not_found curr k;
      if nf : bool then ret NULL
      else
        do removed <- outProcQ (TP_procQ curr) p;
        if removed =? NULL then ret NULL
        else
          do! release_if_empty curr prev;
          ret removed.

Definition headBlocked (semAdd : Z) : K Z :=
  do r <- getSemd semAdd;
  let curr := fst r in
  do nf <- not_found curr semAdd;
  if nf : bool then ret NULL
  else
    do q <- get_semd curr s_procQ;
    headProcQ q.

(** * Lemmas *)
Lemma asl_fuel_eq : asl_fuel = 23%nat.
Proof. reflexivity. Qed.

#[global] Opaque asl_fuel.
