(* ===== verification/AslSpec.v ===== *)
(** * The active semaphore list: specification

    What asl.c promises: a map from semaphore addresses to queues of blocked processes.  [asl s L fs]
    relates the concrete list of descriptors to its entries [L] (descriptor, key, processes from
    head to tail) and to the free descriptors [fs]; [procs_at L k] is the queue of semaphore [k]. *)
From S2P Require Export PcbAlloc Asl.

Record entry : Type := Entry { e_semd : Z; e_key : Z; e_procs : list Z }.

Definition asl_node (s : kstate) (e : entry) : Prop :=
  fld s_semAdd (semds s) (e_semd e) = Some (e_key e) /\
  (exists t, fld s_procQ (semds s) (e_semd e) = Some t /\ is_queue (pcbs s) t (e_procs e)) /\
  (forall p, p ∈ e_procs e -> fld p_semAdd (pcbs s) p = Some (e_key e)).

(** The processes blocked on [k], and all blocked processes. *)
Definition procs_at (L : list entry) (k : Z) : list Z :=
  L ≫= fun e => if e_key e =? k then e_procs e else [].
Definition blocked (L : list entry) : list Z := L ≫= e_procs.

#[global] Arguments procs_at : simpl never.
#[global] Arguments blocked : simpl never.

(** The two dummy keys. *)
Definition dummy_key (k : Z) : Prop := k = 0 \/ k = MAXINT.

Record asl_core (s : kstate) (L : list entry) (fs : list Z) : Prop := {
  asl_list : is_list (fld s_next (semds s)) (semd_h s) (e_semd <$> L);
  asl_free : is_list (fld s_next (semds s)) (semdFree_h s) fs;
  asl_nodup : NoDup ((e_semd <$> L) ++ fs);
  asl_nodes : Forall (asl_node s) L;
  asl_sorted : StronglySorted Z.lt (e_key <$> L);
  asl_procs : NoDup (blocked L);
  asl_head : exists a L', L = Entry a 0 [] :: L';
  asl_tail : exists b, Entry b MAXINT [] ∈ L;
  asl_total : (length L + length fs = 22)%nat
}.

(** Every descriptor but the dummies has somebody waiting. *)
Definition asl_active (L : list entry) : Prop :=
  Forall (fun e => e_procs e = [] <-> dummy_key (e_key e)) L.

Definition asl (s : kstate) (L : list entry) (fs : list Z) : Prop := asl_core s L fs /\ asl_active L.

(** A semaphore address the ASL can hold a queue for. *)
Definition sem_key (k : Z) : Prop := 0 < k < NULL /\ k <> MAXINT.

Definition erase_blocked (r : pcb_t) : pcb_t := set_p_semAdd 0 (erase_links r).

(** The descriptor before and the first descriptor of a list of entries. *)
Definition first_semd (L : list entry) : Z := default NULL (e_semd <$> head L).
Definition last_semd (d : Z) (L : list entry) : Z := default d (e_semd <$> last L).

(** Two states that differ at most in the pcbs and in the descriptors. *)
Definition asl_only (s s' : kstate) : Prop :=
  exists h D f, s' = set_semdFree_h f (set_semds D (set_pcbs h s)).

(** [L'] is [L] with [q] as the queue of [k]. *)
Definition asl_put (L : list entry) (k : Z) (q : list Z) (L' : list entry) : Prop :=
  procs_at L' k = q /\ forall k', k' <> k -> procs_at L' k' = procs_at L k'.

(** * Lemmas *)
Section lookup.
Implicit Types (s : kstate) (L : list entry) (k : Z).

Lemma procs_at_app L1 L2 k : procs_at (L1 ++ L2) k = procs_at L1 k ++ procs_at L2 k.
Proof. apply bind_app. Qed.

Lemma procs_at_cons e L k :
  procs_at (e :: L) k = (if e_key e =? k then e_procs e else []) ++ procs_at L k.
Proof. done. Qed.

Lemma procs_at_none L k : Forall (fun e => e_key e <> k) L -> procs_at L k = [].
Proof.
  induction 1 as [|e L He _ IH]; [done|]. rewrite procs_at_cons, IH.
  by rewrite (proj2 (Z.eqb_neq _ _) He).
Qed.

Lemma getSemd_loop_ok s k L c parent fuel :
  is_list (fld s_next (semds s)) c (e_semd <$> L) -> Forall (asl_node s) L ->
  StronglySorted Z.lt (e_key <$> L) -> (length L < fuel)%nat ->
  exists L1 L2, L = L1 ++ L2 /\
    Forall (fun e => e_key e < k) L1 /\ Forall (fun e => k <= e_key e) L2 /\
    getSemd_loop fuel k c parent s = Ret (first_semd L2, last_semd parent L1) s.
Proof.
  revert L c parent. induction fuel as [|fuel IH]; intros L c parent Hl Hn Hs Hf; [lia|].
  cbn [getSemd_loop]. destruct L as [|e L].
  - cbn in Hl. subst c. exists [], []. split_and!; [done..|]. by kif.
  - destruct Hl as (-> & Hc & n & Hnx & Hl). apply Forall_cons in Hn as [[Hk _] Hn].
    cbn in Hs. apply StronglySorted_inv in Hs as [Hs Hlt]. kif. ksteps.
    destruct (Z.ltb_spec (e_key e) k).
    + destruct (IH L n (e_semd e) Hl Hn Hs ltac:(cbn in Hf; lia)) as (L1 & L2 & -> & H1 & H2 & Hrun).
      exists (e :: L1), L2. split_and!; [done|by constructor|done|].
      ksteps. rewrite Hrun. do 2 f_equal. unfold last_semd. rewrite last_cons.
      by destruct (last L1).
    + exists [], (e :: L). split_and!; [done|done| |done].
      constructor; [done|]. rewrite Forall_fmap in Hlt.
      eapply Forall_impl; [exact Hlt|]. cbn. lia.
Qed.

Lemma asl_length s L fs : asl_core s L fs -> (length L < asl_fuel)%nat.
Proof. intros H. rewrite asl_fuel_eq. pose proof (asl_total _ _ _ H). lia. Qed.

(** The two outcomes of a search for [k]. *)
Lemma getSemd_ok s L fs k :
  asl_core s L fs ->
  exists L1 L2, L = L1 ++ L2 /\ Forall (fun e => e_key e < k) L1 /\
    getSemd k s = Ret (first_semd L2, last_semd NULL L1) s /\
    ((exists e L3, L2 = e :: L3 /\ e_key e = k /\ Forall (fun e => k < e_key e) L3 /\
                   not_found (first_semd L2) k s = Ret false s) \/
     Forall (fun e => k < e_key e) L2 /\ not_found (first_semd L2) k s = Ret true s).
Proof.
  intros Ha. destruct (getSemd_loop_ok s k L (semd_h s) NULL asl_fuel)
    as (L1 & L2 & -> & H1 & H2 & Hrun);
    [apply Ha|apply Ha|apply Ha|by eapply asl_length|].
  exists L1, L2. split_and!; [done..|]. pose proof (asl_sorted _ _ _ Ha) as Hs.
  pose proof (asl_nodes _ _ _ Ha) as Hn. apply Forall_app in Hn as [_ Hn].
  pose proof (is_list_not_NULL _ _ _ (asl_list _ _ _ Ha)) as Hnn.
  rewrite fmap_app in Hs. destruct L2 as [|e L3]; [by right|].
  apply Forall_cons in Hn as [[Hk _] _]. apply Forall_cons in H2 as [Hle H3].
  assert (e_semd e <> NULL).
  { intros E. apply Hnn. rewrite fmap_app, fmap_cons, E. set_solver. }
  assert (not_found (e_semd e) k s = Ret (negb (e_key e =? k)) s) as Hnf
    by (unfold not_found; kif; by ksteps).
  assert (Forall (fun e' => e_key e < e_key e') L3) as Hlt.
  { apply StronglySorted_app_1_r in Hs. cbn in Hs. apply StronglySorted_inv in Hs as [_ Hs].
    by rewrite Forall_fmap in Hs. }
  change (first_semd (e :: L3)) with (e_semd e). rewrite Hnf.
  destruct (Z.eqb_spec (e_key e) k) as [<-|Hne].
  - left. by exists e, L3.
  - right. split; [|done]. constructor; [lia|]. eapply Forall_impl; [exact Hlt|]. cbn. lia.
Qed.

Lemma procs_at_mid L1 e L2 k :
  Forall (fun e => e_key e < k) L1 -> e_key e = k -> Forall (fun e => k < e_key e) L2 ->
  procs_at (L1 ++ e :: L2) k = e_procs e.
Proof.
  intros H1 He H2. rewrite procs_at_app, procs_at_cons, !(procs_at_none _ k).
  - by rewrite He, Z.eqb_refl, app_nil_r.
  - eapply Forall_impl; [exact H2|]. cbn. lia.
  - eapply Forall_impl; [exact H1|]. cbn. lia.
Qed.

Lemma procs_at_absent L1 L2 k :
  Forall (fun e => e_key e < k) L1 -> Forall (fun e => k < e_key e) L2 ->
  procs_at (L1 ++ L2) k = [].
Proof.
  intros H1 H2. apply procs_at_none, Forall_app. split; (eapply Forall_impl; [eassumption|]); cbn; lia.
Qed.

Lemma procs_at_other L1 e L2 k :
  e_key e <> k -> procs_at (L1 ++ e :: L2) k = procs_at (L1 ++ L2) k.
Proof.
  intros He. rewrite !procs_at_app, procs_at_cons. by rewrite (proj2 (Z.eqb_neq _ _) He).
Qed.

Lemma blocked_app L1 L2 : blocked (L1 ++ L2) = blocked L1 ++ blocked L2.
Proof. apply bind_app. Qed.

Lemma blocked_cons e L : blocked (e :: L) = e_procs e ++ blocked L.
Proof. done. Qed.

Lemma elem_of_blocked L p : p ∈ blocked L <-> exists e, e ∈ L /\ p ∈ e_procs e.
Proof. unfold blocked. rewrite list_elem_of_bind. firstorder. Qed.

Lemma procs_at_blocked L k p : p ∈ procs_at L k -> p ∈ blocked L.
Proof.
  unfold procs_at, blocked. rewrite !list_elem_of_bind. intros (e & Hp & He). exists e.
  split; [|done]. destruct (e_key e =? k); [done|set_solver].
Qed.
End lookup.

(** ** Changing one entry *)
Section steps.
Implicit Types (s : kstate) (L : list entry) (k : Z).

Lemma asl_node_keep s s' e :
  fld s_semAdd (semds s') (e_semd e) = fld s_semAdd (semds s) (e_semd e) ->
  fld s_procQ (semds s') (e_semd e) = fld s_procQ (semds s) (e_semd e) ->
  (forall x, x ∈ e_procs e -> fld p_next (pcbs s') x = fld p_next (pcbs s) x /\
                              fld p_prev (pcbs s') x = fld p_prev (pcbs s) x /\
                              fld p_semAdd (pcbs s') x = fld p_semAdd (pcbs s) x) ->
  asl_node s e -> asl_node s' e.
Proof.
  intros H1 H2 H3 (Hk & (t & Ht & Hq) & Hp). split_and!; [by rewrite H1| |].
  - exists t. rewrite H2. split; [done|]. eapply is_queue_ext; [|done]. naive_solver.
  - intros p Hpe. destruct (H3 p Hpe) as (_ & _ & ->). auto.
Qed.

(** The head entry comes before any entry of a positive key. *)
Lemma asl_before s L1 L2 fs k :
  asl_core s (L1 ++ L2) fs -> 0 < k -> Forall (fun e => k <= e_key e) L2 ->
  exists L0 x, L1 = L0 ++ [x].
Proof.
  intros Ha Hk H2. destruct (asl_head _ _ _ Ha) as (a & L' & E).
  destruct L1 as [|y L1].
  - cbn in E. subst L2. apply Forall_cons in H2 as [H2 _]. cbn in H2. lia.
  - destruct (exists_last (l := y :: L1) ltac:(done)) as (L0 & x & ->). eauto.
Qed.

(** The queue of the entry [e] becomes [q'] with tail [t']. *)
Lemma asl_set_queue s L1 a k q L2 fs h' t' q' (er : pcb_t -> pcb_t) X :
  asl_core s (L1 ++ Entry a k q :: L2) fs -> ~ dummy_key k ->
  is_queue h' t' q' -> (forall p, p ∈ q' -> fld p_semAdd h' p = Some k) -> frame er X (pcbs s) h' ->
  (forall x, x ∈ X -> x ∉ blocked (L1 ++ L2)) ->
  NoDup (blocked (L1 ++ Entry a k q' :: L2)) ->
  asl_core (set_pcbs h' (set_semds (alter (set_s_procQ t') a (semds s)) s))
           (L1 ++ Entry a k q' :: L2) fs.
Proof.
  intros [Hl Hf Hnd Hn Hs Hp Hh Ht Hc] Hk Hq Hq' Hfr HX Hnd'.
  rewrite fmap_app, fmap_cons in *. cbn [e_semd e_key] in *.
  split; cbn [semds pcbs set_pcbs set_semds semd_h semdFree_h];
    rewrite ?fmap_app, ?fmap_cons; cbn [e_semd e_key]; try done.
  - eapply is_list_ext; [|exact Hl]. intros x _. by fld_simp.
  - eapply is_list_ext; [|exact Hf]. intros x _. by fld_simp.
  - assert (forall e, e ∈ L1 ++ L2 -> asl_node s e ->
              asl_node (set_pcbs h' (set_semds (alter (set_s_procQ t') a (semds s)) s)) e) as Hkeep.
    { intros e He. assert (a <> e_semd e).
      { intros ->. apply NoDup_app in Hnd as [Hnd _].
        rewrite <- Permutation_middle in Hnd. apply NoDup_cons in Hnd as [Ha _].
        apply Ha. rewrite <- fmap_app. by apply list_elem_of_fmap_2. }
      apply asl_node_keep; cbn; [by fld_simp|by fld_simp|].
      intros x Hx. assert (x ∉ X).
      { intros HxX. apply (HX x HxX), elem_of_blocked. eauto. }
      by rewrite !(frame_fld_notin _ _ _ _ _ _ H0 Hfr). }
    rewrite Forall_app, Forall_cons in Hn |- *. destruct Hn as (Hn1 & (Hka & (t & Hta & _) & _) & Hn2).
    rewrite !Forall_forall in *. split_and!; [intros e He; apply Hkeep; [set_solver|auto]| |
      intros e He; apply Hkeep; [set_solver|auto]].
    split_and!; cbn; [by fld_simp| |done]. exists t'. split; [fld_simp; eauto with kernel|done].
  - destruct Hh as (b & L' & E). destruct L1 as [|x L1]; cbn in E; simplify_eq; [|cbn; eauto].
    exfalso. apply Hk. by left.
  - destruct Ht as (b & Hb). exists b. apply elem_of_app in Hb as [Hb|Hb]; [set_solver|].
    apply elem_of_cons in Hb as [Hb|Hb]; [|set_solver]. simplify_eq. exfalso. apply Hk. by right.
  - rewrite length_app in *. cbn in *. lia.
Qed.

(** The entries before and after a new key. *)
Lemma sorted_insert L1 L2 e :
  StronglySorted Z.lt (e_key <$> L1 ++ L2) ->
  Forall (fun x => e_key x < e_key e) L1 -> Forall (fun x => e_key e < e_key x) L2 ->
  StronglySorted Z.lt (e_key <$> L1 ++ e :: L2).
Proof.
  rewrite !fmap_app, fmap_cons, !Forall_forall. intros Hs H1 H2.
  apply StronglySorted_app in Hs as (H12 & Hs1 & Hs2). apply StronglySorted_app.
  split_and!; [|done|].
  - intros a b Ha [->|Hb]%elem_of_cons; [|by apply H12].
    apply list_elem_of_fmap in Ha as (x & -> & Hx). auto.
  - constructor; [done|]. apply Forall_forall. intros a (x & -> & Hx)%list_elem_of_fmap. auto.
Qed.

Lemma sorted_delete L1 L2 e :
  StronglySorted Z.lt (e_key <$> L1 ++ e :: L2) -> StronglySorted Z.lt (e_key <$> L1 ++ L2).
Proof.
  rewrite !fmap_app, fmap_cons. intros (H12 & Hs1 & Hs2)%StronglySorted_app.
  apply StronglySorted_inv in Hs2 as [Hs2 _]. apply StronglySorted_app.
  split_and!; [|done|done]. intros a b Ha Hb. apply H12; set_solver.
Qed.

Lemma NoDup_mid {A} (l1 : list A) x l2 : NoDup (l1 ++ x :: l2) -> x ∉ l1 ++ l2.
Proof. rewrite <- Permutation_middle. by intros [? _]%NoDup_cons. Qed.

Lemma is_list_first nx c L : is_list nx c (e_semd <$> L) -> c = first_semd L.
Proof. destruct L; cbn; naive_solver. Qed.

(** A free descriptor joins the list, between [x] and [L2]. *)
Lemma asl_link s L1 x L2 a fs k n D :
  asl_core s (L1 ++ x :: L2) (a :: fs) -> fld s_next (semds s) a = Some n ->
  Forall (fun e => e_key e < k) (L1 ++ [x]) -> Forall (fun e => k < e_key e) L2 ->
  (forall y, y <> a -> fld s_semAdd D y = fld s_semAdd (semds s) y /\
                       fld s_procQ D y = fld s_procQ (semds s) y /\
                       (y <> e_semd x -> fld s_next D y = fld s_next (semds s) y)) ->
  fld s_next D (e_semd x) = Some a -> fld s_next D a = Some (first_semd L2) ->
  fld s_semAdd D a = Some k -> fld s_procQ D a = Some NULL ->
  asl_core (set_semdFree_h n (set_semds D s)) (L1 ++ x :: Entry a k [] :: L2) fs.
Proof.
  intros [Hl Hf Hnd Hn Hs Hp Hh Ht Hc] Hna H1 H2 HD Hx Ha Hka Hqa.
  rewrite fmap_app, fmap_cons in Hnd, Hl.
  pose proof (NoDup_mid _ _ _ Hnd) as Hnda.
  pose proof Hnd as Hndx. rewrite <- app_assoc in Hndx. apply NoDup_mid in Hndx.
  destruct Hf as (_ & HaN & n' & Hn' & Hf).
  assert (n' = n) as -> by congruence. clear Hn'.
  split; cbn [semds pcbs set_semdFree_h set_semds semd_h semdFree_h].
  - rewrite fmap_app, !fmap_cons. cbn [e_semd].
    eapply is_list_splice; [exact Hl| |exact Hx|].
    + intros y Hy. apply HD; set_solver.
    + apply is_list_app in Hl as (c & _ & Hl & _). split_and!; [done..|].
      exists (first_semd L2). split; [done|].
      rewrite <- (is_list_first _ _ _ Hl).
      eapply is_list_ext; [|exact Hl]. intros y Hy. apply HD; set_solver.
  - eapply is_list_ext; [|exact Hf]. intros y Hy. apply HD; set_solver.
  - rewrite fmap_app, !fmap_cons. cbn [e_semd]. rewrite <- app_assoc, <- !app_comm_cons in Hnd |- *.
    by rewrite <- (Permutation_middle (_ <$> L2) fs) in Hnd.
  - rewrite Forall_app, !Forall_cons, !Forall_forall in *. destruct Hn as (Hn1 & Hnx & Hn2).
    assert (forall e, e_semd e <> a -> asl_node s e -> asl_node (set_semdFree_h n (set_semds D s)) e)
      as Hkeep by (intros e He; apply asl_node_keep; cbn; [by apply HD..|done]).
    split_and!.
    + intros e He. apply Hkeep; [|auto]. apply (list_elem_of_fmap_2 e_semd) in He. set_solver.
    + apply Hkeep; [set_solver|done].
    + split_and!; cbn; [done| |set_solver]. eexists. split; [exact Hqa|apply is_queue_nil].
    + intros e He. apply Hkeep; [|auto]. apply (list_elem_of_fmap_2 e_semd) in He. set_solver.
  - rewrite cons_middle, app_assoc. apply sorted_insert; [|done..]. by rewrite <- app_assoc.
  - rewrite blocked_app, !blocked_cons in *. done.
  - destruct Hh as (b & L' & E). destruct L1; cbn in *; simplify_eq; eauto.
  - destruct Ht as (b & Hb). exists b. set_solver.
  - rewrite !length_app in *. cbn in *. lia.
Qed.

(** The empty descriptor after [x] leaves the list and becomes free. *)
Lemma asl_unlink s L1 x L2 a fs k D :
  asl_core s (L1 ++ x :: Entry a k [] :: L2) fs -> ~ dummy_key k ->
  (forall y, fld s_semAdd D y = fld s_semAdd (semds s) y /\
             fld s_procQ D y = fld s_procQ (semds s) y /\
             (y <> a -> y <> e_semd x -> fld s_next D y = fld s_next (semds s) y)) ->
  fld s_next D (e_semd x) = Some (first_semd L2) -> fld s_next D a = Some (semdFree_h s) ->
  asl_core (set_semdFree_h a (set_semds D s)) (L1 ++ x :: L2) (a :: fs).
Proof.
  intros [Hl Hf Hnd Hn Hs Hp Hh Ht Hc] Hk HD Hx Ha.
  rewrite fmap_app, !fmap_cons in Hnd, Hl. cbn [e_semd] in *.
  pose proof Hnd as Hndx. rewrite <- app_assoc in Hndx. pose proof Hndx as Hnda.
  apply NoDup_mid in Hndx. rewrite <- app_comm_cons, cons_middle, app_assoc in Hnda.
  apply NoDup_mid in Hnda.
  split; cbn [semds pcbs set_semdFree_h set_semds semd_h semdFree_h].
  - rewrite fmap_app, !fmap_cons. eapply is_list_splice; [exact Hl| |exact Hx|].
    + intros y Hy. apply HD; set_solver.
    + apply is_list_app in Hl as (c & _ & (_ & _ & d & _ & Hl) & _).
      rewrite <- (is_list_first _ _ _ Hl).
      eapply is_list_ext; [|exact Hl]. intros y Hy. apply HD; set_solver.
  - apply is_list_app in Hl as (c & _ & (_ & HaN & _) & _). split_and!; [done..|].
    exists (semdFree_h s). split; [done|].
    eapply is_list_ext; [|exact Hf]. intros y Hy. apply HD; set_solver.
  - rewrite fmap_app, !fmap_cons. rewrite <- app_assoc, <- !app_comm_cons in Hnd |- *.
    by rewrite <- (Permutation_middle (_ <$> L2) fs).
  - assert (forall e, asl_node s e -> asl_node (set_semdFree_h a (set_semds D s)) e) as Hkeep
      by (intros e; apply asl_node_keep; cbn; [apply HD..|done]).
    rewrite Forall_app, !Forall_cons, !Forall_forall in *. naive_solver.
  - rewrite cons_middle, app_assoc in Hs. apply sorted_delete in Hs.
    by rewrite <- app_assoc in Hs.
  - rewrite blocked_app, !blocked_cons in *. done.
  - destruct Hh as (b & L' & E). destruct L1; cbn in *; simplify_eq; eauto.
  - destruct Ht as (b & Hb). exists b. assert (Entry b MAXINT [] <> Entry a k []).
    { intros ?. simplify_eq. apply Hk. by right. }
    set_solver.
  - rewrite !length_app in *. cbn in *. lia.
Qed.
End steps.

(** ** The operations *)
Section operations.
Implicit Types (s : kstate) (L : list entry) (k p : Z).

Lemma asl_only_refl s : asl_only s s.
Proof. exists (pcbs s), (semds s), (semdFree_h s). by destruct s. Qed.

Lemma asl_same s s' L fs :
  asl s L fs -> pcbs s' = pcbs s -> semds s' = semds s -> semd_h s' = semd_h s ->
  semdFree_h s' = semdFree_h s -> asl s' L fs.
Proof.
  intros [[] Hact] Ep Ed Eh Ef. split; [|done]. split; rewrite ?Ed, ?Eh, ?Ef; try done.
  eapply Forall_impl; [exact asl_nodes0|]. intros e. apply asl_node_keep; rewrite ?Ed, ?Ep; done.
Qed.

Lemma asl_put_mid L1 L2 a k q q' :
  Forall (fun e => e_key e < k) L1 -> Forall (fun e => k < e_key e) L2 ->
  asl_put (L1 ++ Entry a k q :: L2) k q' (L1 ++ Entry a k q' :: L2).
Proof.
  intros H1 H2. split; [by apply procs_at_mid|]. intros k' Hk. by rewrite !procs_at_other.
Qed.

Lemma asl_put_new L1 L2 a k q :
  Forall (fun e => e_key e < k) L1 -> Forall (fun e => k < e_key e) L2 ->
  asl_put (L1 ++ L2) k q (L1 ++ Entry a k q :: L2).
Proof.
  intros H1 H2. split; [by apply procs_at_mid|]. intros k' Hk. by rewrite !procs_at_other.
Qed.

Lemma asl_put_drop L1 L2 a k q :
  Forall (fun e => e_key e < k) L1 -> Forall (fun e => k < e_key e) L2 ->
  asl_put (L1 ++ Entry a k q :: L2) k [] (L1 ++ L2).
Proof.
  intros H1 H2. split; [by apply procs_at_absent|]. intros k' Hk. by rewrite !procs_at_other.
Qed.

Lemma blocked_mid L1 L2 a k q : blocked (L1 ++ Entry a k q :: L2) ≡ₚ q ++ blocked (L1 ++ L2).
Proof. rewrite !blocked_app, blocked_cons. apply Permutation_app_swap_app. Qed.

Lemma sem_key_not_dummy k : sem_key k -> ~ dummy_key k.
Proof. intros [? ?] [?|?]; lia. Qed.

Lemma asl_core_node s L1 e L2 fs : asl_core s (L1 ++ e :: L2) fs -> asl_node s e.
Proof. intros Ha. pose proof (asl_nodes _ _ _ Ha) as Hn. by apply Forall_app in Hn as [_ [? _]%Forall_cons]. Qed.

Lemma insertBlocked_enqueue_ok s L1 a k q L2 fs p :
  asl_core s (L1 ++ Entry a k q :: L2) fs -> ~ dummy_key k ->
  p <> NULL -> is_Some (pcbs s !! p) -> p ∉ blocked (L1 ++ Entry a k q :: L2) ->
  exists h' D, insertBlocked_enqueue k p a s = Ret false (set_pcbs h' (set_semds D s)) /\
    asl_core (set_pcbs h' (set_semds D s)) (L1 ++ Entry a k (q ++ [p]) :: L2) fs /\
    frame erase_blocked (p :: q) (pcbs s) h'.
Proof.
  intros Ha Hk Hp Hs Hpb. rewrite blocked_mid in Hpb.
  pose proof (asl_procs _ _ _ Ha) as Hnd. rewrite blocked_mid in Hnd.
  destruct (asl_core_node _ _ _ _ _ Ha) as (Hka & (t & Ht & Hq) & Hsem). cbn in *.
  unfold insertBlocked_enqueue. kstep.
  set (s1 := set_pcbs (alter (set_p_semAdd k) p (pcbs s)) s).
  destruct (insertProcQ_ok (TP_procQ a) t q p s1) as (h' & Hrun & Hq' & Hf).
  - done.
  - eapply is_queue_ext; [|exact Hq]. intros x _. cbn. by fld_simp.
  - done.
  - cbn. by apply is_Some_alter.
  - set_solver.
  - assert (frame erase_blocked (p :: q) (pcbs s) h') as Hfr.
    { eapply frame_trans; [|eapply frame_weaken; [|exact Hf]; done].
      cbn. apply frame_alter; [done|set_solver]. }
    exists h', (alter (set_s_procQ p) a (semds s)).
    split_and!; [by rewrite (bind_ret _ _ _ _ _ Hrun)| |done].
    apply NoDup_app in Hnd as (Hnd1 & Hnd2 & Hnd3). eapply asl_set_queue; try done.
    + intros x Hx. rewrite (frame_fld p_semAdd erase_links _ _ _ x (fun _ => eq_refl) Hf). cbn.
      destruct (decide (x = p)) as [->|]; [by fld_simp|]. fld_simp. apply Hsem. set_solver.
    + set_solver.
    + rewrite blocked_mid, <- (assoc_L (++)). cbn [app]. rewrite <- Permutation_middle.
      apply NoDup_cons. split; [done|]. by apply NoDup_app.
Qed.

Lemma asl_active_app L1 L2 : asl_active (L1 ++ L2) <-> (asl_active L1 /\ asl_active L2).
Proof. apply Forall_app. Qed.

Lemma asl_active_cons e L :
  asl_active (e :: L) <-> ((e_procs e = [] <-> dummy_key (e_key e)) /\ asl_active L).
Proof. unfold asl_active. by rewrite Forall_cons. Qed.

(** The rest of [insertBlocked] once a free descriptor [a] is known to exist: it is linked in. *)
Lemma insertBlocked_new s L1 L2 a fs k p :
  asl_core s (L1 ++ L2) (a :: fs) -> sem_key k ->
  Forall (fun e => e_key e < k) L1 -> Forall (fun e => k < e_key e) L2 ->
  getSemd k s = Ret (first_semd L2, last_semd NULL L1) s ->
  not_found (first_semd L2) k s = Ret true s ->
  exists n D, asl_core (set_semdFree_h n (set_semds D s)) (L1 ++ Entry a k [] :: L2) fs /\
    insertBlocked k p s = insertBlocked_enqueue k p a (set_semdFree_h n (set_semds D s)).
Proof.
  intros Ha Hk H1 H2 Hget Hnf. unfold insertBlocked.
  rewrite (bind_ret _ _ _ _ _ Hget). cbn [fst snd]. rewrite (bind_ret _ _ _ _ _ Hnf).
  destruct (asl_before s L1 L2 (a :: fs) k) as (L0 & x & ->); [done|apply Hk| |].
  { eapply Forall_impl; [exact H2|]. cbn. lia. }
  pose proof (asl_free _ _ _ Ha) as (Hh & HaN & n & Hn & _).
  pose proof (asl_nodup _ _ _ Ha) as Hnd. rewrite !fmap_app in Hnd.
  apply NoDup_mid in Hnd. assert (a <> e_semd x) as Hax by set_solver.
  assert (is_Some (semds s !! e_semd x)) as Hxs.
  { rewrite <- app_assoc in Ha. apply asl_core_node in Ha as [? _]. by eapply fld_is_Some. }
  assert (last_semd NULL (L0 ++ [x]) = e_semd x) as -> by (unfold last_semd; by rewrite last_snoc).
  rewrite <- (app_assoc L0) in Ha |- *. cbn [app] in *.
  unfold allocSemd. repeat first [rewrite Hh | kif | kstep].
  exists n, (alter (set_s_next a) (e_semd x) (alter (set_s_next (first_semd L2)) a
    (alter (set_s_procQ mkEmptyProcQ) a (alter (set_s_semAdd k) a
      (alter (set_s_next NULL) a (semds s)))))).
  split; [|reflexivity].
  eapply asl_link; try done; intros; split_and?; intros; fld_simp; eauto 20 with kernel.
Qed.

(** [insertBlocked] when the semaphore has a descriptor or one is free. *)
Lemma insertBlocked_ok s L fs k p :
  asl s L fs -> sem_key k -> p <> NULL -> is_Some (pcbs s !! p) -> p ∉ blocked L ->
  procs_at L k <> [] \/ fs <> [] ->
  exists L' fs' s', insertBlocked k p s = Ret false s' /\ asl s' L' fs' /\ asl_only s s' /\
    asl_put L k (procs_at L k ++ [p]) L' /\ blocked L' ≡ₚ p :: blocked L /\
    frame erase_blocked (p :: procs_at L k) (pcbs s) (pcbs s').
Proof.
  intros [Ha Hact] Hk Hp Hs Hpb Hroom. pose proof (sem_key_not_dummy _ Hk) as Hnk.
  destruct (getSemd_ok s L fs k Ha) as (L1 & L2 & -> & H1 & Hget & Hcase).
  unfold insertBlocked. rewrite (bind_ret _ _ _ _ _ Hget). cbn [fst snd].
  destruct Hcase as [(e & L3 & -> & He & H3 & Hnf)|[H2 Hnf]]; rewrite (bind_ret _ _ _ _ _ Hnf).
  - destruct e as [a k' q]. cbn in He. subst k'. rewrite procs_at_mid by done. cbn.
    destruct (insertBlocked_enqueue_ok s L1 a k q L3 fs p) as (h' & D & Hrun & Ha' & Hf); try done.
    exists (L1 ++ Entry a k (q ++ [p]) :: L3), fs. eexists. split_and!; [exact Hrun| | | | |exact Hf].
    + split; [done|]. rewrite asl_active_app, asl_active_cons in Hact |- *. cbn in *.
      destruct Hact as (? & _ & ?). split_and!; [done| |done]. split; [by destruct q|done].
    + exists h', D, (semdFree_h s). by destruct s.
    + by apply asl_put_mid.
    + rewrite !blocked_mid, <- (assoc_L (++)). cbn. by rewrite <- Permutation_middle.
  - rewrite procs_at_absent in Hroom |- * by done. destruct Hroom as [?|Hroom]; [done|].
    destruct fs as [|a fs]; [done|].
    destruct (insertBlocked_new s L1 L2 a fs k p) as (n & D & Ha1 & Hrun1); [done..|].
    destruct (insertBlocked_enqueue_ok _ _ _ _ _ _ _ p Ha1) as (h' & D' & Hrun & Ha2 & Hf); try done.
    { by rewrite blocked_mid. }
    unfold insertBlocked in Hrun1. rewrite (bind_ret _ _ _ _ _ Hget) in Hrun1.
    cbn [fst snd] in Hrun1. rewrite (bind_ret _ _ _ _ _ Hnf) in Hrun1. rewrite Hrun1.
    exists (L1 ++ Entry a k [p] :: L2), fs. eexists. split_and!; [exact Hrun| | | | |exact Hf].
    + split; [done|]. rewrite asl_active_app in Hact |- *. rewrite asl_active_cons. cbn.
      destruct Hact as [? ?]. split_and!; [done| |done]. done.
    + by exists h', D', n.
    + by apply asl_put_new.
    + by rewrite blocked_mid.
Qed.

(** [insertBlocked] when the semaphore has no descriptor and none is free. *)
Lemma insertBlocked_full s L k p :
  asl s L [] -> sem_key k -> procs_at L k = [] -> insertBlocked k p s = Ret true s.
Proof.
  intros [Ha Hact] Hk Hno.
  destruct (getSemd_ok s L [] k Ha) as (L1 & L2 & -> & H1 & Hget & Hcase).
  unfold insertBlocked. rewrite (bind_ret _ _ _ _ _ Hget). cbn [fst snd].
  destruct Hcase as [(e & L3 & -> & He & H3 & Hnf)|[H2 Hnf]]; rewrite (bind_ret _ _ _ _ _ Hnf).
  - exfalso. rewrite procs_at_mid in Hno by done. apply (sem_key_not_dummy k Hk).
    rewrite asl_active_app, asl_active_cons in Hact. destruct Hact as (_ & Hact & _). subst k.
    by apply Hact.
  - pose proof (asl_free _ _ _ Ha) as Hh. cbn in Hh. kstep. by rewrite Hh.
Qed.

Lemma blocked_nil L1 L2 a k : blocked (L1 ++ Entry a k [] :: L2) = blocked (L1 ++ L2).
Proof. by rewrite !blocked_app, blocked_cons. Qed.

(** The entry before the one of [k]. *)
Lemma asl_prev s L1 e L2 fs :
  asl_core s (L1 ++ e :: L2) fs -> Forall (fun x => e_key x < e_key e) L1 -> sem_key (e_key e) ->
  exists L0 x, L1 = L0 ++ [x] /\ last_semd NULL L1 = e_semd x /\ e_semd x <> NULL /\
    e_semd x <> e_semd e /\ e_semd e <> NULL /\ is_Some (semds s !! e_semd x).
Proof.
  intros Ha H1 [Hk _]. destruct (asl_before s L1 (e :: L2) fs (e_key e)) as (L0 & x & ->); [done|lia| |].
  { constructor; [done|]. pose proof (asl_sorted _ _ _ Ha) as Hs. rewrite fmap_app in Hs.
    apply StronglySorted_app in Hs as (_ & _ & Hs). cbn in Hs. apply StronglySorted_inv in Hs as [_ Hs].
    rewrite Forall_fmap in Hs. eapply Forall_impl; [exact Hs|]. cbn. lia. }
  exists L0, x. pose proof (is_list_not_NULL _ _ _ (asl_list _ _ _ Ha)) as Hnn.
  pose proof (asl_nodup _ _ _ Ha) as Hnd. apply NoDup_app in Hnd as [Hnd _].
  rewrite fmap_app, fmap_cons in Hnn, Hnd. apply NoDup_mid in Hnd.
  rewrite fmap_app in Hnn, Hnd. rewrite <- app_assoc in Ha. apply asl_core_node in Ha as [? _].
  split_and!; [done|unfold last_semd; by rewrite last_snoc|set_solver..|by eapply fld_is_Some].
Qed.

Lemma release_if_empty_ok s L1 a k q L2 fs :
  asl_core s (L1 ++ Entry a k q :: L2) fs -> sem_key k ->
  Forall (fun e => e_key e < k) L1 -> Forall (fun e => k < e_key e) L2 -> asl_active (L1 ++ L2) ->
  exists D f L' fs',
    release_if_empty a (last_semd NULL L1) s = Ret tt (set_semdFree_h f (set_semds D s)) /\
    asl (set_semdFree_h f (set_semds D s)) L' fs' /\
    blocked L' = blocked (L1 ++ Entry a k q :: L2) /\
    asl_put (L1 ++ Entry a k q :: L2) k q L'.
Proof.
  intros Ha Hk H1 H2 Hact. pose proof (sem_key_not_dummy _ Hk) as Hnk.
  destruct (asl_prev _ _ _ _ _ Ha H1 Hk) as (L0 & x & -> & -> & Hx & Hxa & HaN & Hxs). cbn in Hxa, HaN.
  destruct (asl_core_node _ _ _ _ _ Ha) as (Hka & (t & Ht & Hq) & _). cbn in Hka, Ht, Hq.
  unfold release_if_empty. kstep. destruct (decide (t = NULL)) as [->|HtN].
  - apply is_queue_NULL in Hq as ->.
    assert (emptyProcQ NULL = true) as -> by done.
    rewrite <- (app_assoc L0) in Ha |- *. cbn [app] in Ha |- *.
    pose proof (asl_list _ _ _ Ha) as Hl. rewrite fmap_app, !fmap_cons in Hl.
    apply is_list_app in Hl as (c & _ & (_ & _ & n & Hn & Hl) & _).
    apply is_list_first in Hl as ->. kif. ksteps.
    exists (alter (set_s_next (semdFree_h s)) a (alter (set_s_next (first_semd L2)) (e_semd x) (semds s))), a.
    exists (L0 ++ x :: L2), (a :: fs). split_and!.
    + unfold freeSemd. repeat kif. kstep. destruct (Z.eqb_spec (semdFree_h s) NULL) as [->|]; by ksteps.
    + split; [|by rewrite <- app_assoc in Hact].
      eapply asl_unlink; try done; intros; split_and?; intros; fld_simp; eauto 20 with kernel.
    + rewrite !(cons_middle x), !(app_assoc L0). by rewrite blocked_nil.
    + rewrite !(cons_middle x), !(app_assoc L0). by apply asl_put_drop.
  - assert (emptyProcQ t = false) as -> by (unfold emptyProcQ; by kif).
    exists (semds s), (semdFree_h s), ((L0 ++ [x]) ++ Entry a k q :: L2), fs.
    replace (set_semdFree_h _ _) with s by (by destruct s).
    split_and!; [done| |done|by apply asl_put_mid]. split; [done|].
    rewrite asl_active_app in Hact |- *. rewrite asl_active_cons. cbn.
    split_and!; [naive_solver| |naive_solver]. split; [|done]. intros ->. exfalso. by apply HtN, Hq.
Qed.

(** A search for [k] finds its queue when somebody waits on [k], and nothing otherwise. *)
Lemma getSemd_queue s L fs k :
  asl s L fs -> sem_key k ->
  (exists L1 a q L2, L = L1 ++ Entry a k q :: L2 /\ procs_at L k = q /\ q <> [] /\
     Forall (fun e => e_key e < k) L1 /\ Forall (fun e => k < e_key e) L2 /\
     getSemd k s = Ret (a, last_semd NULL L1) s /\ not_found a k s = Ret false s) \/
  (procs_at L k = [] /\ exists c d, getSemd k s = Ret (c, d) s /\ not_found c k s = Ret true s).
Proof.
  intros [Ha Hact] Hk. destruct (getSemd_ok s L fs k Ha) as (L1 & L2 & -> & H1 & Hget & Hcase).
  destruct Hcase as [(e & L3 & -> & He & H3 & Hnf)|[H2 Hnf]].
  - left. destruct e as [a k' q]. cbn in He. subst k'. exists L1, a, q, L3.
    rewrite procs_at_mid by done. split_and!; [done|done| |done..].
    rewrite asl_active_app, asl_active_cons in Hact. cbn in Hact.
    pose proof (sem_key_not_dummy _ Hk). naive_solver.
  - right. rewrite procs_at_absent by done. eauto.
Qed.

Lemma removeBlocked_ok s L fs k p q :
  asl s L fs -> sem_key k -> procs_at L k = p :: q ->
  exists s' L' fs', removeBlocked k s = Ret p s' /\ asl s' L' fs' /\ asl_only s s' /\
    asl_put L k q L' /\ blocked L ≡ₚ p :: blocked L' /\
    frame erase_blocked (p :: q) (pcbs s) (pcbs s') /\
    fld p_semAdd (pcbs s') p = Some NULL /\
    fld p_next (pcbs s') p = Some NULL /\ fld p_prev (pcbs s') p = Some NULL.
Proof.
  intros Ha Hk Hpq.
  destruct (getSemd_queue s L fs k Ha Hk) as [(L1 & a & q' & L2 & -> & Hq' & _ & H1 & H2 & Hget & Hnf)|[? _]];
    [|congruence].
  rewrite Hpq in Hq'. subst q'. destruct Ha as [Ha Hact].
  pose proof (sem_key_not_dummy _ Hk) as Hnk.
  unfold removeBlocked. rewrite (bind_ret _ _ _ _ _ Hget). cbn [fst snd]. rewrite (bind_ret _ _ _ _ _ Hnf).
  destruct (asl_core_node _ _ _ _ _ Ha) as (Hka & (t & Ht & Hq) & Hsem). cbn in *.
  pose proof (asl_procs _ _ _ Ha) as Hnd. rewrite blocked_mid in Hnd.
  assert (p <> NULL) as HpN by (destruct (is_queue_cons _ _ _ _ Hq); naive_solver).
  destruct (removeProcQ_ok (TP_procQ a) t p q s) as (h' & Hrun & Hq2 & Hf & Hnx & Hpv); [done..|].
  rewrite (bind_ret _ _ _ _ _ Hrun). kif.
  assert (is_Some (h' !! p)) by (by eapply fld_is_Some).
  set (s1 := set_pcbs (alter (set_p_semAdd NULL) p h')
               (set_semds (alter (set_s_procQ (default NULL (last q))) a (semds s)) s)).
  assert (frame erase_blocked (p :: q) (pcbs s) (pcbs s1)) as Hfr.
  { eapply frame_trans; [eapply frame_weaken; [|exact Hf]; done|].
    apply frame_alter; [done|set_solver]. }
  destruct (release_if_empty_ok s1 L1 a k q L2 fs) as (D & f & L' & fs' & Hrel & Ha' & Hb & Hput);
    [|done..| |].
  - cbn in Hnd. apply NoDup_cons in Hnd as [Hp Hnd]. eapply asl_set_queue; try done.
    + eapply is_queue_ext; [|exact Hq2]. intros x _. by fld_simp.
    + intros x Hx. assert (p <> x) by set_solver. fld_simp.
      rewrite (frame_fld p_semAdd erase_links _ _ _ x (fun _ => eq_refl) Hf). apply Hsem. set_solver.
    + intros x Hx. apply NoDup_app in Hnd as (_ & Hnd & _). set_solver.
    + by rewrite blocked_mid.
  - rewrite asl_active_app, asl_active_cons in Hact. rewrite asl_active_app. naive_solver.
  - eexists _, L', fs'. split_and!; [|exact Ha'| | | |exact Hfr|..].
    + kstep. fold s1. by rewrite (bind_ret _ _ _ _ _ Hrel).
    + by eexists _, _, _.
    + destruct Hput as [Hp1 Hp2]. split; [done|]. intros k' Hk'. rewrite Hp2 by done.
      by rewrite !procs_at_other.
    + by rewrite Hb, !blocked_mid.
    + cbn. by fld_simp.
    + cbn. by fld_simp.
    + cbn. by fld_simp.
Qed.

Lemma removeBlocked_none s L fs k :
  asl s L fs -> sem_key k -> procs_at L k = [] -> removeBlocked k s = Ret NULL s.
Proof.
  intros Ha Hk Hno.
  destruct (getSemd_queue s L fs k Ha Hk) as [(L1 & a & q & L2 & _ & ? & ? & _)|(_ & c & d & Hget & Hnf)];
    [congruence|].
  unfold removeBlocked. rewrite (bind_ret _ _ _ _ _ Hget). cbn [fst snd].
  by rewrite (bind_ret _ _ _ _ _ Hnf).
Qed.

Lemma headBlocked_ok s L fs k :
  asl s L fs -> sem_key k -> headBlocked k s = Ret (default NULL (head (procs_at L k))) s.
Proof.
  intros Ha Hk.
  destruct (getSemd_queue s L fs k Ha Hk) as [(L1 & a & q & L2 & -> & -> & _ & _ & _ & Hget & Hnf)|
      (-> & c & d & Hget & Hnf)];
    unfold headBlocked; rewrite (bind_ret _ _ _ _ _ Hget); cbn [fst snd];
    rewrite (bind_ret _ _ _ _ _ Hnf); [|done].
  destruct Ha as [Ha _]. destruct (asl_core_node _ _ _ _ _ Ha) as (_ & (t & Ht & Hq) & _). cbn in *.
  kstep. by apply headProcQ_ok.
Qed.

Lemma procs_at_sublist L k : sublist (procs_at L k) (blocked L).
Proof.
  induction L as [|e L IH]; [done|]. rewrite procs_at_cons, blocked_cons.
  apply sublist_app; [|done]. destruct (e_key e =? k); [done|apply sublist_nil_l].
Qed.

Lemma procs_at_NoDup s L fs k : asl_core s L fs -> NoDup (procs_at L k).
Proof. intros Ha. eapply sublist_NoDup; [apply (asl_procs _ _ _ Ha)|apply procs_at_sublist]. Qed.

Lemma procs_at_sem s L fs k p :
  asl_core s L fs -> p ∈ procs_at L k -> fld p_semAdd (pcbs s) p = Some k.
Proof.
  intros Ha. pose proof (asl_nodes _ _ _ Ha) as Hn. rewrite Forall_forall in Hn.
  unfold procs_at. rewrite list_elem_of_bind. intros (e & Hp & He).
  destruct (Hn e He) as (_ & _ & Hs). destruct (Z.eqb_spec (e_key e) k) as [<-|]; [auto|set_solver].
Qed.

Lemma outBlocked_ok s L fs k q1 p q2 :
  asl s L fs -> sem_key k -> procs_at L k = q1 ++ p :: q2 -> (length (blocked L) <= walk_fuel)%nat ->
  exists s' L' fs', outBlocked p s = Ret p s' /\ asl s' L' fs' /\ asl_only s s' /\
    asl_put L k (q1 ++ q2) L' /\ blocked L ≡ₚ p :: blocked L' /\
    frame erase_links (q1 ++ p :: q2) (pcbs s) (pcbs s') /\
    fld p_next (pcbs s') p = Some NULL /\ fld p_prev (pcbs s') p = Some NULL.
Proof.
  intros Ha Hk Hpq Hlen.
  assert (fld p_semAdd (pcbs s) p = Some k) as Hpk
    by (eapply procs_at_sem; [apply Ha|rewrite Hpq; set_solver]).
  destruct (getSemd_queue s L fs k Ha Hk) as [(L1 & a & q' & L2 & -> & Hq' & _ & H1 & H2 & Hget & Hnf)|[Hno _]];
    [|rewrite Hpq in Hno; by destruct q1].
  rewrite Hpq in Hq'. subst q'. destruct Ha as [Ha Hact].
  pose proof (sem_key_not_dummy _ Hk) as Hnk.
  destruct (asl_core_node _ _ _ _ _ Ha) as (Hka & (t & Ht & Hq) & Hsem).
  cbn [e_semd e_key e_procs] in *.
  pose proof (asl_procs _ _ _ Ha) as Hnd. rewrite blocked_mid in Hnd, Hlen.
  assert (p <> NULL) as HpN by (destruct Hq as (_ & _ & ? & _); set_solver).
  assert (k <> NULL) by (unfold sem_key in Hk; lia).
  unfold outBlocked. kif. kstep. kif.
  rewrite (bind_ret _ _ _ _ _ Hget). cbn [fst snd]. rewrite (bind_ret _ _ _ _ _ Hnf).
  destruct (outProcQ_ok (TP_procQ a) t q1 p q2 s) as (h' & Hrun & Hq2 & Hf & Hnx & Hpv);
    [done..|rewrite length_app in Hlen; lia|].
  rewrite (bind_ret _ _ _ _ _ Hrun). kif.
  set (s1 := set_pcbs h'
               (set_semds (alter (set_s_procQ (default NULL (last (q1 ++ q2)))) a (semds s)) s)).
  destruct (release_if_empty_ok s1 L1 a k (q1 ++ q2) L2 fs) as (D & f & L' & fs' & Hrel & Ha' & Hb & Hput);
    [|done..| |].
  - rewrite <- Permutation_middle in Hnd. cbn in Hnd. apply NoDup_cons in Hnd as [Hp Hnd].
    eapply asl_set_queue; try done.
    + intros x Hx. rewrite (frame_fld p_semAdd erase_links _ _ _ x (fun _ => eq_refl) Hf).
      apply Hsem. set_solver.
    + intros x Hx. apply NoDup_app in Hnd as (_ & Hnd & _). set_solver.
    + by rewrite blocked_mid.
  - rewrite asl_active_app, asl_active_cons in Hact. rewrite asl_active_app. naive_solver.
  - eexists _, L', fs'. split_and!; [|exact Ha'| | | |exact Hf|done|done].
    + by rewrite (bind_ret _ _ _ _ _ Hrel).
    + by eexists _, _, _.
    + destruct Hput as [Hp1 Hp2]. split; [done|]. intros k' Hk'. rewrite Hp2 by done.
      by rewrite !procs_at_other.
    + rewrite Hb, !blocked_mid, <- Permutation_middle. done.
Qed.

(** A process of a [p_semAdd] that names no semaphore, or that nobody finds on its queue. *)
Lemma outBlocked_NULL s p : fld p_semAdd (pcbs s) p = Some NULL -> outBlocked p s = Ret NULL s.
Proof.
  intros Hp. unfold outBlocked. destruct (Z.eqb_spec p NULL); [done|]. by ksteps.
Qed.

Lemma outBlocked_absent s L fs k p :
  asl s L fs -> sem_key k -> fld p_semAdd (pcbs s) p = Some k -> p ∉ procs_at L k ->
  (length (blocked L) <= walk_fuel)%nat -> outBlocked p s = Ret NULL s.
Proof.
  intros Ha Hk Hp Hnot Hlen. unfold outBlocked. destruct (Z.eqb_spec p NULL); [done|].
  assert (k <> NULL) by (unfold sem_key in Hk; lia). kstep. kif.
  destruct (getSemd_queue s L fs k Ha Hk) as [(L1 & a & q & L2 & -> & Hq' & _ & H1 & H2 & Hget & Hnf)|
      (_ & c & d & Hget & Hnf)];
    rewrite (bind_ret _ _ _ _ _ Hget); cbn [fst snd]; rewrite (bind_ret _ _ _ _ _ Hnf); [|done].
  destruct Ha as [Ha _]. destruct (asl_core_node _ _ _ _ _ Ha) as (_ & (t & Ht & Hq) & _). 
  cbn [e_semd e_key e_procs] in *. rewrite blocked_mid, length_app in Hlen. rewrite Hq' in Hnot.
  rewrite (bind_ret _ _ _ _ _ (outProcQ_not_found (TP_procQ a) t q p s Ht Hq Hnot ltac:(lia))). done.
Qed.
End operations.

(** ** Initialisation *)
Definition semd_table `{Machine} : list Z := semd_addr <$> seqZ 0 MAXSEMDS.

Section init.
Context {m : Machine} {mok : MachineOk m}.
Implicit Types (s : kstate) (fs : list Z) (a : Z).

(** The free descriptors. *)
Definition free_semds s fs : Prop := is_list (fld s_next (semds s)) (semdFree_h s) fs.

Lemma freeSemd_ok s a fs :
  free_semds s fs -> a <> NULL -> is_Some (semds s !! a) -> a ∉ fs ->
  exists D, freeSemd a s = Ret tt (set_semdFree_h a (set_semds D s)) /\
            free_semds (set_semdFree_h a (set_semds D s)) (a :: fs) /\
            (forall x, is_Some (semds s !! x) -> is_Some (D !! x)).
Proof.
  intros Hl Ha Hs Hn. exists (alter (set_s_next (semdFree_h s)) a (semds s)). split_and!.
  - unfold freeSemd. kif. kstep. destruct (Z.eqb_spec (semdFree_h s) NULL) as [->|]; by ksteps.
  - split_and!; [done..|]. exists (semdFree_h s). cbn. split; [fld_simp; eauto with kernel|].
    eapply is_list_ext; [|exact Hl]. intros x Hx. assert (a <> x) by set_solver. by fld_simp.
  - intros x Hx. by apply is_Some_alter.
Qed.

Lemma freeSemd_each l s acc :
  free_semds s acc -> NoDup (l ++ acc) -> NULL ∉ l -> (forall a, a ∈ l -> is_Some (semds s !! a)) ->
  exists D c, for_each l freeSemd s = Ret tt (set_semdFree_h c (set_semds D s)) /\
              free_semds (set_semdFree_h c (set_semds D s)) (reverse l ++ acc) /\
              (forall x, is_Some (semds s !! x) -> is_Some (D !! x)).
Proof.
  revert s acc. induction l as [|a l IH]; intros s acc Hl Hnd Hn Hs.
  - exists (semds s), (semdFree_h s). split; [by destruct s|done].
  - cbn [app] in Hnd. apply NoDup_cons in Hnd as [Ha Hnd].
    destruct (freeSemd_ok s a acc) as (D1 & Hrun & Hl1 & Hk1); [done|set_solver..|].
    edestruct (IH (set_semdFree_h a (set_semds D1 s)) (a :: acc)) as (D2 & c & Hrun2 & Hl2 & Hk2).
    + done.
    + rewrite <- Permutation_middle. by apply NoDup_cons.
    + set_solver.
    + intros b Hb. apply Hk1. set_solver.
    + exists D2, c. split_and!; [|by rewrite reverse_cons, <- app_assoc|auto].
      by rewrite for_each_cons, (bind_ret _ _ _ _ _ Hrun).
Qed.

Lemma semd_addr_inj i j : semd_addr i = semd_addr j -> i = j.
Proof. unfold semd_addr, sizeof_semd_t, WORDLEN. lia. Qed.

Lemma semd_table_NoDup : NoDup semd_table.
Proof. apply NoDup_fmap_2; [|apply NoDup_seqZ]. intros i j. apply semd_addr_inj. Qed.

Lemma semd_table_range a : a ∈ semd_table -> RAMSTART <= a < NULL.
Proof.
  unfold semd_table. intros (i & -> & Hi%elem_of_seqZ)%list_elem_of_fmap. destruct semdTable_ram.
  unfold semd_addr, sizeof_semd_t, WORDLEN, MAXSEMDS, MAXPROC in *. lia.
Qed.

(** What [initASL] does once the pool is filled. *)
Definition make_dummies : K unit :=
  do h <- allocSemd;
  do! modify (set_semd_h h);
  do! upd_semd h (set_s_semAdd 0);
  do! upd_semd h (set_s_procQ mkEmptyProcQ);
  do dummyTail <- allocSemd;
  do! upd_semd dummyTail (set_s_semAdd MAXINT);
  do! upd_semd dummyTail (set_s_procQ mkEmptyProcQ);
  do h <- gets semd_h;
  do! upd_semd h (set_s_next dummyTail);
  upd_semd dummyTail (set_s_next NULL).

(** The first two descriptors of the pool become the ends of the list. *)
Lemma make_dummies_ok s D c a b fs :
  is_list (fld s_next D) c (a :: b :: fs) -> NoDup (a :: b :: fs) -> length fs = 20%nat ->
  exists D' f, let s' := set_semd_h a (set_semdFree_h f (set_semds D' s)) in
    make_dummies (set_semdFree_h c (set_semds D (set_semdFree_h NULL s))) = Ret tt s' /\
    asl s' [Entry a 0 []; Entry b MAXINT []] fs.
Proof.
  intros Hl Hnd Hlen. unfold make_dummies.
  destruct Hl as (-> & HaN & n & Ha & -> & HbN & n' & Hb & Hl).
  apply NoDup_cons in Hnd as [Hna Hnd]. pose proof Hnd as Hnd'. apply NoDup_cons in Hnd' as [Hnb Hnf].
  assert (a <> b) by set_solver.
  unfold allocSemd. ksteps.
  assert (is_Some (D !! a)) by (by eapply fld_is_Some).
  assert (is_Some (D !! b)) by (by eapply fld_is_Some).
  rewrite (upd_semd_ok b) by kside. cbn [semds set_semds].
  lazymatch goal with |- context [Ret tt (set_semds ?D1 _)] => exists D1, n' end.
  split; [done|]. split.
  - split; cbn [semds semd_h semdFree_h set_semd_h set_semdFree_h set_semds].
    + split_and!; [done..|]. exists b. split; [fld_simp; eauto 20 with kernel|].
      split_and!; [done..|]. exists NULL. split; [fld_simp; eauto 20 with kernel|done].
    + eapply is_list_ext; [|exact Hl]. intros x Hx.
      assert (a <> x) by set_solver. assert (b <> x) by set_solver. by fld_simp.
    + cbn. by apply NoDup_cons.
    + repeat apply Forall_cons_2; [..|done];
        (split_and!; [|eexists; split; [|apply is_queue_nil]|set_solver];
         cbn; fld_simp; eauto 20 with kernel).
    + cbn. repeat constructor.
    + constructor.
    + eauto.
    + exists b. set_solver.
    + cbn. by rewrite Hlen.
  - apply asl_active_cons. split; [|apply asl_active_cons; split; [|by apply Forall_nil]]; cbn.
    + split; [by left|done].
    + split; [by right|done].
Qed.

(** The two dummies take the last two entries of the table; the others are free. *)
Lemma initASL_ok s :
  (forall a, a ∈ semd_table -> is_Some (semds s !! a)) ->
  exists D f, let s' := set_semd_h (semd_addr 21) (set_semdFree_h f (set_semds D s)) in
    initASL s = Ret tt s' /\
    asl s' [Entry (semd_addr 21) 0 []; Entry (semd_addr 20) MAXINT []]
      (reverse (semd_addr <$> seqZ 0 20)).
Proof.
  intros Hs. set (a := semd_addr 21). set (b := semd_addr 20).
  set (fs := reverse (semd_addr <$> seqZ 0 20)). unfold initASL. kstep.
  edestruct (freeSemd_each semd_table (set_semdFree_h NULL s) []) as (D & c & Hrun & Hl & Hk).
  { done. }
  { rewrite app_nil_r. apply semd_table_NoDup. }
  { intros ?%semd_table_range. lia. }
  { exact Hs. }
  unfold semd_table in Hrun. rewrite for_each_fmap in Hrun.
  rewrite (bind_ret _ _ _ _ _ Hrun). rewrite app_nil_r in Hl.
  pose proof semd_table_NoDup as Hnd. rewrite <- (reverse_Permutation semd_table) in Hnd.
  assert (reverse semd_table =
          semd_addr 21 :: semd_addr 20 :: reverse (semd_addr <$> seqZ 0 20)) as E by done.
  fold a b fs in E.
  rewrite E in Hl, Hnd. clear E Hrun. unfold free_semds in Hl.
  cbn [semdFree_h set_semdFree_h semds set_semds] in Hl.
  apply (make_dummies_ok s D c); [done|done|]. done.
Qed.
End init.
