(* ===== verification/Scheduler.v ===== *)
(** * Dispatching: phase2/scheduler.c

    [moveStateHelper], [switchContext] and [scheduler]. *)
From S2P Require Export Asl.

Definition moveStateHelper (source_state destination_state : state_ref) : K unit :=
  do v <- get_state source_state s_entryHI;
  do! upd_state destination_state (set_s_entryHI v);
  do v <- get_state source_state s_cause;
  do! upd_state destination_state (set_s_cause v);
  do v <- get_state source_state s_status;
  do! upd_state destination_state (set_s_status v);
  do v <- get_state source_state s_pc;
  do! upd_state destination_state (set_s_pc v);
  for_each regs (fun i =>
    do v <- get_state source_state (fun st => s_reg st !!! i);
    upd_state destination_state (set_reg i v)).

Section scheduler.
Context {m : Machine}.

Definition switchContext (target_process : Z) : K unit :=
  do! modify (set_currentProcess target_process);
  do t <- STCK;
  do! modify (set_start_TOD t);
  do st <- get_pcb target_process p_s;
  LDST st.

Definition scheduler : K unit :=
  do q <- gets readyQueue;
  if negb (emptyProcQ q) then
    do next_process <- removeProcQ TP_readyQueue;
    do! modify (set_currentProcess next_process);
    do! setTIMER PLT_TIME_SLICE;
    do c <- gets currentProcess;
    switchContext c
  else
    do pc <- gets processCount;
    if pc =? 0 then HALT
    else
      do sb <- gets softBlockedCount;
      if 0 <? sb then
        do! setSTATUS (Z.lor (Z.lor ALLOFF IMON) IECON);
        do! setTIMER INF_TIME;
        WAIT
      else PANIC.

End scheduler.
