(* ===== verification/SchedulerSpec.v ===== *)
(** * Dispatching: what the scheduler and the context switch do *)
From S2P Require Export PcbAlloc Scheduler Logic.

Section move.
Implicit Types (s : kstate) (a : Z) (d : state_ref) (v : state_t).

Lemma get_moved {A} a d v s f (g : state_t -> A) :
  states s !! a = Some v -> separate a d ->
  get_state (SR_mem a) g (state_alter d f s) = Ret (g v) (state_alter d f s).
Proof.
  intros Hv Hsep. apply get_state_ok. rewrite state_get_alter_separate by done. cbn. by rewrite Hv.
Qed.

Lemma upd_moved d f g s :
  is_Some (state_get d s) ->
  upd_state d g (state_alter d f s) = Ret tt (state_alter d (fun st => g (f st)) s).
Proof.
  intros Hd. rewrite upd_state_ok, state_alter_alter; [done|].
  rewrite state_get_alter. by apply fmap_is_Some.
Qed.

(** The loop over the registers. *)
Lemma move_regs a d v l f s :
  states s !! a = Some v -> separate a d -> is_Some (state_get d s) ->
  for_each l (fun i =>
    do x <- get_state (SR_mem a) (fun st => s_reg st !!! i); upd_state d (set_reg i x))
    (state_alter d f s) =
  Ret tt (state_alter d (fun st => foldl (fun st i => set_reg i (s_reg v !!! i) st) (f st) l) s).
Proof.
  intros Hv Hsep Hd. revert f. induction l as [|i l IH]; intros f; [done|].
  rewrite for_each_cons, bind_assoc, (bind_ret _ _ _ _ _ (get_moved a d v s f _ Hv Hsep)).
  rewrite (bind_ret _ _ _ _ _ (upd_moved d f _ s Hd)). apply IH.
Qed.

Lemma state_alter_id d s : state_alter d (fun st => st) s = s.
Proof.
  destruct s, d; cbn; unfold set_states, set_pcbs, set_supports; cbn; f_equal;
    apply alter_id; [done|by intros []|].
  intros u _. destruct u; unfold set_sup_exceptState; cbn. by rewrite vlookup_insert_self.
Qed.

(** [moveStateHelper] copies every word of the state. *)
Lemma moveStateHelper_ok a d v s :
  states s !! a = Some v -> separate a d -> is_Some (state_get d s) ->
  moveStateHelper (SR_mem a) d s = Ret tt (state_alter d (fun _ => v) s).
Proof.
  intros Hv Hsep Hd. rewrite <- (state_alter_id d s) at 1. unfold moveStateHelper.
  repeat (rewrite (bind_ret _ _ _ _ _ (get_moved a d v s _ _ Hv Hsep));
          rewrite (bind_ret _ _ _ _ _ (upd_moved d _ _ s Hd))).
  rewrite (move_regs a d v _ _ s) by done. f_equal. apply state_alter_ext. intros st.
  rewrite (foldl_set_reg (fun i => s_reg v !!! i)), foldl_regs. by destruct v.
Qed.
End move.

Section scheduler.
Context {m : Machine}.
Implicit Types (s : kstate) (p t : Z) (l : list Z).

(** [switchContext] hands the processor to the saved state of its process. *)
Definition switched (p : Z) (s : kstate) : kstate :=
  let s1 := set_currentProcess p s in
  set_start_TOD (Z.quot (i32 (todlo_at (tod_reads s))) (i32 (timescale (bus s))))
    (set_tod_reads (S (tod_reads s)) (set_bus (set_todlo (todlo_at (tod_reads s)) (bus s)) s1)).

Lemma switchContext_ok s p st :
  fld p_s (pcbs s) p = Some st -> switchContext p s = Stop (Ldst st) (switched p s).
Proof.
  intros Hp. unfold switchContext. kstep. unfold STCK.
  erewrite bind_ret by reflexivity. kstep. erewrite bind_ret by (by apply get_pcb_ok). done.
Qed.

(** The head of a non-empty ready queue is dispatched with a full time slice. *)
Lemma scheduler_dispatch s s1 p st :
  readyQueue s <> NULL -> removeProcQ TP_readyQueue s = Ret p s1 -> fld p_s (pcbs s1) p = Some st ->
  scheduler s = Stop (Ldst st) (switched p (set_cp0_timer (u32 PLT_TIME_SLICE) s1)).
Proof.
  intros Hq Hrun Hst. unfold scheduler. kstep.
  assert (emptyProcQ (readyQueue s) = false) as -> by (unfold emptyProcQ; by kif).
  cbn [negb]. rewrite (bind_ret _ _ _ _ _ Hrun). unfold setTIMER. do 3 kstep.
  by erewrite switchContext_ok.
Qed.

(** With an empty ready queue: halt, wait or panic. *)
Lemma scheduler_idle s :
  is_queue (pcbs s) (readyQueue s) [] ->
  scheduler s =
    if processCount s =? 0 then Stop Halt s
    else if 0 <? softBlockedCount s then
      Stop Wait (set_cp0_timer (u32 INF_TIME) (set_cp0_status (Z.lor (Z.lor ALLOFF IMON) IECON) s))
    else Stop Panic s.
Proof.
  intros (Hq & _). cbn in Hq. unfold scheduler. kstep. rewrite Hq.
  change (emptyProcQ NULL) with true. cbn [negb]. kstep.
  destruct (processCount s =? 0); [done|]. kstep. by destruct (0 <? softBlockedCount s).
Qed.
End scheduler.
