(* ===== verification/Initial.v ===== *)
(** * Booting: phase2/initial.c

    The helpers shared by the handlers ([updateProcessTimeHelper], [debugExceptionHandler]), the
    initialisation of the pass-up vector and of the device semaphores, and [main]. *)
From S2P Require Export Scheduler.

Definition updateProcessTimeHelper (process start finish : Z) : K unit :=
  upd_pcb process (fun x => set_p_time (i32 (p_time x + i32 (finish - start))) x).

Definition debugExceptionHandler (key param1 param2 param3 : Z) : K unit := ret tt.

Section initial.
Context {m : Machine}.

Definition initPassUpVector : K unit :=
  do! modify (fun s => set_passup (set_tlb_refll_handler uTLB_RefillHandler_addr (passup s)) s);
  do! modify (fun s => set_passup (set_tlb_refll_stackPtr KERNELSTACK (passup s)) s);
  do! modify (fun s => set_passup (set_exception_handler exceptionHandler_addr (passup s)) s);
  modify (fun s => set_passup (set_exception_stackPtr KERNELSTACK (passup s)) s).

(** [&semaphoreDevices[i]] *)
Definition sem_addr (i : Z) : Z := u32 (semaphoreDevices + i * WORDLEN).

Definition initDeviceSemaphoresHelper : K unit :=
  for_each (seqZ 0 MAX_DEVICE_COUNT) (fun i => store_int (sem_addr i) 0).

Definition main : K unit :=
  do! initPassUpVector;
  do! initPcbs;
  do! initASL;
  do! modify (set_processCount 0);
  do! modify (set_softBlockedCount 0);
  do! modify (set_readyQueue mkEmptyProcQ);
  do! modify (set_currentProcess NULL);
  do! initDeviceSemaphoresHelper;
  do! LDIT PSECOND;
  do new_process <- allocPcb;
  do! (if new_process =? NULL then ret tt
       else
         do b <- gets bus;
         do! upd_state (SR_pcb new_process)
               (set_reg s_sp (i32 (u32 (rambase b + ramsize b))));
         do! upd_state (SR_pcb new_process) (set_s_pc test_addr);
         do! upd_state (SR_pcb new_process) (set_reg s_t9 (i32 test_addr));
         do! upd_state (SR_pcb new_process)
               (set_s_status (Z.lor (Z.lor (Z.lor ALLOFF IEPON) PLTON) IMON));
         do! insertProcQ TP_readyQueue new_process;
         do! modify (fun s => set_processCount (i32 (processCount s + 1)) s);
         scheduler);
  PANIC.

(** The image the nucleus starts from: the static tables are zeroed, the device semaphores are
    words of memory; the rest of memory and the devices are what the loader and the hardware made
    of them. *)
Definition zero_state : state_t := MkState 0 0 0 0 (vreplicate STATEREGNUM 0).
Definition zero_pcb : pcb_t := MkPcb 0 0 0 0 0 0 zero_state 0 0 0.
Definition zero_semd : semd_t := MkSemd 0 0 0.

Definition boot_state (mem : gmap Z Z) (sts : gmap Z state_t) (sups : gmap Z support_t)
    (b : devregarea_t) : kstate :=
  MkK (list_to_map ((fun i => (pcb_addr i, zero_pcb)) <$> seqZ 0 MAXPROC)) 0
      (list_to_map ((fun i => (semd_addr i, zero_semd)) <$> seqZ 0 MAXSEMDS)) 0 0
      0 0 0 0 0 0 0 0 0 0
      (list_to_map ((fun i => (sem_addr i, 0)) <$> seqZ 0 MAX_DEVICE_COUNT) ∪ mem) sts sups ∅
      b (MkPassup 0 0 0 0) 0 0 0%nat 0%nat.

End initial.
