(* ===== verification/Invariant.v ===== *)
(** * The kernel invariant

    Every pcb is in exactly one place: on the free list, on the ready queue, on the queue of one
    semaphore, or in the hands of the running code (the current process, or a pcb between two
    queues).  [kernel_inv s v hands] says so of the state [s], seen as the lists of [v]; each
    operation of the lower layers moves a pcb from one place to another. *)
From S2P Require Export Forest AslSpec SchedulerSpec Initial.

Record view : Type := View {
  v_free : list Z;
  v_ready : list Z;
  v_entries : list entry;
  v_semds : list Z;
  v_kids : Z -> list Z
}.

Definition with_free (l : list Z) (v : view) : view :=
  View l (v_ready v) (v_entries v) (v_semds v) (v_kids v).
Definition with_ready (l : list Z) (v : view) : view :=
  View (v_free v) l (v_entries v) (v_semds v) (v_kids v).
Definition with_asl (L : list entry) (fs : list Z) (v : view) : view :=
  View (v_free v) (v_ready v) L fs (v_kids v).
Definition with_kids (k : Z -> list Z) (v : view) : view :=
  View (v_free v) (v_ready v) (v_entries v) (v_semds v) k.

(** The processes that exist. *)
Definition live (v : view) (hands : list Z) : list Z := v_ready v ++ blocked (v_entries v) ++ hands.

(** The queue of the semaphore at [k]. *)
Definition waiting (v : view) (k : Z) : list Z := procs_at (v_entries v) k.

(** A support structure pointer a process may have: none, or one that can be passed up to. *)
Definition support_ok (s : kstate) (u : Z) : Prop :=
  u = NULL \/ is_Some (supports s !! u) /\ savedExceptionState s = BIOSDATAPAGE.

Section invariant.
Context {m : Machine}.

Record kernel_inv (s : kstate) (v : view) (hands : list Z) : Prop := {
  inv_free : free_list s (v_free v);
  inv_ready : is_queue (pcbs s) (readyQueue s) (v_ready v);
  inv_asl : asl s (v_entries v) (v_semds v);
  inv_part : v_free v ++ live v hands ≡ₚ pcb_table;
  inv_stored : forall p, p ∈ pcb_table -> is_Some (pcbs s !! p);
  inv_keys : forall k, waiting v k <> [] -> sem_key k /\ is_Some (ints s !! k);
  inv_nosem : forall p, p ∈ v_ready v -> fld p_semAdd (pcbs s) p = Some NULL;
  inv_forest : forest (pcbs s) (live v hands) (v_kids v);
  inv_support : forall p, p ∈ live v hands -> exists u, fld p_supportStruct (pcbs s) p = Some u /\ support_ok s u;
  inv_sems : forall i, 0 <= i < MAX_DEVICE_COUNT -> is_Some (ints s !! sem_addr i);
  inv_bios : is_Some (states s !! BIOSDATAPAGE)
}.

(** What running code may change without moving any pcb: the saved states and times of the
    processes, the values of memory words, clocks, device registers and the other globals. *)
Definition erase_payload (r : pcb_t) : pcb_t := set_p_s (MkState 0 0 0 0 (vreplicate STATEREGNUM 0)) (set_p_time 0 r).

Record harmless (s s' : kstate) : Prop := {
  harmless_pcbs : forall x, erase_payload <$> pcbs s' !! x = erase_payload <$> pcbs s !! x;
  harmless_free : pcbFree_h s' = pcbFree_h s;
  harmless_ready : readyQueue s' = readyQueue s;
  harmless_semds : semds s' = semds s;
  harmless_semd_h : semd_h s' = semd_h s;
  harmless_semdFree : semdFree_h s' = semdFree_h s;
  harmless_ints : forall a, is_Some (ints s !! a) -> is_Some (ints s' !! a);
  harmless_supports : forall a, is_Some (supports s !! a) -> is_Some (supports s' !! a);
  harmless_bios : is_Some (states s !! BIOSDATAPAGE) -> is_Some (states s' !! BIOSDATAPAGE);
  harmless_saved : savedExceptionState s' = savedExceptionState s \/ savedExceptionState s' = BIOSDATAPAGE
}.

(** * Lemmas *)
Context {mok : MachineOk m}.
Implicit Types (s : kstate) (v : view) (hands l : list Z) (p q k : Z).

(** ** Facts about the lists *)
Lemma inv_NoDup s v hands : kernel_inv s v hands -> NoDup (v_free v ++ live v hands).
Proof. intros H. rewrite (inv_part _ _ _ H). apply pcb_table_NoDup. Qed.

Lemma inv_live_NoDup s v hands : kernel_inv s v hands -> NoDup (live v hands).
Proof. intros H. by apply inv_NoDup, NoDup_app in H as (_ & _ & ?). Qed.

Lemma inv_in_table s v hands p : kernel_inv s v hands -> p ∈ v_free v ++ live v hands -> p ∈ pcb_table.
Proof. intros H. by rewrite (inv_part _ _ _ H). Qed.

Lemma inv_live_table s v hands p : kernel_inv s v hands -> p ∈ live v hands -> p ∈ pcb_table.
Proof. intros H Hp. eapply inv_in_table; [done|]. set_solver. Qed.

Lemma inv_live_stored s v hands p : kernel_inv s v hands -> p ∈ live v hands -> is_Some (pcbs s !! p).
Proof. intros H Hp. eapply inv_stored, inv_live_table; done. Qed.

Lemma inv_live_NULL s v hands : kernel_inv s v hands -> NULL ∉ live v hands.
Proof. intros H Hn. by eapply pcb_table_not_NULL, inv_live_table. Qed.

Lemma inv_length s v hands : kernel_inv s v hands -> (length (v_free v) + length (live v hands) = 20)%nat.
Proof. intros H. by rewrite <- length_app, (inv_part _ _ _ H), pcb_table_length. Qed.

Lemma inv_waiting_live s v hands k p : kernel_inv s v hands -> p ∈ waiting v k -> p ∈ live v hands.
Proof. intros _ Hp. apply procs_at_blocked in Hp. unfold live. set_solver. Qed.

Lemma elem_of_live v hands p :
  p ∈ live v hands <-> p ∈ v_ready v \/ p ∈ blocked (v_entries v) \/ p ∈ hands.
Proof. unfold live. by rewrite !elem_of_app. Qed.

(** ** Harmless changes *)
Lemma harmless_refl s : harmless s s.
Proof. split; try done. by left. Qed.

Lemma harmless_trans s1 s2 s3 : harmless s1 s2 -> harmless s2 s3 -> harmless s1 s3.
Proof.
  intros [] []. split; try congruence; eauto.
  destruct harmless_saved0 as [E|E], harmless_saved1 as [-> | ->]; auto.
Qed.

Lemma harmless_fld {A} (f : pcb_t -> A) s s' x :
  (forall r, f (erase_payload r) = f r) -> harmless s s' -> fld f (pcbs s') x = fld f (pcbs s) x.
Proof.
  intros Hf H. assert (forall o : option pcb_t, f <$> o = f <$> (erase_payload <$> o)) as E.
  { intros [r|]; [|done]. change (Some (f r) = Some (f (erase_payload r))). by rewrite Hf. }
  unfold fld. by rewrite E, (harmless_pcbs _ _ H), <- E.
Qed.

Lemma inv_harmless s s' v hands : kernel_inv s v hands -> harmless s s' -> kernel_inv s' v hands.
Proof.
  intros I H. pose proof (fun A f x E => @harmless_fld A f s s' x E H) as Hfld.
  destruct I as [Hfree Hready [Hasl Hact] Hpart Hst Hkeys Hnosem Hfor Hsup Hsems Hbios]. split.
  - unfold free_list. rewrite (harmless_free _ _ H). eapply is_list_ext; [|exact Hfree].
    intros x _. by apply Hfld.
  - rewrite (harmless_ready _ _ H). eapply is_queue_ext; [|exact Hready]. intros x _. split; by apply Hfld.
  - split; [|done]. destruct Hasl. split; try done.
    + by rewrite (harmless_semds _ _ H), (harmless_semd_h _ _ H).
    + by rewrite (harmless_semds _ _ H), (harmless_semdFree _ _ H).
    + eapply Forall_impl; [exact asl_nodes|]. intros e. apply asl_node_keep;
        [by rewrite (harmless_semds _ _ H)..|]. intros x _. split_and!; by apply Hfld.
  - done.
  - intros p Hp. destruct (Hst p Hp) as [r Hr]. pose proof (harmless_pcbs _ _ H p) as E.
    rewrite Hr in E. apply fmap_Some in E as (r' & ? & _). eauto.
  - intros k Hk. destruct (Hkeys k Hk). split; [done|]. by apply (harmless_ints _ _ H).
  - intros p Hp. rewrite Hfld by done. auto.
  - eapply forest_ext; [|exact Hfor]. intros x _. split_and!; by apply Hfld.
  - intros p Hp. destruct (Hsup p Hp) as (u & Hu & Hok). exists u. rewrite Hfld by done.
    split; [done|]. destruct Hok as [|[Hs Hb]]; [by left|right]. split; [by apply (harmless_supports _ _ H)|].
    destruct (harmless_saved _ _ H) as [-> | ->]; done.
  - intros i Hi. apply (harmless_ints _ _ H). auto.
  - by apply (harmless_bios _ _ H).
Qed.

(** ** Reordering what is in the hands *)
Lemma inv_hands s v hands hands' :
  kernel_inv s v hands -> hands ≡ₚ hands' -> kernel_inv s v hands'.
Proof.
  intros [] E. assert (forall x, x ∈ live v hands <-> x ∈ live v hands') as El.
  { intros x. rewrite !elem_of_live. by rewrite E. }
  split; try done.
  - unfold live in *. by rewrite <- E.
  - by eapply forest_perm.
  - intros p ?%El. auto.
Qed.

End invariant.
