(* ===== verification/InvariantOps.v ===== *)
(** * The kernel invariant: the operations that move pcbs *)
From S2P Require Export Invariant.

Section moves.
Context {m : Machine} {mok : MachineOk m}.
Implicit Types (s : kstate) (v : view) (hands l X : list Z) (p q k : Z) (h : gmap Z pcb_t).

(** The places are disjoint. *)
Lemma inv_disjoint s v hands :
  kernel_inv s v hands ->
  NoDup (v_free v) /\ NoDup (v_ready v) /\ NoDup (blocked (v_entries v)) /\ NoDup hands /\
  (forall x, x ∈ v_free v -> x ∉ live v hands) /\
  (forall x, x ∈ v_ready v -> (x ∉ blocked (v_entries v)) /\ x ∉ hands) /\
  (forall x, x ∈ blocked (v_entries v) -> x ∉ hands).
Proof.
  intros H. pose proof (inv_NoDup _ _ _ H) as (? & Hd1 & Hnd)%NoDup_app. unfold live in Hnd.
  apply NoDup_app in Hnd as (? & Hd2 & Hnd). apply NoDup_app in Hnd as (? & Hd3 & ?).
  split_and!; try done. intros x Hx%Hd2. set_solver.
Qed.

(** The ready queue is rearranged together with the hands. *)
Lemma inv_relink s v hands hands' h' t rd X :
  kernel_inv s v hands -> frame erase_links X (pcbs s) h' ->
  (forall x, x ∈ X -> x ∈ v_ready v ++ hands) ->
  is_queue h' t rd -> rd ++ hands' ≡ₚ v_ready v ++ hands ->
  (forall p, p ∈ rd -> fld p_semAdd (pcbs s) p = Some NULL) ->
  kernel_inv (set_readyQueue t (set_pcbs h' s)) (with_ready rd v) hands'.
Proof.
  intros I Hf HX Hq Hp Hsem. pose proof (inv_disjoint _ _ _ I) as (_ & _ & _ & _ & D1 & D2 & D3).
  pose proof (fun A f x E => @frame_fld pcb_t A f erase_links X (pcbs s) h' x E Hf) as Hfld.
  assert (live v hands ≡ₚ live (with_ready rd v) hands') as El.
  { unfold live. cbn. rewrite !(Permutation_app_swap_app _ (blocked _)). by rewrite Hp. }
  assert (forall x, x ∈ live v hands <-> x ∈ live (with_ready rd v) hands') as El'
    by (intros x; by rewrite El).
  destruct I as [Hfree Hready [Hasl Hact] Hpart Hst Hkeys Hnosem Hfor Hsup Hsems Hbios].
  split; cbn [v_free v_ready v_entries v_semds v_kids with_ready waiting]; try done.
  - eapply is_list_ext; [|exact Hfree]. intros x Hx. eapply frame_fld_notin; [|exact Hf].
    intros HxX%HX. apply (D1 x Hx). rewrite elem_of_live. set_solver.
  - split; [|done]. destruct Hasl. split; try done. rewrite Forall_forall in *.
    intros e He. apply (asl_node_keep s); try done; [|by apply asl_nodes].
    intros x Hx. assert (x ∉ X).
    { intros HxX%HX. assert (x ∈ blocked (v_entries v)) by (apply elem_of_blocked; eauto).
      apply elem_of_app in HxX as [Hr|Hh]; [by destruct (D2 x Hr)|by apply (D3 x)]. }
    split_and!; by eapply frame_fld_notin.
  - by rewrite <- El.
  - intros p Hpt. cbn. rewrite (frame_is_Some _ _ _ _ _ Hf). auto.
  - intros p Hpr. rewrite Hfld by done. auto.
  - eapply forest_perm; [exact El'|]. eapply forest_ext; [|exact Hfor]. intros x _. split_and!; by apply Hfld.
  - intros p Hpl%El'. cbn. rewrite Hfld by done. by apply Hsup.
Qed.

Lemma inv_insertReady s v hands p :
  kernel_inv s v (p :: hands) -> fld p_semAdd (pcbs s) p = Some NULL ->
  exists h', insertProcQ TP_readyQueue p s = Ret tt (set_readyQueue p (set_pcbs h' s)) /\
    kernel_inv (set_readyQueue p (set_pcbs h' s)) (with_ready (v_ready v ++ [p]) v) hands /\
    frame erase_links (p :: v_ready v) (pcbs s) h'.
Proof.
  intros I Hsem. pose proof (inv_disjoint _ _ _ I) as (_ & _ & _ & _ & _ & D2 & _).
  assert (p ∈ live v (p :: hands)) as Hp by (rewrite elem_of_live; set_solver).
  destruct (insertProcQ_ok TP_readyQueue (readyQueue s) (v_ready v) p s) as (h' & Hrun & Hq & Hf).
  - done.
  - apply I.
  - intros ->. by eapply inv_live_NULL.
  - by eapply inv_live_stored.
  - intros Hr. destruct (D2 p Hr). set_solver.
  - exists h'. split_and!; [done| |done]. eapply inv_relink; [done|done| |done| |].
    + set_solver.
    + rewrite <- (assoc_L (++)). done.
    + intros x [Hx| ->%list_elem_of_singleton]%elem_of_app; [by apply I|done].
Qed.

Lemma inv_removeReady s v hands p l :
  kernel_inv s v hands -> v_ready v = p :: l ->
  exists h', kernel_inv (set_readyQueue (default NULL (last l)) (set_pcbs h' s)) (with_ready l v) (p :: hands) /\
    removeProcQ TP_readyQueue s = Ret p (set_readyQueue (default NULL (last l)) (set_pcbs h' s)) /\
    frame erase_links (p :: l) (pcbs s) h'.
Proof.
  intros I Hr. pose proof (inv_ready _ _ _ I) as Hq. rewrite Hr in Hq.
  destruct (removeProcQ_ok TP_readyQueue _ _ _ _ eq_refl Hq) as (h' & Hrun & Hq' & Hf & _).
  exists h'. split_and!; [|done|done]. eapply inv_relink; [done|done| |done| |]; rewrite ?Hr.
  - set_solver.
  - by rewrite <- Permutation_middle.
  - intros x Hx. apply I. rewrite Hr. set_solver.
Qed.

Lemma inv_outReady s v hands p l1 l2 :
  kernel_inv s v hands -> v_ready v = l1 ++ p :: l2 ->
  exists h', outProcQ TP_readyQueue p s =
      Ret p (set_readyQueue (default NULL (last (l1 ++ l2))) (set_pcbs h' s)) /\
    kernel_inv (set_readyQueue (default NULL (last (l1 ++ l2))) (set_pcbs h' s))
      (with_ready (l1 ++ l2) v) (p :: hands) /\
    frame erase_links (v_ready v) (pcbs s) h'.
Proof.
  intros I Hr. pose proof (inv_ready _ _ _ I) as Hq. rewrite Hr in Hq.
  pose proof (inv_length _ _ _ I) as Hlen. unfold live in Hlen. rewrite Hr, !length_app in Hlen.
  destruct (outProcQ_ok TP_readyQueue _ _ _ _ s eq_refl Hq) as (h' & Hrun & Hq' & Hf & _).
  { rewrite walk_fuel_eq, length_app. lia. }
  exists h'. rewrite Hr. split_and!; [done| |done].
  eapply inv_relink; [done|done| |done| |]; rewrite ?Hr.
  - set_solver.
  - by rewrite <- !Permutation_middle.
  - intros x Hx. apply I. rewrite Hr. set_solver.
Qed.

(** ** Semaphore queues *)

(** The blocked processes are rearranged together with the hands. *)
Lemma inv_reblock s s' v L' fs' hands hands' X :
  kernel_inv s v hands -> asl_only s s' -> asl s' L' fs' ->
  frame erase_blocked X (pcbs s) (pcbs s') -> (forall x, x ∈ X -> x ∈ blocked (v_entries v) ++ hands) ->
  blocked L' ++ hands' ≡ₚ blocked (v_entries v) ++ hands ->
  (forall k, procs_at L' k <> [] -> sem_key k /\ is_Some (ints s !! k)) ->
  kernel_inv s' (with_asl L' fs' v) hands'.
Proof.
  intros I (h' & D & f & ->) Ha Hf HX Hp Hk. cbn [pcbs set_pcbs set_semds set_semdFree_h] in *.
  pose proof (inv_disjoint _ _ _ I) as (_ & _ & _ & _ & D1 & D2 & D3).
  pose proof (fun A f x E => @frame_fld pcb_t A f erase_blocked X (pcbs s) h' x E Hf) as Hfld.
  assert (forall x, x ∈ v_ready v -> x ∉ X) as HXr.
  { intros x Hx HxX%HX. destruct (D2 x Hx). set_solver. }
  assert (live v hands ≡ₚ live (with_asl L' fs' v) hands') as El by (unfold live; cbn; by rewrite Hp).
  assert (forall x, x ∈ live v hands <-> x ∈ live (with_asl L' fs' v) hands') as El'
    by (intros x; by rewrite El).
  destruct I as [Hfree Hready _ Hpart Hst Hkeys Hnosem Hfor Hsup Hsems Hbios].
  split; cbn [v_free v_ready v_entries v_semds v_kids with_asl waiting]; try done.
  - eapply is_list_ext; [|exact Hfree]. intros x Hx. eapply frame_fld_notin; [|exact Hf].
    intros HxX%HX. apply (D1 x Hx). unfold live. set_solver.
  - eapply is_queue_ext; [|exact Hready]. intros x Hx%HXr. split; by eapply frame_fld_notin.
  - by rewrite <- El.
  - intros p Hpt. cbn. rewrite (frame_is_Some _ _ _ _ _ Hf). auto.
  - intros p Hpr. cbn. rewrite (frame_fld_notin _ _ _ _ _ _ (HXr p Hpr) Hf). auto.
  - eapply forest_perm; [exact El'|]. eapply forest_ext; [|exact Hfor]. intros x _. split_and!; by apply Hfld.
  - intros p Hpl%El'. cbn. rewrite Hfld by done. by apply Hsup.
Qed.

(** There are at most as many descriptors in use as blocked processes, plus the dummies. *)
Lemma asl_size L : asl_active L -> StronglySorted Z.lt (e_key <$> L) -> (length L <= 2 + length (blocked L))%nat.
Proof.
  intros Hact Hs.
  assert (length L <= length (filter (fun e => e_procs e = []) L) + length (blocked L))%nat as H1.
  { clear. induction L as [|e L IH]; [done|]. rewrite blocked_cons, length_app, filter_cons.
    case_decide as E; cbn; [lia|]. destruct (e_procs e); [done|]. cbn. lia. }
  assert (length (filter (fun e => e_procs e = []) L) <= 2)%nat as H2; [|lia].
  rewrite <- (length_fmap e_key). change 2%nat with (length [0; MAXINT]).
  apply submseteq_length, NoDup_submseteq.
  - eapply sublist_NoDup; [|apply fmap_sublist, sublist_filter].
    clear Hact. induction Hs as [|k l Hs IH Hlt]; [constructor|]. constructor; [|done].
    intros Hk. rewrite Forall_forall in Hlt. specialize (Hlt k Hk). lia.
  - intros k (e & -> & [He Hin]%list_elem_of_filter)%list_elem_of_fmap.
    unfold asl_active in Hact. rewrite Forall_forall in Hact.
    apply (Hact e Hin) in He as [->| ->]; set_solver.
Qed.

(** There is always a descriptor for one more process: [insertBlocked] cannot fail. *)
Lemma inv_room s v p hands : kernel_inv s v (p :: hands) -> v_semds v <> [].
Proof.
  intros I E. pose proof (inv_length _ _ _ I) as Hl. destruct (inv_asl _ _ _ I) as [Ha Hact].
  pose proof (asl_size _ Hact (asl_sorted _ _ _ Ha)) as Hs. pose proof (asl_total _ _ _ Ha) as Ht.
  rewrite E in Ht. unfold live in Hl. rewrite !length_app in Hl. cbn in *. lia.
Qed.

Lemma inv_block s v p hands k :
  kernel_inv s v (p :: hands) -> sem_key k -> is_Some (ints s !! k) ->
  exists s' L' fs', insertBlocked k p s = Ret false s' /\ kernel_inv s' (with_asl L' fs' v) hands /\
    asl_only s s' /\ asl_put (v_entries v) k (waiting v k ++ [p]) L' /\
    frame erase_blocked (p :: waiting v k) (pcbs s) (pcbs s').
Proof.
  intros I Hk Hks. pose proof (inv_disjoint _ _ _ I) as (_ & _ & _ & _ & _ & _ & D3).
  assert (p ∈ live v (p :: hands)) as Hp by (rewrite elem_of_live; set_solver).
  destruct (insertBlocked_ok s (v_entries v) (v_semds v) k p)
    as (L' & fs' & s' & Hrun & Ha & Ho & Hput & Hb & Hf).
  - apply I.
  - done.
  - intros ->. by eapply inv_live_NULL.
  - by eapply inv_live_stored.
  - intros Hin%D3. set_solver.
  - right. by eapply inv_room.
  - exists s', L', fs'. split_and!; try done. eapply inv_reblock; try done.
    + intros x [->|Hx%procs_at_blocked]%elem_of_cons; set_solver.
    + by rewrite Hb, <- Permutation_middle.
    + intros k' Hk'. destruct (decide (k' = k)) as [->|Hne]; [done|].
      rewrite (proj2 Hput k' Hne) in Hk'. by apply (inv_keys _ _ _ I).
Qed.

Lemma inv_unblock s v hands k p (q : list Z) :
  kernel_inv s v hands -> waiting v k = p :: q ->
  exists s' L' fs', removeBlocked k s = Ret p s' /\ kernel_inv s' (with_asl L' fs' v) (p :: hands) /\
    asl_only s s' /\ asl_put (v_entries v) k q L' /\
    frame erase_blocked (p :: q) (pcbs s) (pcbs s') /\ fld p_semAdd (pcbs s') p = Some NULL.
Proof.
  intros I Hw. assert (waiting v k <> []) as Hne by (by rewrite Hw).
  destruct (inv_keys _ _ _ I k Hne) as [Hk Hks].
  destruct (removeBlocked_ok s (v_entries v) (v_semds v) k p q)
    as (s' & L' & fs' & Hrun & Ha & Ho & Hput & Hb & Hf & Hsem & _); [apply I|done|done|].
  exists s', L', fs'. split_and!; try done. eapply inv_reblock; try done.
  - intros x Hx. rewrite <- Hw in Hx. apply procs_at_blocked in Hx. set_solver.
  - by rewrite Hb, <- Permutation_middle.
  - intros k' Hk'. destruct (decide (k' = k)) as [->|Hn]; [done|].
    rewrite (proj2 Hput k' Hn) in Hk'. by apply (inv_keys _ _ _ I).
Qed.

Lemma inv_unblock_none s v hands k :
  kernel_inv s v hands -> sem_key k -> waiting v k = [] -> removeBlocked k s = Ret NULL s.
Proof. intros I Hk Hw. eapply removeBlocked_none; [apply I|done|done]. Qed.

Lemma inv_blocked_length s v hands : kernel_inv s v hands -> (length (blocked (v_entries v)) <= walk_fuel)%nat.
Proof.
  intros I. pose proof (inv_length _ _ _ I) as Hlen. unfold live in Hlen.
  rewrite !length_app in Hlen. rewrite walk_fuel_eq. lia.
Qed.

Lemma inv_outBlocked s v hands k (q1 : list Z) p (q2 : list Z) :
  kernel_inv s v hands -> waiting v k = q1 ++ p :: q2 ->
  exists s' L' fs', outBlocked p s = Ret p s' /\ kernel_inv s' (with_asl L' fs' v) (p :: hands) /\
    asl_only s s' /\ asl_put (v_entries v) k (q1 ++ q2) L' /\
    frame erase_links (waiting v k) (pcbs s) (pcbs s').
Proof.
  intros I Hw. assert (waiting v k <> []) as Hne by (rewrite Hw; by destruct q1).
  destruct (inv_keys _ _ _ I k Hne) as [Hk Hks].
  destruct (outBlocked_ok s (v_entries v) (v_semds v) k q1 p q2)
    as (s' & L' & fs' & Hrun & Ha & Ho & Hput & Hb & Hf & _);
    [apply I|done|done|by eapply inv_blocked_length|].
  exists s', L', fs'. rewrite Hw. split_and!; try done.
  eapply (inv_reblock _ _ _ _ _ _ _ (q1 ++ p :: q2)); try done.
  - eapply frame_weaken; [|exact Hf]. done.
  - intros x Hx. rewrite <- Hw in Hx. apply procs_at_blocked in Hx. set_solver.
  - by rewrite Hb, <- Permutation_middle.
  - intros k' Hk'. destruct (decide (k' = k)) as [->|Hn]; [done|].
    rewrite (proj2 Hput k' Hn) in Hk'. by apply (inv_keys _ _ _ I).
Qed.

(** ** Allocation *)
Lemma inv_alloc s v hands p l :
  kernel_inv s v hands -> v_free v = p :: l ->
  exists n, let s' := set_pcbFree_h n (set_pcbs (alter fresh_pcb p (pcbs s)) s) in
    allocPcb s = Ret p s' /\
    kernel_inv s' (with_kids (<[p := []]> (v_kids v)) (with_free l v)) (p :: hands).
Proof.
  intros I Hp. pose proof (inv_free _ _ _ I) as Hfree. rewrite Hp in Hfree.
  destruct (allocPcb_ok s p l Hfree) as (n & Hrun & Hfree'). exists n. split; [done|].
  pose proof (inv_disjoint _ _ _ I) as (_ & _ & _ & _ & D1 & _).
  rewrite Hp in D1. assert (p ∉ live v hands) as Hpl by (apply D1; set_solver).
  assert (p ∈ pcb_table) as Hpt by (eapply inv_in_table; [done|rewrite Hp; set_solver]).
  assert (is_Some (pcbs s !! p)) as Hps by (by apply (inv_stored _ _ _ I)).
  assert (forall x, x ∈ live v hands -> p <> x) as Hne by (intros x Hx ->; done).
  assert (live (with_kids (<[p := []]> (v_kids v)) (with_free l v)) (p :: hands) ≡ₚ p :: live v hands)
    as El by (unfold live; cbn; by rewrite <- !Permutation_middle).
  assert (forall x, x ∈ live (with_kids (<[p := []]> (v_kids v)) (with_free l v)) (p :: hands) <->
                    x ∈ p :: live v hands) as El' by (intros x; by rewrite El).
  destruct I as [_ Hready [Hasl Hact] Hpart Hst Hkeys Hnosem Hfor Hsup Hsems Hbios].
  split; cbn [v_free v_ready v_entries v_semds v_kids with_free with_kids waiting
              pcbs set_pcbs set_pcbFree_h]; try done.
  - eapply is_queue_ext; [|exact Hready]. intros x Hx.
    assert (p <> x) by (apply Hne; rewrite elem_of_live; auto). by rewrite !fld_alter_ne.
  - split; [|done]. destruct Hasl. split; try done. rewrite Forall_forall in *.
    intros e He. apply (asl_node_keep s); try done; [|by apply asl_nodes].
    intros x Hx. assert (p <> x).
    { apply Hne. rewrite elem_of_live, elem_of_blocked. eauto. }
    cbn. by rewrite !fld_alter_ne.
  - rewrite El, <- Permutation_middle. by rewrite Hp in Hpart.
  - intros x Hx. apply is_Some_alter. auto.
  - intros x Hx. rewrite fld_alter_ne by (apply Hne; rewrite elem_of_live; auto). auto.
  - eapply forest_perm; [intros x; symmetry; apply El'|]. apply forest_new.
    + eapply forest_ext; [|exact Hfor]. intros x Hx%Hne. by rewrite !fld_alter_ne.
    + done.
    + by apply fld_alter_eq.
    + by apply fld_alter_eq.
  - intros x [->|Hx]%El'%elem_of_cons.
    + exists NULL. split; [by apply fld_alter_eq|by left].
    + rewrite fld_alter_ne by auto. by apply Hsup.
Qed.

Lemma inv_alloc_none s v hands : kernel_inv s v hands -> v_free v = [] -> allocPcb s = Ret NULL s.
Proof. intros I Hf. apply allocPcb_none. rewrite <- Hf. apply I. Qed.

Lemma inv_freePcb s v hands p :
  kernel_inv s v (p :: hands) -> v_kids v p = [] -> fld p_prnt (pcbs s) p = Some NULL ->
  exists h', freePcb p s = Ret tt (set_pcbFree_h p (set_pcbs h' s)) /\
    kernel_inv (set_pcbFree_h p (set_pcbs h' s)) (with_free (p :: v_free v) v) hands /\
    frame erase_links (p :: v_free v) (pcbs s) h'.
Proof.
  intros I Hk Hpr. pose proof (inv_disjoint _ _ _ I) as (_ & _ & _ & Hnd & D1 & D2 & D3).
  pose proof (inv_live_NoDup _ _ _ I) as Hndl. pose proof (inv_live_NULL _ _ _ I) as HN.
  assert (p ∈ live v (p :: hands)) as Hpl by (rewrite elem_of_live; set_solver).
  assert (p <> NULL) as HpN by (intros ->; done).
  destruct (freePcb_ok s p (v_free v)) as (h' & Hrun & Hfree & Hf);
    [apply I|done|by eapply inv_live_stored|intros Hx; by apply (D1 p Hx)|].
  exists h'. split_and!; [done| |done].
  assert (live v (p :: hands) ≡ₚ p :: live (with_free (p :: v_free v) v) hands) as El
    by (unfold live; cbn; by rewrite <- !Permutation_middle).
  assert (forall x, x ∈ live v (p :: hands) <-> x = p \/ x ∈ live (with_free (p :: v_free v) v) hands) as El'
    by (intros x; by rewrite El, elem_of_cons).
  assert (p ∉ live (with_free (p :: v_free v) v) hands) as Hpn by (rewrite El in Hndl; by apply NoDup_cons in Hndl as [? _]).
  assert (forall x, x ∈ v_ready v ++ blocked (v_entries v) -> x ∉ p :: v_free v) as Hout.
  { intros x Hx [->|Hfr]%elem_of_cons.
    - apply Hpn. unfold live. cbn. set_solver.
    - apply (D1 x Hfr). unfold live. set_solver. }
  pose proof (fun A f x E => @frame_fld pcb_t A f erase_links _ (pcbs s) h' x E Hf) as Hfld.
  destruct I as [_ Hready [Hasl Hact] Hpart Hst Hkeys Hnosem Hfor Hsup Hsems Hbios].
  split; cbn [v_free v_ready v_entries v_semds v_kids with_free waiting pcbs set_pcbs set_pcbFree_h]; try done.
  - eapply is_queue_frame; [exact Hf| |exact Hready]. intros x Hx. apply Hout. set_solver.
  - split; [|done]. destruct Hasl. split; try done. rewrite Forall_forall in *.
    intros e He. apply (asl_node_keep s); try done; [|by apply asl_nodes].
    intros x Hx. assert (x ∉ p :: v_free v).
    { apply Hout. apply elem_of_app. right. apply elem_of_blocked. eauto. }
    split_and!; by eapply frame_fld_notin.
  - cbn. rewrite El in Hpart. by rewrite <- Permutation_middle in Hpart.
  - intros x Hx. rewrite (frame_is_Some _ _ _ _ _ Hf). auto.
  - intros x Hx. rewrite Hfld by done. auto.
  - eapply (forest_drop _ (live v (p :: hands))); try done.
    + eapply forest_ext; [|exact Hfor]. intros x _. split_and!; by apply Hfld.
    + by rewrite Hfld.
  - intros x Hx. rewrite Hfld by done. apply Hsup, El'. by right.
Qed.

(** ** The process tree *)
Lemma inv_tree s v hands h' kids' X :
  kernel_inv s v hands -> frame erase_tree X (pcbs s) h' -> forest h' (live v hands) kids' ->
  kernel_inv (set_pcbs h' s) (with_kids kids' v) hands.
Proof.
  intros I Hf Hfor. pose proof (fun A f x E => @frame_fld pcb_t A f erase_tree X (pcbs s) h' x E Hf) as Hfld.
  destruct I as [Hfree Hready [Hasl Hact] Hpart Hst Hkeys Hnosem _ Hsup Hsems Hbios].
  split; cbn [v_free v_ready v_entries v_semds v_kids with_kids waiting pcbs set_pcbs]; try done.
  - eapply is_list_ext; [|exact Hfree]. intros x _. by apply Hfld.
  - eapply is_queue_ext; [|exact Hready]. intros x _. split; by apply Hfld.
  - split; [|done]. destruct Hasl. split; try done. eapply Forall_impl; [exact asl_nodes|].
    intros e. apply asl_node_keep; [done..|]. intros x _. split_and!; by apply Hfld.
  - intros x Hx. rewrite (frame_is_Some _ _ _ _ _ Hf). auto.
  - intros x Hx. rewrite Hfld by done. auto.
  - intros x Hx. rewrite Hfld by done. by apply Hsup.
Qed.

(** A process gets a support structure. *)
Lemma inv_set_support s v hands p u :
  kernel_inv s v hands -> support_ok s u ->
  kernel_inv (set_pcbs (alter (set_p_supportStruct u) p (pcbs s)) s) v hands.
Proof.
  intros [Hfree Hready [Hasl Hact] Hpart Hst Hkeys Hnosem Hfor Hsup Hsems Hbios] Hu.
  split; cbn [pcbs set_pcbs]; try done.
  - eapply is_list_ext; [|exact Hfree]. intros x _. cbn. by fld_simp.
  - eapply is_queue_ext; [|exact Hready]. intros x _. by fld_simp.
  - split; [|done]. destruct Hasl. split; try done. eapply Forall_impl; [exact asl_nodes|].
    intros e. apply asl_node_keep; [done..|]. intros x _. cbn. by fld_simp.
  - intros x Hx. apply is_Some_alter. auto.
  - intros x Hx. fld_simp. auto.
  - eapply forest_ext; [|exact Hfor]. intros x _. by fld_simp.
  - intros x Hx. destruct (Hsup x Hx) as (w & Hw & Hok). destruct (decide (p = x)) as [->|].
    + exists u. split; [|done]. apply fld_alter_eq; [done|]. by eapply fld_is_Some.
    + exists w. split; [|done]. by fld_simp.
Qed.
Lemma inv_kids_length s v hands q :
  kernel_inv s v hands -> q ∈ live v hands -> (length (v_kids v q) < walk_fuel)%nat.
Proof.
  intros I Hq. pose proof (forest_children _ _ _ (inv_forest _ _ _ I) q Hq) as Hch.
  pose proof (children_NoDup _ _ _ Hch) as Hnd. rewrite walk_fuel_eq.
  pose proof (inv_length _ _ _ I). enough (length (v_kids v q) <= length (live v hands))%nat by lia.
  apply submseteq_length, NoDup_submseteq; [done|]. intros x Hx.
  by apply (forest_live _ _ _ (inv_forest _ _ _ I) q).
Qed.

End moves.
