(* ===== verification/Syscalls.v ===== *)
(** * System calls: phase2/exceptions.c

    The helpers and the eight system calls SYS1 to SYS8. *)
From S2P Require Export Initial.

(** The [int *] an [int] register holds. *)
Definition ptr_of_int (v : Z) : Z := u32 v.

(** [*a += d], for an [int *a] *)
Definition add_int (a d : Z) : K unit :=
  do v <- load_int a;
  store_int a (i32 (v + d)).

Definition addPigeonCurrentProcessHelper : K unit :=
  do e <- gets savedExceptionState;
  do c <- gets currentProcess;
  moveStateHelper (SR_mem e) (SR_pcb c).

Section handlers.
Context {m : Machine}.

(** [STCK(curr_TOD); updateProcessTimeHelper(currentProcess, start_TOD, curr_TOD);] *)
Definition charge_current : K unit :=
  do t <- STCK;
  do! modify (set_curr_TOD t);
  do c <- gets currentProcess;
  do start <- gets start_TOD;
  do t <- gets curr_TOD;
  updateProcessTimeHelper c start t.

(** [... switchContext(currentProcess);] *)
Definition resume_current : K unit :=
  do c <- gets currentProcess;
  switchContext c.

Definition blockCurrentProcessHelper (this_semaphore : Z) : K unit :=
  do! charge_current;
  do c <- gets currentProcess;
  do! insertBlocked this_semaphore c;
  modify (set_currentProcess NULL).

(** ** System calls *)

(** SYS1 *)
Definition createProcess (state_process support_process : Z) : K unit :=
  do new_pcb <- allocPcb;
  do! (if negb (new_pcb =? NULL) then
         do! moveStateHelper (SR_mem state_process) (SR_pcb new_pcb);
         do! upd_pcb new_pcb (set_p_supportStruct support_process);
         do! upd_pcb new_pcb (set_p_time PROCESS_INIT_START);
         do! upd_pcb new_pcb (set_p_semAdd NULL);
         do c <- gets currentProcess;
         do! insertChild c new_pcb;
         do! insertProcQ TP_readyQueue new_pcb;
         do c <- gets currentProcess;
         do! upd_state (SR_pcb c) (set_reg s_v0 SUCCESS_CONST);
         modify (fun s => set_processCount (i32 (processCount s + 1)) s)
       else
         do c <- gets currentProcess;
         upd_state (SR_pcb c) (set_reg s_v0 ERROR_CONST));
  do! charge_current;
  resume_current.

(** [while (!emptyChild(p)) terminateProcess(removeChild(p));] *)
Fixpoint terminate_children (fuel : nat) (terminate : Z -> K unit) (p : Z) : K unit :=
  match fuel with
  | O => crash OutOfFuel
  | S fuel =>
      do e <- emptyChild p;
      if e : bool then ret tt
      else
        do c <- removeChild p;
        do! terminate c;
        terminate_children fuel terminate p
  end.

(** The test whether a semaphore is one of [semaphoreDevices]. *)
Definition is_device_sem (a : Z) : bool :=
  (sem_addr 0 <=? a) && (a <=? sem_addr CLOCK_INDEX).

(** SYS2; the fuel bounds the depth of the process tree. *)
Fixpoint terminateProcess (fuel : nat) (terminate_process : Z) : K unit :=
  match fuel with
  | O => crash OutOfFuel
  | S fuel =>
      do! terminate_children walk_fuel (terminateProcess fuel) terminate_process;
      do this_semaphore <- get_pcb terminate_process p_semAdd;
      do c <- gets currentProcess;
      do! (if terminate_process =? c then
             do! outChild terminate_process;
             ret tt
           else if negb (this_semaphore =? NULL) then
             do! outBlocked terminate_process;
             if negb (is_device_sem this_semaphore) then add_int this_semaphore 1
             else modify (fun s => set_softBlockedCount (i32 (softBlockedCount s - 1)) s)
           else
             do! outProcQ TP_readyQueue terminate_process;
             ret tt);
      do! freePcb terminate_process;
      modify (fun s => set_processCount (i32 (processCount s - 1)) s)
  end.

Definition terminate_fuel : nat := 21.

(** [terminateProcess(currentProcess); currentProcess = NULL; scheduler();] *)
Definition terminate_current : K unit :=
  do c <- gets currentProcess;
  do! terminateProcess terminate_fuel c;
  do! modify (set_currentProcess NULL);
  scheduler.

(** SYS3 *)
Definition passeren (this_semaphore : Z) : K unit :=
  do! add_int this_semaphore (-1);
  do v <- load_int this_semaphore;
  do! debugExceptionHandler 8 v 0 0;
  do v <- load_int this_semaphore;
  do! (if v <? 0 then
         do! blockCurrentProcessHelper this_semaphore;
         scheduler
       else ret tt);
  do! charge_current;
  resume_current.

(** SYS4 *)
Definition verhogen (this_semaphore : Z) : K unit :=
  do! add_int this_semaphore 1;
  do v <- load_int this_semaphore;
  do! debugExceptionHandler 9 v 0 0;
  do v <- load_int this_semaphore;
  do! (if v <=? 0 then
         do this_pcb <- removeBlocked this_semaphore;
         if negb (this_pcb =? NULL) then insertProcQ TP_readyQueue this_pcb else ret tt
       else ret tt);
  do! charge_current;
  resume_current.

(** SYS5: the semaphore index, then the call. *)
Definition wait_index (interrupt_line_number device_number wait_for_read : Z) : Z :=
  let semaphore_index :=
    i32 (i32 ((interrupt_line_number - BASE_LINE) * Z.of_nat DEVPERINT) + device_number) in
  if (interrupt_line_number =? LINE7) && negb (wait_for_read =? TRUE)
  then i32 (semaphore_index + Z.of_nat DEVPERINT)
  else semaphore_index.

Definition waitForIO (interrupt_line_number device_number wait_for_read : Z) : K unit :=
  let semaphore_index := wait_index interrupt_line_number device_number wait_for_read in
  do! modify (fun s => set_softBlockedCount (i32 (softBlockedCount s + 1)) s);
  do! add_int (sem_addr semaphore_index) (-1);
  do v <- load_int (sem_addr semaphore_index);
  do! (if v <? 0 then
         do! blockCurrentProcessHelper (sem_addr semaphore_index);
         scheduler
       else ret tt);
  do! charge_current;
  resume_current.

(** SYS6 *)
Definition getCPUTime : K unit :=
  do! charge_current;
  do c <- gets currentProcess;
  do t <- get_pcb c p_time;
  do! upd_state (SR_pcb c) (set_reg s_v0 t);
  do! charge_current;
  resume_current.

(** SYS7 *)
Definition waitForClock : K unit :=
  do! add_int (sem_addr CLOCK_INDEX) (-1);
  do v <- load_int (sem_addr CLOCK_INDEX);
  do! (if v <? 0 then
         do! modify (fun s => set_softBlockedCount (i32 (softBlockedCount s + 1)) s);
         do! blockCurrentProcessHelper (sem_addr CLOCK_INDEX);
         scheduler
       else ret tt);
  do! charge_current;
  resume_current.

(** SYS8 *)
Definition getSupportData : K unit :=
  do c <- gets currentProcess;
  do u <- get_pcb c p_supportStruct;
  do! upd_state (SR_pcb c) (set_reg s_v0 (i32 u));
  do! charge_current;
  resume_current.

End handlers.

(** * Lemmas *)
Lemma terminate_fuel_eq : terminate_fuel = 21%nat.
Proof. reflexivity. Qed.

#[global] Opaque terminate_fuel.
