(* ===== verification/HandlerBase.v ===== *)
(** * Building blocks of the handlers

    The state between two entries of the nucleus ([nucleus_inv]), and the pieces that every
    handler is made of: charging time, copying the exception state, resuming and scheduling. *)
From S2P Require Export InvariantOps Syscalls.

(** The current process, if there is one. *)
Definition running (s : kstate) : list Z :=
  if currentProcess s =? NULL then [] else [currentProcess s].

Section nucleus.
Context {m : Machine}.

Record nucleus_inv (s : kstate) (v : view) : Prop := {
  nucleus_kernel : kernel_inv s v (running s);
  nucleus_current : currentProcess s <> NULL -> fld p_semAdd (pcbs s) (currentProcess s) = Some NULL;
  nucleus_count : processCount s = Z.of_nat (length (live v (running s)))
}.

(** One time-of-day reading: its value, and the state after it. *)
Definition tod (s : kstate) : Z :=
  Z.quot (i32 (todlo_at (tod_reads s))) (i32 (timescale (bus s))).
Definition tick (s : kstate) : kstate :=
  set_tod_reads (S (tod_reads s)) (set_bus (set_todlo (todlo_at (tod_reads s)) (bus s)) s).

(** [d] more microseconds on the account of [p]. *)
Definition add_time (d : Z) (r : pcb_t) : pcb_t := set_p_time (i32 (p_time r + i32 d)) r.

Definition charged (s : kstate) : kstate :=
  set_pcbs (alter (add_time (tod s - start_TOD s)) (currentProcess s) (pcbs s))
    (set_curr_TOD (tod s) (tick s)).

(** The saved state of a process. *)
Definition saved_state (s : kstate) (p : Z) : state_t := default zero_state (fld p_s (pcbs s) p).

(** The time of day as of the last reading. *)
Definition last_tod (s : kstate) : Z := Z.quot (i32 (todlo (bus s))) (i32 (timescale (bus s))).

(** The outcome of the scheduler on the queues [v]: the head of the ready queue runs with a full
    time slice; with nobody ready, the machine halts, waits or panics. *)
Definition dispatched (v : view) (e : exit_event) (v' : view) (s' : kstate) : Prop :=
  match v_ready v with
  | p :: l => e = Ldst (saved_state s' p) /\ currentProcess s' = p /\ v' = with_ready l v /\
              cp0_timer s' = u32 PLT_TIME_SLICE /\ start_TOD s' = last_tod s' /\ p <> NULL
  | [] => v' = v /\ currentProcess s' = NULL /\
          e = (if processCount s' =? 0 then Halt else if 0 <? softBlockedCount s' then Wait else Panic) /\
          (e = Wait -> cp0_timer s' = u32 INF_TIME /\ cp0_status s' = Z.lor (Z.lor ALLOFF IMON) IECON)
  end.

(** From [s] to [s'] the saved states, the support structures and the number of processes stay,
    the time of process [x] goes from [t] to [time x t], and the memory words and the
    soft-blocked count become [words] and [soft]. *)
Record data_step (time : Z -> Z -> Z) (words : gmap Z Z) (soft : Z) (s s' : kstate) : Prop := {
  data_pcbs : forall x, fld p_s (pcbs s') x = fld p_s (pcbs s) x /\
                        fld p_time (pcbs s') x = time x <$> fld p_time (pcbs s) x /\
                        fld p_supportStruct (pcbs s') x = fld p_supportStruct (pcbs s) x;
  data_count : processCount s' = processCount s;
  data_supports : supports s' = supports s;
  data_states : states s' = states s;
  data_ints : ints s' = words;
  data_soft : softBlockedCount s' = soft
}.
Definition no_time (x t : Z) : Z := t.
Definition charge_time (c d x t : Z) : Z := if x =? c then i32 (t + i32 d) else t.
Definition same_data (s s' : kstate) : Prop := data_step no_time (ints s) (softBlockedCount s) s s'.

(** From [s] to [s'] the saved state, time and support structure of every pcb outside [X], and every
    support structure outside [U] and processor state in memory but the exception state, stay. *)
Record kept (X U : Z -> Prop) (s s' : kstate) : Prop := {
  kept_pcbs : forall x, ~ X x -> fld p_s (pcbs s') x = fld p_s (pcbs s) x /\
                        fld p_time (pcbs s') x = fld p_time (pcbs s) x /\
                        fld p_supportStruct (pcbs s') x = fld p_supportStruct (pcbs s) x;
  kept_supports : forall a, ~ U a -> supports s' !! a = supports s !! a;
  kept_states : forall a, a <> BIOSDATAPAGE -> states s' !! a = states s !! a
}.
Definition nothing (x : Z) : Prop := False.

(** Only the running process changes, and the support structures [U]. *)
Record steady (U : Z -> Prop) (s s' : kstate) : Prop := {
  steady_kept : kept (eq (currentProcess s)) U s s';
  steady_ints : ints s' = ints s;
  steady_soft : softBlockedCount s' = softBlockedCount s
}.

Context {mok : MachineOk m}.
Implicit Types (s : kstate) (v : view) (p c k : Z) (X U : Z -> Prop).

#[export] Instance kept_preorder X U : PreOrder (kept X U).
Proof.
  split; [done|]. intros s1 s2 s3 [P1 U1 S1] [P2 U2 S2]. split; [|intros a Ha..].
  - intros x Hx. destruct (P1 x Hx) as (<- & <- & <-). auto.
  - by rewrite U2, U1.
  - by rewrite S2, S1.
Qed.

Lemma kept_mono X U (X' U' : Z -> Prop) s s' :
  (forall x, X x -> X' x) -> (forall a, U a -> U' a) -> kept X U s s' -> kept X' U' s s'.
Proof. intros HX HU [P S T]. split; [|intros a Ha; apply S; auto|done]. intros x Hx. apply P. auto. Qed.

Lemma kept_data X time words soft s s' :
  data_step time words soft s s' -> (forall x t, ~ X x -> time x t = t) -> kept X nothing s s'.
Proof.
  intros [P _ S T _ _] Ht. split; [|intros; by rewrite S|intros; by rewrite T]. intros x Hx.
  destruct (P x) as (-> & -> & ->). split_and!; [done| |done].
  destruct (fld p_time (pcbs s) x); cbn; [by rewrite Ht|done].
Qed.

Lemma kept_same X s s' : same_data s s' -> kept X nothing s s'.
Proof. intros H. by eapply kept_data. Qed.

Lemma kept_charge c d words soft s s' :
  data_step (charge_time c d) words soft s s' -> kept (eq c) nothing s s'.
Proof.
  intros H. eapply kept_data; [exact H|]. intros x t Hx. unfold charge_time.
  destruct (Z.eqb_spec x c); [congruence|done].
Qed.

Lemma kept_pcb (X U : Z -> Prop) g p s : X p -> kept X U s (set_pcbs (alter g p (pcbs s)) s).
Proof. intros Hp. split; try done. intros x Hx. cbn. rewrite !fld_alter_ne; [done|congruence..]. Qed.

Lemma steady_from U s s1 s' :
  kept (eq (currentProcess s)) U s s1 -> currentProcess s1 = currentProcess s -> ints s1 = ints s ->
  softBlockedCount s1 = softBlockedCount s -> steady U s1 s' -> steady U s s'.
Proof.
  intros Hk Ec Ei Es [H Hi Hs]. rewrite Ec in H. split; [by etrans|congruence..].
Qed.

(** The links are not payload. *)
Lemma kept_frame X U (er : pcb_t -> pcb_t) (D : list Z) s s' :
  (forall r, p_s (er r) = p_s r /\ p_time (er r) = p_time r /\ p_supportStruct (er r) = p_supportStruct r) ->
  frame er D (pcbs s) (pcbs s') -> supports s' = supports s -> states s' = states s -> kept X U s s'.
Proof.
  intros He Hf Hs Ht. split; [|intros; by rewrite Hs|intros; by rewrite Ht]. intros x _.
  split_and!; eapply frame_fld; try exact Hf; intros r; apply He.
Qed.

Lemma running_some s : currentProcess s <> NULL -> running s = [currentProcess s].
Proof. intros Hc. unfold running. by kif. Qed.

Lemma running_none s : currentProcess s = NULL -> running s = [].
Proof. unfold running. by intros ->. Qed.

Lemma erase_alter (er g : pcb_t -> pcb_t) p (h : gmap Z pcb_t) x :
  (forall r, er (g r) = er r) -> er <$> alter g p h !! x = er <$> h !! x.
Proof.
  intros Hg. rewrite lookup_alter. case_decide; [subst|done]. destruct (h !! x); cbn; by rewrite ?Hg.
Qed.

Lemma harmless_pcb g p s :
  (forall r, erase_payload (g r) = erase_payload r) -> harmless s (set_pcbs (alter g p (pcbs s)) s).
Proof. intros Hg. split; try done; [|by left]. intros x. by apply erase_alter. Qed.

Lemma harmless_int a z s : harmless s (set_ints (<[a := z]> (ints s)) s).
Proof.
  split; try done; [|by left]. intros b [w Hw]. cbn. destruct (decide (a = b)) as [->|].
  - rewrite lookup_insert_eq. eauto.
  - rewrite lookup_insert_ne; eauto.
Qed.

Lemma harmless_states f a s : harmless s (set_states (alter f a (states s)) s).
Proof. split; try done; [|by left]. intros ?. by apply is_Some_alter. Qed.

Lemma harmless_support f a s : harmless s (set_supports (alter f a (supports s)) s).
Proof. split; try done; [|by left]. intros b Hb. by apply is_Some_alter. Qed.

(** Changes of the other globals only. *)
Definition globals_only (s s' : kstate) : Prop :=
  pcbs s' = pcbs s /\ pcbFree_h s' = pcbFree_h s /\ readyQueue s' = readyQueue s /\
  semds s' = semds s /\ semd_h s' = semd_h s /\ semdFree_h s' = semdFree_h s /\
  ints s' = ints s /\ supports s' = supports s /\ states s' = states s /\
  savedExceptionState s' = savedExceptionState s.

Lemma harmless_globals s s' : globals_only s s' -> harmless s s'.
Proof.
  intros (E1 & E2 & E3 & E4 & E5 & E6 & E7 & E8 & E9 & E10).
  split; try done; [by rewrite E1|by rewrite E7|by rewrite E8|by rewrite E9|by left].
Qed.

Lemma charge_current_ok s :
  is_Some (pcbs s !! currentProcess s) -> charge_current s = Ret tt (charged s).
Proof.
  intros Hc. unfold charge_current, STCK. erewrite bind_ret by reflexivity.
  ksteps. unfold updateProcessTimeHelper. by rewrite upd_pcb_ok.
Qed.

Lemma harmless_charged s : harmless s (charged s).
Proof.
  eapply harmless_trans; [|by apply (harmless_pcb (add_time (tod s - start_TOD s)) (currentProcess s)
    (set_curr_TOD (tod s) (tick s)))]. by apply harmless_globals.
Qed.

Lemma harmless_switched p s : harmless s (switched p s).
Proof. by apply harmless_globals. Qed.

Lemma resume_current_ok s st :
  fld p_s (pcbs s) (currentProcess s) = Some st ->
  resume_current s = Stop (Ldst st) (switched (currentProcess s) s).
Proof. intros Hp. unfold resume_current. kstep. by apply switchContext_ok. Qed.

(** [STCK; updateProcessTimeHelper; switchContext], the end of the system calls that go on. *)
Lemma charge_resume_ok s st :
  fld p_s (pcbs s) (currentProcess s) = Some st ->
  (do! charge_current; resume_current) s =
    Stop (Ldst st) (switched (currentProcess s) (charged s)).
Proof.
  intros Hp. erewrite bind_ret by (apply charge_current_ok; by eapply fld_is_Some).
  apply (resume_current_ok (charged s)). cbn. by fld_simp.
Qed.

Lemma inv_p_s s v hands p :
  kernel_inv s v hands -> p ∈ live v hands -> exists st, fld p_s (pcbs s) p = Some st.
Proof.
  intros I Hp. destruct (inv_live_stored _ _ _ _ I Hp) as [r Hr]. exists (p_s r).
  unfold fld. by rewrite Hr.
Qed.

(** The nucleus invariant across changes that move no process. *)
Lemma nucleus_harmless s s' v :
  nucleus_inv s v -> harmless s s' -> currentProcess s' = currentProcess s ->
  processCount s' = processCount s -> nucleus_inv s' v.
Proof.
  intros [I Hc Hn] H Ec En. assert (running s' = running s) as Er by (unfold running; by rewrite Ec).
  split; rewrite ?Er, ?En, ?Ec; [by eapply inv_harmless| |done].
  intros HcN. rewrite (harmless_fld p_semAdd _ _ _ (fun _ => eq_refl) H). auto.
Qed.

Lemma nucleus_stored s v : nucleus_inv s v -> currentProcess s <> NULL -> is_Some (pcbs s !! currentProcess s).
Proof. intros [_ Hc _] HcN. by eapply fld_is_Some, Hc. Qed.

Lemma no_time_id x (o : option Z) : no_time x <$> o = o.
Proof. by destruct o. Qed.

Lemma data_step_trans time words soft s1 s2 s3 :
  data_step time words soft s1 s2 -> same_data s2 s3 -> data_step time words soft s1 s3.
Proof.
  intros [] []. split; try congruence. intros x.
  destruct (data_pcbs0 x) as (? & ? & ?), (data_pcbs1 x) as (? & Ht & ?).
  rewrite no_time_id in Ht. split_and!; congruence.
Qed.

Lemma data_step_then time words soft s1 s2 s3 words' soft' :
  data_step no_time words soft s1 s2 -> data_step time words' soft' s2 s3 -> data_step time words' soft' s1 s3.
Proof.
  intros [] []. split; try congruence. intros x.
  destruct (data_pcbs0 x) as (? & Ht & ?), (data_pcbs1 x) as (? & ? & ?).
  rewrite no_time_id in Ht. split_and!; congruence.
Qed.

Lemma same_data_refl s : same_data s s.
Proof. split; try done. intros x. by rewrite no_time_id. Qed.

Lemma charge_time_alter d c (h : gmap Z pcb_t) x :
  fld p_time (alter (add_time d) c h) x = charge_time c d x <$> fld p_time h x.
Proof.
  unfold charge_time, fld. rewrite lookup_alter. case_decide as E.
  - rewrite E, Z.eqb_refl. by destruct (h !! x).
  - destruct (Z.eqb_spec x c); [congruence|]. by destruct (h !! x).
Qed.

Lemma data_step_charged s : data_step (charge_time (currentProcess s) (tod s - start_TOD s))
  (ints s) (softBlockedCount s) s (charged s).
Proof. split; try done. intros x. cbn. rewrite charge_time_alter. split_and!; [by fld_simp|done|by fld_simp]. Qed.

(** The scheduler, when no process is running. *)
Lemma scheduler_ok s v :
  nucleus_inv s v -> currentProcess s = NULL ->
  stops scheduler s (fun e s' =>
    exists v', nucleus_inv s' v' /\ dispatched v e v' s' /\ same_data s s').
Proof.
  intros [I Hcur Hn] Hc. rewrite (running_none s Hc) in *. unfold dispatched.
  destruct (v_ready v) as [|p l] eqn:Er.
  - pose proof (inv_ready _ _ _ I) as Hq. rewrite Er in Hq.
    pose proof (scheduler_idle s Hq) as Hrun.
    assert (nucleus_inv s v) as IN by (split; by rewrite ?(running_none s Hc)).
    destruct (processCount s =? 0) eqn:E1; [|destruct (0 <? softBlockedCount s) eqn:E2];
      (eapply stops_intro; [exact Hrun|]); exists v;
      (split; [apply (nucleus_harmless s); [done|by apply harmless_globals|done..]|]);
      (split; [cbn; by rewrite ?E1, ?E2|]);
      (split; try done; intros x; by rewrite no_time_id).
  - destruct (inv_removeReady s v [] p l I Er) as (h' & I' & Hrun & Hf).
    assert (p ∈ live v []) as Hp by (rewrite elem_of_live, Er; set_solver).
    destruct (inv_p_s _ _ _ _ I Hp) as [st Hst].
    pose proof (inv_ready _ _ _ I) as Hq. rewrite Er in Hq.
    assert (p <> NULL) as HpN by (destruct (is_queue_cons _ _ _ _ Hq); naive_solver).
    pose proof (fun A f x E => @frame_fld pcb_t A f erase_links (p :: l) (pcbs s) h' x E Hf) as Hfld.
    assert (fld p_s h' p = Some st) as Hst' by (by rewrite Hfld).
    eapply stops_intro.
    { eapply scheduler_dispatch; [by destruct (is_queue_cons _ _ _ _ Hq)|exact Hrun|exact Hst']. }
    exists (with_ready l v). split; [|split].
    + split; cbn [currentProcess switched set_start_TOD set_tod_reads set_bus set_currentProcess].
      * rewrite running_some by done. eapply inv_harmless; [exact I'|]. by apply harmless_globals.
      * intros _. cbn. rewrite Hfld by done. apply (inv_nosem _ _ _ I). rewrite Er. set_solver.
      * rewrite running_some by done. cbn. rewrite Hn. unfold live. cbn. rewrite Er.
        rewrite !length_app. cbn. lia.
    + split_and!; [|done..]. unfold saved_state. cbn. by rewrite Hst'.
    + split; try done. intros x. rewrite no_time_id. split_and!; by apply Hfld.
Qed.

(** ** Memory words *)
Lemma sem_addr_ok i : 0 <= i < MAX_DEVICE_COUNT -> sem_addr i = semaphoreDevices + i * WORDLEN /\ sem_key (sem_addr i).
Proof.
  intros Hi. destruct semaphoreDevices_ram as [H1 H2].
  unfold sem_addr, sem_key, MAX_DEVICE_COUNT, WORDLEN, RAMSTART, NULL, MAXINT in *.
  rewrite u32_small by (unfold in_u32; lia). lia.
Qed.

Lemma add_int_ok a d n s :
  ints s !! a = Some n -> add_int a d s = Ret tt (set_ints (<[a := i32 (n + d)]> (ints s)) s).
Proof.
  intros Ha. unfold add_int. rewrite (bind_ret _ _ _ _ _ (load_int_ok _ _ _ Ha)).
  apply store_int_ok. by rewrite Ha.
Qed.

Lemma nucleus_int s v a z : nucleus_inv s v -> nucleus_inv (set_ints (<[a := z]> (ints s)) s) v.
Proof. intros N. by apply (nucleus_harmless s); [|apply harmless_int|..]. Qed.

(** ** Blocking the current process *)
Lemma block_current_ok s v k :
  nucleus_inv s v -> currentProcess s <> NULL -> sem_key k -> is_Some (ints s !! k) ->
  exists s' L' fs', blockCurrentProcessHelper k s = Ret tt s' /\
    nucleus_inv s' (with_asl L' fs' v) /\ currentProcess s' = NULL /\
    asl_put (v_entries v) k (waiting v k ++ [currentProcess s]) L' /\
    data_step (charge_time (currentProcess s) (tod s - start_TOD s)) (ints s) (softBlockedCount s) s s'.
Proof.
  intros N Hc Hk Hks. pose proof (nucleus_stored _ _ N Hc) as Hs.
  assert (nucleus_inv (charged s) v) as N1
    by (apply (nucleus_harmless s); [done|apply harmless_charged|done..]).
  pose proof (nucleus_kernel _ _ N1) as I1. rewrite (running_some (charged s)) in I1 by done.
  destruct (inv_block _ _ _ _ k I1 Hk Hks) as (s2 & L' & fs' & Hrun & I2 & Ho & Hput & Hf).
  exists (set_currentProcess NULL s2), L', fs'. split_and!; [|split|done|done|].
  - unfold blockCurrentProcessHelper. rewrite (bind_ret _ _ _ _ _ (charge_current_ok s Hs)).
    kstep. by rewrite (bind_ret _ _ _ _ _ Hrun).
  - rewrite running_none by done. eapply inv_harmless; [exact I2|]. by apply harmless_globals.
  - done.
  - rewrite running_none by done. pose proof (nucleus_count _ _ N) as Hn.
    pose proof (inv_part _ _ _ I2) as Hp2. pose proof (inv_part _ _ _ I1) as Hp1.
    apply Permutation_length in Hp1, Hp2. rewrite (running_some s Hc) in Hn.
    rewrite length_app in Hp1, Hp2. cbn in Hp1, Hp2.
    destruct Ho as (h & D & f & ->). cbn. rewrite Hn. cbn in Hp1. lia.
  - pose proof (fun A f x E => @frame_fld pcb_t A f erase_blocked _ _ _ x E Hf) as Hfld.
    destruct (data_step_charged s) as [Hd].
    destruct Ho as (h & D & f & ->). split; try done. intros x. cbn in Hfld |- *.
    rewrite !Hfld by done. apply Hd.
Qed.
End nucleus.
