(* ===== verification/SyscallSpec.v ===== *)
(** * System calls: what SYS1 to SYS8 do *)
From S2P Require Export HandlerBase.

Section syscalls.
Context {m : Machine} {mok : MachineOk m}.
Implicit Types (s : kstate) (v : view) (p c k u a : Z) (st : state_t).

Lemma saved_state_some s p : is_Some (pcbs s !! p) -> fld p_s (pcbs s) p = Some (saved_state s p).
Proof. intros [r Hr]. unfold saved_state, fld. by rewrite Hr. Qed.

Lemma saved_state_lookup s p r : pcbs s !! p = Some r -> p_s r = saved_state s p.
Proof. intros Hr. unfold saved_state, fld. by rewrite Hr. Qed.

(** The caller goes on with [z] in its v0; nothing else changes. *)
Definition returns s v z (e : exit_event) s' : Prop :=
  e = Ldst (set_reg s_v0 z (saved_state s (currentProcess s))) /\
  currentProcess s' = currentProcess s /\ nucleus_inv s' v /\ steady nothing s s'.

(** The end of a system call that stores [z] in the caller's v0. *)
Lemma return_value_ok s v z :
  nucleus_inv s v -> currentProcess s <> NULL ->
  stops (do! upd_state (SR_pcb (currentProcess s)) (set_reg s_v0 z); do! charge_current; resume_current) s
    (returns s v z).
Proof.
  intros N Hc. destruct (nucleus_stored _ _ N Hc) as [r Hr]. unfold stops, wp.
  kstep. erewrite charge_resume_ok by (cbn; by apply fld_alter).
  split; [by rewrite (saved_state_lookup _ _ _ Hr)|]. split_and!; [done| |].
  - apply (nucleus_harmless s); [done| |done..].
    eapply harmless_trans; [|apply harmless_switched]. eapply harmless_trans; [|apply harmless_charged].
    by apply harmless_pcb.
  - split; [|done..]. split; try done. intros x Hx. cbn. by rewrite !fld_alter_ne.
Qed.

(** ** SYS1 *)
Lemma createProcess_full s v a u :
  nucleus_inv s v -> currentProcess s <> NULL -> v_free v = [] ->
  stops (createProcess a u) s (returns s v ERROR_CONST).
Proof.
  intros N Hc Hf. unfold createProcess, stops, wp.
  erewrite (bind_ret allocPcb); [|eapply inv_alloc_none; [apply N|done]].
  change (negb (NULL =? NULL)) with false. cbv iota. rewrite bind_assoc.
  rewrite bind_gets. by apply return_value_ok.
Qed.

(** The caller is not on a queue. *)
Lemma current_live s v : nucleus_inv s v -> currentProcess s <> NULL -> currentProcess s ∈ live v (running s).
Proof. intros _ Hc. rewrite (running_some s Hc), elem_of_live. set_solver. Qed.

(** The new pcb of [createProcess], filled in. *)
Definition new_process st u (r : pcb_t) : pcb_t :=
  set_p_semAdd NULL (set_p_time PROCESS_INIT_START (set_p_supportStruct u (set_p_s st r))).

Lemma inv_new_process s v hands p st u :
  kernel_inv s v hands -> fld p_semAdd (pcbs s) p = Some NULL -> support_ok s u ->
  kernel_inv (set_pcbs (alter (new_process st u) p (pcbs s)) s) v hands.
Proof.
  intros I Hsem Hu. apply (inv_set_support s v hands p u I) in Hu as I1.
  eapply inv_harmless; [exact I1|].
  replace (alter (new_process st u) p (pcbs s)) with
    (alter (fun r => set_p_time PROCESS_INIT_START (set_p_s st r)) p
       (alter (set_p_supportStruct u) p (pcbs s))); [by apply (harmless_pcb _ p (set_pcbs _ s))|].
  rewrite alter_alter_eq. apply alter_ext. intros r Hr. unfold fld in Hsem. rewrite Hr in Hsem.
  cbn in Hsem. destruct r; cbn in *; by simplify_eq.
Qed.

(** A pcb is taken from the free list and filled in. *)
Lemma new_process_ok s v st u p l :
  nucleus_inv s v -> currentProcess s <> NULL -> v_free v = p :: l -> support_ok s u ->
  let c := currentProcess s in
  exists n, let s1 := set_pcbFree_h n (set_pcbs (alter fresh_pcb p (pcbs s)) s) in
    allocPcb s = Ret p s1 /\ c <> p /\ p <> NULL /\ is_Some (pcbs s !! p) /\
    kernel_inv (set_pcbs (alter (new_process st u) p (pcbs s1)) s1)
      (with_kids (<[p := []]> (v_kids v)) (with_free l v)) [p; c].
Proof.
  intros N Hc Hf Hu c. pose proof (nucleus_kernel _ _ N) as I. rewrite (running_some s Hc) in I. fold c in I.
  destruct (inv_alloc s v [c] p l I Hf) as (n & Hrun & I1). exists n. cbv zeta in Hrun, I1 |- *.
  set (v1 := with_kids _ _) in *.
  assert (p ∈ live v1 [p; c]) as Hp by (rewrite elem_of_live; set_solver).
  assert (is_Some (pcbs s !! p)) as Hps.
  { apply (lookup_alter_is_Some fresh_pcb (pcbs s) p p). exact (inv_live_stored _ _ _ _ I1 Hp). }
  split_and!; [done| | |done|].
  - intros E. pose proof (inv_disjoint _ _ _ I) as (_ & _ & _ & _ & D1 & _).
    apply (D1 p); [rewrite Hf; set_solver|]. rewrite elem_of_live. set_solver.
  - intros ->. by apply (inv_live_NULL _ _ _ I1).
  - apply inv_new_process; [done| |done]. by apply fld_alter_eq.
Qed.

(** It becomes the first child of the caller and the last ready process. *)
Lemma place_process_ok s v c p :
  kernel_inv s v [p; c] -> c <> p -> fld p_prnt (pcbs s) p = Some NULL -> fld p_semAdd (pcbs s) p = Some NULL ->
  v_kids v p = [] ->
  exists h h', insertChild c p s = Ret tt (set_pcbs h s) /\
    insertProcQ TP_readyQueue p (set_pcbs h s) = Ret tt (set_readyQueue p (set_pcbs h' s)) /\
    kernel_inv (set_readyQueue p (set_pcbs h' s))
      (with_ready (v_ready v ++ [p]) (with_kids (<[c := p :: v_kids v c]> (v_kids v)) v)) [c] /\
    forall A (f : pcb_t -> A) x, (forall r, f (erase_tree r) = f r) -> (forall r, f (erase_links r) = f r) ->
      fld f h' x = fld f (pcbs s) x.
Proof.
  intros I Hcp Hprnt Hsem Hk. assert (p ∈ live v [p; c]) as Hp by (rewrite elem_of_live; set_solver).
  destruct (forest_insertChild s (live v [p; c]) (v_kids v) c p) as (h & Hrun & Hfor & Hf); try done.
  { apply I. } { rewrite elem_of_live; set_solver. } { by eapply inv_live_NULL. }
  pose proof (inv_tree _ _ _ _ _ _ I Hf Hfor) as I2.
  destruct (inv_insertReady (set_pcbs h s) _ [c] p I2) as (h' & Hrun' & I' & Hf').
  { cbn. by rewrite (frame_fld p_semAdd erase_tree _ _ _ p (fun _ => eq_refl) Hf). }
  exists h, h'. split_and!; [done..|]. intros A f x E1 E2. rewrite (frame_fld f erase_links _ _ _ x E2 Hf').
  apply (frame_fld f erase_tree _ _ _ x E1 Hf).
Qed.

(** The queues and the tree with a new child [p] of [c]. *)
Definition child_view v c p l : view :=
  with_ready (v_ready v ++ [p]) (with_kids (<[c := p :: v_kids v c]> (<[p := []]> (v_kids v))) (with_free l v)).

Definition created s v st u p l (e : exit_event) s' : Prop :=
  let c := currentProcess s in
  e = Ldst (set_reg s_v0 SUCCESS_CONST (saved_state s c)) /\ currentProcess s' = c /\
  fld p_s (pcbs s') p = Some st /\ fld p_supportStruct (pcbs s') p = Some u /\
  fld p_time (pcbs s') p = Some PROCESS_INIT_START /\ nucleus_inv s' (child_view v c p l) /\
  kept (fun x => x = c \/ x = p) nothing s s' /\ ints s' = ints s /\ softBlockedCount s' = softBlockedCount s.

(** The end of the call: v0, the process count, the time of the caller. *)
Lemma count_child_ok s v c n :
  kernel_inv s v [c] -> currentProcess s = c -> c <> NULL -> fld p_semAdd (pcbs s) c = Some NULL ->
  processCount s = Z.of_nat n -> S n = length (live v [c]) ->
  stops (do! upd_state (SR_pcb c) (set_reg s_v0 SUCCESS_CONST);
         do! modify (fun s => set_processCount (i32 (processCount s + 1)) s);
         do! charge_current; resume_current) s
    (fun e s' => e = Ldst (set_reg s_v0 SUCCESS_CONST (saved_state s c)) /\ currentProcess s' = c /\
      nucleus_inv s' v /\ steady nothing s s').
Proof.
  intros I <- Hc Hsem Hn Hlen. set (c := currentProcess s) in *.
  assert (is_Some (pcbs s !! c)) as [r Hr] by (by eapply fld_is_Some).
  unfold stops, wp. kstep. rewrite bind_modify.
  erewrite charge_resume_ok by (cbn; by apply fld_alter).
  split; [by rewrite (saved_state_lookup _ _ _ Hr)|]. split_and!; [done| |].
  - pose proof (inv_length _ _ _ I) as Hmax.
    apply (nucleus_harmless (set_processCount (i32 (processCount s + 1)) s)); [|
      eapply harmless_trans; [|apply harmless_switched]; eapply harmless_trans; [|apply harmless_charged];
      by apply (harmless_pcb _ c (set_processCount (i32 (processCount s + 1)) s))|done|done].
    pose proof (running_some s Hc) as Er. fold c in Er.
    split; change (running (set_processCount (i32 (processCount s + 1)) s)) with (running s); rewrite ?Er.
    + eapply inv_harmless; [exact I|]. by apply harmless_globals.
    + done.
    + cbn [processCount set_processCount]. rewrite Hn, i32_small by (unfold in_i32; lia). lia.
  - split; [|done..]. split; try done. intros x Hx. cbn. by rewrite !fld_alter_ne.
Qed.

Lemma createProcess_ok s v a st u p l :
  nucleus_inv s v -> currentProcess s <> NULL -> v_free v = p :: l ->
  states s !! a = Some st -> support_ok s u ->
  stops (createProcess a u) s (created s v st u p l).
Proof.
  intros N Hc Hf Hst Hu. destruct (new_process_ok s v st u p l N Hc Hf Hu) as (n & Hrun & Hcp & HpN & Hps & I2).
  cbv zeta in Hrun, I2. set (c := currentProcess s) in *.
  set (s1 := set_pcbFree_h n _) in *. set (s2 := set_pcbs _ s1) in *. set (v1 := with_kids _ _) in *.
  destruct (place_process_ok s2 v1 c p I2 Hcp) as (h & h' & Hr3 & Hr4 & I4 & Hfld).
  { cbn. rewrite fld_alter_other by done. by apply fld_alter_eq. }
  { cbn. apply fld_alter_eq; [done|by apply is_Some_alter]. }
  { cbn. by rewrite fn_lookup_insert. }
  assert (v_kids v1 c = v_kids v c) as Ek by (cbn; by rewrite fn_lookup_insert_ne). rewrite Ek in I4.
  change (with_ready _ _) with (child_view v c p l) in I4.
  set (s4 := set_readyQueue p (set_pcbs h' s2)) in *.
  assert (stops (do! upd_state (SR_pcb c) (set_reg s_v0 SUCCESS_CONST);
         do! modify (fun s => set_processCount (i32 (processCount s + 1)) s);
         do! charge_current; resume_current) s4
    (fun e s' => e = Ldst (set_reg s_v0 SUCCESS_CONST (saved_state s4 c)) /\ currentProcess s' = c /\
      nucleus_inv s' (child_view v c p l) /\ steady nothing s4 s')) as Hend.
  { apply (count_child_ok s4 _ c (length (live v [c]))); try done.
    - cbn. rewrite Hfld by done. cbn. rewrite !fld_alter_ne by done. by apply (nucleus_current _ _ N).
    - cbn. rewrite (nucleus_count _ _ N). by rewrite (running_some s Hc).
    - unfold live. cbn. rewrite !length_app. cbn. lia. }
  assert (saved_state s4 c = saved_state s c) as Es.
  { unfold saved_state. cbn. rewrite Hfld by done. cbn. by rewrite !fld_alter_ne. }
  assert (kept (fun x => x = c \/ x = p) nothing s s4) as Hkept.
  { split; try done. intros x Hx. cbn. rewrite !Hfld by done. cbn. rewrite !fld_alter_ne; naive_solver. }
  assert (is_Some (pcbs s1 !! p)) as Hps1 by (by apply is_Some_alter).
  unfold createProcess, stops, wp. rewrite (bind_ret _ _ _ _ _ Hrun). kif. cbv iota.
  kstep. rewrite (bind_ret _ _ _ _ _ (moveStateHelper_ok a (SR_pcb p) st s1 Hst ltac:(done)
    ltac:(cbn; by apply is_Some_fmap))). ksteps. rewrite !alter_alter_eq.
  match goal with |- context [bind (insertChild _ _) _ ?x] => replace x with s2
    by (unfold s2; cbn; by rewrite alter_alter_eq) end.
  rewrite (bind_ret _ _ _ _ _ Hr3), !bind_assoc, (bind_ret _ _ _ _ _ Hr4), !bind_assoc, bind_gets.
  rewrite !bind_assoc. change (currentProcess _) with c.
  destruct (wp_elim_stops _ _ _ Hend) as (e & s' & -> & -> & Hc' & N' & [Hk Hi Hs]).
  rewrite Es. split_and!; try done.
  - destruct (kept_pcbs _ _ _ _ Hk p) as (-> & _); [naive_solver|]. cbn. rewrite Hfld by done. cbn. by apply fld_alter_eq; [|apply is_Some_alter].
  - destruct (kept_pcbs _ _ _ _ Hk p) as (_ & _ & ->); [naive_solver|]. cbn. rewrite Hfld by done. cbn. by apply fld_alter_eq; [|apply is_Some_alter].
  - destruct (kept_pcbs _ _ _ _ Hk p) as (_ & -> & _); [naive_solver|]. cbn. rewrite Hfld by done. cbn. by apply fld_alter_eq; [|apply is_Some_alter].
  - etrans; [exact Hkept|]. eapply kept_mono; [| |exact Hk]; [|done]. intros x <-. by left.
Qed.

(** ** The two ways out of a system call *)

(** The caller goes on where it was, [d] microseconds older. *)
Lemma charge_resume_spec s v :
  nucleus_inv s v -> currentProcess s <> NULL ->
  exists s', (do! charge_current; resume_current) s = Stop (Ldst (saved_state s (currentProcess s))) s' /\
    nucleus_inv s' v /\ currentProcess s' = currentProcess s /\
    data_step (charge_time (currentProcess s) (tod s - start_TOD s)) (ints s) (softBlockedCount s) s s'.
Proof.
  intros N Hc. pose proof (saved_state_some _ _ (nucleus_stored _ _ N Hc)) as Hst.
  exists (switched (currentProcess s) (charged s)). split_and!; [by apply charge_resume_ok| |done|].
  - apply (nucleus_harmless s); [done| |done..].
    eapply harmless_trans; [apply harmless_charged|apply harmless_switched].
  - destruct (data_step_charged s) as [Hd]. split; try done.
Qed.

(** [v1] is [v] with [c] at the end of the queue of [k]. *)
Definition blocks_on v k c v1 : Prop :=
  exists L' fs', v1 = with_asl L' fs' v /\ asl_put (v_entries v) k (waiting v k ++ [c]) L'.

(** The caller is blocked, and the processor goes to the next process. *)
Definition blocked_switch s v k words soft e s' : Prop :=
  exists v1 v', blocks_on v k (currentProcess s) v1 /\ nucleus_inv s' v' /\ dispatched v1 e v' s' /\
    data_step (charge_time (currentProcess s) (tod s - start_TOD s)) words soft s s'.

(** The caller goes on, with the queues [v']. *)
Definition goes_on s v' words soft e s' : Prop :=
  e = Ldst (saved_state s (currentProcess s)) /\ currentProcess s' = currentProcess s /\
  nucleus_inv s' v' /\
  data_step (charge_time (currentProcess s) (tod s - start_TOD s)) words soft s s'.

Lemma block_schedule_spec s v k :
  nucleus_inv s v -> currentProcess s <> NULL -> sem_key k -> is_Some (ints s !! k) ->
  exists e s', (do! blockCurrentProcessHelper k; scheduler) s = Stop e s' /\
    blocked_switch s v k (ints s) (softBlockedCount s) e s'.
Proof.
  intros N Hc Hk Hks. destruct (block_current_ok s v k N Hc Hk Hks) as (s1 & L' & fs' & Hrun & N1 & Hc1 & Hput & Hd).
  destruct (wp_elim_stops _ _ _ (scheduler_ok s1 _ N1 Hc1)) as (e & s' & Hrun2 & v' & N' & Hdisp & Hd2).
  exists e, s'. split; [by rewrite (bind_ret _ _ _ _ _ Hrun)|].
  exists (with_asl L' fs' v), v'. split_and!; [by exists L', fs'|done|done|].
  by eapply data_step_trans.
Qed.

(** Storing a word before one of the two. *)
Lemma data_step_int time words soft a z s s' :
  data_step time words soft (set_ints (<[a := z]> (ints s)) s) s' -> data_step time words soft s s'.
Proof. by intros []. Qed.

(** ** SYS3 and SYS4 *)
Lemma passeren_ok s v k n :
  nucleus_inv s v -> currentProcess s <> NULL -> sem_key k -> ints s !! k = Some n ->
  let words := <[k := i32 (n - 1)]> (ints s) in
  stops (passeren k) s (fun e s' =>
    if i32 (n - 1) <? 0 then blocked_switch s v k words (softBlockedCount s) e s'
    else goes_on s v words (softBlockedCount s) e s').
Proof.
  intros N Hc Hk Hn words. set (s1 := set_ints words s).
  assert (nucleus_inv s1 v) as N1 by (by apply nucleus_int).
  assert (ints s1 !! k = Some (i32 (n - 1))) as Hk1 by apply lookup_insert_eq.
  assert (passeren k s = (do! (if i32 (n - 1) <? 0 then do! blockCurrentProcessHelper k; scheduler
                               else ret tt);
                          do! charge_current; resume_current) s1) as Hrun.
  { unfold passeren. rewrite (bind_ret _ _ _ _ _ (add_int_ok _ _ _ _ Hn)). fold words s1.
    rewrite (bind_ret _ _ _ _ _ (load_int_ok _ _ _ Hk1)).
    unfold debugExceptionHandler. kstep. by rewrite (bind_ret _ _ _ _ _ (load_int_ok _ _ _ Hk1)). }
  destruct (i32 (n - 1) <? 0).
  - destruct (block_schedule_spec s1 v k N1 Hc Hk ltac:(eauto)) as (e & s' & Hrun2 & v1 & v' & ? & ? & ? & Hd).
    eapply stops_intro; [rewrite Hrun; by apply bind_stop|]. exists v1, v'.
    split_and!; [done..|]. by apply data_step_int in Hd.
  - destruct (charge_resume_spec s1 v N1 Hc) as (s' & Hrun2 & N' & Hc' & Hd).
    eapply stops_intro; [rewrite Hrun; exact Hrun2|]. split_and!; [done..|]. by apply data_step_int in Hd.
Qed.

(** The head [p] of the queue of [k] moves to the end of the ready queue. *)
Definition wakes v k p (q : list Z) v' : Prop :=
  exists L' fs', v' = with_ready (v_ready v ++ [p]) (with_asl L' fs' v) /\ asl_put (v_entries v) k q L'.

Definition woken v k v' : Prop :=
  match waiting v k with [] => v' = v | p :: q => wakes v k p q v' end.

(** Changes of the queues only. *)
Definition queues_only s s' : Prop :=
  exists h D f q, s' = set_readyQueue q (set_semdFree_h f (set_semds D (set_pcbs h s))).

Lemma queues_only_refl s : queues_only s s.
Proof. exists (pcbs s), (semds s), (semdFree_h s), (readyQueue s). by destruct s. Qed.

Lemma unblock_ready_spec s v hands k p (q : list Z) :
  kernel_inv s v hands -> waiting v k = p :: q ->
  exists s1 s2 v', removeBlocked k s = Ret p s1 /\ insertProcQ TP_readyQueue p s1 = Ret tt s2 /\
    p <> NULL /\ wakes v k p q v' /\ kernel_inv s2 v' hands /\ same_data s s2 /\ queues_only s s2 /\
    (forall x, x ∈ hands -> fld p_semAdd (pcbs s2) x = fld p_semAdd (pcbs s) x) /\
    (length (live v' hands) = length (live v hands)).
Proof.
  intros I Hw. destruct (inv_unblock s v hands k p q I Hw)
    as (s1 & L' & fs' & Hrun1 & I1 & (h & D & f & ->) & Hput & Hf1 & Hsem).
  destruct (inv_insertReady _ _ hands p I1 Hsem) as (h2 & Hrun2 & I2 & Hf2).
  pose proof (fun A f x E => @frame_fld pcb_t A f erase_blocked _ _ _ x E Hf1) as Hfld1.
  pose proof (fun A f x E => @frame_fld pcb_t A f erase_links _ _ _ x E Hf2) as Hfld2.
  assert (p ∈ live v hands) as Hp by (apply (inv_waiting_live s v hands k); [done|rewrite Hw; set_solver]).
  eexists _, _, _. split_and!; [exact Hrun1|exact Hrun2| |by exists L', fs'|exact I2| | | |].
  - intros ->. by apply (inv_live_NULL _ _ _ I).
  - split; try done. intros x. rewrite no_time_id. cbn in *.
    split_and!; (rewrite Hfld2 by done; by apply Hfld1).
  - by exists h2, D, f, p.
  - intros x Hx. cbn in *. rewrite Hfld2 by done. eapply frame_fld_notin; [|exact Hf1].
    rewrite <- Hw. intros Hxw%procs_at_blocked.
    pose proof (inv_disjoint _ _ _ I) as (_ & _ & _ & _ & _ & _ & D3). by apply (D3 x).
  - pose proof (inv_length _ _ _ I). pose proof (inv_length _ _ _ I2) as H2. cbn [v_free v_ready with_ready with_asl] in *. lia.
Qed.

Lemma removeBlocked_waiting s v hands k :
  kernel_inv s v hands -> sem_key k -> waiting v k = [] -> removeBlocked k s = Ret NULL s.
Proof. intros I Hk Hw. by eapply inv_unblock_none. Qed.

(** The part of a V that wakes somebody up. *)
Lemma nucleus_wake s v k :
  nucleus_inv s v -> sem_key k ->
  exists s' v', (do p <- removeBlocked k;
                 if negb (p =? NULL) then insertProcQ TP_readyQueue p else ret tt) s = Ret tt s' /\
    woken v k v' /\ nucleus_inv s' v' /\ queues_only s s' /\ same_data s s'.
Proof.
  intros N Hk. unfold woken. destruct (waiting v k) as [|p q] eqn:Hw.
  - exists s, v. split_and!; [|done|done|apply queues_only_refl|apply same_data_refl].
    by rewrite (bind_ret _ _ _ _ _ (inv_unblock_none _ _ _ _ (nucleus_kernel _ _ N) Hk Hw)).
  - destruct (unblock_ready_spec s v _ k p q (nucleus_kernel _ _ N) Hw)
      as (s2 & s3 & v' & Hrun1 & Hrun2 & HpN & Hwk & I3 & Hd & Ho & Hsem & Hlen).
    exists s3, v'. split_and!; [|done| |done|done].
    + rewrite (bind_ret _ _ _ _ _ Hrun1). by kif.
    + destruct Ho as (h & D & f & t & ->). split; [exact I3| |].
      * intros HcN. cbn in *. rewrite Hsem; [by apply (nucleus_current _ _ N)|].
        rewrite running_some by done. set_solver.
      * pose proof (nucleus_count _ _ N) as Hcnt. cbn in Hcnt |- *. rewrite Hcnt. f_equal.
        symmetry. exact Hlen.
Qed.

Lemma verhogen_ok s v k n :
  nucleus_inv s v -> currentProcess s <> NULL -> sem_key k -> ints s !! k = Some n ->
  let words := <[k := i32 (n + 1)]> (ints s) in
  stops (verhogen k) s (fun e s' =>
    exists v', goes_on s v' words (softBlockedCount s) e s' /\
      if i32 (n + 1) <=? 0 then woken v k v' else v' = v).
Proof.
  intros N Hc Hk Hn words. set (s1 := set_ints words s).
  assert (nucleus_inv s1 v) as N1 by (by apply nucleus_int).
  assert (ints s1 !! k = Some (i32 (n + 1))) as Hk1 by apply lookup_insert_eq.
  assert (exists s2 v2, (if i32 (n + 1) <=? 0 then woken v k v2 else v2 = v) /\
     nucleus_inv s2 v2 /\ queues_only s1 s2 /\ same_data s1 s2 /\
     verhogen k s = (do! charge_current; resume_current) s2)
    as (s2 & v2 & Hv2 & N2 & Ho & Hd2 & Hrun).
  { unfold verhogen. rewrite (bind_ret _ _ _ _ _ (add_int_ok _ _ _ _ Hn)). fold words s1.
    rewrite (bind_ret _ _ _ _ _ (load_int_ok _ _ _ Hk1)).
    unfold debugExceptionHandler. kstep. rewrite (bind_ret _ _ _ _ _ (load_int_ok _ _ _ Hk1)).
    destruct (i32 (n + 1) <=? 0).
    - destruct (nucleus_wake s1 v k N1 Hk) as (s2 & v2 & Hrun & ? & ? & ? & ?).
      exists s2, v2. by rewrite (bind_ret _ _ _ _ _ Hrun).
    - exists s1, v. split_and!; [done|done|apply queues_only_refl|apply same_data_refl|done]. }
  assert (currentProcess s2 = currentProcess s /\ tod s2 = tod s /\ start_TOD s2 = start_TOD s) as (Hc2 & Ht2 & Hst2)
    by (by destruct Ho as (h & D & f & q & ->)).
  destruct (charge_resume_spec s2 v2 N2) as (s' & Hrun2 & N' & Hc' & Hd); [by rewrite Hc2|].
  eapply stops_intro; [rewrite Hrun; exact Hrun2|]. exists v2. split; [|done]. split_and!; [|congruence|done|].
  - rewrite Hc2. unfold saved_state. do 2 f_equal. apply (data_pcbs _ _ _ _ _ Hd2).
  - rewrite Hc2, Ht2, Hst2, (data_ints _ _ _ _ _ Hd2), (data_soft _ _ _ _ _ Hd2) in Hd.
    apply (data_step_int _ _ _ k (i32 (n + 1))). by eapply data_step_then.
Qed.

(** ** SYS5 and SYS7 *)
Lemma nucleus_soft s v z : nucleus_inv s v -> nucleus_inv (set_softBlockedCount z s) v.
Proof. intros N. apply (nucleus_harmless s); [done|by apply harmless_globals|done..]. Qed.

(** The soft-blocked count goes up whether the caller is blocked or not. *)
Lemma waitForIO_ok s v line device read n :
  nucleus_inv s v -> currentProcess s <> NULL ->
  0 <= wait_index line device read < MAX_DEVICE_COUNT ->
  let k := sem_addr (wait_index line device read) in
  ints s !! k = Some n ->
  let words := <[k := i32 (n - 1)]> (ints s) in
  let soft := i32 (softBlockedCount s + 1) in
  stops (waitForIO line device read) s (fun e s' =>
    if i32 (n - 1) <? 0 then blocked_switch s v k words soft e s' else goes_on s v words soft e s').
Proof.
  intros N Hc Hi k Hn words soft. destruct (sem_addr_ok _ Hi) as [_ Hk]. fold k in Hk.
  set (s1 := set_ints words (set_softBlockedCount soft s)).
  assert (nucleus_inv s1 v) as N1.
  { apply (nucleus_int (set_softBlockedCount soft s)). by apply nucleus_soft. }
  assert (ints s1 !! k = Some (i32 (n - 1))) as Hk1 by apply lookup_insert_eq.
  assert (waitForIO line device read s =
            (do! (if i32 (n - 1) <? 0 then do! blockCurrentProcessHelper k; scheduler else ret tt);
             do! charge_current; resume_current) s1) as Hrun.
  { unfold waitForIO. fold k. kstep. fold soft.
    rewrite (bind_ret _ _ _ _ _ (add_int_ok k (-1) n (set_softBlockedCount soft s) Hn)).
    change (n + -1) with (n - 1). fold words s1.
    by rewrite (bind_ret _ _ _ _ _ (load_int_ok _ _ _ Hk1)). }
  destruct (i32 (n - 1) <? 0).
  - destruct (block_schedule_spec s1 v k N1 Hc Hk ltac:(eauto)) as (e & s' & Hrun2 & v1 & v' & ? & ? & ? & [Hd]).
    eapply stops_intro; [rewrite Hrun; by apply bind_stop|]. exists v1, v'. by split_and!.
  - destruct (charge_resume_spec s1 v N1 Hc) as (s' & Hrun2 & N' & Hc' & [Hd]).
    eapply stops_intro; [rewrite Hrun; exact Hrun2|]. by split_and!.
Qed.

Lemma waitForClock_ok s v n :
  nucleus_inv s v -> currentProcess s <> NULL ->
  let k := sem_addr CLOCK_INDEX in
  ints s !! k = Some n ->
  let words := <[k := i32 (n - 1)]> (ints s) in
  stops waitForClock s (fun e s' =>
    if i32 (n - 1) <? 0
    then blocked_switch s v k words (i32 (softBlockedCount s + 1)) e s'
    else goes_on s v words (softBlockedCount s) e s').
Proof.
  intros N Hc k Hn words. destruct (sem_addr_ok CLOCK_INDEX ltac:(done)) as [_ Hk]. fold k in Hk.
  set (s1 := set_ints words s).
  assert (nucleus_inv s1 v) as N1 by (by apply nucleus_int).
  assert (ints s1 !! k = Some (i32 (n - 1))) as Hk1 by apply lookup_insert_eq.
  assert (waitForClock s =
            (do! (if i32 (n - 1) <? 0 then
                    do! modify (fun s => set_softBlockedCount (i32 (softBlockedCount s + 1)) s);
                    do! blockCurrentProcessHelper k; scheduler
                  else ret tt);
             do! charge_current; resume_current) s1) as Hrun.
  { unfold waitForClock. fold k. rewrite (bind_ret _ _ _ _ _ (add_int_ok k (-1) n s Hn)).
    change (n + -1) with (n - 1). fold words s1.
    by rewrite (bind_ret _ _ _ _ _ (load_int_ok _ _ _ Hk1)). }
  destruct (i32 (n - 1) <? 0).
  - set (s2 := set_softBlockedCount (i32 (softBlockedCount s + 1)) s1).
    destruct (block_schedule_spec s2 v k (nucleus_soft _ _ _ N1) Hc Hk ltac:(eauto))
      as (e & s' & Hrun2 & v1 & v' & ? & ? & ? & [Hd]).
    eapply stops_intro; [rewrite Hrun; by apply bind_stop|]. exists v1, v'. by split_and!.
  - destruct (charge_resume_spec s1 v N1 Hc) as (s' & Hrun2 & N' & Hc' & [Hd]).
    eapply stops_intro; [rewrite Hrun; exact Hrun2|]. by split_and!.
Qed.

(** ** SYS6 *)

(** The caller gets its time up to the call; the interval since its dispatch is then charged a
    second time, up to a later reading. *)
Lemma getCPUTime_ok s v t :
  nucleus_inv s v -> currentProcess s <> NULL -> fld p_time (pcbs s) (currentProcess s) = Some t ->
  let t1 := i32 (t + i32 (tod s - start_TOD s)) in
  let t2 := i32 (t1 + i32 (tod (tick s) - start_TOD s)) in
  stops getCPUTime s (fun e s' => returns s v t1 e s' /\ fld p_time (pcbs s') (currentProcess s) = Some t2).
Proof.
  intros N Hc Ht t1 t2. pose proof (nucleus_stored _ _ N Hc) as Hs.
  assert (nucleus_inv (charged s) v) as N1
    by (apply (nucleus_harmless s); [done|apply harmless_charged|done..]).
  assert (fld p_time (pcbs (charged s)) (currentProcess s) = Some t1) as Ht1.
  { cbn. rewrite charge_time_alter, Ht. unfold charge_time. by rewrite Z.eqb_refl. }
  unfold getCPUTime, stops, wp. rewrite (bind_ret _ _ _ _ _ (charge_current_ok s Hs)).
  rewrite bind_gets.
  rewrite (bind_ret _ _ _ _ _ (get_pcb_ok _ _ _ _ Ht1)).
  assert (is_Some (pcbs (charged s) !! currentProcess s)) as [r Hr] by (by eapply fld_is_Some).
  kstep. erewrite charge_resume_ok by (cbn; by apply fld_alter). cbn [p_s set_p_s].
  assert (p_s r = saved_state s (currentProcess s)) as ->.
  { symmetry. apply (saved_state_lookup (charged s)) in Hr as ->. unfold saved_state. cbn. by fld_simp. }
  split; [split_and!; [done|done| |]|].
  - apply (nucleus_harmless (charged s)); [done| |done..].
    eapply harmless_trans; [|apply harmless_switched]. eapply harmless_trans; [|apply harmless_charged].
    by apply (harmless_pcb _ _ (charged s)).
  - split; [|done..]. split; try done. intros x Hx. cbn. by rewrite !fld_alter_ne.
  - cbn. rewrite charge_time_alter. fld_simp. cbn in Ht1. rewrite Ht1. cbn.
    unfold charge_time. by rewrite Z.eqb_refl.
Qed.

(** ** SYS8 *)
Lemma getSupportData_ok s v u :
  nucleus_inv s v -> currentProcess s <> NULL ->
  fld p_supportStruct (pcbs s) (currentProcess s) = Some u ->
  stops getSupportData s (returns s v (i32 u)).
Proof.
  intros N Hc Hu. unfold getSupportData, stops, wp. rewrite bind_gets.
  rewrite (bind_ret _ _ _ _ _ (get_pcb_ok _ _ _ _ Hu)). by apply return_value_ok.
Qed.
End syscalls.
