(* ===== verification/TerminateSpec.v ===== *)
(** * SYS2: what terminating a process does

    [terminateProcess] removes a process and all its descendants from wherever they are and puts
    their pcbs on the free list; it uses less fuel than [terminate_fuel]. *)
From S2P Require Export HandlerBase.

(** [x] is [p] or a descendant of [p]. *)
Definition descends (kids : Z -> list Z) : Z -> Z -> Prop := rtc (fun a b => b ∈ kids a).

(** The semaphore a pcb points to. *)
Definition sem_of (s : kstate) (x : Z) : Z := default NULL (fld p_semAdd (pcbs s) x).

(** The entries of [l] that are not in [D]. *)
Definition without (D l : list Z) : list Z := filter (fun x => x ∉ D) l.

Section terminate.
Context {m : Machine}.

(** What the end of the processes [D] changes besides the queues: the counts, and the semaphores
    that are not device semaphores. *)
Record kill_step (D : list Z) (s s' : kstate) : Prop := {
  kill_pcbs : forall x, fld p_s (pcbs s') x = fld p_s (pcbs s) x /\
                        fld p_time (pcbs s') x = fld p_time (pcbs s) x /\
                        fld p_supportStruct (pcbs s') x = fld p_supportStruct (pcbs s) x /\
                        fld p_semAdd (pcbs s') x = fld p_semAdd (pcbs s) x;
  kill_count : processCount s' = Nat.iter (length D) (fun n => i32 (n - 1)) (processCount s);
  kill_soft : softBlockedCount s' =
    Nat.iter (length (filter (fun x => is_device_sem (sem_of s x) = true) D))
      (fun n => i32 (n - 1)) (softBlockedCount s);
  kill_ints : forall k, k <> NULL -> ints s' !! k =
    (if is_device_sem k then fun n => n
     else Nat.iter (length (filter (fun x => sem_of s x = k) D)) (fun n => i32 (n + 1))) <$> ints s !! k;
  kill_globals : currentProcess s' = currentProcess s /\ supports s' = supports s /\
    states s' = states s /\ savedExceptionState s' = savedExceptionState s
}.

(** The queues after the end of the processes [D]. *)
Record kill_queues (D : list Z) (v v' : view) : Prop := {
  kill_free : v_free v' = reverse D ++ v_free v;
  kill_ready : v_ready v' = without D (v_ready v);
  kill_waiting : forall k, waiting v' k = without D (waiting v k)
}.

(** Everything after the loop over the children. *)
Definition terminate_tail (p : Z) : K unit :=
  do this_semaphore <- get_pcb p p_semAdd;
  do c <- gets currentProcess;
  do! (if p =? c then
         do! outChild p;
         ret tt
       else if negb (this_semaphore =? NULL) then
         do! outBlocked p;
         if negb (is_device_sem this_semaphore) then add_int this_semaphore 1
         else modify (fun s => set_softBlockedCount (i32 (softBlockedCount s - 1)) s)
       else
         do! outProcQ TP_readyQueue p;
         ret tt);
  do! freePcb p;
  modify (fun s => set_processCount (i32 (processCount s - 1)) s).

Lemma terminateProcess_S fuel p s :
  terminateProcess (S fuel) p s =
  bind (terminate_children walk_fuel (terminateProcess fuel) p) (fun _ => terminate_tail p) s.
Proof. reflexivity. Qed.

Context {mok : MachineOk m}.
Implicit Types (s : kstate) (v : view) (hands D l : list Z) (p c k x : Z).

(** ** Lists *)
Lemma without_nil l : without [] l = l.
Proof. unfold without. apply list_filter_all. intros. set_solver. Qed.

Lemma without_app D1 D2 l : without D2 (without D1 l) = without (D1 ++ D2) l.
Proof.
  unfold without. rewrite list_filter_filter. apply list_filter_iff. intros x. set_solver.
Qed.

Lemma without_one (l1 : list Z) p (l2 : list Z) :
  NoDup (l1 ++ p :: l2) -> without [p] (l1 ++ p :: l2) = l1 ++ l2.
Proof.
  intros Hnd. apply NoDup_mid in Hnd. unfold without. rewrite filter_app, filter_cons.
  rewrite decide_False by set_solver. f_equal; apply list_filter_all; set_solver.
Qed.

Lemma without_other D l : (forall x, x ∈ l -> x ∉ D) -> without D l = l.
Proof. apply list_filter_all. Qed.

Lemma iter_add {A} (f : A -> A) a b (x : A) : Nat.iter b f (Nat.iter a f x) = Nat.iter (a + b) f x.
Proof. by rewrite Nat.add_comm, Nat.iter_add. Qed.

(** ** Composition *)
Lemma kill_step_nil s : kill_step [] s s.
Proof. split; try done. intros k _. destruct (is_device_sem k); by destruct (ints s !! k). Qed.

Lemma kill_step_app D1 D2 s1 s2 s3 :
  kill_step D1 s1 s2 -> kill_step D2 s2 s3 -> kill_step (D1 ++ D2) s1 s3.
Proof.
  intros H1 H2. assert (forall x, sem_of s2 x = sem_of s1 x) as Hsem.
  { intros x. unfold sem_of. by destruct (kill_pcbs _ _ _ H1 x) as (_ & _ & _ & ->). }
  destruct H1 as [P1 C1 S1 I1 G1], H2 as [P2 C2 S2 I2 G2]. split.
  - intros x. destruct (P1 x) as (? & ? & ? & ?), (P2 x) as (? & ? & ? & ?). split_and!; congruence.
  - rewrite C2, C1, iter_add, length_app. done.
  - rewrite S2, S1, iter_add, filter_app, length_app. do 3 f_equal.
    apply list_filter_iff. intros x. by rewrite Hsem.
  - intros k Hk. rewrite I2, I1 by done. rewrite <- option_fmap_compose. apply option_fmap_ext.
    intros n. cbn. destruct (is_device_sem k); [done|]. rewrite iter_add, filter_app, length_app.
    do 3 f_equal. apply list_filter_iff. intros x. by rewrite Hsem.
  - destruct G1 as (E1 & E2 & E3 & E4), G2 as (-> & -> & -> & ->). done.
Qed.

Lemma kill_queues_nil v : kill_queues [] v v.
Proof. split; [done|..]; intros; by rewrite without_nil. Qed.

Lemma kill_queues_app D1 D2 v1 v2 v3 :
  kill_queues D1 v1 v2 -> kill_queues D2 v2 v3 -> kill_queues (D1 ++ D2) v1 v3.
Proof.
  intros [F1 R1 W1] [F2 R2 W2]. split.
  - by rewrite F2, F1, reverse_app, (assoc_L (++)).
  - by rewrite R2, R1, without_app.
  - intros k. by rewrite W2, W1, without_app.
Qed.

(** ** One process *)

(** [freePcb] and the count, once the pcb is in the hands. *)
Lemma free_and_count s s2 v v2 hands p :
  kernel_inv s2 v2 (p :: hands) -> v_kids v2 p = [] -> fld p_prnt (pcbs s2) p = Some NULL ->
  kill_step [p] s (set_processCount (i32 (processCount s2 - 1)) s2) ->
  v_free v2 = v_free v -> v_ready v2 = without [p] (v_ready v) ->
  (forall k, waiting v2 k = without [p] (waiting v k)) ->
  exists s' v', (do! freePcb p; modify (fun s => set_processCount (i32 (processCount s - 1)) s)) s2 =
      Ret tt s' /\ kernel_inv s' v' hands /\ v_kids v' = v_kids v2 /\
    kill_queues [p] v v' /\ kill_step [p] s s'.
Proof.
  intros I Hk Hp [P C S W G] Hfr Hrd Hwt.
  destruct (inv_freePcb s2 v2 hands p I Hk Hp) as (h' & Hrun & I' & Hf).
  pose proof (fun A f x E => @frame_fld pcb_t A f erase_links _ _ _ x E Hf) as Hfld.
  eexists _, _. split_and!; [by rewrite (bind_ret _ _ _ _ _ Hrun)| | | |].
  - eapply inv_harmless; [exact I'|]. by apply harmless_globals.
  - done.
  - split; [cbn; by rewrite Hfr|done..].
  - split; try done. intros x. cbn in *. rewrite !Hfld by done. apply P.
Qed.

Lemma blocked_waiting v p : p ∈ blocked (v_entries v) -> exists k, p ∈ waiting v k.
Proof.
  intros (e & He & Hp)%elem_of_blocked. exists (e_key e). unfold waiting, procs_at.
  apply list_elem_of_bind. exists e. by rewrite Z.eqb_refl.
Qed.

Lemma inv_waiting_sem s v hands k p :
  kernel_inv s v hands -> p ∈ waiting v k -> fld p_semAdd (pcbs s) p = Some k /\ sem_key k /\ is_Some (ints s !! k).
Proof.
  intros I Hp. split; [eapply procs_at_sem; [apply I|done]|]. apply (inv_keys _ _ _ I).
  intros E. rewrite E in Hp. by apply not_elem_of_nil in Hp.
Qed.

(** Leaving the queue of [k] changes no other queue. *)
Lemma waiting_without s v hands k (q1 : list Z) p (q2 : list Z) L' :
  kernel_inv s v hands -> waiting v k = q1 ++ p :: q2 -> asl_put (v_entries v) k (q1 ++ q2) L' ->
  forall k', procs_at L' k' = without [p] (waiting v k').
Proof.
  intros I Hw [Hput Hoth] k'. assert (p ∈ waiting v k) as Hp by (rewrite Hw; set_solver).
  destruct (decide (k' = k)) as [->|Hne].
  - rewrite Hput, Hw, without_one; [done|]. rewrite <- Hw.
    pose proof (inv_disjoint _ _ _ I) as (_ & _ & Hnd & _).
    destruct (inv_asl _ _ _ I) as [Ha _]. by eapply procs_at_NoDup.
  - rewrite Hoth by done. symmetry. apply without_other. intros x Hx ->%list_elem_of_singleton.
    destruct (inv_waiting_sem _ _ _ _ _ I Hp), (inv_waiting_sem _ _ _ _ _ I Hx). congruence.
Qed.

(** A process taken off the queue of the semaphore at [k] gives its unit back: to the semaphore, or,
    at a device, to the soft-block count. *)
Lemma kill_step_blocked s h (D : gmap Z semd_t) f k p n W :
  sem_of s p = k -> ints s !! k = Some n -> frame erase_links W (pcbs s) h ->
  let s1 := set_semdFree_h f (set_semds D (set_pcbs h s)) in
  let s2 := if is_device_sem k then set_softBlockedCount (i32 (softBlockedCount s - 1)) s1
            else set_ints (<[k := i32 (n + 1)]> (ints s)) s1 in
  kill_step [p] s (set_processCount (i32 (processCount s2 - 1)) s2).
Proof.
  intros Hso Hn Hf s1 s2. pose proof (fun A g x E => @frame_fld pcb_t A g erase_links _ _ _ x E Hf) as Hfld.
  split; cbn [pcbs set_processCount processCount softBlockedCount ints]; try (by unfold s2; destruct (is_device_sem k)).
  - intros x. assert (pcbs s2 = h) as -> by (unfold s2; by destruct (is_device_sem k)). by rewrite !Hfld.
  - rewrite filter_cons, Hso, filter_nil. unfold s2. case_decide as Hd; [by rewrite Hd|].
    by rewrite (not_true_is_false _ Hd).
  - intros k' Hk'. rewrite filter_cons, Hso, filter_nil. unfold s2.
    destruct (is_device_sem k) eqn:Ek; cbn [ints set_softBlockedCount set_ints]; change (ints s1) with (ints s).
    + destruct (is_device_sem k') eqn:Ek'; [by destruct (ints s !! k')|].
      rewrite decide_False by congruence. by destruct (ints s !! k').
    + case_decide as Hkk; [subst k'; rewrite Ek, lookup_insert_eq, Hn; done|].
      rewrite lookup_insert_ne by done. destruct (is_device_sem k'); by destruct (ints s !! k').
Qed.

Lemma tail_blocked s v hands k p :
  kernel_inv s v hands -> p ∈ waiting v k -> p <> currentProcess s -> v_kids v p = [] ->
  fld p_prnt (pcbs s) p = Some NULL ->
  exists s' v', terminate_tail p s = Ret tt s' /\ kernel_inv s' v' hands /\
    v_kids v' = v_kids v /\ kill_queues [p] v v' /\ kill_step [p] s s'.
Proof.
  intros I Hp Hc Hk Hpr. destruct (inv_waiting_sem _ _ _ _ _ I Hp) as (Hsem & Hkey & n & Hn).
  assert (sem_of s p = k) as Hso by (unfold sem_of; by rewrite Hsem).
  destruct (list_elem_of_split _ _ Hp) as (q1 & q2 & Hw).
  destruct (inv_outBlocked s v hands k q1 p q2 I Hw) as (s1 & L' & fs' & Hrun & I1 & (h & D & f & ->) & Hput & Hf).
  cbn [pcbs set_pcbs set_semds set_semdFree_h] in Hf.
  pose proof (waiting_without _ _ _ _ _ _ _ _ I Hw Hput) as Hwait.
  pose proof (fun A g x E => @frame_fld pcb_t A g erase_links _ _ _ x E Hf) as Hfld.
  set (s1 := set_semdFree_h f (set_semds D (set_pcbs h s))) in *.
  set (s2 := if is_device_sem k then set_softBlockedCount (i32 (softBlockedCount s - 1)) s1
             else set_ints (<[k := i32 (n + 1)]> (ints s)) s1).
  assert (harmless s1 s2) as Hh by (unfold s2; destruct (is_device_sem k);
    [by apply harmless_globals|apply (harmless_int k _ s1)]).
  assert (pcbs s2 = h) as E2 by (unfold s2; by destruct (is_device_sem k)).
  destruct (free_and_count s s2 v (with_asl L' fs' v) hands p) as (s' & v' & Hrun2 & I2 & Hk2 & HQ & HK).
  - by eapply inv_harmless.
  - done.
  - rewrite E2. by rewrite Hfld.
  - by eapply (kill_step_blocked s h D f k p n).
  - done.
  - symmetry. apply without_other. intros x Hx ->%list_elem_of_singleton.
    pose proof (inv_disjoint _ _ _ I) as (_ & _ & _ & _ & _ & D2 & _). destruct (D2 p Hx) as [Hb _].
    by apply Hb, (procs_at_blocked _ k).
  - exact Hwait.
  - exists s', v'. split_and!; [|done..]. unfold terminate_tail.
    rewrite (bind_ret _ _ _ _ _ (get_pcb_ok _ _ _ _ Hsem)). kstep.
    destruct Hkey as [? _]. assert (k <> NULL) by lia. repeat kif.
    rewrite bind_assoc, (bind_ret _ _ _ _ _ Hrun).
    rewrite <- Hrun2. unfold s2. destruct (is_device_sem k); cbn [negb].
    + by kstep.
    + by rewrite (bind_ret _ _ _ _ _ (add_int_ok k 1 n s1 Hn)).
Qed.

(** [kill_step] for a process that is on no semaphore. *)
Lemma kill_step_plain s s2 p :
  sem_of s p = NULL ->
  (forall x, fld p_s (pcbs s2) x = fld p_s (pcbs s) x /\ fld p_time (pcbs s2) x = fld p_time (pcbs s) x /\
             fld p_supportStruct (pcbs s2) x = fld p_supportStruct (pcbs s) x /\
             fld p_semAdd (pcbs s2) x = fld p_semAdd (pcbs s) x) ->
  processCount s2 = i32 (processCount s - 1) -> softBlockedCount s2 = softBlockedCount s ->
  ints s2 = ints s -> currentProcess s2 = currentProcess s /\ supports s2 = supports s /\
    states s2 = states s /\ savedExceptionState s2 = savedExceptionState s ->
  kill_step [p] s s2.
Proof.
  intros Hso HP HC HS HI HG. split; [done|done| | |done].
  - rewrite filter_cons, Hso, filter_nil. case_decide as Hd; [|done].
    unfold is_device_sem in Hd. destruct (sem_addr_ok CLOCK_INDEX ltac:(done)) as [_ [? _]].
    apply andb_true_iff in Hd as [_ Hd]. apply Z.leb_le in Hd. lia.
  - intros k Hk. rewrite HI, filter_cons, Hso, filter_nil. rewrite decide_False by congruence.
    destruct (is_device_sem k); by destruct (ints s !! k).
Qed.

Lemma tail_ready s v hands p :
  kernel_inv s v hands -> p ∈ v_ready v -> p <> currentProcess s -> v_kids v p = [] ->
  fld p_prnt (pcbs s) p = Some NULL ->
  exists s' v', terminate_tail p s = Ret tt s' /\ kernel_inv s' v' hands /\
    v_kids v' = v_kids v /\ kill_queues [p] v v' /\ kill_step [p] s s'.
Proof.
  intros I Hp Hc Hk Hpr. pose proof (inv_nosem _ _ _ I p Hp) as Hsem.
  assert (sem_of s p = NULL) as Hso by (unfold sem_of; by rewrite Hsem).
  pose proof (inv_disjoint _ _ _ I) as (_ & Hnd & _ & _ & _ & D2 & _).
  destruct (list_elem_of_split _ _ Hp) as (l1 & l2 & Hr).
  destruct (inv_outReady s v hands p l1 l2 I Hr) as (h & Hrun & I1 & Hf).
  pose proof (fun A g x E => @frame_fld pcb_t A g erase_links _ _ _ x E Hf) as Hfld.
  destruct (free_and_count s _ v _ hands p I1) as (s' & v' & Hrun2 & I2 & Hk2 & HQ & HK).
  - done.
  - cbn. by rewrite Hfld.
  - apply kill_step_plain; try done. intros x. cbn. by rewrite !Hfld.
  - done.
  - cbn. rewrite Hr in Hnd |- *. by rewrite without_one.
  - intros k. cbn. symmetry. apply without_other. intros x Hx ->%list_elem_of_singleton.
    destruct (D2 p Hp) as [Hb _]. by apply Hb, (procs_at_blocked _ k).
  - exists s', v'. split_and!; [|done..]. unfold terminate_tail.
    rewrite (bind_ret _ _ _ _ _ (get_pcb_ok _ _ _ _ Hsem)). kstep. kif.
    change (negb (NULL =? NULL)) with false. cbv iota.
    by rewrite bind_assoc, (bind_ret _ _ _ _ _ Hrun).
Qed.

Lemma tail_current s v p :
  kernel_inv s v [p] -> p = currentProcess s -> v_kids v p = [] -> fld p_semAdd (pcbs s) p = Some NULL ->
  exists s' v', terminate_tail p s = Ret tt s' /\ kernel_inv s' v' [] /\
    kill_queues [p] v v' /\ kill_step [p] s s' /\
    (forall q, q ∈ live v [p] -> v_kids v' q = filter (fun x => x <> p) (v_kids v q)).
Proof.
  intros I Hc Hk Hsem. assert (sem_of s p = NULL) as Hso by (unfold sem_of; by rewrite Hsem).
  assert (p ∈ live v [p]) as Hp by (rewrite elem_of_live; set_solver).
  pose proof (inv_disjoint _ _ _ I) as (_ & _ & _ & _ & _ & D2 & D3).
  destruct (forest_outChild s (live v [p]) (v_kids v) p) as (h & kids & r & Hrun & Hfor & Hpr & Hk' & Hf).
  { apply I. } { done. } { by eapply inv_live_NULL. } { intros q Hq. by eapply Nat.lt_le_incl, inv_kids_length. }
  pose proof (inv_tree _ _ _ _ _ _ I Hf Hfor) as I1.
  pose proof (fun A g x E => @frame_fld pcb_t A g erase_tree _ _ _ x E Hf) as Hfld.
  destruct (free_and_count s _ v _ [] p I1) as (s' & v' & Hrun2 & I2 & Hk2 & HQ & HK).
  - cbn. by rewrite Hk', Hk.
  - done.
  - apply kill_step_plain; try done. intros x. cbn. by rewrite !Hfld.
  - done.
  - cbn. symmetry. apply without_other. intros x Hx ->%list_elem_of_singleton.
    destruct (D2 p Hx). set_solver.
  - intros k. cbn. symmetry. apply without_other. intros x Hx%procs_at_blocked ->%list_elem_of_singleton.
    apply (D3 p Hx). set_solver.
  - exists s', v'. split_and!; [|done..|by rewrite Hk2]. unfold terminate_tail.
    rewrite (bind_ret _ _ _ _ _ (get_pcb_ok _ _ _ _ Hsem)). kstep. kif. cbv iota.
    by rewrite bind_assoc, (bind_ret _ _ _ _ _ Hrun).
Qed.

(** ** Descendants *)
Fixpoint shallow (n : nat) (kids : Z -> list Z) (p : Z) : Prop :=
  match n with
  | O => False
  | S n => forall c, c ∈ kids p -> shallow n kids c
  end.

Implicit Types (kids : Z -> list Z).

Lemma descends_step kids p x :
  descends kids p x <-> x = p \/ exists c, c ∈ kids p /\ descends kids c x.
Proof.
  split.
  - intros H. inversion H; subst; [by left|right]. eauto.
  - intros [->|(c & Hc & H)]; [apply rtc_refl|]. by eapply rtc_l.
Qed.

(** Two families of children that agree on what [c] reaches. *)
Lemma descends_mono kids kids' c x :
  (forall y, descends kids c y -> kids' y = kids y) -> descends kids c x -> descends kids' c x.
Proof.
  intros E H. induction H as [c|c d x Hd H IH]; [apply rtc_refl|].
  eapply rtc_l; [rewrite E; [exact Hd|apply rtc_refl]|]. apply IH. intros y Hy. apply E. by eapply rtc_l.
Qed.

Lemma descends_agree kids kids' c x :
  (forall y, descends kids c y -> kids' y = kids y) -> descends kids' c x <-> descends kids c x.
Proof.
  intros E. split; [|by apply descends_mono]. intros H. revert E.
  induction H as [c|c d x Hd H IH]; intros E; [apply rtc_refl|].
  rewrite E in Hd by apply rtc_refl. eapply rtc_l; [exact Hd|]. apply IH. intros y Hy.
  apply E. by eapply rtc_l.
Qed.

Lemma descends_sub kids kids' c x :
  (forall y z, z ∈ kids y -> z ∈ kids' y) -> descends kids c x -> descends kids' c x.
Proof. intros E H. induction H as [c|c d x Hd H IH]; [apply rtc_refl|]. eapply rtc_l; [by apply E|done]. Qed.

Lemma descends_closed kids (P : Z -> Prop) c x :
  (forall y z, P y -> z ∈ kids y -> P z) -> P c -> descends kids c x -> P x.
Proof. intros HP Hc H. induction H; eauto. Qed.

Lemma shallow_ext n kids kids' c :
  (forall y, descends kids c y -> kids' y = kids y) -> shallow n kids c -> shallow n kids' c.
Proof.
  revert c. induction n as [|n IH]; intros c E; [done|]. cbn. rewrite E by apply rtc_refl.
  intros H d Hd. apply IH; [|auto]. intros y Hy. apply E. by eapply rtc_l.
Qed.

Lemma forest_no_cycle h l kids p c x :
  forest h l kids -> p ∈ l -> c ∈ kids p -> descends kids c x -> x <> p.
Proof.
  intros Hf Hp Hc Hd. pose proof (forest_live _ _ _ Hf) as Hl. destruct (forest_rank _ _ _ Hf) as [rank Hr].
  pose proof (Hr p c Hp Hc) as Hpc. assert (c ∈ l) as Hcl by eauto.
  enough (rank p < rank x)%nat by (intros ->; lia).
  eapply (descends_closed kids (fun x => x ∈ l /\ (rank p < rank x)%nat)); [|done|exact Hd].
  intros y z [Hy Hlt] Hz. split; [by eauto|]. specialize (Hr y z Hy Hz). lia.
Qed.

(** A path of a forest meets no pcb twice. *)
Lemma forest_shallow h l kids n p path :
  forest h l kids -> p ∈ l -> NoDup path ->
  (forall rank : Z -> nat, (forall p c, p ∈ l -> c ∈ kids p -> (rank p < rank c)%nat) ->
     forall x, x ∈ path -> x ∈ l /\ (rank x < rank p)%nat) ->
  (length l <= length path + n)%nat -> shallow n kids p.
Proof.
  intros Hf. revert p path. induction n as [|n IH]; intros p path Hp Hnd Hpath Hlen.
  - destruct (forest_rank _ _ _ Hf) as [rank Hr]. specialize (Hpath rank Hr).
    assert (p ∉ path) as Hpn by (intros H; destruct (Hpath p H); lia).
    assert (length (p :: path) <= length l)%nat; [|cbn in *; lia].
    apply submseteq_length, NoDup_submseteq; [by apply NoDup_cons|].
    intros x [->|Hx]%elem_of_cons; [done|]. by apply Hpath.
  - intros c Hc. destruct (forest_rank _ _ _ Hf) as [rank0 Hr0].
    apply (IH c (p :: path)); [by eapply forest_live| | |cbn; lia].
    + apply NoDup_cons. split; [|done]. intros H. destruct (Hpath rank0 Hr0 p H). lia.
    + intros rank Hr x [->|Hx]%elem_of_cons; [auto|]. destruct (Hpath rank Hr x Hx).
      specialize (Hr p c Hp Hc). split; [done|lia].
Qed.

Lemma inv_shallow s v hands p :
  kernel_inv s v hands -> p ∈ live v hands -> shallow 20 (v_kids v) p.
Proof.
  intros I Hp. pose proof (inv_length _ _ _ I). eapply (forest_shallow _ _ _ _ _ []);
    [apply I|done|constructor|set_solver|cbn; lia].
Qed.

(** What is left of the live processes. *)
Lemma kill_live D s v s' v' hands x :
  kernel_inv s v hands -> kernel_inv s' v' hands -> kill_queues D v v' -> x ∈ live v' hands <->
  (x ∈ live v hands) /\ (x ∉ D).
Proof.
  intros I I' [HF HR HW]. pose proof (inv_part _ _ _ I) as P. pose proof (inv_part _ _ _ I') as P'.
  pose proof (inv_NoDup _ _ _ I') as Hnd. rewrite HF in P', Hnd. rewrite <- P in P'.
  assert (live v hands ≡ₚ D ++ live v' hands) as E.
  { apply (Permutation_app_inv_l (v_free v)). rewrite <- P', reverse_Permutation.
    by rewrite (Permutation_app_comm D), <- (assoc_L (++)). }
  rewrite <- (assoc_L (++)), reverse_Permutation in Hnd. apply NoDup_app in Hnd as (_ & Hd & _).
  rewrite E. set_solver.
Qed.

(** ** The recursion *)

(** The contract of [terminateProcess] on a detached pcb. *)
Definition terminates (run : Z -> K unit) (fuel : nat) : Prop := forall s v p,
  kernel_inv s v (running s) -> p ∈ live v (running s) -> fld p_prnt (pcbs s) p = Some NULL ->
  (forall x, descends (v_kids v) p x -> x ∉ running s) -> shallow fuel (v_kids v) p ->
  exists s' v' D, run p s = Ret tt s' /\ kernel_inv s' v' (running s) /\ kill_queues D v v' /\
    kill_step D s s' /\ (forall x, x ∈ D <-> descends (v_kids v) p x) /\
    (forall y, y ∉ D -> v_kids v' y = v_kids v y).

Lemma running_kill D s s' : kill_step D s s' -> running s' = running s.
Proof. intros H. destruct (kill_globals _ _ _ H) as [E _]. unfold running. by rewrite E. Qed.

(** The first child goes: what the others reach does not change. *)
Lemma terminate_first run fuel s v p c l :
  terminates run fuel -> kernel_inv s v (running s) -> p ∈ live v (running s) -> v_kids v p = c :: l ->
  (forall x, descends (v_kids v) c x -> x ∉ running s) -> shallow fuel (v_kids v) c ->
  exists s' v' D, (do x <- removeChild p; run x) s = Ret tt s' /\
    kernel_inv s' v' (running s) /\ kill_queues D v v' /\ kill_step D s s' /\
    (forall x, x ∈ D <-> descends (v_kids v) c x) /\ v_kids v' p = l /\ (p ∉ D) /\
    (forall y, y ∉ D -> y <> p -> v_kids v' y = v_kids v y).
Proof.
  intros Hrun I Hp Hk Hout Hsh. pose proof (inv_forest _ _ _ I) as Hfor.
  assert (c ∈ v_kids v p) as Hc by (rewrite Hk; set_solver).
  assert (c ∈ live v (running s)) as Hcl by (by eapply forest_live).
  destruct (forest_removeChild s (live v (running s)) (v_kids v) p c l Hfor Hp)
    as (h & Hrem & Hfor1 & Hpr & Hf); [by eapply inv_live_NULL|done|].
  pose proof (inv_tree _ _ _ _ _ _ I Hf Hfor1) as I1.
  set (s1 := set_pcbs h s) in *. set (v1 := with_kids (<[p := l]> (v_kids v)) v) in *.
  assert (forall y, descends (v_kids v) c y -> v_kids v1 y = v_kids v y) as E1.
  { intros y Hy. cbn. rewrite fn_lookup_insert_ne; [done|].
    apply not_eq_sym, (forest_no_cycle _ _ _ _ _ _ Hfor Hp Hc Hy). }
  assert (forall x, descends (v_kids v1) c x <-> descends (v_kids v) c x) as Ed.
  { intros x. split; [|by apply descends_mono]. apply descends_sub. intros y z. cbn.
    destruct (decide (y = p)) as [->|]; [|by rewrite fn_lookup_insert_ne by done].
    rewrite fn_lookup_insert, Hk. set_solver. }
  destruct (Hrun s1 v1 c) as (s' & v' & D & Hr & I' & HQ & HK & HD & Hkeep).
  - exact I1.
  - exact Hcl.
  - exact Hpr.
  - intros x Hx. apply Hout. by apply Ed.
  - by eapply shallow_ext.
  - assert (p ∉ D) as HpD.
    { rewrite HD, Ed. intros Hd. by apply (forest_no_cycle _ _ _ _ _ _ Hfor Hp Hc Hd). }
    exists s', v', D. split_and!.
    + by rewrite (bind_ret _ _ _ _ _ Hrem).
    + done.
    + destruct HQ. by split.
    + pose proof (fun A g x E => @frame_fld pcb_t A g erase_tree _ _ _ x E Hf) as Hfld.
      destruct HK as [P C S W G]. split; try done.
      * intros x. destruct (P x) as (-> & -> & -> & ->). cbn. by rewrite !Hfld.
      * rewrite S. cbn. do 2 f_equal. apply list_filter_iff. intros x. unfold sem_of. cbn. by rewrite Hfld.
      * intros k Hk'. rewrite W by done. cbn. destruct (is_device_sem k); [done|].
        do 3 f_equal. apply list_filter_iff. intros x. unfold sem_of. cbn. by rewrite Hfld.
    + intros x. by rewrite HD, Ed.
    + rewrite Hkeep by done. cbn. by rewrite fn_lookup_insert.
    + done.
    + intros y Hy Hyp. rewrite Hkeep by done. cbn. by rewrite fn_lookup_insert_ne.
Qed.

(** Killing one child leaves the others the descendants they had. *)
Lemma siblings_agree s v v1 hands D p l d :
  kernel_inv s v1 hands -> p ∈ live v1 hands -> v_kids v1 p = l -> d ∈ l ->
  (forall y, y ∉ D -> y <> p -> v_kids v1 y = v_kids v y) -> (forall y, y ∈ live v1 hands -> y ∉ D) ->
  (forall y, descends (v_kids v1) d y -> v_kids v1 y = v_kids v y) /\
  (forall x, descends (v_kids v1) d x <-> descends (v_kids v) d x).
Proof.
  intros I Hp Hk Hd Hkeep Hlive. pose proof (inv_forest _ _ _ I) as Hfor. rewrite <- Hk in Hd.
  assert (forall y, descends (v_kids v1) d y -> v_kids v1 y = v_kids v y) as Hag.
  { intros y Hy. apply Hkeep; [apply Hlive|exact (forest_no_cycle _ _ _ _ _ _ Hfor Hp Hd Hy)].
    eapply (descends_closed _ (fun y => y ∈ live v1 hands)); [| |exact Hy].
    - intros a b Ha Hb. by eapply forest_live.
    - by eapply forest_live. }
  split; [done|]. intros x. symmetry. apply descends_agree. intros y Hy. symmetry. by apply Hag.
Qed.

(** The loop over the children. *)
Lemma terminate_children_ok run fuel n s v p :
  terminates run fuel -> kernel_inv s v (running s) -> p ∈ live v (running s) ->
  (length (v_kids v p) < n)%nat ->
  (forall c x, c ∈ v_kids v p -> descends (v_kids v) c x -> x ∉ running s) ->
  (forall c, c ∈ v_kids v p -> shallow fuel (v_kids v) c) ->
  exists s' v' D, terminate_children n run p s = Ret tt s' /\ kernel_inv s' v' (running s) /\
    kill_queues D v v' /\ kill_step D s s' /\ v_kids v' p = [] /\ (p ∉ D) /\
    (forall x, x ∈ D <-> exists c, c ∈ v_kids v p /\ descends (v_kids v) c x) /\
    (forall y, y ∉ D -> y <> p -> v_kids v' y = v_kids v y).
Proof.
  intros Hrun. revert s v. induction n as [|n IH]; intros s v I Hp Hn Hout Hsh; [lia|].
  pose proof (inv_forest _ _ _ I) as Hfor. pose proof (inv_live_NULL _ _ _ I) as HN.
  assert (p <> NULL) as HpN by (by intros ->).
  cbn [terminate_children].
  rewrite (bind_ret _ _ _ _ _ (emptyChild_ok s p _ (forest_children _ _ _ Hfor p Hp) HpN)).
  destruct (v_kids v p) as [|c l] eqn:Hk.
  { exists s, v, []. rewrite bool_decide_true by done. split_and!; try done.
    - apply kill_queues_nil.
    - apply kill_step_nil.
    - set_solver.
    - intros x. split; [set_solver|]. intros (c & Hc & _). set_solver. }
  rewrite bool_decide_false by done.
  destruct (terminate_first run fuel s v p c l Hrun I Hp Hk) as
    (s1 & v1 & D1 & Hr1 & I1 & HQ1 & HK1 & HD1 & Hk1 & Hp1 & Hkeep1).
  { intros x. apply Hout. set_solver. } { apply Hsh. set_solver. }
  assert (p ∈ live v1 (running s)) as Hp1l by (by apply (kill_live D1 s v s1 v1)).
  pose proof (fun d Hd => siblings_agree s1 v v1 (running s) D1 p l d I1 Hp1l Hk1 Hd Hkeep1
    (fun y Hy => proj2 (proj1 (kill_live D1 s v s1 v1 (running s) y I I1 HQ1) Hy))) as Hsib.
  pose proof (fun d Hd => proj2 (Hsib d Hd)) as Ed.
  pose proof (running_kill _ _ _ HK1) as Er.
  destruct (IH s1 v1) as (s2 & v2 & D2 & Hr2 & I2 & HQ2 & HK2 & Hk2 & Hp2 & HD2 & Hkeep2).
  - by rewrite Er.
  - by rewrite Er.
  - rewrite Hk1. cbn in Hn. lia.
  - intros d x. rewrite Hk1, Er. intros Hd. rewrite Ed by done. apply Hout. set_solver.
  - intros d. rewrite Hk1. intros Hd. eapply (shallow_ext _ (v_kids v)); [|apply Hsh; set_solver].
    intros y Hy. apply (Hsib d Hd). by apply Ed.
  - exists s2, v2, (D1 ++ D2). rewrite Er in I2. split_and!.
    + rewrite <- bind_assoc, (bind_ret _ _ _ _ _ Hr1). exact Hr2.
    + done.
    + by eapply kill_queues_app.
    + by eapply kill_step_app.
    + done.
    + set_solver.
    + intros x. rewrite elem_of_app, HD1, HD2, Hk1. setoid_rewrite elem_of_cons. split.
      * intros [?|(d & ? & ?%Ed)]; eauto.
      * intros (d & [->|Hd] & ?); [by left|right]. exists d. by rewrite Ed.
    + intros y Hy Hyp. rewrite Hkeep2, Hkeep1 by set_solver. done.
Qed.

(** A detached pcb stays detached while its children go. *)
Lemma still_detached s v s1 v1 hands p D :
  kernel_inv s v hands -> kernel_inv s1 v1 hands -> kill_queues D v v1 -> p ∈ live v1 hands ->
  fld p_prnt (pcbs s) p = Some NULL -> v_kids v1 p = [] ->
  (forall y, y ∉ D -> y <> p -> v_kids v1 y = v_kids v y) -> fld p_prnt (pcbs s1) p = Some NULL.
Proof.
  intros I I1 HQ Hp Hpr Hk Hkeep.
  destruct (forest_parent _ _ _ (inv_forest _ _ _ I1) p Hp) as (q & Hq & [->|[Hql Hpq]]); [done|].
  assert (q <> p) as Hne by (intros ->; rewrite Hk in Hpq; by apply not_elem_of_nil in Hpq).
  apply (kill_live D s v s1 v1 hands q I I1 HQ) in Hql as [Hql HqD].
  rewrite Hkeep in Hpq by done. exfalso. apply (inv_live_NULL _ _ _ I).
  pose proof (forest_child _ _ _ _ _ (inv_forest _ _ _ I) Hql Hpq) as E.
  rewrite Hpr in E. by simplify_eq.
Qed.

Lemma tail_ok s v hands p :
  kernel_inv s v hands -> p ∈ live v hands -> p <> currentProcess s -> v_kids v p = [] ->
  (p ∉ hands) -> fld p_prnt (pcbs s) p = Some NULL ->
  exists s' v', terminate_tail p s = Ret tt s' /\ kernel_inv s' v' hands /\
    v_kids v' = v_kids v /\ kill_queues [p] v v' /\ kill_step [p] s s'.
Proof.
  intros I [Hp|[Hp|Hp]]%elem_of_live Hc Hk Hh Hpr; [by apply tail_ready| |done].
  destruct (blocked_waiting _ _ Hp) as [k Hw]. by eapply tail_blocked.
Qed.

Lemma terminateProcess_ok fuel : terminates (terminateProcess fuel) fuel.
Proof.
  induction fuel as [|fuel IH]; intros s v p I Hp Hpr Hout Hsh; [done|].
  destruct (terminate_children_ok _ fuel walk_fuel s v p IH I Hp)
    as (s1 & v1 & D1 & Hr1 & I1 & HQ1 & HK1 & Hk1 & Hp1 & HD1 & Hkeep1).
  - by eapply inv_kids_length.
  - intros c x Hc Hx. apply Hout. by eapply rtc_l.
  - exact Hsh.
  - pose proof (running_kill _ _ _ HK1) as Er.
    assert (p ∈ live v1 (running s)) as Hp1l by (by apply (kill_live D1 s v s1 v1)).
    assert (p <> currentProcess s1) as Hpc.
    { destruct (kill_globals _ _ _ HK1) as [-> _]. intros E. apply (Hout p); [apply rtc_refl|].
      rewrite running_some by (rewrite <- E; intros ->; by apply (inv_live_NULL _ _ _ I)). set_solver. }
    destruct (tail_ok s1 v1 (running s) p I1 Hp1l Hpc Hk1) as (s2 & v2 & Hr2 & I2 & Hk2 & HQ2 & HK2).
    { apply Hout, rtc_refl. } { by eapply (still_detached s v s1 v1). }
    exists s2, v2, (D1 ++ [p]). split_and!.
    + by rewrite terminateProcess_S, (bind_ret _ _ _ _ _ Hr1).
    + done.
    + by eapply kill_queues_app.
    + by eapply kill_step_app.
    + intros x. rewrite elem_of_app, HD1, list_elem_of_singleton, descends_step. tauto.
    + intros y Hy. rewrite Hk2. apply Hkeep1; set_solver.
Qed.

(** SYS2 on the current process: it and all its descendants are gone. *)
(** The survivors keep their children, in order; the parent of [p] loses [p]. *)
Definition kids_kept (p : Z) (D : list Z) (v : view) (hands : list Z) (v' : view) : Prop :=
  forall q, q ∈ live v hands -> q ∉ D -> v_kids v' q = filter (fun x => x <> p) (v_kids v q).

Lemma terminate_current_process s v p :
  nucleus_inv s v -> currentProcess s <> NULL -> p = currentProcess s ->
  exists s' v' D, terminateProcess terminate_fuel p s = Ret tt s' /\ kernel_inv s' v' [] /\
    kill_queues D v v' /\ kill_step D s s' /\ (forall x, x ∈ D <-> descends (v_kids v) p x) /\
    kids_kept p D v (running s) v'.
Proof.
  intros N Hc ->. set (p := currentProcess s). pose proof (nucleus_kernel _ _ N) as I.
  pose proof (running_some s Hc) as Er. fold p in Er.
  assert (p ∈ live v (running s)) as Hp by (rewrite Er, elem_of_live; set_solver).
  rewrite terminate_fuel_eq.
  destruct (terminate_children_ok _ 20 walk_fuel s v p (terminateProcess_ok 20) I Hp)
    as (s1 & v1 & D1 & Hr1 & I1 & HQ1 & HK1 & Hk1 & Hp1 & HD1 & Hkeep1).
  - by eapply inv_kids_length.
  - intros c x Hcp Hx. rewrite Er, list_elem_of_singleton.
    exact (forest_no_cycle _ _ _ _ _ _ (inv_forest _ _ _ I) Hp Hcp Hx).
  - intros c Hcp. eapply inv_shallow; [exact I|]. by apply (forest_live _ _ _ (inv_forest _ _ _ I) p).
  - rewrite Er in I1. destruct (kill_globals _ _ _ HK1) as [Ec _].
    destruct (tail_current s1 v1 p I1) as (s2 & v2 & Hr2 & I2 & HQ2 & HK2 & Hk2).
    + by rewrite Ec.
    + done.
    + destruct (kill_pcbs _ _ _ HK1 p) as (_ & _ & _ & ->). by apply (nucleus_current _ _ N).
    + exists s2, v2, (D1 ++ [p]). split_and!.
      * by rewrite terminateProcess_S, (bind_ret _ _ _ _ _ Hr1).
      * done.
      * by eapply kill_queues_app.
      * by eapply kill_step_app.
      * intros x. rewrite elem_of_app, HD1, list_elem_of_singleton, descends_step. tauto.
      * intros q Hq [Hq1 Hqp]%not_elem_of_app. rewrite list_elem_of_singleton in Hqp.
        rewrite Hk2, Hkeep1; [done..|]. rewrite Er in I, Hq. by apply (kill_live _ _ _ _ _ _ _ I I1 HQ1).
Qed.

(** [terminate_current]: the rest of the system goes on. *)
Lemma terminate_current_ok s v :
  nucleus_inv s v -> currentProcess s <> NULL ->
  stops terminate_current s (fun e s' => exists D s1 v1 v',
    (forall x, x ∈ D <-> descends (v_kids v) (currentProcess s) x) /\
    kill_queues D v v1 /\ kill_step D s s1 /\ same_data s1 s' /\
    kids_kept (currentProcess s) D v (running s) v1 /\ dispatched v1 e v' s' /\ nucleus_inv s' v').
Proof.
  intros N Hc. destruct (terminate_current_process s v _ N Hc eq_refl)
    as (s1 & v1 & D & Hr & I1 & HQ & HK & HD & Hkk).
  assert (nucleus_inv (set_currentProcess NULL s1) v1) as N1.
  { split; rewrite ?running_none by done; [eapply inv_harmless; [exact I1|]; by apply harmless_globals|done|].
    cbn. rewrite (kill_count _ _ _ HK), (nucleus_count _ _ N).
    pose proof (inv_length _ _ _ (nucleus_kernel _ _ N)) as L. pose proof (inv_length _ _ _ I1) as L1.
    rewrite (kill_free _ _ _ HQ), length_app, length_reverse in L1.
    rewrite iter_dec by (unfold in_i32; lia). lia. }
  destruct (wp_elim_stops _ _ _ (scheduler_ok _ _ N1 eq_refl)) as (e & s' & Hr2 & v' & N' & Hd & Hs).
  eapply stops_intro.
  - unfold terminate_current. kstep. rewrite (bind_ret _ _ _ _ _ Hr). kstep. exact Hr2.
  - exists D, s1, v1, v'. split_and!; [done..| |done|done|done]. destruct Hs. by split.
Qed.
End terminate.
