(* ===== verification/Semaphores.v ===== *)
(** * Semaphores in balance

    A semaphore is in balance when its value counts its queue: a negative value is minus the number
    of processes waiting, a value of zero or more means that nobody waits. *)
From S2P Require Export SyscallSpec TerminateSpec.

Definition balanced (s : kstate) (v : view) (k : Z) : Prop :=
  exists n, ints s !! k = Some n /\ length (waiting v k) = Z.to_nat (- n).

Section balance.
Context {m : Machine} {mok : MachineOk m}.
Implicit Types (s : kstate) (v : view) (k n : Z).

(** * Lemmas *)
Lemma waiting_length s v hands k : kernel_inv s v hands -> (length (waiting v k) <= 20)%nat.
Proof.
  intros I. pose proof (inv_length _ _ _ I) as Hn. unfold live in Hn. rewrite !length_app in Hn.
  pose proof (sublist_length _ _ (procs_at_sublist (v_entries v) k)). unfold waiting. lia.
Qed.

Lemma balanced_low s v hands k n :
  kernel_inv s v hands -> balanced s v k -> ints s !! k = Some n -> -20 <= n.
Proof.
  intros I (n' & Hn & Hl) E. rewrite Hn in E. injection E as ->. pose proof (waiting_length _ _ _ k I). lia.
Qed.

(** Dispatching moves no blocked process. *)
Lemma dispatched_waiting v e v' s' : dispatched v e v' s' -> v_entries v' = v_entries v /\ v_free v' = v_free v.
Proof. unfold dispatched. destruct (v_ready v); [by intros [-> _]|by intros (_ & _ & -> & _)]. Qed.

(** The value of [k] becomes [z] and its queue [q], no other semaphore changes. *)
Lemma balanced_put s s' v v' L' k z (q : list Z) :
  ints s' = <[k := z]> (ints s) -> v_entries v' = L' -> asl_put (v_entries v) k q L' ->
  length q = Z.to_nat (- z) ->
  forall k', balanced s v k' -> balanced s' v' k'.
Proof.
  intros Hi <- [Hq Ho] Hl k' (n & Hn & Hlen). destruct (decide (k' = k)) as [->|Hne].
  - exists z. rewrite Hi, lookup_insert_eq. unfold waiting. by rewrite Hq.
  - exists n. rewrite Hi, lookup_insert_ne by done. unfold waiting. by rewrite Ho.
Qed.

Lemma asl_put_same L k : asl_put L k (procs_at L k) L.
Proof. by split. Qed.

Lemma passeren_balance s v k n :
  nucleus_inv s v -> currentProcess s <> NULL -> sem_key k -> ints s !! k = Some n -> n < 2 ^ 31 ->
  balanced s v k ->
  stops (passeren k) s (fun e s' => exists v', nucleus_inv s' v' /\
    forall k', balanced s v k' -> balanced s' v' k').
Proof.
  intros N Hc Hk Hn Hmax Hb. pose proof (balanced_low _ _ _ _ _ (nucleus_kernel _ _ N) Hb Hn) as Hlow.
  destruct Hb as (n' & Hn' & Hl). rewrite Hn in Hn'. injection Hn' as <-.
  eapply stops_mono; [|by eapply passeren_ok]. cbv zeta. rewrite (i32_small (n - 1)) by (unfold in_i32; lia).
  intros e s'. destruct (Z.ltb_spec (n - 1) 0).
  - intros (v1 & v' & (L' & fs' & -> & Hput) & N' & Hd & Hdata). exists v'. split; [done|].
    destruct (dispatched_waiting _ _ _ _ Hd) as [He _]. eapply balanced_put; [apply (data_ints _ _ _ _ _ Hdata)|exact He|exact Hput|].
    rewrite length_app. cbn. lia.
  - intros (_ & _ & N' & Hdata). exists v. split; [done|].
    eapply balanced_put; [apply (data_ints _ _ _ _ _ Hdata)|done|apply asl_put_same|]. unfold waiting in Hl. lia.
Qed.

Lemma verhogen_balance s v k n :
  nucleus_inv s v -> currentProcess s <> NULL -> sem_key k -> ints s !! k = Some n -> n < 2 ^ 31 - 1 ->
  balanced s v k ->
  stops (verhogen k) s (fun e s' => exists v', nucleus_inv s' v' /\
    forall k', balanced s v k' -> balanced s' v' k').
Proof.
  intros N Hc Hk Hn Hmax Hb. pose proof (balanced_low _ _ _ _ _ (nucleus_kernel _ _ N) Hb Hn) as Hlow.
  destruct Hb as (n' & Hn' & Hl). rewrite Hn in Hn'. injection Hn' as <-.
  eapply stops_mono; [|by eapply verhogen_ok]. cbv zeta. rewrite (i32_small (n + 1)) by (unfold in_i32; lia).
  intros e s' (v' & (_ & _ & N' & Hdata) & Hv). exists v'. split; [done|].
  destruct (Z.leb_spec (n + 1) 0).
  - unfold woken in Hv. destruct (waiting v k) as [|p q] eqn:Ew; [cbn in Hl; lia|].
    destruct Hv as (L' & fs' & -> & Hput).
    eapply balanced_put; [apply (data_ints _ _ _ _ _ Hdata)|done|exact Hput|]. cbn in Hl. lia.
  - subst v'. eapply balanced_put; [apply (data_ints _ _ _ _ _ Hdata)|done|apply asl_put_same|].
    unfold waiting in Hl. lia.
Qed.

(** ** Termination *)
Lemma without_length (D l : list Z) :
  NoDup D -> NoDup l -> (length (without D l) + length (filter (fun x => x ∈ l) D) = length l)%nat.
Proof.
  intros HD Hl. assert (filter (fun x => x ∈ l) D ≡ₚ filter (fun x => x ∈ D) l) as ->.
  { apply NoDup_Permutation; [by apply NoDup_filter..|]. intros x. rewrite !list_elem_of_filter. tauto. }
  unfold without. induction l as [|x l IH]; [done|]. apply NoDup_cons in Hl as [_ Hl].
  rewrite !filter_cons. repeat case_decide; try tauto; cbn; rewrite <- (IH Hl); lia.
Qed.

Lemma filter_pointwise (P Q : Z -> Prop) `{!forall x, Decision (P x), !forall x, Decision (Q x)} (l : list Z) :
  (forall x, x ∈ l -> P x <-> Q x) -> filter P l = filter Q l.
Proof.
  induction l as [|x l IH]; intros Hl; [done|]. rewrite !filter_cons, IH by set_solver.
  specialize (Hl x (list_elem_of_here _ _)). repeat case_decide; tauto.
Qed.

(** The killed processes come from the living ones, each once. *)
Lemma killed_live D s v s' v' hands hands' :
  kernel_inv s v hands -> kernel_inv s' v' hands' -> v_free v' = reverse D ++ v_free v ->
  NoDup D /\ forall x, x ∈ D -> x ∈ live v hands.
Proof.
  intros I I' Hf. pose proof (inv_NoDup _ _ _ I') as Hnd. rewrite Hf in Hnd.
  apply NoDup_app in Hnd as (Hnd & _ & _). apply NoDup_app in Hnd as (HD & Hdis & _).
  split; [by rewrite <- (reverse_Permutation D)|]. intros x Hx.
  assert (x ∈ pcb_table) as Ht.
  { apply (inv_in_table _ _ _ _ I'). rewrite Hf, !elem_of_app, elem_of_reverse. auto. }
  rewrite <- (inv_part _ _ _ I) in Ht. apply elem_of_app in Ht as [Ht|]; [|done].
  destruct (Hdis x); [by apply elem_of_reverse|done].
Qed.

Lemma waits_at s v k x :
  nucleus_inv s v -> x ∈ live v (running s) -> k <> NULL -> sem_of s x = k <-> x ∈ waiting v k.
Proof.
  intros N Hx Hk. pose proof (nucleus_kernel _ _ N) as I. unfold sem_of. split.
  - intros E. apply elem_of_live in Hx as [Hx|[Hx|Hx]].
    + rewrite (inv_nosem _ _ _ I x Hx) in E. done.
    + destruct (blocked_waiting v x Hx) as [k' Hk']. destruct (inv_waiting_sem _ _ _ _ _ I Hk') as [E' _].
      rewrite E' in E. cbn in E. by subst.
    + unfold running in Hx. case_match eqn:Ec; [by apply not_elem_of_nil in Hx|].
      apply list_elem_of_singleton in Hx as ->. apply Z.eqb_neq in Ec.
      rewrite (nucleus_current _ _ N Ec) in E. done.
  - intros Hw. by destruct (inv_waiting_sem _ _ _ _ _ I Hw) as [-> _].
Qed.

Lemma terminate_balance s v k :
  nucleus_inv s v -> currentProcess s <> NULL -> sem_key k -> is_device_sem k = false -> balanced s v k ->
  (forall n, ints s !! k = Some n -> n < 2 ^ 31) ->
  stops terminate_current s (fun e s' => exists v', nucleus_inv s' v' /\ balanced s' v' k).
Proof.
  intros N Hc Hk Hd Hb Hmax. eapply stops_mono; [|by eapply terminate_current_ok].
  intros e s' (D & s1 & v1 & v' & HD & HQ & HK & Hdata & _ & Hdisp & N'). exists v'. split; [done|].
  destruct (dispatched_waiting _ _ _ _ Hdisp) as [He Hf]. pose proof (nucleus_kernel _ _ N) as I.
  destruct (killed_live D s v s' v' _ _ I (nucleus_kernel _ _ N')) as [HDnd HDl].
  { rewrite Hf. apply (kill_free _ _ _ HQ). }
  destruct Hb as (n & Hn & Hl). assert (k <> NULL) as HkN by (unfold sem_key in Hk; lia).
  pose proof (kill_ints _ _ _ HK k HkN) as Hi. rewrite Hd, Hn in Hi. cbn in Hi.
  assert (NoDup (waiting v k)) as Hw by (eapply procs_at_NoDup, (inv_asl _ _ _ I)).
  pose proof (without_length D _ HDnd Hw) as Hlen.
  assert (filter (fun x => sem_of s x = k) D = filter (fun x => x ∈ waiting v k) D) as Ef.
  { apply filter_pointwise. intros x Hx. apply waits_at; auto. }
  rewrite Ef in Hi. specialize (Hmax n Hn). pose proof (waiting_length _ _ _ k I).
  rewrite iter_inc in Hi by lia. eexists. split.
  - rewrite (data_ints _ _ _ _ _ Hdata). exact Hi.
  - assert (waiting v' k = without D (waiting v k)) as ->; [|lia].
    unfold waiting at 1. rewrite He. apply (kill_waiting _ _ _ HQ).
Qed.
End balance.
