(* ===== verification/Interrupts.v ===== *)
(** * Interrupts: phase2/interrupts.c

    The three interrupt handlers and [interruptTrapHandler]. *)
From S2P Require Export Syscalls.

Section handlers.
Context {m : Machine}.

(** [device_register_area->devreg[i]], a fault out of the array. *)
Definition get_device {A} (i : Z) (f : device_t -> A) : K A :=
  fun s => match vec_to_list (devreg (bus s)) !! Z.to_nat i with
           | Some d => if i <? 0 then Fault (BadPointer i) else Ret (f d) s
           | None => Fault (BadPointer i)
           end.

Definition upd_device (i : Z) (f : device_t -> device_t) : K unit :=
  fun s => match Fin.of_nat (Z.to_nat i) (DEVINTNUM * DEVPERINT) with
           | inleft ix =>
               if i <? 0 then Fault (BadPointer i)
               else Ret tt (set_bus (set_devreg
                              (vinsert ix (f (devreg (bus s) !!! ix)) (devreg (bus s))) (bus s)) s)
           | inright _ => Fault (BadPointer i)
           end.

(** The device a device bit map names: the lowest bit set, device 7 when none of 0-6 is. *)
Definition device_of_bitmap (device_bit_map : Z) : Z :=
  if negb (Z.land device_bit_map INTERRUPTS_BIT_CONST_DEVICE_0 =? ALLOFF) then DEVICE_0
  else if negb (Z.land device_bit_map INTERRUPTS_BIT_CONST_DEVICE_1 =? ALLOFF) then DEVICE_1
  else if negb (Z.land device_bit_map INTERRUPTS_BIT_CONST_DEVICE_2 =? ALLOFF) then DEVICE_2
  else if negb (Z.land device_bit_map INTERRUPTS_BIT_CONST_DEVICE_3 =? ALLOFF) then DEVICE_3
  else if negb (Z.land device_bit_map INTERRUPTS_BIT_CONST_DEVICE_4 =? ALLOFF) then DEVICE_4
  else if negb (Z.land device_bit_map INTERRUPTS_BIT_CONST_DEVICE_5 =? ALLOFF) then DEVICE_5
  else if negb (Z.land device_bit_map INTERRUPTS_BIT_CONST_DEVICE_6 =? ALLOFF) then DEVICE_6
  else DEVICE_7.

Definition findInterruptDevice (interrupt_line_number : Z) : K Z :=
  fun s => match vec_to_list (interrupt_dev (bus s)) !! Z.to_nat (interrupt_line_number - BASE_LINE) with
           | Some device_bit_map =>
               if interrupt_line_number <? BASE_LINE then Fault (BadPointer interrupt_line_number)
               else Ret (device_of_bitmap device_bit_map) s
           | None => Fault (BadPointer interrupt_line_number)
           end.

Definition PLTInterruptHandler : K unit :=
  do c <- gets currentProcess;
  do! (if negb (c =? NULL) then
         do! setTIMER PLT_TIME_SLICE;
         do! addPigeonCurrentProcessHelper;
         do! charge_current;
         do c <- gets currentProcess;
         do! insertProcQ TP_readyQueue c;
         do! modify (set_currentProcess NULL);
         scheduler
       else ret tt);
  PANIC.

(** The line of the highest-priority device interrupt pending in a cause register. *)
Definition interrupt_line (s_cause : Z) : Z :=
  if negb (Z.land s_cause 0x00000800 =? ALLOFF) then LINE3
  else if negb (Z.land s_cause 0x00001000 =? ALLOFF) then LINE4
  else if negb (Z.land s_cause 0x00002000 =? ALLOFF) then LINE5
  else if negb (Z.land s_cause 0x00004000 =? ALLOFF) then LINE6
  else LINE7.

Definition device_index (line device_num : Z) : Z :=
  (line - BASE_LINE) * Z.of_nat DEVPERINT + device_num.

(** Steps 2 to 4: read the status, acknowledge the (sub)device, V its semaphore; the result is the
    status code and the process unblocked (or NULL). *)
Definition acknowledge_device (line dev_index : Z) : K (Z * Z) :=
  do tx <- (if line =? LINE7 then
              do st <- get_device dev_index t_transm_status;
              ret (negb (Z.land st A8_BITS_ON =? READY))
            else ret false);
  if tx : bool then
    do status_code <- get_device dev_index t_transm_status;
    do! upd_device dev_index (set_t_transm_command ACK);
    do p <- removeBlocked (sem_addr (dev_index + Z.of_nat DEVPERINT));
    do! add_int (sem_addr (dev_index + Z.of_nat DEVPERINT)) 1;
    ret (i32 status_code, p)
  else
    do status_code <- get_device dev_index t_recv_status;
    do! upd_device dev_index (set_t_recv_command ACK);
    do p <- removeBlocked (sem_addr dev_index);
    do! add_int (sem_addr dev_index) 1;
    ret (i32 status_code, p).

(** Steps 5 and 6: the unblocked process gets the status in v0 and becomes ready. *)
Definition wake_up (pcb_to_unblock status_code : Z) : K unit :=
  if negb (pcb_to_unblock =? NULL) then
    do! upd_state (SR_pcb pcb_to_unblock) (set_reg s_v0 status_code);
    do! insertProcQ TP_readyQueue pcb_to_unblock;
    do! modify (fun s => set_softBlockedCount (i32 (softBlockedCount s - 1)) s);
    do t <- STCK;
    do! modify (set_curr_TOD t);
    do i <- gets interrupt_TOD;
    do t <- gets curr_TOD;
    updateProcessTimeHelper pcb_to_unblock i t
  else ret tt.

Definition nonTimerInterruptHandler : K unit :=
  do e <- gets savedExceptionState;
  do cause <- get_state (SR_mem e) s_cause;
  let interrupt_line_number := interrupt_line cause in
  do device_num <- findInterruptDevice interrupt_line_number;
  let device_index := device_index interrupt_line_number device_num in
  do r <- acknowledge_device interrupt_line_number device_index;
  do! wake_up (snd r) (fst r);
  do c <- gets currentProcess;
  do! (if negb (c =? NULL) then
         do! addPigeonCurrentProcessHelper;
         do left <- gets current_process_time_left;
         do! setTIMER left;
         do t <- STCK;
         do! modify (set_curr_TOD t);
         do c <- gets currentProcess;
         do start <- gets start_TOD;
         do i <- gets interrupt_TOD;
         do! updateProcessTimeHelper c start i;
         resume_current
       else ret tt);
  scheduler.

(** [while (headBlocked(&semaphoreDevices[CLOCK_INDEX]) != NULL) { ... }] *)
Fixpoint unblock_clock (fuel : nat) : K unit :=
  match fuel with
  | O => crash OutOfFuel
  | S fuel =>
      do h <- headBlocked (sem_addr CLOCK_INDEX);
      if negb (h =? NULL) then
        do p <- removeBlocked (sem_addr CLOCK_INDEX);
        do! insertProcQ TP_readyQueue p;
        do! modify (fun s => set_softBlockedCount (i32 (softBlockedCount s - 1)) s);
        unblock_clock fuel
      else ret tt
  end.

Definition intervalTimerInterruptHandler : K unit :=
  do! LDIT INTERVAL_TIMER;
  do! unblock_clock walk_fuel;
  do! store_int (sem_addr CLOCK_INDEX) 0;
  do c <- gets currentProcess;
  do! (if negb (c =? NULL) then
         do left <- gets current_process_time_left;
         do! setTIMER left;
         do! addPigeonCurrentProcessHelper;
         do c <- gets currentProcess;
         do start <- gets start_TOD;
         do i <- gets interrupt_TOD;
         do! updateProcessTimeHelper c start i;
         resume_current
       else ret tt);
  scheduler.

Definition interruptTrapHandler : K unit :=
  do t <- STCK;
  do! modify (set_interrupt_TOD t);
  do left <- getTIMER;
  do! modify (set_current_process_time_left (i32 left));
  do! modify (set_savedExceptionState BIOSDATAPAGE);
  do cause <- get_state (SR_mem BIOSDATAPAGE) s_cause;
  let interrupt_bit := i32 cause in
  do! (if negb (Z.land interrupt_bit IP_LINE1_TIMER_BIT =? 0) then PLTInterruptHandler else ret tt);
  do! (if negb (Z.land interrupt_bit IP_LINE2_TIMER_BIT =? 0)
       then intervalTimerInterruptHandler else ret tt);
  nonTimerInterruptHandler.

End handlers.
