(* ===== verification/InterruptSpec.v ===== *)
(** * Interrupts: what the interrupt handlers do *)
From S2P Require Export SyscallSpec Interrupts.

(** ** Decoding *)
Lemma interrupt_line_range c : BASE_LINE <= interrupt_line c <= LINE7.
Proof. unfold interrupt_line. repeat case_match; unfold BASE_LINE, LINE3, LINE4, LINE5, LINE6, LINE7; lia. Qed.

Lemma device_of_bitmap_range b : 0 <= device_of_bitmap b <= 7.
Proof.
  unfold device_of_bitmap. repeat case_match;
    unfold DEVICE_0, DEVICE_1, DEVICE_2, DEVICE_3, DEVICE_4, DEVICE_5, DEVICE_6, DEVICE_7; lia.
Qed.

Lemma device_index_range line dev :
  BASE_LINE <= line <= LINE7 -> 0 <= dev <= 7 ->
  0 <= device_index line dev < 40 /\ 0 <= device_index line dev + Z.of_nat DEVPERINT < MAX_DEVICE_COUNT.
Proof.
  unfold device_index, BASE_LINE, LINE7, MAX_DEVICE_COUNT, DEVPERINT. intros. lia.
Qed.

Section devices.
Implicit Types (s : kstate) (i : Z).

Lemma get_device_ok {A} i (f : device_t -> A) s :
  0 <= i < 40 -> exists d, get_device i f s = Ret (f d) s /\ vec_to_list (devreg (bus s)) !! Z.to_nat i = Some d.
Proof.
  intros Hi. destruct (lookup_lt_is_Some_2 (vec_to_list (devreg (bus s))) (Z.to_nat i)) as [d Hd].
  { rewrite length_vec_to_list. unfold DEVINTNUM, DEVPERINT. lia. }
  exists d. split; [|done]. unfold get_device. rewrite Hd. destruct (Z.ltb_spec i 0); [lia|done].
Qed.

Lemma upd_device_ok i f s :
  0 <= i < 40 -> exists b, upd_device i f s = Ret tt (set_bus b s).
Proof.
  intros Hi. unfold upd_device. destruct (Fin.of_nat _ _) as [ix|[k Hk]].
  - destruct (Z.ltb_spec i 0); [lia|eauto].
  - exfalso. unfold DEVINTNUM, DEVPERINT in Hk. lia.
Qed.

Lemma findInterruptDevice_ok line s :
  BASE_LINE <= line <= LINE7 ->
  exists d b, vec_to_list (interrupt_dev (bus s)) !! Z.to_nat (line - BASE_LINE) = Some b /\
    d = device_of_bitmap b /\ findInterruptDevice line s = Ret d s.
Proof.
  intros Hl. destruct (lookup_lt_is_Some_2 (vec_to_list (interrupt_dev (bus s))) (Z.to_nat (line - BASE_LINE))) as [b Hb].
  { rewrite length_vec_to_list. unfold BASE_LINE, LINE7, DEVINTNUM in *. lia. }
  exists (device_of_bitmap b), b. split_and!; [done..|]. unfold findInterruptDevice. rewrite Hb.
  destruct (Z.ltb_spec line BASE_LINE); [lia|done].
Qed.
End devices.

Section handlers.
Context {m : Machine} {mok : MachineOk m}.
Implicit Types (s : kstate) (v : view) (p c k i : Z) (st : state_t).

(** The processor state at the exception. *)
Definition bios_state s : state_t := default zero_state (states s !! BIOSDATAPAGE).

Lemma bios_state_some s v hands : kernel_inv s v hands -> states s !! BIOSDATAPAGE = Some (bios_state s).
Proof. intros I. destruct (inv_bios _ _ _ I) as [x Hx]. unfold bios_state. by rewrite Hx. Qed.

(** [addPigeonCurrentProcessHelper] once the exception state has been located. *)
Definition pigeoned s : kstate :=
  set_pcbs (alter (set_p_s (bios_state s)) (currentProcess s) (pcbs s)) s.

Lemma addPigeon_ok s v :
  nucleus_inv s v -> currentProcess s <> NULL -> savedExceptionState s = BIOSDATAPAGE ->
  addPigeonCurrentProcessHelper s = Ret tt (pigeoned s) /\ nucleus_inv (pigeoned s) v.
Proof.
  intros N Hc Hb. split.
  - unfold addPigeonCurrentProcessHelper. do 2 kstep. rewrite Hb.
    by rewrite (moveStateHelper_ok _ _ _ _ (bios_state_some _ _ _ (nucleus_kernel _ _ N)))
      by (done || (cbn; apply is_Some_fmap; by eapply nucleus_stored)).
  - by apply (nucleus_harmless s); [done|by apply (harmless_pcb (set_p_s (bios_state s)) (currentProcess s) s)|done..].
Qed.

(** ** Device interrupts *)

(** Steps 2 to 6 for the (sub)device whose semaphore has index [j]. *)
Definition serve_device i j (status : device_t -> Z) (ack : device_t -> device_t) : K unit :=
  do z <- get_device i status;
  do! upd_device i ack;
  do p <- removeBlocked (sem_addr j);
  do! add_int (sem_addr j) 1;
  wake_up p (i32 z).

(** What serving the device does: the semaphore is V'd; the first waiter, if any, is readied with
    the status in its v0. *)
Definition served v k (z : Z) s v' s' : Prop :=
  (exists n, ints s !! k = Some n /\ ints s' = <[k := i32 (n + 1)]> (ints s)) /\
  match waiting v k with
  | [] => v' = v /\ softBlockedCount s' = softBlockedCount s /\ kept nothing nothing s s'
  | p :: q => wakes v k p q v' /\ softBlockedCount s' = i32 (softBlockedCount s - 1) /\
              fld p_s (pcbs s') p = Some (set_reg s_v0 z (saved_state s p)) /\
              fld p_supportStruct (pcbs s') p = fld p_supportStruct (pcbs s) p /\
              kept (eq p) nothing s s'
  end.

(** The globals a device interrupt leaves alone. *)
Definition same_globals s s' : Prop :=
  currentProcess s' = currentProcess s /\ processCount s' = processCount s /\
  savedExceptionState s' = savedExceptionState s /\ states s' = states s /\ supports s' = supports s /\
  start_TOD s' = start_TOD s /\ interrupt_TOD s' = interrupt_TOD s /\
  current_process_time_left s' = current_process_time_left s.

Lemma wake_up_none z s : wake_up NULL z s = Ret tt s.
Proof. done. Qed.

Lemma wake_up_ok s v hands p z :
  kernel_inv s v (p :: hands) -> fld p_semAdd (pcbs s) p = Some NULL ->
  exists h', let s' := set_pcbs (alter (add_time (tod s - interrupt_TOD s)) p h') (set_curr_TOD (tod s)
                (tick (set_softBlockedCount (i32 (softBlockedCount s - 1)) (set_readyQueue p s)))) in
    wake_up p z s = Ret tt s' /\ kernel_inv s' (with_ready (v_ready v ++ [p]) v) hands /\
    fld p_s (pcbs s') p = Some (set_reg s_v0 z (saved_state s p)) /\
    fld p_supportStruct (pcbs s') p = fld p_supportStruct (pcbs s) p /\ kept (eq p) nothing s s' /\
    (forall x, x <> p -> fld p_semAdd (pcbs s') x = fld p_semAdd (pcbs s) x).
Proof.
  intros I Hsem. assert (p ∈ live v (p :: hands)) as Hp by (rewrite elem_of_live; set_solver).
  assert (p <> NULL) as HpN by (intros ->; by apply (inv_live_NULL _ _ _ I)).
  destruct (inv_live_stored _ _ _ _ I Hp) as [r Hr].
  set (s1 := set_pcbs (alter (fun x => set_p_s (set_reg s_v0 z (p_s x)) x) p (pcbs s)) s).
  assert (kernel_inv s1 v (p :: hands)) as I1 by (eapply inv_harmless; [exact I|by apply harmless_pcb]).
  assert (fld p_semAdd (pcbs s1) p = Some NULL) as Hsem1 by (cbn; by fld_simp).
  destruct (inv_insertReady s1 v hands p I1 Hsem1) as (h & Hrun & I2 & Hf).
  pose proof (fun A g x E => @frame_fld pcb_t A g erase_links _ _ _ x E Hf) as Hfld.
  set (s2 := set_readyQueue p (set_pcbs h s1)) in *.
  assert (is_Some (h !! p)) as [r2 Hr2].
  { apply (inv_live_stored _ _ _ p I2). rewrite elem_of_live. set_solver. }
  exists h. cbv zeta. split_and!.
  - unfold wake_up, updateProcessTimeHelper. kif. kstep. rewrite (bind_ret _ _ _ _ _ Hrun).
    kstep. unfold STCK. erewrite bind_ret by reflexivity. by ksteps.
  - eapply inv_harmless; [exact I2|]. eapply harmless_trans;
      [|by apply (harmless_pcb (add_time (tod s - interrupt_TOD s)) p (set_curr_TOD (tod s)
         (tick (set_softBlockedCount (i32 (softBlockedCount s - 1)) s2))))].
    by apply harmless_globals.
  - cbn [pcbs set_pcbs]. fld_simp. rewrite Hfld by done. cbn. rewrite (fld_alter _ _ _ _ _ Hr).
    by rewrite (saved_state_lookup _ _ _ Hr).
  - cbn [pcbs set_pcbs]. fld_simp. rewrite Hfld by done. cbn. by fld_simp.
  - split; try done. intros x Hx. cbn [pcbs set_pcbs].
    split_and!; rewrite fld_alter_ne by done; rewrite Hfld by done; cbn; by rewrite fld_alter_ne.
  - intros x Hx. cbn [pcbs set_pcbs]. rewrite fld_alter_ne by done. rewrite Hfld by done. cbn. by rewrite fld_alter_ne.
Qed.

Lemma harmless_bus b s : harmless s (set_bus b s).
Proof. by apply harmless_globals. Qed.

(** The running process waits for nothing. *)
Lemma waiting_not_running s v k p (q : list Z) :
  nucleus_inv s v -> waiting v k = p :: q -> currentProcess s <> NULL -> currentProcess s ∉ p :: q.
Proof.
  intros N Hw Hc. rewrite <- Hw. intros Hin%procs_at_blocked.
  pose proof (inv_disjoint _ _ _ (nucleus_kernel _ _ N)) as (_ & _ & _ & _ & _ & _ & D3).
  apply (D3 _ Hin). rewrite running_some by done. set_solver.
Qed.

(** Moving processes between the queues keeps the nucleus invariant. *)
Lemma nucleus_moved s v s' v' :
  nucleus_inv s v -> kernel_inv s' v' (running s) -> currentProcess s' = currentProcess s ->
  processCount s' = processCount s -> v_free v' = v_free v ->
  (currentProcess s <> NULL -> fld p_semAdd (pcbs s') (currentProcess s) = Some NULL) ->
  nucleus_inv s' v'.
Proof.
  intros N I Ec Ep Ef Hsem. assert (running s' = running s) as Er by (unfold running; by rewrite Ec).
  split; rewrite ?Er, ?Ec, ?Ep; [done|done|]. rewrite (nucleus_count _ _ N).
  pose proof (inv_length _ _ _ I) as L. pose proof (inv_length _ _ _ (nucleus_kernel _ _ N)). rewrite Ef in L. lia.
Qed.

Lemma serve_device_ok s v i j status ack :
  nucleus_inv s v -> 0 <= i < 40 -> 0 <= j < MAX_DEVICE_COUNT ->
  exists d s' v', vec_to_list (devreg (bus s)) !! Z.to_nat i = Some d /\
    serve_device i j status ack s = Ret tt s' /\ nucleus_inv s' v' /\
    served v (sem_addr j) (i32 (status d)) s v' s' /\ same_globals s s'.
Proof.
  intros N Hi Hj. destruct (get_device_ok i status s Hi) as (d & Hget & Hd).
  destruct (upd_device_ok i ack s Hi) as (b & Hupd). exists d.
  destruct (sem_addr_ok j Hj) as [_ Hk]. set (k := sem_addr j) in *.
  destruct (inv_sems _ _ _ (nucleus_kernel _ _ N) j Hj) as [n Hn]. fold k in Hn.
  set (s1 := set_bus b s) in *.
  assert (nucleus_inv s1 v) as N1 by (apply (nucleus_harmless s); [done|apply harmless_bus|done..]).
  pose proof (nucleus_kernel _ _ N1) as I1. change (running s1) with (running s) in I1.
  unfold serve_device. rewrite (bind_ret _ _ _ _ _ Hget), (bind_ret _ _ _ _ _ Hupd). fold k s1.
  unfold served. destruct (waiting v k) as [|p q] eqn:Hw.
  - rewrite (bind_ret _ _ _ _ _ (inv_unblock_none _ _ _ _ I1 Hk Hw)).
    rewrite (bind_ret _ _ _ _ _ (add_int_ok k 1 n s1 Hn)), wake_up_none.
    eexists _, v. split; [done|]. split; [reflexivity|]. split; [by apply nucleus_int|].
    split; [|done]. split; [by exists n|done].
  - destruct (inv_unblock s1 v _ k p q I1 Hw) as (s2 & L' & fs' & Hrun & I2 & Ho & Hput & Hf & Hsem).
    assert (kept (eq p) nothing s s2) as Hk2 
      by (destruct Ho as (h & D & f & ->); eapply kept_frame; [|exact Hf| |]; done).
    rewrite (bind_ret _ _ _ _ _ Hrun). destruct Ho as (h & D & f & ->).
    set (s2 := set_semdFree_h f (set_semds D (set_pcbs h s1))) in *.
    rewrite (bind_ret _ _ _ _ _ (add_int_ok k 1 n s2 Hn)).
    set (s3 := set_ints (<[k := i32 (n + 1)]> (ints s)) s2).
    assert (kernel_inv s3 (with_asl L' fs' v) (p :: running s)) as I3
      by (eapply inv_harmless; [exact I2|apply (harmless_int k _ s2)]).
    destruct (wake_up_ok s3 _ (running s) p (i32 (status d)) I3 Hsem) as (h4 & Hrun4 & I4 & Hps & Hsup & Hk4 & Hoth).
    pose proof (fun A g x E => @frame_fld pcb_t A g erase_blocked _ _ _ x E Hf) as Hfld.
    eexists _, _. split; [done|]. split; [exact Hrun4|]. split; [|split; [|done]].
    + apply (nucleus_moved s v); [done|exact I4|done|done|done|]. intros Hc.
      etransitivity; [apply (Hoth (currentProcess s))|].
      * intros E'. pose proof (inv_disjoint _ _ _ I2) as (_ & _ & _ & Hnd & _).
        apply NoDup_cons in Hnd as [Hnd _]. apply Hnd. rewrite <- E', running_some by done. set_solver.
      * cbn in Hf |- *. rewrite (frame_fld_notin p_semAdd _ _ _ _ _ (waiting_not_running _ _ k _ _ N Hw Hc) Hf).
        by apply (nucleus_current _ _ N).
    + split; [by exists n|]. split_and!; [by exists L', fs'|done| | |].
      * rewrite Hps. do 2 f_equal. unfold saved_state. f_equal. by apply Hfld.
      * etransitivity; [exact Hsup|]. by apply Hfld.
      * transitivity s3; [|exact Hk4]. transitivity s2; [exact Hk2|done].
Qed.

(** The semaphore index and the status word of the event of device register [i]: on a terminal,
    transmission comes first. *)
Definition device_event (line i : Z) (d : device_t) : Z * Z :=
  if (line =? LINE7) && negb (Z.land (t_transm_status d) A8_BITS_ON =? READY)
  then (i + Z.of_nat DEVPERINT, t_transm_status d) else (i, t_recv_status d).

Lemma acknowledge_serve s v line i :
  nucleus_inv s v -> 0 <= i < 40 -> i + Z.of_nat DEVPERINT < MAX_DEVICE_COUNT ->
  exists d s' v', vec_to_list (devreg (bus s)) !! Z.to_nat i = Some d /\
    (do r <- acknowledge_device line i; wake_up (snd r) (fst r)) s = Ret tt s' /\ nucleus_inv s' v' /\
    served v (sem_addr (fst (device_event line i d))) (i32 (snd (device_event line i d))) s v' s' /\
    same_globals s s'.
Proof.
  intros N Hi Hj. destruct (get_device_ok i t_transm_status s Hi) as (d & Hget & Hd).
  set (tx := (line =? LINE7) && negb (Z.land (t_transm_status d) A8_BITS_ON =? READY)).
  assert ((do r <- acknowledge_device line i; wake_up (snd r) (fst r)) s =
    (if tx then serve_device i (i + Z.of_nat DEVPERINT) t_transm_status (set_t_transm_command ACK)
     else serve_device i i t_recv_status (set_t_recv_command ACK)) s) as ->.
  { unfold acknowledge_device. rewrite bind_assoc. unfold tx.
    destruct (line =? LINE7); cbn [andb].
    - rewrite bind_assoc, (bind_ret _ _ _ _ _ Hget), bind_pure. unfold serve_device.
      destruct (negb _); repeat (rewrite bind_assoc; apply bind_ext; intros ? ?); done.
    - rewrite bind_pure. unfold serve_device.
      repeat (rewrite bind_assoc; apply bind_ext; intros ? ?); done. }
  assert (0 <= i + Z.of_nat DEVPERINT) by lia. assert (i < MAX_DEVICE_COUNT) by lia.
  unfold device_event. destruct tx eqn:Etx.
  - destruct (serve_device_ok s v i (i + Z.of_nat DEVPERINT) t_transm_status (set_t_transm_command ACK) N Hi)
      as (d' & s' & v' & Hd' & H'); [lia|]. rewrite Hd in Hd'. injection Hd' as <-.
    exists d, s', v'. fold tx. rewrite Etx. split; [done|exact H'].
  - destruct (serve_device_ok s v i i t_recv_status (set_t_recv_command ACK) N Hi)
      as (d' & s' & v' & Hd' & H'); [lia|]. rewrite Hd in Hd'. injection Hd' as <-.
    exists d, s', v'. fold tx. rewrite Etx. split; [done|exact H'].
Qed.

(** The interrupted process goes on with the state and the time slice it had. *)
Definition back_to_process s v' e s' : Prop :=
  e = Ldst (bios_state s) /\ currentProcess s' = currentProcess s /\ nucleus_inv s' v' /\
  cp0_timer s' = u32 (current_process_time_left s).

(** The end of the device and clock handlers: the time up to the interrupt is charged. *)
Lemma interrupted_resume s v st :
  nucleus_inv s v -> currentProcess s <> NULL -> fld p_s (pcbs s) (currentProcess s) = Some st ->
  stops (do c <- gets currentProcess; do start <- gets start_TOD; do i <- gets interrupt_TOD;
     do! updateProcessTimeHelper c start i; resume_current) s (fun e s' => e = Ldst st /\
    nucleus_inv s' v /\ currentProcess s' = currentProcess s /\ cp0_timer s' = cp0_timer s /\ steady nothing s s').
Proof.
  intros N Hc Hst. unfold stops, wp. ksteps. unfold updateProcessTimeHelper.
  erewrite bind_ret by (apply upd_pcb_ok; by eapply fld_is_Some).
  erewrite resume_current_ok by (cbn; by fld_simp).
  split_and!; [done| |done|done|].
  - apply (nucleus_harmless s); [done| |done..].
    eapply harmless_trans; [|apply harmless_switched].
    by apply (harmless_pcb (add_time (interrupt_TOD s - start_TOD s)) (currentProcess s) s).
  - split; [|done..]. split; try done. intros x Hx. cbn. by rewrite !fld_alter_ne.
Qed.

Lemma pigeoned_state s v : nucleus_inv s v -> currentProcess s <> NULL ->
  fld p_s (pcbs (pigeoned s)) (currentProcess s) = Some (bios_state s).
Proof. intros N Hc. destruct (nucleus_stored _ _ N Hc) as [r Hr]. cbn. by apply fld_alter_eq. Qed.

Lemma nucleus_globals s s' v :
  nucleus_inv s v -> globals_only s s' -> currentProcess s' = currentProcess s ->
  processCount s' = processCount s -> nucleus_inv s' v.
Proof. intros N H. apply nucleus_harmless; [done|by apply harmless_globals]. Qed.

Lemma device_resume s v :
  nucleus_inv s v -> currentProcess s <> NULL -> savedExceptionState s = BIOSDATAPAGE ->
  stops (do! addPigeonCurrentProcessHelper;
         do left <- gets current_process_time_left;
         do! setTIMER left;
         do t <- STCK;
         do! modify (set_curr_TOD t);
         do c <- gets currentProcess;
         do start <- gets start_TOD;
         do i <- gets interrupt_TOD;
         do! updateProcessTimeHelper c start i;
         resume_current) s (fun e s' => back_to_process s v e s' /\ steady nothing s s').
Proof.
  intros N Hc Hb. unfold stops, wp. destruct (addPigeon_ok s v N Hc Hb) as [Hr N1].
  rewrite (bind_ret _ _ _ _ _ Hr), bind_gets. unfold setTIMER. rewrite bind_modify.
  set (s1 := set_cp0_timer _ (pigeoned s)).
  unfold STCK. erewrite bind_ret by reflexivity. rewrite bind_modify.
  set (s2 := set_curr_TOD _ _).
  assert (nucleus_inv s2 v) as N2 by (by apply (nucleus_globals (pigeoned s))).
  destruct (wp_elim_stops _ _ _ (interrupted_resume s2 v (bios_state s) N2 Hc (pigeoned_state s v N Hc)))
    as (e & s' & -> & -> & N' & Hc' & Ht & H).
  split; [by split_and!|]. apply (steady_from _ s s2); [|done..].
  transitivity (pigeoned s); [by apply kept_pcb|done].
Qed.

(** The outcome of a device interrupt: the event is served, and the interrupted process, or the
    scheduler, goes on. *)
Definition device_interrupt s v (e : exit_event) s' : Prop := exists b d s1 v1,
  let line := interrupt_line (s_cause (bios_state s)) in
  let i := device_index line (device_of_bitmap b) in
  vec_to_list (interrupt_dev (bus s)) !! Z.to_nat (line - BASE_LINE) = Some b /\
  vec_to_list (devreg (bus s)) !! Z.to_nat i = Some d /\
  served v (sem_addr (fst (device_event line i d))) (i32 (snd (device_event line i d))) s v1 s1 /\
  currentProcess s1 = currentProcess s /\
  if currentProcess s =? NULL
  then exists v', nucleus_inv s' v' /\ dispatched v1 e v' s' /\ same_data s1 s'
  else back_to_process s v1 e s' /\ steady nothing s1 s'.

Lemma nonTimerInterruptHandler_ok s v :
  nucleus_inv s v -> savedExceptionState s = BIOSDATAPAGE ->
  stops nonTimerInterruptHandler s (device_interrupt s v).
Proof.
  intros N Hb. pose proof (bios_state_some _ _ _ (nucleus_kernel _ _ N)) as Hbios.
  set (line := interrupt_line (s_cause (bios_state s))).
  pose proof (interrupt_line_range (s_cause (bios_state s))) as Hl. fold line in Hl.
  destruct (findInterruptDevice_ok line s Hl) as (dn & b & Hlk & -> & Hfind).
  destruct (device_index_range line _ Hl (device_of_bitmap_range b)) as [Hi Hj].
  set (i := device_index line (device_of_bitmap b)) in *.
  destruct (acknowledge_serve s v line i N Hi ltac:(lia)) as (d & s1 & v1 & Hd & Hr1 & N1 & Hserved & Hg).
  destruct Hg as (Ec & _ & Eb & Est & _ & Esd & Eit & El).
  unfold stops, wp, nonTimerInterruptHandler. rewrite bind_gets, Hb.
  assert (get_state (SR_mem BIOSDATAPAGE) s_cause s = Ret (s_cause (bios_state s)) s) as Hcause
    by (apply get_state_ok; cbn; by rewrite Hbios).
  rewrite (bind_ret _ _ _ _ _ Hcause). fold line. rewrite (bind_ret _ _ _ _ _ Hfind). fold i.
  rewrite <- bind_assoc, (bind_ret _ _ _ _ _ Hr1), bind_gets, Ec.
  destruct (Z.eqb_spec (currentProcess s) NULL) as [Hc|Hc]; cbn [negb].
  - rewrite bind_pure. rewrite <- Ec in Hc.
    destruct (wp_elim_stops _ _ _ (scheduler_ok s1 v1 N1 Hc)) as (e & s' & -> & v' & ? & ? & ?).
    exists b, d, s1, v1. rewrite <- Ec, (proj2 (Z.eqb_eq _ _) Hc). split_and!; try done. by exists v'.
  - destruct (wp_elim_stops _ _ _ (device_resume s1 v1 N1 ltac:(by rewrite Ec) ltac:(by rewrite Eb)))
      as (e & s' & Hr2 & Hback & Hst).
    rewrite (bind_stop _ _ _ _ _ Hr2). exists b, d, s1, v1. cbv zeta. rewrite (proj2 (Z.eqb_neq _ _) Hc).
    split_and!; try done.
    unfold back_to_process, bios_state in *. by rewrite <- Est, <- Ec, <- El.
Qed.

(** ** The interval timer *)

(** All the processes waiting on [k] are ready, in their order. *)
Definition all_woken v k v' : Prop :=
  v_ready v' = v_ready v ++ waiting v k /\ waiting v' k = [] /\ v_free v' = v_free v /\
  v_kids v' = v_kids v /\ forall k', k' <> k -> waiting v' k' = waiting v k'.

Lemma wakes_all_woken v k p (q : list Z) v1 v' :
  waiting v k = p :: q -> wakes v k p q v1 -> all_woken v1 k v' -> all_woken v k v'.
Proof.
  intros Hw (L' & fs' & -> & Hput) (Hr & Hn & Hf & Hk & Ho).
  destruct Hput as [Hp Hoth]. unfold all_woken, waiting in *. cbn in *. split_and!; [|done..|].
  - by rewrite Hr, Hp, Hw, <- (assoc_L (++)).
  - intros k' Hk'. by rewrite Ho, Hoth.
Qed.

Lemma unblock_clock_ok n s v :
  nucleus_inv s v -> (length (waiting v (sem_addr CLOCK_INDEX)) < n)%nat ->
  exists s' v', unblock_clock n s = Ret tt s' /\ nucleus_inv s' v' /\
    all_woken v (sem_addr CLOCK_INDEX) v' /\ same_globals s s' /\
    data_step no_time (ints s) (Nat.iter (length (waiting v (sem_addr CLOCK_INDEX))) (fun n => i32 (n - 1))
      (softBlockedCount s)) s s'.
Proof.
  set (k := sem_addr CLOCK_INDEX). destruct (sem_addr_ok CLOCK_INDEX ltac:(done)) as [_ Hk]. fold k in Hk.
  revert s v. induction n as [|n IH]; intros s v N Hn; [lia|]. cbn [unblock_clock]. fold k.
  pose proof (nucleus_kernel _ _ N) as I.
  rewrite (bind_ret _ _ _ _ _ (headBlocked_ok _ _ _ k (inv_asl _ _ _ I) Hk)).
  change (procs_at (v_entries v) k) with (waiting v k).
  destruct (waiting v k) as [|p q] eqn:Hw.
  - change (negb (NULL =? NULL)) with false. exists s, v. split_and!; [done|done| |done|].
    + split_and!; [by rewrite Hw, app_nil_r|done..].
    + apply same_data_refl.
  - destruct (unblock_ready_spec s v _ k p q I Hw)
      as (s1 & s2 & v1 & Hr1 & Hr2 & HpN & Hwk & I2 & Hd & Ho & Hsem & Hlen).
    change (default NULL (head (p :: q))) with p. kif.
    rewrite (bind_ret _ _ _ _ _ Hr1), (bind_ret _ _ _ _ _ Hr2), bind_modify.
    set (s3 := set_softBlockedCount _ s2).
    assert (nucleus_inv s3 v1) as N3.
    { apply nucleus_soft, (nucleus_moved s v); try done; destruct Ho as (h & D & f & t & ->); try done.
      - by destruct Hwk as (L' & fs' & -> & _).
      - intros Hc. rewrite Hsem; [by apply (nucleus_current _ _ N)|]. rewrite running_some by done. set_solver. }
    assert (waiting v1 k = q) as Hw1.
    { destruct Hwk as (L' & fs' & -> & Hput). apply Hput. }
    destruct (IH s3 v1 N3) as (s' & v' & Hr3 & N' & Hall & Hg & Hd').
    { rewrite Hw1. cbn in Hn. lia. }
    exists s', v'. split_and!; [done|done|by eapply wakes_all_woken| |].
    + destruct Ho as (h & D & f & t & ->). exact Hg.
    + cbn [length]. rewrite Nat.iter_succ_r, <- Hw1. rewrite <- (data_soft _ _ _ _ _ Hd).
      rewrite <- (data_ints _ _ _ _ _ Hd). eapply data_step_then; [exact Hd|].
      destruct Hd'. by split.
Qed.

Lemma clock_resume s v :
  nucleus_inv s v -> currentProcess s <> NULL -> savedExceptionState s = BIOSDATAPAGE ->
  stops (do left <- gets current_process_time_left;
         do! setTIMER left;
         do! addPigeonCurrentProcessHelper;
         do c <- gets currentProcess;
         do start <- gets start_TOD;
         do i <- gets interrupt_TOD;
         do! updateProcessTimeHelper c start i;
         resume_current) s (fun e s' => back_to_process s v e s' /\ steady nothing s s').
Proof.
  intros N Hc Hb. unfold stops, wp. rewrite bind_gets. unfold setTIMER. rewrite bind_modify. set (s1 := set_cp0_timer _ s).
  assert (nucleus_inv s1 v) as N1 by (by apply (nucleus_globals s)).
  destruct (addPigeon_ok s1 v N1 Hc Hb) as [Hr N2]. rewrite (bind_ret _ _ _ _ _ Hr).
  destruct (wp_elim_stops _ _ _ (interrupted_resume (pigeoned s1) v (bios_state s) N2 Hc (pigeoned_state s1 v N1 Hc)))
    as (e & s' & -> & -> & N' & Hc' & Ht & H).
  split; [by split_and!|]. apply (steady_from _ s (pigeoned s1)); [|done..].
  transitivity s1; [done|by apply kept_pcb].
Qed.

(** The outcome of an interval timer interrupt: the processes waiting for the clock are ready. *)
Definition clock_interrupt s v (e : exit_event) s' : Prop :=
  let k := sem_addr CLOCK_INDEX in
  exists v1, all_woken v k v1 /\ ints s' = <[k := 0]> (ints s) /\
    softBlockedCount s' = Nat.iter (length (waiting v k)) (fun n => i32 (n - 1)) (softBlockedCount s) /\
    kept (eq (currentProcess s)) nothing s s' /\
    if currentProcess s =? NULL
    then exists v', nucleus_inv s' v' /\ dispatched v1 e v' s'
    else back_to_process s v1 e s'.

Lemma intervalTimerInterruptHandler_ok s v :
  nucleus_inv s v -> savedExceptionState s = BIOSDATAPAGE ->
  stops intervalTimerInterruptHandler s (clock_interrupt s v).
Proof.
  intros N Hb. set (k := sem_addr CLOCK_INDEX). unfold stops, wp, intervalTimerInterruptHandler, LDIT. rewrite bind_modify.
  set (s1 := set_bus _ s).
  assert (nucleus_inv s1 v) as N1 by (apply (nucleus_harmless s); [done|apply harmless_bus|done..]).
  destruct (unblock_clock_ok walk_fuel s1 v N1) as (s2 & v2 & Hr2 & N2 & Hall & Hg & Hd).
  { pose proof (inv_length _ _ _ (nucleus_kernel _ _ N)) as L. unfold live in L. rewrite !length_app in L.
    pose proof (sublist_length _ _ (procs_at_sublist (v_entries v) (sem_addr CLOCK_INDEX))) as Hs.
    unfold waiting. rewrite walk_fuel_eq. lia. }
  rewrite (bind_ret _ _ _ _ _ Hr2). fold k.
  assert (ints s2 = ints s) as Ei by apply (data_ints _ _ _ _ _ Hd).
  destruct (inv_sems _ _ _ (nucleus_kernel _ _ N2) CLOCK_INDEX ltac:(done)) as [n Hn]. fold k in Hn.
  rewrite (bind_ret _ _ _ _ _ (store_int_ok k 0 s2 ltac:(eauto))), bind_gets. rewrite Ei.
  set (s3 := set_ints (<[k := 0]> (ints s)) s2).
  assert (nucleus_inv s3 v2) as N3 by (unfold s3; rewrite <- Ei; by apply nucleus_int).
  destruct Hg as (Ec & _ & Eb & Est & _ & _ & _ & El).
  assert (currentProcess s3 = currentProcess s) as Ec3 by exact Ec. rewrite Ec3.
  assert (kept (eq (currentProcess s)) nothing s s3) as Hk3.
  { transitivity s2; [|done]. transitivity s1; [done|by eapply kept_data]. }
  destruct (Z.eqb_spec (currentProcess s) NULL) as [Hc|Hc]; cbn [negb].
  - rewrite bind_pure. rewrite <- Ec3 in Hc.
    destruct (wp_elim_stops _ _ _ (scheduler_ok s3 v2 N3 Hc)) as (e & s' & -> & v' & ? & ? & Hs).
    exists v2. split_and!; [done|by rewrite (data_ints _ _ _ _ _ Hs)|rewrite (data_soft _ _ _ _ _ Hs); apply Hd| |].
    + etrans; [exact Hk3|by apply kept_same].
    + rewrite Ec3 in Hc. rewrite Hc. by exists v'.
  - destruct (wp_elim_stops _ _ _ (clock_resume s3 v2 N3 ltac:(by rewrite Ec3) ltac:(by rewrite <- Hb)))
      as (e & s' & Hr3 & Hback & [Hk Hi Hs]).
    rewrite (bind_stop _ _ _ _ _ Hr3). exists v2. rewrite (proj2 (Z.eqb_neq _ _) Hc).
    split_and!; [done|done|rewrite Hs; apply Hd|etrans; [exact Hk3|by rewrite Ec3 in Hk]|].
    assert (bios_state s3 = bios_state s) as Ebs by (unfold bios_state; change (states s3) with (states s2); by rewrite Est).
    unfold back_to_process in *. rewrite <- Ebs, <- Ec3. destruct Hback as (? & ? & ? & Ht). split_and!; [done..|].
    rewrite Ht. change (current_process_time_left s3) with (current_process_time_left s2). by rewrite El.
Qed.

(** ** The processor local timer *)
Lemma PLTInterruptHandler_idle s : currentProcess s = NULL -> PLTInterruptHandler s = Stop Panic s.
Proof. intros Hc. unfold PLTInterruptHandler. rewrite bind_gets, Hc. done. Qed.

(** The running process goes to the end of the ready queue. *)
Lemma current_to_ready s v :
  nucleus_inv s v -> currentProcess s <> NULL ->
  let c := currentProcess s in
  exists h, insertProcQ TP_readyQueue c s = Ret tt (set_readyQueue c (set_pcbs h s)) /\
    nucleus_inv (set_currentProcess NULL (set_readyQueue c (set_pcbs h s))) (with_ready (v_ready v ++ [c]) v) /\
    same_data s (set_currentProcess NULL (set_readyQueue c (set_pcbs h s))).
Proof.
  intros N Hc c. pose proof (nucleus_kernel _ _ N) as I. rewrite (running_some s Hc) in I. fold c in I.
  destruct (inv_insertReady s v [] c I (nucleus_current _ _ N Hc)) as (h & Hr & I' & Hf).
  exists h. split_and!; [done| |].
  - split; rewrite ?running_none by done; [eapply inv_harmless; [exact I'|by apply harmless_globals]|done|].
    cbn [processCount set_currentProcess set_readyQueue set_pcbs].
    rewrite (nucleus_count _ _ N), (running_some s Hc). fold c.
    pose proof (inv_length _ _ _ I). pose proof (inv_length _ _ _ I') as L. cbn [v_free with_ready] in L. lia.
  - pose proof (fun A g x E => @frame_fld pcb_t A g erase_links _ _ _ x E Hf) as Hfld.
    split; try done. intros x. rewrite no_time_id. split_and!; by apply Hfld.
Qed.

(** The outcome at the end of a time slice. *)
Definition slice_ended s v (e : exit_event) s' : Prop :=
  let c := currentProcess s in
  exists v', nucleus_inv s' v' /\ dispatched (with_ready (v_ready v ++ [c]) v) e v' s' /\
    fld p_s (pcbs s') c = Some (bios_state s) /\
    fld p_time (pcbs s') c = charge_time c (tod s - start_TOD s) c <$> fld p_time (pcbs s) c /\
    steady nothing s s'.

Lemma PLTInterruptHandler_ok s v :
  nucleus_inv s v -> currentProcess s <> NULL -> savedExceptionState s = BIOSDATAPAGE ->
  stops PLTInterruptHandler s (slice_ended s v).
Proof.
  intros N Hc Hb. set (c := currentProcess s) in *.
  unfold stops, wp, slice_ended, PLTInterruptHandler. cbv zeta. rewrite bind_gets. fold c. kif. rewrite !bind_assoc.
  unfold setTIMER. rewrite bind_modify. set (s1 := set_cp0_timer _ s).
  assert (nucleus_inv s1 v) as N1 by (by apply (nucleus_globals s)).
  destruct (addPigeon_ok s1 v N1 Hc Hb) as [Hr2 N2]. rewrite bind_assoc, (bind_ret _ _ _ _ _ Hr2).
  set (s2 := pigeoned s1) in *.
  pose proof (nucleus_stored s2 v N2 Hc) as Hs2.
  rewrite bind_assoc, (bind_ret _ _ _ _ _ (charge_current_ok s2 Hs2)), bind_assoc, bind_gets.
  assert (nucleus_inv (charged s2) v) as N3 by (apply (nucleus_harmless s2); [done|apply harmless_charged|done..]).
  set (s3 := charged s2) in *. change (currentProcess s3) with c.
  destruct (current_to_ready s3 v N3 Hc) as (h & Hr4 & N4 & Hd4).
  change (currentProcess s3) with c in *.
  rewrite bind_assoc, (bind_ret _ _ _ _ _ Hr4), bind_assoc, bind_modify.
  destruct (wp_elim_stops _ _ _ (scheduler_ok _ _ N4 eq_refl)) as (e & s' & Hr5 & v' & N' & Hdis & Hd5).
  rewrite (bind_stop _ _ _ _ _ Hr5). exists v'.
  destruct (data_pcbs _ _ _ _ _ Hd4 c) as (Hs4 & Ht4 & _), (data_pcbs _ _ _ _ _ Hd5 c) as (Hs5 & Ht5 & _).
  rewrite no_time_id in Ht4, Ht5.
  split_and!; [done|done| | |].
  - rewrite Hs5, Hs4. cbn. rewrite fld_alter_other by done. exact (pigeoned_state s1 v N1 Hc).
  - rewrite Ht5, Ht4. cbn. rewrite charge_time_alter. by fld_simp.
  - split; [|by rewrite (data_ints _ _ _ _ _ Hd5)|by rewrite (data_soft _ _ _ _ _ Hd5)].
    transitivity (set_currentProcess NULL (set_readyQueue c (set_pcbs h s3))); [|by apply kept_same].
    transitivity s3; [|exact (kept_same _ _ _ Hd4)]. split; try done. intros x Hx. cbn. by rewrite !fld_alter_ne.
Qed.
End handlers.
