(* ===== verification/Exceptions.v ===== *)
(** * Exceptions: phase2/exceptions.c

    Pass-up-or-die, the trap handlers, [systemTrapHandler], and [exceptionHandler], the entry
    point of the nucleus. *)
From S2P Require Export Interrupts.

Section handlers.
Context {m : Machine}.

(** ** Traps *)
Definition passUpOrDie (exception_code : fin 2) : K unit :=
  do c <- gets currentProcess;
  do u <- get_pcb c p_supportStruct;
  if negb (u =? NULL) then
    do e <- gets savedExceptionState;
    do! moveStateHelper (SR_mem e) (SR_sup u exception_code);
    do! charge_current;
    do c <- gets currentProcess;
    do u <- get_pcb c p_supportStruct;
    do x <- get_support u (fun r => sup_exceptContext r !!! exception_code);
    LDCXT (c_stackPtr x) (c_status x) (c_pc x)
  else
    do! modify (set_sysCallNum SYS2_NUM);
    terminate_current.

(** PGFAULTEXCEPT and GENERALEXCEPT as indexes of the two-element support arrays. *)
Definition except_ix (code : Z) : fin 2 := if code =? GENERALEXCEPT then 1%fin else 0%fin.

Definition sysCallOutRangeHandler : K unit := passUpOrDie (except_ix GENERALEXCEPT).
Definition programTrapHandler : K unit := passUpOrDie (except_ix GENERALEXCEPT).
Definition userModeTrapHandler : K unit := programTrapHandler.
Definition tlbTrapHandler : K unit := passUpOrDie (except_ix PGFAULTEXCEPT).

(** A register of the [p_s] of the current process. *)
Definition current_reg (i : fin STATEREGNUM) : K Z :=
  do c <- gets currentProcess;
  get_pcb c (fun x => s_reg (p_s x) !!! i).

(** The [switch (sysCallNum)] of [systemTrapHandler]. *)
Definition dispatch_syscall (n : Z) : K unit :=
  if n =? SYS1_NUM then
    do a1 <- current_reg s_a1;
    do a2 <- current_reg s_a2;
    createProcess (ptr_of_int a1) (ptr_of_int a2)
  else if n =? SYS2_NUM then terminate_current
  else if n =? SYS3_NUM then do a1 <- current_reg s_a1; passeren (ptr_of_int a1)
  else if n =? SYS4_NUM then do a1 <- current_reg s_a1; verhogen (ptr_of_int a1)
  else if n =? SYS5_NUM then
    do a1 <- current_reg s_a1;
    do a2 <- current_reg s_a2;
    do a3 <- current_reg s_a3;
    waitForIO a1 a2 a3
  else if n =? SYS6_NUM then getCPUTime
  else if n =? SYS7_NUM then waitForClock
  else if n =? SYS8_NUM then getSupportData
  else ret tt.

Definition systemTrapHandler : K unit :=
  do! modify (set_savedExceptionState BIOSDATAPAGE);
  let saved := SR_mem BIOSDATAPAGE in
  do n <- get_state saved (fun st => s_reg st !!! s_a0);
  do! modify (set_sysCallNum n);
  do! upd_state saved (fun st => set_s_pc (u32 (s_pc st + WORDLEN)) st);
  do status <- get_state saved s_status;
  do! (if negb (Z.land status USERPON =? ALLOFF) then
         do! upd_state saved (fun st =>
               set_s_cause
                 (u32 (Z.land (s_cause st) (Z.lnot (Z.shiftl CAUSE_INT_MASK EXC_CODE_SHIFT)))) st);
         do! upd_state saved (fun st =>
               set_s_cause
                 (u32 (Z.lor (s_cause st) (Z.shiftl EXC_RESERVED_INSTRUCTION EXC_CODE_SHIFT))) st);
         userModeTrapHandler
       else ret tt);
  do n <- gets sysCallNum;
  do! (if (n <? SYS1_NUM) || (SYS8_NUM <? n) then sysCallOutRangeHandler else ret tt);
  do! addPigeonCurrentProcessHelper;
  do n <- gets sysCallNum;
  dispatch_syscall n.

(** ** The entry point

    The cases of the [switch] have no [break]: each one falls through to the handlers below. *)
Definition exec_code (cause : Z) : Z := Z.shiftr (Z.land cause EXC_CODE_MASK) EXC_CODE_SHIFT.

(** The [switch (execCode)]. *)
Definition exception_switch (execCode : Z) : K unit :=
  let from_program := programTrapHandler in
  let from_system := do! systemTrapHandler; from_program in
  let from_tlb := do! tlbTrapHandler; from_system in
  let from_interrupt := do! interruptTrapHandler; from_tlb in
  if execCode =? 0 then from_interrupt
  else if (1 <=? execCode) && (execCode <=? 3) then from_tlb
  else if execCode =? 8 then from_system
  else if ((4 <=? execCode) && (execCode <=? 7)) || ((9 <=? execCode) && (execCode <=? 12))
  then from_program
  else ret tt.

Definition exceptionHandler : K unit :=
  do cause <- get_state (SR_mem BIOSDATAPAGE) s_cause;
  exception_switch (exec_code cause).

End handlers.
