(* ===== verification/Exits.v ===== *)
(** * How the nucleus gives up the processor

    [exit_ok e s]: the event [e] is the right one to leave the nucleus with in the state [s].  The
    property needs no invariant: it follows the text of the handlers, so the lemmas are one per
    operation, collected in the hint database [exits]. *)
From S2P Require Export Exceptions.

(** The loaded state is the one stored for the current process, the loaded context the one its
    support structure names; the machine halts, or waits, when nothing is ready and no process is
    left, or some process waits for a device. *)
Definition exit_ok (e : exit_event) (s : kstate) : Prop :=
  match e with
  | Ldst st => p_s <$> pcbs s !! currentProcess s = Some st
  | Ldcxt sp status pc => exists r u (ix : fin 2), pcbs s !! currentProcess s = Some r /\
      supports s !! p_supportStruct r = Some u /\
      sup_exceptContext u !!! ix = MkContext sp status pc
  | Halt => readyQueue s = NULL /\ processCount s = 0
  | Wait => readyQueue s = NULL /\ processCount s <> 0 /\ 0 < softBlockedCount s /\
            cp0_timer s = u32 INF_TIME /\ cp0_status s = Z.lor (Z.lor ALLOFF IMON) IECON
  | Panic => True
  end.

Definition exits {A} (c : K A) : Prop := forall s e s', c s = Stop e s' -> exit_ok e s'.

Create HintDb exits discriminated.
#[export] Hint Constants Opaque : exits.

(** * Lemmas *)
Lemma exits_bind {A B} (c : K A) (k : A -> K B) : exits c -> (forall a, exits (k a)) -> exits (bind c k).
Proof. intros Hc Hk s e s'. unfold bind. destruct (c s) eqn:E; naive_solver. Qed.

Lemma exits_never {A} (c : K A) : (forall s e s', c s <> Stop e s') -> exits c.
Proof. intros H s e s' E. by destruct (H s e s'). Qed.

Lemma exits_for_each {I} (l : list I) (body : I -> K unit) :
  (forall i, exits (body i)) -> exits (for_each l body).
Proof.
  intros H. induction l as [|i l IH]; [intros s e s' [=]|].
  rewrite for_each_cons. by apply exits_bind.
Qed.

(** Accesses to memory return or fault. *)
Ltac solve_never := apply exits_never; intros; discriminate.

Section accesses.
Context {A : Type}.
Lemma exits_ret (a : A) : exits (ret a). Proof. solve_never. Qed.
Lemma exits_crash f : exits (crash f : K A). Proof. solve_never. Qed.
Lemma exits_gets (f : kstate -> A) : exits (gets f). Proof. solve_never. Qed.
Lemma exits_modify f : exits (modify f). Proof. solve_never. Qed.
Lemma exits_get_pcb p (f : pcb_t -> A) : exits (get_pcb p f).
Proof. apply exits_never. intros. unfold get_pcb. by case_match. Qed.
Lemma exits_upd_pcb p f : exits (upd_pcb p f).
Proof. apply exits_never. intros. unfold upd_pcb. by case_match. Qed.
Lemma exits_get_semd p (f : semd_t -> A) : exits (get_semd p f).
Proof. apply exits_never. intros. unfold get_semd. by case_match. Qed.
Lemma exits_upd_semd p f : exits (upd_semd p f).
Proof. apply exits_never. intros. unfold upd_semd. by case_match. Qed.
Lemma exits_load_int a : exits (load_int a).
Proof. apply exits_never. intros. unfold load_int. by case_match. Qed.
Lemma exits_store_int a v : exits (store_int a v).
Proof. apply exits_never. intros. unfold store_int. by case_match. Qed.
Lemma exits_load_tp tp : exits (load_tp tp).
Proof. apply exits_never. intros. unfold load_tp. by case_match. Qed.
Lemma exits_store_tp tp v : exits (store_tp tp v).
Proof. apply exits_never. intros. unfold store_tp. by case_match. Qed.
Lemma exits_get_state r (f : state_t -> A) : exits (get_state r f).
Proof. apply exits_never. intros. unfold get_state. by case_match. Qed.
Lemma exits_upd_state r f : exits (upd_state r f).
Proof. apply exits_never. intros. unfold upd_state. by case_match. Qed.
Lemma exits_get_device i (f : device_t -> A) : exits (get_device i f).
Proof. apply exits_never. intros. unfold get_device. by repeat case_match. Qed.
Lemma exits_upd_device i f : exits (upd_device i f).
Proof. apply exits_never. intros. unfold upd_device. by repeat case_match. Qed.
Lemma exits_findInterruptDevice l : exits (findInterruptDevice l).
Proof. apply exits_never. intros. unfold findInterruptDevice. by repeat case_match. Qed.
Lemma exits_PANIC : exits (PANIC : K A).
Proof. by intros s e s' [= <- <-]. Qed.
End accesses.

#[export] Hint Resolve exits_ret exits_crash exits_gets exits_modify exits_get_pcb exits_upd_pcb
  exits_get_semd exits_upd_semd exits_load_int exits_store_int exits_load_tp exits_store_tp
  exits_get_state exits_upd_state exits_get_device exits_upd_device exits_findInterruptDevice
  exits_PANIC : exits.

(** Follow the text: sequences, branches, loops over lists, and the known operations. *)
Ltac solve_exits :=
  repeat first
    [ solve [auto 1 with exits nocore]
    | apply exits_bind; [|intros]
    | apply exits_for_each; intros
    | match goal with |- exits (if ?b then _ else _) => destruct b end ].

Tactic Notation "unfold_exits" reference(f) := intros; unfold f; solve_exits.

Section lists.
Context {m : Machine}.
Lemma exits_STCK : exits STCK. Proof. solve_never. Qed.
Lemma exits_LDIT t : exits (LDIT t). Proof. apply exits_modify. Qed.
Lemma exits_getTIMER : exits getTIMER. Proof. solve_never. Qed.
Lemma exits_setTIMER t : exits (setTIMER t). Proof. apply exits_modify. Qed.
#[local] Hint Resolve exits_STCK exits_LDIT exits_getTIMER exits_setTIMER : exits.

Lemma exits_freePcb p : exits (freePcb p). Proof. unfold_exits freePcb. Qed.
Lemma exits_allocPcb : exits allocPcb. Proof. unfold_exits allocPcb. Qed.
Lemma exits_insertProcQ tp p : exits (insertProcQ tp p). Proof. unfold_exits insertProcQ. Qed.
Lemma exits_removeProcQ tp : exits (removeProcQ tp). Proof. unfold_exits removeProcQ. Qed.
Lemma exits_outProcQ_found tp c p : exits (outProcQ_found tp c p). Proof. unfold_exits outProcQ_found. Qed.
#[local] Hint Resolve exits_freePcb exits_allocPcb exits_insertProcQ exits_removeProcQ
  exits_outProcQ_found : exits.
Lemma exits_outProcQ_loop n tp t p c : exits (outProcQ_loop n tp t p c).
Proof. revert c. induction n; intros c; cbn [outProcQ_loop]; solve_exits. Qed.
#[local] Hint Resolve exits_outProcQ_loop : exits.
Lemma exits_outProcQ tp p : exits (outProcQ tp p). Proof. unfold_exits outProcQ. Qed.
Lemma exits_headProcQ t : exits (headProcQ t). Proof. unfold_exits headProcQ. Qed.
Lemma exits_emptyChild p : exits (emptyChild p). Proof. unfold_exits emptyChild. Qed.
Lemma exits_insertChild q p : exits (insertChild q p). Proof. unfold_exits insertChild. Qed.
Lemma exits_removeChild q : exits (removeChild q). Proof. unfold_exits removeChild. Qed.
Lemma exits_outChild_loop n p c : exits (outChild_loop n p c).
Proof. revert c. induction n; intros c; cbn [outChild_loop]; solve_exits. Qed.
#[local] Hint Resolve exits_outProcQ exits_headProcQ exits_emptyChild exits_insertChild
  exits_removeChild exits_outChild_loop : exits.
Lemma exits_outChild p : exits (outChild p). Proof. unfold_exits outChild. Qed.

Lemma exits_freeSemd a : exits (freeSemd a). Proof. unfold_exits freeSemd. Qed.
Lemma exits_allocSemd : exits allocSemd. Proof. unfold_exits allocSemd. Qed.
Lemma exits_getSemd_loop n k c p : exits (getSemd_loop n k c p).
Proof. revert c p. induction n; intros c p; cbn [getSemd_loop]; solve_exits. Qed.
#[local] Hint Resolve exits_outChild exits_freeSemd exits_allocSemd exits_getSemd_loop : exits.
Lemma exits_getSemd k : exits (getSemd k). Proof. unfold_exits getSemd. Qed.
Lemma exits_not_found c k : exits (not_found c k). Proof. unfold_exits not_found. Qed.
Lemma exits_enqueue k p c : exits (insertBlocked_enqueue k p c). Proof. unfold_exits insertBlocked_enqueue. Qed.
Lemma exits_release c p : exits (release_if_empty c p). Proof. unfold_exits release_if_empty. Qed.
#[local] Hint Resolve exits_getSemd exits_not_found exits_enqueue exits_release : exits.
Lemma exits_insertBlocked k p : exits (insertBlocked k p). Proof. unfold insertBlocked. cbv zeta. solve_exits. Qed.
Lemma exits_removeBlocked k : exits (removeBlocked k). Proof. unfold removeBlocked. cbv zeta. solve_exits. Qed.
Lemma exits_outBlocked p : exits (outBlocked p). Proof. unfold outBlocked. cbv zeta. solve_exits. Qed.
Lemma exits_headBlocked k : exits (headBlocked k). Proof. unfold headBlocked. cbv zeta. solve_exits. Qed.
#[local] Hint Resolve exits_insertBlocked exits_removeBlocked exits_outBlocked exits_headBlocked : exits.

(** ** The ways out *)
Lemma exits_moveStateHelper a b : exits (moveStateHelper a b).
Proof. unfold moveStateHelper. solve_exits. Qed.

Lemma exits_switchContext p : exits (switchContext p).
Proof.
  intros s e s'. unfold switchContext. rewrite bind_modify. unfold STCK, bind, modify, get_pcb. cbn [pcbs set_start_TOD
    set_tod_reads set_bus set_currentProcess].
  destruct (pcbs s !! p) as [r|] eqn:E; [|discriminate].
  intros [= <- <-]. cbn. by rewrite E.
Qed.
#[local] Hint Resolve exits_moveStateHelper exits_switchContext : exits.

Lemma exits_idle s e s' :
  readyQueue s = NULL ->
  (do pc <- gets processCount;
    if pc =? 0 then HALT
    else
      do sb <- gets softBlockedCount;
      if 0 <? sb then
        do! setSTATUS (Z.lor (Z.lor ALLOFF IMON) IECON);
        do! setTIMER INF_TIME;
        WAIT
      else PANIC : K unit) s = Stop e s' -> exit_ok e s'.
Proof.
  intros Hq. rewrite bind_gets. destruct (Z.eqb_spec (processCount s) 0); [by intros [= <- <-]|].
  rewrite bind_gets. destruct (Z.ltb_spec 0 (softBlockedCount s)); [|by intros [= <- <-]].
  intros [= <- <-]. done.
Qed.

Lemma exits_dispatch_next : exits (do next_process <- removeProcQ TP_readyQueue;
    do! modify (set_currentProcess next_process); do! setTIMER PLT_TIME_SLICE;
    do c <- gets currentProcess; switchContext c).
Proof. solve_exits. Qed.

Lemma exits_scheduler : exits scheduler.
Proof.
  intros s e s'. unfold scheduler. rewrite bind_gets. unfold emptyProcQ.
  destruct (Z.eqb_spec (readyQueue s) NULL); [by apply exits_idle|]. apply exits_dispatch_next.
Qed.
#[local] Hint Resolve exits_scheduler : exits.

Lemma exits_updateProcessTimeHelper p a b : exits (updateProcessTimeHelper p a b).
Proof. unfold_exits updateProcessTimeHelper. Qed.
#[local] Hint Resolve exits_updateProcessTimeHelper : exits.
Lemma exits_charge_current : exits charge_current. Proof. unfold_exits charge_current. Qed.
Lemma exits_resume_current : exits resume_current. Proof. unfold_exits resume_current. Qed.
Lemma exits_add_int a d : exits (add_int a d). Proof. unfold_exits add_int. Qed.
Lemma exits_addPigeon : exits addPigeonCurrentProcessHelper. Proof. unfold_exits addPigeonCurrentProcessHelper. Qed.
#[local] Hint Resolve exits_charge_current exits_resume_current exits_add_int exits_addPigeon : exits.
Lemma exits_blockCurrent k : exits (blockCurrentProcessHelper k). Proof. unfold_exits blockCurrentProcessHelper. Qed.
Lemma exits_debug a b c d : exits (debugExceptionHandler a b c d). Proof. apply exits_ret. Qed.
#[local] Hint Resolve exits_blockCurrent exits_debug : exits.

(** ** System calls *)
Lemma exits_createProcess a u : exits (createProcess a u). Proof. unfold_exits createProcess. Qed.
Lemma exits_passeren k : exits (passeren k). Proof. unfold_exits passeren. Qed.
Lemma exits_verhogen k : exits (verhogen k). Proof. unfold_exits verhogen. Qed.
Lemma exits_waitForIO l d r : exits (waitForIO l d r). Proof. unfold waitForIO. cbv zeta. solve_exits. Qed.
Lemma exits_getCPUTime : exits getCPUTime. Proof. unfold_exits getCPUTime. Qed.
Lemma exits_waitForClock : exits waitForClock. Proof. unfold_exits waitForClock. Qed.
Lemma exits_getSupportData : exits getSupportData. Proof. unfold_exits getSupportData. Qed.

Lemma exits_terminate_children n run p : (forall q, exits (run q)) -> exits (terminate_children n run p).
Proof.
  intros H. induction n; cbn [terminate_children]; solve_exits; auto.
Qed.
Lemma exits_terminateProcess n p : exits (terminateProcess n p).
Proof.
  revert p. induction n as [|n IH]; intros p; cbn [terminateProcess]; [solve_exits|].
  apply exits_bind; [by apply exits_terminate_children|]. intros _. solve_exits.
Qed.
#[local] Hint Resolve exits_createProcess exits_passeren exits_verhogen exits_waitForIO exits_getCPUTime
  exits_waitForClock exits_getSupportData exits_terminateProcess : exits.
Lemma exits_terminate_current : exits terminate_current. Proof. unfold_exits terminate_current. Qed.
#[local] Hint Resolve exits_terminate_current : exits.

(** ** Traps and interrupts *)
Lemma exits_LDCXT_support (ix : fin 2) :
  exits (do c <- gets currentProcess;
         do u <- get_pcb c p_supportStruct;
         do x <- get_support u (fun r => sup_exceptContext r !!! ix);
         LDCXT (c_stackPtr x) (c_status x) (c_pc x) : K unit).
Proof.
  intros s e s'. rewrite bind_gets. unfold get_pcb, get_support, bind.
  destruct (pcbs s !! currentProcess s) as [r|] eqn:Er; [|done].
  destruct (supports s !! p_supportStruct r) as [u|] eqn:Eu; [|done].
  intros [= <- <-]. exists r, u, ix. by destruct (sup_exceptContext u !!! ix).
Qed.
#[local] Hint Resolve exits_LDCXT_support : exits.

Lemma exits_passUpOrDie ix : exits (passUpOrDie ix). Proof. unfold_exits passUpOrDie. Qed.
Lemma exits_current_reg i : exits (current_reg i). Proof. unfold_exits current_reg. Qed.
#[local] Hint Resolve exits_passUpOrDie exits_current_reg : exits.
Lemma exits_dispatch n : exits (dispatch_syscall n). Proof. unfold_exits dispatch_syscall. Qed.
Lemma exits_systemTrapHandler : exits systemTrapHandler.
Proof.
  unfold systemTrapHandler, userModeTrapHandler, sysCallOutRangeHandler, programTrapHandler. cbv zeta.
  solve_exits. apply exits_dispatch.
Qed.

Lemma exits_acknowledge l i : exits (acknowledge_device l i). Proof. unfold_exits acknowledge_device. Qed.
Lemma exits_wake_up p z : exits (wake_up p z). Proof. unfold_exits wake_up. Qed.
Lemma exits_unblock_clock n : exits (unblock_clock n).
Proof. induction n; cbn [unblock_clock]; solve_exits. Qed.
#[local] Hint Resolve exits_acknowledge exits_wake_up exits_unblock_clock : exits.
Lemma exits_PLT : exits PLTInterruptHandler. Proof. unfold_exits PLTInterruptHandler. Qed.
Lemma exits_nonTimer : exits nonTimerInterruptHandler.
Proof. unfold nonTimerInterruptHandler. cbv zeta. solve_exits. Qed.
Lemma exits_intervalTimer : exits intervalTimerInterruptHandler.
Proof. unfold_exits intervalTimerInterruptHandler. Qed.
#[local] Hint Resolve exits_PLT exits_nonTimer exits_intervalTimer exits_systemTrapHandler : exits.
Lemma exits_interruptTrapHandler : exits interruptTrapHandler.
Proof. unfold interruptTrapHandler. cbv zeta. solve_exits. Qed.
#[local] Hint Resolve exits_interruptTrapHandler : exits.

Lemma exits_exceptionHandler : exits exceptionHandler.
Proof.
  unfold exceptionHandler, exception_switch, programTrapHandler, tlbTrapHandler. cbv zeta. solve_exits.
Qed.

Lemma exits_initPcbs : exits initPcbs. Proof. unfold_exits initPcbs. Qed.
Lemma exits_initASL : exits initASL. Proof. unfold_exits initASL. Qed.
Lemma exits_initPassUpVector : exits initPassUpVector. Proof. unfold_exits initPassUpVector. Qed.
Lemma exits_initDeviceSemaphores : exits initDeviceSemaphoresHelper. Proof. unfold_exits initDeviceSemaphoresHelper. Qed.
#[local] Hint Resolve exits_initPcbs exits_initASL exits_initPassUpVector exits_initDeviceSemaphores : exits.
Lemma exits_main : exits main. Proof. unfold_exits main. Qed.
End lists.
