(* ===== verification/Typing.v ===== *)
(** * Types of C

    Every variable, register and field holds a value of its C type: an [int] in [-2^31, 2^31), an
    [unsigned int] or a pointer in [0, 2^32).  The model writes integers as [Z]; the lemmas of this
    file follow the text of the nucleus, one per operation, and show that the conversions written
    there are enough, and that the nucleus neither creates nor destroys an object.  They are in the
    hint database [typed]. *)
From S2P Require Export Logic Exceptions.

(** The clock registers and the function addresses are words. *)
Class MachineTyped (m : Machine) : Prop := {
  todlo_word n : in_u32 (todlo_at n);
  plt_word n : in_u32 (plt_at n);
  test_word : in_u32 test_addr;
  refill_word : in_u32 uTLB_RefillHandler_addr;
  handler_word : in_u32 exceptionHandler_addr
}.

(** ** Typed objects *)
Definition typed_state (st : state_t) : Prop :=
  in_u32 (s_entryHI st) /\ in_u32 (s_cause st) /\ in_u32 (s_status st) /\ in_u32 (s_pc st) /\
  forall i, in_i32 (s_reg st !!! i).

Record typed_pcb (r : pcb_t) : Prop := {
  pcb_links : in_u32 (p_next r) /\ in_u32 (p_prev r);
  pcb_tree : in_u32 (p_prnt r) /\ in_u32 (p_child r) /\ in_u32 (p_lSib r) /\ in_u32 (p_rSib r);
  pcb_state : typed_state (p_s r);
  pcb_time : in_i32 (p_time r);
  pcb_sem : in_u32 (p_semAdd r);
  pcb_support : in_u32 (p_supportStruct r)
}.

Definition typed_semd (d : semd_t) : Prop := in_u32 (s_next d) /\ in_u32 (s_semAdd d) /\ in_u32 (s_procQ d).

Definition typed_context (c : context_t) : Prop := in_u32 (c_stackPtr c) /\ in_u32 (c_status c) /\ in_u32 (c_pc c).

Definition typed_support (u : support_t) : Prop :=
  (forall i, typed_state (sup_exceptState u !!! i)) /\ (forall i, typed_context (sup_exceptContext u !!! i)).

Definition typed_device (d : device_t) : Prop :=
  in_u32 (d_status d) /\ in_u32 (d_command d) /\ in_u32 (d_data0 d) /\ in_u32 (d_data1 d).

(** The time scale is a positive number of ticks. *)
Record typed_bus (b : devregarea_t) : Prop := {
  bus_clocks : in_u32 (todlo b) /\ in_u32 (intervaltimer b) /\ 0 < timescale b < 2 ^ 31;
  bus_ram : in_u32 (rambase b) /\ in_u32 (ramsize b);
  bus_maps : forall i, in_u32 (interrupt_dev b !!! i);
  bus_devices : forall i, typed_device (devreg b !!! i)
}.

Record typed_store (s : kstate) : Prop := {
  store_pcbs : map_Forall (fun _ => typed_pcb) (pcbs s);
  store_semds : map_Forall (fun _ => typed_semd) (semds s);
  store_ints : map_Forall (fun _ => in_i32) (ints s);
  store_states : map_Forall (fun _ => typed_state) (states s);
  store_supports : map_Forall (fun _ => typed_support) (supports s);
  store_pvars : map_Forall (fun _ => in_u32) (pvars s);
  store_heads : in_u32 (pcbFree_h s) /\ in_u32 (semd_h s) /\ in_u32 (semdFree_h s) /\ in_u32 (readyQueue s);
  store_current : in_u32 (currentProcess s) /\ in_u32 (savedExceptionState s);
  store_counts : in_i32 (processCount s) /\ in_i32 (softBlockedCount s) /\ in_i32 (sysCallNum s);
  store_times : in_i32 (start_TOD s) /\ in_i32 (curr_TOD s) /\ in_i32 (interrupt_TOD s) /\
    in_i32 (current_process_time_left s);
  store_bus : typed_bus (bus s);
  store_passup : in_u32 (tlb_refll_handler (passup s)) /\ in_u32 (tlb_refll_stackPtr (passup s)) /\
    in_u32 (exception_handler (passup s)) /\ in_u32 (exception_stackPtr (passup s));
  store_cp0 : in_u32 (cp0_status s) /\ in_u32 (cp0_timer s)
}.

Definition typed_event (e : exit_event) : Prop :=
  match e with
  | Ldst st => typed_state st
  | Ldcxt sp status pc => in_u32 sp /\ in_u32 status /\ in_u32 pc
  | _ => True
  end.

(** The objects in memory. *)
Definition objects (s : kstate) : list (gset Z) :=
  [dom (pcbs s); dom (semds s); dom (ints s); dom (states s); dom (supports s); dom (pvars s)].

(** [c] keeps the store typed and its objects, and returns a value with [Q]. *)
Definition typed {A} (Q : A -> Prop) (c : K A) : Prop := forall s, typed_store s ->
  match c s with
  | Ret a s' => typed_store s' /\ objects s' = objects s /\ Q a
  | Stop e s' => typed_store s' /\ objects s' = objects s /\ typed_event e
  | Fault _ => True
  end.

Definition any {A} (a : A) : Prop := True.

Create HintDb typed discriminated.
#[export] Hint Constants Opaque : typed.

(** * Lemmas *)

(** ** The rules *)
Section rules.
Context {A : Type}.
Implicit Types (Q : A -> Prop).

Lemma typed_ret Q a : Q a -> typed Q (ret a).
Proof. intros H s Hs. done. Qed.

Lemma typed_bind {B} (Q : B -> Prop) (R : A -> Prop) (c : K B) k :
  typed Q c -> (forall b, Q b -> typed R (k b)) -> typed R (bind c k).
Proof.
  intros Hc Hk s Hs. specialize (Hc s Hs). unfold bind. destruct (c s) as [b s1|e s1|f]; [|done..].
  destruct Hc as (Hs1 & Ho & Hb). specialize (Hk b Hb s1 Hs1). destruct (k b s1); rewrite <- ?Ho; done.
Qed.

Lemma typed_weaken Q (Q' : A -> Prop) c : (forall a, Q a -> Q' a) -> typed Q c -> typed Q' c.
Proof. intros H Hc s Hs. specialize (Hc s Hs). destruct (c s) as [a s1|e s1|f]; [|done..]. destruct Hc as (? & ? & ?). auto. Qed.

Lemma typed_any Q (c : K A) : typed Q c -> typed any c.
Proof. by apply typed_weaken. Qed.

Lemma typed_crash Q f : typed Q (crash f).
Proof. done. Qed.

Lemma typed_stop Q e : typed_event e -> typed Q (stop e).
Proof. done. Qed.

Lemma typed_gets Q (f : kstate -> A) : (forall s, typed_store s -> Q (f s)) -> typed Q (gets f).
Proof. intros H s Hs. split_and!; [done..|]. by apply H. Qed.

Lemma typed_modify f : (forall s, typed_store s -> typed_store (f s) /\ objects (f s) = objects s) -> typed any (modify f).
Proof. intros H s Hs. destruct (H s Hs). done. Qed.
End rules.

Lemma typed_for_each {I} (l : list I) (body : I -> K unit) :
  (forall i, i ∈ l -> typed any (body i)) -> typed any (for_each l body).
Proof.
  intros H. induction l as [|i l IH]; [by apply (typed_ret any tt)|]. rewrite for_each_cons.
  apply (typed_bind any); [apply H; by left|]. intros _ _. apply IH. intros j ?. apply H. by right.
Qed.

(** ** Ranges *)
#[export] Hint Resolve u32_range i32_range : typed.
#[export] Hint Extern 1 (in_u32 NULL) => (unfold in_u32, NULL; lia) : typed.
#[export] Hint Extern 2 (in_u32 _) => (split; [discriminate|reflexivity]) : typed.
#[export] Hint Extern 2 (in_i32 _) => (split; [discriminate|reflexivity]) : typed.
#[export] Hint Extern 1 (any _) => exact Logic.I : typed.

Section machine.
Context {m : Machine} {mok : MachineOk m} {mty : MachineTyped m}.

Lemma sem_addr_word i : in_u32 (sem_addr i).
Proof. apply u32_range. Qed.

Lemma pcb_addr_word i : i ∈ seqZ 0 MAXPROC -> in_u32 (pcb_addr i).
Proof.
  intros [H1 H2]%elem_of_seqZ. destruct pcbFreeTable_ram. unfold pcb_addr, in_u32, MAXPROC, sizeof_pcb_t, RAMSTART, NULL, WORDLEN in *. lia.
Qed.

Lemma semd_addr_word i : i ∈ seqZ 0 MAXSEMDS -> in_u32 (semd_addr i).
Proof.
  intros [H1 H2]%elem_of_seqZ. destruct semdTable_ram.
  unfold semd_addr, in_u32, MAXSEMDS, MAXPROC, sizeof_semd_t, RAMSTART, NULL, WORDLEN in *. lia.
Qed.

Lemma quot_int a b : in_i32 a -> 0 < b -> in_i32 (Z.quot a b).
Proof.
  intros Ha Hb. unfold in_i32 in *. pose proof (Z.quot_abs a b) as E. pose proof (Z.quot_le_upper_bound (Z.abs a) b (2 ^ 31)).
  destruct (Z.le_gt_cases 0 a).
  - pose proof (Z.quot_pos a b). assert (Z.quot a b <= a); [|lia]. apply Z.quot_le_upper_bound; nia.
  - replace a with (- - a) by lia. rewrite Z.quot_opp_l by lia. pose proof (Z.quot_pos (- a) b).
    assert (Z.quot (- a) b <= - a); [|lia]. apply Z.quot_le_upper_bound; nia.
Qed.
End machine.

(** ** Accesses to memory *)
Section accesses.
Context {A : Type}.
Implicit Types (Q : A -> Prop).

Lemma typed_read {R} (T : R -> Prop) (h : kstate -> gmap Z R) a (f : R -> A) (c : K A) Q :
  (forall s, c s = match h s !! a with Some x => Ret (f x) s | None => Fault (BadPointer a) end) ->
  (forall s, typed_store s -> map_Forall (fun _ => T) (h s)) -> (forall r, T r -> Q (f r)) -> typed Q c.
Proof.
  intros E Hh Hf s Hs. rewrite E. destruct (h s !! a) as [r|] eqn:Er; [|done]. split_and!; [done..|].
  apply Hf. by apply (Hh s Hs a).
Qed.

Lemma typed_get_pcb Q p f : (forall r, typed_pcb r -> Q (f r)) -> typed Q (get_pcb p f).
Proof. apply (typed_read typed_pcb pcbs p f); [done|]. by intros s []. Qed.

Lemma typed_get_semd Q p f : (forall r, typed_semd r -> Q (f r)) -> typed Q (get_semd p f).
Proof. apply (typed_read typed_semd semds p f); [done|]. by intros s []. Qed.

Lemma typed_get_support Q p f : (forall r, typed_support r -> Q (f r)) -> typed Q (get_support p f).
Proof. apply (typed_read typed_support supports p f); [done|]. by intros s []. Qed.

Lemma typed_state_get r s st : typed_store s -> state_get r s = Some st -> typed_state st.
Proof.
  intros Hs. destruct r as [a|p|a i]; cbn.
  - apply (store_states s Hs a).
  - intros (x & Ex & ->)%fmap_Some. apply (store_pcbs s Hs p x Ex).
  - intros (x & Ex & ->)%fmap_Some. apply (store_supports s Hs a x Ex).
Qed.

Lemma typed_get_state Q r f : (forall st, typed_state st -> Q (f st)) -> typed Q (get_state r f).
Proof.
  intros Hf s Hs. unfold get_state. destruct (state_get r s) as [st|] eqn:E; [|done]. split_and!; [done..|].
  apply Hf. by eapply typed_state_get.
Qed.

Lemma typed_get_device Q i f : (forall d, typed_device d -> Q (f d)) -> typed Q (get_device i f).
Proof.
  intros Hf s Hs. unfold get_device. destruct (_ !! _) as [d|] eqn:E; [|done]. destruct (i <? 0); [done|].
  split_and!; [done..|]. apply Hf. rewrite <- vlookup_lookup' in E. destruct E as [H <-]. apply (store_bus s Hs).
Qed.
End accesses.

Lemma typed_load_int a : typed in_i32 (load_int a).
Proof. apply (typed_read in_i32 ints a id); [done| |done]. by intros s []. Qed.

Lemma map_Forall_alter_typed {R} (T : R -> Prop) f a (h : gmap Z R) :
  (forall r, T r -> T (f r)) -> map_Forall (fun _ => T) h -> map_Forall (fun _ => T) (alter f a h).
Proof.
  intros Hf H i x. rewrite lookup_alter. case_decide as E; [|apply H].
  intros (y & Ey & ->)%fmap_Some. apply Hf. by apply (H a).
Qed.

Lemma typed_upd_pcb p f : (forall r, typed_pcb r -> typed_pcb (f r)) -> typed any (upd_pcb p f).
Proof.
  intros Hf s Hs. unfold upd_pcb. destruct (pcbs s !! p); [|done]. split_and!; [|unfold objects; cbn; by rewrite dom_alter_L|done].
  destruct Hs. split; try done. by apply map_Forall_alter_typed.
Qed.

Lemma typed_upd_semd p f : (forall r, typed_semd r -> typed_semd (f r)) -> typed any (upd_semd p f).
Proof.
  intros Hf s Hs. unfold upd_semd. destruct (semds s !! p); [|done]. split_and!; [|unfold objects; cbn; by rewrite dom_alter_L|done].
  destruct Hs. split; try done. by apply map_Forall_alter_typed.
Qed.

Lemma typed_store_int a v : in_i32 v -> typed any (store_int a v).
Proof.
  intros Hv s Hs. unfold store_int. destruct (ints s !! a) as [w|] eqn:E; [|done]. split_and!; [| |done].
  - destruct Hs. split; try done. by apply map_Forall_insert_2.
  - unfold objects. cbn. by rewrite dom_insert_lookup_L.
Qed.

Lemma typed_load_tp tp : typed in_u32 (load_tp tp).
Proof.
  intros s Hs. unfold load_tp. destruct (tp_get tp s) as [v|] eqn:E; [|done]. split_and!; [done..|].
  destruct tp as [| |a|a]; cbn in E; [done|injection E as <-; apply Hs|..].
  - apply fmap_Some in E as (d & Ed & ->). apply (store_semds s Hs a d Ed).
  - apply (store_pvars s Hs a v E).
Qed.

Lemma typed_store_tp tp v : in_u32 v -> typed any (store_tp tp v).
Proof.
  intros Hv s Hs. unfold store_tp. destruct (tp_get tp s) as [w|] eqn:E; [|done].
  split_and!; [|unfold objects; destruct tp; cbn in *; rewrite ?dom_alter_L, ?dom_insert_lookup_L by done; done|done].
  destruct tp as [| |a|a]; cbn; [done|..]; destruct Hs; split; try done; cbn.
  - tauto.
  - apply map_Forall_alter_typed; [|done]. intros r (? & ? & ?). by split_and!.
  - by apply map_Forall_insert_2.
Qed.

Lemma typed_upd_state r f : (forall st, typed_state st -> typed_state (f st)) -> typed any (upd_state r f).
Proof.
  intros Hf s Hs. unfold upd_state. destruct (state_get r s) as [st|]; [|done].
  split_and!; [|unfold objects; destruct r; cbn; by rewrite dom_alter_L|done].
  destruct r as [a|p|a i]; cbn; destruct Hs; split; try done; cbn; apply map_Forall_alter_typed; try done.
  - intros x []. split; cbn; auto.
  - intros u [Hst Hc]. split; [|done]. intros j. cbn. destruct (decide (i = j)) as [->|].
    + rewrite vlookup_insert. auto.
    + by rewrite vlookup_insert_ne.
Qed.

Lemma typed_upd_device i f : (forall d, typed_device d -> typed_device (f d)) -> typed any (upd_device i f).
Proof.
  intros Hf s Hs. unfold upd_device. destruct (Fin.of_nat _ _) as [ix|]; [|done]. destruct (i <? 0); [done|].
  split_and!; [|done..]. destruct Hs as [? ? ? ? ? ? ? ? ? ? [] ? ?]. split; try done. split; try done. cbn.
  intros j. destruct (decide (ix = j)) as [->|].
  - rewrite vlookup_insert. auto.
  - by rewrite vlookup_insert_ne.
Qed.

Lemma typed_set_reg i z st : in_i32 z -> typed_state st -> typed_state (set_reg i z st).
Proof.
  intros Hz (? & ? & ? & ? & Hr). split_and!; try done. intros j. cbn. destruct (decide (i = j)) as [->|].
  - by rewrite vlookup_insert.
  - by rewrite vlookup_insert_ne.
Qed.

#[export] Hint Resolve typed_load_int typed_store_int typed_load_tp typed_store_tp typed_set_reg : typed.

(** ** Following the text *)

(** A field of a typed object, and an object after an assignment. *)
Ltac typed_field := intros ? Hobj; first [destruct Hobj; tauto | apply Hobj].
Ltac typed_assign :=
  intros ? Hobj;
  lazymatch type of Hobj with
  | typed_pcb _ => destruct Hobj; split; cbn; try assumption
  | typed_state _ => first [apply typed_set_reg; [|exact Hobj] | destruct Hobj as (? & ? & ? & ? & ?); split_and!]
  | typed_semd _ => destruct Hobj as (? & ? & ?); split_and!
  | typed_device _ => destruct Hobj as (? & ? & ? & ?); split_and!
  end; cbn; intuition (auto with typed).
Ltac typed_global := apply typed_modify; intros ? Hobj; split; [destruct Hobj; split; cbn; try assumption; intuition (auto with typed)|reflexivity].

Ltac typed_getter rule :=
  first [refine (rule in_u32 _ _ _); solve [typed_field] | refine (rule in_i32 _ _ _); solve [typed_field]
        |refine (rule typed_state _ _ _); solve [typed_field]|refine (rule any _ _ _); intros; exact Logic.I].

Ltac typed_atom :=
  lazymatch goal with
  | |- typed _ (get_pcb _ _) => first [refine (typed_get_pcb in_u32 _ _ _); solve [typed_field]
      |refine (typed_get_pcb in_i32 _ _ _); solve [typed_field]|refine (typed_get_pcb typed_state _ _ _); solve [typed_field]]
  | |- typed _ (get_semd _ _) => refine (typed_get_semd in_u32 _ _ _); solve [typed_field]
  | |- typed _ (get_support _ _) => refine (typed_get_support typed_context _ _ _); solve [typed_field]
  | |- typed _ (get_state _ _) => first [refine (typed_get_state in_u32 _ _ _); solve [typed_field]
      |refine (typed_get_state in_i32 _ _ _); solve [typed_field]]
  | |- typed _ (get_device _ _) => refine (typed_get_device in_u32 _ _ _); solve [typed_field]
  | |- typed _ (gets bus) => apply (typed_gets typed_bus); intros ? Hobj; apply Hobj
  | |- typed _ (gets _) => first [refine (typed_gets in_u32 _ _); solve [typed_field]
      |refine (typed_gets in_i32 _ _); solve [typed_field]]
  | |- typed _ (upd_pcb _ _) => apply typed_upd_pcb; solve [typed_assign]
  | |- typed _ (upd_semd _ _) => apply typed_upd_semd; solve [typed_assign]
  | |- typed _ (upd_state _ _) => apply typed_upd_state; solve [typed_assign]
  | |- typed _ (upd_device _ _) => apply typed_upd_device; solve [typed_assign]
  | |- typed _ (modify _) => solve [typed_global]
  | |- typed _ (crash _) => apply typed_crash
  | |- typed _ (LDST ?st) => apply (typed_stop _ (Ldst st)); assumption
  | |- typed _ (LDCXT ?a ?b ?c) => apply (typed_stop _ (Ldcxt a b c)); assumption
  | |- typed _ HALT => by apply (typed_stop _ Halt)
  | |- typed _ PANIC => by apply (typed_stop _ Panic)
  | |- typed _ WAIT => by apply (typed_stop _ Wait)
  | |- typed _ (ret _) => apply typed_ret; cbn [fst snd]; solve [auto with typed]
  | |- typed _ _ => first [solve [eauto with typed nocore] | eapply typed_any; solve [eauto with typed nocore]]
  end.

Ltac typed_intro :=
  intros ?; let H := fresh "Hty" in intros H; cbn beta in H;
  lazymatch type of H with _ /\ _ => destruct H | _ => idtac end.

Ltac solve_typed :=
  repeat first
    [ typed_atom
    | lazymatch goal with
      | |- typed _ (bind _ _) => first [eapply typed_bind; [solve [typed_atom]|typed_intro] | apply (typed_bind any); [|intros ? _]]
      | |- typed _ (for_each _ _) => apply typed_for_each; intros ? ?
      | |- typed _ (if ?b then _ else _) => destruct b
      end ].

Tactic Notation "unfold_typed" reference(f) := intros; unfold f; cbv zeta; solve_typed.

Section operations.
Context {m : Machine} {mok : MachineOk m} {mty : MachineTyped m}.

(** *** Process control blocks *)
Lemma typed_freePcb p : in_u32 p -> typed any (freePcb p). Proof. unfold_typed freePcb. Qed.
#[local] Hint Resolve typed_freePcb : typed.
Lemma typed_initPcbs : typed any initPcbs.
Proof. unfold_typed initPcbs. by apply typed_freePcb, pcb_addr_word. Qed.
Lemma typed_allocPcb : typed in_u32 allocPcb. Proof. unfold_typed allocPcb. Qed.
Lemma typed_insertProcQ tp p : in_u32 p -> typed any (insertProcQ tp p). Proof. unfold_typed insertProcQ. Qed.
Lemma typed_removeProcQ tp : typed in_u32 (removeProcQ tp). Proof. unfold_typed removeProcQ. Qed.
Lemma typed_outProcQ_found tp c p : in_u32 p -> typed in_u32 (outProcQ_found tp c p).
Proof. unfold_typed outProcQ_found. Qed.
#[local] Hint Resolve typed_allocPcb typed_insertProcQ typed_removeProcQ typed_outProcQ_found : typed.
Lemma typed_outProcQ_loop n tp t p c : in_u32 p -> typed in_u32 (outProcQ_loop n tp t p c).
Proof. intros Hp. revert c. induction n; intros c; cbn [outProcQ_loop]; solve_typed. Qed.
#[local] Hint Resolve typed_outProcQ_loop : typed.
Lemma typed_outProcQ tp p : in_u32 p -> typed in_u32 (outProcQ tp p). Proof. unfold_typed outProcQ. Qed.
Lemma typed_headProcQ t : typed in_u32 (headProcQ t). Proof. unfold_typed headProcQ. Qed.
Lemma typed_emptyChild p : typed any (emptyChild p). Proof. unfold_typed emptyChild. Qed.
Lemma typed_insertChild q p : in_u32 q -> in_u32 p -> typed any (insertChild q p). Proof. unfold_typed insertChild. Qed.
Lemma typed_removeChild q : typed in_u32 (removeChild q). Proof. unfold_typed removeChild. Qed.
Lemma typed_outChild_loop n p c : in_u32 c -> typed in_u32 (outChild_loop n p c).
Proof. revert c. induction n; intros c Hc; cbn [outChild_loop]; solve_typed. Qed.
#[local] Hint Resolve typed_outProcQ typed_headProcQ typed_emptyChild typed_insertChild
  typed_removeChild typed_outChild_loop : typed.
Lemma typed_outChild p : in_u32 p -> typed in_u32 (outChild p). Proof. unfold_typed outChild. Qed.
#[local] Hint Resolve typed_outChild : typed.

(** *** The active semaphore list *)
Lemma typed_freeSemd a : in_u32 a -> typed any (freeSemd a). Proof. unfold_typed freeSemd. Qed.
Lemma typed_allocSemd : typed in_u32 allocSemd. Proof. unfold_typed allocSemd. Qed.
#[local] Hint Resolve typed_freeSemd typed_allocSemd : typed.
Lemma typed_getSemd_loop n k c p : in_u32 c -> in_u32 p ->
  typed (fun r => in_u32 (fst r) /\ in_u32 (snd r)) (getSemd_loop n k c p).
Proof. revert c p. induction n; intros c p Hc Hp; cbn [getSemd_loop]; solve_typed. Qed.
#[local] Hint Resolve typed_getSemd_loop : typed.
Lemma typed_getSemd k : typed (fun r => in_u32 (fst r) /\ in_u32 (snd r)) (getSemd k). Proof. unfold_typed getSemd. Qed.
Lemma typed_not_found c k : typed any (not_found c k). Proof. unfold_typed not_found. Qed.
Lemma typed_enqueue k p c : in_u32 k -> in_u32 p -> typed any (insertBlocked_enqueue k p c).
Proof. unfold_typed insertBlocked_enqueue. Qed.
Lemma typed_release c p : in_u32 c -> in_u32 p -> typed any (release_if_empty c p). Proof. unfold_typed release_if_empty. Qed.
#[local] Hint Resolve typed_getSemd typed_not_found typed_enqueue typed_release : typed.
Lemma typed_insertBlocked k p : in_u32 k -> in_u32 p -> typed any (insertBlocked k p).
Proof. unfold_typed insertBlocked. Qed.
Lemma typed_removeBlocked k : typed in_u32 (removeBlocked k). Proof. unfold_typed removeBlocked. Qed.
Lemma typed_outBlocked p : in_u32 p -> typed in_u32 (outBlocked p). Proof. unfold_typed outBlocked. Qed.
Lemma typed_headBlocked k : typed in_u32 (headBlocked k). Proof. unfold_typed headBlocked. Qed.
#[local] Hint Resolve typed_insertBlocked typed_removeBlocked typed_outBlocked typed_headBlocked : typed.
Lemma typed_initASL : typed any initASL.
Proof.
  unfold_typed initASL. by apply typed_freeSemd, semd_addr_word.
Qed.

(** *** Clocks and dispatching *)
Lemma typed_STCK : typed in_i32 STCK.
Proof.
  intros s Hs. unfold STCK. cbv zeta. pose proof (bus_clocks _ (store_bus s Hs)) as (_ & ? & ?).
  pose proof (todlo_word (tod_reads s)). split_and!; [|done|].
  - destruct Hs as [? ? ? ? ? ? ? ? ? ? [] ? ?]. split; try assumption. split; cbn; tauto.
  - apply quot_int; [apply i32_range|]. rewrite i32_small by (unfold in_i32; lia). lia.
Qed.
Lemma typed_getTIMER : typed in_u32 getTIMER.
Proof. intros s Hs. split_and!; [by destruct Hs|done|apply plt_word]. Qed.
Lemma typed_LDIT t : typed any (LDIT t).
Proof.
  apply typed_modify. intros s Hs. split; [|done]. destruct Hs as [? ? ? ? ? ? ? ? ? ? [] ? ?]. split; try assumption.
  split; try assumption. cbn. split; [tauto|]. split; [apply u32_range|tauto].
Qed.
Lemma typed_setTIMER t : typed any (setTIMER t). Proof. unfold setTIMER. typed_global. Qed.
Lemma typed_setSTATUS v : in_u32 v -> typed any (setSTATUS v). Proof. intros Hv. unfold setSTATUS. typed_global. Qed.
#[local] Hint Resolve typed_STCK typed_getTIMER typed_LDIT typed_setTIMER typed_setSTATUS : typed.
Lemma typed_moveStateHelper a b : typed any (moveStateHelper a b). Proof. unfold_typed moveStateHelper. Qed.
Lemma typed_switchContext p : in_u32 p -> typed any (switchContext p). Proof. unfold_typed switchContext. Qed.
#[local] Hint Resolve typed_moveStateHelper typed_switchContext : typed.
Lemma typed_scheduler : typed any scheduler. Proof. unfold_typed scheduler. Qed.
#[local] Hint Resolve typed_scheduler : typed.
Lemma typed_updateProcessTimeHelper p a b : typed any (updateProcessTimeHelper p a b).
Proof. unfold_typed updateProcessTimeHelper. Qed.
#[local] Hint Resolve typed_updateProcessTimeHelper : typed.
Lemma typed_add_int a d : typed any (add_int a d). Proof. unfold_typed add_int. Qed.
Lemma typed_addPigeon : typed any addPigeonCurrentProcessHelper. Proof. unfold_typed addPigeonCurrentProcessHelper. Qed.
Lemma typed_charge_current : typed any charge_current. Proof. unfold_typed charge_current. Qed.
Lemma typed_resume_current : typed any resume_current. Proof. unfold_typed resume_current. Qed.
#[local] Hint Resolve typed_add_int typed_addPigeon typed_charge_current typed_resume_current sem_addr_word : typed.
Lemma typed_blockCurrent k : in_u32 k -> typed any (blockCurrentProcessHelper k).
Proof. unfold_typed blockCurrentProcessHelper. Qed.
Lemma typed_debug a b c d : typed any (debugExceptionHandler a b c d). Proof. by apply (typed_ret any tt). Qed.
#[local] Hint Resolve typed_blockCurrent typed_debug : typed.

(** *** System calls *)
Lemma typed_createProcess a u : in_u32 u -> typed any (createProcess a u). Proof. unfold_typed createProcess. Qed.
Lemma typed_passeren k : in_u32 k -> typed any (passeren k). Proof. unfold_typed passeren. Qed.
Lemma typed_verhogen k : in_u32 k -> typed any (verhogen k). Proof. unfold_typed verhogen. Qed.
Lemma typed_waitForIO l d r : typed any (waitForIO l d r). Proof. unfold_typed waitForIO. Qed.
Lemma typed_getCPUTime : typed any getCPUTime. Proof. unfold_typed getCPUTime. Qed.
Lemma typed_waitForClock : typed any waitForClock. Proof. unfold_typed waitForClock. Qed.
Lemma typed_getSupportData : typed any getSupportData. Proof. unfold_typed getSupportData. Qed.
#[local] Hint Resolve typed_createProcess typed_passeren typed_verhogen typed_waitForIO typed_getCPUTime
  typed_waitForClock typed_getSupportData : typed.

(** The recursion kills what it reads off the child lists. *)
Lemma typed_terminate_children n run p :
  (forall q, in_u32 q -> typed any (run q)) -> typed any (terminate_children n run p).
Proof. intros H. induction n; cbn [terminate_children]; solve_typed; auto. Qed.
Lemma typed_terminateProcess n p : in_u32 p -> typed any (terminateProcess n p).
Proof.
  revert p. induction n as [|n IH]; intros p Hp; cbn [terminateProcess]; [solve_typed|].
  apply (typed_bind any); [by apply typed_terminate_children|]. intros _ _. solve_typed.
Qed.
#[local] Hint Resolve typed_terminateProcess : typed.
Lemma typed_terminate_current : typed any terminate_current. Proof. unfold_typed terminate_current. Qed.
#[local] Hint Resolve typed_terminate_current : typed.

(** *** Traps and interrupts *)
Lemma typed_passUpOrDie ix : typed any (passUpOrDie ix).
Proof. unfold_typed passUpOrDie. Qed.
Lemma typed_current_reg i : typed in_i32 (current_reg i).
Proof. unfold_typed current_reg. Qed.
#[local] Hint Resolve typed_passUpOrDie typed_current_reg : typed.
Lemma typed_ptr_of_int z : in_u32 (ptr_of_int z). Proof. apply u32_range. Qed.
#[local] Hint Resolve typed_ptr_of_int : typed.
Lemma typed_dispatch_syscall n : typed any (dispatch_syscall n). Proof. unfold_typed dispatch_syscall. Qed.
#[local] Hint Resolve typed_dispatch_syscall : typed.
Lemma typed_programTrapHandler : typed any programTrapHandler. Proof. apply typed_passUpOrDie. Qed.
Lemma typed_userModeTrapHandler : typed any userModeTrapHandler. Proof. apply typed_passUpOrDie. Qed.
Lemma typed_tlbTrapHandler : typed any tlbTrapHandler. Proof. apply typed_passUpOrDie. Qed.
Lemma typed_sysCallOutRangeHandler : typed any sysCallOutRangeHandler. Proof. apply typed_passUpOrDie. Qed.
#[local] Hint Resolve typed_programTrapHandler typed_userModeTrapHandler typed_tlbTrapHandler typed_sysCallOutRangeHandler : typed.
Lemma typed_systemTrapHandler : typed any systemTrapHandler. Proof. unfold_typed systemTrapHandler. Qed.
#[local] Hint Resolve typed_systemTrapHandler : typed.

Lemma typed_findInterruptDevice l : typed any (findInterruptDevice l).
Proof. intros s Hs. unfold findInterruptDevice. destruct (_ !! _); [|done]. by destruct (l <? BASE_LINE). Qed.
#[local] Hint Resolve typed_findInterruptDevice : typed.
Lemma typed_acknowledge_device l i : typed (fun r => in_i32 (fst r) /\ in_u32 (snd r)) (acknowledge_device l i).
Proof. unfold_typed acknowledge_device. Qed.
Lemma typed_wake_up p c : in_u32 p -> in_i32 c -> typed any (wake_up p c). Proof. unfold_typed wake_up. Qed.
#[local] Hint Resolve typed_acknowledge_device typed_wake_up : typed.
Lemma typed_unblock_clock n : typed any (unblock_clock n).
Proof. induction n; cbn [unblock_clock]; solve_typed. Qed.
#[local] Hint Resolve typed_unblock_clock : typed.
Lemma typed_nonTimer : typed any nonTimerInterruptHandler. Proof. unfold_typed nonTimerInterruptHandler. Qed.
Lemma typed_intervalTimer : typed any intervalTimerInterruptHandler. Proof. unfold_typed intervalTimerInterruptHandler. Qed.
Lemma typed_PLT : typed any PLTInterruptHandler. Proof. unfold_typed PLTInterruptHandler. Qed.
#[local] Hint Resolve typed_nonTimer typed_intervalTimer typed_PLT : typed.
Lemma typed_interruptTrapHandler : typed any interruptTrapHandler. Proof. unfold_typed interruptTrapHandler. Qed.
#[local] Hint Resolve typed_interruptTrapHandler : typed.

(** *** The entry points *)
Lemma typed_exception_switch c : typed any (exception_switch c). Proof. unfold_typed exception_switch. Qed.
#[local] Hint Resolve typed_exception_switch : typed.
Lemma typed_exceptionHandler : typed any exceptionHandler. Proof. unfold_typed exceptionHandler. Qed.

#[local] Hint Resolve refill_word handler_word test_word : typed.
Lemma typed_initPassUpVector : typed any initPassUpVector. Proof. unfold_typed initPassUpVector. Qed.
Lemma typed_initDeviceSemaphores : typed any initDeviceSemaphoresHelper.
Proof. unfold_typed initDeviceSemaphoresHelper. Qed.
#[local] Hint Resolve typed_initPassUpVector typed_initDeviceSemaphores typed_initPcbs typed_initASL : typed.
Lemma typed_main : typed any main. Proof. unfold_typed main. Qed.

Lemma typed_stops (c : K unit) s (R : exit_event -> kstate -> Prop) : typed any c -> typed_store s -> stops c s R ->
  stops c s (fun e s' => R e s' /\ typed_store s' /\ typed_event e /\ objects s' = objects s).
Proof.
  intros Hc Hs (e & s' & E & HR)%wp_elim_stops. specialize (Hc s Hs). rewrite E in Hc.
  apply (stops_intro _ _ _ _ _ E). destruct Hc as (? & ? & ?). done.
Qed.

(** The zeroed tables are typed. *)
Lemma map_Forall_same {R} (T : R -> Prop) (f : Z -> Z) r l :
  T r -> map_Forall (fun _ => T) (list_to_map ((fun i => (f i, r)) <$> l) : gmap Z R).
Proof. intros Hr a x Hx%elem_of_list_to_map_2. apply list_elem_of_fmap in Hx as (i & [= -> ->] & _). done. Qed.

Lemma state_typed hi cause status pc :
  in_u32 hi -> in_u32 cause -> in_u32 status -> in_u32 pc ->
  typed_state (MkState hi cause status pc (vreplicate STATEREGNUM 0)).
Proof. intros. split_and!; [done..|]. intros i. cbn [s_reg]. rewrite vlookup_replicate. auto with typed. Qed.

Lemma zero_pcb_typed : typed_pcb zero_pcb.
Proof. split; [..|apply state_typed| | |]; cbn; auto with typed. Qed.

Lemma boot_state_typed mem sts sups b :
  map_Forall (fun _ => in_i32) mem -> map_Forall (fun _ => typed_state) sts ->
  map_Forall (fun _ => typed_support) sups -> typed_bus b -> typed_store (boot_state mem sts sups b).
Proof.
  intros Hm Hst Hsu Hb. split; cbn [boot_state pcbs semds ints states supports pvars bus]; auto with typed.
  - apply map_Forall_same, zero_pcb_typed.
  - apply map_Forall_same. split_and!; cbn; auto with typed.
  - apply map_Forall_union_2; [|done]. apply map_Forall_same. auto with typed.
  - apply map_Forall_empty.
Qed.
End operations.

