(* ===== verification/ExceptionSpec.v ===== *)
(** * Exceptions: what the entry point of the nucleus does *)
From S2P Require Export InterruptSpec TerminateSpec Exceptions.

Section handlers.
Context {m : Machine} {mok : MachineOk m}.
Implicit Types (s : kstate) (v : view) (p c k u i : Z) (st : state_t).

(** The running process and its descendants end, and another process is chosen. *)
Definition terminated s v e s' : Prop :=
  exists D s1 v1 v', (forall x, x ∈ D <-> descends (v_kids v) (currentProcess s) x) /\
    kill_queues D v v1 /\ kill_step D s s1 /\ same_data s1 s' /\
    kids_kept (currentProcess s) D v (running s) v1 /\ dispatched v1 e v' s' /\ nucleus_inv s' v'.

(** The exception state is handed to the support level of the running process. *)
Definition passed_up s v u (ix : fin 2) e s' : Prop :=
  exists sup, supports s !! u = Some sup /\
    (let x := sup_exceptContext sup !!! ix in e = Ldcxt (c_stackPtr x) (c_status x) (c_pc x)) /\
    supports s' !! u = Some (set_sup_exceptState (vinsert ix (bios_state s) (sup_exceptState sup)) sup) /\
    currentProcess s' = currentProcess s /\ nucleus_inv s' v /\ steady (eq u) s s'.

Lemma passUpOrDie_ok s v ix :
  nucleus_inv s v -> currentProcess s <> NULL ->
  stops (passUpOrDie ix) s (fun e s' => exists u,
    fld p_supportStruct (pcbs s) (currentProcess s) = Some u /\
    if u =? NULL then terminated s v e s' else passed_up s v u ix e s').
Proof.
  intros N Hc. pose proof (nucleus_kernel _ _ N) as I.
  assert (currentProcess s ∈ live v (running s)) as Hl by (rewrite running_some, elem_of_live by done; set_solver).
  destruct (inv_support _ _ _ I _ Hl) as (u & Hu & Hok).
  unfold stops, wp, passUpOrDie. rewrite bind_gets, (bind_ret _ _ _ _ _ (get_pcb_ok _ _ _ _ Hu)).
  destruct (Z.eqb_spec u NULL) as [->|HuN]; cbn [negb].
  - rewrite bind_modify. set (s1 := set_sysCallNum _ s).
    assert (nucleus_inv s1 v) as N1 by (by apply (nucleus_globals s)).
    destruct (wp_elim_stops _ _ _ (terminate_current_ok s1 v N1 Hc)) as (e & s' & -> & D & s2 & v2 & v' & HD & HQ & HK & Hsd & Hkk & Hdis & N').
    exists NULL. split; [done|]. rewrite Z.eqb_refl. exists D, s2, v2, v'. split_and!; try done.
    destruct HK. by split.
  - destruct Hok as [|[[sup Hsup] Hb]]; [done|].
    pose proof (bios_state_some _ _ _ I) as Hbios.
    rewrite bind_gets, Hb.
    assert (is_Some (state_get (SR_sup u ix) s)) as Hd by (cbn; rewrite Hsup; eauto).
    rewrite (bind_ret _ _ _ _ _ (moveStateHelper_ok _ (SR_sup u ix) _ s Hbios ltac:(done) Hd)).
    set (s1 := state_alter (SR_sup u ix) (fun _ => bios_state s) s).
    assert (nucleus_inv s1 v) as N1 by (apply (nucleus_harmless s); [done|apply harmless_support|done..]).
    rewrite (bind_ret _ _ _ _ _ (charge_current_ok s1 (nucleus_stored s1 v N1 Hc))), bind_gets.
    assert (fld p_supportStruct (pcbs (charged s1)) (currentProcess (charged s1)) = Some u) as Hu2
      by (cbn; by fld_simp).
    rewrite (bind_ret _ _ _ _ _ (get_pcb_ok _ _ _ _ Hu2)).
    set (sup' := set_sup_exceptState (vinsert ix (bios_state s) (sup_exceptState sup)) sup).
    assert (supports (charged s1) !! u = Some sup') as Hsup' by (cbn; by rewrite lookup_alter_eq, Hsup).
    erewrite bind_ret by (unfold get_support; by rewrite Hsup').
    exists u. split; [done|]. rewrite (proj2 (Z.eqb_neq _ _) HuN). exists sup.
    split_and!; [done|done|done|done| |].
    + apply (nucleus_harmless s1); [done|apply harmless_charged|done..].
    + split; [|done..]. split; [|intros a Ha; cbn; by rewrite lookup_alter_ne|done].
      intros x Hx. cbn. by rewrite !fld_alter_ne.
Qed.

(** ** Interrupts *)

(** The state after the readings at the entry of [interruptTrapHandler]. *)
Definition interrupt_entry s : kstate :=
  set_savedExceptionState BIOSDATAPAGE
    (set_current_process_time_left (i32 (plt_at (plt_reads s)))
      (set_plt_reads (S (plt_reads s)) (set_interrupt_TOD (tod s) (tick s)))).

Lemma nucleus_saved s s' v :
  nucleus_inv s v -> savedExceptionState s' = BIOSDATAPAGE ->
  globals_only s (set_savedExceptionState (savedExceptionState s) s') ->
  currentProcess s' = currentProcess s -> processCount s' = processCount s -> nucleus_inv s' v.
Proof.
  intros N Hb (E1 & E2 & E3 & E4 & E5 & E6 & E7 & E8 & E9 & _). apply nucleus_harmless; [done|].
  cbn in *. split; try done; [by rewrite E1|by rewrite E7|by rewrite E8|by rewrite E9|by right].
Qed.

(** The cause register at the exception. *)
Definition bios_cause s : Z := s_cause (bios_state s).

Definition line1 s : bool := negb (Z.land (i32 (bios_cause s)) IP_LINE1_TIMER_BIT =? 0).
Definition line2 s : bool := negb (Z.land (i32 (bios_cause s)) IP_LINE2_TIMER_BIT =? 0).

(** One interrupt is served: the first pending of the processor timer, the interval timer and the
    devices. *)
Lemma interruptTrapHandler_select s v :
  nucleus_inv s v ->
  nucleus_inv (interrupt_entry s) v /\
  forall R, stops (if line1 s then PLTInterruptHandler
         else if line2 s then intervalTimerInterruptHandler else nonTimerInterruptHandler) (interrupt_entry s) R ->
  stops interruptTrapHandler s R.
Proof.
  intros N. assert (nucleus_inv (interrupt_entry s) v) as N1 by (by apply (nucleus_saved s)).
  split; [done|]. intros R HR.
  pose proof (bios_state_some _ _ _ (nucleus_kernel _ _ N)) as Hbios.
  assert (get_state (SR_mem BIOSDATAPAGE) s_cause (interrupt_entry s) = Ret (bios_cause s) (interrupt_entry s))
    as Hcause by (apply get_state_ok; cbn; by rewrite Hbios).
  assert (interruptTrapHandler s =
    (do! (if line1 s then PLTInterruptHandler else ret tt);
     do! (if line2 s then intervalTimerInterruptHandler else ret tt);
     nonTimerInterruptHandler) (interrupt_entry s)) as Hrun.
  { unfold interruptTrapHandler, STCK. erewrite bind_ret by reflexivity. rewrite bind_modify.
    unfold getTIMER. erewrite bind_ret by reflexivity. rewrite !bind_modify.
    by rewrite (bind_ret _ _ _ _ _ Hcause). }
  unfold stops, wp in *. rewrite Hrun. destruct (line1 s).
  - fold (stops PLTInterruptHandler (interrupt_entry s) R) in HR.
    destruct (wp_elim_stops _ _ _ HR) as (e & s' & Hr & He). by rewrite (bind_stop _ _ _ _ _ Hr).
  - rewrite bind_pure. destruct (line2 s); [|exact HR].
    destruct (wp_elim_stops _ _ _ HR) as (e & s' & Hr & He). by rewrite (bind_stop _ _ _ _ _ Hr).
Qed.

(** ** System calls *)
Definition syscall_number s : Z := s_reg (bios_state s) !!! s_a0.

Definition syscall_entry s : kstate :=
  let s1 := set_sysCallNum (syscall_number s) (set_savedExceptionState BIOSDATAPAGE s) in
  set_states (alter (fun st => set_s_pc (u32 (s_pc st + WORDLEN)) st) BIOSDATAPAGE (states s1)) s1.

(** The exception code of the saved state becomes Reserved Instruction. *)
Definition reserved_instruction (st : state_t) : state_t :=
  set_s_cause (u32 (Z.lor (u32 (Z.land (s_cause st) (Z.lnot (Z.shiftl CAUSE_INT_MASK EXC_CODE_SHIFT))))
                          (Z.shiftl EXC_RESERVED_INSTRUCTION EXC_CODE_SHIFT))) st.

Definition user_entry s : kstate :=
  set_states (alter reserved_instruction BIOSDATAPAGE (states (syscall_entry s))) (syscall_entry s).

Definition user_mode s : bool := negb (Z.land (s_status (bios_state s)) USERPON =? ALLOFF).

Lemma nucleus_states s v f a : nucleus_inv s v -> nucleus_inv (set_states (alter f a (states s)) s) v.
Proof. intros N. apply (nucleus_harmless s); [done|apply harmless_states|done..]. Qed.

Lemma syscall_entry_inv s v : nucleus_inv s v -> nucleus_inv (syscall_entry s) v.
Proof. intros N. apply nucleus_states. by apply (nucleus_saved s). Qed.

Lemma syscall_entry_bios s v :
  nucleus_inv s v -> bios_state (syscall_entry s) = set_s_pc (u32 (s_pc (bios_state s) + WORDLEN)) (bios_state s).
Proof.
  intros N. pose proof (bios_state_some _ _ _ (nucleus_kernel _ _ N)) as Hb.
  unfold bios_state at 1. cbn. by rewrite lookup_alter_eq, Hb.
Qed.

(** The part of [systemTrapHandler] before its tests. *)
Lemma systemTrapHandler_entry s v :
  nucleus_inv s v ->
  systemTrapHandler s =
    (do! (if user_mode s then
            do! upd_state (SR_mem BIOSDATAPAGE) (fun st =>
               set_s_cause
                 (u32 (Z.land (s_cause st) (Z.lnot (Z.shiftl CAUSE_INT_MASK EXC_CODE_SHIFT)))) st);
            do! upd_state (SR_mem BIOSDATAPAGE) (fun st =>
               set_s_cause
                 (u32 (Z.lor (s_cause st) (Z.shiftl EXC_RESERVED_INSTRUCTION EXC_CODE_SHIFT))) st);
            userModeTrapHandler
          else ret tt);
     do n <- gets sysCallNum;
     do! (if (n <? SYS1_NUM) || (SYS8_NUM <? n) then sysCallOutRangeHandler else ret tt);
     do! addPigeonCurrentProcessHelper;
     do n <- gets sysCallNum;
     dispatch_syscall n) (syscall_entry s).
Proof.
  intros N. pose proof (bios_state_some _ _ _ (nucleus_kernel _ _ N)) as Hb.
  unfold systemTrapHandler. rewrite bind_modify.
  rewrite (bind_ret _ _ _ (syscall_number s) (set_savedExceptionState BIOSDATAPAGE s))
    by (apply get_state_ok; cbn; by rewrite Hb).
  rewrite bind_modify.
  rewrite (bind_ret _ _ _ tt (syscall_entry s)) by (apply upd_state_ok; cbn; rewrite Hb; eauto).
  erewrite bind_ret; [reflexivity|].
  rewrite (get_state_ok _ _ (s_status (bios_state s))); [done|].
  cbn. by rewrite lookup_alter_eq, Hb.
Qed.

(** A system call from user mode is passed up as a reserved instruction. *)
Lemma systemTrapHandler_user s v R :
  nucleus_inv s v -> user_mode s = true ->
  stops (passUpOrDie (except_ix GENERALEXCEPT)) (user_entry s) R -> stops systemTrapHandler s R.
Proof.
  intros N Hu HR. destruct (wp_elim_stops _ _ _ HR) as (e & s' & Hr & He).
  pose proof (bios_state_some _ _ _ (nucleus_kernel _ _ (syscall_entry_inv s v N))) as Hb.
  eapply stops_intro; [|exact He]. rewrite (systemTrapHandler_entry s v N), Hu. apply bind_stop.
  assert (is_Some (states (syscall_entry s) !! BIOSDATAPAGE)) as Hs by (rewrite Hb; eauto).
  rewrite (bind_ret _ _ _ _ _ (upd_state_ok (SR_mem BIOSDATAPAGE) _ _ Hs)).
  rewrite (bind_ret _ _ _ tt (user_entry s)); [exact Hr|].
  rewrite upd_state_ok by (cbn; by apply is_Some_alter). f_equal.
  rewrite (state_alter_alter (SR_mem BIOSDATAPAGE)).
    by apply (state_alter_ext (SR_mem BIOSDATAPAGE) _ reserved_instruction).
Qed.

(** A system call number out of range. *)
Lemma systemTrapHandler_range s v R :
  nucleus_inv s v -> user_mode s = false -> ~ (SYS1_NUM <= syscall_number s <= SYS8_NUM) ->
  stops (passUpOrDie (except_ix GENERALEXCEPT)) (syscall_entry s) R -> stops systemTrapHandler s R.
Proof.
  intros N Hu Hn HR. destruct (wp_elim_stops _ _ _ HR) as (e & s' & Hr & He).
  eapply stops_intro; [|exact He]. rewrite (systemTrapHandler_entry s v N), Hu, bind_pure, bind_gets.
  change (sysCallNum (syscall_entry s)) with (syscall_number s).
  replace ((syscall_number s <? SYS1_NUM) || (SYS8_NUM <? syscall_number s)) with true by lia.
  by apply bind_stop.
Qed.

(** The state in which a system call in range is served: the exception state, with the program
    counter after the SYSCALL instruction, is in the pcb of the caller. *)
Definition served_call s : kstate := pigeoned (syscall_entry s).

Lemma systemTrapHandler_call s v :
  nucleus_inv s v -> currentProcess s <> NULL -> user_mode s = false ->
  SYS1_NUM <= syscall_number s <= SYS8_NUM ->
  systemTrapHandler s = dispatch_syscall (syscall_number s) (served_call s) /\
  nucleus_inv (served_call s) v /\
  saved_state (served_call s) (currentProcess s) =
    set_s_pc (u32 (s_pc (bios_state s) + WORDLEN)) (bios_state s).
Proof.
  intros N Hc Hu Hn. pose proof (syscall_entry_inv s v N) as N1.
  destruct (addPigeon_ok (syscall_entry s) v N1 Hc eq_refl) as [Hr N2].
  split_and!; [|done|].
  - rewrite (systemTrapHandler_entry s v N), Hu, bind_pure, bind_gets.
    change (sysCallNum (syscall_entry s)) with (syscall_number s).
    replace ((syscall_number s <? SYS1_NUM) || (SYS8_NUM <? syscall_number s)) with false by lia.
    by rewrite bind_pure, (bind_ret _ _ _ _ _ Hr).
  - unfold saved_state, served_call.
    pose proof (pigeoned_state (syscall_entry s) v N1 Hc) as Hp.
    change (currentProcess (syscall_entry s)) with (currentProcess s) in Hp. rewrite Hp.
    cbn [default]. by apply (syscall_entry_bios s v).
Qed.

(** Register [i] of the caller. *)
Definition arg s (i : fin STATEREGNUM) : Z := s_reg (bios_state s) !!! i.

Lemma current_reg_ok s v (i : fin STATEREGNUM) :
  nucleus_inv s v -> currentProcess s <> NULL -> user_mode s = false ->
  SYS1_NUM <= syscall_number s <= SYS8_NUM ->
  current_reg i (served_call s) = Ret (arg s i) (served_call s).
Proof.
  intros N Hc Hu Hn. destruct (systemTrapHandler_call s v N Hc Hu Hn) as (_ & N2 & Hst).
  unfold current_reg. rewrite bind_gets. apply get_pcb_ok.
  pose proof (nucleus_stored _ _ N2 Hc) as [r Hr]. change (currentProcess (served_call s)) with (currentProcess s) in *.
  apply saved_state_lookup in Hr as E. unfold fld. rewrite Hr. cbn. rewrite E, Hst. done.
Qed.

(** ** Admissible exceptions *)

(** What a process must pass to a system call: SYS1 a processor state and, if any, a support
    structure; SYS3 and SYS4 the address of a semaphore; SYS5 an existing device. *)
Definition valid_call s : Prop :=
  let n := syscall_number s in
  let a1 := arg s s_a1 in let a2 := arg s s_a2 in let a3 := arg s s_a3 in
  (n = SYS1_NUM -> is_Some (states s !! ptr_of_int a1) /\
                   (ptr_of_int a2 = NULL \/ is_Some (supports s !! ptr_of_int a2))) /\
  (n = SYS3_NUM \/ n = SYS4_NUM -> sem_key (ptr_of_int a1) /\ is_Some (ints s !! ptr_of_int a1)) /\
  (n = SYS5_NUM -> 0 <= wait_index a1 a2 a3 < MAX_DEVICE_COUNT).

(** The memory a system call finds is that of the exception. *)
Lemma served_call_memory s a :
  (is_Some (states s !! a) -> is_Some (states (served_call s) !! a)) /\
  supports (served_call s) = supports s /\ ints (served_call s) = ints s /\
  savedExceptionState (served_call s) = BIOSDATAPAGE /\ currentProcess (served_call s) = currentProcess s.
Proof. split; [|done]. intros H. cbn. by apply is_Some_alter. Qed.

(** An exception the hardware can raise: a process is running unless it is an interrupt, and a
    system call in kernel mode has valid arguments. *)
Definition admissible s : Prop :=
  0 <= exec_code (bios_cause s) <= 12 /\
  (exec_code (bios_cause s) <> 0 -> currentProcess s <> NULL) /\
  (exec_code (bios_cause s) = 8 -> user_mode s = false -> valid_call s).

Lemma get_bios_cause s v :
  nucleus_inv s v -> get_state (SR_mem BIOSDATAPAGE) s_cause s = Ret (bios_cause s) s.
Proof.
  intros N. apply get_state_ok. cbn. by rewrite (bios_state_some _ _ _ (nucleus_kernel _ _ N)).
Qed.

(** The first handler of each case is the only one that runs. *)
Lemma exception_switch_select s c R :
  0 <= c <= 12 ->
  (c = 0 -> stops interruptTrapHandler s R) -> (1 <= c <= 3 -> stops tlbTrapHandler s R) ->
  (c = 8 -> stops systemTrapHandler s R) ->
  (4 <= c <= 7 \/ 9 <= c <= 12 -> stops programTrapHandler s R) ->
  stops (exception_switch c) s R.
Proof.
  intros Hr H0 H1 H8 H4. unfold exception_switch. cbv zeta.
  destruct (Z.eqb_spec c 0) as [E0|E0]; [by apply stops_bind, H0|].
  destruct ((1 <=? c) && (c <=? 3)) eqn:E1; [apply stops_bind, H1; lia|].
  destruct (Z.eqb_spec c 8) as [E8|E8]; [by apply stops_bind, H8|].
  destruct (((4 <=? c) && (c <=? 7)) || ((9 <=? c) && (c <=? 12))) eqn:E2; [apply H4; lia|]. lia.
Qed.

Lemma exceptionHandler_select s v R :
  nucleus_inv s v -> stops (exception_switch (exec_code (bios_cause s))) s R -> stops exceptionHandler s R.
Proof.
  intros N H. unfold exceptionHandler, stops. eapply wp_bind_Ret; [by apply (get_bios_cause s v)|]. exact H.
Qed.

End handlers.
