(* ===== verification/Contract.v ===== *)
(** * What the handlers promise to the entry point

    An exception is a request.  A contract is a relation between the states around a handler, per
    request; [HandlerContract] says that every handler keeps it.  The entry point
    ([exceptionHandler], with the dispatch of system calls and interrupts) then keeps it too,
    whatever the contract is: its proof is done once, against the class. *)
From S2P Require Export ExceptionSpec.

(** What an exception asks of the kernel. *)
Inductive request : Type :=
| RNone
| RStray
| RCreate
| RKill
| RP (k : Z)
| RV (k : Z)
| RIO (k : Z)
| RClock (k : Z)
| RDevice (k : Z)
| RTick (k : Z)
| RSlice.

Section contract.
Context {m : Machine}.
Implicit Types (s : kstate) (v : view) (r : request).

(** The device semaphore of a device interrupt. *)
Definition device_key s : Z :=
  let line := interrupt_line (bios_cause s) in
  let b := default 0 (vec_to_list (interrupt_dev (bus s)) !! Z.to_nat (line - BASE_LINE)) in
  let i := device_index line (device_of_bitmap b) in
  let d := default (MkDevice 0 0 0 0) (vec_to_list (devreg (bus s)) !! Z.to_nat i) in
  sem_addr (fst (device_event line i d)).

(** A trap is passed up, or kills. *)
Definition trap_request s : request :=
  if default NULL (fld p_supportStruct (pcbs s) (currentProcess s)) =? NULL then RKill else RNone.

Definition call_request s : request :=
  let n := syscall_number s in
  if n =? SYS1_NUM then RCreate
  else if n =? SYS2_NUM then RKill
  else if n =? SYS3_NUM then RP (ptr_of_int (arg s s_a1))
  else if n =? SYS4_NUM then RV (ptr_of_int (arg s s_a1))
  else if n =? SYS5_NUM then RIO (sem_addr (wait_index (arg s s_a1) (arg s s_a2) (arg s s_a3)))
  else if n =? SYS6_NUM then RNone
  else if n =? SYS7_NUM then RClock (sem_addr CLOCK_INDEX)
  else if n =? SYS8_NUM then RNone
  else trap_request s.

(** What the exception pending in [s] asks for. *)
Definition exception_request s : request :=
  let c := exec_code (bios_cause s) in
  if c =? 0 then
    if line1 s then (if currentProcess s =? NULL then RStray else RSlice)
    else if line2 s then RTick (sem_addr CLOCK_INDEX) else RDevice (device_key s)
  else if (c =? 8) && negb (user_mode s) then call_request s else trap_request s.

(** What happens before a handler runs: the exception state is adjusted and becomes the state of the
    running process. *)
Definition entered s s0 : Prop :=
  steady nothing s s0 /\ currentProcess s0 = currentProcess s /\
  fld p_supportStruct (pcbs s0) (currentProcess s) = fld p_supportStruct (pcbs s) (currentProcess s).

Class HandlerContract (post : kstate -> view -> request -> exit_event -> kstate -> Prop) : Prop := {
  contract_entry s s0 v r e s' : nucleus_inv s v -> entered s s0 -> post s0 v r e s' -> post s v r e s';
  contract_create s v a u :
    nucleus_inv s v -> currentProcess s <> NULL -> is_Some (states s !! a) -> support_ok s u ->
    stops (createProcess a u) s (post s v RCreate);
  contract_terminate s v :
    nucleus_inv s v -> currentProcess s <> NULL -> stops terminate_current s (post s v RKill);
  contract_passeren s v k :
    nucleus_inv s v -> currentProcess s <> NULL -> sem_key k -> is_Some (ints s !! k) ->
    stops (passeren k) s (post s v (RP k));
  contract_verhogen s v k :
    nucleus_inv s v -> currentProcess s <> NULL -> sem_key k -> is_Some (ints s !! k) ->
    stops (verhogen k) s (post s v (RV k));
  contract_waitForIO s v line device read :
    nucleus_inv s v -> currentProcess s <> NULL -> 0 <= wait_index line device read < MAX_DEVICE_COUNT ->
    stops (waitForIO line device read) s (post s v (RIO (sem_addr (wait_index line device read))));
  contract_getCPUTime s v :
    nucleus_inv s v -> currentProcess s <> NULL -> stops getCPUTime s (post s v RNone);
  contract_waitForClock s v :
    nucleus_inv s v -> currentProcess s <> NULL -> stops waitForClock s (post s v (RClock (sem_addr CLOCK_INDEX)));
  contract_getSupportData s v :
    nucleus_inv s v -> currentProcess s <> NULL -> stops getSupportData s (post s v RNone);
  contract_trap s v ix :
    nucleus_inv s v -> currentProcess s <> NULL -> stops (passUpOrDie ix) s (post s v (trap_request s));
  contract_stray s v : nucleus_inv s v -> currentProcess s = NULL -> post s v RStray Panic s;
  contract_slice s v :
    nucleus_inv s v -> currentProcess s <> NULL -> savedExceptionState s = BIOSDATAPAGE ->
    stops PLTInterruptHandler s (post s v RSlice);
  contract_tick s v :
    nucleus_inv s v -> savedExceptionState s = BIOSDATAPAGE ->
    stops intervalTimerInterruptHandler s (post s v (RTick (sem_addr CLOCK_INDEX)));
  contract_device s v :
    nucleus_inv s v -> savedExceptionState s = BIOSDATAPAGE ->
    stops nonTimerInterruptHandler s (post s v (RDevice (device_key s)))
}.

(** * Lemmas *)
Context {mok : MachineOk m}.

Lemma call_request_out s :
  ~ (SYS1_NUM <= syscall_number s <= SYS8_NUM) -> call_request s = trap_request s.
Proof.
  intros Hn. unfold call_request, SYS1_NUM, SYS2_NUM, SYS3_NUM, SYS4_NUM, SYS5_NUM, SYS6_NUM, SYS7_NUM, SYS8_NUM in *.
  by rewrite !(proj2 (Z.eqb_neq _ _)) by lia.
Qed.

Lemma entered_states f s s0 :
  currentProcess s0 = currentProcess s -> pcbs s0 = pcbs s -> ints s0 = ints s -> supports s0 = supports s ->
  softBlockedCount s0 = softBlockedCount s -> states s0 = alter f BIOSDATAPAGE (states s) -> entered s s0.
Proof.
  intros Ec Ep Ei Es Eb Et. split; [split; [split|done..]|by rewrite Ep].
  - intros x _. by rewrite Ep.
  - intros a _. by rewrite Es.
  - intros a Ha. by rewrite Et, lookup_alter_ne.
Qed.

Lemma entered_interrupt s : entered s (interrupt_entry s).
Proof. by split. Qed.

Lemma entered_syscall s : entered s (syscall_entry s).
Proof. by eapply entered_states. Qed.

Lemma entered_user s : entered s (user_entry s).
Proof.
  apply (entered_states (fun st => reserved_instruction (set_s_pc (u32 (s_pc st + WORDLEN)) st))); try done.
  cbn. apply alter_alter_eq.
Qed.

Lemma entered_call s : entered s (served_call s).
Proof.
  split; [|split; [done|cbn; by rewrite fld_alter_other]].
  apply (steady_from _ s (syscall_entry s)); [apply entered_syscall|done..|].
  split; [|done..]. by apply (kept_pcb _ _ _ _ (syscall_entry s)).
Qed.

Section entry_point.
Context (post : kstate -> view -> request -> exit_event -> kstate -> Prop) {Hpost : HandlerContract post}.

Lemma contract_from s s0 v r (c : K unit) :
  nucleus_inv s v -> entered s s0 -> stops c s0 (post s0 v r) -> stops c s0 (post s v r).
Proof. intros N He. apply stops_mono. intros e s'. by apply contract_entry. Qed.

Lemma contract_dispatch s v :
  nucleus_inv s v -> currentProcess s <> NULL -> user_mode s = false ->
  SYS1_NUM <= syscall_number s <= SYS8_NUM -> valid_call s ->
  stops (dispatch_syscall (syscall_number s)) (served_call s) (post s v (call_request s)).
Proof.
  intros N Hc Hu Hn (V1 & V34 & V5). destruct (systemTrapHandler_call s v N Hc Hu Hn) as (_ & N2 & _).
  pose proof (fun r : fin STATEREGNUM => current_reg_ok s v r N Hc Hu Hn) as Harg.
  destruct (served_call_memory s (ptr_of_int (arg s s_a1))) as (Hst & Hsup & Hint & Hsav & Hcur).
  apply contract_from; [done|apply entered_call|]. rewrite <- Hcur in Hc. rewrite <- Hsup in V1. rewrite <- Hint in V34.
  unfold call_request. cbv zeta. generalize (trap_request s) as other. intros other.
  clear Hsup Hint Hcur. revert N2 Harg Hst Hsav Hc V1 V34. generalize (served_call s) as sc.
  intros sc N2 Harg Hst Hsav Hc V1 V34. unfold dispatch_syscall.
  destruct (Z.eqb_spec (syscall_number s) SYS1_NUM) as [E|E1].
  { unfold stops. do 2 (eapply wp_bind_Ret; [apply Harg|]). destruct (V1 E) as [? Hsup].
    apply (contract_create sc v); [done|done|auto|]. destruct Hsup as [->|?]; [by left|by right]. }
  destruct (Z.eqb_spec (syscall_number s) SYS2_NUM) as [E|E2]; [by apply contract_terminate|].
  destruct (Z.eqb_spec (syscall_number s) SYS3_NUM) as [E|E3].
  { eapply wp_bind_Ret; [apply Harg|]. destruct V34; [by left|]. by apply (contract_passeren sc v). }
  destruct (Z.eqb_spec (syscall_number s) SYS4_NUM) as [E|E4].
  { eapply wp_bind_Ret; [apply Harg|]. destruct V34; [by right|]. by apply (contract_verhogen sc v). }
  destruct (Z.eqb_spec (syscall_number s) SYS5_NUM) as [E|E5].
  { unfold stops. do 3 (eapply wp_bind_Ret; [apply Harg|]). apply (contract_waitForIO sc v); auto. }
  destruct (Z.eqb_spec (syscall_number s) SYS6_NUM) as [E|E6]; [by apply contract_getCPUTime|].
  destruct (Z.eqb_spec (syscall_number s) SYS7_NUM) as [E|E7]; [by apply contract_waitForClock|].
  destruct (Z.eqb_spec (syscall_number s) SYS8_NUM) as [E|E8]; [by apply contract_getSupportData|].
  unfold SYS1_NUM, SYS2_NUM, SYS3_NUM, SYS4_NUM, SYS5_NUM, SYS6_NUM, SYS7_NUM, SYS8_NUM in *. lia.
Qed.

Lemma contract_interrupt s v :
  nucleus_inv s v ->
  stops interruptTrapHandler s (post s v
    (if line1 s then (if currentProcess s =? NULL then RStray else RSlice)
     else if line2 s then RTick (sem_addr CLOCK_INDEX) else RDevice (device_key s))).
Proof.
  intros N. destruct (interruptTrapHandler_select s v N) as [N1 Hsel]. apply Hsel. clear Hsel.
  apply contract_from; [done|apply entered_interrupt|]. destruct (line1 s).
  - destruct (Z.eqb_spec (currentProcess s) NULL) as [E|E]; [|by apply contract_slice].
    eapply stops_intro; [by apply PLTInterruptHandler_idle|]. by apply contract_stray.
  - destruct (line2 s); [by apply contract_tick|]. by apply (contract_device (interrupt_entry s) v).
Qed.

Lemma contract_system s v :
  nucleus_inv s v -> currentProcess s <> NULL -> (user_mode s = false -> valid_call s) ->
  stops systemTrapHandler s (post s v (if user_mode s then trap_request s else call_request s)).
Proof.
  intros N Hc Hv. pose proof (syscall_entry_inv s v N) as N1. destruct (user_mode s) eqn:Hu.
  - apply (systemTrapHandler_user s v); [done..|]. apply contract_from; [done|apply entered_user|].
    apply (contract_trap (user_entry s) v); [|done]. by apply nucleus_states.
  - destruct (decide (SYS1_NUM <= syscall_number s <= SYS8_NUM)) as [Hn|Hn].
    + destruct (systemTrapHandler_call s v N Hc Hu Hn) as (Hr & _). unfold stops, wp. rewrite Hr.
      by apply (contract_dispatch s v); auto.
    + apply (systemTrapHandler_range s v); [done..|]. rewrite call_request_out by done.
      apply contract_from; [done|apply entered_syscall|]. by apply (contract_trap (syscall_entry s) v).
Qed.

(** The entry point keeps the contract of its handlers. *)
Lemma contract_exception s v :
  nucleus_inv s v -> admissible s -> stops exceptionHandler s (post s v (exception_request s)).
Proof.
  intros N (Hr & Hc & Hv). apply (exceptionHandler_select s v); [done|].
  unfold exception_request. cbv zeta. apply exception_switch_select; [done|..]; intros E.
  - rewrite E. by apply contract_interrupt.
  - rewrite !(proj2 (Z.eqb_neq _ _)) by lia. apply contract_trap; [done|]. apply Hc. lia.
  - rewrite E. change (8 =? 0) with false. change (8 =? 8) with true. cbn [andb].
    eapply stops_mono; [|apply (contract_system s v); [done| |auto]]; [|apply Hc; lia].
    intros e s'. by destruct (user_mode s).
  - rewrite !(proj2 (Z.eqb_neq _ _)) by lia. apply contract_trap; [done|]. apply Hc. lia.
Qed.
End entry_point.
End contract.
