(* ===== verification/Isolation.v ===== *)
(** * What an exception leaves alone

    Whatever the exception is, the saved state, the CPU time and the support structure of every
    process but the running one stay; the exceptions to the rule are the new process of a SYS1
    and the process a device interrupt wakes, which gets the device status in its v0. *)
From S2P Require Export Contract.

Section isolation.
Context {m : Machine}.
Implicit Types (s : kstate) (v : view) (r : request).

(** The pcbs a request may change: of the running process, of the new process, of the process
    woken. *)
Definition may_change s v r (x : Z) : Prop :=
  x = currentProcess s \/
  match r with
  | RCreate => head (v_free v) = Some x
  | RDevice k => head (waiting v k) = Some x
  | _ => False
  end.

(** The support structure of the running process. *)
Definition own_support s (a : Z) : Prop := fld p_supportStruct (pcbs s) (currentProcess s) = Some a.

Definition isolated s v r (e : exit_event) s' : Prop :=
  kept (may_change s v r) (own_support s) s s' /\
  forall k x, r = RDevice k -> head (waiting v k) = Some x ->
    (exists z, fld p_s (pcbs s') x = Some (set_reg s_v0 z (saved_state s x))) /\
    fld p_supportStruct (pcbs s') x = fld p_supportStruct (pcbs s) x.

(** * Lemmas *)
Context {mok : MachineOk m}.

(** A handler that changes the running process only. *)
Lemma isolated_kept s v r e s' U :
  (forall k, r <> RDevice k) -> (forall a, U a -> own_support s a) -> kept (eq (currentProcess s)) U s s' ->
  isolated s v r e s'.
Proof.
  intros Hr HU Hk. split; [|intros k x E; by destruct (Hr k)]. eapply kept_mono; [|exact HU|exact Hk]. intros x <-. by left.
Qed.

Lemma isolated_steady s v r e s' : (forall k, r <> RDevice k) -> steady nothing s s' -> isolated s v r e s'.
Proof. intros Hr [Hk _ _]. by apply (isolated_kept _ _ _ _ _ nothing). Qed.

Lemma P_isolated s v r k words soft1 soft2 (b : bool) (c : K unit) :
  (forall k, r <> RDevice k) ->
  stops c s (fun e s' => if b then blocked_switch s v k words soft1 e s' else goes_on s v words soft2 e s') ->
  stops c s (isolated s v r).
Proof.
  intros Hr. apply stops_mono. intros e s' H. apply (isolated_kept _ _ _ _ _ nothing); [done..|].
  destruct b; [destruct H as (? & ? & _ & _ & _ & H)|destruct H as (_ & _ & _ & H)]; by eapply kept_charge.
Qed.

Lemma kill_isolated s v r e s' : (forall k, r <> RDevice k) -> terminated s v e s' -> isolated s v r e s'.
Proof.
  intros Hr (D & s1 & v1 & v' & _ & _ & [Hp _ _ _ (_ & Hs & Ht & _)] & Hd & _).
  apply (isolated_kept _ _ _ _ _ nothing); [done..|]. transitivity s1; [|by apply kept_same].
  split; [|by rewrite Hs|by rewrite Ht]. intros x _. destruct (Hp x) as (? & ? & ? & _). done.
Qed.

Lemma create_isolated s v a u :
  nucleus_inv s v -> currentProcess s <> NULL -> is_Some (states s !! a) -> support_ok s u ->
  stops (createProcess a u) s (isolated s v RCreate).
Proof.
  intros N Hc [st Hst] Hu. destruct (v_free v) as [|p l] eqn:Ef.
  - eapply stops_mono; [|by apply createProcess_full]. intros e s' (_ & _ & _ & Hs). by apply isolated_steady.
  - eapply stops_mono; [|by apply (createProcess_ok s v a st u p l)].
    intros e s' (_ & _ & _ & _ & _ & _ & Hk & _). split; [|done].
    eapply kept_mono; [| |exact Hk]; [|done]. intros x [->| ->]; [by left|right]. cbn. by rewrite Ef.
Qed.

Lemma trap_isolated s v ix :
  nucleus_inv s v -> currentProcess s <> NULL -> stops (passUpOrDie ix) s (isolated s v (trap_request s)).
Proof.
  intros N Hc. eapply stops_mono; [|by apply passUpOrDie_ok]. intros e s' (u & Hu & H).
  unfold trap_request. rewrite Hu. cbn. destruct (u =? NULL).
  - by apply kill_isolated.
  - destruct H as (sup & _ & _ & _ & _ & _ & [Hk _ _]). apply (isolated_kept _ _ _ _ _ (eq u)); [done| |done].
    by intros a <-.
Qed.

(** The head of a queue is not the running process. *)
Lemma waiting_head_other s v k x : nucleus_inv s v -> head (waiting v k) = Some x -> x <> currentProcess s.
Proof.
  intros N Hx. destruct (waiting v k) as [|p q] eqn:E; [done|]. injection Hx as ->. intros Ex.
  destruct (decide (currentProcess s = NULL)) as [Hc|Hc].
  - apply (inv_live_NULL _ _ _ (nucleus_kernel _ _ N)). rewrite <- Hc, <- Ex.
    apply (inv_waiting_live s v _ k); [apply N|]. rewrite E. left.
  - apply (waiting_not_running s v k x q N E Hc). rewrite Ex. left.
Qed.

Lemma device_isolated s v :
  nucleus_inv s v -> savedExceptionState s = BIOSDATAPAGE ->
  stops nonTimerInterruptHandler s (isolated s v (RDevice (device_key s))).
Proof.
  intros N Hs. eapply stops_mono; [|by apply nonTimerInterruptHandler_ok].
  intros e s' (b & d & s1 & v1 & Hb & Hd & (_ & Hserved) & Hc1 & H). unfold device_key, bios_cause.
  rewrite Hb. cbn [default from_option id]. rewrite Hd. cbn [default from_option id].
  set (k := sem_addr _) in *.
  assert (kept (eq (currentProcess s)) nothing s1 s') as Hk.
  { destruct (currentProcess s =? NULL); [destruct H as (v' & _ & _ & H); by apply kept_same|].
    rewrite <- Hc1. apply H. }
  split.
  - transitivity s1; [|eapply kept_mono; [| |exact Hk]; [intros x <-; by left|done]].
    destruct (waiting v k) as [|p q] eqn:Eq.
    + destruct Hserved as (_ & _ & Hk1). eapply kept_mono; [| |exact Hk1]; done.
    + destruct Hserved as (_ & _ & _ & _ & Hk1). eapply kept_mono; [| |exact Hk1]; [|done].
      intros x <-. right. cbn. by rewrite Eq.
  - intros k' x [= <-] Hx. pose proof (waiting_head_other s v k x N Hx) as Hne.
    destruct (kept_pcbs _ _ _ _ Hk x) as (-> & _ & ->); [congruence|].
    destruct (waiting v k) as [|p q]; [done|]. injection Hx as ->. destruct Hserved as (_ & _ & -> & -> & _). eauto.
Qed.

#[export] Instance isolated_contract : HandlerContract isolated.
Proof.
  split.
  - intros s s0 v r e s' N ([Hk0 _ _] & Hc & Hsup) [Hk Hw]. split.
    + transitivity s0; [eapply kept_mono; [| |exact Hk0]; [intros x <-; by left|done]|].
      eapply kept_mono; [| |exact Hk]; [unfold may_change; by rewrite Hc|]. unfold own_support. by rewrite Hc, Hsup.
    + intros k x Hr Hx. destruct (Hw k x Hr Hx) as [[z Hz] Hu].
      pose proof (waiting_head_other s v k x N Hx) as Hne.
      destruct (kept_pcbs _ _ _ _ Hk0 x) as (Es & _ & Eu); [congruence|]. split; [|congruence].
      exists z. rewrite Hz. unfold saved_state. by rewrite Es.
  - apply create_isolated.
  - intros s v N Hc. eapply stops_mono; [|by apply terminate_current_ok]. intros e s'. by apply kill_isolated.
  - intros s v k N Hc Hk [n Hn]. eapply P_isolated; [done|by apply passeren_ok].
  - intros s v k N Hc Hk [n Hn]. eapply stops_mono; [|by eapply verhogen_ok].
    intros e s' (v' & (_ & _ & _ & Hd) & _). apply (isolated_kept _ _ _ _ _ nothing); [done..|]. by eapply kept_charge.
  - intros s v line device read N Hc Hi. destruct (inv_sems _ _ _ (nucleus_kernel _ _ N) _ Hi) as [n Hn].
    eapply P_isolated; [done|by apply waitForIO_ok].
  - intros s v N Hc. destruct (nucleus_stored _ _ N Hc) as [r Hr].
    eapply stops_mono; [|apply (getCPUTime_ok s v (p_time r)); [done..|unfold fld; by rewrite Hr]].
    intros e s' [(_ & _ & _ & H) _]. by apply isolated_steady.
  - intros s v N Hc. destruct (inv_sems _ _ _ (nucleus_kernel _ _ N) CLOCK_INDEX ltac:(done)) as [n Hn].
    eapply P_isolated; [done|by apply waitForClock_ok].
  - intros s v N Hc. destruct (nucleus_stored _ _ N Hc) as [r Hr].
    eapply stops_mono; [|apply (getSupportData_ok s v (p_supportStruct r)); [done..|unfold fld; by rewrite Hr]].
    intros e s' (_ & _ & _ & H). by apply isolated_steady.
  - apply trap_isolated.
  - intros s v N _. by apply isolated_steady.
  - intros s v N Hc Hs. eapply stops_mono; [|by apply PLTInterruptHandler_ok].
    intros e s' (v' & _ & _ & _ & _ & H). by apply isolated_steady.
  - intros s v N Hs. eapply stops_mono; [|by apply intervalTimerInterruptHandler_ok].
    intros e s' (v1 & _ & _ & _ & H & _). by apply (isolated_kept _ _ _ _ _ nothing).
  - apply device_isolated.
Qed.
End isolation.
