(* ===== verification/AbsKernel.v ===== *)
(** * The abstract kernel

    What the nucleus promises, without memory: a running process, a ready list, a list of free
    process slots, for each semaphore a value and a queue, and the count of the processes that wait
    for input or output.  Each exception is a request, and each request a step of the abstract
    kernel; the state after it tells whether the machine runs on, waits, halts or panics. *)
From S2P Require Export Contract Semaphores.

Record abs : Type := Abs {
  a_cur : Z;
  a_ready : list Z;
  a_free : list Z;
  a_queue : Z -> list Z;
  a_value : Z -> option Z;
  a_kids : Z -> list Z;
  a_soft : Z
}.

(** The processes that exist. *)
Definition a_live (a : abs) (p : Z) : Prop :=
  p ∈ a_ready a \/ (exists k, p ∈ a_queue a k) \/ (a_cur a <> NULL /\ p = a_cur a).

(** Two abstract states are the same when they agree on every semaphore and on the children of every
    process. *)
#[export] Instance abs_equiv : Equiv abs := fun a b =>
  a_cur a = a_cur b /\ a_ready a = a_ready b /\ a_free a = a_free b /\
  (forall k, a_queue a k = a_queue b k) /\ (forall k, sem_key k -> a_value a k = a_value b k) /\
  (forall p, a_live a p -> a_kids a p = a_kids b p) /\ a_soft a = a_soft b.

Definition set_cur (c : Z) (a : abs) : abs :=
  Abs c (a_ready a) (a_free a) (a_queue a) (a_value a) (a_kids a) (a_soft a).
Definition set_ready (l : list Z) (a : abs) : abs :=
  Abs (a_cur a) l (a_free a) (a_queue a) (a_value a) (a_kids a) (a_soft a).
Definition set_queue (k : Z) (q : list Z) (a : abs) : abs :=
  Abs (a_cur a) (a_ready a) (a_free a) (<[k := q]> (a_queue a)) (a_value a) (a_kids a) (a_soft a).
Definition set_value (k z : Z) (a : abs) : abs :=
  Abs (a_cur a) (a_ready a) (a_free a) (a_queue a) (<[k := Some z]> (a_value a)) (a_kids a) (a_soft a).
Definition set_soft (z : Z) (a : abs) : abs :=
  Abs (a_cur a) (a_ready a) (a_free a) (a_queue a) (a_value a) (a_kids a) z.

(** The first ready process runs. *)
Definition a_dispatch (a : abs) : abs :=
  match a_ready a with
  | [] => set_cur NULL a
  | p :: l => set_cur p (set_ready l a)
  end.

(** The first waiting process becomes ready. *)
Definition a_wake (k : Z) (a : abs) : abs :=
  match a_queue a k with
  | [] => a
  | p :: q => set_ready (a_ready a ++ [p]) (set_queue k q a)
  end.

(** Without a running process, one is chosen. *)
Definition a_settle (a : abs) : abs := if a_cur a =? NULL then a_dispatch a else a.

Definition a_P (k : Z) (a : abs) : abs :=
  let n := i32 (default 0 (a_value a k) - 1) in
  let a1 := set_value k n a in
  if n <? 0 then a_dispatch (set_queue k (a_queue a k ++ [a_cur a]) a1) else a1.

Definition a_V (k : Z) (a : abs) : abs :=
  let n := i32 (default 0 (a_value a k) + 1) in
  let a1 := set_value k n a in
  if n <=? 0 then a_wake k a1 else a1.

(** P for input or output: the caller is counted before it is known whether it waits. *)
Definition a_IO (k : Z) (a : abs) : abs := a_P k (set_soft (i32 (a_soft a + 1)) a).

(** P on the clock: the caller is counted when it waits. *)
Definition a_clock (k : Z) (a : abs) : abs :=
  a_P k (if i32 (default 0 (a_value a k) - 1) <? 0 then set_soft (i32 (a_soft a + 1)) a else a).

(** [n] processes wait no more. *)
Definition uncount (n : nat) (a : abs) : abs := set_soft (Nat.iter n (fun z => i32 (z - 1)) (a_soft a)) a.

Definition a_device (k : Z) (a : abs) : abs :=
  a_settle (a_wake k (uncount (min 1 (length (a_queue a k)))
    (set_value k (i32 (default 0 (a_value a k) + 1)) a))).

Definition a_tick (k : Z) (a : abs) : abs :=
  a_settle (uncount (length (a_queue a k))
    (set_value k 0 (set_queue k [] (set_ready (a_ready a ++ a_queue a k) a)))).

Definition a_slice (a : abs) : abs := a_dispatch (set_ready (a_ready a ++ [a_cur a]) a).

Definition a_create (a : abs) : abs :=
  match a_free a with
  | [] => a
  | p :: l => Abs (a_cur a) (a_ready a ++ [p]) l (a_queue a) (a_value a)
                (<[a_cur a := p :: a_kids a (a_cur a)]> (<[p := []]> (a_kids a))) (a_soft a)
  end.

(** The process waits for one of the semaphores [devices]. *)
Definition waits_for (devices : list Z) (a : abs) (x : Z) : Prop := Exists (fun k => x ∈ a_queue a k) devices.
#[export] Instance waits_for_dec devices a x : Decision (waits_for devices a x).
Proof. unfold waits_for. apply _. Defined.

(** The processes [D] end; the values of the semaphores [devices] are not adjusted. *)
Definition a_kill (devices D : list Z) (a : abs) : abs :=
  a_dispatch (uncount (length (filter (waits_for devices a) D))
   (Abs NULL (without D (a_ready a)) (reverse D ++ a_free a)
    (fun k => without D (a_queue a k))
    (fun k => (if bool_decide (k ∈ devices) then fun n => n
               else Nat.iter (length (filter (fun x => x ∈ a_queue a k) D)) (fun n => i32 (n + 1))) <$> a_value a k)
    (fun q => filter (fun x => x <> a_cur a) (a_kids a q)) (a_soft a))).

Definition a_step (devices : list Z) (r : request) (a a' : abs) : Prop :=
  match r with
  | RNone | RStray => a' ≡ a
  | RCreate => a' ≡ a_create a
  | RKill => exists D, NoDup D /\ (forall x, x ∈ D <-> descends (a_kids a) (a_cur a) x) /\ a' ≡ a_kill devices D a
  | RP k => a' ≡ a_P k a
  | RV k => a' ≡ a_V k a
  | RIO k => a' ≡ a_IO k a
  | RClock k => a' ≡ a_clock k a
  | RDevice k => a' ≡ a_device k a
  | RTick k => a' ≡ a_tick k a
  | RSlice => a' ≡ a_slice a
  end.

(** How the kernel gives up the processor. *)
Inductive leave : Type := LRun | LHalt | LWait | LPanic.

(** Without a running process: no process at all, somebody waiting for input or output, or neither. *)
Definition a_leaves (r : request) (a : abs) : leave :=
  match r with
  | RStray => LPanic
  | _ => if a_cur a =? NULL then
           if Z.of_nat (length (a_free a)) =? MAXPROC then LHalt
           else if 0 <? a_soft a then LWait else LPanic
         else LRun
  end.

(** The processor is given up that way, and never while somebody is ready. *)
Definition a_gives_up (r : request) (x : leave) (a : abs) : Prop :=
  x = a_leaves r a /\ (r <> RStray -> a_cur a = NULL -> a_ready a = []).

Definition leave_of (e : exit_event) : leave :=
  match e with Ldst _ | Ldcxt _ _ _ => LRun | Halt => LHalt | Wait => LWait | Panic => LPanic end.

(** The value of [k] counts its queue: minus the number of waiting processes, or not negative with
    nobody waiting. *)
Definition a_balanced (a : abs) (k : Z) : Prop :=
  exists n, a_value a k = Some n /\ length (a_queue a k) = Z.to_nat (- n).

(** * Lemmas *)
Lemma a_live_equiv a b p : a ≡ b -> a_live a p <-> a_live b p.
Proof.
  intros (Hc & Hr & _ & Hq & _). unfold a_live. rewrite Hc, Hr.
  setoid_rewrite Hq. done.
Qed.

#[export] Instance abs_equivalence : Equivalence (≡@{abs}).
Proof.
  split.
  - intros a. done.
  - intros a b E. pose proof E as (Hc & Hr & Hf & Hq & Hv & Hk & Hs). split_and!; auto.
    + intros k Hkey. by rewrite Hv.
    + intros p Hp. rewrite Hk; [done|]. by apply (a_live_equiv a b).
  - intros a b c E (Hc2 & Hr2 & Hf2 & Hq2 & Hv2 & Hk2 & Hs2). pose proof E as (Hc & Hr & Hf & Hq & Hv & Hk & Hs).
    split_and!; try congruence.
    + intros k Hkey. by rewrite Hv, Hv2.
    + intros p Hp. rewrite Hk, Hk2; [done| |done]. by apply (a_live_equiv a b).
Qed.

Section represented.
Context {m : Machine} {mok : MachineOk m}.
Implicit Types (s : kstate) (v : view).

(** The abstract state of the nucleus. *)
Definition abs_of s v : abs :=
  Abs (currentProcess s) (v_ready v) (v_free v) (waiting v) (fun k => ints s !! k) (v_kids v) (softBlockedCount s).

(** The addresses that [terminateProcess] takes for device semaphores. *)
Definition device_keys : list Z := seqZ (sem_addr 0) (sem_addr CLOCK_INDEX - sem_addr 0 + 1).

Lemma elem_of_device_keys k : k ∈ device_keys <-> is_device_sem k = true.
Proof. unfold device_keys, is_device_sem. rewrite elem_of_seqZ, andb_true_iff, !Z.leb_le. lia. Qed.

Lemma device_keys_NoDup : NoDup device_keys.
Proof. apply NoDup_seqZ. Qed.

Lemma is_device_sem_decide k : is_device_sem k = bool_decide (k ∈ device_keys).
Proof. case_bool_decide as H; rewrite elem_of_device_keys in H; [done|by destruct (is_device_sem k)]. Qed.

Lemma a_live_of s v p : a_live (abs_of s v) p <-> p ∈ live v (running s).
Proof.
  rewrite elem_of_live. unfold a_live, running. cbn. split.
  - intros [H|[[k H]|[Hc ->]]]; [auto|right; left; by eapply procs_at_blocked|].
    right; right. rewrite (proj2 (Z.eqb_neq _ _) Hc). by left.
  - intros [H|[H|H]]; [auto|right; left; by apply blocked_waiting|]. destruct (Z.eqb_spec (currentProcess s) NULL).
    + by apply not_elem_of_nil in H.
    + apply list_elem_of_singleton in H. auto.
Qed.

(** The scheduler dispatches. *)
Lemma dispatched_abs v1 e v' s' :
  dispatched v1 e v' s' ->
  abs_of s' v' ≡ a_dispatch (Abs NULL (v_ready v1) (v_free v1) (waiting v1) (fun k => ints s' !! k) (v_kids v1)
    (softBlockedCount s')).
Proof.
  unfold dispatched, a_dispatch, abs_of. cbn. destruct (v_ready v1) as [|p l] eqn:El.
  - intros (-> & -> & _). rewrite El. done.
  - intros (_ & -> & -> & _). done.
Qed.

#[export] Instance dispatch_proper : Proper ((≡) ==> (≡)) a_dispatch.
Proof.
  intros a b E. pose proof E as (Hc & Hr & Hf & Hq & Hv & Hk & Hs). unfold a_dispatch. rewrite <- Hr.
  destruct (a_ready a) as [|p l] eqn:El; split_and!; auto; [cbn; congruence|..]; intros x Hx; cbn; apply Hk;
    unfold a_live in *; cbn in *.
  - destruct Hx as [?|[?|[? ?]]]; [auto|auto|done].
  - rewrite El, elem_of_cons. destruct Hx as [?|[?|[? ?]]]; auto.
Qed.

(** After a put, the queues are the updated ones. *)
Lemma put_queue v k (q : list Z) L' fs' : asl_put (v_entries v) k q L' ->
  forall k', waiting (with_asl L' fs' v) k' = <[k := q]> (waiting v) k'.
Proof.
  intros [Hq Ho] k'. unfold waiting at 1. cbn. destruct (decide (k' = k)) as [->|].
  - by rewrite fn_lookup_insert.
  - rewrite fn_lookup_insert_ne by done. by apply Ho.
Qed.
End represented.

(** ** Balance *)
Section balance.
Implicit Types (a : abs) (k n z : Z) (q D : list Z).

Lemma balanced_equiv a b k : a ≡ b -> sem_key k -> a_balanced a k -> a_balanced b k.
Proof. intros (_ & _ & _ & Hq & Hv & _ & _) Hk (n & Hn & Hl). exists n. by rewrite <- Hv, <- Hq. Qed.

Lemma balanced_dispatch a k : a_balanced a k -> a_balanced (a_dispatch a) k.
Proof. unfold a_dispatch. by destruct (a_ready a). Qed.

Lemma balanced_settle a k : a_balanced a k -> a_balanced (a_settle a) k.
Proof. unfold a_settle. destruct (a_cur a =? NULL); [apply balanced_dispatch|done]. Qed.

(** The value and the queue of [k0] change together. *)
Lemma balanced_set a b k0 n q k :
  length q = Z.to_nat (- n) -> (forall k', a_value b k' = <[k0 := Some n]> (a_value a) k') ->
  (forall k', a_queue b k' = <[k0 := q]> (a_queue a) k') -> a_balanced a k -> a_balanced b k.
Proof.
  intros Hl Hv Hq (z & Hz & Hlz). unfold a_balanced. rewrite Hv, Hq. destruct (decide (k = k0)) as [->|].
  - exists n. by rewrite !fn_lookup_insert.
  - exists z. by rewrite !fn_lookup_insert_ne.
Qed.

(** One more in the value, one less in the queue. *)
Lemma balanced_wake a k0 n k :
  a_balanced a k0 -> a_value a k0 = Some n -> -20 <= n < 2 ^ 31 - 1 -> a_balanced a k ->
  a_balanced (a_wake k0 (set_value k0 (i32 (n + 1)) a)) k.
Proof.
  intros (z & Hz & Hl) Hn Hr Hk. assert (z = n) as -> by congruence. rewrite (i32_small (n + 1)) by (unfold in_i32; lia). unfold a_wake. cbn.
  destruct (a_queue a k0) as [|p q] eqn:Eq; cbn [length] in Hl.
  - apply (balanced_set a _ k0 (n + 1) []); [cbn [length]; lia|done| |done]. intros k'. cbn.
    destruct (decide (k' = k0)) as [->|]; [by rewrite fn_lookup_insert|by rewrite fn_lookup_insert_ne].
  - apply (balanced_set a _ k0 (n + 1) q); [lia|done..].
Qed.

Lemma balanced_V a k0 n k :
  a_balanced a k0 -> a_value a k0 = Some n -> -20 <= n < 2 ^ 31 - 1 -> a_balanced a k ->
  a_balanced (a_V k0 a) k.
Proof.
  intros H0 Hn Hr Hk. pose proof (balanced_wake a k0 n k H0 Hn Hr Hk) as Hw. destruct H0 as (z & Hz & Hl).
  assert (z = n) as -> by congruence. unfold a_V. rewrite Hn. cbn [default from_option id]. cbv zeta.
  destruct (Z.leb_spec (i32 (n + 1)) 0) as [|H]; [done|]. rewrite (i32_small (n + 1)) in * by (unfold in_i32; lia).
  destruct (a_queue a k0) as [|p q] eqn:Eq; cbn [length] in Hl; [|lia].
  unfold a_wake in Hw. cbn in Hw. by rewrite Eq in Hw.
Qed.

Lemma balanced_P a k0 n k :
  a_balanced a k0 -> a_value a k0 = Some n -> -20 <= n < 2 ^ 31 -> a_balanced a k -> a_balanced (a_P k0 a) k.
Proof.
  intros (z & Hz & Hl) Hn Hr Hk. assert (z = n) as -> by congruence. unfold a_P. rewrite Hn.
  cbn [default from_option id]. cbv zeta. rewrite (i32_small (n - 1)) by (unfold in_i32; lia).
  destruct (Z.ltb_spec (n - 1) 0).
  - apply balanced_dispatch. apply (balanced_set a _ k0 (n - 1) (a_queue a k0 ++ [a_cur a])); [|done..].
    rewrite length_app. cbn [length]. lia.
  - apply (balanced_set a _ k0 (n - 1) (a_queue a k0)); [lia|done| |done]. intros k'. cbn.
    destruct (decide (k' = k0)) as [->|]; [by rewrite fn_lookup_insert|by rewrite fn_lookup_insert_ne].
Qed.

Lemma balanced_kill devices D a k :
  k ∉ devices -> NoDup D -> NoDup (a_queue a k) -> (forall n, a_value a k = Some n -> -20 <= n < 2 ^ 31) ->
  a_balanced a k -> a_balanced (a_kill devices D a) k.
Proof.
  intros Hdev HD Hq Hr (n & Hn & Hl). specialize (Hr n Hn). apply balanced_dispatch.
  pose proof (without_length D (a_queue a k) HD Hq) as Hw. exists (n + Z.of_nat (length (filter (fun x => x ∈ a_queue a k) D))).
  cbn. rewrite bool_decide_eq_false_2, Hn by done. cbn. rewrite iter_inc by lia. split; [done|]. lia.
Qed.

(** A request about one semaphore leaves the others alone. *)
Definition only_touches (f : abs -> abs) (k0 : Z) : Prop := forall a k, k <> k0 ->
  a_value (f a) k = a_value a k /\ a_queue (f a) k = a_queue a k.

Lemma touches k0 :
  only_touches (a_P k0) k0 /\ only_touches (a_V k0) k0 /\ only_touches (a_device k0) k0 /\ only_touches (a_tick k0) k0 /\
  only_touches (a_IO k0) k0 /\ only_touches (a_clock k0) k0.
Proof.
  unfold only_touches, a_IO, a_clock, a_P, a_V, a_device, a_tick, a_settle, a_dispatch, a_wake.
  split_and!; intros a k Hk; repeat (case_match; cbn in * ); rewrite ?fn_lookup_insert_ne; done.
Qed.

Lemma balanced_other f k0 a k : only_touches f k0 -> k <> k0 -> a_balanced a k -> a_balanced (f a) k.
Proof. intros Hf Hk (n & Hn & Hl). destruct (Hf a k Hk) as [Ev Eq]. exists n. by rewrite Ev, Eq. Qed.

Lemma balanced_only f k0 a a' k :
  only_touches f k0 -> sem_key k -> k <> k0 -> a' ≡ f a -> a_balanced a k -> a_balanced a' k.
Proof. intros Hf Hk Hne E Hb. eapply balanced_equiv; [by symmetry|done|]. by apply (balanced_other _ k0). Qed.

(** The semaphores of the requests that come from devices are device semaphores. *)
Definition device_request (devices : list Z) (r : request) : Prop :=
  match r with RIO k | RClock k | RDevice k | RTick k => k ∈ devices | _ => True end.

(** A step keeps in balance every semaphore that is not a device semaphore. *)
Lemma step_balance devices r a a' k :
  sem_key k -> k ∉ devices -> (length (a_queue a k) <= 20)%nat -> NoDup (a_queue a k) ->
  (forall n, a_value a k = Some n -> n < 2 ^ 31 - 1) -> device_request devices r ->
  a_step devices r a a' -> a_balanced a k -> a_balanced a' k.
Proof.
  intros Hkey Hdev H20 Hnd Hmax Hr Hstep Hk. pose proof Hk as (n & Hn & Hl). specialize (Hmax n Hn).
  assert (-20 <= n) as Hmin by lia. pose proof touches as Ht.
  assert (forall b, a' ≡ b -> a_balanced b k -> a_balanced a' k) as Hback.
  { intros b E. apply balanced_equiv; [by symmetry|done]. }
  destruct r as [| | | |k0|k0|k0|k0|k0|k0|]; cbn in Hstep, Hr;
    try (refine (balanced_only _ k0 a a' k _ Hkey _ Hstep Hk); [apply Ht|by intros ->]).
  - by eapply Hback.
  - by eapply Hback.
  - eapply Hback; [done|]. unfold a_create. by destruct (a_free a).
  - destruct Hstep as (D & HD & _ & E). eapply Hback; [done|]. apply balanced_kill; try done.
    intros n' Hn'. assert (n' = n) as -> by congruence. lia.
  - eapply Hback; [done|]. destruct (decide (k = k0)) as [<-|Hne].
    + apply (balanced_P a k n); [done|done|lia|done].
    + by apply (balanced_other _ k0); [apply Ht|..].
  - eapply Hback; [done|]. destruct (decide (k = k0)) as [<-|Hne].
    + apply (balanced_V a k n); [done|done|lia|done].
    + by apply (balanced_other _ k0); [apply Ht|..].
  - eapply Hback; [done|]. by apply balanced_dispatch.
Qed.
End balance.
