(* ===== verification/Refinement.v ===== *)
(** * The nucleus refines the abstract kernel: one exception

    Each handler makes the step of the abstract kernel that its request asks for. *)
From S2P Require Export AbsKernel.

Section refinement.
Context {m : Machine} {mok : MachineOk m}.
Implicit Types (s : kstate) (v : view) (r : request).

(** After the handler the invariant holds for a view that is the abstract successor, and the nucleus
    gives up the processor as the abstract kernel says. *)
Definition simulates s v r (e : exit_event) s' : Prop :=
  exists v', nucleus_inv s' v' /\ a_step device_keys r (abs_of s v) (abs_of s' v') /\
    a_gives_up r (leave_of e) (abs_of s' v').

(** * Lemmas *)
Lemma dispatch_cur a : a_dispatch a = a_dispatch (set_cur NULL a).
Proof. done. Qed.

Lemma value_insert s s' k z :
  ints s' = <[k := z]> (ints s) ->
  forall k', sem_key k' -> ints s' !! k' = (<[k := Some z]> (fun j => ints s !! j)) k'.
Proof.
  intros -> k' _. destruct (decide (k' = k)) as [->|].
  - by rewrite lookup_insert_eq, fn_lookup_insert.
  - by rewrite lookup_insert_ne, fn_lookup_insert_ne.
Qed.

(** ** Giving up the processor *)
Lemma leaves_running s v r : currentProcess s <> NULL -> r <> RStray -> a_gives_up r LRun (abs_of s v).
Proof. intros Hc Hr. split; [|done]. destruct r; try done; cbn; by rewrite (proj2 (Z.eqb_neq _ _) Hc). Qed.

Lemma count_free s v : nucleus_inv s v -> (processCount s =? 0) = (Z.of_nat (length (v_free v)) =? MAXPROC).
Proof.
  intros N. rewrite (nucleus_count _ _ N). pose proof (inv_length _ _ _ (nucleus_kernel _ _ N)). unfold MAXPROC.
  destruct (Z.eqb_spec (Z.of_nat (length (live v (running s)))) 0), (Z.eqb_spec (Z.of_nat (length (v_free v))) 20); lia.
Qed.

Lemma leaves_dispatched s v v1 r e :
  nucleus_inv s v -> dispatched v1 e v s -> r <> RStray -> a_gives_up r (leave_of e) (abs_of s v).
Proof.
  intros N Hd Hr. unfold dispatched in Hd. destruct (v_ready v1) as [|p l] eqn:El.
  - destruct Hd as (-> & Hc & -> & _). split; [|done]. rewrite (count_free s _ N).
    destruct r; try done; cbn; rewrite Hc, Z.eqb_refl; repeat case_match; done.
  - destruct Hd as (-> & Hc & _ & _ & _ & HpN). apply leaves_running; [by rewrite Hc|done].
Qed.

(** A handler after which the same process runs. *)
Lemma simulates_running s v r e s' v' :
  nucleus_inv s' v' -> currentProcess s' <> NULL -> leave_of e = LRun -> r <> RStray ->
  a_step device_keys r (abs_of s v) (abs_of s' v') -> simulates s v r e s'.
Proof. intros N Hc He Hr Hs. exists v'. split_and!; [done..|]. rewrite He. by apply leaves_running. Qed.

(** A handler that ends in the scheduler. *)
Lemma simulates_dispatched s v r e s' v1 v' :
  nucleus_inv s' v' -> dispatched v1 e v' s' -> r <> RStray ->
  a_step device_keys r (abs_of s v) (abs_of s' v') -> simulates s v r e s'.
Proof. intros N Hd Hr Hs. exists v'. split_and!; [done..|]. by eapply leaves_dispatched. Qed.

Lemma steady_abs U s v s' : currentProcess s' = currentProcess s -> steady U s s' -> abs_of s' v = abs_of s v.
Proof. intros Hc [_ Hi Hs]. unfold abs_of. by rewrite Hc, Hi, Hs. Qed.

Lemma dispatch_from v1 e v' s' a :
  dispatched v1 e v' s' ->
  Abs NULL (v_ready v1) (v_free v1) (waiting v1) (fun k => ints s' !! k) (v_kids v1) (softBlockedCount s') ≡ set_cur NULL a ->
  abs_of s' v' ≡ a_dispatch a.
Proof. intros Hd E. by rewrite (dispatched_abs _ _ _ _ Hd), (dispatch_cur a), E. Qed.

(** ** P *)
Lemma blocked_P s v k n soft e s' :
  ints s !! k = Some n -> (i32 (n - 1) <? 0) = true ->
  blocked_switch s v k (<[k := i32 (n - 1)]> (ints s)) soft e s' ->
  exists v1 v', nucleus_inv s' v' /\ dispatched v1 e v' s' /\ abs_of s' v' ≡ a_P k (set_soft soft (abs_of s v)).
Proof.
  intros Hn Hneg (v1 & v' & (L' & fs' & -> & Hput) & N' & Hd & Hdata). exists (with_asl L' fs' v), v'.
  split_and!; [done..|]. unfold a_P. cbn [a_value abs_of set_soft]. rewrite Hn. cbn [default from_option id]. rewrite Hneg.
  eapply dispatch_from; [exact Hd|]. split_and!; try done.
  - intros k'. exact (put_queue v k _ L' fs' Hput k').
  - apply value_insert, (data_ints _ _ _ _ _ Hdata).
  - apply (data_soft _ _ _ _ _ Hdata).
Qed.

Lemma goes_on_P s v k n soft e s' :
  ints s !! k = Some n -> (i32 (n - 1) <? 0) = false ->
  goes_on s v (<[k := i32 (n - 1)]> (ints s)) soft e s' -> abs_of s' v ≡ a_P k (set_soft soft (abs_of s v)).
Proof.
  intros Hn Hneg (_ & Hc & N' & Hdata).
  unfold a_P. cbn [a_value abs_of set_soft]. rewrite Hn. cbn [default from_option id]. rewrite Hneg.
  split_and!; try done; [apply value_insert, (data_ints _ _ _ _ _ Hdata)|apply (data_soft _ _ _ _ _ Hdata)].
Qed.

(** The three calls that are a P, by what they do to the count of the waiting processes. *)
Lemma P_simulates s v k n r soft1 soft2 (c : K unit) :
  ints s !! k = Some n -> currentProcess s <> NULL -> r <> RStray ->
  (forall a', a_step device_keys r (abs_of s v) a' <->
    a' ≡ a_P k (set_soft (if i32 (n - 1) <? 0 then soft1 else soft2) (abs_of s v))) ->
  stops c s (fun e s' =>
    if i32 (n - 1) <? 0 then blocked_switch s v k (<[k := i32 (n - 1)]> (ints s)) soft1 e s'
    else goes_on s v (<[k := i32 (n - 1)]> (ints s)) soft2 e s') ->
  stops c s (simulates s v r).
Proof.
  intros Hn Hc Hr Hstep. apply stops_mono. intros e s'. destruct (i32 (n - 1) <? 0) eqn:E; intros H.
  - destruct (blocked_P s v k n soft1 e s' Hn E H) as (v1 & v' & N' & Hd & Ha).
    eapply simulates_dispatched; [exact N'|exact Hd|done|]. by apply Hstep.
  - pose proof H as (-> & Hc' & N' & _). eapply (simulates_running _ _ _ _ _ v); [done|by rewrite Hc'|done..|].
    apply Hstep. by eapply goes_on_P.
Qed.

(** Waking the first process of a queue. *)
Lemma woken_abs v k v' (c : Z) (val : Z -> option Z) (soft : Z) :
  woken v k v' ->
  Abs c (v_ready v') (v_free v') (waiting v') val (v_kids v') soft ≡
  a_wake k (Abs c (v_ready v) (v_free v) (waiting v) val (v_kids v) soft).
Proof.
  unfold woken, a_wake. cbn. destruct (waiting v k) as [|p q]; [by intros ->|].
  intros (L' & fs' & -> & Hput). split_and!; try done. intros k'. exact (put_queue v k _ L' fs' Hput k').
Qed.

#[export] Instance wake_proper k : Proper ((≡) ==> (≡)) (a_wake k).
Proof.
  intros a b E. pose proof E as (Hc & Hr & Hf & Hq & Hv & Hk & Hs). unfold a_wake. rewrite <- Hq.
  destruct (a_queue a k) as [|p q] eqn:Eq; [done|]. split_and!; auto.
  - cbn. by rewrite Hr.
  - intros k'. cbn. destruct (decide (k' = k)) as [->|]; [by rewrite !fn_lookup_insert|].
    by rewrite !fn_lookup_insert_ne.
  - intros x Hx. cbn. apply Hk. unfold a_live in *. cbn in Hx. rewrite elem_of_app, list_elem_of_singleton in Hx.
    destruct Hx as [[?| ->]|[[k' Hx]|?]]; [auto|right; left; exists k; rewrite Eq; by left| |auto].
    right; left. destruct (decide (k' = k)) as [->|]; [exists k; rewrite Eq; right; by rewrite fn_lookup_insert in Hx|].
    exists k'. by rewrite fn_lookup_insert_ne in Hx.
Qed.

(** ** The system calls *)
Lemma create_simulates s v a u :
  nucleus_inv s v -> currentProcess s <> NULL -> is_Some (states s !! a) -> support_ok s u ->
  stops (createProcess a u) s (simulates s v RCreate).
Proof.
  intros N Hc [st Hst] Hu. destruct (v_free v) as [|p l] eqn:Ef.
  - eapply stops_mono; [|by apply createProcess_full]. intros e s' (-> & Hc' & N' & Hs).
    eapply (simulates_running _ _ _ _ _ v); [done|by rewrite Hc'|done..|].
    cbn. unfold a_create. cbn. by rewrite Ef, (steady_abs _ _ _ _ Hc' Hs).
  - eapply stops_mono; [|by apply (createProcess_ok s v a st u p l)].
    intros e s' (-> & Hc' & _ & _ & _ & N' & _ & Hi & Hs). eapply simulates_running; [exact N'|by rewrite Hc'|done..|].
    cbn. unfold a_create. cbn. rewrite Ef. unfold abs_of. by rewrite Hc', Hi, Hs.
Qed.

Lemma passeren_simulates s v k :
  nucleus_inv s v -> currentProcess s <> NULL -> sem_key k -> is_Some (ints s !! k) ->
  stops (passeren k) s (simulates s v (RP k)).
Proof.
  intros N Hc Hk [n Hn]. eapply P_simulates; [done..| |by apply passeren_ok].
  intros a'. destruct (i32 (n - 1) <? 0); reflexivity.
Qed.

Lemma verhogen_simulates s v k :
  nucleus_inv s v -> currentProcess s <> NULL -> sem_key k -> is_Some (ints s !! k) ->
  stops (verhogen k) s (simulates s v (RV k)).
Proof.
  intros N Hc Hk [n Hn]. eapply stops_mono; [|by eapply verhogen_ok].
  intros e s' (v' & (-> & Hc' & N' & Hdata) & Hv). eapply simulates_running; [exact N'|by rewrite Hc'|done..|]. cbn.
  unfold a_V. cbn [a_value abs_of]. rewrite Hn. cbn [default from_option id].
  pose proof (value_insert s s' k _ (data_ints _ _ _ _ _ Hdata)) as Hval.
  assert (set_value k (i32 (n + 1)) (abs_of s v) ≡ abs_of s' v) as Ea.
  { split_and!; try done; [intros k' Hk'; symmetry; by apply Hval|]. symmetry. apply (data_soft _ _ _ _ _ Hdata). }
  destruct (i32 (n + 1) <=? 0).
  - rewrite Ea. by apply woken_abs.
  - subst v'. by rewrite Ea.
Qed.

Lemma waitForIO_simulates s v line device read :
  nucleus_inv s v -> currentProcess s <> NULL -> 0 <= wait_index line device read < MAX_DEVICE_COUNT ->
  stops (waitForIO line device read) s (simulates s v (RIO (sem_addr (wait_index line device read)))).
Proof.
  intros N Hc Hi. destruct (inv_sems _ _ _ (nucleus_kernel _ _ N) _ Hi) as [n Hn].
  eapply P_simulates; [done..| |by apply waitForIO_ok]. intros a'. destruct (i32 (n - 1) <? 0); reflexivity.
Qed.

Lemma waitForClock_simulates s v :
  nucleus_inv s v -> currentProcess s <> NULL ->
  stops waitForClock s (simulates s v (RClock (sem_addr CLOCK_INDEX))).
Proof.
  intros N Hc. destruct (inv_sems _ _ _ (nucleus_kernel _ _ N) CLOCK_INDEX ltac:(done)) as [n Hn].
  eapply P_simulates; [done..| |by apply waitForClock_ok]. intros a'. cbn. unfold a_clock.
  cbn [a_value abs_of]. rewrite Hn. cbn [default from_option id]. destruct (i32 (n - 1) <? 0); reflexivity.
Qed.

(** The calls that return a value. *)
Lemma returns_simulates s v z e s' :
  currentProcess s <> NULL -> returns s v z e s' -> simulates s v RNone e s'.
Proof.
  intros Hc (-> & Hc' & N' & Hs). eapply (simulates_running _ _ _ _ _ v); [done|by rewrite Hc'|done..|].
  cbn. by rewrite (steady_abs _ _ _ _ Hc' Hs).
Qed.

Lemma getCPUTime_simulates s v :
  nucleus_inv s v -> currentProcess s <> NULL -> stops getCPUTime s (simulates s v RNone).
Proof.
  intros N Hc. destruct (nucleus_stored _ _ N Hc) as [r Hr].
  eapply stops_mono; [|apply (getCPUTime_ok s v (p_time r)); [done..|unfold fld; by rewrite Hr]].
  intros e s' [H _]. by eapply returns_simulates.
Qed.

Lemma getSupportData_simulates s v :
  nucleus_inv s v -> currentProcess s <> NULL -> stops getSupportData s (simulates s v RNone).
Proof.
  intros N Hc. destruct (nucleus_stored _ _ N Hc) as [r Hr].
  eapply stops_mono; [|apply (getSupportData_ok s v (p_supportStruct r)); [done..|unfold fld; by rewrite Hr]].
  intros e s'. by apply returns_simulates.
Qed.

(** ** The end of the running process and its descendants *)
Lemma killed_value D s v s1 k :
  nucleus_inv s v -> kill_step D s s1 -> (forall x, x ∈ D -> x ∈ live v (running s)) -> sem_key k ->
  ints s1 !! k = (if bool_decide (k ∈ device_keys) then fun n => n
    else Nat.iter (length (filter (fun x => x ∈ waiting v k) D)) (fun n => i32 (n + 1))) <$> ints s !! k.
Proof.
  intros N Hkill Hlive Hk. rewrite (kill_ints _ _ _ Hkill), is_device_sem_decide by (destruct Hk; lia).
  rewrite (filter_pointwise (fun x => sem_of s x = k) (fun x => x ∈ waiting v k)); [done|].
  intros x Hx. apply waits_at; [done|by apply Hlive|destruct Hk; lia].
Qed.

(** A process waits for a device semaphore exactly when its pcb points to one. *)
Lemma waits_for_device s v x :
  nucleus_inv s v -> x ∈ live v (running s) ->
  is_device_sem (sem_of s x) = true <-> waits_for device_keys (abs_of s v) x.
Proof.
  intros N Hx. unfold waits_for. rewrite Exists_exists. cbn [a_queue abs_of].
  assert (forall k, k ∈ device_keys -> k <> NULL) as Hnull.
  { intros k Hk%elem_of_seqZ. destruct (sem_addr_ok CLOCK_INDEX ltac:(done)) as [_ [? ?]]. lia. }
  split.
  - intros Hd%elem_of_device_keys. exists (sem_of s x). split; [done|]. apply (waits_at s v); auto.
  - intros (k & Hk & Hin). apply elem_of_device_keys. apply (waits_at s v) in Hin; [by subst|done..|auto].
Qed.

Lemma killed_soft D s v s1 :
  nucleus_inv s v -> kill_step D s s1 -> (forall x, x ∈ D -> x ∈ live v (running s)) ->
  softBlockedCount s1 = Nat.iter (length (filter (waits_for device_keys (abs_of s v)) D)) (fun n => i32 (n - 1))
    (softBlockedCount s).
Proof.
  intros N Hkill Hlive. rewrite (kill_soft _ _ _ Hkill).
  rewrite (filter_pointwise (fun x => is_device_sem (sem_of s x) = true) (waits_for device_keys (abs_of s v))); [done|].
  intros x Hx. by apply waits_for_device; [|apply Hlive].
Qed.

Lemma killed_kids s v s1 v1 D p :
  kids_kept (currentProcess s) D v (running s) v1 -> kill_queues D v v1 -> currentProcess s1 = NULL ->
  a_live (abs_of s1 v1) p -> v_kids v1 p = filter (fun x => x <> currentProcess s) (v_kids v p).
Proof.
  intros Hk [_ Hr Hw] Hn Hp. unfold a_live in Hp. cbn in Hp. rewrite Hr, Hn in Hp. setoid_rewrite Hw in Hp.
  unfold without in Hp. setoid_rewrite list_elem_of_filter in Hp.
  apply Hk; [|by destruct Hp as [[? ?]|[(? & ? & ?)|[? _]]]].
  apply elem_of_live. destruct Hp as [[? ?]|[(k & ? & Hp)|[? _]]]; [by left| |done].
  right; left. by eapply procs_at_blocked.
Qed.

Lemma kill_simulates s v e s' : nucleus_inv s v -> terminated s v e s' -> simulates s v RKill e s'.
Proof.
  intros N (D & s1 & v1 & v' & HD & Hq & Hstep & Hdata & Hkids & Hd & N').
  pose proof Hq as [Hfree Hready Hwait]. pose proof (dispatched_waiting _ _ _ _ Hd) as [_ Hf'].
  destruct (killed_live D s v s' v' _ _ (nucleus_kernel _ _ N) (nucleus_kernel _ _ N')) as [HND Hlive];
    [by rewrite Hf'|].
  eapply simulates_dispatched; [exact N'|exact Hd|done|]. exists D. do 2 (split; [done|]). eapply dispatch_from; [done|].
  rewrite (data_ints _ _ _ _ _ Hdata), (data_soft _ _ _ _ _ Hdata), (killed_soft D s v s1) by done. split_and!; try done.
  - intros k Hk. cbn. by rewrite (killed_value D s v s1 k).
  - intros p Hp. cbn. by apply (killed_kids s v (set_currentProcess NULL s1) v1 D).
Qed.

Lemma terminate_simulates s v :
  nucleus_inv s v -> currentProcess s <> NULL -> stops terminate_current s (simulates s v RKill).
Proof.
  intros N Hc. eapply stops_mono; [|by apply terminate_current_ok]. intros e s'. by apply kill_simulates.
Qed.

Lemma trap_simulates s v ix :
  nucleus_inv s v -> currentProcess s <> NULL -> stops (passUpOrDie ix) s (simulates s v (trap_request s)).
Proof.
  intros N Hc. eapply stops_mono; [|by apply passUpOrDie_ok]. intros e s' (u & Hu & H).
  unfold trap_request. rewrite Hu. cbn. destruct (u =? NULL).
  - by apply kill_simulates.
  - destruct H as (sup & _ & -> & _ & Hc' & N' & Hs). eapply (simulates_running _ _ _ _ _ v); [done|by rewrite Hc'|done..|].
    cbn. by rewrite (steady_abs _ _ _ _ Hc' Hs).
Qed.

(** ** Interrupts: the process goes on, or, without one, the scheduler runs. *)
Lemma slice_simulates s v :
  nucleus_inv s v -> currentProcess s <> NULL -> savedExceptionState s = BIOSDATAPAGE ->
  stops PLTInterruptHandler s (simulates s v RSlice).
Proof.
  intros N Hc Hs. eapply stops_mono; [|by eapply PLTInterruptHandler_ok].
  intros e s' (v' & N' & Hd & _ & _ & [_ Hi Hsoft]). eapply simulates_dispatched; [exact N'|exact Hd|done|].
  cbn. unfold a_slice. eapply dispatch_from; [done|]. by rewrite Hi, Hsoft.
Qed.

Lemma settled s v1 (e : exit_event) v' s' a :
  Abs (currentProcess s) (v_ready v1) (v_free v1) (waiting v1) (fun k => ints s' !! k) (v_kids v1) (softBlockedCount s') ≡ a ->
  (if currentProcess s =? NULL then dispatched v1 e v' s' else v' = v1 /\ currentProcess s' = currentProcess s) ->
  abs_of s' v' ≡ a_settle a.
Proof.
  intros Ha H. pose proof Ha as (Hc & _). cbn in Hc. unfold a_settle. rewrite <- Hc.
  destruct (Z.eqb_spec (currentProcess s) NULL) as [E|].
  - eapply dispatch_from; [done|]. rewrite E in *. rewrite Ha.
    destruct a. cbn in Hc. by rewrite <- Hc.
  - destruct H as [-> Hcur]. unfold abs_of. by rewrite Hcur.
Qed.

(** A handler that goes back to the interrupted process or to the scheduler. *)
Lemma settled_simulates s v r v1 e s' :
  (if currentProcess s =? NULL then exists v', nucleus_inv s' v' /\ dispatched v1 e v' s'
   else back_to_process s v1 e s') ->
  r <> RStray ->
  (forall v', abs_of s' v' ≡ a_settle (Abs (currentProcess s) (v_ready v1) (v_free v1) (waiting v1) (fun k => ints s' !! k)
    (v_kids v1) (softBlockedCount s')) -> a_step device_keys r (abs_of s v) (abs_of s' v')) ->
  simulates s v r e s'.
Proof.
  intros H Hr Hstep. pose proof (settled s v1 e) as Hset. destruct (Z.eqb_spec (currentProcess s) NULL) as [E|E].
  - destruct H as (v' & N' & Hd). eapply simulates_dispatched; [exact N'|exact Hd|done|]. apply Hstep. by apply Hset.
  - destruct H as (-> & Hc & N' & _). eapply simulates_running; [exact N'|by rewrite Hc|done..|]. apply Hstep. by apply Hset.
Qed.

#[export] Instance settle_proper : Proper ((≡) ==> (≡)) a_settle.
Proof.
  intros a b E. pose proof E as (Hc & _). unfold a_settle. rewrite <- Hc.
  destruct (a_cur a =? NULL); [by apply dispatch_proper|done].
Qed.

Lemma device_simulates s v :
  nucleus_inv s v -> savedExceptionState s = BIOSDATAPAGE ->
  stops nonTimerInterruptHandler s (simulates s v (RDevice (device_key s))).
Proof.
  intros N Hs. eapply stops_mono; [|by apply nonTimerInterruptHandler_ok].
  intros e s' (b & d & s1 & v1 & Hb & Hd & ((n & Hn & Hi) & Hserved) & _ & H). unfold device_key, bios_cause.
  rewrite Hb. cbn [default from_option id]. rewrite Hd. cbn [default from_option id].
  set (k := sem_addr _) in *.
  assert (ints s' = ints s1 /\ softBlockedCount s' = softBlockedCount s1) as [Hi' Hsoft'].
  { destruct (currentProcess s =? NULL).
    - destruct H as (v' & _ & _ & [_ _ _ _ -> ->]). done.
    - by destruct H as [_ [_ -> ->]]. }
  apply (settled_simulates s v _ v1); [|done|].
  { destruct (currentProcess s =? NULL); [|by destruct H]. destruct H as (v' & ? & ? & _). eauto. }
  intros v' E. cbn. rewrite E. unfold a_device. apply settle_proper.
  assert (woken v k v1 /\ softBlockedCount s1 = a_soft (uncount (min 1 (length (waiting v k))) (abs_of s v))) as [Hw Hsoft].
  { unfold woken. destruct (waiting v k) as [|p q]; cbn [length Nat.min]; [by destruct Hserved as (-> & -> & _)|].
    by destruct Hserved as (? & -> & _). }
  rewrite (woken_abs v k v1 _ _ _ Hw). apply wake_proper. rewrite Hi', Hsoft', Hsoft. split_and!; try done.
  cbn. rewrite Hn. by apply (value_insert s s1).
Qed.

Lemma tick_simulates s v :
  nucleus_inv s v -> savedExceptionState s = BIOSDATAPAGE ->
  stops intervalTimerInterruptHandler s (simulates s v (RTick (sem_addr CLOCK_INDEX))).
Proof.
  intros N Hs. eapply stops_mono; [|by apply intervalTimerInterruptHandler_ok].
  intros e s' (v1 & (Hready & Hempty & Hfree & Hkids & Hothers) & Hi & Hsoft & _ & H).
  apply (settled_simulates s v _ v1); [done..|]. intros v' E. cbn. rewrite E. unfold a_tick. apply settle_proper.
  rewrite Hready, Hfree, Hkids, Hsoft. split_and!; try done.
  - intros k'. cbn. destruct (decide (k' = sem_addr CLOCK_INDEX)) as [->|]; [by rewrite fn_lookup_insert|].
    rewrite fn_lookup_insert_ne by done. auto.
  - by apply value_insert.
Qed.

(** ** The contract *)
#[export] Instance simulates_contract : HandlerContract simulates.
Proof.
  split.
  - intros s s0 v r e s' _ ([_ Hi Hs] & Hc & _) (v' & N' & Hstep & He). exists v'. split_and!; [done| |done].
    unfold abs_of in *. by rewrite <- Hc, <- Hi, <- Hs.
  - apply create_simulates.
  - apply terminate_simulates.
  - apply passeren_simulates.
  - apply verhogen_simulates.
  - apply waitForIO_simulates.
  - apply getCPUTime_simulates.
  - apply waitForClock_simulates.
  - apply getSupportData_simulates.
  - apply trap_simulates.
  - intros s v N _. by exists v.
  - apply slice_simulates.
  - apply tick_simulates.
  - apply device_simulates.
Qed.

Lemma exceptionHandler_simulates s v :
  nucleus_inv s v -> admissible s -> stops exceptionHandler s (simulates s v (exception_request s)).
Proof. apply (contract_exception simulates). Qed.

(** Safety: the invariant comes back. *)
Lemma exceptionHandler_safe s v :
  nucleus_inv s v -> admissible s -> stops exceptionHandler s (fun _ s' => exists v', nucleus_inv s' v').
Proof.
  intros N Ha. eapply stops_mono; [|by apply exceptionHandler_simulates]. intros e s' (v' & ? & _). eauto.
Qed.
End refinement.
