(* ===== verification/BootSpec.v ===== *)
(** * Booting: what [main] establishes *)
From S2P Require Export HandlerBase.

Section boot.
Context {m : Machine} {mok : MachineOk m}.
Implicit Types (s : kstate) (v : view) (p a i : Z).

Lemma sem_addr_inj i j :
  0 <= i < MAX_DEVICE_COUNT -> 0 <= j < MAX_DEVICE_COUNT -> sem_addr i = sem_addr j -> i = j.
Proof.
  intros Hi Hj. destruct (sem_addr_ok i Hi) as [-> _], (sem_addr_ok j Hj) as [-> _]. unfold WORDLEN. lia.
Qed.

(** The loop of [initDeviceSemaphoresHelper]. *)
Lemma store_zeros l s :
  (forall i, i ∈ l -> is_Some (ints s !! sem_addr i)) ->
  exists I, for_each l (fun i => store_int (sem_addr i) 0) s = Ret tt (set_ints I s) /\
    (forall a, is_Some (ints s !! a) -> is_Some (I !! a)) /\
    (forall i, i ∈ l -> I !! sem_addr i = Some 0) /\
    (forall a, (a ∉ sem_addr <$> l) -> I !! a = ints s !! a).
Proof.
  revert s. induction l as [|i l IH]; intros s Hs.
  - exists (ints s). split_and!; [by destruct s|done|set_solver|done].
  - rewrite for_each_cons, (bind_ret _ _ _ _ _ (store_int_ok (sem_addr i) 0 s (Hs i ltac:(set_solver)))).
    assert (forall a, is_Some (ints s !! a) -> is_Some (<[sem_addr i := 0]> (ints s) !! a)) as Hmono
      by (intros a Ha; by apply (harmless_ints _ _ (harmless_int (sem_addr i) 0 s))).
    destruct (IH (set_ints (<[sem_addr i := 0]> (ints s)) s)) as (I & Hrun & H1 & H2 & H3).
    { intros j Hj. apply Hmono, Hs. set_solver. }
    exists I. cbn in H1, H3. split_and!; [done|auto| |].
    + intros j [->|Hj]%elem_of_cons; [|auto]. destruct (decide (sem_addr i ∈ sem_addr <$> l)) as [Hin|Hn].
      * apply list_elem_of_fmap in Hin as (j & E & Hj). rewrite E. auto.
      * rewrite H3 by done. by rewrite lookup_insert_eq.
    + intros a Ha. rewrite fmap_cons in Ha. rewrite H3 by set_solver.
      rewrite lookup_insert_ne by set_solver. done.
Qed.

Lemma initDeviceSemaphores_ok s :
  (forall i, 0 <= i < MAX_DEVICE_COUNT -> is_Some (ints s !! sem_addr i)) ->
  exists I, initDeviceSemaphoresHelper s = Ret tt (set_ints I s) /\
    (forall a, is_Some (ints s !! a) -> is_Some (I !! a)) /\
    (forall i, 0 <= i < MAX_DEVICE_COUNT -> I !! sem_addr i = Some 0) /\
    (forall a, (forall i, 0 <= i < MAX_DEVICE_COUNT -> a <> sem_addr i) -> I !! a = ints s !! a).
Proof.
  intros Hs. destruct (store_zeros (seqZ 0 MAX_DEVICE_COUNT) s) as (I & Hrun & H1 & H2 & H3).
  { intros i Hi%elem_of_seqZ. apply Hs. lia. }
  exists I. split_and!; [done|done|intros i Hi; apply H2, elem_of_seqZ; lia|].
  intros a Ha. apply H3. intros (i & -> & Hi%elem_of_seqZ)%list_elem_of_fmap. by apply (Ha i); [lia|].
Qed.

(** The tables of [boot_state] hold an object at every address. *)
Lemma zero_table {R} (f : Z -> Z) (r : R) l x :
  x ∈ f <$> l -> is_Some ((list_to_map ((fun i => (f i, r)) <$> l) : gmap Z R) !! x).
Proof.
  induction l as [|i l IH]; [intros H; by apply elem_of_nil in H|]. rewrite fmap_cons. cbn.
  destruct (decide (x = f i)) as [->|Hne]; [intros _; rewrite lookup_insert_eq; eauto|].
  intros [?|?]%elem_of_cons; [done|]. rewrite lookup_insert_ne by done. auto.
Qed.

(** A memory image the nucleus can be started in: the static tables and the device semaphores are
    there, and so is the BIOS data page. *)
Record bootable s : Prop := {
  boot_pcbs : forall p, p ∈ pcb_table -> is_Some (pcbs s !! p);
  boot_semds : forall a, a ∈ semd_table -> is_Some (semds s !! a);
  boot_sems : forall i, 0 <= i < MAX_DEVICE_COUNT -> is_Some (ints s !! sem_addr i);
  boot_bios : is_Some (states s !! BIOSDATAPAGE)
}.

Lemma boot_state_bootable mem sts sups b :
  is_Some (sts !! BIOSDATAPAGE) -> bootable (boot_state mem sts sups b).
Proof.
  intros Hb. split; cbn; [..|done].
  - intros p Hp. by apply zero_table.
  - intros a Ha. by apply zero_table.
  - intros i Hi. apply lookup_union_is_Some. left. apply (zero_table sem_addr 0 (seqZ 0 MAX_DEVICE_COUNT)).
    apply list_elem_of_fmap. exists i. split; [done|]. apply elem_of_seqZ. lia.
Qed.

(** The queues after the initialisations of [main]. *)
Definition boot_view : view :=
  View (reverse pcb_table) [] [Entry (semd_addr 21) 0 []; Entry (semd_addr 20) MAXINT []]
    (reverse (semd_addr <$> seqZ 0 20)) (fun _ => []).

(** The state after everything [main] does before it creates the first process. *)
Definition initialised s s' : Prop :=
  kernel_inv s' boot_view [] /\ processCount s' = 0 /\ softBlockedCount s' = 0 /\ currentProcess s' = NULL /\
  (forall i, 0 <= i < MAX_DEVICE_COUNT -> ints s' !! sem_addr i = Some 0) /\
  passup s' = MkPassup uTLB_RefillHandler_addr KERNELSTACK exceptionHandler_addr KERNELSTACK /\
  intervaltimer (bus s') = u32 (i32 (PSECOND * i32 (timescale (bus s)))) /\
  rambase (bus s') = rambase (bus s) /\ ramsize (bus s') = ramsize (bus s) /\ states s' = states s.

Definition main_init : K unit :=
  do! initPassUpVector;
  do! initPcbs;
  do! initASL;
  do! modify (set_processCount 0);
  do! modify (set_softBlockedCount 0);
  do! modify (set_readyQueue mkEmptyProcQ);
  do! modify (set_currentProcess NULL);
  do! initDeviceSemaphoresHelper;
  LDIT PSECOND.

Lemma boot_inv s :
  free_list s (reverse pcb_table) -> readyQueue s = NULL ->
  (forall p, p ∈ pcb_table -> is_Some (pcbs s !! p)) ->
  (forall i, 0 <= i < MAX_DEVICE_COUNT -> is_Some (ints s !! sem_addr i)) ->
  is_Some (states s !! BIOSDATAPAGE) ->
  asl s (v_entries boot_view) (v_semds boot_view) -> kernel_inv s boot_view [].
Proof.
  intros Hf Hr Hp Hi Hb Ha. split; cbn [v_free v_ready v_entries v_semds v_kids boot_view].
  - done.
  - rewrite Hr. apply is_queue_nil.
  - done.
  - unfold live. cbn. by rewrite app_nil_r, reverse_Permutation.
  - exact Hp.
  - intros k Hk. exfalso. apply Hk. unfold waiting. cbn [v_entries boot_view].
    rewrite !procs_at_cons. cbn [e_key e_procs]. by destruct (0 =? k), (MAXINT =? k).
  - intros p Hn. by apply elem_of_nil in Hn.
  - split; [intros p Hn|intros p c Hn|intros p Hn|exists (fun _ => O); intros p c Hn];
      by apply elem_of_nil in Hn.
  - intros p Hn. by apply elem_of_nil in Hn.
  - exact Hi.
  - exact Hb.
Qed.

Lemma initPassUpVector_ok s :
  initPassUpVector s = Ret tt (set_passup
    (MkPassup uTLB_RefillHandler_addr KERNELSTACK exceptionHandler_addr KERNELSTACK) s).
Proof. done. Qed.

Lemma main_init_ok s : bootable s -> exists s', main_init s = Ret tt s' /\ initialised s s'.
Proof.
  intros [Hp Hd Hi Hb]. unfold main_init.
  rewrite (bind_ret _ _ _ _ _ (initPassUpVector_ok s)). set (s1 := set_passup _ s).
  destruct (initPcbs_ok s1 Hp) as (h & c & Hr2 & Hfree & Hf). rewrite (bind_ret _ _ _ _ _ Hr2).
  set (s2 := set_pcbFree_h c (set_pcbs h s1)) in *.
  destruct (initASL_ok s2 Hd) as (D & f & Hr3 & Ha). cbv zeta in Hr3, Ha.
  rewrite (bind_ret _ _ _ _ _ Hr3). rewrite !bind_modify.
  set (s3 := set_currentProcess NULL _).
  destruct (initDeviceSemaphores_ok s3 Hi) as (I & Hr4 & HI1 & HI2 & HI3).
  rewrite (bind_ret _ _ _ _ _ Hr4). eexists. split; [reflexivity|].
  split; [|split_and!; try done]. apply boot_inv.
  - exact Hfree.
  - done.
  - intros p Hpt. cbn. rewrite (frame_is_Some _ _ _ _ _ Hf). by apply Hp.
  - intros i Hir. apply HI1. by apply Hi.
  - exact Hb.
  - by eapply asl_same; [exact Ha|..].
Qed.

(** The rest of [main]. *)
Definition main_rest : K unit :=
  do new_process <- allocPcb;
  do! (if new_process =? NULL then ret tt
       else
         do b <- gets bus;
         do! upd_state (SR_pcb new_process)
               (set_reg s_sp (i32 (u32 (rambase b + ramsize b))));
         do! upd_state (SR_pcb new_process) (set_s_pc test_addr);
         do! upd_state (SR_pcb new_process) (set_reg s_t9 (i32 test_addr));
         do! upd_state (SR_pcb new_process)
               (set_s_status (Z.lor (Z.lor (Z.lor ALLOFF IEPON) PLTON) IMON));
         do! insertProcQ TP_readyQueue new_process;
         do! modify (fun s => set_processCount (i32 (processCount s + 1)) s);
         scheduler);
  PANIC.

Lemma main_split s : main s = bind main_init (fun _ => main_rest) s.
Proof.
  unfold main, main_init. rewrite bind_assoc. apply bind_ext. intros _ s1.
  do 7 (rewrite bind_assoc; apply bind_ext; intros _ ?). done.
Qed.

(** The saved state of the first process. *)
Definition first_state (b : devregarea_t) (st : state_t) : state_t :=
  set_s_status (Z.lor (Z.lor (Z.lor ALLOFF IEPON) PLTON) IMON)
    (set_reg s_t9 (i32 test_addr) (set_s_pc test_addr
      (set_reg s_sp (i32 (u32 (rambase b + ramsize b))) st))).

(** The first process on the ready queue. *)
Lemma main_rest_ok s :
  kernel_inv s boot_view [] -> processCount s = 0 -> currentProcess s = NULL ->
  stops main_rest s (fun e s' => exists st0,
    e = Ldst (first_state (bus s) (set_s_reg (vreplicate STATEREGNUM 0) st0)) /\
    currentProcess s' = pcb_addr 19 /\ processCount s' = 1 /\ softBlockedCount s' = softBlockedCount s /\
    ints s' = ints s /\ cp0_timer s' = u32 PLT_TIME_SLICE /\
    exists v', nucleus_inv s' v' /\ v_ready v' = [] /\ blocked (v_entries v') = []).
Proof.
  intros I Hn Hc.
  assert (v_free boot_view = pcb_addr 19 :: reverse (pcb_addr <$> seqZ 0 19)) as Hf by done.
  set (p := pcb_addr 19) in *. clearbody p.
  destruct (inv_alloc s boot_view [] p _ I Hf) as (n & Hr1 & I1). cbv zeta in Hr1, I1.
  set (v1 := with_kids _ _) in I1.
  assert (p ∈ live v1 [p]) as Hp by (rewrite elem_of_live; set_solver).
  assert (p <> NULL) as HpN by (intros ->; by apply (inv_live_NULL _ _ _ I1)).
  assert (is_Some (pcbs s !! p)) as [r0 Hr0].
  { apply (inv_stored _ _ _ I), (inv_in_table _ _ _ _ I). rewrite Hf. set_solver. }
  set (s1 := set_pcbFree_h n _) in Hr1, I1.
  unfold stops, wp, main_rest. rewrite (bind_ret _ _ _ _ _ Hr1). kif. cbv iota.
  rewrite bind_assoc, bind_gets. change (bus s1) with (bus s).
  assert (is_Some (state_get (SR_pcb p) s1)) as Hs1 by (cbn; rewrite lookup_alter_eq, Hr0; eauto).
  rewrite bind_assoc, (bind_ret _ _ _ _ _ (upd_state_ok _ _ _ Hs1)).
  do 3 rewrite bind_assoc, (bind_ret _ _ _ _ _ (upd_moved _ _ _ _ Hs1)).
  set (s2 := state_alter _ _ s1).
  assert (kernel_inv s2 v1 [p]) as I2 by (eapply inv_harmless; [exact I1|by apply harmless_pcb]).
  destruct (inv_insertReady s2 v1 [] p I2) as (h & Hr3 & I3 & Hf3).
  { cbn. rewrite fld_alter_other by done. apply fld_alter_eq; [done|]. by rewrite Hr0. }
  rewrite bind_assoc, (bind_ret _ _ _ _ _ Hr3), bind_assoc, bind_modify.
  set (s4 := set_processCount _ _).
  assert (nucleus_inv s4 (with_ready (v_ready v1 ++ [p]) v1)) as N4.
  { split; rewrite ?running_none by done; [eapply inv_harmless; [exact I3|by apply harmless_globals]|done|].
    cbn [processCount set_processCount set_readyQueue set_pcbs s4].
    change (processCount s2) with (processCount s). by rewrite Hn. }
  destruct (wp_elim_stops _ _ _ (scheduler_ok s4 _ N4 Hc)) as (e & s' & Hr5 & v' & N' & Hd & Hsame).
  rewrite (bind_stop _ _ _ _ _ Hr5). destruct Hd as (-> & Hcur & -> & Htm & _).
  exists (p_s r0). destruct (data_pcbs _ _ _ _ _ Hsame p) as [Hps _].
  split_and!; [|done| |by rewrite (data_soft _ _ _ _ _ Hsame)|by rewrite (data_ints _ _ _ _ _ Hsame)|done|].
  - unfold saved_state. rewrite Hps. cbn.
    rewrite (frame_fld p_s erase_links _ _ _ p (fun _ => eq_refl) Hf3). cbn.
    unfold fld. by rewrite !lookup_alter_eq, Hr0.
  - rewrite (data_count _ _ _ _ _ Hsame). cbn. change (processCount s2) with (processCount s). by rewrite Hn.
  - eexists. split; [exact N'|done].
Qed.

(** Booting ends with the first process running. *)
Lemma main_ok s :
  bootable s ->
  exists s1, initialised s s1 /\
  stops main s (fun e s' => exists st0,
    e = Ldst (first_state (bus s1) (set_s_reg (vreplicate STATEREGNUM 0) st0)) /\
    currentProcess s' = pcb_addr 19 /\ processCount s' = 1 /\ softBlockedCount s' = 0 /\
    ints s' = ints s1 /\ cp0_timer s' = u32 PLT_TIME_SLICE /\
    exists v', nucleus_inv s' v' /\ v_ready v' = [] /\ blocked (v_entries v') = []).
Proof.
  intros Hb. destruct (main_init_ok s Hb) as (s1 & Hr & Hi). exists s1. split; [done|].
  destruct Hi as (I & Hn & Hsf & Hc & _). pose proof (main_rest_ok s1 I Hn Hc) as Hrest.
  rewrite Hsf in Hrest. unfold stops, wp. rewrite main_split, (bind_ret _ _ _ _ _ Hr). exact Hrest.
Qed.
End boot.
