(* ===== verification/System.v ===== *)
(** * The running system

    The nucleus and its environment as a transition system: [main] starts it; then user code and
    hardware run until an exception, [exceptionHandler] serves it, and so on. *)
From S2P Require Export BootSpec Refinement.

Section system.
Context {m : Machine} {mok : MachineOk m}.
Implicit Types (s : kstate) (v : view).

(** What happens between two entries of the nucleus: user code writes memory words, processor
    states and support structures, the hardware writes the exception state, the device registers
    and the clocks; nobody touches the variables of the nucleus. *)
Record outside (s s' : kstate) : Prop := {
  outside_pcbs : pcbs s' = pcbs s /\ pcbFree_h s' = pcbFree_h s;
  outside_semds : semds s' = semds s /\ semd_h s' = semd_h s /\ semdFree_h s' = semdFree_h s;
  outside_globals : readyQueue s' = readyQueue s /\ currentProcess s' = currentProcess s /\
    processCount s' = processCount s /\ softBlockedCount s' = softBlockedCount s /\
    savedExceptionState s' = savedExceptionState s /\ start_TOD s' = start_TOD s;
  outside_ints : forall a, is_Some (ints s !! a) -> is_Some (ints s' !! a);
  outside_devices : forall i, 0 <= i < MAX_DEVICE_COUNT -> ints s' !! sem_addr i = ints s !! sem_addr i;
  outside_states : is_Some (states s !! BIOSDATAPAGE) -> is_Some (states s' !! BIOSDATAPAGE);
  outside_supports : forall a, is_Some (supports s !! a) -> is_Some (supports s' !! a)
}.

(** The states in which the nucleus gives up the processor. *)
Inductive reachable : exit_event -> kstate -> Prop :=
| reach_boot s e s' : bootable s -> main s = Stop e s' -> reachable e s'
| reach_exception e0 s s1 e s' :
    reachable e0 s -> e0 <> Halt -> e0 <> Panic -> outside s s1 -> admissible s1 ->
    exceptionHandler s1 = Stop e s' -> reachable e s'.

Lemma outside_inv s s' v : outside s s' -> nucleus_inv s v -> nucleus_inv s' v.
Proof.
  intros [[Ep Ef] (Es & Eh & Esf) (Er & Ec & En & _ & Esv & _) Hi _ Hb Hs] N.
  apply (nucleus_harmless s); [done| |done..].
  split; try done; [by rewrite Ep|by left].
Qed.

Lemma reachable_inv e s : reachable e s -> exists v, nucleus_inv s v.
Proof.
  induction 1 as [s e s' Hb Hr|e0 s s1 e s' _ [v N] _ _ Ho Ha Hr].
  - destruct (main_ok s Hb) as (s1 & _ & Hst). destruct (wp_elim_stops _ _ _ Hst) as (e' & s2 & Hr' & H).
    rewrite Hr in Hr'. injection Hr' as -> ->. destruct H as (_ & _ & _ & _ & _ & _ & _ & v' & ? & _). eauto.
  - pose proof (exceptionHandler_safe s1 v (outside_inv _ _ _ Ho N) Ha) as Hst.
    destruct (wp_elim_stops _ _ _ Hst) as (e' & s2 & Hr' & v' & ?).
    rewrite Hr in Hr'. injection Hr' as -> ->. eauto.
Qed.

(** Admissibility is decided by evaluation. *)
Definition admissible_b (s : kstate) : bool :=
  let c := exec_code (bios_cause s) in
  let n := syscall_number s in
  (0 <=? c) && (c <=? 12) && ((c =? 0) || negb (currentProcess s =? NULL)) &&
  ((negb (c =? 8)) || user_mode s ||
   ((negb (n =? SYS1_NUM) ||
       (bool_decide (is_Some (states s !! ptr_of_int (arg s s_a1))) &&
        ((ptr_of_int (arg s s_a2) =? NULL) || bool_decide (is_Some (supports s !! ptr_of_int (arg s s_a2)))))) &&
    (negb ((n =? SYS3_NUM) || (n =? SYS4_NUM)) ||
       let k := ptr_of_int (arg s s_a1) in
       (0 <? k) && (k <? NULL) && negb (k =? MAXINT) && bool_decide (is_Some (ints s !! k))) &&
    (negb (n =? SYS5_NUM) ||
       let i := wait_index (arg s s_a1) (arg s s_a2) (arg s s_a3) in (0 <=? i) && (i <? MAX_DEVICE_COUNT)))).

Lemma admissible_decide s : admissible_b s = true -> admissible s.
Proof.
  unfold admissible_b, admissible, valid_call, sem_key. rewrite !andb_true_iff, !orb_true_iff, !andb_true_iff.
  rewrite !orb_true_iff, !negb_true_iff, !andb_true_iff, !orb_true_iff, !bool_decide_eq_true, !Z.eqb_eq, !Z.eqb_neq,
    !orb_false_iff, !negb_true_iff, !Z.eqb_neq, !Z.leb_le, !Z.ltb_lt.
  intros [[[Hlo Hhi] Hc] Hcall]. split_and!; [done|done|naive_solver|]. intros E Hu.
  destruct Hcall as [[?|?]|Hcall]; [done|congruence|]. naive_solver.
Qed.
End system.
