(* ===== verification/Simulation.v ===== *)
(** * The running system refines the abstract kernel

    A run of the nucleus, from its boot through any number of exceptions, is a run of the abstract
    kernel: the same requests in the same order lead to the state that stands for the concrete one.
    What holds of the steps of the abstract kernel holds of the exceptions. *)
From S2P Require Export System.

Section simulation.
Context {m : Machine}.
Implicit Types (s : kstate) (v : view).

(** The abstract kernel after boot: one process runs, nobody waits, the device semaphores are 0. *)
Definition a_initial (a : abs) : Prop :=
  a_ready a = [] /\ (forall k, a_queue a k = []) /\ a_free a ++ [a_cur a] ≡ₚ pcb_table /\
  a_kids a (a_cur a) = [] /\ a_soft a = 0 /\
  forall i, 0 <= i < MAX_DEVICE_COUNT -> a_value a (sem_addr i) = Some 0.

(** Between two requests user code may write the semaphores that are not device semaphores. *)
Definition a_outside (a a' : abs) : Prop := exists value,
  (forall k, is_Some (a_value a k) -> is_Some (value k)) /\
  (forall i, 0 <= i < MAX_DEVICE_COUNT -> value (sem_addr i) = a_value a (sem_addr i)) /\
  a' = Abs (a_cur a) (a_ready a) (a_free a) (a_queue a) value (a_kids a) (a_soft a).

(** The runs of the abstract kernel, with their requests and the way the processor is given up at the
    end; nothing follows a halt or a panic. *)
Inductive a_runs : list request -> leave -> abs -> Prop :=
| a_boots a : a_initial a -> a_runs [] LRun a
| a_serves rs r x a a1 a' x' :
    a_runs rs x a -> x <> LHalt -> x <> LPanic -> a_outside a a1 -> a_step device_keys r a1 a' ->
    a_gives_up r x' a' -> a_runs (rs ++ [r]) x' a'.

(** The runs of the nucleus, with what their exceptions ask for. *)
Inductive runs : list request -> exit_event -> kstate -> Prop :=
| runs_boot s e s' : bootable s -> main s = Stop e s' -> runs [] e s'
| runs_exception rs e0 s s1 e s' :
    runs rs e0 s -> e0 <> Halt -> e0 <> Panic -> outside s s1 -> admissible s1 ->
    exceptionHandler s1 = Stop e s' -> runs (rs ++ [exception_request s1]) e s'.

(** The stretch of a run from [(e, s)] on: what its exceptions ask for, and the sum of [count] over
    them; user code and the exception that follows it [keep] something. *)
Inductive stretch (keep : kstate -> kstate -> kstate -> Prop) (count : kstate -> kstate -> nat) e s :
    list request -> nat -> exit_event -> kstate -> Prop :=
| stretch_here : stretch keep count e s [] 0 e s
| stretch_on rs n e0 s0 s1 e' s' :
    stretch keep count e s rs n e0 s0 -> e0 <> Halt -> e0 <> Panic -> outside s0 s1 -> admissible s1 ->
    exceptionHandler s1 = Stop e' s' -> keep s0 s1 s' ->
    stretch keep count e s (rs ++ [exception_request s1]) (n + count s1 s') e' s'.

(** * Lemmas *)
Context {mok : MachineOk m}.

Lemma stops_elim (c : K unit) s R e s' : stops c s R -> c s = Stop e s' -> R e s'.
Proof. intros (e1 & s1 & E & H)%wp_elim_stops E'. rewrite E in E'. by injection E' as -> ->. Qed.

Lemma runs_reachable rs e s : runs rs e s -> reachable e s.
Proof. induction 1; [by eapply reach_boot|by eapply reach_exception]. Qed.

(** Every run leads to a state that a run lists. *)
Lemma reachable_runs e s : reachable e s -> exists rs, runs rs e s.
Proof.
  induction 1 as [|? ? ? ? ? _ [rs ?]]; [exists []; by eapply runs_boot|].
  eexists. by eapply runs_exception.
Qed.

Lemma stretch_reachable keep count e s rs n e' s' :
  reachable e s -> stretch keep count e s rs n e' s' -> reachable e' s'.
Proof. intros Hr. induction 1; [done|]. by eapply reach_exception. Qed.

(** The step of the abstract kernel that an exception of a run makes. *)
Lemma exception_step s v s1 e' s' :
  nucleus_inv s v -> outside s s1 -> admissible s1 -> exceptionHandler s1 = Stop e' s' ->
  nucleus_inv s1 v /\ exists v', nucleus_inv s' v' /\
    a_step device_keys (exception_request s1) (abs_of s1 v) (abs_of s' v') /\
    a_gives_up (exception_request s1) (leave_of e') (abs_of s' v').
Proof.
  intros N Ho Ha Hx. pose proof (outside_inv _ _ _ Ho N) as N1. split; [done|].
  exact (stops_elim _ _ _ _ _ (exceptionHandler_simulates s1 v N1 Ha) Hx).
Qed.

(** A process alone has no children. *)
Lemma alone_no_kids s v c : kernel_inv s v [c] -> v_ready v = [] -> blocked (v_entries v) = [] -> v_kids v c = [].
Proof.
  intros I Hr Hb. pose proof (inv_forest _ _ _ I) as F. unfold live in F. rewrite Hr, Hb in F. cbn in F.
  destruct (v_kids v c) as [|x l] eqn:Ek; [done|]. destruct (forest_rank _ _ _ F) as [rank Hrank].
  assert (c ∈ [c]) as Hc by left. assert (x ∈ v_kids v c) as Hx by (rewrite Ek; left).
  pose proof (forest_live _ _ _ F c x Hc Hx) as ->%list_elem_of_singleton.
  specialize (Hrank c c Hc Hx). lia.
Qed.

Lemma boot_initial s e s' : bootable s -> main s = Stop e s' ->
  exists v, nucleus_inv s' v /\ a_initial (abs_of s' v) /\ leave_of e = LRun.
Proof.
  intros Hb Hm. destruct (main_ok s Hb) as (s1 & Hi & Hst). pose proof (stops_elim _ _ _ _ _ Hst Hm) as H.
  destruct H as (st & -> & Hc & _ & Hsoft & Hints & _ & v & N & Hr & Hbl). exists v. split; [done|]. split; [|done].
  destruct Hi as (_ & _ & _ & _ & Hsem & _).
  assert (currentProcess s' <> NULL) as Hc0 by (intros E; apply pcb_table_not_NULL; rewrite <- E, Hc; apply elem_of_pcb_table; by exists 19).
  pose proof (nucleus_kernel _ _ N) as I. rewrite (running_some _ Hc0) in I. split_and!.
  - done.
  - intros k. cbn. destruct (waiting v k) as [|p q] eqn:E; [done|].
    assert (p ∈ blocked (v_entries v)) as Hp by (eapply procs_at_blocked; unfold waiting in E; rewrite E; left).
    rewrite Hbl in Hp. by apply not_elem_of_nil in Hp.
  - pose proof (inv_part _ _ _ I) as Hpart. unfold live in Hpart. by rewrite Hr, Hbl in Hpart.
  - by eapply alone_no_kids.
  - done.
  - intros i Hi. cbn. rewrite Hints. auto.
Qed.

Lemma outside_abs s s1 v : outside s s1 -> a_outside (abs_of s v) (abs_of s1 v).
Proof.
  intros [_ _ (_ & Hc & _ & Hs & _) Hi Hd _ _]. exists (fun k => ints s1 !! k). split_and!; [done|done|].
  unfold abs_of. cbn. by rewrite Hc, Hs.
Qed.

Lemma runs_refine rs e s : runs rs e s -> exists v, nucleus_inv s v /\ a_runs rs (leave_of e) (abs_of s v).
Proof.
  induction 1 as [s e s' Hb Hm|rs e0 s s1 e s' _ (v & N & Hrun) H1 H2 Ho Ha Hx].
  - destruct (boot_initial s e s' Hb Hm) as (v & N & Hi & ->). exists v. split; [done|by constructor].
  - destruct (exception_step _ _ _ _ _ N Ho Ha Hx) as (_ & v' & N' & Hstep & Hl). exists v'. split; [done|].
    eapply a_serves; [done|by destruct e0|by destruct e0|by apply outside_abs|done|done].
Qed.

(** ** Balance *)
Lemma device_sem_addr i : 0 <= i < MAX_DEVICE_COUNT -> is_device_sem (sem_addr i) = true.
Proof.
  intros Hi. unfold is_device_sem. destruct (sem_addr_ok i Hi) as [-> _].
  destruct (sem_addr_ok 0 ltac:(done)) as [-> _]. destruct (sem_addr_ok CLOCK_INDEX ltac:(done)) as [-> _].
  unfold CLOCK_INDEX, MAX_DEVICE_COUNT, WORDLEN in *. apply andb_true_iff. rewrite !Z.leb_le. lia.
Qed.

Lemma device_key_sem s : is_device_sem (device_key s) = true.
Proof.
  unfold device_key. set (line := interrupt_line _). set (b := default 0 _). set (d := default _ _).
  destruct (device_index_range line (device_of_bitmap b) (interrupt_line_range _) (device_of_bitmap_range b)).
  apply device_sem_addr. unfold device_event, MAX_DEVICE_COUNT in *. destruct (_ && _); cbn [fst]; lia.
Qed.

Lemma device_request_ok s :
  (exec_code (bios_cause s) = 8 -> user_mode s = false -> valid_call s) -> device_request device_keys (exception_request s).
Proof.
  intros Hv. unfold exception_request, trap_request. cbv zeta.
  destruct (exec_code (bios_cause s) =? 0); [|destruct (_ && _) eqn:E].
  - repeat case_match; try done; apply elem_of_device_keys; [by apply device_sem_addr|by apply device_key_sem].
  - apply andb_true_iff in E as [E8%Z.eqb_eq Hu%negb_true_iff]. destruct (Hv E8 Hu) as (_ & _ & V5).
    unfold call_request, trap_request. cbv zeta.
    repeat case_match; try done; apply elem_of_device_keys, device_sem_addr; [|done]. apply V5. by apply Z.eqb_eq.
  - repeat case_match; done.
Qed.

Lemma waiting_NoDup s v hands k : kernel_inv s v hands -> NoDup (waiting v k).
Proof.
  intros I. pose proof (inv_live_NoDup _ _ _ I) as H. unfold live in H.
  apply NoDup_app in H as (_ & _ & H). apply NoDup_app in H as (H & _).
  eapply sublist_NoDup; [exact H|apply procs_at_sublist].
Qed.

(** The running process is not ready. *)
Lemma current_not_ready s v : nucleus_inv s v -> currentProcess s ∉ v_ready v.
Proof.
  intros N Hc. pose proof (nucleus_kernel _ _ N) as I. destruct (decide (currentProcess s = NULL)) as [E|E].
  - apply (inv_live_NULL _ _ _ I). rewrite <- E. unfold live. rewrite elem_of_app. by left.
  - pose proof (inv_live_NoDup _ _ _ I) as Hnd. unfold live in Hnd. rewrite (running_some _ E) in Hnd.
    apply NoDup_app in Hnd as (_ & Hd & _). apply (Hd _ Hc). rewrite elem_of_app. right. by left.
Qed.

Lemma exception_balance s v k :
  nucleus_inv s v -> admissible s -> sem_key k -> is_device_sem k = false ->
  (forall n, ints s !! k = Some n -> n < 2 ^ 31 - 1) -> balanced s v k ->
  stops exceptionHandler s (fun _ s' => exists v', nucleus_inv s' v' /\ balanced s' v' k).
Proof.
  intros N Ha Hk Hd Hmax Hb. eapply stops_mono; [|by apply exceptionHandler_simulates].
  intros e s' (v' & N' & Hstep & _). exists v'. split; [done|].
  refine (step_balance device_keys _ (abs_of s v) (abs_of s' v') k Hk _ _ _ Hmax _ Hstep Hb).
  - rewrite elem_of_device_keys. congruence.
  - by eapply waiting_length, nucleus_kernel.
  - by eapply waiting_NoDup, nucleus_kernel.
  - apply device_request_ok, Ha.
Qed.
End simulation.
