(* ===== verification/AbsDeadlock.v ===== *)
(** * Waiting for input and output: the count, and deadlock

    On the abstract kernel: the soft-block count against the number of processes that wait for a
    device or the clock.  When the two agree the kernel panics exactly on a deadlock. *)
From S2P Require Export Simulation.

(** The number of processes that wait for one of the semaphores [devices]. *)
Definition io_waiting (devices : list Z) (a : abs) : nat := sum_list_with (fun k => length (a_queue a k)) devices.

(** A P for input or output that does not wait: the caller is counted all the same, for ever. *)
Definition early (r : request) (value : Z -> option Z) : Z :=
  match r with
  | RIO k => if i32 (default 0 (value k) - 1) <? 0 then 0 else 1
  | _ => 0
  end.

(** P and V of the user are not on device semaphores. *)
Definition ordinary (devices : list Z) (r : request) : Prop :=
  match r with RP k | RV k => k ∉ devices | _ => True end.

(** No process is on two queues. *)
Definition queues_disjoint (a : abs) : Prop :=
  (forall k, NoDup (a_queue a k)) /\ forall k k' x, x ∈ a_queue a k -> x ∈ a_queue a k' -> k = k'.

(** No process can ever run again: processes exist, none runs or is ready, and none waits for a device
    or the clock, so that no interrupt wakes one. *)
Definition deadlocked (devices : list Z) (a : abs) : Prop :=
  a_cur a = NULL /\ a_ready a = [] /\ Z.of_nat (length (a_free a)) <> MAXPROC /\
  forall k, k ∈ devices -> a_queue a k = [].

(** * Lemmas *)
Section count.
Implicit Types (a b : abs) (k : Z) (q D devices : list Z) (r : request).

Lemma io_waiting_ext devices a b :
  (forall k, k ∈ devices -> a_queue a k = a_queue b k) -> io_waiting devices a = io_waiting devices b.
Proof.
  unfold io_waiting. induction devices as [|k l IH]; intros H; [done|]. cbn.
  rewrite H by (by left). rewrite IH; [done|]. intros k' ?. apply H. by right.
Qed.

Lemma io_waiting_equiv devices a b : a ≡ b -> io_waiting devices a = io_waiting devices b.
Proof. intros (_ & _ & _ & Hq & _). by apply io_waiting_ext. Qed.

(** One queue changes. *)
Lemma io_waiting_set devices a b k q :
  NoDup devices -> k ∈ devices -> (forall k', a_queue b k' = <[k := q]> (a_queue a) k') ->
  (io_waiting devices b + length (a_queue a k) = io_waiting devices a + length q)%nat.
Proof.
  intros Hnd Hk Hq. induction Hnd as [|k0 l Hnin Hnd IH]; [by apply not_elem_of_nil in Hk|].
  assert (io_waiting (k0 :: l) a = length (a_queue a k0) + io_waiting l a)%nat as -> by done.
  assert (io_waiting (k0 :: l) b = length (a_queue b k0) + io_waiting l b)%nat as -> by done.
  rewrite Hq. apply elem_of_cons in Hk as [->|Hk].
  - rewrite fn_lookup_insert. rewrite (io_waiting_ext l b a); [lia|].
    intros k' Hk'. rewrite Hq, fn_lookup_insert_ne; [done|]. by intros ->.
  - rewrite fn_lookup_insert_ne by (by intros ->). specialize (IH Hk). lia.
Qed.

Lemma io_waiting_other devices a b k q :
  k ∉ devices -> (forall k', a_queue b k' = <[k := q]> (a_queue a) k') -> io_waiting devices b = io_waiting devices a.
Proof. intros Hk Hq. apply io_waiting_ext. intros k' Hk'. rewrite Hq, fn_lookup_insert_ne; [done|]. by intros ->. Qed.

Lemma io_waiting_elem devices a k : k ∈ devices -> (length (a_queue a k) <= io_waiting devices a)%nat.
Proof.
  unfold io_waiting. induction devices as [|k0 l IH]; intros Hk; [by apply not_elem_of_nil in Hk|].
  cbn. apply elem_of_cons in Hk as [->|Hk]; [lia|]. specialize (IH Hk). lia.
Qed.

Lemma io_waiting_zero devices a : io_waiting devices a = 0%nat <-> forall k, k ∈ devices -> a_queue a k = [].
Proof.
  split.
  - intros H k Hk. pose proof (io_waiting_elem devices a k Hk). apply length_zero_iff_nil. lia.
  - intros H. unfold io_waiting. induction devices as [|k l IH]; [done|]. cbn.
    rewrite H by (by left). apply IH. intros k' ?. apply H. by right.
Qed.

(** Each process waits for one semaphore at most, so it is counted once. *)
Lemma count_one devices a x :
  NoDup devices -> queues_disjoint a ->
  sum_list_with (fun k => if bool_decide (x ∈ a_queue a k) then 1%nat else 0%nat) devices =
  (if bool_decide (waits_for devices a x) then 1%nat else 0%nat).
Proof.
  intros Hnd [_ Hdis]. induction Hnd as [|k l Hnin Hnd IH]; [done|]. cbn [sum_list_with]. rewrite IH.
  destruct (bool_decide_reflect (x ∈ a_queue a k)) as [H|H], (bool_decide_reflect (waits_for l a x)) as [H'|H'].
  - unfold waits_for in H'. apply Exists_exists in H' as (k' & Hk' & Hx). by rewrite (Hdis k k' x H Hx) in Hnin.
  - rewrite bool_decide_eq_true_2; [done|]. by left.
  - rewrite bool_decide_eq_true_2; [done|]. by right.
  - rewrite bool_decide_eq_false_2; [done|]. unfold waits_for in *. rewrite Exists_cons. tauto.
Qed.

Lemma filter_count {A} (P : A -> Prop) `{forall x, Decision (P x)} x (l : list A) :
  length (filter P (x :: l)) = ((if bool_decide (P x) then 1 else 0) + length (filter P l))%nat.
Proof. rewrite filter_cons. case_decide; [by rewrite bool_decide_eq_true_2|by rewrite bool_decide_eq_false_2]. Qed.

Lemma sum_list_with_add {A} (f g : A -> nat) l :
  sum_list_with (fun x => (f x + g x)%nat) l = (sum_list_with f l + sum_list_with g l)%nat.
Proof. induction l as [|x l IH]; [done|]. cbn. lia. Qed.

Lemma sum_list_with_ext {A} (f g : A -> nat) l : (forall x, f x = g x) -> sum_list_with f l = sum_list_with g l.
Proof. intros H. induction l as [|x l IH]; [done|]. cbn. by rewrite H, IH. Qed.

Lemma count_killed devices a D :
  NoDup devices -> queues_disjoint a ->
  sum_list_with (fun k => length (filter (fun x => x ∈ a_queue a k) D)) devices =
  length (filter (waits_for devices a) D).
Proof.
  intros Hnd Hq. induction D as [|x D IH].
  - cbn. clear. by induction devices.
  - rewrite filter_count, <- IH, <- (count_one devices a x Hnd Hq), <- sum_list_with_add.
    apply sum_list_with_ext. intros k. by rewrite (filter_count (fun x => x ∈ a_queue a k)).
Qed.

Lemma io_waiting_kill devices a D :
  NoDup devices -> NoDup D -> queues_disjoint a ->
  (io_waiting devices (a_kill devices D a) + length (filter (waits_for devices a) D) = io_waiting devices a)%nat.
Proof.
  intros Hnd HD Hq. rewrite <- (count_killed devices a D Hnd Hq).
  assert (forall k, a_queue (a_kill devices D a) k = without D (a_queue a k)) as E.
  { intros k. unfold a_kill, a_dispatch. cbn. by destruct (without D (a_ready a)). }
  unfold io_waiting. rewrite <- sum_list_with_add. apply sum_list_with_ext. intros k. rewrite E.
  pose proof (without_length D (a_queue a k) HD (proj1 Hq k)). lia.
Qed.

(** ** The steps *)
(** The count is the number of the waiting processes and [extra] more. *)
Definition counted devices extra a : Prop := a_soft a = Z.of_nat (io_waiting devices a) + extra.

Lemma counted_same devices extra a b :
  a_soft b = a_soft a -> (forall k, a_queue b k = a_queue a k) -> counted devices extra a -> counted devices extra b.
Proof. unfold counted. intros -> Hq ->. by rewrite (io_waiting_ext devices b a). Qed.

Lemma counted_dispatch devices extra a : counted devices extra a -> counted devices extra (a_dispatch a).
Proof. unfold a_dispatch. by destruct (a_ready a). Qed.

Lemma counted_settle devices extra a : counted devices extra a -> counted devices extra (a_settle a).
Proof. unfold a_settle. destruct (a_cur a =? NULL); [apply counted_dispatch|done]. Qed.

Lemma counted_equiv devices extra a b : a ≡ b -> counted devices extra a -> counted devices extra b.
Proof. intros (_ & _ & _ & Hq & _ & _ & Hs). apply counted_same; [done|]. intros k. by rewrite Hq. Qed.

(** The queue of one semaphore changes. *)
Lemma counted_other devices extra a b k q :
  k ∉ devices -> (forall k', a_queue b k' = <[k := q]> (a_queue a) k') -> a_soft b = a_soft a ->
  counted devices extra a -> counted devices extra b.
Proof. unfold counted. intros Hk Hq -> ->. by rewrite (io_waiting_other devices a b k q). Qed.

Lemma counted_set devices extra a b k q :
  NoDup devices -> k ∈ devices -> (forall k', a_queue b k' = <[k := q]> (a_queue a) k') ->
  a_soft b = a_soft a + Z.of_nat (length q) - Z.of_nat (length (a_queue a k)) ->
  counted devices extra a -> counted devices extra b.
Proof.
  unfold counted. intros Hnd Hk Hq -> ->. pose proof (io_waiting_set devices a b k q Hnd Hk Hq). lia.
Qed.

(** P on a semaphore of the user. *)
Lemma counted_P devices extra a k : k ∉ devices -> counted devices extra a -> counted devices extra (a_P k a).
Proof.
  intros Hk H. unfold a_P. destruct (i32 _ <? 0); [apply counted_dispatch|exact H].
  by apply (counted_other _ _ a _ k (a_queue a k ++ [a_cur a])).
Qed.

(** P on a device semaphore, with the caller counted. *)
Lemma counted_IO devices extra a k :
  NoDup devices -> k ∈ devices -> (i32 (default 0 (a_value a k) - 1) <? 0) = true ->
  in_i32 (a_soft a + 1) -> counted devices extra a -> counted devices extra (a_P k (set_soft (i32 (a_soft a + 1)) a)).
Proof.
  intros Hnd Hk Hneg Hr H. unfold a_P. cbn [a_value set_soft]. rewrite Hneg. apply counted_dispatch.
  apply (counted_set _ _ a _ k (a_queue a k ++ [a_cur a])); try done.
  cbn. rewrite i32_small by done. rewrite length_app. cbn. lia.
Qed.

Lemma counted_wake devices extra a k :
  k ∉ devices -> counted devices extra a -> counted devices extra (a_wake k a).
Proof.
  intros Hk H. unfold a_wake. destruct (a_queue a k) as [|p q]; [done|]. by apply (counted_other _ _ a _ k q).
Qed.

Lemma counted_device devices extra a k :
  NoDup devices -> k ∈ devices -> in_i32 (a_soft a) -> in_i32 (a_soft a - 1) ->
  counted devices extra a -> counted devices extra (a_device k a).
Proof.
  intros Hnd Hk Hr Hr' H. apply counted_settle. unfold a_wake. cbn [a_queue uncount set_value set_soft].
  destruct (a_queue a k) as [|p q] eqn:Eq; [done|]. apply (counted_set _ _ a _ k q); try done.
  cbn [a_soft set_ready set_queue uncount set_soft set_value length Nat.min].
  rewrite iter_dec, Eq by done. cbn [length]. lia.
Qed.

Lemma counted_tick devices extra a k :
  NoDup devices -> k ∈ devices -> in_i32 (a_soft a) -> in_i32 (a_soft a - Z.of_nat (length (a_queue a k))) ->
  counted devices extra a -> counted devices extra (a_tick k a).
Proof.
  intros Hnd Hk Hr Hr' H. apply counted_settle. apply (counted_set _ _ a _ k []); try done.
  cbn [a_soft set_ready set_queue uncount set_soft set_value]. rewrite iter_dec by done. cbn [length]. lia.
Qed.

Lemma counted_kill devices extra a D :
  NoDup devices -> NoDup D -> queues_disjoint a -> 0 <= extra -> in_i32 (a_soft a) ->
  counted devices extra a -> counted devices extra (a_kill devices D a).
Proof.
  intros Hnd HD Hq He Hr H. pose proof (io_waiting_kill devices a D Hnd HD Hq) as E. unfold counted in *.
  assert (a_soft (a_kill devices D a) =
    Nat.iter (length (filter (waits_for devices a) D)) (fun z => i32 (z - 1)) (a_soft a)) as ->.
  { unfold a_kill, a_dispatch. cbn. by destruct (without D (a_ready a)). }
  rewrite iter_dec; [lia|done|]. unfold in_i32 in *. lia.
Qed.

(** A step keeps the count exact, but for the early callers. *)
Lemma step_counted devices r a a' extra :
  NoDup devices -> queues_disjoint a -> device_request devices r -> ordinary devices r ->
  0 <= extra -> a_soft a < 2 ^ 31 - 1 -> a_step devices r a a' ->
  counted devices extra a -> counted devices (extra + early r (a_value a)) a'.
Proof.
  intros Hnd Hq Hdev Hord He Hmax Hstep H. assert (in_i32 (a_soft a) /\ in_i32 (a_soft a + 1)) as [Hr Hr1].
  { unfold counted in H. unfold in_i32. lia. }
  assert (forall b, a' ≡ b -> counted devices (extra + early r (a_value a)) b -> counted devices (extra + early r (a_value a)) a') as Hback.
  { intros b E. apply counted_equiv. by symmetry. }
  destruct r as [| | | |k|k|k|k|k|k|]; cbn in Hstep, Hdev, Hord; cbn [early] in *; rewrite ?Z.add_0_r in *.
  - by eapply Hback.
  - by eapply Hback.
  - eapply Hback; [done|]. unfold a_create. by destruct (a_free a).
  - destruct Hstep as (D & HD & _ & E). eapply Hback; [done|]. by apply counted_kill.
  - eapply Hback; [done|]. by apply counted_P.
  - eapply Hback; [done|]. unfold a_V. destruct (_ <=? 0); [|done]. by apply counted_wake.
  - eapply Hback; [done|]. unfold a_IO. destruct (i32 _ <? 0) eqn:Eneg.
    + rewrite Z.add_0_r. by apply counted_IO.
    + unfold a_P. cbn [a_value set_soft]. rewrite Eneg. unfold counted in *. cbn [a_soft set_value set_soft].
      rewrite i32_small by done. change (io_waiting devices (set_value _ _ _)) with (io_waiting devices a). lia.
  - eapply Hback; [done|]. unfold a_clock. destruct (i32 _ <? 0) eqn:Eneg; [by apply counted_IO|].
    unfold a_P. by rewrite Eneg.
  - eapply Hback; [done|]. apply counted_device; try done. unfold counted, in_i32 in *. lia.
  - eapply Hback; [done|]. apply counted_tick; try done. pose proof (io_waiting_elem devices a k Hdev).
    unfold counted, in_i32 in *. lia.
  - eapply Hback; [done|]. by apply counted_dispatch.
Qed.

(** ** Deadlock *)
Lemma panics_deadlocked devices r a extra :
  counted devices extra a -> 0 <= extra -> r <> RStray -> a_gives_up r LPanic a -> deadlocked devices a.
Proof.
  intros H He Hr [Hp Hready]. specialize (Hready Hr). unfold a_leaves in Hp. destruct r; try done;
    (destruct (Z.eqb_spec (a_cur a) NULL) as [E|]; [|done]; destruct (Z.eqb_spec (Z.of_nat (length (a_free a))) MAXPROC); [done|];
     destruct (Z.ltb_spec 0 (a_soft a)); [done|]; split_and!; [done|by apply Hready|done|];
     apply io_waiting_zero; unfold counted in H; lia).
Qed.

Lemma deadlocked_panics devices r a :
  counted devices 0 a -> deadlocked devices a -> a_leaves r a = LPanic.
Proof.
  intros H (Hc & _ & Hf & Hq). apply io_waiting_zero in Hq. unfold counted in H. rewrite Hq in H.
  unfold a_leaves. rewrite Hc, Z.eqb_refl, (proj2 (Z.eqb_neq _ _) Hf), H. by destruct r.
Qed.

(** An interrupt of a device or of the interval timer wakes nobody in a deadlock. *)
Lemma deadlocked_equiv devices a b : a ≡ b -> deadlocked devices a -> deadlocked devices b.
Proof.
  intros (Hc & Hr & Hf & Hq & _) (? & ? & ? & Hnone). unfold deadlocked. rewrite <- Hc, <- Hr, <- Hf.
  split_and!; [done..|]. intros k Hk. rewrite <- Hq. auto.
Qed.

Lemma deadlocked_stays devices r k a a' :
  r = RDevice k \/ r = RTick k -> k ∈ devices -> a_step devices r a a' -> deadlocked devices a -> deadlocked devices a'.
Proof.
  intros Hr Hk Hstep (Hc & Hready & Hf & Hq). pose proof (Hq k Hk) as Hqk.
  destruct Hr as [-> | ->]; cbn in Hstep; (eapply deadlocked_equiv; [symmetry; exact Hstep|]).
  - unfold a_device, a_wake, a_settle, a_dispatch. cbn. rewrite Hqk. cbn. rewrite Hc, Z.eqb_refl, Hready. done.
  - unfold a_tick, a_settle, a_dispatch. cbn. rewrite Hqk, Hc, Z.eqb_refl, Hready. cbn. split_and!; [done..|].
    intros k' Hk'. cbn. destruct (decide (k' = k)) as [->|]; [by rewrite fn_lookup_insert|].
    rewrite fn_lookup_insert_ne by done. auto.
Qed.

(** A list of processes bounds the number of those that wait. *)
Lemma io_waiting_bound devices a l :
  NoDup devices -> queues_disjoint a -> (forall k x, x ∈ a_queue a k -> x ∈ l) -> (io_waiting devices a <= length l)%nat.
Proof.
  intros Hnd Hq Hl. etransitivity; [|apply (length_filter (waits_for devices a))].
  rewrite <- (count_killed devices a l Hnd Hq). unfold io_waiting. clear Hnd.
  induction devices as [|k devices IH]; [done|]. cbn.
  assert (length (a_queue a k) <= length (filter (fun x => x ∈ a_queue a k) l))%nat; [|lia].
  apply submseteq_length, NoDup_submseteq; [apply Hq|]. intros x Hx. apply list_elem_of_filter. eauto.
Qed.
End count.

(** * The nucleus *)
Section nucleus.
Context {m : Machine}.
Implicit Types (s : kstate) (v : view).

(** Runs in which processes do P and V on their own semaphores and no processor timer interrupt
    comes while the machine waits, with the number of SYS5 that did not wait. *)
Inductive tracked : Z -> exit_event -> kstate -> Prop :=
| tracked_boot s e s' : bootable s -> main s = Stop e s' -> tracked 0 e s'
| tracked_exception n e0 s s1 e s' :
    tracked n e0 s -> e0 <> Halt -> e0 <> Panic -> outside s s1 -> admissible s1 ->
    ordinary device_keys (exception_request s1) -> exception_request s1 <> RStray ->
    exceptionHandler s1 = Stop e s' ->
    tracked (n + early (exception_request s1) (fun k => ints s1 !! k)) e s'.

Context {mok : MachineOk m}.

Lemma early_range r value : 0 <= early r value <= 1.
Proof. unfold early. repeat case_match; lia. Qed.

Lemma tracked_nonneg n e s : tracked n e s -> 0 <= n.
Proof. induction 1 as [|n e0 s s1 e s' _ IH]; [lia|]. pose proof (early_range (exception_request s1) (fun k => ints s1 !! k)). lia. Qed.

Lemma waiting_disjoint s v : nucleus_inv s v -> queues_disjoint (abs_of s v).
Proof.
  intros N. pose proof (nucleus_kernel _ _ N) as I. split; [intros k; by eapply waiting_NoDup|].
  intros k k' x Hx Hx'. cbn in Hx, Hx'.
  assert (forall j, x ∈ waiting v j -> sem_of s x = j) as Hat; [|by rewrite <- (Hat k), <- (Hat k')].
  intros j Hj. apply (waits_at s v); [done|by eapply inv_waiting_live| |done].
  destruct (inv_keys _ _ _ I j) as [[? ?] _]; [by intros E; rewrite E in Hj; apply not_elem_of_nil in Hj|lia].
Qed.

Lemma io_waiting_max s v : nucleus_inv s v -> (io_waiting device_keys (abs_of s v) <= 20)%nat.
Proof.
  intros N. pose proof (nucleus_kernel _ _ N) as I.
  etransitivity; [apply (io_waiting_bound _ _ (live v (running s)))|].
  - apply device_keys_NoDup.
  - by apply waiting_disjoint.
  - intros k x. exact (inv_waiting_live s v _ k x I).
  - pose proof (inv_length _ _ _ I). lia.
Qed.

Lemma exception_counted s v n :
  nucleus_inv s v -> admissible s -> ordinary device_keys (exception_request s) -> 0 <= n < 2 ^ 31 - 21 ->
  counted device_keys n (abs_of s v) ->
  stops exceptionHandler s (fun e s' => exists v', nucleus_inv s' v' /\
    a_gives_up (exception_request s) (leave_of e) (abs_of s' v') /\
    counted device_keys (n + early (exception_request s) (fun k => ints s !! k)) (abs_of s' v')).
Proof.
  intros N Ha Ho Hn Hcount. eapply stops_mono; [|by apply exceptionHandler_simulates].
  intros e s' (v' & N' & Hstep & Hl). exists v'. split_and!; [done..|].
  apply (step_counted device_keys (exception_request s) (abs_of s v)); try done.
  - apply device_keys_NoDup.
  - by apply waiting_disjoint.
  - apply device_request_ok, Ha.
  - lia.
  - pose proof (io_waiting_max s v N). unfold counted in Hcount. lia.
Qed.

Lemma outside_counted s s1 v n : outside s s1 -> counted device_keys n (abs_of s v) -> counted device_keys n (abs_of s1 v).
Proof. intros [_ _ (_ & _ & _ & Hs & _) _ _ _ _]. by apply counted_same. Qed.

Lemma tracked_counted n e s :
  tracked n e s -> n < 2 ^ 31 - 21 -> exists v, nucleus_inv s v /\ counted device_keys n (abs_of s v) /\
    (exists r, r <> RStray /\ a_gives_up r (leave_of e) (abs_of s v)).
Proof.
  induction 1 as [s e s' Hb Hm|n e0 s s1 e s' Hrun IH _ _ Ho Ha Hord Hns Hx]; intros Hn.
  - destruct (boot_initial s e s' Hb Hm) as (v & N & (Hr & Hq & Hpart & _ & Hsoft & _) & He). exists v.
    assert (currentProcess s' <> NULL) as Hc.
    { intros E. apply pcb_table_not_NULL. rewrite <- E, <- Hpart. cbn. set_solver. }
    split_and!; [done| |exists RNone; split; [done|]; rewrite He; by apply leaves_running].
    unfold counted. rewrite Hsoft. assert (io_waiting device_keys (abs_of s' v) = 0%nat) as ->; [|done].
    apply io_waiting_zero. auto.
  - pose proof (tracked_nonneg _ _ _ Hrun) as Hn0. pose proof (early_range (exception_request s1) (fun k => ints s1 !! k)).
    destruct IH as (v & N & Hcount & _); [lia|].
    destruct (stops_elim _ _ _ _ _ (exception_counted s1 v n (outside_inv _ _ _ Ho N) Ha Hord ltac:(lia)
      (outside_counted _ _ _ _ Ho Hcount)) Hx) as (v' & N' & Hl & Hc'). exists v'. eauto.
Qed.

(** In a deadlock no interrupt changes anything. *)
Lemma deadlock_permanent s v s1 :
  nucleus_inv s v -> deadlocked device_keys (abs_of s v) ->
  outside s s1 -> admissible s1 -> exec_code (bios_cause s1) = 0 -> line1 s1 = false ->
  stops exceptionHandler s1 (fun _ s' => exists v', nucleus_inv s' v' /\ deadlocked device_keys (abs_of s' v')).
Proof.
  intros N Hd Ho Ha He H1. pose proof (device_request_ok s1 (proj2 (proj2 Ha))) as Hr.
  eapply stops_mono; [|by apply (exceptionHandler_simulates s1 v); [eapply outside_inv|]].
  intros e s' (v' & N' & Hstep & _). exists v'. split; [done|].
  assert (deadlocked device_keys (abs_of s1 v)) as Hd1.
  { destruct Ho as [_ _ (_ & Hc & _) _ _ _ _]. unfold deadlocked in *. cbn in *. by rewrite Hc. }
  unfold exception_request in *. rewrite He, H1 in *. cbn [Z.eqb] in *.
  destruct (line2 s1); eapply deadlocked_stays; [by right|exact Hr|exact Hstep|done|by left|exact Hr|exact Hstep|done].
Qed.
End nucleus.
