(* ===== verification/Readback.v ===== *)
(** * Reading the abstract state back

    The view of a state under the invariant is determined by it: executable functions walk the
    links from the list heads and return the lists.  A theorem about a view is thus a theorem about
    what a debugger would print. *)
From S2P Require Export HandlerBase.

(** A NULL-terminated list, of at most [fuel] nodes. *)
Fixpoint follow (fuel : nat) (nx : Z -> option Z) (c : Z) : list Z :=
  match fuel with
  | O => []
  | S n => if c =? NULL then []
           else c :: match nx c with Some d => follow n nx d | None => [] end
  end.

(** A circular queue from a node to its tail. *)
Fixpoint walk_to (fuel : nat) (nx : Z -> option Z) (t x : Z) : list Z :=
  match fuel with
  | O => []
  | S n => x :: if x =? t then []
                else match nx x with Some y => walk_to n nx t y | None => [] end
  end.

Definition queue_of (h : gmap Z pcb_t) (t : Z) : list Z :=
  if t =? NULL then []
  else match fld p_next h t with Some x => walk_to 20 (fld p_next h) t x | None => [] end.

Definition free_of (s : kstate) : list Z := follow 20 (fld p_next (pcbs s)) (pcbFree_h s).

Definition ready_of (s : kstate) : list Z := queue_of (pcbs s) (readyQueue s).

Definition entry_of (s : kstate) (a : Z) : entry :=
  Entry a (default 0 (fld s_semAdd (semds s) a))
    (queue_of (pcbs s) (default NULL (fld s_procQ (semds s) a))).

Definition entries_of (s : kstate) : list entry :=
  entry_of s <$> follow 22 (fld s_next (semds s)) (semd_h s).

Definition semds_of (s : kstate) : list Z := follow 22 (fld s_next (semds s)) (semdFree_h s).

Definition kids_of (s : kstate) (p : Z) : list Z :=
  follow 20 (fld p_rSib (pcbs s)) (default NULL (fld p_child (pcbs s) p)).

Definition waiting_of (s : kstate) (k : Z) : list Z := procs_at (entries_of s) k.

(** * Lemmas *)
Lemma follow_ok fuel nx c l : is_list nx c l -> (length l <= fuel)%nat -> follow fuel nx c = l.
Proof.
  revert c l. induction fuel as [|n IH]; intros c [|x l] Hl Hn; cbn in Hn; [done|lia|..].
  - cbn. destruct Hl. by rewrite Z.eqb_refl.
  - destruct Hl as (-> & Hx & d & Hd & Hl). cbn. rewrite (proj2 (Z.eqb_neq _ _) Hx), Hd.
    f_equal. apply IH; [done|lia].
Qed.

Lemma walk_to_ok fuel h t (l1 l2 : list Z) x :
  is_queue h t (l1 ++ x :: l2) -> (length (x :: l2) <= fuel)%nat ->
  walk_to fuel (fld p_next h) t x = x :: l2.
Proof.
  revert l1 x l2. induction fuel as [|n IH]; intros l1 x l2 Hq Hn; cbn in Hn; [lia|].
  destruct (is_queue_tail_without _ _ _ _ _ Hq) as [Hlast _]. cbn. destruct (Z.eqb_spec x t) as [->|Hx].
  - by rewrite (proj1 Hlast eq_refl).
  - destruct l2 as [|y l2]; [by destruct Hx; apply Hlast|].
    rewrite (is_queue_next _ _ _ _ _ _ Hq). f_equal. apply (IH (l1 ++ [x])); [by rewrite <- app_assoc|cbn in *; lia].
Qed.

Lemma queue_of_ok h t l : is_queue h t l -> (length l <= 20)%nat -> queue_of h t = l.
Proof.
  intros Hq Hn. unfold queue_of. destruct l as [|x l].
  - destruct Hq as [-> _]. done.
  - destruct (is_queue_cons _ _ _ _ Hq) as (Ht & _ & _ & [Hd _] & _).
    rewrite (proj2 (Z.eqb_neq _ _) Ht), Hd. by apply (walk_to_ok _ _ _ []).
Qed.

Section readback.
Context {m : Machine} {mok : MachineOk m}.
Implicit Types (s : kstate) (v : view) (hands : list Z).

Lemma blocked_entry_length L e : e ∈ L -> (length (e_procs e) <= length (blocked L))%nat.
Proof.
  intros (L1 & L2 & ->)%list_elem_of_split. rewrite blocked_app, blocked_cons, !length_app. lia.
Qed.

Lemma entries_of_ok s L fs : asl s L fs -> (length (blocked L) <= 20)%nat -> entries_of s = L.
Proof.
  intros [A _] Hn. unfold entries_of. pose proof (asl_total _ _ _ A).
  rewrite (follow_ok 22 _ _ _ (asl_list _ _ _ A)) by (rewrite length_fmap; lia).
  rewrite <- list_fmap_compose. rewrite <- (list_fmap_id L) at 2. apply list_fmap_ext. intros i e He.
  apply list_elem_of_lookup_2 in He. pose proof (blocked_entry_length _ _ He).
  destruct (proj1 (Forall_forall _ _) (asl_nodes _ _ _ A) e He) as (Hk & (t & Ht & Hq) & _).
  cbn. unfold entry_of. rewrite Hk, Ht. cbn. rewrite (queue_of_ok _ _ _ Hq) by lia. by destruct e.
Qed.

(** The view of a state is what the links say. *)
Lemma readback s v hands :
  kernel_inv s v hands ->
  v_free v = free_of s /\ v_ready v = ready_of s /\ v_entries v = entries_of s /\
  v_semds v = semds_of s /\ (forall p, p ∈ live v hands -> v_kids v p = kids_of s p).
Proof.
  intros I. pose proof (inv_length _ _ _ I) as Hn. unfold live in Hn. rewrite !length_app in Hn.
  pose proof (inv_asl _ _ _ I) as A. pose proof (asl_total _ _ _ (proj1 A)). split_and!; [symmetry..|].
  - apply follow_ok; [apply (inv_free _ _ _ I)|lia].
  - apply queue_of_ok; [apply (inv_ready _ _ _ I)|lia].
  - eapply entries_of_ok; [done|lia].
  - apply follow_ok; [apply (asl_free _ _ _ (proj1 A))|lia].
  - intros p Hp. symmetry. pose proof (inv_kids_length _ _ _ p I Hp) as Hk. rewrite walk_fuel_eq in Hk.
    destruct (forest_children _ _ _ (inv_forest _ _ _ I) p Hp) as (c & Hc & Hl & _).
    unfold kids_of. rewrite Hc. apply follow_ok; [done|lia].
Qed.
End readback.
