(* ===== verification/Fairness.v ===== *)
(** * Waiting in line

    The ready queue and the queues of the semaphores are lines: who stands in one only moves
    forward.  On the abstract kernel a step takes the head, appends at the end, or removes the
    processes it kills; a run of the nucleus does the same, so the number of processes ahead bounds
    the number of times the line moves before the process is served. *)
From S2P Require Export Simulation Readback.

(** The lines a process can stand in. *)
Inductive line : Type := LReady | LSem (k : Z).

Definition a_line (w : line) (a : abs) : list Z :=
  match w with LReady => a_ready a | LSem k => a_queue a k end.

(** The request signals [k], whose value is [n]: a V that finds somebody waiting, or an interrupt. *)
Definition signals (k n : Z) (r : request) : bool :=
  match r with
  | RV k' => bool_decide (k' = k) && (i32 (n + 1) <=? 0)
  | RDevice k' | RTick k' => bool_decide (k' = k)
  | _ => false
  end.

(** The ready queue moves when the running process changes, the queue of [k] when [k] is signalled. *)
Definition a_moves (w : line) (r : request) (a a' : abs) : bool :=
  match w with
  | LReady => negb (a_cur a' =? a_cur a)
  | LSem k => signals k (default 0 (a_value a k)) r
  end.

(** From [l] to [l'] the process [p] moves forward by [c] places or more, and nobody gets ahead. *)
Definition forward (p : Z) (c : nat) (l l' : list Z) : Prop :=
  forall l1 l2, l = l1 ++ p :: l2 -> exists l1' l2',
    l' = l1' ++ p :: l2' /\ l1' `sublist_of` l1 /\ (length l1' + c <= length l1)%nat.

Section lines.
Context {m : Machine}.
Implicit Types (s : kstate) (v : view) (w : line) (p : Z).

Definition line_of w s : list Z :=
  match w with LReady => ready_of s | LSem k => waiting_of s k end.

Definition moves w s1 s' : bool :=
  match w with
  | LReady => negb (currentProcess s' =? currentProcess s1)
  | LSem k => signals k (default 0 (ints s1 !! k)) (exception_request s1)
  end.

(** The stretches during which [p] keeps standing in the line [w], and how many times the line moves. *)
Definition stands w p : exit_event -> kstate -> list request -> nat -> exit_event -> kstate -> Prop :=
  stretch (fun _ _ s' => p ∈ line_of w s') (fun s1 s' => if moves w s1 s' then 1%nat else 0%nat).

(** The number of time slices that end. *)
Definition is_slice (r : request) : bool := match r with RSlice => true | _ => false end.
Definition slices (rs : list request) : nat := length (filter (fun r => is_slice r = true) rs).
End lines.

(** * Lemmas *)

(** ** Moving forward *)
Section forward.
Implicit Types (p x : Z) (c : nat) (l q D : list Z).

Lemma forward_refl p l : forward p 0 l l.
Proof. intros l1 l2 ->. exists l1, l2. split_and!; [done..|lia]. Qed.

Lemma forward_trans p c d l l' l'' : forward p c l l' -> forward p d l' l'' -> forward p (c + d) l l''.
Proof.
  intros H1 H2 l1 l2 E. destruct (H1 l1 l2 E) as (l1' & l2' & E' & Hs & Hn).
  destruct (H2 l1' l2' E') as (l1'' & l2'' & -> & Hs' & Hn'). exists l1'', l2''. split_and!; [done|by etrans|lia].
Qed.

Lemma forward_app p l q : forward p 0 l (l ++ q).
Proof. intros l1 l2 ->. exists l1, (l2 ++ q). split_and!; [by rewrite <- app_assoc|done|lia]. Qed.

Lemma forward_tail p x l : x <> p -> forward p 1 (x :: l) l.
Proof.
  intros Hx [|y l1] l2 E; injection E as -> ->; [done|]. exists l1, l2.
  split_and!; [done|by apply sublist_cons|cbn; lia].
Qed.

Lemma forward_without p D l : p ∉ D -> forward p 0 l (without D l).
Proof.
  intros Hp l1 l2 ->. exists (without D l1), (without D l2). unfold without.
  rewrite filter_app, filter_cons, decide_True by done. split_and!; [done|apply sublist_filter|].
  pose proof (length_filter (fun x => x ∉ D) l1). lia.
Qed.

Lemma forward_nil p c l' : forward p c [] l'.
Proof. by intros [|x l1] l2. Qed.
End forward.

(** ** The steps of the abstract kernel *)
Section steps.
Implicit Types (a b : abs) (p k : Z) (D devices : list Z) (r : request) (f : abs -> abs).

Lemma dispatch_forward p b :
  a_cur (a_dispatch b) <> p -> forward p 1 (a_ready b) (a_ready (a_dispatch b)).
Proof. unfold a_dispatch. destruct (a_ready b) as [|x l]; [intros; apply forward_nil|apply forward_tail]. Qed.

(** The ready queue after [f]: it grew at the end and the same process runs, or it moved. *)
Definition ready_step p a b : Prop :=
  (a_cur b = a_cur a /\ forward p 0 (a_ready a) (a_ready b)) \/ forward p 1 (a_ready a) (a_ready b).

Lemma ready_same p a b : a_cur b = a_cur a -> a_ready b = a_ready a -> ready_step p a b.
Proof. intros Hc Hr. left. rewrite Hr. split; [done|apply forward_refl]. Qed.

Lemma ready_more p a b q : a_cur b = a_cur a -> a_ready b = a_ready a ++ q -> ready_step p a b.
Proof. intros Hc Hr. left. rewrite Hr. split; [done|apply forward_app]. Qed.

Lemma ready_dispatch p a b :
  forward p 0 (a_ready a) (a_ready b) -> a_cur (a_dispatch b) <> p -> ready_step p a (a_dispatch b).
Proof. intros Hf Hp. right. apply (forward_trans p 0 1 _ (a_ready b)); [done|by apply dispatch_forward]. Qed.

Lemma ready_settle p a b :
  a_cur b = a_cur a -> forward p 0 (a_ready a) (a_ready b) -> a_cur (a_settle b) <> p -> ready_step p a (a_settle b).
Proof.
  intros Hc Hf. unfold a_settle. destruct (a_cur b =? NULL); [by apply ready_dispatch|by left].
Qed.

Lemma wake_forward p k a : forward p 0 (a_ready a) (a_ready (a_wake k a)).
Proof. unfold a_wake. destruct (a_queue a k); [apply forward_refl|apply forward_app]. Qed.

Lemma wake_cur k a : a_cur (a_wake k a) = a_cur a.
Proof. unfold a_wake. by destruct (a_queue a k). Qed.

Lemma P_ready p k a b :
  a_cur b = a_cur a -> a_ready b = a_ready a -> a_cur (a_P k b) <> p -> ready_step p a (a_P k b).
Proof.
  intros Hc Hr. unfold a_P. cbv zeta. destruct (_ <? 0).
  - apply ready_dispatch. cbn. rewrite Hr. apply forward_refl.
  - intros _. by apply ready_same.
Qed.

Lemma kill_ready p devices D a :
  p ∈ a_ready (a_kill devices D a) -> a_cur (a_kill devices D a) <> p -> ready_step p a (a_kill devices D a).
Proof.
  intros Hp. apply ready_dispatch. cbn. apply forward_without. revert Hp. unfold a_kill, a_dispatch. cbn.
  intros Hp. assert (p ∈ without D (a_ready a)) as [? _]%list_elem_of_filter; [|done].
  destruct (without D (a_ready a)); [done|by right].
Qed.

(** A request moves the ready queue when it makes another process run. *)
Lemma ready_line devices r a a' p :
  a_step devices r a a' -> p ∈ a_ready a' -> a_cur a' <> p -> ready_step p a a'.
Proof.
  assert (forall b, a' ≡ b -> (p ∈ a_ready b -> a_cur b <> p -> ready_step p a b) ->
    p ∈ a_ready a' -> a_cur a' <> p -> ready_step p a a') as Hback.
  { intros b (Hc & Hr & _) H. unfold ready_step in *. by rewrite Hc, Hr. }
  destruct r; cbn; try (intros E; apply (Hback _ E); intros _).
  - intros _. by apply ready_same.
  - intros _. by apply ready_same.
  - intros _. unfold a_create. destruct (a_free a); [by apply ready_same|by eapply ready_more].
  - intros (D & _ & _ & E). apply (Hback _ E), kill_ready.
  - by apply P_ready.
  - intros _. unfold a_V. cbv zeta. destruct (_ <=? 0); [|by apply ready_same].
    left. split; [by rewrite wake_cur|apply (wake_forward p k (set_value _ _ a))].
  - by apply P_ready.
  - apply P_ready; by destruct (_ <? 0).
  - apply ready_settle; [by rewrite wake_cur|apply (wake_forward p k (uncount _ (set_value _ _ a)))].
  - apply ready_settle; [done|apply forward_app].
  - apply ready_dispatch, forward_app.
Qed.

(** A time slice makes another process run when one is ready. *)
Lemma slice_moves a a' : a' ≡ a_slice a -> a_cur a ∉ a_ready a -> a_ready a <> [] -> a_cur a' <> a_cur a.
Proof.
  intros (-> & _) Hc. unfold a_slice, a_dispatch. cbn. destruct (a_ready a) as [|x l]; [done|].
  apply not_elem_of_cons in Hc as [Hx _]. by cbn.
Qed.

(** Dispatching leaves the queues of the semaphores. *)
Lemma dispatch_queue a k : a_queue (a_dispatch a) k = a_queue a k.
Proof. unfold a_dispatch. by destruct (a_ready a). Qed.

Lemma settle_queue a k : a_queue (a_settle a) k = a_queue a k.
Proof. unfold a_settle. destruct (a_cur a =? NULL); [apply dispatch_queue|done]. Qed.

Lemma P_queue p k0 k a b :
  (forall k, a_queue b k = a_queue a k) -> forward p 0 (a_queue a k) (a_queue (a_P k0 b) k).
Proof.
  intros Hq. unfold a_P. cbv zeta. destruct (_ <? 0); [|cbn; rewrite Hq; apply forward_refl].
  rewrite dispatch_queue. cbn. destruct (decide (k = k0)) as [->|].
  - rewrite fn_lookup_insert, Hq. apply forward_app.
  - rewrite fn_lookup_insert_ne by done. rewrite Hq. apply forward_refl.
Qed.

(** Waking takes the head. *)
Lemma wake_queue p k0 k a b :
  (forall k, a_queue b k = a_queue a k) -> NoDup (a_queue a k) -> p ∈ a_queue (a_wake k0 b) k ->
  forward p (if bool_decide (k0 = k) then 1 else 0) (a_queue a k) (a_queue (a_wake k0 b) k).
Proof.
  intros Hq Hnd. unfold a_wake. destruct (a_queue b k0) as [|x q] eqn:E; rewrite Hq in E.
  - intros _. rewrite Hq. case_bool_decide as Hk; [subst; rewrite E; apply forward_nil|apply forward_refl].
  - cbn. case_bool_decide as Hk; [subst; rewrite fn_lookup_insert, E|rewrite fn_lookup_insert_ne by done].
    + intros Hp. apply forward_tail. intros ->. rewrite E in Hnd. by apply NoDup_cons in Hnd as [? _].
    + intros _. rewrite Hq. apply forward_refl.
Qed.

(** A request moves the queue of [k] when it signals [k]. *)
Lemma sem_line devices r a a' k p :
  a_step devices r a a' -> NoDup (a_queue a k) -> p ∈ a_queue a' k ->
  forward p (if signals k (default 0 (a_value a k)) r then 1 else 0) (a_queue a k) (a_queue a' k).
Proof.
  intros Hstep Hnd.
  assert (forall b c, a' ≡ b -> (p ∈ a_queue b k -> forward p c (a_queue a k) (a_queue b k)) ->
    p ∈ a_queue a' k -> forward p c (a_queue a k) (a_queue a' k)) as Hback.
  { intros b c (_ & _ & _ & Hq & _) H. by rewrite Hq. }
  destruct r as [| | | |k0|k0|k0|k0|k0|k0|]; cbn in Hstep |- *; try (apply (Hback _ _ Hstep)).
  - intros _. apply forward_refl.
  - intros _. apply forward_refl.
  - intros _. unfold a_create. destruct (a_free a); apply forward_refl.
  - destruct Hstep as (D & _ & _ & E). apply (Hback _ _ E). unfold a_kill. rewrite dispatch_queue. cbn.
    intros [? _]%list_elem_of_filter. by apply forward_without.
  - intros _. by apply P_queue.
  - pose proof (wake_queue p k0 k a (set_value k0 (i32 (default 0 (a_value a k0) + 1)) a) (fun _ => eq_refl) Hnd) as Hw.
    unfold a_V. cbv zeta. destruct (bool_decide_reflect (k0 = k)) as [->|Hk]; cbn [andb];
      destruct (_ <=? 0); try done; intros _; apply forward_refl.
  - intros _. by apply P_queue.
  - intros _. apply P_queue. by destruct (_ <? 0).
  - unfold a_device. rewrite settle_queue. by apply wake_queue.
  - unfold a_tick. rewrite settle_queue. cbn. case_bool_decide as Hk.
    + subst. rewrite fn_lookup_insert. by intros ?%not_elem_of_nil.
    + rewrite fn_lookup_insert_ne by done. intros _. apply forward_refl.
  - intros _. unfold a_slice. rewrite dispatch_queue. apply forward_refl.
Qed.
End steps.

(** ** The runs of the nucleus *)
Section runs.
Context {m : Machine} {mok : MachineOk m}.
Implicit Types (s : kstate) (v : view) (w : line) (p : Z).

Lemma line_view w s v : nucleus_inv s v -> line_of w s = a_line w (abs_of s v).
Proof.
  intros N. destruct (readback _ _ _ (nucleus_kernel _ _ N)) as (_ & Hr & He & _).
  destruct w as [|k]; cbn; [done|]. unfold waiting_of, waiting. by rewrite He.
Qed.

Lemma stray_idle s : exception_request s = RStray -> currentProcess s = NULL.
Proof.
  unfold exception_request, call_request, trap_request. cbv zeta. intros E.
  destruct (Z.eqb_spec (currentProcess s) NULL); [done|]. exfalso. repeat case_match; done.
Qed.

(** The processor is idle only when nobody is ready. *)
Lemma reachable_busy e s : reachable e s -> exists v, nucleus_inv s v /\
  (currentProcess s = NULL -> v_ready v = []) /\ (currentProcess s <> NULL -> leave_of e = LRun).
Proof.
  induction 1 as [s e s' Hb Hm|e0 s s1 e s' _ (v & N & Hidle & _) _ _ Ho Ha Hx].
  - destruct (boot_initial s e s' Hb Hm) as (v & N & (Hr & _) & Hl). by exists v.
  - destruct (exception_step _ _ _ _ _ N Ho Ha Hx) as (_ & v' & N' & Hstep & -> & Hempty).
    exists v'. split; [done|]. destruct (exception_request s1) eqn:Er; cbn in Hstep |- *;
      try (split; [by apply Hempty|by intros ->%Z.eqb_neq]).
    destruct Hstep as (Hc & Hr & _). cbn in Hc, Hr. rewrite Hc, Hr, (stray_idle _ Er). split; [|done]. intros _.
    apply Hidle. rewrite <- (stray_idle _ Er). symmetry. apply (outside_globals _ _ Ho).
Qed.

Lemma line_forward w p s v s1 e' s' :
  nucleus_inv s v -> outside s s1 -> admissible s1 -> exceptionHandler s1 = Stop e' s' ->
  p ∈ line_of w s' -> forward p (if moves w s1 s' then 1 else 0) (line_of w s) (line_of w s').
Proof.
  intros N Ho Ha Hx. destruct (exception_step _ _ _ _ _ N Ho Ha Hx) as (_ & v' & N' & Hstep & _).
  rewrite (line_view w s v N), (line_view w s' v' N'). intros Hp.
  destruct w as [|k]; cbn [a_line moves] in *.
  - destruct (ready_line _ _ _ _ p Hstep Hp) as [[Hc Hf]|Hf].
    + intros E. apply (current_not_ready s' v' N'). by rewrite <- E in Hp.
    + cbn in Hc. by rewrite Hc, Z.eqb_refl.
    + destruct (_ =? _); cbn; [|done]. intros l1 l2 E. destruct (Hf l1 l2 E) as (l1' & l2' & ? & ? & ?).
      exists l1', l2'. split_and!; [done..|lia].
  - apply (sem_line _ _ (abs_of s1 v) _ k p Hstep); [by eapply waiting_NoDup, nucleus_kernel|done].
Qed.

Lemma stands_next w p e s rs n e0 s0 s1 e' s' :
  stands w p e s rs n e0 s0 -> e0 <> Halt -> e0 <> Panic -> outside s0 s1 -> admissible s1 ->
  exceptionHandler s1 = Stop e' s' -> p ∈ line_of w s' ->
  stands w p e s (rs ++ [exception_request s1]) (n + if moves w s1 s' then 1 else 0) e' s'.
Proof. apply stretch_on. Qed.

Lemma stands_in w p e s rs n e' s' : p ∈ line_of w s -> stands w p e s rs n e' s' -> p ∈ line_of w s'.
Proof. by destruct 2. Qed.

Lemma stands_forward w p e s rs n e' s' :
  reachable e s -> stands w p e s rs n e' s' -> forward p n (line_of w s) (line_of w s').
Proof.
  intros Hr. induction 1 as [|rs n e0 s0 s1 e' s' Hst IH H1 H2 Ho Ha Hx Hp]; [apply forward_refl|].
  destruct (reachable_inv _ _ (stretch_reachable _ _ _ _ _ _ _ _ Hr Hst)) as [v N].
  eapply forward_trans; [exact IH|by eapply line_forward].
Qed.

Lemma slices_snoc rs r : slices (rs ++ [r]) = (slices rs + if is_slice r then 1 else 0)%nat.
Proof. unfold slices. rewrite filter_app, length_app. by destruct r. Qed.

Lemma stands_slices p e s rs n e' s' :
  reachable e s -> p ∈ ready_of s -> stands LReady p e s rs n e' s' -> (slices rs <= n)%nat.
Proof.
  intros Hr Hp0. induction 1 as [|rs n e0 s0 s1 e' s' Hst IH H1 H2 Ho Ha Hx Hp]; [done|]. rewrite slices_snoc.
  destruct (reachable_inv _ _ (stretch_reachable _ _ _ _ _ _ _ _ Hr Hst)) as [v N].
  destruct (exception_step _ _ _ _ _ N Ho Ha Hx) as (N1 & v' & N' & Hstep & _).
  destruct (exception_request s1); cbn [is_slice moves]; try lia.
  pose proof (slice_moves (abs_of s1 v) _ Hstep (current_not_ready _ _ N1)) as Hc. cbn [a_ready abs_of a_cur] in Hc.
  rewrite (proj2 (Z.eqb_neq _ _)); [cbn; lia|]. apply Hc. intros E.
  pose proof (stands_in LReady _ _ _ _ _ _ _ Hp0 Hst) as Hp1. rewrite (line_view _ _ _ N) in Hp1. cbn in Hp1.
  rewrite E in Hp1. by apply not_elem_of_nil in Hp1.
Qed.

Lemma ready_runs p e s : reachable e s -> p ∈ ready_of s -> leave_of e = LRun.
Proof.
  intros Hr Hp. destruct (reachable_busy e s Hr) as (v & N & Hidle & Hrun). apply Hrun. intros Hc.
  rewrite (line_view LReady s v N : ready_of s = v_ready v), (Hidle Hc) in Hp. by apply not_elem_of_nil in Hp.
Qed.
End runs.
