(* ===== verification/Units.v ===== *)
(** * The units of a semaphore

    On the abstract kernel, and then on the runs of the nucleus: a P or a V neither creates nor
    loses units.  The processes a semaphore lets through (a P that does not wait, a waiting process
    that a V makes ready) and the units left are the units there were and the V's. *)
From S2P Require Export Simulation Readback.

(** The processes the semaphore at [k] lets through in a step: the caller of a P that goes on
    running, or the processes that leave the queue in a V. *)
Definition a_grants (k : Z) (r : request) (a a' : abs) : nat :=
  match r with
  | RP k' => if bool_decide (k' = k) && (a_cur a' =? a_cur a) then 1 else 0
  | RV k' => if bool_decide (k' = k) then (length (a_queue a k) - length (a_queue a' k))%nat else 0
  | _ => 0
  end.

Definition is_V (k : Z) (r : request) : bool := match r with RV k' => bool_decide (k' = k) | _ => false end.

(** The number of V's. *)
Definition releases (k : Z) (rs : list request) : nat := length (filter (fun r => is_V k r = true) rs).

Section units.
Context {m : Machine}.

Definition grants (k : Z) (s1 s' : kstate) : nat :=
  match exception_request s1 with
  | RP k' => if bool_decide (k' = k) && (currentProcess s' =? currentProcess s1) then 1 else 0
  | RV k' => if bool_decide (k' = k) then (length (waiting_of s1 k) - length (waiting_of s' k))%nat else 0
  | _ => 0
  end.

(** The value of the semaphore at [k] counts its queue. *)
Definition in_balance (k : Z) (s : kstate) (n : Z) : Prop :=
  ints s !! k = Some n /\ length (waiting_of s k) = Z.to_nat (- n).

(** The stretches in which user code leaves the semaphore at [k] to P and V. *)
Definition uses (k : Z) : exit_event -> kstate -> list request -> nat -> exit_event -> kstate -> Prop :=
  stretch (fun s0 s1 _ => ints s1 !! k = ints s0 !! k) (grants k).
End units.

(** * Lemmas *)
Section steps.
Implicit Types (a b : abs) (k n : Z) (D devices : list Z) (r : request).

(** The units of [k] from [a] to [a']. *)
Definition conserves k r a a' : Prop := forall n n',
  a_value a k = Some n -> a_value a' k = Some n' ->
  Z.of_nat (a_grants k r a a') + Z.max 0 n' = Z.max 0 n + (if is_V k r then 1 else 0).

Lemma conserves_same k r a a' :
  a_grants k r a a' = 0%nat -> is_V k r = false -> a_value a' k = a_value a k -> conserves k r a a'.
Proof. intros Hg Hv E n n' H H'. rewrite Hg, Hv. assert (n' = n) as -> by congruence. lia. Qed.

Lemma conserves_kill k devices D a :
  a_balanced a k -> k ∉ devices -> NoDup D -> NoDup (a_queue a k) -> (length (a_queue a k) <= 20)%nat ->
  (forall n, a_value a k = Some n -> n < 2 ^ 31) -> conserves k RKill a (a_kill devices D a).
Proof.
  intros (n & Hn & Hl) Hdev HD Hq H20 Hmax n1 n' Hn1 Hn'. assert (n1 = n) as -> by congruence. specialize (Hmax n Hn).
  pose proof (without_length D (a_queue a k) HD Hq) as Hw. revert Hn'. unfold a_kill, a_dispatch.
  destruct (a_ready _); cbn; rewrite bool_decide_eq_false_2, Hn by done; cbn; rewrite iter_inc by lia; intros [= <-]; lia.
Qed.

Lemma conserves_P k a n :
  a_balanced a k -> a_value a k = Some n -> -20 <= n < 2 ^ 31 -> a_cur a <> NULL -> a_cur a ∉ a_ready a ->
  conserves k (RP k) a (a_P k a).
Proof.
  intros _ Hn Hr Hc Hnr n1 n' Hn1 Hn'. assert (n1 = n) as -> by congruence. revert Hn'.
  cbn [a_grants is_V]. rewrite bool_decide_eq_true_2 by done. unfold a_P. rewrite Hn. cbn [default from_option id].
  cbv zeta. rewrite (i32_small (n - 1)) by (unfold in_i32; lia). destruct (Z.ltb_spec (n - 1) 0).
  - assert (a_cur (a_dispatch (set_queue k (a_queue a k ++ [a_cur a]) (set_value k (n - 1) a))) <> a_cur a) as Hne.
    { unfold a_dispatch. cbn. destruct (a_ready a) as [|x l]; [done|]. by apply not_elem_of_cons in Hnr as [? _]. }
    rewrite (proj2 (Z.eqb_neq _ _) Hne). cbn [andb]. unfold a_dispatch. cbn. destruct (a_ready a); cbn;
      rewrite fn_lookup_insert; intros [= <-]; lia.
  - cbn. rewrite Z.eqb_refl, fn_lookup_insert. intros [= <-]. lia.
Qed.

Lemma conserves_V k a n :
  a_balanced a k -> a_value a k = Some n -> -20 <= n < 2 ^ 31 - 1 -> conserves k (RV k) a (a_V k a).
Proof.
  intros (z & Hz & Hl) Hn Hr n1 n' Hn1 Hn'. assert (n1 = n) as -> by congruence.
  assert (z = n) as -> by congruence. revert Hn'.
  cbn [a_grants is_V]. rewrite !bool_decide_eq_true_2 by done. unfold a_V. rewrite Hn. cbn [default from_option id].
  cbv zeta. rewrite (i32_small (n + 1)) by (unfold in_i32; lia). destruct (Z.leb_spec (n + 1) 0).
  - unfold a_wake. cbn. destruct (a_queue a k) as [|x q] eqn:Eq; cbn [length] in Hl; [lia|].
    cbn. rewrite !fn_lookup_insert. intros [= <-]. lia.
  - cbn. rewrite fn_lookup_insert. intros [= <-]. lia.
Qed.

Lemma conserves_equiv k r a a' b : sem_key k -> a' ≡ b -> conserves k r a b -> conserves k r a a'.
Proof.
  intros Hk (Hc & _ & _ & Hq & Hv & _) H n n' Hn. rewrite Hv by done. intros Hn'. specialize (H n n' Hn Hn').
  revert H. unfold a_grants. by rewrite Hc, Hq.
Qed.

Lemma conserves_other f k0 k r a a' :
  only_touches f k0 -> k <> k0 -> sem_key k -> a' ≡ f a -> a_grants k r a a' = 0%nat -> is_V k r = false ->
  conserves k r a a'.
Proof.
  intros Hf Hne Hk (_ & _ & _ & _ & Hv & _) Hg HV. apply conserves_same; [done|done|]. rewrite Hv by done. by apply Hf.
Qed.

(** A step neither creates nor loses units. *)
Lemma step_conserves devices r a a' k n :
  sem_key k -> k ∉ devices -> device_request devices r -> a_step devices r a a' ->
  (length (a_queue a k) <= 20)%nat -> NoDup (a_queue a k) -> a_cur a ∉ a_ready a ->
  (forall k, r = RP k -> a_cur a <> NULL) ->
  a_balanced a k -> a_value a k = Some n -> n < 2 ^ 31 - 1 -> conserves k r a a'.
Proof.
  intros Hk Hdev Hr Hstep H20 Hnd Hnr Hcur Hb Hn Hmax. pose proof touches as Ht.
  assert (-20 <= n) as Hmin by (destruct Hb as (z & Hz & Hl); assert (z = n) as -> by congruence; lia).
  destruct r as [| | | |k0|k0|k0|k0|k0|k0|]; cbn in Hstep, Hr;
    try (refine (conserves_other _ k0 k _ a a' _ _ Hk Hstep _ _); [apply Ht|by intros ->|done|done]).
  - by eapply conserves_equiv; [..|apply conserves_same].
  - by eapply conserves_equiv; [..|apply conserves_same].
  - eapply conserves_equiv; [done..|]. apply conserves_same; [done..|]. unfold a_create. by destruct (a_free a).
  - destruct Hstep as (D & HD & _ & E). eapply conserves_equiv; [done..|]. apply conserves_kill; try done.
    intros z Hz. assert (z = n) as -> by congruence. lia.
  - destruct (decide (k0 = k)) as [->|Hne].
    + eapply conserves_equiv; [done..|]. apply (conserves_P k a n); [done|done|lia|by eapply Hcur|done].
    + apply (conserves_other (a_P k0) k0); [apply Ht|congruence|done|done|cbn; by rewrite bool_decide_eq_false_2|done].
  - destruct (decide (k0 = k)) as [->|Hne].
    + eapply conserves_equiv; [done..|]. by apply (conserves_V k a n).
    + apply (conserves_other (a_V k0) k0); [apply Ht|congruence|done|done|cbn; by rewrite bool_decide_eq_false_2..].
  - eapply conserves_equiv; [done..|]. apply conserves_same; [done..|]. unfold a_slice, a_dispatch. cbn. by destruct (a_ready a).
Qed.
End steps.

(** ** The runs of the nucleus *)
Section runs.
Context {m : Machine} {mok : MachineOk m}.
Implicit Types (s : kstate) (v : view) (k n : Z).

Lemma uses_next k e s rs g e0 s0 s1 e' s' :
  uses k e s rs g e0 s0 -> e0 <> Halt -> e0 <> Panic -> outside s0 s1 -> admissible s1 ->
  exceptionHandler s1 = Stop e' s' -> ints s1 !! k = ints s0 !! k ->
  uses k e s (rs ++ [exception_request s1]) (g + grants k s1 s') e' s'.
Proof. apply stretch_on. Qed.

Lemma waiting_view k s v : nucleus_inv s v -> waiting v k = waiting_of s k.
Proof.
  intros N. destruct (readback _ _ _ (nucleus_kernel _ _ N)) as (_ & _ & He & _).
  unfold waiting_of, waiting. by rewrite He.
Qed.

Lemma in_balance_view k s v n : nucleus_inv s v -> in_balance k s n -> balanced s v k.
Proof. intros N [Hn Hl]. exists n. by rewrite (waiting_view k s v N). Qed.

Lemma releases_snoc k rs r : Z.of_nat (releases k (rs ++ [r])) = Z.of_nat (releases k rs) + if is_V k r then 1 else 0.
Proof. unfold releases. rewrite filter_app, length_app. cbn. case_decide as H; destruct (is_V k r); cbn; (done || lia). Qed.

(** A P comes from a running process. *)
Lemma P_running s k : admissible s -> exception_request s = RP k -> currentProcess s <> NULL.
Proof.
  intros (_ & Hc & _) E. apply Hc. intros E0. revert E. unfold exception_request. rewrite E0. cbn.
  repeat case_match; done.
Qed.

Lemma exception_units k n s v s1 e' s' :
  nucleus_inv s v -> sem_key k -> is_device_sem k = false -> in_balance k s n -> n < 2 ^ 31 - 1 ->
  outside s s1 -> admissible s1 -> exceptionHandler s1 = Stop e' s' -> ints s1 !! k = ints s !! k ->
  exists n', in_balance k s' n' /\
    Z.of_nat (grants k s1 s') + Z.max 0 n' = Z.max 0 n + (if is_V k (exception_request s1) then 1 else 0).
Proof.
  intros N Hk Hd Hb Hmax Ho Ha Hx Hi. destruct (exception_step _ _ _ _ _ N Ho Ha Hx) as (N1 & v' & N' & Hstep & _).
  pose proof (in_balance_view _ _ _ _ N Hb) as Hab. destruct Hb as [Hn Hl].
  assert (a_balanced (abs_of s1 v) k) as Hbal by (unfold a_balanced; cbn; by rewrite Hi).
  assert (k ∉ device_keys) as Hdev by (rewrite elem_of_device_keys; congruence).
  pose proof (device_request_ok s1 (proj2 (proj2 Ha))) as Hreq.
  pose proof (waiting_length _ _ _ k (nucleus_kernel _ _ N1)) as H20.
  pose proof (waiting_NoDup _ _ _ k (nucleus_kernel _ _ N1)) as Hnd.
  assert (a_value (abs_of s1 v) k = Some n) as Hn1 by (cbn; by rewrite Hi).
  destruct (step_balance _ _ (abs_of s1 v) (abs_of s' v') k Hk Hdev H20 Hnd ltac:(intros z Hz; congruence) Hreq Hstep Hbal) as (n' & Hn' & Hl').
  exists n'.
  split; [split; [done|by rewrite <- (waiting_view k s' v' N')]|].
  rewrite <- (step_conserves _ _ (abs_of s1 v) (abs_of s' v') k n Hk Hdev Hreq Hstep H20 Hnd (current_not_ready _ _ N1)
    ltac:(intros k0 Ek; exact (P_running s1 k0 Ha Ek)) Hbal Hn1 Hmax n n' Hn1 Hn').
  unfold grants, a_grants. cbn. by rewrite (waiting_view k s1 v N1), (waiting_view k s' v' N').
Qed.

Lemma uses_units k n e s rs g e' s' :
  reachable e s -> sem_key k -> is_device_sem k = false -> in_balance k s n -> uses k e s rs g e' s' ->
  Z.max 0 n + Z.of_nat (releases k rs) < 2 ^ 31 - 1 ->
  exists n', in_balance k s' n' /\ Z.of_nat g + Z.max 0 n' = Z.max 0 n + Z.of_nat (releases k rs).
Proof.
  intros Hr Hk Hd Hb. induction 1 as [|rs g e0 s0 s1 e' s' Hst IH H1 H2 Ho Ha Hx Hkeep]; [exists n; split; [done|]; cbn; lia|].
  rewrite releases_snoc. intros Hmax. assert (0 <= if is_V k (exception_request s1) then 1 else 0) by (destruct (is_V _ _); lia).
  destruct IH as (n0 & Hb0 & E0); [lia|].
  destruct (reachable_inv _ _ (stretch_reachable _ _ _ _ _ _ _ _ Hr Hst)) as [v N].
  destruct (exception_units k n0 s0 v s1 e' s' N Hk Hd Hb0 ltac:(lia) Ho Ha Hx Hkeep) as (n' & Hb' & E').
  exists n'. split; [done|]. lia.
Qed.
End runs.
