(* ===== verification/Demo.v ===== *)
(** * A concrete machine

    An instance of the machine parameters with a boot image, and the states the nucleus reaches on
    it: after [main], and after the first process created two more.  The other files evaluate
    their theorems on these states. *)
From S2P Require Export System Readback Typing.

#[export] Instance demo_machine : Machine := {|
  pcbFreeTable := 0x20002000;
  semdTable := 0x20004000;
  semaphoreDevices := 0x20005000;
  test_addr := 0x20010000;
  uTLB_RefillHandler_addr := 0x20011000;
  exceptionHandler_addr := 0x20012000;
  todlo_at := fun n => u32 (1000 * Z.of_nat n + 500);
  plt_at := fun n => 4000
|}.

#[export] Instance demo_machine_ok : MachineOk demo_machine.
Proof. split; vm_compute; split; congruence. Qed.

(** A user semaphore, and a process with a support structure. *)
Definition demo_sem : Z := 0x20020000.
Definition demo_support : Z := 0x20030000.

Definition demo_bus : devregarea_t :=
  MkDevregarea RAMSTART 0x100000 0 0 0 0 0 0 0 1 0 (vreplicate DEVINTNUM 0)
    (vreplicate DEVINTNUM 0x24) (vreplicate (DEVINTNUM * DEVPERINT) (MkDevice READY 0 READY 0)).

Definition demo_image : kstate :=
  boot_state {[ demo_sem := 0 ]} {[ BIOSDATAPAGE := zero_state ]}
    {[ demo_support := MkSupport 1 (vreplicate 2 zero_state)
         [# MkContext 0x20031000 0x4 0x80000; MkContext 0x20032000 0xC 0x80100] ]} demo_bus.

(** The state in which a computation gives up the processor. *)
Definition final (o : outcome kstate exit_event unit) : kstate :=
  match o with Stop _ s => s | _ => demo_image end.

(** The hardware stores the state of the interrupted code in the BIOS data page. *)
Definition raise_exception (cause status a0 a1 a2 a3 : Z) (s : kstate) : kstate :=
  set_states (<[BIOSDATAPAGE := set_reg s_a0 a0 (set_reg s_a1 a1 (set_reg s_a2 a2 (set_reg s_a3 a3
    (MkState 0 cause status 0x20010100 (vreplicate STATEREGNUM 0)))))]> (states s)) s.

Definition exc_syscall : Z := Z.shiftl 8 EXC_CODE_SHIFT.
Definition kernel_call (a0 a1 a2 a3 : Z) : kstate -> kstate := raise_exception exc_syscall ALLOFF a0 a1 a2 a3.

(** [main], then the first process creates two processes and waits on [demo_sem]. *)
Definition demo_booted : kstate := final (main demo_image).
Definition demo_call1 : kstate := kernel_call SYS1_NUM BIOSDATAPAGE demo_support 0 demo_booted.
Definition demo_two : kstate := final (exceptionHandler demo_call1).
Definition demo_call2 : kstate := kernel_call SYS1_NUM BIOSDATAPAGE (-1) 0 demo_two.
Definition demo_three : kstate := final (exceptionHandler demo_call2).
Definition demo_call3 : kstate := kernel_call SYS3_NUM demo_sem 0 0 demo_three.
Definition demo_blocked : kstate := final (exceptionHandler demo_call3).

(** The pcbs the three processes got. *)
Definition proc1 : Z := 0x20002000 + 19 * 176.
Definition proc2 : Z := 0x20002000 + 18 * 176.
Definition proc3 : Z := 0x20002000 + 17 * 176.

(** * Lemmas *)
Lemma stops_final (c : K unit) s R : stops c s R -> exists e, c s = Stop e (final (c s)) /\ R e (final (c s)).
Proof. intros (e & s' & E & H)%wp_elim_stops. rewrite E. eauto. Qed.

Definition is_stop (o : outcome kstate exit_event unit) : bool :=
  match o with Stop _ _ => true | _ => false end.

Lemma is_stop_final o : is_stop o = true -> exists e, o = Stop e (final o).
Proof. destruct o; [done| |done]. cbn. eauto. Qed.

Lemma demo_image_bootable : bootable demo_image.
Proof. apply boot_state_bootable. vm_compute. eauto. Qed.

Lemma demo_booted_eq : demo_booted = final (main demo_image).
Proof. reflexivity. Qed.

Lemma demo_booted_inv : exists v, nucleus_inv demo_booted v.
Proof.
  destruct (main_ok demo_image demo_image_bootable) as (s1 & _ & H).
  destruct (stops_final _ _ _ H) as (e & _ & st & _ & _ & _ & _ & _ & _ & v & N & _).
  unfold demo_booted. exists v. exact N.
Qed.

Lemma raise_inv cause status a0 a1 a2 a3 s v :
  nucleus_inv s v -> nucleus_inv (raise_exception cause status a0 a1 a2 a3 s) v.
Proof.
  intros N. apply (nucleus_harmless s); [done| |done..]. split; try done; [|by left].
  intros _. cbn. rewrite lookup_insert_eq. eauto.
Qed.

Lemma raise_outside cause status a0 a1 a2 a3 s : outside s (raise_exception cause status a0 a1 a2 a3 s).
Proof. split; try done. intros _. cbn. rewrite lookup_insert_eq. eauto. Qed.

Lemma handled_inv s : (exists v, nucleus_inv s v) -> admissible s -> exists v, nucleus_inv (final (exceptionHandler s)) v.
Proof. intros [v N] Ha. destruct (stops_final _ _ _ (exceptionHandler_safe s v N Ha)) as (e & _ & ?). done. Qed.

Ltac demo_trap := apply admissible_decide; vm_compute; reflexivity.

Lemma demo_two_inv : exists v, nucleus_inv demo_two v.
Proof.
  destruct demo_booted_inv as [v N]. unfold demo_two. apply handled_inv; [|demo_trap]. exists v. by apply raise_inv.
Qed.

Lemma demo_three_inv : exists v, nucleus_inv demo_three v.
Proof.
  destruct demo_two_inv as [v N]. unfold demo_three. apply handled_inv; [|demo_trap]. exists v. by apply raise_inv.
Qed.

Lemma demo_blocked_inv : exists v, nucleus_inv demo_blocked v.
Proof.
  destruct demo_three_inv as [v N]. unfold demo_blocked. apply handled_inv; [|demo_trap]. exists v. by apply raise_inv.
Qed.

#[export] Instance demo_machine_typed : MachineTyped demo_machine.
Proof. split; intros; first [apply u32_range|vm_compute; split; congruence]. Qed.

Lemma demo_image_typed : typed_store demo_image.
Proof.
  apply boot_state_typed.
  - apply map_Forall_singleton. vm_compute. split; congruence.
  - apply map_Forall_singleton. apply state_typed; auto with typed.
  - apply map_Forall_singleton. split; intros i.
    + cbn [sup_exceptState]. rewrite vlookup_replicate. apply state_typed; auto with typed.
    + inv_fin i; [split_and!; cbn; auto with typed|intros i; inv_fin i; [split_and!; cbn; auto with typed|intros i; inv_fin i]].
  - split; cbn [interrupt_dev devreg demo_bus].
    + split_and!; first [lia|vm_compute; split; congruence].
    + split_and!; vm_compute; split; congruence.
    + intros i. rewrite vlookup_replicate. auto with typed.
    + intros i. rewrite vlookup_replicate. repeat split; vm_compute; congruence.
Qed.

Lemma raise_typed cause status a0 a1 a2 a3 s :
  in_u32 cause -> in_u32 status -> in_i32 a0 -> in_i32 a1 -> in_i32 a2 -> in_i32 a3 ->
  typed_store s -> typed_store (raise_exception cause status a0 a1 a2 a3 s).
Proof.
  intros ? ? ? ? ? ? []. split; try assumption. apply map_Forall_insert_2; [|done].
  repeat apply typed_set_reg; try assumption. apply state_typed; auto with typed.
Qed.

#[global] Opaque demo_image demo_booted demo_two demo_three demo_blocked.
