(* ===== verification/SystemProps.v ===== *)
(** * What the nucleus as a whole promises

    Safety of the running system, the events with which the nucleus gives up the processor, and
    the choice of the handler. *)
From S2P Require Export Demo Exits.

Section system.
Context {m : Machine}.

(** ** Safety *)

(** C1: from a booted nucleus, whatever user code and the hardware do outside the nucleus'
    variables, the next admissible exception is served: exceptionHandler neither dereferences a
    bad pointer nor loops, gives up the processor in the right way for the state it leaves, and
    re-establishes the invariant (each pcb on exactly one of the free list, the ready queue, one
    semaphore queue, or running; sorted ASL; consistent process trees; exact processCount). *)
Theorem nucleus_safety `{!MachineOk m} e s s1 :
  reachable e s -> e <> Halt -> e <> Panic -> outside s s1 -> admissible s1 ->
  exists e' s', exceptionHandler s1 = Stop e' s' /\ exit_ok e' s' /\ reachable e' s' /\
    exists v', nucleus_inv s' v'.
Proof.
  intros Hr H1 H2 Ho Ha. destruct (reachable_inv e s Hr) as [v N].
  pose proof (exceptionHandler_safe s1 v (outside_inv _ _ _ Ho N) Ha) as Hst.
  destruct (wp_elim_stops _ _ _ Hst) as (e' & s' & E & Hs). exists e', s'. split_and!; try done.
  - by eapply exits_exceptionHandler.
  - by eapply reach_exception.
Qed.

(** C10: whenever main or exceptionHandler gives up the processor, in any state at all, the event
    fits: the loaded processor state is the one stored for the current process, the loaded context
    is one of its support structure, the machine halts only with an empty ready queue and no
    process, and waits only with an empty ready queue, processes, a positive soft-block count and
    the interrupts enabled. *)
Theorem exits_fit s e s' :
  main s = Stop e s' \/ exceptionHandler s = Stop e s' -> exit_ok e s'.
Proof. intros [H|H]; [by eapply exits_main|by eapply exits_exceptionHandler]. Qed.

(** C28: main, from the zeroed image, builds the initial state (all pcbs free but one, the ASL with its
    two dummies, all device semaphores 0, the pass-up vector and the interval timer set) and
    dispatches the first process: test() with the stack at the end of RAM, interrupts and the
    processor timer enabled, kernel mode, processCount 1. *)
Theorem main_boots `{!MachineOk m} s :
  bootable s ->
  exists s1, initialised s s1 /\
  stops main s (fun e s' => exists st0,
    e = Ldst (first_state (bus s1) (set_s_reg (vreplicate STATEREGNUM 0) st0)) /\
    currentProcess s' = pcb_addr 19 /\ processCount s' = 1 /\ softBlockedCount s' = 0 /\
    ints s' = ints s1 /\ cp0_timer s' = u32 PLT_TIME_SLICE /\
    exists v', nucleus_inv s' v' /\ v_ready v' = [] /\ blocked (v_entries v') = []).
Proof. apply main_ok. Qed.

End system.

(** ** The concrete machine *)
Lemma demo_booted_reachable : exists st, reachable (Ldst st) demo_booted.
Proof.
  destruct (main_ok demo_image demo_image_bootable) as (s1 & _ & H).
  destruct (stops_final _ _ _ H) as (e & E & st & -> & _).
  rewrite demo_booted_eq. eexists. exact (reach_boot _ _ _ demo_image_bootable E).
Qed.

(** The states the machine reaches by running on. *)
Definition is_ldst (o : outcome kstate exit_event unit) : bool :=
  match o with Stop (Ldst _) _ => true | _ => false end.

Lemma handled_reachable s s1 :
  (exists st, reachable (Ldst st) s) -> outside s s1 -> admissible s1 -> is_ldst (exceptionHandler s1) = true ->
  exists st, reachable (Ldst st) (final (exceptionHandler s1)).
Proof.
  intros [st Hr] Ho Ha Hl. destruct (exceptionHandler s1) as [|[st'| | | |] s'|] eqn:E; try done.
  exists st'. by apply (reach_exception (Ldst st) s s1).
Qed.

Lemma demo_three_reachable : exists st, reachable (Ldst st) demo_three.
Proof.
  refine (handled_reachable demo_two demo_call2 _ (raise_outside _ _ _ _ _ _ _) _ _); [|demo_trap|vm_compute; reflexivity].
  refine (handled_reachable demo_booted demo_call1 demo_booted_reachable (raise_outside _ _ _ _ _ _ _) _ _);
    [demo_trap|vm_compute; reflexivity].
Qed.

Lemma nucleus_safety_witness : exists e' s',
  exceptionHandler demo_call1 = Stop e' s' /\ exit_ok e' s' /\ reachable e' s' /\ exists v', nucleus_inv s' v'.
Proof.
  destruct demo_booted_reachable as [st Hr].
  apply (nucleus_safety (Ldst st) demo_booted demo_call1 Hr); [discriminate|discriminate| |demo_trap].
  apply raise_outside.
Defined.

Lemma exits_fit_witness : exists e, exit_ok e (final (exceptionHandler demo_call1)).
Proof.
  destruct (is_stop_final (exceptionHandler demo_call1)) as [e E]; [vm_compute; reflexivity|].
  exists e. exact (exits_fit demo_call1 e _ (or_intror E)).
Defined.

Lemma main_boots_witness : exists s1, initialised demo_image s1 /\
  stops main demo_image (fun e s' => exists st0,
    e = Ldst (first_state (bus s1) (set_s_reg (vreplicate STATEREGNUM 0) st0)) /\
    currentProcess s' = pcb_addr 19 /\ processCount s' = 1 /\ softBlockedCount s' = 0 /\
    ints s' = ints s1 /\ cp0_timer s' = u32 PLT_TIME_SLICE /\
    exists v', nucleus_inv s' v' /\ v_ready v' = [] /\ blocked (v_entries v') = []).
Proof. apply main_boots. exact demo_image_bootable. Defined.

