(* ===== verification/QueueModel.v ===== *)
(** * Process queues refine lists

    The abstract queue is the list of the processes from head to tail.  Any sequence of operations
    on a [pcb_PTR *] returns what the same operations return on the list, and leaves the queue
    with the contents of the resulting list. *)
From S2P Require Export PcbQueue PcbAlloc PcbTree.

Inductive qop : Type :=
| QInsert (p : Z)
| QRemove
| QOut (p : Z)
| QHead.

(** The operation of pcb.c. *)
Definition run_qop (tp : pcb_PTR_PTR) (o : qop) : K Z :=
  match o with
  | QInsert p => do! insertProcQ tp p; ret NULL
  | QRemove => removeProcQ tp
  | QOut p => outProcQ tp p
  | QHead => do t <- load_tp tp; headProcQ t
  end.

(** The operation on lists: the new list and the result. *)
Definition abs_qop (o : qop) (l : list Z) : list Z * Z :=
  match o with
  | QInsert p => (l ++ [p], NULL)
  | QRemove => (tail l, default NULL (head l))
  | QOut p => (filter (fun x => x <> p) l, if decide (p ∈ l) then p else NULL)
  | QHead => (l, default NULL (head l))
  end.

(** The one precondition: a process is not inserted twice. *)
Definition qop_ok (h : gmap Z pcb_t) (o : qop) (l : list Z) : Prop :=
  match o with
  | QInsert p => p <> NULL /\ is_Some (h !! p) /\ p ∉ l
  | _ => True
  end.

Fixpoint run_qops (tp : pcb_PTR_PTR) (os : list qop) : K (list Z) :=
  match os with
  | [] => ret []
  | o :: os => do r <- run_qop tp o; do rs <- run_qops tp os; ret (r :: rs)
  end.

Fixpoint abs_qops (os : list qop) (l : list Z) : list Z * list Z :=
  match os with
  | [] => (l, [])
  | o :: os => let (l1, r) := abs_qop o l in
               let (l2, rs) := abs_qops os l1 in (l2, r :: rs)
  end.

(** The preconditions along a run; no queue ever holds more than the MAXPROC pcbs. *)
Fixpoint qops_ok (h : gmap Z pcb_t) (os : list qop) (l : list Z) : Prop :=
  (length l <= 20)%nat /\
  match os with
  | [] => True
  | o :: os => qop_ok h o l /\ qops_ok h os (fst (abs_qop o l))
  end.

(** * Lemmas *)
Definition holds_queue (tp : pcb_PTR_PTR) (s : kstate) (l : list Z) : Prop :=
  exists t, tp_get tp s = Some t /\ is_queue (pcbs s) t l.

Lemma holds_set tp t h s l :
  is_Some (tp_get tp s) -> is_queue h t l -> holds_queue tp (tp_set tp t (set_pcbs h s)) l.
Proof.
  intros Hs Hq. exists t. rewrite pcbs_tp_set. split; [|done]. apply tp_get_set. by rewrite tp_get_set_pcbs.
Qed.

(** One operation. *)
Lemma qop_refines tp o s l :
  holds_queue tp s l -> (length l <= 20)%nat -> qop_ok (pcbs s) o l ->
  exists s', run_qop tp o s = Ret (snd (abs_qop o l)) s' /\ holds_queue tp s' (fst (abs_qop o l)) /\
    forall x, is_Some (pcbs s !! x) -> is_Some (pcbs s' !! x).
Proof.
  intros (t & Ht & Hq) Hn Hok. assert (is_Some (tp_get tp s)) as Hs by eauto. destruct o as [p| |p|]; cbn in *.
  - destruct Hok as (Hp & Hst & Hin).
    destruct (insertProcQ_ok tp t l p s Ht Hq Hp Hst Hin) as (h' & E & Hq' & Hf).
    rewrite (bind_ret _ _ _ _ _ E). eexists. split; [done|]. split; [by apply holds_set|].
    intros x. rewrite pcbs_tp_set. cbn. by rewrite (frame_is_Some _ _ _ _ _ Hf).
  - destruct l as [|x l].
    + rewrite removeProcQ_empty by (by destruct Hq as [-> _]). eexists. split; [done|]. split; [by exists t|done].
    + destruct (removeProcQ_ok tp t x l s Ht Hq) as (h' & E & Hq' & Hf & _). rewrite E.
      eexists. split; [done|]. split; [by apply holds_set|].
      intros y. rewrite pcbs_tp_set. cbn. by rewrite (frame_is_Some _ _ _ _ _ Hf).
  - case_decide as Hin.
    + pose proof Hq as (_ & Hnd & _). apply list_elem_of_split in Hin as (l1 & l2 & ->).
      rewrite filter_without by done.
      destruct (outProcQ_ok tp t l1 p l2 s Ht Hq) as (h' & E & Hq' & Hf & _); [rewrite walk_fuel_eq; lia|].
      rewrite E. eexists. split; [done|]. split; [by apply holds_set|].
      intros y. rewrite pcbs_tp_set. cbn. by rewrite (frame_is_Some _ _ _ _ _ Hf).
    + rewrite (outProcQ_not_found tp t l p s Ht Hq Hin) by (rewrite walk_fuel_eq; lia).
      eexists. split; [done|]. split; [|done]. exists t.
      by rewrite list_filter_all by (intros x Hx ->; done).
  - rewrite (bind_ret _ _ _ _ _ (load_tp_ok _ _ _ Ht)), (headProcQ_ok _ _ _ Hq).
    eexists. split; [done|]. split; [by exists t|done].
Qed.

Lemma qops_ok_mono h h' os l :
  (forall x, is_Some (h !! x) -> is_Some (h' !! x)) -> qops_ok h os l -> qops_ok h' os l.
Proof.
  intros Hh. revert l. induction os as [|o os IH]; intros l; cbn; [done|]. intros (? & Ho & ?).
  split_and!; [done| |auto]. destruct o; cbn in *; naive_solver.
Qed.
