(* ===== verification/PcbProps.v ===== *)
(** * What phase1/pcb.c promises

    The properties of the pcb pool, of the process queues and of the process trees, each evaluated
    on a state of the concrete machine. *)
From S2P Require Export Demo QueueModel.

(** Facts about the concrete states. *)
Lemma demo_three_queue : holds_queue TP_readyQueue demo_three [proc2; proc3].
Proof.
  destruct demo_three_inv as [v N]. exists (readyQueue demo_three). split; [done|].
  pose proof (inv_ready _ _ _ (nucleus_kernel _ _ N)) as Hq.
  rewrite (proj1 (proj2 (readback _ _ _ (nucleus_kernel _ _ N)))) in Hq.
  replace [proc2; proc3] with (ready_of demo_three) by (vm_compute; reflexivity). exact Hq.
Qed.

Lemma demo_three_free : free_list demo_three (free_of demo_three).
Proof.
  destruct demo_three_inv as [v N]. rewrite <- (proj1 (readback _ _ _ (nucleus_kernel _ _ N))).
  apply (inv_free _ _ _ (nucleus_kernel _ _ N)).
Qed.

Lemma demo_three_children p :
  p ∈ currentProcess demo_three :: ready_of demo_three -> children (pcbs demo_three) p (kids_of demo_three p).
Proof.
  intros Hp. destruct demo_three_inv as [v N]. pose proof (nucleus_kernel _ _ N) as I.
  assert (p ∈ live v (running demo_three)) as Hl.
  { rewrite elem_of_live, (proj1 (proj2 (readback _ _ _ I))). revert Hp. unfold running.
    replace (currentProcess demo_three =? NULL) with false by (vm_compute; reflexivity).
    generalize (ready_of demo_three) (currentProcess demo_three). set_solver. }
  rewrite <- (proj2 (proj2 (proj2 (proj2 (readback _ _ _ I)))) p Hl).
  by apply (forest_children _ _ _ (inv_forest _ _ _ I)).
Qed.

(** ** Process queues *)

(** C12: any sequence of insertProcQ, removeProcQ, outProcQ and headProcQ on a process queue returns
    what the same operations return on the list of its processes (insertion at the end, removal
    at the front, NULL for an empty queue or an absent process), never faults or loops, and leaves
    a well-formed circular doubly linked queue holding exactly the resulting list. *)
Theorem queue_refines_list tp os s l :
  holds_queue tp s l -> qops_ok (pcbs s) os l ->
  exists s', run_qops tp os s = Ret (snd (abs_qops os l)) s' /\ holds_queue tp s' (fst (abs_qops os l)).
Proof.
  revert s l. induction os as [|o os IH]; intros s l Hq Hok; [by exists s|]. destruct Hok as (Hn & Ho & Hos).
  destruct (qop_refines tp o s l Hq Hn Ho) as (s1 & E & Hq1 & Hst). cbn [run_qops abs_qops].
  destruct (abs_qop o l) as [l1 r] eqn:Ea. cbn in E, Hq1, Hos.
  destruct (IH s1 l1 Hq1 (qops_ok_mono _ _ _ _ Hst Hos)) as (s2 & E2 & Hq2).
  rewrite (bind_ret _ _ _ _ _ E), (bind_ret _ _ _ _ _ E2). destruct (abs_qops os l1). by exists s2.
Qed.

Definition demo_qops : list qop := [QHead; QInsert proc1; QOut proc3; QOut proc3; QRemove; QRemove; QRemove].

Lemma queue_refines_list_witness : exists s',
  run_qops TP_readyQueue demo_qops demo_three = Ret [proc2; NULL; proc3; NULL; proc2; proc1; NULL] s' /\
  holds_queue TP_readyQueue s' [].
Proof.
  assert (snd (abs_qops demo_qops [proc2; proc3]) = [proc2; NULL; proc3; NULL; proc2; proc1; NULL]) as <-
    by (vm_compute; reflexivity).
  assert (fst (abs_qops demo_qops [proc2; proc3]) = []) as <- by (vm_compute; reflexivity).
  apply (queue_refines_list TP_readyQueue demo_qops demo_three [proc2; proc3] demo_three_queue).
  cbn [qops_ok demo_qops qop_ok]. split_and!; try exact I; try (vm_compute; lia);
    [vm_compute; eauto|]. apply (bool_decide_unpack _). vm_compute. exact I.
Defined.

(** ** The pool of pcbs *)

(** InitPcbs puts each of the MAXPROC pcbs of the table on the free list, once; allocPcb takes
    the first free pcb and resets its links, tree, registers, time, semaphore and support fields,
    or returns NULL and changes nothing when the list is empty. *)
Theorem pcb_pool `{!MachineOk m} s :
  ((forall p, p ∈ pcb_table -> is_Some (pcbs s !! p)) ->
     exists s' l, initPcbs s = Ret tt s' /\ free_list s' l /\ l ≡ₚ pcb_table /\ length l = 20%nat) /\
  (forall l, free_list s l ->
     match l with
     | [] => allocPcb s = Ret NULL s
     | p :: l' => exists s', allocPcb s = Ret p s' /\ free_list s' l' /\
                             pcbs s' = alter fresh_pcb p (pcbs s)
     end).
Proof.
  split.
  - intros Hst. destruct (initPcbs_ok s Hst) as (h' & c & E & Hl & _). eexists _, _. split; [exact E|].
    split; [exact Hl|]. split; [apply reverse_Permutation|]. by rewrite length_reverse, pcb_table_length.
  - intros [|p l] Hl; [by apply allocPcb_none|]. destruct (allocPcb_ok s p l Hl) as (n & E & Hl'). eauto.
Qed.

Lemma pcb_pool_witness :
  free_of (match initPcbs demo_image with Ret _ s => s | _ => demo_image end) = reverse pcb_table /\
  exists s', allocPcb demo_three = Ret (0x20002000 + 16 * 176) s' /\ free_list s' (tail (free_of demo_three)) /\
             pcbs s' = alter fresh_pcb (0x20002000 + 16 * 176) (pcbs demo_three).
Proof.
  split; [vm_compute; reflexivity|].
  exact (proj2 (pcb_pool demo_three) _ demo_three_free).
Defined.

(** C32: freeing a pcb and allocating again gives the same pcb back, reset, and the free list as it
    was. *)
Theorem free_alloc_roundtrip s p l r :
  free_list s l -> p <> NULL -> pcbs s !! p = Some r -> p ∉ l ->
  exists s1 s2, freePcb p s = Ret tt s1 /\ free_list s1 (p :: l) /\
    allocPcb s1 = Ret p s2 /\ free_list s2 l /\ pcbs s2 !! p = Some (fresh_pcb r).
Proof.
  intros Hl Hp Hr Hin. destruct (freePcb_ok s p l Hl Hp ltac:(eauto) Hin) as (h' & E1 & Hl1 & Hf).
  destruct (allocPcb_ok _ p l Hl1) as (n & E2 & Hl2). eexists _, _. split_and!; [exact E1|exact Hl1|exact E2|exact Hl2|].
  cbn. rewrite lookup_alter_eq. destruct (Hf p) as [He _]. rewrite Hr in He.
  destruct (h' !! p) as [r'|]; cbn in *; [|done]. f_equal. injection He as He. unfold fresh_pcb. do 2 f_equal. congruence.
Qed.

Lemma free_alloc_roundtrip_witness : exists s1 s2,
  freePcb proc1 demo_three = Ret tt s1 /\ free_list s1 (proc1 :: free_of demo_three) /\
  allocPcb s1 = Ret proc1 s2 /\ free_list s2 (free_of demo_three) /\
  pcbs s2 !! proc1 = Some (fresh_pcb (default zero_pcb (pcbs demo_three !! proc1))).
Proof.
  apply (free_alloc_roundtrip demo_three proc1 (free_of demo_three)); [exact demo_three_free|vm_compute; congruence|
    vm_compute; reflexivity|].
  apply (bool_decide_unpack _). vm_compute. exact I.
Defined.

(** ** Process trees *)

(** C33: insertChild makes a pcb the first child of its parent, outChild takes any child out and
    leaves the order of its siblings, wherever it stands in the list; both change no other child
    list and no field outside the tree, outChild of a pcb without parent returns NULL. *)
Theorem child_lists s q l p :
  children (pcbs s) q l -> q <> NULL -> p <> NULL -> is_Some (pcbs s !! p) ->
  (p ∉ l -> exists h', insertChild q p s = Ret tt (set_pcbs h' s) /\ children h' q (p :: l) /\
     others_kept q [p] (pcbs s) h' /\ frame erase_tree (q :: p :: l) (pcbs s) h') /\
  (forall l1 l2, l = l1 ++ p :: l2 -> (length l1 <= walk_fuel)%nat ->
     exists h', outChild p s = Ret p (set_pcbs h' s) /\ children h' q (l1 ++ l2) /\
       fld p_prnt h' p = Some NULL /\ frame erase_tree (q :: l) (pcbs s) h' /\
       others_kept q l (pcbs s) h') /\
  (fld p_prnt (pcbs s) p = Some NULL -> outChild p s = Ret NULL s).
Proof.
  intros Hc Hq Hp Hst. split_and!; [by apply insertChild_ok| |apply outChild_orphan].
  assert (forall ns h', (forall x, x ∈ ns -> x ∈ l) -> others_kept q ns (pcbs s) h' -> others_kept q l (pcbs s) h') as Hmono.
  { intros ns h' Hns [H1 H2]. split; [done|]. intros x Hx. apply H2. auto. }
  intros l1 l2 -> Hn. destruct l1 as [|y l1 _] using rev_ind.
  - destruct (outChild_first s q p l2 Hc Hq) as (h' & E & Hc' & Hpr & Ho & Hf). exists h'. split_and!; try done.
    eapply Hmono; [|exact Ho]. set_solver.
  - rewrite <- app_assoc in Hc, Hmono |- *. cbn [app] in Hc, Hmono |- *. rewrite length_app in Hn. cbn in Hn.
    destruct (outChild_later s q l1 y p l2 Hc Hq ltac:(lia)) as (h' & E & Hc' & Hpr & Ho & Hf).
    exists h'. rewrite <- app_assoc. split_and!; try done. eapply Hmono; [|exact Ho]. set_solver.
Qed.

Lemma child_lists_witness : exists h',
  outChild proc2 demo_three = Ret proc2 (set_pcbs h' demo_three) /\ children h' proc1 [proc3] /\
  fld p_prnt h' proc2 = Some NULL /\
  frame erase_tree (proc1 :: [proc3; proc2]) (pcbs demo_three) h' /\
  others_kept proc1 [proc3; proc2] (pcbs demo_three) h'.
Proof.
  assert (children (pcbs demo_three) proc1 [proc3; proc2]) as Hc.
  { assert (kids_of demo_three proc1 = [proc3; proc2]) as <- by (vm_compute; reflexivity).
    apply demo_three_children. apply (bool_decide_unpack _). vm_compute. exact I. }
  apply (child_lists demo_three proc1 [proc3; proc2] proc2 Hc) with (l1 := [proc3]) (l2 := []);
    [vm_compute; congruence|vm_compute; congruence|vm_compute; eauto|reflexivity|vm_compute; lia].
Defined.

(** What insertChild adds removeChild takes back: the same pcb, with the child list as before;
    on a parent without children removeChild returns NULL, and emptyChild tells the two apart. *)
Theorem child_roundtrip s q l p :
  children (pcbs s) q l -> q <> NULL -> p <> NULL -> is_Some (pcbs s !! p) -> p ∉ l ->
  exists s1 s2, insertChild q p s = Ret tt s1 /\ emptyChild q s1 = Ret false s1 /\
    removeChild q s1 = Ret p s2 /\ children (pcbs s2) q l /\ fld p_prnt (pcbs s2) p = Some NULL /\
    emptyChild q s2 = Ret (bool_decide (l = [])) s2 /\ (l = [] -> removeChild q s2 = Ret NULL s2).
Proof.
  intros Hc Hq Hp Hst Hin. destruct (insertChild_ok s q p l Hc Hq Hp Hst Hin) as (h1 & E1 & Hc1 & _).
  destruct (removeChild_ok (set_pcbs h1 s) q p l Hc1 Hq) as (h2 & E2 & Hc2 & Hpr & _).
  eexists _, _. split_and!; [exact E1|by apply (emptyChild_ok (set_pcbs h1 s) q _ Hc1 Hq)|exact E2|done..| |].
  - by apply emptyChild_ok.
  - intros ->. by apply removeChild_none.
Qed.

Lemma child_roundtrip_witness : exists s1 s2,
  insertChild proc2 proc3 demo_three = Ret tt s1 /\ emptyChild proc2 s1 = Ret false s1 /\
  removeChild proc2 s1 = Ret proc3 s2 /\ children (pcbs s2) proc2 [] /\
  fld p_prnt (pcbs s2) proc3 = Some NULL /\
  emptyChild proc2 s2 = Ret (bool_decide ([] = [] :> list Z)) s2 /\ ([] = [] :> list Z -> removeChild proc2 s2 = Ret NULL s2).
Proof.
  apply (child_roundtrip demo_three proc2 [] proc3).
  - assert (kids_of demo_three proc2 = []) as <- by (vm_compute; reflexivity).
    apply demo_three_children. apply (bool_decide_unpack _). vm_compute. exact I.
  - vm_compute. congruence.
  - vm_compute. congruence.
  - vm_compute. eauto.
  - apply not_elem_of_nil.
Defined.
