(* ===== verification/AslModel.v ===== *)
(** * The ASL refines a finite map

    The abstract ASL is a finite map from semaphore addresses to the non-empty list of the processes
    blocked there, of at most MAXPROC keys.  Any sequence of operations of asl.c returns what the
    same operations return on the map. *)
From S2P Require Export AslSpec Invariant.

Abbreviation amap := (gmap Z (list Z)).

(** The processes blocked at [k]. *)
Definition at_key (M : amap) (k : Z) : list Z := default [] (M !! k).

Definition put (M : amap) (k : Z) (q : list Z) : amap :=
  match q with [] => delete k M | _ => <[k := q]> M end.

Inductive aop : Type :=
| AInsert (k p : Z)
| ARemove (k : Z)
| AOut (k p : Z)
| AHead (k : Z).

(** The operation of asl.c; the result of insertBlocked is TRUE or FALSE. *)
Definition run_aop (o : aop) : K Z :=
  match o with
  | AInsert k p => do b <- insertBlocked k p; ret (if b then TRUE else FALSE)
  | ARemove k => removeBlocked k
  | AOut _ p => outBlocked p
  | AHead k => headBlocked k
  end.

(** The operation on the map. *)
Definition abs_aop (o : aop) (M : amap) : amap * Z :=
  match o with
  | AInsert k p =>
      if decide (at_key M k = [] /\ size M = 20%nat) then (M, TRUE)
      else (put M k (at_key M k ++ [p]), FALSE)
  | ARemove k => (put M k (tail (at_key M k)), default NULL (head (at_key M k)))
  | AOut k p => (put M k (filter (fun x => x <> p) (at_key M k)), p)
  | AHead k => (M, default NULL (head (at_key M k)))
  end.

(** A process waits on one semaphore at a time; outBlocked is told where its process waits. *)
Definition aop_ok (stored : gset Z) (o : aop) (M : amap) : Prop :=
  match o with
  | AInsert k p => sem_key k /\ p <> NULL /\ p ∈ stored /\ forall k', p ∉ at_key M k'
  | ARemove k | AHead k => sem_key k
  | AOut k p => sem_key k /\ p ∈ at_key M k
  end.

Fixpoint run_aops (os : list aop) : K (list Z) :=
  match os with
  | [] => ret []
  | o :: os => do r <- run_aop o; do rs <- run_aops os; ret (r :: rs)
  end.

Fixpoint abs_aops (os : list aop) (M : amap) : amap * list Z :=
  match os with
  | [] => (M, [])
  | o :: os => let (M1, r) := abs_aop o M in
               let (M2, rs) := abs_aops os M1 in (M2, r :: rs)
  end.

Fixpoint aops_ok (stored : gset Z) (os : list aop) (M : amap) : Prop :=
  match os with
  | [] => True
  | o :: os => aop_ok stored o M /\ aops_ok stored os (fst (abs_aop o M))
  end.

(** The map a state stands for; [stored] are the pcbs in memory. *)
Record holds_asl (stored : gset Z) (s : kstate) (M : amap) : Prop := {
  holds_stored : forall p, p ∈ stored -> is_Some (pcbs s !! p);
  holds_list : exists L fs, asl s L fs /\ forall k, at_key M k = procs_at L k;
  holds_keys : forall k q, M !! k = Some q -> q <> [] /\ sem_key k;
  holds_in : forall k p, p ∈ at_key M k -> p ∈ stored
}.

(** * Lemmas *)
Lemma at_key_put M k q k' : at_key (put M k q) k' = if decide (k' = k) then q else at_key M k'.
Proof.
  unfold at_key, put. destruct q as [|x q]; [rewrite lookup_delete|rewrite lookup_insert];
    repeat case_decide; cbn; congruence.
Qed.

Lemma at_key_some M k p : p ∈ at_key M k -> M !! k = Some (at_key M k).
Proof. unfold at_key. destruct (M !! k); cbn; [done|]. by intros ?%not_elem_of_nil. Qed.

Lemma at_key_nonempty M k : at_key M k <> [] -> k ∈ dom M.
Proof. unfold at_key. rewrite elem_of_dom. destruct (M !! k); cbn; [eauto|done]. Qed.

Lemma sorted_keys_NoDup (l : list Z) : StronglySorted Z.lt l -> NoDup l.
Proof.
  induction 1 as [|k l Hs IH Hlt]; constructor; [|done].
  intros Hk. rewrite Forall_forall in Hlt. specialize (Hlt k Hk). lia.
Qed.

Lemma procs_at_entry L k : procs_at L k <> [] -> exists e, e ∈ L /\ e_key e = k.
Proof.
  induction L as [|e L IH]; [done|]. rewrite procs_at_cons. destruct (Z.eqb_spec (e_key e) k).
  - exists e. split; [by left|done].
  - intros (e' & ? & ?)%IH. exists e'. split; [by right|done].
Qed.

Lemma procs_at_in L e : e ∈ L -> e_procs e <> [] -> procs_at L (e_key e) <> [].
Proof.
  intros (L1 & L2 & ->)%list_elem_of_split Hq. rewrite procs_at_app, procs_at_cons, Z.eqb_refl.
  intros [_ [? _]%app_eq_nil]%app_eq_nil. done.
Qed.

(** The keys of the ASL are the keys of the map and the two dummies. *)
Lemma asl_keys stored s M L fs :
  holds_asl stored s M -> asl s L fs -> (forall k, at_key M k = procs_at L k) ->
  e_key <$> L ≡ₚ 0 :: MAXINT :: elements (dom M).
Proof.
  intros H [A Hact] HM. assert (forall k, k ∈ dom M -> sem_key k /\ procs_at L k <> []) as Hdom.
  { intros k [q Hq]%elem_of_dom. destruct (holds_keys _ _ _ H k q Hq). split; [done|].
    rewrite <- HM. unfold at_key. by rewrite Hq. }
  apply NoDup_Permutation.
  - apply sorted_keys_NoDup, (asl_sorted _ _ _ A).
  - apply NoDup_cons. split; [|apply NoDup_cons; split; [|apply NoDup_elements]].
    + intros [?|[[[? _] _] _]%elem_of_elements%Hdom]%elem_of_cons; [done|lia].
    + by intros [[_ ?] _]%elem_of_elements%Hdom.
  - intros k. rewrite !elem_of_cons, elem_of_elements. split.
    + intros (e & -> & He)%list_elem_of_fmap. unfold asl_active in Hact. rewrite Forall_forall in Hact.
      destruct (decide (e_procs e = [])) as [[->| ->]%(Hact e He)|Hne]; [tauto|tauto|].
      right; right. apply at_key_nonempty. rewrite HM. by apply procs_at_in.
    + intros [->|[->|[_ (e & ? & <-)%procs_at_entry]%Hdom]]; [| |apply list_elem_of_fmap; eauto].
      * destruct (asl_head _ _ _ A) as (a & L' & ->). by left.
      * destruct (asl_tail _ _ _ A) as (b & Hb). apply list_elem_of_fmap. by exists (Entry b MAXINT []).
Qed.

Lemma asl_room stored s M L fs :
  holds_asl stored s M -> asl s L fs -> (forall k, at_key M k = procs_at L k) ->
  size M = 20%nat <-> fs = [].
Proof.
  intros H A HM. pose proof (Permutation_length (asl_keys _ _ _ _ _ H A HM)) as E.
  rewrite length_fmap in E. cbn in E. rewrite <- (size_dom M). unfold size, set_size. cbn.
  pose proof (asl_total _ _ _ (proj1 A)). destruct fs; cbn in *; split; intros; try done; lia.
Qed.

(** The state after an operation that set the queue of one semaphore. *)
Lemma holds_put stored s s' M k q L L' fs' er X :
  holds_asl stored s M -> (forall k, at_key M k = procs_at L k) -> sem_key k ->
  asl s' L' fs' -> asl_put L k q L' -> frame er X (pcbs s) (pcbs s') ->
  (forall p, p ∈ q -> p ∈ stored) -> holds_asl stored s' (put M k q).
Proof.
  intros H HM Hk A [Hq Ho] Hf Hin. split.
  - intros p Hp. rewrite (frame_is_Some _ _ _ _ _ Hf). by apply (holds_stored _ _ _ H).
  - exists L', fs'. split; [done|]. intros k'. rewrite at_key_put. case_decide as E; [by subst|].
    rewrite Ho by done. apply HM.
  - intros k' q'. unfold put. destruct q as [|x q].
    + rewrite lookup_delete. case_decide; [done|]. apply (holds_keys _ _ _ H).
    + rewrite lookup_insert. case_decide; [|apply (holds_keys _ _ _ H)]. intros [= <-]. by subst.
  - intros k' p. rewrite at_key_put. case_decide; [auto|]. apply (holds_in _ _ _ H).
Qed.

Lemma holds_blocked_length stored s M L fs :
  holds_asl stored s M -> asl s L fs -> (forall k, at_key M k = procs_at L k) -> (size stored <= 20)%nat ->
  (length (blocked L) <= 20)%nat.
Proof.
  intros H A HM Hn. etrans; [|exact Hn]. unfold size, set_size. cbn.
  apply submseteq_length, NoDup_submseteq; [apply (asl_procs _ _ _ (proj1 A))|].
  intros p (e & He & Hp)%elem_of_blocked. apply elem_of_elements, (holds_in _ _ _ H (e_key e)). rewrite HM.
  apply list_elem_of_split in He as (L1 & L2 & ->). rewrite procs_at_app, procs_at_cons, Z.eqb_refl. set_solver.
Qed.

(** One operation. *)
Lemma aop_refines stored o s M :
  holds_asl stored s M -> (size stored <= 20)%nat -> aop_ok stored o M ->
  exists s', run_aop o s = Ret (snd (abs_aop o M)) s' /\ holds_asl stored s' (fst (abs_aop o M)).
Proof.
  intros H Hn Hok. destruct (holds_list _ _ _ H) as (L & fs & A & HM).
  pose proof (holds_blocked_length _ _ _ _ _ H A HM Hn) as Hb.
  assert (forall k p, p ∈ at_key M k -> p ∈ stored) as Hin by apply (holds_in _ _ _ H).
  destruct o as [k p|k|k p|k]; cbn in Hok |- *.
  - destruct Hok as (Hk & Hp & Hst & Hni).
    assert (p ∉ blocked L) as Hnb.
    { intros (e & He & Hpe)%elem_of_blocked. apply (Hni (e_key e)). rewrite HM.
      apply list_elem_of_split in He as (L1 & L2 & ->). rewrite procs_at_app, procs_at_cons, Z.eqb_refl. set_solver. }
    pose proof (asl_room _ _ _ _ _ H A HM) as Hroom. rewrite HM. case_decide as E.
    + destruct E as [E1 ->%Hroom]. rewrite (bind_ret _ _ _ _ _ (insertBlocked_full s L k p A Hk E1)).
      exists s. done.
    + destruct (insertBlocked_ok s L fs k p A Hk Hp (holds_stored _ _ _ H p Hst) Hnb)
        as (L' & fs' & s' & Er & A' & _ & Hput & _ & Hf).
      { destruct (decide (procs_at L k = [])); [right|by left]. intros ?%Hroom. by apply E. }
      rewrite (bind_ret _ _ _ _ _ Er). exists s'. split; [done|]. eapply holds_put; try done.
      intros x. rewrite <- HM. set_solver.
  - destruct (procs_at L k) as [|p q] eqn:E; rewrite HM, E; cbn.
    + rewrite (removeBlocked_none s L fs k A Hok E). exists s. split; [done|].
      replace (delete k M) with M; [done|]. symmetry. apply delete_id.
      destruct (M !! k) as [q|] eqn:Eq; [|done]. destruct (holds_keys _ _ _ H k q Eq) as [[] _].
      rewrite <- E, <- HM. unfold at_key. by rewrite Eq.
    + destruct (removeBlocked_ok s L fs k p q A Hok E) as (s' & L' & fs' & Er & A' & _ & Hput & _ & Hf & _).
      rewrite Er. exists s'. split; [done|]. eapply holds_put; try done.
      intros x Hx. apply (Hin k). rewrite HM, E. by right.
  - destruct Hok as [Hk Hp]. rewrite HM in Hp |- *. pose proof (procs_at_NoDup _ _ _ k (proj1 A)) as Hnd.
    destruct (list_elem_of_split _ _ Hp) as (q1 & q2 & E).
    destruct (outBlocked_ok s L fs k q1 p q2 A Hk E) as (s' & L' & fs' & Er & A' & _ & Hput & _ & Hf & _);
      [rewrite walk_fuel_eq; lia|].
    rewrite Er. exists s'. split; [done|]. rewrite E in Hnd |- *. rewrite filter_without by done.
    eapply holds_put; try done. intros x Hx. apply (Hin k). rewrite HM, E. set_solver.
  - rewrite (headBlocked_ok s L fs k A Hok), HM. by exists s.
Qed.
