(* ===== verification/AslProps.v ===== *)
(** * What phase1/asl.c promises *)
From S2P Require Export Demo AslModel.








(** InitASL leaves an ASL of the two dummy descriptors, keys 0 and MAXINT, without processes, and
    the other MAXPROC descriptors of the table on the free list, each once. *)
Theorem initASL_builds `{!MachineOk m} s :
  (forall a, a ∈ semd_table -> is_Some (semds s !! a)) ->
  exists s' a b fs, initASL s = Ret tt s' /\ asl s' [Entry a 0 []; Entry b MAXINT []] fs /\
    length fs = 20%nat /\ a :: b :: fs ≡ₚ semd_table.
Proof.
  intros H. destruct (initASL_ok s H) as (D & f & E & A). eexists _, _, _, _. split; [exact E|]. split; [exact A|].
  split; [done|]. unfold semd_table.
  assert (seqZ 0 MAXSEMDS ≡ₚ 21 :: 20 :: reverse (seqZ 0 20)) as Hp by (apply (bool_decide_unpack _); vm_compute; exact I).
  rewrite Hp. cbn [fmap list_fmap]. do 2 apply perm_skip.
  by rewrite !reverse_Permutation.
Qed.

Lemma initASL_builds_witness : exists s' a b fs, initASL demo_image = Ret tt s' /\
  asl s' [Entry a 0 []; Entry b MAXINT []] fs /\ length fs = 20%nat /\ a :: b :: fs ≡ₚ semd_table.
Proof. apply (initASL_builds demo_image). apply (boot_semds _ demo_image_bootable). Defined.

(** C29: in the nucleus a process can always be blocked: under the invariant insertBlocked finds a
    descriptor, answers FALSE and appends the process to the queue of its semaphore, whatever the
    number of semaphores in use; its ignored result is never TRUE. *)
Theorem blocking_never_fails `{!MachineOk m} s v p hands k :
  kernel_inv s v (p :: hands) -> sem_key k -> is_Some (ints s !! k) ->
  exists s' L' fs', insertBlocked k p s = Ret false s' /\ kernel_inv s' (with_asl L' fs' v) hands /\
    asl_put (v_entries v) k (waiting v k ++ [p]) L'.
Proof.
  intros I Hk Hi. destruct (inv_block s v p hands k I Hk Hi) as (s' & L' & fs' & E & I' & _ & Hput & _). eauto 6.
Qed.

Lemma blocking_never_fails_witness : exists v s' L' fs',
  insertBlocked demo_sem proc1 demo_three = Ret false s' /\ kernel_inv s' (with_asl L' fs' v) [] /\
  asl_put (v_entries v) demo_sem (waiting v demo_sem ++ [proc1]) L'.
Proof.
  destruct demo_three_inv as [v N]. exists v. pose proof (nucleus_kernel _ _ N) as I.
  assert (running demo_three = [proc1]) as Hr by (vm_compute; reflexivity). rewrite Hr in I.
  apply (blocking_never_fails demo_three v proc1 [] demo_sem I).
  - unfold sem_key. vm_compute. intuition congruence.
  - vm_compute. eauto.
Defined.
