(* ===== verification/CallProps.v ===== *)
(** * What the system calls promise *)
From S2P Require Export Demo Semaphores.

Section calls.
Context {m : Machine} {mok : MachineOk m}.
Implicit Types (s : kstate) (v : view).

(** C15: SYS1 with a free pcb gives the child the caller's state and support structure, no CPU time,
    a place at the end of the ready queue and as first child of the caller, and resumes the
    caller with 0 in v0; with no free pcb it resumes the caller with -1 and moves no process. The
    saved state, time and support structure of every other process, the semaphores and the soft-block count stay. *)
Theorem createProcess_spec s v a st u :
  nucleus_inv s v -> currentProcess s <> NULL -> states s !! a = Some st -> support_ok s u ->
  stops (createProcess a u) s
    match v_free v with [] => returns s v ERROR_CONST | p :: l => created s v st u p l end.
Proof.
  intros N Hc Hst Hu. destruct (v_free v) as [|p l] eqn:E; [by apply createProcess_full|by apply createProcess_ok].
Qed.

(** C14: SYS2 kills exactly the calling process and its descendants, whatever they wait for: their
    pcbs return to the free list, they leave the ready queue and every semaphore queue, the order of
    the others and the child lists of the survivors are kept; processCount drops by their number, a semaphore of the user is incremented
    once per killed waiter, a device semaphore is not, and softBlockedCount drops by the number of
    killed waiters of device semaphores; then the scheduler runs. The recursion terminates. *)
Theorem terminate_kills_subtree s v :
  nucleus_inv s v -> currentProcess s <> NULL ->
  stops terminate_current s (fun e s' => exists D s1 v1 v',
    (forall x, x ∈ D <-> descends (v_kids v) (currentProcess s) x) /\
    kill_queues D v v1 /\ kill_step D s s1 /\ same_data s1 s' /\
    kids_kept (currentProcess s) D v (running s) v1 /\ dispatched v1 e v' s' /\ nucleus_inv s' v').
Proof. apply terminate_current_ok. Qed.

(** C16: SYS3 decrements the semaphore; a value below zero appends the caller to the queue of the
    semaphore, charges its time and dispatches the next ready process, otherwise the caller goes
    on; nothing else changes. *)
Theorem passeren_spec s v k n :
  nucleus_inv s v -> currentProcess s <> NULL -> sem_key k -> ints s !! k = Some n ->
  let words := <[k := i32 (n - 1)]> (ints s) in
  stops (passeren k) s (fun e s' =>
    if i32 (n - 1) <? 0 then blocked_switch s v k words (softBlockedCount s) e s'
    else goes_on s v words (softBlockedCount s) e s').
Proof. apply passeren_ok. Qed.

(** C17: SYS4 increments the semaphore; a value of zero or less moves the first waiting process to
    the end of the ready queue; the caller goes on. *)
Theorem verhogen_spec s v k n :
  nucleus_inv s v -> currentProcess s <> NULL -> sem_key k -> ints s !! k = Some n ->
  let words := <[k := i32 (n + 1)]> (ints s) in
  stops (verhogen k) s (fun e s' =>
    exists v', goes_on s v' words (softBlockedCount s) e s' /\
      if i32 (n + 1) <=? 0 then woken v k v' else v' = v).
Proof. apply verhogen_ok. Qed.

(** SYS3 and SYS4 keep every semaphore in balance: where the value counted the waiting processes
    (minus their number when negative, none when not) it still does, so no wake-up is lost. *)
Theorem pv_keep_balance s v k n op :
  nucleus_inv s v -> currentProcess s <> NULL -> sem_key k -> ints s !! k = Some n -> n < 2 ^ 31 - 1 ->
  balanced s v k -> op = passeren k \/ op = verhogen k ->
  stops op s (fun e s' => exists v', nucleus_inv s' v' /\ forall k', balanced s v k' -> balanced s' v' k').
Proof.
  intros N Hc Hk Hn Hmax Hb [-> | ->]; [eapply passeren_balance|eapply verhogen_balance]; try done. lia.
Qed.

(** SYS2 keeps every semaphore of the user in balance, however many of its waiters die. *)
Theorem terminate_keeps_balance s v k n :
  nucleus_inv s v -> currentProcess s <> NULL -> sem_key k -> is_device_sem k = false ->
  ints s !! k = Some n -> n < 2 ^ 31 -> balanced s v k ->
  stops terminate_current s (fun e s' => exists v', nucleus_inv s' v' /\ balanced s' v' k).
Proof. intros N Hc Hk Hd Hn Hmax Hb. apply (terminate_balance s v k); try done. congruence. Qed.

(** C18: SYS5 does a P on the semaphore of the device (the transmitter of a terminal when the third
    argument is not TRUE) and counts the caller as soft-blocked, even when it does not block. *)
Theorem waitForIO_spec s v line device read n :
  nucleus_inv s v -> currentProcess s <> NULL ->
  0 <= wait_index line device read < MAX_DEVICE_COUNT ->
  let k := sem_addr (wait_index line device read) in
  ints s !! k = Some n ->
  let words := <[k := i32 (n - 1)]> (ints s) in
  let soft := i32 (softBlockedCount s + 1) in
  stops (waitForIO line device read) s (fun e s' =>
    if i32 (n - 1) <? 0 then blocked_switch s v k words soft e s' else goes_on s v words soft e s').
Proof. apply waitForIO_ok. Qed.

(** C19: SYS7 does a P on the clock semaphore and counts the caller as soft-blocked when it blocks. *)
Theorem waitForClock_spec s v n :
  nucleus_inv s v -> currentProcess s <> NULL ->
  let k := sem_addr CLOCK_INDEX in
  ints s !! k = Some n ->
  let words := <[k := i32 (n - 1)]> (ints s) in
  stops waitForClock s (fun e s' =>
    if i32 (n - 1) <? 0
    then blocked_switch s v k words (i32 (softBlockedCount s + 1)) e s'
    else goes_on s v words (softBlockedCount s) e s').
Proof. apply waitForClock_ok. Qed.

(** C34: SYS6 returns in v0 the time stored for the caller plus the time since it was dispatched, on 32
    bits; it leaves in the pcb that value plus the time from the same dispatch to a second
    reading: the interval before the first reading is charged twice. *)
Theorem getCPUTime_spec s v t :
  nucleus_inv s v -> currentProcess s <> NULL -> fld p_time (pcbs s) (currentProcess s) = Some t ->
  let t1 := i32 (t + i32 (tod s - start_TOD s)) in
  let t2 := i32 (t1 + i32 (tod (tick s) - start_TOD s)) in
  stops getCPUTime s (fun e s' => returns s v t1 e s' /\ fld p_time (pcbs s') (currentProcess s) = Some t2).
Proof. apply getCPUTime_ok. Qed.

(** SYS8 returns in v0 the address of the caller's support structure, NULL (-1) when it has none,
    and resumes the caller. *)
Theorem getSupportData_spec s v u :
  nucleus_inv s v -> currentProcess s <> NULL ->
  fld p_supportStruct (pcbs s) (currentProcess s) = Some u ->
  stops getSupportData s (returns s v (i32 u)).
Proof. apply getSupportData_ok. Qed.
End calls.

(** ** The concrete machine *)
Lemma demo_sem_key : sem_key demo_sem.
Proof. unfold sem_key. vm_compute. intuition congruence. Qed.

Lemma demo_three_running : currentProcess demo_three <> NULL.
Proof. vm_compute. congruence. Qed.

Lemma demo_blocked_running : currentProcess demo_blocked <> NULL.
Proof. vm_compute. congruence. Qed.

Lemma demo_three_free_first : exists v l, nucleus_inv demo_three v /\ v_free v = (0x20002000 + 16 * 176) :: l.
Proof.
  destruct demo_three_inv as [v N]. exists v, (tail (free_of demo_three)). split; [done|].
  rewrite (proj1 (readback _ _ _ (nucleus_kernel _ _ N))). vm_compute. reflexivity.
Qed.

Lemma demo_three_balanced v : nucleus_inv demo_three v -> balanced demo_three v demo_sem.
Proof.
  intros N. exists 0. split; [vm_compute; reflexivity|]. unfold waiting.
  rewrite (proj1 (proj2 (proj2 (readback _ _ _ (nucleus_kernel _ _ N))))). vm_compute. reflexivity.
Qed.

Lemma createProcess_spec_witness : exists v,
  stops (createProcess BIOSDATAPAGE demo_support) demo_three
    match v_free v with
    | [] => returns demo_three v ERROR_CONST
    | p :: l => created demo_three v (bios_state demo_three) demo_support p l
    end.
Proof.
  destruct demo_three_inv as [v N]. exists v.
  apply (createProcess_spec demo_three v BIOSDATAPAGE (bios_state demo_three) demo_support N demo_three_running).
  - vm_compute. reflexivity.
  - right. split; vm_compute; eauto.
Defined.

Lemma terminate_kills_subtree_witness : exists v,
  stops terminate_current demo_three (fun e s' => exists D s1 v1 v',
    (forall x, x ∈ D <-> descends (v_kids v) (currentProcess demo_three) x) /\
    kill_queues D v v1 /\ kill_step D demo_three s1 /\ same_data s1 s' /\
    kids_kept (currentProcess demo_three) D v (running demo_three) v1 /\ dispatched v1 e v' s' /\ nucleus_inv s' v').
Proof.
  destruct demo_three_inv as [v N]. exists v. exact (terminate_kills_subtree demo_three v N demo_three_running).
Defined.

Lemma passeren_spec_witness : exists v,
  stops (passeren demo_sem) demo_three (fun e s' =>
    if i32 (0 - 1) <? 0
    then blocked_switch demo_three v demo_sem (<[demo_sem := i32 (0 - 1)]> (ints demo_three)) (softBlockedCount demo_three) e s'
    else goes_on demo_three v (<[demo_sem := i32 (0 - 1)]> (ints demo_three)) (softBlockedCount demo_three) e s').
Proof.
  destruct demo_three_inv as [v N]. exists v.
  apply (passeren_spec demo_three v demo_sem 0 N demo_three_running demo_sem_key). vm_compute. reflexivity.
Defined.

Lemma verhogen_spec_witness : exists v,
  stops (verhogen demo_sem) demo_blocked (fun e s' => exists v',
    goes_on demo_blocked v' (<[demo_sem := i32 (-1 + 1)]> (ints demo_blocked)) (softBlockedCount demo_blocked) e s' /\
    if i32 (-1 + 1) <=? 0 then woken v demo_sem v' else v' = v).
Proof.
  destruct demo_blocked_inv as [v N]. exists v.
  apply (verhogen_spec demo_blocked v demo_sem (-1) N demo_blocked_running demo_sem_key). vm_compute. reflexivity.
Defined.

Lemma pv_keep_balance_witness : exists v,
  stops (passeren demo_sem) demo_three (fun e s' => exists v', nucleus_inv s' v' /\
    forall k', balanced demo_three v k' -> balanced s' v' k').
Proof.
  destruct demo_three_inv as [v N]. exists v.
  apply (pv_keep_balance demo_three v demo_sem 0 (passeren demo_sem) N demo_three_running demo_sem_key).
  - vm_compute. reflexivity.
  - lia.
  - exact (demo_three_balanced v N).
  - left. reflexivity.
Defined.

Lemma terminate_keeps_balance_witness :
  stops terminate_current demo_three (fun e s' => exists v', nucleus_inv s' v' /\ balanced s' v' demo_sem).
Proof.
  destruct demo_three_inv as [v N].
  apply (terminate_keeps_balance demo_three v demo_sem 0 N demo_three_running demo_sem_key).
  - vm_compute. reflexivity.
  - vm_compute. reflexivity.
  - lia.
  - exact (demo_three_balanced v N).
Defined.

Lemma waitForIO_spec_witness : exists v,
  let k := sem_addr (wait_index LINE7 0 FALSE) in
  stops (waitForIO LINE7 0 FALSE) demo_three (fun e s' =>
    if i32 (0 - 1) <? 0
    then blocked_switch demo_three v k (<[k := i32 (0 - 1)]> (ints demo_three)) (i32 (softBlockedCount demo_three + 1)) e s'
    else goes_on demo_three v (<[k := i32 (0 - 1)]> (ints demo_three)) (i32 (softBlockedCount demo_three + 1)) e s').
Proof.
  destruct demo_three_inv as [v N]. exists v.
  apply (waitForIO_spec demo_three v LINE7 0 FALSE 0 N demo_three_running); vm_compute; intuition congruence.
Defined.

Lemma waitForClock_spec_witness : exists v,
  let k := sem_addr CLOCK_INDEX in
  stops waitForClock demo_three (fun e s' =>
    if i32 (0 - 1) <? 0
    then blocked_switch demo_three v k (<[k := i32 (0 - 1)]> (ints demo_three)) (i32 (softBlockedCount demo_three + 1)) e s'
    else goes_on demo_three v (<[k := i32 (0 - 1)]> (ints demo_three)) (softBlockedCount demo_three) e s').
Proof.
  destruct demo_three_inv as [v N]. exists v.
  apply (waitForClock_spec demo_three v 0 N demo_three_running). vm_compute. reflexivity.
Defined.

Definition demo_time : Z := default 0 (fld p_time (pcbs demo_three) (currentProcess demo_three)).

Lemma getCPUTime_spec_witness : exists v,
  let t1 := i32 (demo_time + i32 (tod demo_three - start_TOD demo_three)) in
  let t2 := i32 (t1 + i32 (tod (tick demo_three) - start_TOD demo_three)) in
  stops getCPUTime demo_three (fun e s' =>
    returns demo_three v t1 e s' /\ fld p_time (pcbs s') (currentProcess demo_three) = Some t2).
Proof.
  destruct demo_three_inv as [v N]. exists v.
  apply (getCPUTime_spec demo_three v demo_time N demo_three_running). vm_compute. reflexivity.
Defined.

Lemma getSupportData_spec_witness : exists v,
  stops getSupportData demo_three (returns demo_three v (i32 NULL)).
Proof.
  destruct demo_three_inv as [v N]. exists v.
  apply (getSupportData_spec demo_three v NULL N demo_three_running). vm_compute. reflexivity.
Defined.
