(* ===== verification/KernelProps.v ===== *)
(** * The nucleus and the abstract kernel: the properties

    Runs of the nucleus are runs of the abstract kernel, and what every step of the abstract kernel
    keeps, every exception keeps: the units of the semaphores, the count of the processes that
    wait for input or output.  What the exception does not concern, it leaves alone; what it
    writes, has its C type. *)
From S2P Require Export AbsDeadlock Units Isolation Typing SystemProps CallProps.

(** The two ways into the nucleus. *)
Inductive entry `{Machine} : K unit -> kstate -> Prop :=
| entry_boot s : bootable s -> entry main s
| entry_exception s v : nucleus_inv s v -> admissible s -> entry exceptionHandler s.

Section kernel.
Context {m : Machine} {mok : MachineOk m}.
Implicit Types (s : kstate) (v : view).

(** C2: every run of the system, from the boot through any sequence of admissible exceptions with
    arbitrary user code in between, is a run of the abstract kernel (a running process, a ready
    list, a free list, a value and a FIFO queue per semaphore, the process tree, the soft-block
    count) that serves the same requests in the same order and gives up the processor in the same
    way: it runs a process while one is ready, and otherwise halts, waits or panics as the counts
    say; the lists, values and children read off the memory of the nucleus are the abstract state. *)
Theorem nucleus_refines_kernel rs e s :
  runs rs e s -> exists v, nucleus_inv s v /\ a_runs rs (leave_of e) (abs_of s v).
Proof. apply runs_refine. Qed.

(** Whatever the exception is (any system call of any process, a trap, a termination, an
    interrupt), a semaphore that is not a device semaphore stays in balance: its value is minus
    the number of processes waiting on it, or it is not negative and nobody waits. *)
Theorem exceptions_keep_balance s v k :
  nucleus_inv s v -> admissible s -> sem_key k -> is_device_sem k = false ->
  (forall n, ints s !! k = Some n -> n < 2 ^ 31 - 1) -> balanced s v k ->
  stops exceptionHandler s (fun _ s' => exists v', nucleus_inv s' v' /\ balanced s' v' k).
Proof. apply exception_balance. Qed.

(** C5: the units of a semaphore: in a run of any exceptions (P, V, terminations, interrupts, by any
    processes), during which user code leaves the semaphore at [k] to P and V, its value counts its queue, and the
    processes it lets through ([g]: a P that does not wait, a waiting process that a V makes
    ready) and the units left are together the units at the start and the V's.  So it never
    lets more processes through than that (mutual exclusion, when there is one unit), and nobody
    waits while a unit is left. *)
Theorem semaphore_units k n e s rs g e' s' :
  reachable e s -> sem_key k -> is_device_sem k = false -> in_balance k s n -> uses k e s rs g e' s' ->
  Z.max 0 n + Z.of_nat (releases k rs) < 2 ^ 31 - 1 ->
  exists n', in_balance k s' n' /\ Z.of_nat g + Z.max 0 n' = Z.max 0 n + Z.of_nat (releases k rs).
Proof. apply uses_units. Qed.



(** C8: types of C: started on memory in which every field, word and register holds a value of its C type,
    [main] and [exceptionHandler] reach the next exit with every value in its type again (the conversions
    of the code leave no other value), and the state or context they load is typed; the
    set of objects is the same: no pcb, semaphore descriptor, word, state or support structure
    appears or disappears. *)
Theorem nucleus_typed `{!MachineTyped m} c s :
  entry c s -> typed_store s ->
  stops c s (fun e s' => (exists v', nucleus_inv s' v') /\ typed_store s' /\ typed_event e /\ objects s' = objects s).
Proof.
  intros [s1 Hb|s1 v N Ha] Hs.
  - apply (typed_stops _ _ (fun _ s' => exists v, nucleus_inv s' v) typed_main Hs).
    destruct (main_ok s1 Hb) as (s2 & _ & H). eapply stops_mono; [|exact H]. naive_solver.
  - exact (typed_stops _ _ (fun _ s' => exists v, nucleus_inv s' v) typed_exceptionHandler Hs (exceptionHandler_safe s1 v N Ha)).
Qed.
End kernel.

(** ** The concrete machine *)
Lemma raise_balanced cause status a0 a1 a2 a3 s v k :
  balanced s v k -> balanced (raise_exception cause status a0 a1 a2 a3 s) v k.
Proof. done. Qed.


(** One exception after the boot. *)
Lemma first_exception s : outside demo_booted s -> admissible s -> is_stop (exceptionHandler s) = true ->
  exists e, exceptionHandler s = Stop e (final (exceptionHandler s)) /\
    runs [exception_request s] e (final (exceptionHandler s)) /\
    (ordinary device_keys (exception_request s) -> exception_request s <> RStray ->
     tracked (early (exception_request s) (fun k => ints s !! k)) e (final (exceptionHandler s))).
Proof.
  intros Ho Ha [e E]%is_stop_final. exists e. split; [done|].
  destruct (main_ok demo_image demo_image_bootable) as (s1 & _ & H).
  destruct (stops_final _ _ _ H) as (e0 & E0 & st & He0 & _).
  split.
  - apply (runs_exception [] e0 demo_booted s); [|by rewrite He0|by rewrite He0|done..].
    rewrite demo_booted_eq. exact (runs_boot _ _ _ demo_image_bootable E0).
  - intros Hord Hns. apply (tracked_exception 0 e0 demo_booted s); [|by rewrite He0|by rewrite He0|done..].
    rewrite demo_booted_eq. exact (tracked_boot _ _ _ demo_image_bootable E0).
Qed.

(** The first process creates a second one. *)
Lemma nucleus_refines_kernel_witness : exists e v,
  nucleus_inv (final (exceptionHandler demo_call1)) v /\
  a_runs [RCreate] (leave_of e) (abs_of (final (exceptionHandler demo_call1)) v).
Proof.
  destruct (first_exception demo_call1) as (e & _ & R & _); [apply raise_outside|demo_trap|vm_compute; reflexivity|].
  assert (exception_request demo_call1 = RCreate) as Hr by (vm_compute; reflexivity).
  rewrite Hr in R. exists e. exact (nucleus_refines_kernel [RCreate] e _ R).
Defined.

(** The third process waits on [demo_sem]. *)
Lemma exceptions_keep_balance_witness :
  stops exceptionHandler demo_call3 (fun _ s' => exists v', nucleus_inv s' v' /\ balanced s' v' demo_sem).
Proof.
  destruct demo_three_inv as [v N]. apply (exceptions_keep_balance demo_call3 v demo_sem).
  - apply raise_inv. exact N.
  - demo_trap.
  - exact demo_sem_key.
  - vm_compute. reflexivity.
  - intros n Hn. assert (ints demo_call3 !! demo_sem = Some 0) as E by (vm_compute; reflexivity).
    rewrite E in Hn. injection Hn as <-. reflexivity.
  - apply raise_balanced. exact (demo_three_balanced v N).
Defined.

(** The first process waits on [demo_sem], then the second one does a V. *)
Definition demo_call4 : kstate := kernel_call SYS4_NUM demo_sem 0 0 demo_blocked.
Definition demo_freed : kstate := final (exceptionHandler demo_call4).

Lemma raise_ints cause status a0 a1 a2 a3 s k :
  ints (raise_exception cause status a0 a1 a2 a3 s) !! k = ints s !! k.
Proof. done. Qed.

Lemma demo_uses st : exists rs g e, uses demo_sem (Ldst st) demo_three rs g e demo_freed /\ releases demo_sem rs = 1%nat /\ g = 1%nat.
Proof.
  destruct (is_stop_final (exceptionHandler demo_call3)) as [e1 E1]; [vm_compute; reflexivity|].
  destruct (is_stop_final (exceptionHandler demo_call4)) as [e2 E2]; [vm_compute; reflexivity|].
  assert (is_ldst (exceptionHandler demo_call3) = true) as Hl by (vm_compute; reflexivity).
  exists ([] ++ [exception_request demo_call3] ++ [exception_request demo_call4]),
    (0 + grants demo_sem demo_call3 demo_blocked + grants demo_sem demo_call4 demo_freed)%nat, e2.
  split; [|split; vm_compute; reflexivity].
  apply (uses_next demo_sem (Ldst st) demo_three ([] ++ [exception_request demo_call3]) _ e1 demo_blocked demo_call4);
    [|intros ->; rewrite E1 in Hl; discriminate..|apply raise_outside|demo_trap|exact E2|apply raise_ints].
  apply (uses_next demo_sem (Ldst st) demo_three [] 0 (Ldst st) demo_three demo_call3);
    [apply stretch_here|discriminate|discriminate|apply raise_outside|demo_trap|exact E1|apply raise_ints].
Qed.

Lemma semaphore_units_witness : exists n', in_balance demo_sem demo_freed n' /\ 1 + Z.max 0 n' = 1.
Proof.
  destruct demo_three_reachable as [st Hr]. destruct (demo_uses st) as (rs & g & e & U & Hrel & Hg).
  destruct (semaphore_units demo_sem 0 (Ldst st) demo_three rs g e demo_freed Hr demo_sem_key) as (n' & Hb & E).
  - vm_compute. reflexivity.
  - split; vm_compute; reflexivity.
  - exact U.
  - rewrite Hrel. vm_compute. reflexivity.
  - exists n'. rewrite Hrel, Hg in E. split; [exact Hb|exact E].
Defined.




(** The boot, and the first SYS1. *)
Lemma nucleus_typed_witness : stops main demo_image (fun _ s => typed_store s) /\
  stops exceptionHandler demo_call1 (fun _ s' => typed_store s').
Proof.
  pose proof (nucleus_typed main demo_image (entry_boot _ demo_image_bootable) demo_image_typed) as Hboot.
  split; [eapply stops_mono; [|exact Hboot]; by intros ? ? (_ & ? & _)|].
  destruct (stops_final _ _ _ Hboot) as (e & _ & [v N] & Hs & _). rewrite <- demo_booted_eq in N, Hs.
  eapply stops_mono; [|apply (nucleus_typed exceptionHandler demo_call1)]; [by intros ? ? (_ & ? & _)| |].
  - refine (entry_exception demo_call1 v _ _); [|demo_trap]. apply raise_inv. exact N.
  - apply (raise_typed exc_syscall ALLOFF SYS1_NUM BIOSDATAPAGE demo_support 0 demo_booted); auto with typed.
Defined.
