(* ===== verification/Bits.v ===== *)
(** * Bit fields

    The masks and shifts of the nucleus against the arithmetic and the bits they compute. *)
From S2P Require Export Exceptions.

(** The lowest of the positions [ps] at which [z] has a bit set, [d] when none is. *)
Definition first_bit (z : Z) (ps : list Z) (d : Z) : Z :=
  default d (head (filter (fun i => Z.testbit z i = true) ps)).

(** * Lemmas *)
Lemma land_bit z i : 0 <= i -> (Z.land z (2 ^ i) =? 0) = negb (Z.testbit z i).
Proof.
  intros Hi. assert (Z.land z (2 ^ i) = if Z.testbit z i then 2 ^ i else 0) as ->.
  { apply Z.bits_inj'. intros n Hn. rewrite Z.land_spec. destruct (decide (n = i)) as [->|Hne].
    - rewrite Z.pow2_bits_true, andb_true_r by done.
      destruct (Z.testbit z i); [by rewrite Z.pow2_bits_true|by rewrite Z.bits_0].
    - rewrite Z.pow2_bits_false, andb_false_r by congruence.
      destruct (Z.testbit z i); [by rewrite Z.pow2_bits_false by congruence|by rewrite Z.bits_0]. }
  destruct (Z.testbit z i); cbn; [|done]. apply Z.eqb_neq. pose proof (Z.pow_pos_nonneg 2 i). lia.
Qed.

Lemma first_bit_cons z i ps d :
  first_bit z (i :: ps) d = if Z.testbit z i then i else first_bit z ps d.
Proof.
  unfold first_bit. rewrite filter_cons. destruct (Z.testbit z i) eqn:E; case_decide; congruence || done.
Qed.

Lemma first_bit_nil z d : first_bit z [] d = d.
Proof. done. Qed.

(** Clearing a five-bit field and writing a code there. *)
Lemma exec_code_field c : exec_code c = (c / 4) mod 32.
Proof.
  unfold exec_code, EXC_CODE_MASK, EXC_CODE_SHIFT. rewrite Z.shiftr_land.
  change (Z.shiftr 124 2) with (Z.ones 5). rewrite Z.land_ones, Z.shiftr_div_pow2 by lia. done.
Qed.
