(* ===== verification/TrapProps.v ===== *)
(** * What the traps and the interrupts promise *)
From S2P Require Export CallProps Bits.

Section traps.
Context {m : Machine} {mok : MachineOk m}.
Implicit Types (s : kstate) (v : view).

(** The outcome of pass-up-or-die, by the support structure of the current process. *)
Definition pass_up_or_die s v (ix : fin 2) e s' : Prop :=
  exists u, fld p_supportStruct (pcbs s) (currentProcess s) = Some u /\
    if u =? NULL then terminated s v e s' else passed_up s v u ix e s'.

(** C25: pass-up-or-die stores the exception state in the slot of the support structure for the kind of
    exception and loads the context registered for it; without support structure it kills the
    process and its descendants and schedules. *)
Theorem passUpOrDie_spec s v ix :
  nucleus_inv s v -> currentProcess s <> NULL -> stops (passUpOrDie ix) s (pass_up_or_die s v ix).
Proof. apply passUpOrDie_ok. Qed.

(** C24: a SYSCALL advances the saved PC by one word; in user mode the cause is turned into a reserved
    instruction and passed up as a general exception, without looking at the number; in kernel
    mode a number out of 1 to 8 is passed up, the others run the call of that number, with the
    advanced exception state as the state of the caller. *)
Theorem systemTrapHandler_spec s v :
  nucleus_inv s v -> currentProcess s <> NULL ->
  if user_mode s then stops systemTrapHandler s (pass_up_or_die (user_entry s) v (except_ix GENERALEXCEPT))
  else if decide (SYS1_NUM <= syscall_number s <= SYS8_NUM)
  then systemTrapHandler s = dispatch_syscall (syscall_number s) (served_call s) /\
       nucleus_inv (served_call s) v /\
       saved_state (served_call s) (currentProcess s) =
         set_s_pc (u32 (s_pc (bios_state s) + WORDLEN)) (bios_state s)
  else stops systemTrapHandler s (pass_up_or_die (syscall_entry s) v (except_ix GENERALEXCEPT)).
Proof.
  intros N Hc. pose proof (syscall_entry_inv s v N) as N1. destruct (user_mode s) eqn:Hu.
  - apply (systemTrapHandler_user s v); [done..|]. apply passUpOrDie_ok; [|done]. by apply nucleus_states.
  - case_decide as Hn; [by apply systemTrapHandler_call|].
    apply (systemTrapHandler_range s v); [done..|]. by apply passUpOrDie_ok.
Qed.


(** C22: the end of a time slice stores the exception state of the current process, charges it and
    moves it to the end of the ready queue, then dispatches the first ready process; with no
    current process it panics. *)
Theorem PLTInterruptHandler_spec s v :
  nucleus_inv s v -> savedExceptionState s = BIOSDATAPAGE ->
  let c := currentProcess s in
  if c =? NULL then PLTInterruptHandler s = Stop Panic s
  else stops PLTInterruptHandler s (slice_ended s v).
Proof.
  intros N Hs c. destruct (Z.eqb_spec c NULL).
  - by apply PLTInterruptHandler_idle.
  - by apply PLTInterruptHandler_ok.
Qed.

(** C21: an interval timer interrupt moves every process waiting for the clock to the ready queue, in
    order, resets the clock semaphore to 0 and goes back to the interrupted process with the rest
    of its slice, or schedules when there is none; the loop over the waiters terminates. *)
Theorem intervalTimer_spec s v :
  nucleus_inv s v -> savedExceptionState s = BIOSDATAPAGE ->
  stops intervalTimerInterruptHandler s (clock_interrupt s v).
Proof. apply intervalTimerInterruptHandler_ok. Qed.

(** C20: a device interrupt serves one device of the highest-priority pending line: its semaphore is
    incremented, the first process waiting there becomes ready with the device status in v0 and
    leaves the soft-block count, and the interrupted process, or the scheduler, goes on. *)
Theorem nonTimer_spec s v :
  nucleus_inv s v -> savedExceptionState s = BIOSDATAPAGE ->
  stops nonTimerInterruptHandler s (device_interrupt s v).
Proof. apply nonTimerInterruptHandler_ok. Qed.
End traps.

(** C31: the chains of mask tests find the lowest bit: the line served is the lowest of the lines 3 to 7
    pending in the cause register (7 when none is), the device the lowest of the bits 0 to 7 of its
    bit map (7 when none is set), and the exception code is the five-bit field at bit 2. *)
Theorem masks_find_lowest_bit c b :
  interrupt_line c = first_bit (Z.shiftr c 8) [LINE3; LINE4; LINE5; LINE6; LINE7] LINE7 /\
  device_of_bitmap b = first_bit b (seqZ 0 8) DEVICE_7 /\
  exec_code c = (c / 4) mod 32.
Proof.
  split_and!; [| |apply exec_code_field].
  - unfold interrupt_line, LINE3, LINE4, LINE5, LINE6, LINE7, ALLOFF. rewrite !first_bit_cons, first_bit_nil, !Z.shiftr_spec by lia.
    change 0x800 with (2 ^ 11). change 0x1000 with (2 ^ 12). change 0x2000 with (2 ^ 13). change 0x4000 with (2 ^ 14).
    rewrite !land_bit, !negb_involutive by lia. by destruct (Z.testbit c (7 + 8)).
  - change (seqZ 0 8) with [0; 1; 2; 3; 4; 5; 6; 7]. rewrite !first_bit_cons, first_bit_nil.
    unfold device_of_bitmap, ALLOFF. change INTERRUPTS_BIT_CONST_DEVICE_0 with (2 ^ 0).
    change INTERRUPTS_BIT_CONST_DEVICE_1 with (2 ^ 1). change INTERRUPTS_BIT_CONST_DEVICE_2 with (2 ^ 2).
    change INTERRUPTS_BIT_CONST_DEVICE_3 with (2 ^ 3). change INTERRUPTS_BIT_CONST_DEVICE_4 with (2 ^ 4).
    change INTERRUPTS_BIT_CONST_DEVICE_5 with (2 ^ 5). change INTERRUPTS_BIT_CONST_DEVICE_6 with (2 ^ 6).
    rewrite !land_bit, !negb_involutive by lia. by destruct (Z.testbit b 7).
Qed.

(** ** The concrete machine *)
Lemma demo_three_saved : savedExceptionState demo_three = BIOSDATAPAGE.
Proof. vm_compute. reflexivity. Qed.

Lemma passUpOrDie_spec_witness : exists v, stops (passUpOrDie 1%fin) demo_blocked (pass_up_or_die demo_blocked v 1%fin).
Proof.
  destruct demo_blocked_inv as [v N]. exists v. exact (passUpOrDie_spec demo_blocked v 1%fin N demo_blocked_running).
Defined.

(** A kernel-mode SYS1 of the first process. *)
Lemma systemTrapHandler_spec_witness :
  systemTrapHandler demo_call2 = dispatch_syscall SYS1_NUM (served_call demo_call2).
Proof.
  destruct demo_two_inv as [v N].
  assert (nucleus_inv demo_call2 v) as N2 by (apply raise_inv; exact N).
  assert (currentProcess demo_call2 <> NULL) as Hc by (vm_compute; congruence).
  pose proof (systemTrapHandler_spec demo_call2 v N2 Hc) as H.
  replace (user_mode demo_call2) with false in H by (vm_compute; reflexivity).
  replace (syscall_number demo_call2) with SYS1_NUM in H by (vm_compute; reflexivity).
  exact (proj1 H).
Defined.

(** The end of a time slice. *)
Definition demo_slice (s : kstate) : kstate := raise_exception IP_LINE1_TIMER_BIT ALLOFF 0 0 0 0 s.
Definition demo_tick : kstate := final (exceptionHandler (demo_slice demo_three)).
Definition demo_tick2 : kstate := final (exceptionHandler (demo_slice demo_tick)).


Lemma PLTInterruptHandler_spec_witness : exists v, stops PLTInterruptHandler demo_three (slice_ended demo_three v).
Proof.
  destruct demo_three_inv as [v N]. exists v.
  pose proof (PLTInterruptHandler_spec demo_three v N demo_three_saved) as H. cbv zeta in H.
  replace (currentProcess demo_three =? NULL) with false in H by (vm_compute; reflexivity). exact H.
Defined.

Lemma intervalTimer_spec_witness : exists v,
  stops intervalTimerInterruptHandler demo_three (clock_interrupt demo_three v).
Proof.
  destruct demo_three_inv as [v N]. exists v. exact (intervalTimer_spec demo_three v N demo_three_saved).
Defined.

Lemma nonTimer_spec_witness : exists v,
  stops nonTimerInterruptHandler demo_three (device_interrupt demo_three v).
Proof.
  destruct demo_three_inv as [v N]. exists v. exact (nonTimer_spec demo_three v N demo_three_saved).
Defined.
