(* ===== verification/SchedProps.v ===== *)
(** * What the scheduler and the shared helpers promise *)
From S2P Require Export Fairness SystemProps TrapProps.

Section sched.
Context {m : Machine} {mok : MachineOk m}.
Implicit Types (s : kstate) (v : view).

(** C27: the scheduler, called without a current process, removes the first ready process, gives it a
    time slice, records the time and loads its state; with an empty ready queue it halts when no
    process is left, waits with the interrupts enabled and the processor timer out of the way when
    some process is soft-blocked, and panics otherwise (deadlock). *)
Theorem scheduler_spec s v :
  nucleus_inv s v -> currentProcess s = NULL ->
  stops scheduler s (fun e s' => exists v', nucleus_inv s' v' /\ dispatched v e v' s' /\ same_data s s').
Proof. apply scheduler_ok. Qed.

(** MoveStateHelper copies the whole processor state, word for word, and nothing else, into a
    pcb or a support structure or another saved state. *)
Theorem moveStateHelper_copies a d x s :
  states s !! a = Some x -> separate a d -> is_Some (state_get d s) ->
  exists s', moveStateHelper (SR_mem a) d s = Ret tt s' /\ state_get d s' = Some x /\
    s' = state_alter d (fun _ => x) s.
Proof.
  intros Ha Hs [y Hd]. eexists. rewrite (moveStateHelper_ok a d x s) by eauto. split; [done|].
  split; [|done]. by rewrite state_get_alter, Hd.
Qed.

(** Charging a process adds the elapsed time exactly, as long as the clock readings are signed
    32-bit values in order and the sum fits a [cpu_t]; in general it adds modulo 2^32. *)
Theorem charge_is_exact s p t start finish :
  fld p_time (pcbs s) p = Some t ->
  exists s', updateProcessTimeHelper p start finish s = Ret tt s' /\
    (exists t', fld p_time (pcbs s') p = Some t' /\ in_i32 t' /\ u32 t' = u32 (t + (finish - start)) /\
       (0 <= start <= finish -> finish < 2 ^ 31 -> 0 <= t -> t + (finish - start) < 2 ^ 31 ->
        t' = t + (finish - start))) /\
    (forall q, q <> p -> pcbs s' !! q = pcbs s !! q).
Proof.
  intros Ht. assert (is_Some (pcbs s !! p)) as Hp by (by eapply fld_is_Some).
  unfold updateProcessTimeHelper. rewrite upd_pcb_ok by done. eexists. split; [done|]. split.
  - exists (i32 (t + i32 (finish - start))). split_and!.
    + apply fmap_Some in Ht as (r & Hr & ->). unfold fld. cbn. by rewrite lookup_alter_eq, Hr.
    + apply i32_range.
    + rewrite u32_i32. unfold u32. rewrite <- Z.add_mod_idemp_r by lia. fold (u32 (i32 (finish - start))).
      rewrite u32_i32. unfold u32. by rewrite Z.add_mod_idemp_r by lia.
    + intros. rewrite (i32_small (finish - start)) by (unfold in_i32; lia). apply i32_small. unfold in_i32; lia.
  - intros q Hq. cbn. by rewrite lookup_alter_ne.
Qed.

End sched.

(** ** Round robin *)
Section round_robin.
Context {m : Machine} {mok : MachineOk m}.
Implicit Types (s : kstate) (v : view).

(** Some code runs, then its time slice ends and the nucleus serves the interrupt. *)
Definition plt_step s s' : Prop :=
  exists s1 e, outside s s1 /\ exec_code (bios_cause s1) = 0 /\ line1 s1 = true /\ exceptionHandler s1 = Stop e s'.

Lemma plt_stops s v :
  nucleus_inv s v -> currentProcess s <> NULL -> exec_code (bios_cause s) = 0 -> line1 s = true ->
  stops exceptionHandler s (fun e s' => exists v',
    nucleus_inv s' v' /\ dispatched (with_ready (v_ready v ++ [currentProcess s]) v) e v' s').
Proof.
  intros N Hc He H1. eapply exceptionHandler_select; [done|]. rewrite He.
  apply exception_switch_select; [lia| |lia..]. intros _.
  destruct (interruptTrapHandler_select s v N) as [N1 Hsel]. apply Hsel. rewrite H1.
  eapply stops_mono; [|by apply (PLTInterruptHandler_ok _ v)]. intros e s' (v' & N' & Hd & _). by exists v'.
Qed.

Lemma plt_step_ok s s' v :
  nucleus_inv s v -> currentProcess s <> NULL -> plt_step s s' ->
  exists v', nucleus_inv s' v' /\ currentProcess s' <> NULL /\
    currentProcess s' :: v_ready v' = v_ready v ++ [currentProcess s].
Proof.
  intros N Hc (s1 & e & Ho & He & H1 & Hr).
  assert (currentProcess s1 = currentProcess s) as Ec by apply (outside_globals _ _ Ho).
  rewrite <- Ec in Hc |- *. destruct (wp_elim_stops _ _ _ (plt_stops s1 v (outside_inv _ _ _ Ho N) Hc He H1))
    as (e' & s2 & Hr' & v' & N' & Hd). rewrite Hr in Hr'. injection Hr' as <- <-. exists v'. split; [done|].
  assert (currentProcess s' <> NULL /\ currentProcess s' :: v_ready v' = v_ready v ++ [currentProcess s1]) as []; [|done].
  pose proof (inv_live_NULL _ _ _ (nucleus_kernel _ _ (outside_inv _ _ _ Ho N))) as Hnull.
  unfold dispatched, live in *. rewrite running_some, !not_elem_of_app, list_elem_of_singleton in Hnull by done. cbn in Hd.
  destruct (v_ready v) as [|x l] eqn:El; cbn in Hd.
  - destruct Hd as (_ & -> & -> & _). cbn. split; [|done]. tauto.
  - destruct Hd as (_ & -> & -> & _). cbn. split; [|done]. rewrite not_elem_of_cons in Hnull. intuition.
Qed.

(** C23: round robin: when only time slices end, the process at position k of the ready queue runs after
    exactly k + 1 slices, whatever the processes do meanwhile: no ready process starves. *)
Theorem round_robin k s s' v p :
  nucleus_inv s v -> currentProcess s <> NULL -> v_ready v !! k = Some p ->
  nsteps plt_step (S k) s s' -> currentProcess s' = p.
Proof.
  revert s v. induction k as [|k IH]; intros s v N Hc Hp Hs; inversion Hs as [|? ? s1 ? H1 H2]; subst.
  - inversion H2; subst. destruct (plt_step_ok _ _ _ N Hc H1) as (v' & _ & _ & E).
    destruct (v_ready v) as [|x l]; [done|]. cbn in E, Hp. congruence.
  - destruct (plt_step_ok _ _ _ N Hc H1) as (v' & N' & Hc' & E). eapply (IH s1 v'); [done..| |done].
    destruct (v_ready v) as [|x l]; [done|]. cbn in E, Hp. injection E as _ ->.
    rewrite lookup_app_l; [done|]. by eapply lookup_lt_Some.
Qed.

(** C9: no starvation: while a process stands in the ready queue, or in the queue of a semaphore,
    through any run of exceptions, nobody gets ahead of it, and the line moves at most as many times as
    there were processes ahead at the start ([n] counts the changes of the running process, or the signals
    of the semaphore: a V that finds somebody waiting, or the interrupt).  While it is ready
    the processor is never idle, and every time slice that ends is such a change: it runs
    (or is killed) before more slices end than there were processes ahead. *)
Theorem no_starvation w p e s rs n e' s' l1 l2 :
  reachable e s -> line_of w s = l1 ++ p :: l2 -> stands w p e s rs n e' s' ->
  (exists l1' l2', line_of w s' = l1' ++ p :: l2' /\ l1' `sublist_of` l1 /\ (length l1' + n <= length l1)%nat) /\
  (w = LReady -> leave_of e' = LRun /\ (slices rs <= n)%nat).
Proof.
  intros Hr Hl Hs. split; [exact (stands_forward _ _ _ _ _ _ _ _ Hr Hs l1 l2 Hl)|]. intros ->.
  assert (p ∈ ready_of s) as Hp by (cbn in Hl; rewrite Hl, elem_of_app; right; left). split.
  - eapply ready_runs; [by eapply stretch_reachable|exact (stands_in LReady _ _ _ _ _ _ _ Hp Hs)].
  - by eapply stands_slices.
Qed.
End round_robin.

(** ** The concrete machine *)
Definition demo_idle : kstate :=
  match blockCurrentProcessHelper demo_sem demo_three with Ret _ s => s | _ => demo_image end.

Lemma demo_idle_inv : exists v, nucleus_inv demo_idle v /\ currentProcess demo_idle = NULL.
Proof.
  destruct demo_three_inv as [v N].
  destruct (block_current_ok demo_three v demo_sem N demo_three_running demo_sem_key) as (s' & L' & fs' & E & N' & Hc & _);
    [vm_compute; eauto|]. unfold demo_idle. rewrite E. eauto.
Qed.

Lemma scheduler_spec_witness : exists v,
  stops scheduler demo_idle (fun e s' => exists v', nucleus_inv s' v' /\ dispatched v e v' s' /\ same_data demo_idle s').
Proof. destruct demo_idle_inv as (v & N & Hc). exists v. exact (scheduler_spec demo_idle v N Hc). Defined.

Lemma moveStateHelper_copies_witness : exists s',
  moveStateHelper (SR_mem BIOSDATAPAGE) (SR_pcb proc2) demo_three = Ret tt s' /\
  state_get (SR_pcb proc2) s' = Some (bios_state demo_three) /\
  s' = state_alter (SR_pcb proc2) (fun _ => bios_state demo_three) demo_three.
Proof. apply moveStateHelper_copies; [vm_compute; reflexivity|exact I|vm_compute; eauto]. Defined.

Lemma charge_is_exact_witness : exists s', updateProcessTimeHelper proc1 500 1500 demo_three = Ret tt s' /\
  (exists t', fld p_time (pcbs s') proc1 = Some t' /\ in_i32 t' /\ u32 t' = u32 (demo_time + (1500 - 500)) /\
     (0 <= 500 <= 1500 -> 1500 < 2 ^ 31 -> 0 <= demo_time -> demo_time + (1500 - 500) < 2 ^ 31 ->
      t' = demo_time + (1500 - 500))) /\
  (forall q, q <> proc1 -> pcbs s' !! q = pcbs demo_three !! q).
Proof. apply charge_is_exact. vm_compute. reflexivity. Defined.


(** Two slices: the processes 2 and 3 were ready, the third runs. *)
Lemma slice_step s : is_stop (exceptionHandler (demo_slice s)) = true -> line1 (demo_slice s) = true ->
  exec_code (bios_cause (demo_slice s)) = 0 -> plt_step s (final (exceptionHandler (demo_slice s))).
Proof.
  intros [e E]%is_stop_final H1 H0. exists (demo_slice s), e. split_and!; [apply raise_outside|done..].
Qed.

Lemma round_robin_witness : currentProcess demo_tick2 = proc3.
Proof.
  destruct demo_three_inv as [v N]. apply (round_robin 1 demo_three demo_tick2 v proc3 N demo_three_running).
  - rewrite (proj1 (proj2 (readback _ _ _ (nucleus_kernel _ _ N)))). vm_compute. reflexivity.
  - apply (nsteps_l _ _ _ demo_tick); [apply slice_step; vm_compute; reflexivity|].
    apply (nsteps_l _ _ _ demo_tick2); [apply slice_step; vm_compute; reflexivity|]. constructor.
Defined.

(** The second and the third process are ready; when a slice ends the third one is the first. *)
Lemma no_starvation_witness : exists l2, ready_of demo_tick = proc3 :: l2.
Proof.
  destruct demo_three_reachable as [st Hr].
  destruct (is_stop_final (exceptionHandler (demo_slice demo_three))) as [e E]; [vm_compute; reflexivity|].
  destruct (no_starvation LReady proc3 (Ldst st) demo_three ([] ++ [exception_request (demo_slice demo_three)])
    (0 + if moves LReady (demo_slice demo_three) demo_tick then 1 else 0) e demo_tick [proc2] [] Hr) as [(l1 & l2 & El & _ & Hn) _].
  - vm_compute. reflexivity.
  - apply (stands_next _ _ _ _ _ _ (Ldst st) demo_three); [apply stretch_here|discriminate|discriminate|apply raise_outside|demo_trap|exact E|].
    apply list_elem_of_In. vm_compute. tauto.
  - assert (moves LReady (demo_slice demo_three) demo_tick = true) as Hm by (vm_compute; reflexivity).
    exists l2. rewrite Hm in Hn. destruct l1 as [|x l1]; [exact El|]. cbn in Hn. lia.
Defined.
