(* ===== verification/UserCode.v ===== *)
(** * User code

    The programs that run on the nucleus, as interaction trees over what a process does to the
    machine: system calls, loads and stores, the instructions that move whole processor states or
    write the TLB, readings of the clock, and empty loops, which only take time. *)
From S2P Require Export Types.
From ITree Require Import ITree.
From Stdlib Require Import String Ascii.

Inductive userE : Type -> Type :=
| Syscall (a0 a1 a2 a3 : Z) : userE Z
| Load (a : Z) : userE Z
| Store (a v : Z) : userE unit
| LoadState (a : Z) : userE state_t
| StoreState (a : Z) (st : state_t) : userE unit
| LoadSupport (a : Z) : userE support_t
| StoreSupport (a : Z) (sup : support_t) : userE unit
| ReadClock : userE Z
| GetProcessorState : userE state_t
| SetProcessorState (st : state_t) : userE void
| SetEntryHI (v : Z) : userE unit
| SetEntryLO (v : Z) : userE unit
| WriteTLB : userE unit
| Loop (turns : nat) : userE unit
| CallPanic : userE void.

Abbreviation user := (itree userE).

Declare Scope user_scope.
Delimit Scope user_scope with user.
Notation "'do' x <- c ; k" := (ITree.bind c (fun x => k))
  (at level 10, x name, c at level 100, k at level 200) : user_scope.
Notation "'do!' c ; k" := (ITree.bind c (fun _ => k))
  (at level 10, c at level 100, k at level 200) : user_scope.
Open Scope user_scope.

(** The calls of libumps, and accesses to memory. *)
Definition SYSCALL (a0 a1 a2 a3 : Z) : user Z := ITree.trigger (Syscall a0 a1 a2 a3).
Definition load (a : Z) : user Z := ITree.trigger (Load a).
Definition store (a v : Z) : user unit := ITree.trigger (Store a v).
Definition user_STCK : user Z := ITree.trigger ReadClock.
Definition empty_loop (turns : nat) : user unit := ITree.trigger (Loop turns).
Definition STST (a : Z) : user unit :=
  do st <- ITree.trigger GetProcessorState; ITree.trigger (StoreState a st).
Definition user_LDST {A} (st : state_t) : user A :=
  do x <- ITree.trigger (SetProcessorState st); match x : void with end.
Definition setENTRYHI (v : Z) : user unit := ITree.trigger (SetEntryHI v).
Definition setENTRYLO (v : Z) : user unit := ITree.trigger (SetEntryLO v).
Definition TLBWR : user unit := ITree.trigger WriteTLB.
Definition user_PANIC {A} : user A :=
  do x <- ITree.trigger CallPanic; match x : void with end.

(** Fields of a processor state and of a support structure in memory. *)
Definition get_field {A} (f : state_t -> A) (a : Z) : user A :=
  do st <- ITree.trigger (LoadState a); Ret (f st).
Definition set_field (f : state_t -> state_t) (a : Z) : user unit :=
  do st <- ITree.trigger (LoadState a); ITree.trigger (StoreState a (f st)).
Definition get_sup {A} (f : support_t -> A) (a : Z) : user A :=
  do u <- ITree.trigger (LoadSupport a); Ret (f u).
Definition set_sup (f : support_t -> support_t) (a : Z) : user unit :=
  do u <- ITree.trigger (LoadSupport a); ITree.trigger (StoreSupport a (f u)).

Definition set_c_stackPtr (v : Z) (c : context_t) : context_t := MkContext v (c_status c) (c_pc c).
Definition set_c_status (v : Z) (c : context_t) : context_t := MkContext (c_stackPtr c) v (c_pc c).
Definition set_c_pc (v : Z) (c : context_t) : context_t := MkContext (c_stackPtr c) (c_status c) v.

(** One of the two exception states, one of the two contexts. *)
Definition set_exceptState (i : fin 2) (f : state_t -> state_t) (u : support_t) : support_t :=
  set_sup_exceptState (vinsert i (f (sup_exceptState u !!! i)) (sup_exceptState u)) u.
Definition set_exceptContext (i : fin 2) (f : context_t -> context_t) (u : support_t) : support_t :=
  MkSupport (sup_asid u) (sup_exceptState u) (vinsert i (f (sup_exceptContext u !!! i)) (sup_exceptContext u)).

(** [while (c) { body }] for a condition on what the last turn left. *)
Definition while {S} (c : S -> bool) (body : S -> user S) (s : S) : user S :=
  ITree.iter (fun s => if c s then do s' <- body s; Ret (inl s') else Ret (inr s)) s.

(** [while (c) { body }] for a condition on memory. *)
Definition while_mem (c : user bool) (body : user unit) : user unit :=
  ITree.iter (fun _ => do b <- c; if b : bool then do! body; Ret (inl tt) else Ret (inr tt)) tt.

(** [for] over the values of its counter. *)
Fixpoint for_list {I} (l : list I) (body : I -> user unit) : user unit :=
  match l with
  | [] => Ret tt
  | i :: l => do! body i; for_list l body
  end.

(** The characters of a string, which ends with EOS. *)
Fixpoint chars (s : string) : list Z :=
  match s with
  | EmptyString => []
  | String c s => Z.of_nat (nat_of_ascii c) :: chars s
  end.
