(* ===== verification/Processor.v ===== *)
(** * The processor

    User code and the nucleus on one machine.  The processor runs the code of the current process
    step by step; an exception stores its state in the BIOS data page and runs [exceptionHandler];
    what the nucleus loads tells the code that goes on.  The saved program counter stands for the
    rest of the interrupted code: it is a fresh number that names a continuation. *)
From S2P Require Export Simulation UserCode.
From ITree Require Import ITree.

(** What the hardware decides: the exception code of an access where no memory is; how many clock
    readings an empty loop takes; the reading at which the interval timer expires next; how many
    steps a terminal transmits; after which steps the processor timer fires. *)
Class Hardware : Type := {
  bus_error : Z;
  loop_time : nat -> nat;
  next_tick : nat -> nat;
  latency : nat;
  slice_ends : nat -> bool
}.

Inductive mode : Type :=
| Running (t : user unit)
| Trapped (code pc : Z)
| Idle
| Halted
| Panicked
| Crashed.

(** The nucleus and its memory, what the processor does, its registers (with the current status),
    the continuations, the number of the next one, the steps so far, the step at which the
    transmitter of terminal 0 is done, what it has transmitted, last character first, and the TLB:
    the EntryLo of each page it maps, and the EntryLo register. *)
Record machine : Type := MkMachine {
  ms_k : kstate;
  ms_mode : mode;
  ms_cpu : state_t;
  ms_conts : gmap Z (Z -> user unit);
  ms_next : Z;
  ms_clock : nat;
  ms_busy : option nat;
  ms_out : list Z;
  ms_tlb : gmap Z Z;
  ms_entrylo : Z
}.

Definition set_ms_k (k : kstate) (M : machine) : machine :=
  MkMachine k (ms_mode M) (ms_cpu M) (ms_conts M) (ms_next M) (ms_clock M) (ms_busy M) (ms_out M)
    (ms_tlb M) (ms_entrylo M).
Definition set_ms_mode (c : mode) (M : machine) : machine :=
  MkMachine (ms_k M) c (ms_cpu M) (ms_conts M) (ms_next M) (ms_clock M) (ms_busy M) (ms_out M)
    (ms_tlb M) (ms_entrylo M).
Definition set_ms_cpu (st : state_t) (M : machine) : machine :=
  MkMachine (ms_k M) (ms_mode M) st (ms_conts M) (ms_next M) (ms_clock M) (ms_busy M) (ms_out M)
    (ms_tlb M) (ms_entrylo M).
Definition set_ms_term (busy : option nat) (out : list Z) (M : machine) : machine :=
  MkMachine (ms_k M) (ms_mode M) (ms_cpu M) (ms_conts M) (ms_next M) (ms_clock M) busy out
    (ms_tlb M) (ms_entrylo M).
Definition set_ms_tlb (tlb : gmap Z Z) (lo : Z) (M : machine) : machine :=
  MkMachine (ms_k M) (ms_mode M) (ms_cpu M) (ms_conts M) (ms_next M) (ms_clock M) (ms_busy M) (ms_out M) tlb lo.
Definition ms_tick (M : machine) : machine :=
  MkMachine (ms_k M) (ms_mode M) (ms_cpu M) (ms_conts M) (ms_next M) (S (ms_clock M)) (ms_busy M) (ms_out M)
    (ms_tlb M) (ms_entrylo M).

(** A fresh program counter for [c]; the nucleus resumes a system call at the next instruction, and
    code that skips one more finds the nop after it. *)
Definition save_cont (c : Z -> user unit) (M : machine) : machine :=
  let pc := ms_next M in
  MkMachine (ms_k M) (ms_mode M) (ms_cpu M)
    (<[pc := c]> (<[pc + WORDLEN := c]> (<[pc + 2 * WORDLEN := c]> (ms_conts M))))
    (pc + 4 * WORDLEN) (ms_clock M) (ms_busy M) (ms_out M)
    (ms_tlb M) (ms_entrylo M).

(** The stack of mode and interrupt-enable bits in the status register. *)
Definition push_status (st : Z) : Z :=
  Z.lor (Z.land st (Z.lnot 0x3F)) (Z.land (Z.shiftl st 2) 0x3C).
Definition pop_status (st : Z) : Z :=
  Z.lor (Z.land st (Z.lnot 0xF)) (Z.land (Z.shiftr st 2) 0xF).
Definition KUC : Z := 2.
Definition KUSEG : Z := 0x80000000.
Definition in_user_mode (M : machine) : bool := negb (Z.land (s_status (ms_cpu M)) KUC =? 0).
(** Interrupts are on, and line [line] is not masked. *)
Definition accepts (status line : Z) : bool := Z.testbit status 0 && Z.testbit status (8 + line).

Definition IP (line : Z) : Z := Z.shiftl 1 (8 + line).
Definition TERM0 : nat := 32.
Definition TERM0_bit : Z := 1.

Definition upd_term0 (f : device_t -> device_t) (bitmap : Z) (s : kstate) : kstate :=
  let b := bus s in
  let d : vec device_t (DEVINTNUM * DEVPERINT) :=
    match Fin.of_nat TERM0 (DEVINTNUM * DEVPERINT) with
    | inleft i => vinsert i (f (devreg b !!! i)) (devreg b)
    | inright _ => devreg b
    end in
  let line7 : fin DEVINTNUM := 4%fin in
  set_bus (set_interrupt_dev (vinsert line7 bitmap (interrupt_dev b)) (set_devreg d b)) s.
Definition set_transm_status (z : Z) (d : device_t) : device_t :=
  MkDevice (d_status d) (d_command d) z (d_data1 d).

(** The nucleus has acknowledged the transmitter: it is ready again. *)
Definition term0 (s : kstate) : device_t := default (MkDevice 0 0 0 0) (vec_to_list (devreg (bus s)) !! TERM0).
Definition acknowledged (s : kstate) : kstate :=
  if d_data1 (term0 s) =? ACK then upd_term0 (fun d => set_transm_status READY (set_t_transm_command RESET d)) 0 s
  else s.

Section processor.
Context {m : Machine} {hw : Hardware} (code_at : Z -> option (user unit)).

(** Execution goes on at [pc], with [v0] in that register. *)
Definition goto (pc v0 : Z) (M : machine) : machine :=
  if in_user_mode M && (pc <? KUSEG) then set_ms_mode (Trapped 4 pc) M
  else match ms_conts M !! pc with
       | Some c => set_ms_mode (Running (c v0)) M
       | None => match code_at pc with
                 | Some t => set_ms_mode (Running t) M
                 | None => set_ms_mode Crashed M
                 end
       end.

Definition load_processor (st : state_t) (M : machine) : machine :=
  goto (s_pc st) (s_reg st !!! s_v0) (set_ms_cpu (set_s_status (pop_status (s_status st)) st) M).

(** The nucleus gives up the processor. *)
Definition resume (e : exit_event) (M : machine) : machine :=
  match e with
  | Ldst st => load_processor st M
  | Ldcxt sp status pc => load_processor (set_s_status status (set_s_pc pc (set_reg s_sp sp (ms_cpu M)))) M
  | Halt => set_ms_mode Halted M
  | Panic => set_ms_mode Panicked M
  | Wait => set_ms_mode Idle M
  end.

(** The hardware saves the processor state and the nucleus serves the exception. *)
Definition trap_state (cause pc : Z) (st : state_t) : state_t :=
  set_s_cause cause (set_s_pc pc (set_s_status (push_status (s_status st)) st)).
Definition saved (st : state_t) (s : kstate) : kstate := set_states (<[BIOSDATAPAGE := st]> (states s)) s.

Definition serve (M : machine) : machine :=
  if admissible_b (ms_k M) then
    match exceptionHandler (ms_k M) with
    | Stop e s' => resume e (set_ms_k (acknowledged s') M)
    | _ => set_ms_mode Crashed M
    end
  else set_ms_mode Crashed M.

Definition raise (cause pc : Z) (regs : state_t) (M : machine) : machine :=
  serve (set_ms_k (saved (trap_state cause pc regs) (ms_k M)) M).

(** An interrupt on [line] while [c] would go on. *)
Definition interrupt (line : Z) (c : Z -> user unit) (M : machine) : machine :=
  raise (IP line) (ms_next M) (ms_cpu M) (save_cont c M).

(** The transmitter is done. *)
Definition term_interrupt (c : Z -> user unit) (M : machine) : machine :=
  interrupt 7 c (set_ms_term None (ms_out M) (set_ms_k (upd_term0 (set_transm_status 5) TERM0_bit (ms_k M)) M)).

Definition clock_interrupt (c : Z -> user unit) (M : machine) : machine :=
  interrupt 2 c (set_ms_k (set_tod_reads (next_tick (tod_reads (ms_k M))) (ms_k M)) M).

(** ** Memory *)
Definition term0_register (field : Z) : Z := 0x10000054 + Z.of_nat TERM0 * 16 + field * WORDLEN.
Definition timescale_register : Z := 0x10000024.

(** What becomes of an access: it reaches a word, it raises an exception, or its page is not in the
    TLB. *)
Inductive access : Type :=
| Reaches
| Raises (code : Z)
| Refill.

Definition VPN (a : Z) : Z := Z.shiftr a 12.
Definition TLB_VALID : Z := 0x200.

(** Pages of kuseg are mapped by the TLB; no page is mapped to memory here. *)
Definition access_to (write : bool) (a : Z) (M : machine) : access :=
  if negb (a mod WORDLEN =? 0) || (in_user_mode M && (a <? KUSEG)) then Raises (if write then 5 else 4)
  else if KUSEG <=? a then
    match ms_tlb M !! VPN a with
    | Some lo => if Z.land lo TLB_VALID =? 0 then Raises (if write then 3 else 2) else Raises bus_error
    | None => Refill
    end
  else if bool_decide (is_Some (ints (ms_k M) !! a)) || (a =? term0_register 3) || (a =? timescale_register)
  then Reaches
  else Raises bus_error.

(** The instruction is the first of [t], and the exception comes before it. *)
Definition fault (code : Z) (t : user unit) (M : machine) : machine :=
  raise (Z.shiftl code EXC_CODE_SHIFT) (ms_next M) (ms_cpu M) (save_cont (fun _ => t) M).

(** The hardware hands a TLB refill to the handler of the pass-up vector. *)
Definition refill (write : bool) (t : user unit) (M : machine) : machine :=
  let st := trap_state (Z.shiftl (if write then 3 else 2) EXC_CODE_SHIFT) (ms_next M) (ms_cpu M) in
  goto (tlb_refll_handler (passup (ms_k M))) 0
    (set_ms_cpu (set_s_status (push_status (s_status (ms_cpu M))) (ms_cpu M))
      (set_ms_k (saved st (ms_k M)) (save_cont (fun _ => t) M))).

Definition read_word (a : Z) (M : machine) : Z :=
  if a =? timescale_register then timescale (bus (ms_k M))
  else if a =? term0_register 3 then d_data1 (term0 (ms_k M))
  else default 0 (ints (ms_k M) !! a).

(** A write to the transmitter command register of terminal 0 starts a transmission; the words of
    the nucleus are not for user code. *)
Definition write_word (a v : Z) (k : user unit) (M : machine) : machine :=
  if a =? term0_register 3 then
    match ms_busy M with
    | Some _ => set_ms_mode Crashed M
    | None =>
        set_ms_mode (Running k) (set_ms_term (Some (ms_clock M + latency)%nat) (Z.shiftr v 8 :: ms_out M)
          (set_ms_k (upd_term0 (fun d => set_transm_status BUSY (set_t_transm_command v d)) 0 (ms_k M)) M))
    end
  else if is_device_sem a || (a =? timescale_register) then set_ms_mode Crashed M
  else set_ms_mode (Running k) (set_ms_k (set_ints (<[a := v]> (ints (ms_k M))) (ms_k M)) M).

(** ** Steps *)

(** An instruction that user mode may not execute. *)
Definition kernel_only (M M' : machine) : machine := if in_user_mode M then set_ms_mode Crashed M else M'.

Definition syscall (a0 a1 a2 a3 : Z) (k : Z -> user unit) (M : machine) : machine :=
  raise (Z.shiftl 8 EXC_CODE_SHIFT) (ms_next M)
    (set_reg s_a0 a0 (set_reg s_a1 a1 (set_reg s_a2 a2 (set_reg s_a3 a3 (ms_cpu M))))) (save_cont k M).

Definition execute {A} (e : userE A) (t : user unit) (M : machine) : (A -> user unit) -> machine :=
  let on (o : option (user unit)) (M : machine) :=
    match o with Some t => set_ms_mode (Running t) M | None => set_ms_mode Crashed M end in
  match e in userE A return (A -> user unit) -> machine with
  | Syscall a0 a1 a2 a3 => fun k => syscall a0 a1 a2 a3 k M
  | Load a => fun k =>
      match access_to false a M with
      | Reaches => set_ms_mode (Running (k (read_word a M))) M
      | Raises code => fault code t M
      | Refill => refill false t M
      end
  | Store a v => fun k =>
      match access_to true a M with
      | Reaches => write_word a v (k tt) M
      | Raises code => fault code t M
      | Refill => refill true t M
      end
  | LoadState a => fun k => on (k <$> states (ms_k M) !! a) M
  | StoreState a st => fun k =>
      on (if bool_decide (is_Some (states (ms_k M) !! a)) then Some (k tt) else None)
         (set_ms_k (set_states (<[a := st]> (states (ms_k M))) (ms_k M)) M)
  | LoadSupport a => fun k => on (k <$> supports (ms_k M) !! a) M
  | StoreSupport a sup => fun k =>
      on (if bool_decide (is_Some (supports (ms_k M) !! a)) then Some (k tt) else None)
         (set_ms_k (set_supports (<[a := sup]> (supports (ms_k M))) (ms_k M)) M)
  | ReadClock => fun k =>
      set_ms_mode (Running (k (tod (ms_k M)))) (set_ms_k (tick (ms_k M)) M)
  | GetProcessorState => fun k => set_ms_mode (Running (k (ms_cpu M))) M
  | SetProcessorState st => fun _ => kernel_only M (load_processor st M)
  | SetEntryHI v => fun k => kernel_only M (set_ms_mode (Running (k tt)) (set_ms_cpu (set_s_entryHI v (ms_cpu M)) M))
  | SetEntryLO v => fun k => kernel_only M (set_ms_mode (Running (k tt)) (set_ms_tlb (ms_tlb M) v M))
  | WriteTLB => fun k =>
      kernel_only M (set_ms_mode (Running (k tt))
        (set_ms_tlb (<[VPN (s_entryHI (ms_cpu M)) := ms_entrylo M]> (ms_tlb M)) (ms_entrylo M) M))
  | Loop n => fun k =>
      set_ms_mode (Running (k tt)) (set_ms_k (set_tod_reads (tod_reads (ms_k M) + loop_time n) (ms_k M)) M)
  | CallPanic => fun _ => set_ms_mode Panicked M
  end.

Definition run_step (t : user unit) (M : machine) : machine :=
  match observe t with
  | RetF _ => set_ms_mode Crashed M
  | TauF t' => set_ms_mode (Running t') M
  | VisF e k => execute e t M k
  end.

(** The transmitter is done by now. *)
Definition term_due (M : machine) : bool :=
  match ms_busy M with Some n => (n <=? ms_clock M)%nat | None => false end.

Definition step (M0 : machine) : machine :=
  let M := ms_tick M0 in
  let status := s_status (ms_cpu M) in
  match ms_mode M with
  | Running t =>
      if slice_ends (ms_clock M) && accepts status 1 then interrupt 1 (fun _ => t) M
      else if term_due M && accepts status 7 then term_interrupt (fun _ => t) M
      else run_step t M
  | Trapped code pc => raise (Z.shiftl code EXC_CODE_SHIFT) pc (ms_cpu M) M
  | Idle =>
      match ms_busy M with
      | Some _ => if accepts (cp0_status (ms_k M)) 7 then term_interrupt (fun _ => ITree.spin) M else set_ms_mode Crashed M
      | None => if accepts (cp0_status (ms_k M)) 2 then clock_interrupt (fun _ => ITree.spin) M else set_ms_mode Crashed M
      end
  | Halted | Panicked | Crashed => M0
  end.

Fixpoint run (fuel : nat) (M : machine) : machine :=
  match fuel with O => M | S fuel => run fuel (step M) end.

(** The machine after [main], from the image [s]. *)
Definition power_on (s : kstate) : machine :=
  let M k c := MkMachine k c zero_state ∅ 0x30000000 0 None [] ∅ 0 in
  match main s with
  | Stop e s' => resume e (M s' Crashed)
  | _ => M s Crashed
  end.
End processor.
