(* ===== verification/ProcessorSpec.v ===== *)
(** * Whatever user code does, the machine runs the nucleus

    Between two exceptions the steps of the processor only do what [outside] allows, and every
    exception they raise is admissible or stops the machine: the states of the machine are states
    of the running system. *)
From S2P Require Export Processor.

(** Code is being executed, or waited for. *)
Definition active (c : mode) : Prop :=
  match c with Running _ | Trapped _ _ | Idle => True | _ => False end.

Section processor.
Context {m : Machine} {mok : MachineOk m} {hw : Hardware} (code_at : Z -> option (user unit)).
Implicit Types (M : machine) (s : kstate) (t : user unit).

(** The nucleus has given up the processor, and the code since then kept out of its variables. *)
Definition underway M : Prop :=
  exists rs e s, runs rs e s /\ e <> Halt /\ e <> Panic /\ outside s (ms_k M).

(** Unless the code did something that is not modelled, the machine is in a run of the nucleus; it
    halts when the nucleus does. *)
Definition on_nucleus M : Prop :=
  match ms_mode M with
  | Crashed => True
  | Halted => exists rs s, runs rs Halt s /\ outside s (ms_k M)
  | Panicked => exists rs e s, runs rs e s /\ outside s (ms_k M)
  | _ => underway M
  end.

(** * Lemmas *)
Lemma outside_refl s : outside s s.
Proof. by split. Qed.

Lemma outside_trans s1 s2 s3 : outside s1 s2 -> outside s2 s3 -> outside s1 s3.
Proof.
  intros [[] (? & ? & ?) (? & ? & ? & ? & ? & ?) ? Hd ? ?] [[] (? & ? & ?) (? & ? & ? & ? & ? & ?) ? Hd' ? ?].
  split; [split; congruence|split_and!; congruence|split_and!; congruence|eauto| |eauto|eauto].
  intros i Hi. by rewrite Hd', Hd.
Qed.

(** What user code and the devices do to the memory *)
Lemma outside_bus b s : outside s (set_bus b s).
Proof. by split. Qed.

Lemma outside_time n s : outside s (set_tod_reads n s).
Proof. by split. Qed.

Lemma outside_tick s : outside s (tick s).
Proof. by split. Qed.

Lemma outside_term f b s : outside s (upd_term0 f b s).
Proof. apply outside_bus. Qed.

Lemma outside_acknowledged s : outside s (acknowledged s).
Proof. unfold acknowledged. destruct (_ =? _); [apply outside_term|apply outside_refl]. Qed.

Lemma insert_is_Some {A} (h : gmap Z A) a b x : is_Some (h !! b) -> is_Some (<[a := x]> h !! b).
Proof. intros H. by apply lookup_insert_is_Some'; right. Qed.

Lemma outside_states a st s : outside s (set_states (<[a := st]> (states s)) s).
Proof. split; try done. apply insert_is_Some. Qed.

Lemma outside_supports a u s : outside s (set_supports (<[a := u]> (supports s)) s).
Proof. split; try done. intros b. apply insert_is_Some. Qed.

Lemma outside_word a v s : is_device_sem a = false -> outside s (set_ints (<[a := v]> (ints s)) s).
Proof.
  intros Ha. split; try done; [intros b; apply insert_is_Some|].
  intros i Hi. cbn. rewrite lookup_insert_ne; [done|]. intros ->. by rewrite device_sem_addr in Ha.
Qed.

Create HintDb outside.
#[local] Hint Resolve outside_refl outside_bus outside_time outside_tick outside_term outside_acknowledged
  outside_states outside_supports outside_word : outside.

Lemma underway_outside M k : underway M -> outside (ms_k M) k -> underway (set_ms_k k M).
Proof.
  intros (rs & e & s & ? & ? & ? & ?) ?. exists rs, e, s. split_and!; try done. cbn. by eapply outside_trans.
Qed.

(** Only the memory counts. *)
Lemma underway_same M M' : underway M -> ms_k M' = ms_k M -> underway M'.
Proof. intros (rs & e & s & ? & ? & ? & ?) E. exists rs, e, s. by rewrite E. Qed.

Lemma active_on M : underway M -> active (ms_mode M) \/ ms_mode M = Crashed -> on_nucleus M.
Proof. unfold on_nucleus. intros H [Hm|E]; [by destruct (ms_mode M)|by rewrite E]. Qed.

Lemma on_set_mode M c : underway M -> active c \/ c = Crashed -> on_nucleus (set_ms_mode c M).
Proof. intros H Hc. apply active_on; [by eapply underway_same|done]. Qed.

Lemma on_running M t : underway M -> on_nucleus (set_ms_mode (Running t) M).
Proof. intros H. by apply on_set_mode; [|left]. Qed.

Lemma on_crashed M : on_nucleus (set_ms_mode Crashed M).
Proof. exact Logic.I. Qed.

Lemma goto_on pc v0 M : underway M -> on_nucleus (goto code_at pc v0 M).
Proof.
  intros H. unfold goto. repeat case_match; (apply on_set_mode; [done|]); (by left) || (by right).
Qed.

Lemma load_on st M : underway M -> on_nucleus (load_processor code_at st M).
Proof. intros H. apply goto_on. by eapply underway_same. Qed.

Lemma resume_on rs e s M :
  runs rs e s -> outside s (ms_k M) -> on_nucleus (resume code_at e M).
Proof.
  intros Hr Ho. assert (e <> Halt -> e <> Panic -> underway M) as Hb by (intros; by exists rs, e, s).
  destruct e; cbn [resume]; [apply load_on; by apply Hb|apply load_on; by apply Hb|by exists rs, s|by exists rs, Panic, s|].
  by apply on_set_mode; [apply Hb|left].
Qed.

Lemma serve_on M : underway M -> on_nucleus (serve code_at M).
Proof.
  intros (rs & e & s & Hr & ? & ? & Ho). unfold serve. destruct (admissible_b (ms_k M)) eqn:Ha; [|done].
  destruct (exceptionHandler (ms_k M)) as [|e' s'|] eqn:E; [done| |done].
  eapply resume_on; [|apply outside_acknowledged].
  eapply runs_exception; [exact Hr|done|done|exact Ho|by apply admissible_decide|exact E].
Qed.

Lemma raise_on cause pc st M : underway M -> on_nucleus (raise code_at cause pc st M).
Proof. intros H. apply serve_on, underway_outside; [done|]. apply outside_states. Qed.

Lemma interrupt_on line c M : underway M -> on_nucleus (interrupt code_at line c M).
Proof. intros H. apply raise_on. by eapply underway_same. Qed.

Lemma term_interrupt_on c M : underway M -> on_nucleus (term_interrupt code_at c M).
Proof.
  intros H. apply interrupt_on. eapply underway_same; [|reflexivity].
  apply (underway_outside M); [done|apply outside_term].
Qed.

Lemma clock_interrupt_on c M : underway M -> on_nucleus (clock_interrupt code_at c M).
Proof. intros H. apply interrupt_on, underway_outside; [done|apply outside_time]. Qed.

Lemma fault_on code t M : underway M -> on_nucleus (fault code_at code t M).
Proof. intros H. apply raise_on. by eapply underway_same. Qed.

Lemma kernel_only_on M M' : on_nucleus M' -> on_nucleus (kernel_only M M').
Proof. unfold kernel_only. by destruct (in_user_mode M). Qed.

Lemma refill_on w t M : underway M -> on_nucleus (refill code_at w t M).
Proof.
  intros H. apply goto_on. eapply underway_same; [|reflexivity].
  apply (underway_outside M); [done|apply outside_states].
Qed.

Lemma write_on a v t M : underway M -> on_nucleus (write_word a v t M).
Proof.
  intros H. unfold write_word. destruct (a =? term0_register 3).
  - destruct (ms_busy M); [done|]. apply on_running. eapply underway_same; [|reflexivity].
    apply (underway_outside M); [done|apply outside_term].
  - destruct (is_device_sem a) eqn:Ha; [done|]. destruct (a =? timescale_register); [done|]. cbn [orb].
    apply on_running, underway_outside; [done|by apply outside_word].
Qed.

Lemma execute_on {A} (e : userE A) t M k : underway M -> on_nucleus (execute code_at e t M k).
Proof.
  intros H. destruct e; cbn [execute].
  - apply raise_on. by eapply underway_same.
  - case_match; [by apply on_running|by apply fault_on|by apply refill_on].
  - case_match; [by apply write_on|by apply fault_on|by apply refill_on].
  - case_match; [by apply on_running|done].
  - case_match; [|done]. apply on_running, underway_outside; auto with outside.
  - case_match; [by apply on_running|done].
  - case_match; [|done]. apply on_running, underway_outside; auto with outside.
  - apply on_running, underway_outside; auto with outside.
  - by apply on_running.
  - by apply kernel_only_on, load_on.
  - apply kernel_only_on, on_running. by eapply underway_same.
  - apply kernel_only_on, on_running. by eapply underway_same.
  - apply kernel_only_on, on_running. by eapply underway_same.
  - apply on_running, underway_outside; auto with outside.
  - destruct H as (rs & e & s & ? & _ & _ & ?). by exists rs, e, s.
Qed.

Lemma step_on M : on_nucleus M -> on_nucleus (step code_at M).
Proof.
  intros H. unfold step. cbv zeta.
  assert (active (ms_mode M) -> underway (ms_tick M)) as Hb.
  { intros Ha. assert (underway M) as Hm by (unfold on_nucleus in H; by destruct (ms_mode M)). by eapply underway_same. }
  destruct (ms_mode (ms_tick M)) as [t|code pc| | | |] eqn:E; cbn in E; rewrite E in Hb; [..|done|done|done];
    specialize (Hb Logic.I).
  - case_match; [by apply interrupt_on|]. case_match; [by apply term_interrupt_on|].
    unfold run_step. case_match; [done|by apply on_running|by apply execute_on].
  - by apply raise_on.
  - repeat case_match; [by apply term_interrupt_on|done|by apply clock_interrupt_on|done].
Qed.

Lemma run_on n M : on_nucleus M -> on_nucleus (run code_at n M).
Proof. revert M. induction n as [|n IH]; intros M H; [done|]. apply IH, step_on, H. Qed.

Lemma power_on_on s : bootable s -> on_nucleus (power_on code_at s).
Proof.
  intros Hb. unfold power_on. destruct (main s) as [|e s'|] eqn:E; [done| |done].
  eapply resume_on; [by eapply runs_boot|apply outside_refl].
Qed.

Lemma run_add n k M : run code_at (n + k) M = run code_at k (run code_at n M).
Proof. revert M. induction n as [|n IH]; intros M; [done|]. apply IH. Qed.
End processor.
