(* ===== verification/P2test.v ===== *)
(** * The test program of phase 2: phase2/p2test.c

    The first process of the system and the processes it creates.  The globals of the program are
    words, processor states and a support structure in memory, at addresses the linker chose. *)
From S2P Require Export UserCode Exceptions.
From ITree Require Import ITree.
From Stdlib Require Import String Ascii.

Definition PRINTCHR : Z := 2.
Definition BYTELEN : Z := 8.
Definition RECVD : Z := 5.
Definition CLOCKINTERVAL : Z := 100000.
Definition TERMSTATMASK : Z := 0xFF.
Definition CAUSEMASK : Z := 0xFF.
Definition BUSERROR : Z := 6.
Definition RESVINSTR : Z := 10.
Definition ADDRERROR : Z := 4.
Definition SYSCALLEXCPT : Z := 8.
Definition QPAGE : Z := 1024.
Definition IEPBITON : Z := 0x4.
Definition KUPBITON : Z := 0x8.
Definition KUPBITOFF : Z := 0xFFFFFFF7.
Definition TEBITON : Z := 0x08000000.
Definition ON : Z := 1.
Definition OFF : Z := 0.
Definition CAUSEINTMASK : Z := 0xFD00.
Definition MINLOOPTIME : Z := 30000.
Definition LOOPNUM : Z := 10000.
Definition CLOCKLOOP : Z := 10.
Definition MINCLOCKLOOP : Z := 3000.
Definition BADADDR : Z := 0xFFFFFFFF.
Definition TERM0ADDR : Z := 0x10000254.
Definition TIMESCALEADDR : Z := 0x10000024.

Definition CREATETHREAD : Z := 1.
Definition TERMINATETHREAD : Z := 2.
Definition PASSERN : Z := 3.
Definition VERHOGEN : Z := 4.
Definition WAITIO : Z := 5.
Definition GETCPUTIME : Z := 6.
Definition WAITCLOCK : Z := 7.
Definition GETSPTPTR : Z := 8.
Definition CREATENOGOOD : Z := -1.
Definition NOLEAVES : Z := 4.
Definition MAXSEM : Z := 20.

(** Where the globals and the functions are. *)
Class P2Layout : Type := {
  term_mut : Z; s_base : Z; testsem : Z; startp2 : Z; endp2 : Z; endp3 : Z; blkp4 : Z; synp4 : Z;
  endp4 : Z; endp5 : Z; endp8 : Z; endcreate : Z; blkp8 : Z;
  p1p2synch : Z; p8inc : Z; p4inc : Z; p5Stack : Z; creation : Z; p5MemLocation : Z;
  p2state : Z; p3state : Z; p4state : Z; p5state : Z; p6state : Z; p7state : Z; p8rootstate : Z;
  child1state : Z; child2state : Z; gchild1state : Z; gchild2state : Z; gchild3state : Z;
  gchild4state : Z; pFiveSupport : Z;
  p2_at : Z; p3_at : Z; p4_at : Z; p5_at : Z; p5a_at : Z; p5b_at : Z; p5gen_at : Z; p5mm_at : Z;
  p6_at : Z; p7_at : Z; p8root_at : Z; child1_at : Z; child2_at : Z; p8leaf_at : Z
}.

Definition nl : string := String (ascii_of_nat 10) EmptyString.
(** A literal that ends in a newline. *)
Definition ln (s : string) : string := String.append s nl.
Arguments ln _%_string_scope.
Open Scope user_scope.

Section p2test.
Context {m : Machine} {layout : P2Layout}.

(** [&s[i]] *)
Definition s_at (i : Z) : Z := s_base + i * WORDLEN.

(** P and V *)
Definition P (sem : Z) : user unit := do! SYSCALL PASSERN (i32 sem) 0 0; Ret tt.
Definition V (sem : Z) : user unit := do! SYSCALL VERHOGEN (i32 sem) 0 0; Ret tt.
Definition create (state support : Z) : user Z := SYSCALL CREATETHREAD (i32 state) (i32 support) 0.
Definition terminate : user unit := do! SYSCALL TERMINATETHREAD 0 0 0; Ret tt.

Definition print (msg : string) : user unit :=
  do! P term_mut;
  do! for_list (chars msg) (fun c =>
    do! store (TERM0ADDR + 3 * WORDLEN) (Z.lor PRINTCHR (Z.shiftl c BYTELEN));
    do status <- SYSCALL WAITIO TERMINT 0 0;
    if negb (Z.land (u32 status) TERMSTATMASK =? RECVD) then user_PANIC else Ret tt);
  V term_mut.

(** The TLB-refill handler the pass-up vector names. *)
Definition uTLB_RefillHandler : user unit :=
  do! setENTRYHI 0x80000000;
  do! setENTRYLO 0x00000000;
  do! TLBWR;
  do st <- get_field (fun st => st) BIOSDATAPAGE;
  user_LDST st.

(** The set-up of one processor state: the processor's own, with the stack [pages] pages below
    that of [base], starting at [entry]. *)
Definition setup (state base pages entry : Z) : user unit :=
  do! STST state;
  do sp <- get_field (fun st => s_reg st !!! s_sp) base;
  do! set_field (set_reg s_sp (i32 (sp - pages * QPAGE))) state;
  do! set_field (set_reg s_t9 (i32 entry)) state;
  do! set_field (set_s_pc entry) state;
  set_field (fun st => set_s_status (Z.lor (Z.lor (Z.lor (s_status st) IEPBITON) CAUSEINTMASK) TEBITON) st) state.

(** The context of one of p5's trap handlers. *)
Definition setup_context (i : fin 2) (entry : Z) : user unit :=
  do sp <- load p5Stack;
  do! set_sup (set_exceptContext i (set_c_stackPtr (u32 sp))) pFiveSupport;
  do! set_sup (set_exceptContext i (set_c_status (Z.lor (Z.lor (Z.lor ALLOFF IEPBITON) CAUSEINTMASK) TEBITON)))
    pFiveSupport;
  set_sup (set_exceptContext i (set_c_pc entry)) pFiveSupport.

Definition test : user unit :=
  do! V testsem;
  do! print (ln "p1 v(testsem)");
  do! setup p2state p2state 1 p2_at;
  do! setup p3state p2state 1 p3_at;
  do! setup p4state p3state 1 p4_at;
  do! setup p5state p4state 2 p5_at;
  do sp5 <- get_field (fun st => s_reg st !!! s_sp) p5state;
  do! store p5Stack (u32 sp5);
  do! setup p6state p5state 2 p6_at;
  do! setup p7state p6state 1 p7_at;
  do! setup p8rootstate p7state 1 p8root_at;
  do! setup child1state p8rootstate 1 child1_at;
  do! setup child2state child1state 1 child2_at;
  do! setup gchild1state child2state 1 p8leaf_at;
  do! setup gchild2state gchild1state 1 p8leaf_at;
  do! setup gchild3state gchild2state 1 p8leaf_at;
  do! setup gchild4state gchild3state 1 p8leaf_at;
  do! create p2state NULL;
  do! print (ln "p2 was started");
  do! V startp2;
  do! P endp2;
  do synch <- load p1p2synch;
  do! (if synch =? 0 then print (ln "error: p1/p2 synchronization bad") else Ret tt);
  do! create p3state NULL;
  do! print (ln "p3 is started");
  do! P endp3;
  do! create p4state NULL;
  do! setup_context (except_ix GENERALEXCEPT) p5gen_at;
  do! setup_context (except_ix PGFAULTEXCEPT) p5mm_at;
  do! create p5state pFiveSupport;
  do! create p6state NULL;
  do! create p7state NULL;
  do! P endp5;
  do! print (ln "p1 knows p5 ended");
  do! P blkp4;
  do! store p8inc 0;
  do! while_mem (do i <- load p8inc; Ret (i <? 4))
    (do c <- create p8rootstate NULL;
     do! store creation c;
     do c <- load creation;
     do! (if c =? CREATENOGOOD then
            do! print (ln "error in process termination");
            user_PANIC
          else Ret tt);
     do! P endp8;
     do i <- load p8inc;
     store p8inc (i32 (i + 1)));
  do! print (ln "p1 finishes OK -- TTFN");
  do! store BADADDR 0;
  do! print (ln "error: p1 still alive after progtrap & no trap vector");
  user_PANIC.

Definition p2 : user unit :=
  do! P startp2;
  do! print (ln "p2 starts");
  do! for_list (seqZ 0 (MAXSEM + 1)) (fun i => store (s_at i) 0);
  do! for_list (seqZ 0 (MAXSEM + 1)) (fun i =>
    do! V (s_at i);
    do! P (s_at i);
    do v <- load (s_at i);
    if negb (v =? 0) then print (ln "error: p2 bad v/p pairs") else Ret tt);
  do! print (ln "p2 v's successfully");
  do now1 <- user_STCK;
  do cpu_t1 <- SYSCALL GETCPUTIME 0 0 0;
  do! empty_loop (Z.to_nat (LOOPNUM - 1));
  do cpu_t2 <- SYSCALL GETCPUTIME 0 0 0;
  do now2 <- user_STCK;
  do scale <- load TIMESCALEADDR;
  let real := i32 (now2 - now1) in
  let cpu := i32 (cpu_t2 - cpu_t1) in
  let least := Z.quot MINLOOPTIME (i32 scale) in
  do! (if (cpu <=? real) && (least <=? cpu) then print (ln "p2 is OK")
       else
         do! (if real <? cpu then print (ln "error: more cpu time than real time") else Ret tt);
         do! (if cpu <? least then print (ln "error: not enough cpu time went by") else Ret tt);
         print (ln "p2 blew it!"));
  do! store p1p2synch 1;
  do! V endp2;
  do! terminate;
  do! print (ln "error: p2 didn't terminate");
  user_PANIC.

(** The loops that wait on the clock until half an interval has passed in one wait. *)
Definition delay : user (Z * Z) :=
  while (fun t => u32 (snd t - fst t) <? Z.shiftr CLOCKINTERVAL 1) (fun _ =>
    do time1 <- user_STCK;
    do! SYSCALL WAITCLOCK 0 0 0;
    do time2 <- user_STCK;
    Ret (time1, time2)) (0, 0).

Definition p3 : user unit :=
  do! delay;
  do! print (ln "p3 - WAITCLOCK OK");
  do cpu_t1 <- SYSCALL GETCPUTIME 0 0 0;
  do! for_list (seqZ 0 CLOCKLOOP) (fun _ => do! SYSCALL WAITCLOCK 0 0 0; Ret tt);
  do cpu_t2 <- SYSCALL GETCPUTIME 0 0 0;
  do scale <- load TIMESCALEADDR;
  do! (if i32 (cpu_t2 - cpu_t1) <? Z.quot MINCLOCKLOOP (i32 scale)
       then print (ln "error: p3 - CPU time incorrectly maintained")
       else print (ln "p3 - CPU time correctly maintained"));
  do! V endp3;
  do! terminate;
  do! print (ln "error: p3 didn't terminate");
  user_PANIC.

Definition p4 : user unit :=
  do inc <- load p4inc;
  do! (if inc =? 1 then
         do! print (ln "first incarnation of p4 starts");
         do inc <- load p4inc;
         store p4inc (i32 (inc + 1))
       else if inc =? 2 then print (ln "second incarnation of p4 starts")
       else Ret tt);
  do! print (ln "1");
  do! V synp4;
  do! print (ln "2");
  do! P blkp4;
  do! print (ln "3");
  do! P synp4;
  do! set_field (fun st => set_reg s_sp (i32 (s_reg st !!! s_sp - QPAGE)) st) p4state;
  do! create p4state 0;
  do! P synp4;
  do! print (ln "p4 is OK");
  do! V endp4;
  do! terminate;
  do! print (ln "error: p4 didn't terminate");
  user_PANIC.

(** The exception state of p5 that its handler for [i] finds and changes. *)
Definition p5_state {A} (i : fin 2) (f : state_t -> A) : user A :=
  get_sup (fun u => f (sup_exceptState u !!! i)) pFiveSupport.
Definition set_p5_state (i : fin 2) (f : state_t -> state_t) : user unit :=
  set_sup (set_exceptState i f) pFiveSupport.
Definition p5_continue (i : fin 2) (entry : Z) : user unit :=
  do! set_p5_state i (set_s_pc entry);
  set_p5_state i (set_reg s_t9 (i32 entry)).

Definition p5sys : user unit :=
  let general := except_ix GENERALEXCEPT in
  do status <- p5_state general s_status;
  let p5status := Z.shiftr (u32 (Z.shiftl status 28)) 31 in
  do! (if p5status =? ON then print (ln "High level SYS call from user mode process")
       else if p5status =? OFF then print (ln "High level SYS call from kernel mode process")
       else Ret tt);
  do! set_p5_state general (fun st => set_s_pc (u32 (s_pc st + 4)) st);
  do st <- p5_state general (fun st => st);
  user_LDST st.

Definition p5gen : user unit :=
  let general := except_ix GENERALEXCEPT in
  do cause <- p5_state general s_cause;
  let exeCode := Z.shiftr (Z.land cause CAUSEMASK) 2 in
  do! (if exeCode =? BUSERROR then
         do! print (ln "Bus Error: Access non-existent memory");
         p5_continue general p5a_at
       else if exeCode =? RESVINSTR then
         do! print (ln "privileged instruction");
         do! p5_continue general p5b_at;
         set_p5_state general (fun st => set_s_status (Z.land (s_status st) KUPBITOFF) st)
       else if exeCode =? ADDRERROR then
         do! print (ln "Address Error: non-kuseg access w/KU=1");
         do! p5_continue general p5b_at;
         set_p5_state general (fun st => set_s_status (Z.land (s_status st) KUPBITOFF) st)
       else if exeCode =? SYSCALLEXCPT then p5sys
       else print (ln "other program trap"));
  do st <- p5_state general (fun st => st);
  user_LDST st.

Definition p5mm : user unit :=
  let pgfault := except_ix PGFAULTEXCEPT in
  do! print (ln "memory management trap");
  do pFiveSupAddr <- SYSCALL GETSPTPTR 0 0 0;
  do! (if negb (u32 pFiveSupAddr =? pFiveSupport) then print (ln "Support Structure Address Error")
       else print (ln "Correct Support Structure Address"));
  do! set_p5_state pgfault (fun st => set_s_status (Z.lor (s_status st) KUPBITON) st);
  do! p5_continue pgfault p5b_at;
  do st <- p5_state pgfault (fun st => st);
  user_LDST st.

Definition p5 : user unit :=
  do! print (ln "p5 starts");
  do a <- load p5MemLocation;
  do v <- load a;
  store a (u32 (v + 1)).

Definition p5a : user unit :=
  do! store p5MemLocation 0x80000000;
  do a <- load p5MemLocation;
  store a 42.

Definition p5b : user unit :=
  do! SYSCALL 9 0 0 0;
  do! P endp4;
  do! delay;
  do! V blkp4;
  do! V endp5;
  do! terminate;
  do! print (ln "error: p5 didn't terminate");
  user_PANIC.

Definition p6 : user unit :=
  do! print (ln "p6 starts");
  do! SYSCALL 9 0 0 0;
  do! print (ln "error: p6 alive after SYS9() with no trap vector");
  user_PANIC.

Definition p7 : user unit :=
  do! print (ln "p7 starts");
  do! store BADADDR 0;
  do! print (ln "error: p7 alive after program trap with no trap vector");
  user_PANIC.

Definition p8root : user unit :=
  do! print (ln "p8root starts");
  do! create child1state NULL;
  do! create child2state NULL;
  do! for_list (seqZ 0 NOLEAVES) (fun _ => P endcreate);
  do! V endp8;
  terminate.

Definition child1 : user unit :=
  do! print (ln "child1 starts");
  do! create gchild1state NULL;
  do! create gchild2state NULL;
  P blkp8.

Definition child2 : user unit :=
  do! print (ln "child2 starts");
  do! create gchild3state NULL;
  do! create gchild4state NULL;
  P blkp8.

Definition p8leaf : user unit :=
  do! print (ln "leaf process starts");
  do! V endcreate;
  P blkp8.

(** The program text: what starts at each address. *)
Definition p2test_code (pc : Z) : option (user unit) :=
  list_to_map (M := gmap Z (user unit))
    [(test_addr, test); (uTLB_RefillHandler_addr, uTLB_RefillHandler); (p2_at, p2); (p3_at, p3); (p4_at, p4);
     (p5_at, p5); (p5a_at, p5a); (p5b_at, p5b);
     (p5gen_at, p5gen); (p5mm_at, p5mm); (p6_at, p6); (p7_at, p7); (p8root_at, p8root);
     (child1_at, child1); (child2_at, child2); (p8leaf_at, p8leaf)] !! pc.

End p2test.
