(* ===== verification/P2run.v ===== *)
(** * Running phase2/p2test.c

    The machine of [Demo] with the test program in its memory, and three hardware behaviours: a
    terminal slower than the next system call; the same with a processor timer that fires every
    seventh step; a terminal that is done before the next instruction. *)
From S2P Require Export Demo ProcessorSpec P2test.
From Stdlib Require Import String Ascii.

Definition p2_data : Z := 0x20040000.

#[export] Instance p2_layout : P2Layout := {|
  term_mut := p2_data; testsem := p2_data + 4; startp2 := p2_data + 8; endp2 := p2_data + 12;
  endp3 := p2_data + 16; blkp4 := p2_data + 20; synp4 := p2_data + 24; endp4 := p2_data + 28;
  endp5 := p2_data + 32; endp8 := p2_data + 36; endcreate := p2_data + 40; blkp8 := p2_data + 44;
  p1p2synch := p2_data + 48; p8inc := p2_data + 52; p4inc := p2_data + 56; p5Stack := p2_data + 60;
  creation := p2_data + 64; p5MemLocation := p2_data + 68; s_base := p2_data + 256;
  p2state := p2_data + 0x1000; p3state := p2_data + 0x1100; p4state := p2_data + 0x1200;
  p5state := p2_data + 0x1300; p6state := p2_data + 0x1400; p7state := p2_data + 0x1500;
  p8rootstate := p2_data + 0x1600; child1state := p2_data + 0x1700; child2state := p2_data + 0x1800;
  gchild1state := p2_data + 0x1900; gchild2state := p2_data + 0x1a00; gchild3state := p2_data + 0x1b00;
  gchild4state := p2_data + 0x1c00; pFiveSupport := p2_data + 0x2000;
  p2_at := 0x20011100; p3_at := 0x20011200; p4_at := 0x20011300; p5_at := 0x20011400;
  p5a_at := 0x20011500; p5b_at := 0x20011600; p5gen_at := 0x20011700; p5mm_at := 0x20011800;
  p6_at := 0x20011900; p7_at := 0x20011a00; p8root_at := 0x20011b00; child1_at := 0x20011c00;
  child2_at := 0x20011d00; p8leaf_at := 0x20011e00
|}.

Definition zero_support : support_t := MkSupport 0 (vreplicate 2 zero_state) (vreplicate 2 (MkContext 0 0 0)).

(** The initial values of the globals.  The support structure at 0 is the one p4 names when it
    creates its second incarnation: it passes 0, which is not [NULL]. *)
Definition p2_ints : gmap Z Z :=
  list_to_map ([(term_mut, 1); (blkp4, 1); (p4inc, 1)] ++
    ((fun a => (a, 0)) <$> [testsem; startp2; endp2; endp3; synp4; endp4; endp5; endp8; endcreate; blkp8;
                            p1p2synch; p8inc; p5Stack; creation; p5MemLocation]) ++
    ((fun i => (s_at i, 0)) <$> seqZ 0 (MAXSEM + 1))).
Definition p2_states : gmap Z state_t :=
  list_to_map ((fun a => (a, zero_state)) <$>
    [BIOSDATAPAGE; p2state; p3state; p4state; p5state; p6state; p7state; p8rootstate; child1state; child2state;
     gchild1state; gchild2state; gchild3state; gchild4state]).
Definition p2_image : kstate :=
  boot_state p2_ints p2_states {[ pFiveSupport := zero_support; 0 := zero_support ]} demo_bus.

Definition slow_terminal : Hardware := {|
  bus_error := BUSERROR;
  loop_time := fun n => (n / 100)%nat;
  next_tick := fun n => ((n / 100 + 1) * 100)%nat;
  latency := 3;
  slice_ends := fun _ => false
|}.
Definition preempting : Hardware := {|
  bus_error := BUSERROR;
  loop_time := fun n => (n / 100)%nat;
  next_tick := fun n => ((n / 100 + 1) * 100)%nat;
  latency := 3;
  slice_ends := fun n => (n mod 7 =? 0)%nat
|}.
Definition fast_terminal : Hardware := {|
  bus_error := BUSERROR;
  loop_time := fun n => (n / 100)%nat;
  next_tick := fun n => ((n / 100 + 1) * 100)%nat;
  latency := 0;
  slice_ends := fun _ => false
|}.

(** [steps] steps of the machine from power on. *)
Definition p2_machine (hw : Hardware) (steps : nat) : machine :=
  run p2test_code steps (power_on p2test_code p2_image).

(** What terminal 0 shows. *)
Fixpoint text (l : list Z) : string :=
  match l with
  | [] => EmptyString
  | c :: l => String (ascii_of_nat (Z.to_nat c)) (text l)
  end.
Definition transcript (M : machine) : string := text (reverse (ms_out M)).
Definition of_lines (l : list string) : string := foldr (fun s acc => String.append (ln s) acc) EmptyString l.

Definition ends_with (halted : bool) (out : string) (M : machine) : bool :=
  match ms_mode M with Halted => halted | Panicked => negb halted | _ => false end && String.eqb (transcript M) out.

Definition p8_lines : list string :=
  ["p8root starts"; "child1 starts"; "child2 starts"; "leaf process starts"; "leaf process starts";
   "leaf process starts"; "leaf process starts"]%string.

Definition p2_lines : list string :=
  ["p1 v(testsem)"; "p2 was started"; "p2 starts"; "p2 v's successfully"; "p2 is OK"; "p3 is started";
    "p3 - WAITCLOCK OK"; "p3 - CPU time correctly maintained"; "first incarnation of p4 starts"; "p5 starts";
    "p6 starts"; "p7 starts"; "1"; "Bus Error: Access non-existent memory"; "2"; "memory management trap"; "3";
    "Correct Support Structure Address"; "second incarnation of p4 starts";
    "Address Error: non-kuseg access w/KU=1"; "1"; "High level SYS call from kernel mode process"; "2";
    "p4 is OK"; "p1 knows p5 ended"]%string ++
  p8_lines ++ p8_lines ++ p8_lines ++ p8_lines ++ ["p1 finishes OK -- TTFN"]%string.

(** * Lemmas *)
Lemma p2_image_bootable : bootable p2_image.
Proof. apply boot_state_bootable. vm_compute. eauto. Qed.

Lemma ends_halted out M : ends_with true out M = true -> ms_mode M = Halted /\ transcript M = out.
Proof. unfold ends_with. intros [H E%String.eqb_eq]%andb_true_iff. by destruct (ms_mode M). Qed.

Lemma ends_panicked out M : ends_with false out M = true -> ms_mode M = Panicked /\ transcript M = out.
Proof. unfold ends_with. intros [H E%String.eqb_eq]%andb_true_iff. by destruct (ms_mode M). Qed.

Definition crashed (M : machine) : bool := match ms_mode M with Crashed => true | _ => false end.
Lemma not_crashed M : crashed M = false -> ms_mode M <> Crashed.
Proof. unfold crashed. intros H E. by rewrite E in H. Qed.
