(* ===== verification/P2props.v ===== *)
(** * The machine and the test program: the properties *)
From S2P Require Export P2run.
From Stdlib Require Import String.

Section machine.
Context {m : Machine} {mok : MachineOk m} {hw : Hardware} (code_at : Z -> option (user unit)).

End machine.



