(* ===== verification/P1test.v ===== *)
(** * The test program of phase 1: phase1/p1test.c

    The program runs on the bare machine with pcb.c and asl.c linked in.  Its state is the kernel
    state plus its own buffers and variables; the transmitter of a terminal is known by the values
    its status register shows, one per read, and by the commands written to it. *)
From S2P Require Export Readback.
From Stdlib Require Import String Ascii.

Record tstate : Type := MkT {
  ts_k : kstate;
  okbuf : string;
  errbuf : string;
  procp : gmap Z Z;
  t_p : Z;
  t_q : Z;
  firstproc : Z;
  lastproc : Z;
  midproc : Z;
  term_reads : nat;
  term_cmds : list (Z * Z)
}.

Definition set_k (v : kstate) (t : tstate) : tstate :=
  MkT v (okbuf t) (errbuf t) (procp t) (t_p t) (t_q t) (firstproc t) (lastproc t) (midproc t) (term_reads t) (term_cmds t).
Definition set_okbuf (v : string) (t : tstate) : tstate :=
  MkT (ts_k t) v (errbuf t) (procp t) (t_p t) (t_q t) (firstproc t) (lastproc t) (midproc t) (term_reads t) (term_cmds t).
Definition set_errbuf (v : string) (t : tstate) : tstate :=
  MkT (ts_k t) (okbuf t) v (procp t) (t_p t) (t_q t) (firstproc t) (lastproc t) (midproc t) (term_reads t) (term_cmds t).
Definition set_procp (i v : Z) (t : tstate) : tstate :=
  MkT (ts_k t) (okbuf t) (errbuf t) (<[i := v]> (procp t)) (t_p t) (t_q t) (firstproc t) (lastproc t) (midproc t) (term_reads t) (term_cmds t).
Definition set_p (v : Z) (t : tstate) : tstate :=
  MkT (ts_k t) (okbuf t) (errbuf t) (procp t) v (t_q t) (firstproc t) (lastproc t) (midproc t) (term_reads t) (term_cmds t).
Definition set_q (v : Z) (t : tstate) : tstate :=
  MkT (ts_k t) (okbuf t) (errbuf t) (procp t) (t_p t) v (firstproc t) (lastproc t) (midproc t) (term_reads t) (term_cmds t).
Definition set_firstproc (v : Z) (t : tstate) : tstate :=
  MkT (ts_k t) (okbuf t) (errbuf t) (procp t) (t_p t) (t_q t) v (lastproc t) (midproc t) (term_reads t) (term_cmds t).
Definition set_lastproc (v : Z) (t : tstate) : tstate :=
  MkT (ts_k t) (okbuf t) (errbuf t) (procp t) (t_p t) (t_q t) (firstproc t) v (midproc t) (term_reads t) (term_cmds t).
Definition set_midproc (v : Z) (t : tstate) : tstate :=
  MkT (ts_k t) (okbuf t) (errbuf t) (procp t) (t_p t) (t_q t) (firstproc t) (lastproc t) v (term_reads t) (term_cmds t).
Definition set_term (n : nat) (c : list (Z * Z)) (t : tstate) : tstate :=
  MkT (ts_k t) (okbuf t) (errbuf t) (procp t) (t_p t) (t_q t) (firstproc t) (lastproc t) (midproc t) n c.

Abbreviation T := (M tstate exit_event).

(** A kernel operation called by the test. *)
Definition lift {A} (c : K A) : T A := fun t =>
  match c (ts_k t) with
  | Ret a k => Ret a (set_k k t)
  | Stop e k => Stop e (set_k k t)
  | Fault f => Fault f
  end.

Definition TRANSMITTED : Z := 5.
Definition PRINTCHR : Z := 2.
Definition CHAROFFSET : Z := 8.
Definition STATUSMASK : Z := 0xFF.
Definition okbuf_size : Z := 2048.
Definition errbuf_size : Z := 128.

Definition nl : string := String (ascii_of_nat 10) EmptyString.

Definition char_code (c : ascii) : Z := Z.of_nat (nat_of_ascii c).

Section p1test.
Context {m : Machine}.

(** What the terminals do: the transmitter status register at the n-th read, and how many readings
    in a row it may show BUSY; and where the linker put the variables of the test. *)
Context (transm_status : nat -> Z) (busy_bound : nat).
Context (qa_addr sem_base onesem : Z).

(** [&sem[i]] *)
Definition sem_at (i : Z) : Z := sem_base + i * WORDLEN.

Definition termstat : T Z := fun t =>
  Ret (Z.land (transm_status (term_reads t)) STATUSMASK) (set_term (S (term_reads t)) (term_cmds t) t).

(** [while (stat == BUSY) stat = termstat(statusp);] *)
Fixpoint busy_wait (fuel : nat) (stat : Z) : T Z :=
  match fuel with
  | O => crash OutOfFuel
  | S n => if stat =? BUSY then do stat <- termstat; busy_wait n stat else ret stat
  end.

(** The print cycle; TRUE when the whole string was transmitted. *)
Fixpoint print_cycle (str : string) (term : Z) : T bool :=
  match str with
  | EmptyString => ret true
  | String c rest =>
      do! modify (fun t => set_term (term_reads t)
                    (app (term_cmds t) [(term, Z.lor (Z.shiftl (char_code c) CHAROFFSET) PRINTCHR)]) t);
      do stat <- termstat;
      do stat <- busy_wait (S busy_bound) stat;
      if negb (stat =? TRANSMITTED) then ret false else print_cycle rest term
  end.

Definition termprint (str : string) (term : Z) : T bool :=
  if term <? Z.of_nat DEVPERINT then
    do stat <- termstat;
    if (stat =? READY) || (stat =? TRANSMITTED) then print_cycle str term else ret false
  else ret false.

(** Copying a string behind [n] bytes of a buffer of [size] bytes, the final NUL included. *)
Definition copy_to (size n : Z) (strp : string) : T unit :=
  if size <? n + Z.of_nat (String.length strp) + 1 then crash (BadPointer n) else ret tt.

Definition addokbuf (strp : string) : T unit :=
  do b <- gets okbuf;
  do! copy_to okbuf_size (Z.of_nat (String.length b)) strp;
  do! modify (set_okbuf (String.append b strp));
  do! termprint strp 0;
  ret tt.

Definition adderrbuf (strp : string) : T unit :=
  do! copy_to errbuf_size 0 strp;
  do! modify (set_errbuf strp);
  do! termprint strp 0;
  stop Panic.

(** [if (c) adderrbuf(msg);] *)
Definition check (c : bool) (msg : string) : T unit := if c then adderrbuf msg else ret tt.

Definition get_procp (i : Z) : T Z := fun t =>
  match procp t !! i with Some v => Ret v t | None => Fault (BadPointer i) end.

Definition qa : pcb_PTR_PTR := TP_var qa_addr.

Local Open Scope string_scope.
Local Open Scope Z_scope.

(** A message ending in a newline. *)
Definition line (s : string) : string := String.append s nl.

(** Lines 129 to 204: the pool of pcbs and the process queues. *)
Definition test_queues : T unit :=
  do! lift initPcbs;
  do! addokbuf (line "Initialized process control blocks   ");
  do! for_each (seqZ 0 MAXPROC) (fun i =>
    do x <- lift allocPcb;
    do! modify (set_procp i x);
    check (x =? NULL) "allocPcb: unexpected NULL   ");
  do x <- lift allocPcb;
  do! check (negb (x =? NULL)) "allocPcb: allocated more than MAXPROC entries   ";
  do! addokbuf (line "allocPcb ok   ");
  do! for_each (seqZ 10 10) (fun i => do x <- get_procp i; lift (freePcb x));
  do! addokbuf (line "freed 10 entries   ");
  do! lift (store_tp qa NULL);
  do t <- lift (load_tp qa);
  do! check (negb (emptyProcQ t)) "emptyProcQ: unexpected FALSE   ";
  do! addokbuf (line "Inserting...   ");
  do! for_each (seqZ 0 10) (fun i =>
    do x <- lift allocPcb;
    do! modify (set_q x);
    do! check (x =? NULL) "allocPcb: unexpected NULL while insert   ";
    do q <- gets t_q;
    do! (if i =? 0 then modify (set_firstproc q)
         else if i =? 5 then modify (set_midproc q)
         else if i =? 9 then modify (set_lastproc q)
         else ret tt);
    lift (insertProcQ qa q));
  do! addokbuf (line "inserted 10 elements   ");
  do t <- lift (load_tp qa);
  do! check (emptyProcQ t) "emptyProcQ: unexpected TRUE";
  do t <- lift (load_tp qa);
  do h <- lift (headProcQ t);
  do f <- gets firstproc;
  do! check (negb (h =? f)) "headProcQ failed   ";
  do x <- lift (outProcQ qa f);
  do! modify (set_q x);
  do! check ((x =? NULL) || negb (x =? f)) "outProcQ failed on first entry   ";
  do! lift (freePcb x);
  do md <- gets midproc;
  do x <- lift (outProcQ qa md);
  do! modify (set_q x);
  do! check ((x =? NULL) || negb (x =? md)) "outProcQ failed on middle entry   ";
  do! lift (freePcb x);
  do p0 <- get_procp 0;
  do x <- lift (outProcQ qa p0);
  do! check (negb (x =? NULL)) "outProcQ failed on nonexistent entry   ";
  do! addokbuf (line "outProcQ ok   ");
  do! addokbuf (line "Removing...   ");
  do! for_each (seqZ 0 8) (fun _ =>
    do x <- lift (removeProcQ qa);
    do! modify (set_q x);
    do! check (x =? NULL) "removeProcQ: unexpected NULL   ";
    lift (freePcb x));
  do x <- gets t_q;
  do l <- gets lastproc;
  do! check (negb (x =? l)) "removeProcQ: failed on last entry   ";
  do x <- lift (removeProcQ qa);
  do! check (negb (x =? NULL)) "removeProcQ: removes too many entries   ";
  do t <- lift (load_tp qa);
  do! check (negb (emptyProcQ t)) "emptyProcQ: unexpected FALSE   ";
  do! addokbuf (line "insertProcQ, removeProcQ and emptyProcQ ok   ");
  addokbuf (line "process queues module ok      ").

(** Lines 206 to 248: the process trees. *)
Definition test_trees : T unit :=
  do! addokbuf (line "checking process trees...");
  do p2 <- get_procp 2;
  do e <- lift (emptyChild p2);
  do! check (negb e) "emptyChild: unexpected FALSE   ";
  do! addokbuf (line "Inserting...   ");
  do! for_each (seqZ 1 9) (fun i =>
    do p0 <- get_procp 0;
    do x <- get_procp i;
    lift (insertChild p0 x));
  do! addokbuf (line "Inserted 9 children   ");
  do p0 <- get_procp 0;
  do e <- lift (emptyChild p0);
  do! check e "emptyChild: unexpected TRUE   ";
  do p1 <- get_procp 1;
  do x <- lift (outChild p1);
  do! modify (set_q x);
  do! check ((x =? NULL) || negb (x =? p1)) "outChild failed on first child   ";
  do p4 <- get_procp 4;
  do x <- lift (outChild p4);
  do! modify (set_q x);
  do! check ((x =? NULL) || negb (x =? p4)) "outChild failed on middle child   ";
  do x <- lift (outChild p0);
  do! check (negb (x =? NULL)) "outChild failed on nonexistent child   ";
  do! addokbuf (line "outChild ok   ");
  do! addokbuf (line "Removing...   ");
  do! for_each (seqZ 0 7) (fun _ =>
    do p0 <- get_procp 0;
    do x <- lift (removeChild p0);
    do! modify (set_q x);
    check (x =? NULL) "removeChild: unexpected NULL   ");
  do x <- lift (removeChild p0);
  do! check (negb (x =? NULL)) "removeChild: removes too many children   ";
  do e <- lift (emptyChild p0);
  do! check (negb e) "emptyChild: unexpected FALSE   ";
  do! addokbuf (line "insertChild, removeChild and emptyChild ok   ");
  do! addokbuf (line "process tree module ok      ");
  for_each (seqZ 0 10) (fun i => do x <- get_procp i; lift (freePcb x)).

(** One insertion of [test_asl]: [procp[i] = allocPcb(); if (insertBlocked(&sem[i], procp[i])) ...] *)
Definition insert_new (i : Z) (msg : string) : T unit :=
  do x <- lift allocPcb;
  do! modify (set_procp i x);
  do b <- lift (insertBlocked (sem_at i) x);
  check b msg.

(** Lines 251 to 315: the ASL. *)
Definition test_asl : T unit :=
  do! lift initASL;
  do! addokbuf (line "Initialized active semaphore list   ");
  do! addokbuf (line "insertBlocked test #1 started  ");
  do! for_each (seqZ 10 10) (fun i => insert_new i "insertBlocked(1): unexpected TRUE   ");
  do! addokbuf (line "insertBlocked test #2 started  ");
  do! for_each (seqZ 0 10) (fun i => insert_new i "insertBlocked(2): unexpected TRUE   ");
  do x <- lift (removeBlocked (sem_at 11));
  do! modify (set_p x);
  do b <- lift (insertBlocked (sem_at 11) x);
  do! check b "removeBlocked: fails to return to free list   ";
  do p9 <- get_procp 9;
  do b <- lift (insertBlocked onesem p9);
  do! check (negb b) "insertBlocked: inserted more than MAXPROC   ";
  do! addokbuf (line "removeBlocked test started   ");
  do! for_each (seqZ 10 10) (fun i =>
    do x <- lift (removeBlocked (sem_at i));
    do! modify (set_q x);
    do! check (x =? NULL) "removeBlocked: wouldn't remove   ";
    do pi <- get_procp i;
    do! check (negb (x =? pi)) "removeBlocked: removed wrong element   ";
    do b <- lift (insertBlocked (sem_at (i - 10)) x);
    check b "insertBlocked(3): unexpected TRUE   ");
  do x <- lift (removeBlocked (sem_at 11));
  do! check (negb (x =? NULL)) "removeBlocked: removed nonexistent blocked proc   ";
  do! addokbuf (line "insertBlocked and removeBlocked ok   ");
  do x <- lift (headBlocked (sem_at 11));
  do! check (negb (x =? NULL)) "headBlocked: nonNULL for a nonexistent queue   ";
  do x <- lift (headBlocked (sem_at 9));
  do! modify (set_q x);
  do! check (x =? NULL) "headBlocked(1): NULL for an existent queue   ";
  do p9 <- get_procp 9;
  do! check (negb (x =? p9)) "headBlocked(1): wrong process returned   ";
  do y <- lift (outBlocked x);
  do! modify (set_p y);
  do! check (negb (y =? x)) "outBlocked(1): couldn't remove from valid queue   ";
  do x <- lift (headBlocked (sem_at 9));
  do! modify (set_q x);
  do! check (x =? NULL) "headBlocked(2): NULL for an existent queue   ";
  do p19 <- get_procp 19;
  do! check (negb (x =? p19)) "headBlocked(2): wrong process returned   ";
  do y <- lift (outBlocked x);
  do! modify (set_p y);
  do! check (negb (y =? x)) "outBlocked(2): couldn't remove from valid queue   ";
  do y <- lift (outBlocked x);
  do! modify (set_p y);
  do! check (negb (y =? NULL)) "outBlocked: removed same process twice.";
  do x <- lift (headBlocked (sem_at 9));
  do! check (negb (x =? NULL)) "out/headBlocked: unexpected nonempty queue   ";
  do! addokbuf (line "headBlocked and outBlocked ok   ");
  do! addokbuf (line "ASL module ok   ");
  addokbuf (line "So Long and Thanks for All the Fish").

Definition p1test_main : T unit :=
  do! test_queues;
  do! test_trees;
  test_asl.

End p1test.
