(* ===== verification/P1testSpec.v ===== *)
(** * The phase 1 test passes on every terminal

    [termprint] transmits a string; the rest of the test does not depend on what the terminal
    does, so one evaluation of the test decides it for all terminals that are not busy forever. *)
From S2P Require Export P1test Demo.
From Stdlib Require Import String Ascii.

(** No more than [bound] BUSY readings in a row. *)
Definition patient (transm_status : nat -> Z) (bound : nat) : Prop :=
  forall n, exists k, (k <= bound)%nat /\ Z.land (transm_status (n + k)%nat) STATUSMASK <> BUSY.

Definition command (term : Z) (c : ascii) : Z * Z :=
  (term, Z.lor (Z.shiftl (char_code c) CHAROFFSET) PRINTCHR).

(** The same state but for the terminal. *)
Definition same_test (t1 t2 : tstate) : Prop :=
  t2 = set_term (term_reads t2) (term_cmds t2) t1.

Definition independent {A} (c1 c2 : T A) : Prop := forall t1 t2, same_test t1 t2 ->
  match c1 t1, c2 t2 with
  | Ret a u1, Ret b u2 => a = b /\ same_test u1 u2
  | Stop e u1, Stop e' u2 => e = e' /\ same_test u1 u2
  | Fault f, Fault f' => f = f'
  | _, _ => False
  end.

Create HintDb independent discriminated.
#[export] Hint Constants Opaque : independent.

(** * Lemmas *)

(** ** The terminal *)
Section terminal.
Context {transm_status : nat -> Z} {busy_bound : nat}.
Abbreviation status n := (Z.land (transm_status n) STATUSMASK).

Lemma busy_wait_ok k fuel t :
  (k < fuel)%nat -> status (term_reads t + k)%nat <> BUSY ->
  exists z n, (do stat <- termstat transm_status; busy_wait transm_status fuel stat) t =
              Ret z (set_term n (term_cmds t) t) /\ (exists j, z = status j) /\ z <> BUSY.
Proof.
  revert k t. induction fuel as [|fuel IH]; intros k t Hk Hs; [lia|].
  change ((do stat <- termstat transm_status; busy_wait transm_status (S fuel) stat) t) with
    (busy_wait transm_status (S fuel) (status (term_reads t)) (set_term (S (term_reads t)) (term_cmds t) t)).
  cbn [busy_wait]. destruct (Z.eqb_spec (status (term_reads t)) BUSY) as [E|E].
  - destruct k as [|k]; [by rewrite Nat.add_0_r in Hs|].
    set (t1 := set_term (S (term_reads t)) (term_cmds t) t).
    assert (status (term_reads t1 + k)%nat <> BUSY) as Hs1.
    { replace (term_reads t1 + k)%nat with (term_reads t + S k)%nat by (cbn; lia). done. }
    destruct (IH k t1 ltac:(lia) Hs1) as (z & n & Hr & ? & ?). exists z, n. done.
  - eexists _, (S (term_reads t)). split_and!; [done|by eexists|done].
Qed.

Lemma print_cycle_ok str term t :
  patient transm_status busy_bound ->
  exists b pre n, print_cycle transm_status busy_bound str term t =
      Ret b (set_term n (term_cmds t ++ (command term <$> pre)) t) /\
    pre `prefix_of` list_ascii_of_string str /\ (b = true -> pre = list_ascii_of_string str) /\
    ((forall n, status n = BUSY \/ status n = TRANSMITTED) -> b = true).
Proof.
  intros Hp. revert t. induction str as [|c str IH]; intros t.
  - exists true, [], (term_reads t). cbn. rewrite app_nil_r. split_and!; [|done..]. by destruct t.
  - cbn [print_cycle]. rewrite bind_modify.
    set (t1 := set_term _ _ t). destruct (Hp (term_reads t1)) as (k & Hk & Hs).
    destruct (busy_wait_ok k (S busy_bound) t1 ltac:(lia) Hs) as (z & n & E & Hz & Hb).
    rewrite <- bind_assoc, (bind_ret _ _ _ _ _ E). destruct (Z.eqb_spec z TRANSMITTED) as [->|Hne]; cbn [negb].
    + destruct (IH (set_term n (term_cmds t1) t1)) as (b & pre & n' & -> & Hpre & Hall & Hok).
      exists b, (c :: pre), n'. cbn. rewrite <- app_assoc. split_and!; [done|by apply prefix_cons| |done].
      intros Hbt. by rewrite Hall.
    + exists false, [c], n. split_and!; [done|by apply prefix_cons, prefix_nil|done|].
      intros HS. destruct Hz as [j ->]. by destruct (HS j).
Qed.

(** The string is transmitted, or a prefix of it up to the first failure. *)
Lemma termprint_ok str term t :
  patient transm_status busy_bound ->
  exists b pre n, termprint transm_status busy_bound str term t =
      Ret b (set_term n (term_cmds t ++ (command term <$> pre)) t) /\
    pre `prefix_of` list_ascii_of_string str /\
    (b = true -> term < Z.of_nat DEVPERINT /\ pre = list_ascii_of_string str) /\
    (term < Z.of_nat DEVPERINT -> status (term_reads t) <> BUSY ->
     (forall n, status n = BUSY \/ status n = TRANSMITTED) -> b = true).
Proof.
  intros Hp. unfold termprint.
  assert (forall n, set_term n (term_cmds t) t = set_term n (term_cmds t ++ (command term <$> [])) t) as Hnil
    by (intros; cbn; by rewrite app_nil_r).
  destruct (Z.ltb_spec term (Z.of_nat DEVPERINT)).
  - change (do stat <- termstat transm_status; _) with (do stat <- termstat transm_status;
      if (stat =? READY) || (stat =? TRANSMITTED) then print_cycle transm_status busy_bound str term else ret false).
    rewrite (bind_ret _ _ _ _ _ (eq_refl (termstat transm_status t))).
    destruct (_ || _) eqn:E.
    + destruct (print_cycle_ok str term (set_term (S (term_reads t)) (term_cmds t) t) Hp)
        as (b & pre & n & -> & Hpre & Hall & Hok). exists b, pre, n. split_and!; auto.
    + exists false, [], (S (term_reads t)). rewrite <- Hnil. split_and!; [done|apply prefix_nil|done|].
      intros _ Hs HS. destruct (HS (term_reads t)) as [?|E']; [done|]. by rewrite E', orb_true_r in E.
  - exists false, [], (term_reads t). rewrite <- Hnil. split_and!; [by destruct t|apply prefix_nil|done|lia].
Qed.
End terminal.

(** ** Independence *)
Lemma same_test_set n c t : same_test t (set_term n c t).
Proof. done. Qed.

Lemma independent_bind {A B} (c1 c2 : T A) (k1 k2 : A -> T B) :
  independent c1 c2 -> (forall a, independent (k1 a) (k2 a)) -> independent (bind c1 k1) (bind c2 k2).
Proof.
  intros Hc Hk t1 t2 Ht. specialize (Hc t1 t2 Ht). unfold bind.
  destruct (c1 t1) as [a u1|e u1|f], (c2 t2) as [b u2|e' u2|f']; try done.
  destruct Hc as [<- Hu]. by apply Hk.
Qed.

Lemma independent_ret {A} (a : A) : independent (ret a) (ret a).
Proof. intros t1 t2 Ht. done. Qed.

Lemma independent_stop {A} e : independent (stop e : T A) (stop e).
Proof. intros t1 t2 Ht. done. Qed.

Lemma independent_crash {A} f : independent (crash f : T A) (crash f).
Proof. intros t1 t2 Ht. done. Qed.

Lemma independent_gets {A} (f : tstate -> A) :
  (forall n c t, f (set_term n c t) = f t) -> independent (gets f) (gets f).
Proof. intros Hf t1 t2 ->. cbn. by rewrite Hf. Qed.

Lemma independent_modify g :
  (forall n c t, g (set_term n c t) = set_term n c (g t)) ->
  (forall t, term_reads (g t) = term_reads t /\ term_cmds (g t) = term_cmds t) ->
  independent (modify g) (modify g).
Proof.
  intros Hg Ht t1 t2 E. cbn. split; [done|]. unfold same_test. destruct (Ht t2) as [-> ->].
  rewrite <- Hg. exact (f_equal g E).
Qed.

Lemma independent_lift {A} (c : K A) : independent (lift c) (lift c).
Proof. intros t1 t2 ->. unfold lift. cbn. by destruct (c (ts_k t1)). Qed.

Lemma independent_get_procp i : independent (get_procp i) (get_procp i).
Proof. intros t1 t2 ->. unfold get_procp. cbn. by destruct (procp t1 !! i). Qed.

Lemma independent_for_each {I} (l : list I) (b1 b2 : I -> T unit) :
  (forall i, independent (b1 i) (b2 i)) -> independent (for_each l b1) (for_each l b2).
Proof.
  intros H. induction l as [|i l IH]; [apply independent_ret|].
  rewrite !for_each_cons. by apply independent_bind.
Qed.

#[export] Hint Resolve independent_ret independent_stop independent_crash independent_lift
  independent_get_procp : independent.
#[export] Hint Extern 1 (independent (gets _) (gets _)) =>
  apply independent_gets; intros; reflexivity : independent.
#[export] Hint Extern 1 (independent (modify _) (modify _)) =>
  apply independent_modify; [intros; reflexivity|intros; split; reflexivity] : independent.

Ltac solve_independent :=
  repeat first
    [ solve [auto 1 with independent nocore]
    | apply independent_bind; [|intros]
    | apply independent_for_each; intros
    | match goal with |- independent (if ?b then _ else _) _ => destruct b end ].

Section passes.
Context {m : Machine}.
Context {st1 st2 : nat -> Z} {b1 b2 : nat} (Hst1 : patient st1 b1) (Hst2 : patient st2 b2).
Context (qa_addr sem_base onesem : Z).

(** Printing differs in what the terminal answers only, and nobody looks at it. *)
Lemma independent_print {A} str term (c1 c2 : T A) :
  independent c1 c2 ->
  independent (do! termprint st1 b1 str term; c1) (do! termprint st2 b2 str term; c2).
Proof.
  intros Hc t1 t2 ->. set (t2' := set_term (term_reads t2) (term_cmds t2) t1).
  destruct (termprint_ok str term t1 Hst1) as (x & pre & n & E1 & _).
  destruct (termprint_ok str term t2' Hst2) as (y & pre' & n' & E2 & _).
  rewrite (bind_ret _ _ _ _ _ E1), (bind_ret _ _ _ _ _ E2). by apply Hc.
Qed.

Lemma independent_copy_to size n str : independent (copy_to size n str) (copy_to size n str).
Proof. unfold copy_to. solve_independent. Qed.
#[local] Hint Resolve independent_copy_to : independent.

Lemma independent_addokbuf str : independent (addokbuf st1 b1 str) (addokbuf st2 b2 str).
Proof. unfold addokbuf. repeat (apply independent_bind; [solve [auto 1 with independent nocore]|intros]).
  apply independent_print, independent_ret. Qed.

Lemma independent_adderrbuf str : independent (adderrbuf st1 b1 str) (adderrbuf st2 b2 str).
Proof. unfold adderrbuf. repeat (apply independent_bind; [solve [auto 1 with independent nocore]|intros]).
  apply independent_print, independent_stop. Qed.
#[local] Hint Resolve independent_addokbuf independent_adderrbuf : independent.

Lemma independent_check c str : independent (check st1 b1 c str) (check st2 b2 c str).
Proof. unfold check. solve_independent. Qed.
#[local] Hint Resolve independent_check : independent.

Lemma independent_main :
  independent (p1test_main st1 b1 qa_addr sem_base onesem) (p1test_main st2 b2 qa_addr sem_base onesem).
Proof. unfold p1test_main, test_queues, test_trees, test_asl, insert_new. solve_independent. Qed.
End passes.
