(* ===== verification/P1testProps.v ===== *)
(** * What the phase 1 test shows

    The printing routine, and the verdict of the test on the concrete machine. *)
From S2P Require Export P1testSpec.
From Stdlib Require Import String Ascii.

(** The lines of phase1/term0.umps.txt that the test prints. *)
Definition transcript : string := String.concat EmptyString (line <$>
  ["Initialized process control blocks   "; "allocPcb ok   "; "freed 10 entries   "; "Inserting...   ";
   "inserted 10 elements   "; "outProcQ ok   "; "Removing...   ";
   "insertProcQ, removeProcQ and emptyProcQ ok   "; "process queues module ok      ";
   "checking process trees..."; "Inserting...   "; "Inserted 9 children   "; "outChild ok   ";
   "Removing...   "; "insertChild, removeChild and emptyChild ok   "; "process tree module ok      ";
   "Initialized active semaphore list   "; "insertBlocked test #1 started  ";
   "insertBlocked test #2 started  "; "removeBlocked test started   ";
   "insertBlocked and removeBlocked ok   "; "headBlocked and outBlocked ok   "; "ASL module ok   ";
   "So Long and Thanks for All the Fish"]%string).

(** The image of the test: the tables of pcb.c and asl.c zeroed, the variable [qa] somewhere. *)
Definition qa_at : Z := 0x20040000.
Definition p1test_image : tstate :=
  MkT (set_pvars {[ qa_at := 0 ]} demo_image) EmptyString EmptyString ∅ 0 0 0 0 0 0 [].

Definition run_p1test (transm_status : nat -> Z) (bound : nat) : outcome tstate exit_event unit :=
  p1test_main transm_status bound qa_at 0x20040100 0x20040200 p1test_image.

Definition verdict (o : outcome tstate exit_event unit) : option (string * string) :=
  match o with Ret _ t => Some (okbuf t, errbuf t) | _ => None end.

(** On a terminal that is never busy forever, termprint returns; the commands it writes are the
    print commands of a prefix of the string, in order; it returns TRUE only for an existing
    terminal and the whole string, and does so when the terminal is free and no character fails. *)
Theorem termprint_transmits transm_status bound str term t :
  patient transm_status bound ->
  exists b pre n, termprint transm_status bound str term t =
      Ret b (set_term n (term_cmds t ++ (command term <$> pre)) t) /\
    pre `prefix_of` list_ascii_of_string str /\
    (b = true -> term < Z.of_nat DEVPERINT /\ pre = list_ascii_of_string str) /\
    (term < Z.of_nat DEVPERINT -> Z.land (transm_status (term_reads t)) STATUSMASK <> BUSY ->
     (forall n, Z.land (transm_status n) STATUSMASK = BUSY \/ Z.land (transm_status n) STATUSMASK = TRANSMITTED) ->
     b = true).
Proof. apply termprint_ok. Qed.

Lemma independent_verdict (c1 c2 : T unit) t : independent c1 c2 -> verdict (c1 t) = verdict (c2 t).
Proof.
  intros H. assert (same_test t t) as Ht by (by destruct t). specialize (H t t Ht). unfold verdict.
  destruct (c1 t) as [a u1| |], (c2 t) as [b u2| |]; try done. by destruct H as [_ ->].
Qed.

Definition slow_terminal (n : nat) : Z := if Nat.even n then TRANSMITTED else BUSY.

Lemma slow_terminal_patient : patient slow_terminal 1.
Proof.
  intros n. unfold slow_terminal. destruct (Nat.even n) eqn:E.
  - exists 0%nat. rewrite Nat.add_0_r, E. split; [lia|done].
  - exists 1%nat. rewrite Nat.add_1_r, Nat.even_succ, <- Nat.negb_even, E. split; [lia|done].
Qed.

Lemma termprint_transmits_witness : exists b pre n,
  termprint slow_terminal 1 "ok" 0 p1test_image =
    Ret b (set_term n (term_cmds p1test_image ++ (command 0 <$> pre)) p1test_image) /\
  pre `prefix_of` list_ascii_of_string "ok" /\
  (b = true -> 0 < Z.of_nat DEVPERINT /\ pre = list_ascii_of_string "ok") /\
  (0 < Z.of_nat DEVPERINT -> Z.land (slow_terminal (term_reads p1test_image)) STATUSMASK <> BUSY ->
   (forall n, Z.land (slow_terminal n) STATUSMASK = BUSY \/ Z.land (slow_terminal n) STATUSMASK = TRANSMITTED) ->
   b = true).
Proof. apply (termprint_transmits slow_terminal 1 "ok" 0 p1test_image). exact slow_terminal_patient. Defined.

(** C35: the phase 1 test passes on the concrete machine, whatever its terminal does short of being
    busy forever: main returns, okbuf holds the recorded transcript, errbuf stays empty (no
    adderrbuf was reached), and neither buffer is overrun. *)
Theorem p1test_passes transm_status bound :
  patient transm_status bound -> verdict (run_p1test transm_status bound) = Some (transcript, EmptyString).
Proof.
  intros Hp.
  assert (verdict (run_p1test slow_terminal 1) = Some (transcript, EmptyString)) as Hv by (vm_compute; reflexivity).
  rewrite <- Hv. symmetry. exact (independent_verdict _ _ _ (independent_main slow_terminal_patient Hp _ _ _)).
Qed.

Lemma p1test_passes_witness : verdict (run_p1test slow_terminal 1) = Some (transcript, EmptyString).
Proof. apply p1test_passes. exact slow_terminal_patient. Defined.
