(* ===== verification/Testers.v ===== *)
(** * The user programs of phase 3: phase3/testers

    User-mode programs for a support level that is not in the repository: what its services answer
    is a parameter.  A program sees literals and local arrays of characters; an access outside an
    array, or of an element that was never written, stops the run. *)
From S2P Require Export Types.
From stdpp Require Import strings.
From Stdlib Require Import Ascii.
#[local] Open Scope Z_scope.

Module Testers.

Definition PAGESIZE : Z := 4096.
Definition SECOND : Z := 1000000.
Definition EOS : Z := 0.
Definition GETTIME : Z := 6.
Definition TERMINATE : Z := 9.
Definition GET_TOD : Z := 10.
Definition WRITEPRINTER : Z := 11.
Definition WRITETERMINAL : Z := 12.
Definition READTERMINAL : Z := 13.
Definition SEG2 : Z := 0x80000000.

(** ** Characters in memory *)
Inductive object : Type :=
| Literal (s : string)
| Array (name : string).

(** A [char *], and what is passed to a system call: an [int], or a pointer as one. *)
Record pointer : Type := Pointer { p_object : object; p_offset : Z }.
Inductive word : Type :=
| Int (z : Z)
| Address (p : pointer).

Definition literal (s : string) : pointer := Pointer (Literal s) 0.
(** [&name[0]] *)
Definition array (name : string) : pointer := Pointer (Array name) 0.
Arguments literal _%_string_scope.
Arguments array _%_string_scope.

(** What the program has asked of the support level, oldest first. *)
Inductive call : Type :=
| Wrote (service : Z) (bytes : list Z)
| ReadLine (bytes : list Z)
| AskedTime.

Record ustate : Type := MkU {
  arrays : gmap string (list (option Z));
  words : gmap Z Z;
  calls : list call
}.
Definition set_arrays (v : gmap string (list (option Z))) (u : ustate) : ustate := MkU v (words u) (calls u).
Definition set_words (v : gmap Z Z) (u : ustate) : ustate := MkU (arrays u) v (calls u).
Definition log (c : call) (u : ustate) : ustate := MkU (arrays u) (words u) (calls u ++ [c]).

(** How a program ends: by SYS9, by a trap the support level answers with termination, or with an
    access that C leaves undefined. *)
Inductive ending : Type :=
| Terminated
| Killed
| OutOfBounds (p : pointer) (i : Z)
| Uninitialised (p : pointer) (i : Z).

Abbreviation U := (M ustate ending).

(** The support level: what a write returns (the number of characters, or a negative status), what
    is typed at the terminal and what the read returns, and the time of day, given the calls so far. *)
Class SupportLevel : Type := {
  write_reply : list call -> list Z -> Z;
  typed : list call -> list Z;
  read_reply : list call -> Z;
  time_of_day : list call -> Z
}.

Definition char_code (c : ascii) : Z := Z.of_nat (nat_of_ascii c).
Fixpoint codes (s : string) : list Z :=
  match s with EmptyString => [] | String c s => char_code c :: codes s end.

(** The elements of an object. *)
Definition elements (o : object) (u : ustate) : option (list (option Z)) :=
  match o with
  | Literal s => Some (Some <$> (codes s ++ [EOS]))
  | Array n => arrays u !! n
  end.

(** [p[i]] *)
Definition read_char (p : pointer) (i : Z) : U Z := fun u =>
  match elements (p_object p) u with
  | Some l =>
      let k := p_offset p + i in
      if k <? 0 then Stop (OutOfBounds p i) u
      else match l !! Z.to_nat k with
           | Some (Some c) => Ret c u
           | Some None => Stop (Uninitialised p i) u
           | None => Stop (OutOfBounds p i) u
           end
  | None => Stop (OutOfBounds p i) u
  end.

(** [p[i] = v]; literals are not written. *)
Definition write_char (p : pointer) (i v : Z) : U unit := fun u =>
  match p_object p with
  | Literal _ => Stop (OutOfBounds p i) u
  | Array n =>
      match arrays u !! n with
      | Some l =>
          let k := p_offset p + i in
          if (k <? 0) || (Z.of_nat (length l) <=? k) then Stop (OutOfBounds p i) u
          else Ret tt (set_arrays (<[n := <[Z.to_nat k := Some v]> l]> (arrays u)) u)
      | None => Stop (OutOfBounds p i) u
      end
  end.

(** [char name[size];] *)
Definition declare (name : string) (size : nat) : U unit :=
  modify (fun u => set_arrays (<[name := replicate size None]> (arrays u)) u).
Arguments declare _%_string_scope _%_nat_scope.

(** The support level reads and writes the memory it is given. *)
Fixpoint read_chars (p : pointer) (n : nat) : U (list Z) :=
  match n with
  | O => ret []
  | S n => do l <- read_chars p n; do c <- read_char p (Z.of_nat n); ret (l ++ [c])
  end.
Definition write_chars (p : pointer) (l : list Z) : U unit :=
  for_each (seqZ 0 (Z.of_nat (length l))) (fun i => write_char p i (default 0 (l !! Z.to_nat i))).

Section testers.
Context {support : SupportLevel}.

(** The services of the support level; the calls of the nucleus are not for user mode. *)
Definition SYSCALL (number : Z) (a1 : word) (a2 a3 : Z) : U Z :=
  do h <- gets calls;
  if number =? TERMINATE then stop Terminated
  else if number =? GET_TOD then do! modify (log AskedTime); ret (time_of_day h)
  else if (number =? WRITEPRINTER) || (number =? WRITETERMINAL) then
    match a1 with
    | Address p =>
        do bytes <- read_chars p (Z.to_nat a2);
        do! modify (log (Wrote number bytes));
        ret (write_reply h bytes)
    | Int _ => stop Killed
    end
  else if number =? READTERMINAL then
    match a1 with
    | Address p =>
        do! write_chars p (typed h);
        do! modify (log (ReadLine (typed h)));
        ret (read_reply h)
    | Int _ => stop Killed
    end
  else stop Killed.

(** A word of kuseg; user mode has no other memory. *)
Definition load_word (a : Z) : U Z := fun u =>
  if a <? SEG2 then Stop Killed u else Ret (default 0 (words u !! a)) u.
Definition store_word (a v : Z) : U unit := fun u =>
  if a <? SEG2 then Stop Killed u else Ret tt (set_words (<[a := v]> (words u)) u).

(** ** print.c *)

(** [for (leng = 0; str[leng] != EOS; leng++);] *)
Fixpoint strlen (fuel : nat) (str : pointer) (leng : Z) : U Z :=
  match fuel with
  | O => crash OutOfFuel
  | S fuel =>
      do c <- read_char str leng;
      if negb (c =? EOS) then strlen fuel str (i32 (leng + 1)) else ret leng
  end.

(** More turns than the object has elements. *)
Definition strlen_fuel (p : pointer) (u : ustate) : nat :=
  S (length (default [] (elements (p_object p) u))).

Definition nl : string := String (ascii_of_nat 10) EmptyString.
Definition ln (s : string) : string := String.append s nl.
Arguments ln _%_string_scope.

Definition print (device : Z) (str : pointer) : U unit :=
  let s := literal (ln "Bad device write status") in
  do fuel <- gets (strlen_fuel str);
  do leng <- strlen fuel str 0;
  do status <- SYSCALL device (Address str) leng 0;
  if status <? 0 then
    do! SYSCALL device (Address s) 26 0;
    do! SYSCALL TERMINATE (Int 0) 0 0;
    ret tt
  else ret tt.

Definition say (s : string) : U unit := print WRITETERMINAL (literal s).
Arguments say _%_string_scope.
Definition finish : U unit := do! SYSCALL TERMINATE (Int 0) 0 0; ret tt.

(** ** The Fibonacci programs *)
Fixpoint fib (fuel : nat) (i : Z) : U Z :=
  match fuel with
  | O => crash OutOfFuel
  | S fuel =>
      if (i =? 1) || (i =? 2) then ret 1
      else do a <- fib fuel (i32 (i - 1)); do b <- fib fuel (i32 (i - 2)); ret (i32 (a + b))
  end.

Definition fib_main (title : string) (n expected : Z) : U unit :=
  do! say title;
  do i <- fib (Z.to_nat n) n;
  do! say (ln "Recursion Concluded");
  do! (if i =? expected then say (ln "Recursion Concluded Successfully")
       else say (ln "ERROR: Recursion problems"));
  finish.

Definition fibSeven_main : U unit := fib_main (ln "Recursive Fibanaci (7) Test starts") 7 13.
Definition fibEight_main : U unit := fib_main (ln "Recursive Fibanaci (8) Test starts") 8 21.
Definition fibNine_main : U unit := fib_main (ln "Recursive Fibanaci (9) Test starts") 9 34.
Definition fibTen_main : U unit := fib_main (ln "Recursive Fibanaci (10) Test starts") 10 55.
Definition fibEleven_main : U unit := fib_main (ln "Recursive Fibanaci (11) Test starts") 11 89.

(** ** The terminal and printer programs *)
Definition two_lines (a b : string) : U unit := do! say a; do! say b; finish.

Definition terminalTest1_main : U unit := two_lines (ln "printTest is ok") (ln "Test Number 1").
Definition terminalTest2_main : U unit := two_lines (ln "printTest is ok") (ln "Test Number 2 is ok").
Definition terminalTest3_main : U unit := two_lines (ln "printTest is ok") (ln "Test number 3 is ok").
Definition terminalTest4_main : U unit := two_lines (ln "printTest is ok") (ln "Test number 4 is ok").
Definition terminalTest5_main : U unit := two_lines (ln "printTest is ok") (ln "Test number 5 is ok").
Definition terminalTest6_main : U unit := two_lines (ln "printTest is ok") (ln "Test number 6 is ok").
Definition terminalTest7_main : U unit := two_lines (ln "printTest is ok") (ln "Test number 7 is ok").
Definition terminalTest8_main : U unit := two_lines (ln "printTest is ok") (ln "Test number 8 is ok").

Definition printerTest_main : U unit :=
  do! say (ln "printTest is ok");
  do! print WRITEPRINTER (literal (ln "printTest is ok"));
  finish.

Definition terminalReader_main : U unit :=
  do! declare "buf" 15;
  let buf := array "buf" in
  do! say (ln "Terminal Read Test starts");
  do! say "Enter a string: ";
  do status <- SYSCALL READTERMINAL (Address buf) 0 0;
  do! write_char buf status EOS;
  do! say nl;
  do! print WRITETERMINAL buf;
  do! say (String.append nl (String.append nl (ln "Terminal Read concluded")));
  finish.

Definition strConcat_main : U unit :=
  do! declare "buf" 20;
  do! declare "buf2" 20;
  do! declare "buf3" 40;
  let buf := array "buf" in let buf2 := array "buf2" in let buf3 := array "buf3" in
  do! say (ln "Strcat Test starts");
  do! say "Enter a string: ";
  do status <- SYSCALL READTERMINAL (Address buf) 0 0;
  do! write_char buf status EOS;
  do! say nl;
  do! say "Enter another string: ";
  do status2 <- SYSCALL READTERMINAL (Address buf2) 0 0;
  do! write_char buf2 status2 EOS;
  do! for_each (seqZ 0 (status - 1)) (fun i => do c <- read_char buf i; write_char buf3 i c);
  do! for_each (seqZ 0 status2) (fun i => do c <- read_char buf2 i; write_char buf3 (status - 1 + i) c);
  do! write_char buf3 (status + status2 - 1) EOS;
  do! print WRITETERMINAL buf3;
  do! say (String.append nl (String.append nl (ln "Strcat concluded")));
  finish.

(** ** timeOfDay.c *)
Definition timeOfDay_main : U unit :=
  do _now1 <- SYSCALL GET_TOD (Int 0) 0 0;
  do! say (ln "todTest starts");
  do now1 <- SYSCALL GET_TOD (Int 0) 0 0;
  do now2 <- SYSCALL GET_TOD (Int 0) 0 0;
  do! (if u32 now2 <? u32 now1 then say (ln "todTest error: time decreasing")
       else say (ln "todTest ok: time increasing"));
  do now1 <- SYSCALL GET_TOD (Int 0) 0 0;
  do! (if u32 (now1 - now2) <? SECOND then say (ln "todTest error: did not delay one second")
       else say (ln "todTest ok: one second delay"));
  do! say (ln "todTest completed");
  do! SYSCALL GETTIME (Int 0) 0 0;
  do! say (ln "todTest error: SYS6 did not terminate");
  finish.

(** ** swapStress.c *)

(** The loop that compares; the result is [corrupt]. *)
Fixpoint swap_check (l : list Z) : U bool :=
  match l with
  | [] => ret false
  | i :: l =>
      do v <- load_word (SEG2 + i * PAGESIZE);
      if negb (v =? i) then do! say (ln "swapTest error: swapper corrupted data"); ret true
      else swap_check l
  end.

Definition swapStress_main : U unit :=
  do! say (ln "swapTest starts");
  do! for_each (seqZ 20 10) (fun i => store_word (SEG2 + i * PAGESIZE) i);
  do! say (ln "swapTest ok: wrote to pages of seg kuseg");
  do corrupt <- swap_check (seqZ 20 10);
  do! (if corrupt : bool then ret tt else say (ln "swapTest ok: data survived swapper"));
  do! load_word 0x20000000;
  do! say (ln "swapTest error: could access segment kseg1");
  finish.

(** ** asciiArt.c: the picture is the literal [stevemcqueen] *)
Definition asciiArt_main (stevemcqueen : string) : U unit :=
  do! declare "prtBuf" 101;
  let prtBuf := array "prtBuf" in
  let art := literal stevemcqueen in
  do! for_each ((fun k => 100 * k) <$> seqZ 0 259) (fun i =>
    do! for_each (seqZ 0 100) (fun j => do c <- read_char art (i + j); write_char prtBuf j c);
    print WRITEPRINTER prtBuf);
  do! for_each (seqZ 25801 127) (fun i => do c <- read_char art i; write_char prtBuf (i - 25801) c);
  do! print WRITEPRINTER prtBuf;
  do! say (ln "Instructions for validating printer output:");
  do! say "Using a standard Xterm, change the font size ";
  do! say (ln "to Unreadable, then execute 'cat printer0.umps'.");
  do! say "Please note: the terminal should be black text ";
  do! say (ln "on a white background.");
  finish.

End testers.
End Testers.
