(* ===== verification/TestersSpec.v ===== *)
(** * What the user programs do

    [strlen] finds the end of a string, [print] hands exactly its characters to the support level,
    and the loops of the programs stay inside their arrays. *)
From S2P Require Export Testers.
From stdpp Require Import strings.
From Stdlib Require Import Ascii.
#[local] Open Scope Z_scope.
Import Testers.

(** [p] points to the characters [s], which EOS follows. *)
Definition string_at (p : pointer) (s : list Z) (u : ustate) : Prop :=
  p_offset p = 0 /\ Forall (fun c => c <> EOS) s /\ Z.of_nat (length s) < 2 ^ 31 /\
  exists rest, elements (p_object p) u = Some ((Some <$> s) ++ Some EOS :: rest).

(** A literal without NUL, of a length an [int] can hold. *)
Definition printable (s : string) : bool :=
  forallb (fun c => negb (c =? EOS)) (codes s) && (Z.of_nat (length (codes s)) <? 2 ^ 31).

(** The Fibonacci numbers. *)
Fixpoint fibonacci (n : nat) : Z :=
  match n with
  | O => 0
  | S n' => match n' with O => 1 | S n'' => fibonacci n' + fibonacci n'' end
  end.

(** * Lemmas *)
Section spec.
Context {support : SupportLevel}.
Implicit Types (u : ustate) (p : pointer) (s : list Z) (i : Z).

Lemma string_read p s u (k : nat) c :
  string_at p s u -> (s ++ [EOS]) !! k = Some c -> read_char p (Z.of_nat k) u = Ret c u.
Proof.
  intros (Ho & _ & _ & rest & He) Hc. unfold read_char. rewrite He, Ho. cbn zeta.
  rewrite Z.add_0_l, Nat2Z.id, (proj2 (Z.ltb_ge _ 0)) by lia.
  apply lookup_app_Some in Hc as [Hc|[Hl Hc]].
  - rewrite lookup_app_l by (rewrite length_fmap; by eapply lookup_lt_Some). by rewrite list_lookup_fmap, Hc.
  - rewrite lookup_app_r by (by rewrite length_fmap). rewrite length_fmap.
    destruct (k - length s)%nat; [by injection Hc as <-|done].
Qed.

Lemma string_char p s u (k : nat) c : string_at p s u -> s !! k = Some c -> read_char p (Z.of_nat k) u = Ret c u.
Proof. intros Hp Hc. apply (string_read p s u k c Hp). by apply lookup_app_l_Some. Qed.

Lemma string_end p s u : string_at p s u -> read_char p (Z.of_nat (length s)) u = Ret EOS u.
Proof. intros Hp. apply (string_read p s u _ EOS Hp). by rewrite lookup_app_r, Nat.sub_diag. Qed.

Lemma strlen_ok p s u : string_at p s u -> forall fuel (k : nat),
  (k <= length s)%nat -> (length s - k < fuel)%nat ->
  strlen fuel p (Z.of_nat k) u = Ret (Z.of_nat (length s)) u.
Proof.
  intros Hp. induction fuel as [|fuel IH]; intros k Hk Hf; [lia|]. cbn [strlen].
  destruct (decide (k = length s)) as [->|Hne].
  - by rewrite (bind_ret _ _ _ _ _ (string_end p s u Hp)).
  - destruct (lookup_lt_is_Some_2 s k ltac:(lia)) as [c Hc].
    rewrite (bind_ret _ _ _ _ _ (string_char p s u k c Hp Hc)).
    pose proof Hp as (_ & Hs & Hb & _). rewrite Forall_forall in Hs.
    rewrite (proj2 (Z.eqb_neq c EOS)) by (apply Hs; by eapply list_elem_of_lookup_2). cbn [negb].
    rewrite i32_small by (unfold in_i32; lia). replace (Z.of_nat k + 1) with (Z.of_nat (S k)) by lia.
    apply IH; lia.
Qed.

Lemma read_chars_ok p s u n : string_at p s u -> (n <= length s)%nat -> read_chars p n u = Ret (take n s) u.
Proof.
  intros Hp. induction n as [|n IH]; intros Hn; [done|]. cbn [read_chars].
  rewrite (bind_ret _ _ _ _ _ (IH ltac:(lia))). destruct (lookup_lt_is_Some_2 s n ltac:(lia)) as [c Hc].
  rewrite (bind_ret _ _ _ _ _ (string_char p s u n c Hp Hc)).
  by rewrite (take_S_r s n c Hc).
Qed.

Definition writes (device : Z) : Prop := device = WRITEPRINTER \/ device = WRITETERMINAL.

Lemma write_ok device p s u (n : nat) :
  writes device -> string_at p s u -> (n <= length s)%nat ->
  SYSCALL device (Address p) (Z.of_nat n) 0 u =
    Ret (write_reply (calls u) (take n s)) (log (Wrote device (take n s)) u).
Proof.
  intros Hd Hp Hn. unfold SYSCALL. rewrite bind_gets, Nat2Z.id.
  destruct Hd as [-> | ->]; cbv [WRITEPRINTER WRITETERMINAL TERMINATE GET_TOD]; cbn [Z.eqb Pos.eqb orb];
    by rewrite (bind_ret _ _ _ _ _ (read_chars_ok p s u n Hp Hn)).
Qed.

(** The loop bound of [print] is enough. *)
Lemma strlen_print p s u : string_at p s u ->
  strlen (strlen_fuel p u) p 0 u = Ret (Z.of_nat (length s)) u.
Proof.
  intros Hp. change 0 with (Z.of_nat 0). apply (strlen_ok p s u Hp); [lia|].
  destruct Hp as (_ & _ & _ & rest & He). unfold strlen_fuel. rewrite He. cbn [default from_option id].
  rewrite length_app, length_fmap. cbn [length]. lia.
Qed.

Lemma print_ok device p s u :
  writes device -> string_at p s u -> 0 <= write_reply (calls u) s ->
  print device p u = Ret tt (log (Wrote device s) u).
Proof.
  intros Hd Hp Hr. unfold print. rewrite bind_gets, (bind_ret _ _ _ _ _ (strlen_print p s u Hp)).
  rewrite (bind_ret _ _ _ _ _ (write_ok device p s u (length s) Hd Hp ltac:(lia))).
  rewrite firstn_all. by rewrite (proj2 (Z.ltb_ge _ 0)).
Qed.

Lemma literal_at (s : string) u : printable s = true -> string_at (literal s) (codes s) u.
Proof.
  unfold printable. intros [Hf Hl]%andb_true_iff. apply Z.ltb_lt in Hl. split_and!; [done| |done|].
  - apply Forall_forall. intros c Hc. rewrite forallb_forall in Hf.
    specialize (Hf c (proj1 (list_elem_of_In _ _) Hc)). by apply negb_true_iff, Z.eqb_neq in Hf.
  - exists []. cbn [elements p_object literal]. by rewrite fmap_app.
Qed.

Lemma say_ok (s : string) u :
  printable s = true -> 0 <= write_reply (calls u) (codes s) ->
  say s u = Ret tt (log (Wrote WRITETERMINAL (codes s)) u).
Proof. intros Hs Hr. apply print_ok; [by right|by apply literal_at|done]. Qed.

Lemma finish_ok u : finish u = Stop Terminated u.
Proof. done. Qed.

(** ** The error path of [print] *)
Lemma print_fails device p s u :
  writes device -> string_at p s u -> write_reply (calls u) s < 0 ->
  print device p u = Stop (OutOfBounds (literal (ln "Bad device write status")) 25) (log (Wrote device s) u).
Proof.
  intros Hd Hp Hr. unfold print. rewrite bind_gets, (bind_ret _ _ _ _ _ (strlen_print p s u Hp)).
  rewrite (bind_ret _ _ _ _ _ (write_ok device p s u (length s) Hd Hp ltac:(lia))).
  rewrite firstn_all, (proj2 (Z.ltb_lt _ 0)) by done. unfold SYSCALL.
  destruct Hd as [-> | ->]; reflexivity.
Qed.

(** ** The Fibonacci programs *)
Lemma fibonacci_SS n : fibonacci (S (S n)) = fibonacci (S n) + fibonacci n.
Proof. done. Qed.

(** Two consecutive numbers, in one pass. *)
Fixpoint fib_pair (n : nat) : Z * Z :=
  match n with O => (0, 1) | S n => let '(a, b) := fib_pair n in (b, a + b) end.

Lemma fib_pair_ok n : fib_pair n = (fibonacci n, fibonacci (S n)).
Proof. induction n as [|n IH]; [done|]. cbn [fib_pair]. rewrite IH, (fibonacci_SS n). f_equal. lia. Qed.

Lemma fib_value n a b : fib_pair n = (a, b) -> fibonacci n = a.
Proof. rewrite fib_pair_ok. congruence. Qed.

Lemma fibonacci_mono n k : (n <= k)%nat -> 0 <= fibonacci n <= fibonacci k.
Proof.
  assert (forall j, 0 <= fibonacci j <= fibonacci (S j)) as Hs.
  { induction j as [|j IH]; [cbn; lia|]. rewrite fibonacci_SS. destruct j; [cbn; lia|]. rewrite fibonacci_SS in *. lia. }
  induction 1 as [|k _ IH]; [split; [apply Hs|lia]|]. specialize (Hs k). lia.
Qed.

(** An [int] holds them up to the 46th. *)
Lemma fibonacci_small n : (n <= 46)%nat -> in_i32 (fibonacci n).
Proof.
  intros Hn. pose proof (fibonacci_mono n 46 Hn) as H.
  rewrite (fib_value 46 1836311903 2971215073) in H by (vm_compute; reflexivity). unfold in_i32. lia.
Qed.

Lemma i32_period z k : i32 (z + k * 2 ^ 32) = i32 z.
Proof.
  unfold i32. f_equal. replace (z + k * 2 ^ 32 + 2 ^ 31) with (z + 2 ^ 31 + k * 2 ^ 32) by lia. by rewrite Z.mod_add.
Qed.

Lemma i32_repr z : exists k, i32 z = z + k * 2 ^ 32.
Proof.
  exists (- ((z + 2 ^ 31) / 2 ^ 32)). unfold i32. rewrite Z.mod_eq by lia. lia.
Qed.

Lemma i32_plus a b : i32 (i32 a + i32 b) = i32 (a + b).
Proof.
  destruct (i32_repr a) as [k ->], (i32_repr b) as [j ->].
  replace (a + k * 2 ^ 32 + (b + j * 2 ^ 32)) with (a + b + (k + j) * 2 ^ 32) by lia. apply i32_period.
Qed.

Lemma fib_ok fuel n u : (1 <= n <= fuel)%nat -> Z.of_nat n < 2 ^ 31 ->
  fib fuel (Z.of_nat n) u = Ret (i32 (fibonacci n)) u.
Proof.
  revert n. induction fuel as [|fuel IH]; intros n Hn Hb; [lia|]. cbn [fib].
  destruct n as [|[|[|n]]]; [lia|done|done|].
  rewrite !(proj2 (Z.eqb_neq _ _)) by lia. cbn [orb].
  rewrite (i32_small (Z.of_nat (S (S (S n))) - 1)), (i32_small (Z.of_nat (S (S (S n))) - 2)) by (unfold in_i32; lia).
  replace (Z.of_nat (S (S (S n))) - 1) with (Z.of_nat (S (S n))) by lia.
  replace (Z.of_nat (S (S (S n))) - 2) with (Z.of_nat (S n)) by lia.
  rewrite (bind_ret _ _ _ _ _ (IH (S (S n)) ltac:(lia) ltac:(lia))).
  rewrite (bind_ret _ _ _ _ _ (IH (S n) ltac:(lia) ltac:(lia))).
  rewrite (fibonacci_SS (S n)). by rewrite i32_plus.
Qed.

(** ** Programs that only print *)

(** The support level writes what it is given. *)
Definition devices_ok : Prop := forall h bytes, 0 <= write_reply h bytes.

Definition line (s : string) : call := Wrote WRITETERMINAL (codes s).
Definition said (l : list call) u : ustate := MkU (arrays u) (words u) (calls u ++ l).

Lemma said_nil u : said [] u = u.
Proof. destruct u. unfold said. cbn. by rewrite app_nil_r. Qed.

Lemma log_said c (l : list call) u : log c (said l u) = said (l ++ [c]) u.
Proof. unfold log, said. cbn. by rewrite app_assoc. Qed.

Lemma say_said (s : string) (l : list call) u :
  devices_ok -> printable s = true -> say s (said l u) = Ret tt (said (l ++ [line s]) u).
Proof. intros Hd Hs. rewrite say_ok by auto. by rewrite log_said. Qed.

Lemma print_said device (s : string) (l : list call) u :
  devices_ok -> writes device -> printable s = true ->
  print device (literal s) (said l u) = Ret tt (said (l ++ [Wrote device (codes s)]) u).
Proof. intros Hd Hw Hs. rewrite (print_ok device _ (codes s)) by auto using literal_at. by rewrite log_said. Qed.

Lemma two_lines_ok a b u :
  devices_ok -> printable a = true -> printable b = true ->
  two_lines a b u = Stop Terminated (said [line a; line b] u).
Proof.
  intros Hd Ha Hb. rewrite <- (said_nil u) at 1. unfold two_lines.
  rewrite (bind_ret _ _ _ _ _ (say_said a [] u Hd Ha)).
  by rewrite (bind_ret _ _ _ _ _ (say_said b _ u Hd Hb)).
Qed.

Lemma fib_main_ok title (n : nat) u :
  devices_ok -> printable title = true -> (1 <= n <= 46)%nat ->
  fib_main title (Z.of_nat n) (fibonacci n) u = Stop Terminated
    (said [line title; line (ln "Recursion Concluded"); line (ln "Recursion Concluded Successfully")] u).
Proof.
  intros Hd Ht Hn. rewrite <- (said_nil u) at 1. unfold fib_main.
  rewrite (bind_ret _ _ _ _ _ (say_said title [] u Hd Ht)). rewrite Nat2Z.id.
  rewrite (bind_ret _ _ _ _ _ (fib_ok n n _ ltac:(lia) ltac:(lia))).
  rewrite (bind_ret _ _ _ _ _ (say_said (ln "Recursion Concluded") _ u Hd eq_refl)).
  rewrite (i32_small (fibonacci n)) by (apply fibonacci_small; lia). rewrite Z.eqb_refl.
  by rewrite (bind_ret _ _ _ _ _ (say_said (ln "Recursion Concluded Successfully") _ u Hd eq_refl)).
Qed.

Lemma printerTest_ok u : devices_ok ->
  printerTest_main u = Stop Terminated
    (said [line (ln "printTest is ok"); Wrote WRITEPRINTER (codes (ln "printTest is ok"))] u).
Proof.
  intros Hd. rewrite <- (said_nil u) at 1. unfold printerTest_main.
  rewrite (bind_ret _ _ _ _ _ (say_said (ln "printTest is ok") [] u Hd eq_refl)).
  by rewrite (bind_ret _ _ _ _ _ (print_said WRITEPRINTER (ln "printTest is ok") _ u Hd (or_introl eq_refl) eq_refl)).
Qed.
End spec.
