(* ===== verification/TestersArrays.v ===== *)
(** * Local arrays of the user programs

    Loops that fill an array, lines read into an array, and the programs that use them. *)
From S2P Require Export TestersSpec.
From stdpp Require Import strings.
From Stdlib Require Import Ascii.
#[local] Open Scope Z_scope.
Import Testers.

(** The array [n] holds the string [s]. *)
Definition holds (A : gmap string (list (option Z))) (n : string) (s : list Z) : Prop :=
  exists rest, A !! n = Some ((Some <$> s) ++ Some EOS :: rest).

(** A line that can be typed: no NUL in it. *)
Definition no_nul (s : list Z) : Prop := Forall (fun c => c <> EOS) s.

Section arrays.
Context {support : SupportLevel}.
Implicit Types (u : ustate) (A : gmap string (list (option Z))) (h : list call) (w : gmap Z Z) (n : string).

Lemma write_at n a u (k : nat) v :
  arrays u !! n = Some a -> (k < length a)%nat ->
  write_char (array n) (Z.of_nat k) v u = Ret tt (set_arrays (<[n := <[k := Some v]> a]> (arrays u)) u).
Proof.
  intros Ha Hk. unfold write_char. cbn [p_object array p_offset]. rewrite Ha. cbv zeta. rewrite Z.add_0_l.
  rewrite (proj2 (Z.ltb_ge _ 0)), (proj2 (Z.leb_gt _ _)) by lia. cbn [orb]. by rewrite Nat2Z.id.
Qed.

(** Past the end *)
Lemma write_past n a u i v :
  arrays u !! n = Some a -> Z.of_nat (length a) <= i ->
  write_char (array n) i v u = Stop (OutOfBounds (array n) i) u.
Proof.
  intros Ha Hi. unfold write_char. cbn [p_object array p_offset]. rewrite Ha. cbv zeta. rewrite Z.add_0_l.
  by rewrite (proj2 (Z.leb_le _ _)), orb_true_r by lia.
Qed.

(** [for (i = z; ...; i++) n[off + (i - z)] = l[i - z];] *)
Lemma fill_loop n (body : Z -> U unit) (l : list Z) : forall z (off : nat) a u,
  arrays u !! n = Some a -> (off + length l <= length a)%nat ->
  (forall (k : nat) c u', l !! k = Some c -> (forall x, x <> n -> arrays u' !! x = arrays u !! x) ->
     body (z + Z.of_nat k) u' = write_char (array n) (Z.of_nat (off + k)) c u') ->
  for_each (seqZ z (Z.of_nat (length l))) body u =
    Ret tt (set_arrays (<[n := take off a ++ (Some <$> l) ++ drop (off + length l) a]> (arrays u)) u).
Proof.
  induction l as [|c l IH]; intros z off a u Ha Hl Hbody.
  - cbn [length fmap list_fmap app]. rewrite Nat.add_0_r, take_drop, insert_id by done. by destruct u.
  - cbn [length] in *. rewrite seqZ_cons by lia. rewrite for_each_cons.
    pose proof (Hbody 0%nat c u eq_refl ltac:(done)) as H0. rewrite Z.add_0_r, Nat.add_0_r in H0.
    rewrite (write_at n a u off c Ha ltac:(lia)) in H0. rewrite (bind_ret _ _ _ _ _ H0).
    replace (Z.pred (Z.of_nat (S (length l)))) with (Z.of_nat (length l)) by lia.
    rewrite (IH (Z.succ z) (S off) (<[off := Some c]> a));
      [|cbn; apply lookup_insert_eq|rewrite length_insert; lia|].
    + cbn. unfold set_arrays. cbn. rewrite insert_insert_eq.
      rewrite (take_S_r _ _ (Some c)) by (apply list_lookup_insert_eq; lia).
      rewrite take_insert_ge by lia. rewrite drop_insert_lt by lia.
      rewrite <- app_assoc. cbn. by rewrite Nat.add_succ_r.
    + intros k d u' Hd Hu'. replace (Z.succ z + Z.of_nat k) with (z + Z.of_nat (S k)) by lia.
      replace (S off + k)%nat with (off + S k)%nat by lia. apply Hbody; [done|].
      intros x Hx. rewrite Hu' by done. cbn. by rewrite lookup_insert_ne.
Qed.

Lemma write_chars_ok n a u (l : list Z) :
  arrays u !! n = Some a -> (length l <= length a)%nat ->
  write_chars (array n) l u = Ret tt (set_arrays (<[n := (Some <$> l) ++ drop (length l) a]> (arrays u)) u).
Proof.
  intros Ha Hl. unfold write_chars. rewrite (fill_loop n _ l 0 0 a u Ha Hl); [done|].
  intros k c u' Hc _. by rewrite Z.add_0_l, Nat2Z.id, Hc.
Qed.

Lemma read_line n A w h a :
  A !! n = Some a -> (length (typed h) <= length a)%nat ->
  SYSCALL READTERMINAL (Address (array n)) 0 0 (MkU A w h) = Ret (read_reply h)
    (MkU (<[n := (Some <$> typed h) ++ drop (length (typed h)) a]> A) w (h ++ [ReadLine (typed h)])).
Proof.
  intros Ha Hl. unfold SYSCALL. rewrite bind_gets. cbv [READTERMINAL TERMINATE GET_TOD WRITEPRINTER WRITETERMINAL].
  cbn [Z.eqb Pos.eqb orb calls].
  by rewrite (bind_ret _ _ _ _ _ (write_chars_ok n a (MkU A w h) (typed h) Ha Hl)).
Qed.

(** [n[status] = EOS;] after a read that fits *)
Lemma end_line n A w h a (l : list Z) :
  A !! n = Some a -> (length l < length a)%nat ->
  write_char (array n) (Z.of_nat (length l)) EOS (MkU (<[n := (Some <$> l) ++ drop (length l) a]> A) w h) =
    Ret tt (MkU (<[n := (Some <$> l) ++ Some EOS :: drop (S (length l)) a]> A) w h).
Proof.
  intros Ha Hl. destruct (drop (length l) a) as [|x rest] eqn:E.
  { apply (f_equal length) in E. rewrite length_drop in E. cbn in E. lia. }
  rewrite (write_at n ((Some <$> l) ++ x :: rest)); [|cbn; apply lookup_insert_eq|
    rewrite length_app, length_fmap; cbn; lia].
  unfold set_arrays. cbn. rewrite insert_insert_eq. do 3 f_equal.
  rewrite <- (length_fmap Some l) at 1. rewrite insert_app_r_alt, Nat.sub_diag by lia. cbn.
  by rewrite <- Nat.add_1_r, <- drop_drop, E.
Qed.

Lemma holds_at A w h n s : holds A n s -> no_nul s -> Z.of_nat (length s) < 2 ^ 31 -> string_at (array n) s (MkU A w h).
Proof. intros [rest Hr] Hs Hl. split_and!; [done..|]. by exists rest. Qed.

Lemma say_at (s : string) A w h :
  devices_ok -> printable s = true -> say s (MkU A w h) = Ret tt (MkU A w (h ++ [line s])).
Proof. intros Hd Hs. by rewrite say_ok by auto. Qed.

Lemma print_array n s A w h :
  devices_ok -> holds A n s -> no_nul s -> Z.of_nat (length s) < 2 ^ 31 ->
  print WRITETERMINAL (array n) (MkU A w h) = Ret tt (MkU A w (h ++ [Wrote WRITETERMINAL s])).
Proof.
  intros Hd Hh Hs Hl. rewrite (print_ok WRITETERMINAL _ s); [done|by right|by apply holds_at|apply Hd].
Qed.

(** ** strConcat.c and terminalReader.c *)

(** What the terminal delivers after the calls [h]: a line without NUL, and its length. *)
Definition types_line h (l : list Z) : Prop :=
  typed h = l /\ read_reply h = Z.of_nat (length l) /\ no_nul l.

Definition prompt1 h : list call := (h ++ [line (ln "Strcat Test starts")]) ++ [line "Enter a string: "].
Definition prompt2 h (l1 : list Z) : list call :=
  ((prompt1 h ++ [ReadLine l1]) ++ [line nl]) ++ [line "Enter another string: "].

(** The part of [strConcat_main] after the input. *)
Definition concat_rest (status status2 : Z) : U unit :=
  let buf := array "buf" in let buf2 := array "buf2" in let buf3 := array "buf3" in
  do! for_each (seqZ 0 (status - 1)) (fun i => do c <- read_char buf i; write_char buf3 i c);
  do! for_each (seqZ 0 status2) (fun i => do c <- read_char buf2 i; write_char buf3 (status - 1 + i) c);
  do! write_char buf3 (status + status2 - 1) EOS;
  do! print WRITETERMINAL buf3;
  do! say (String.append nl (String.append nl (ln "Strcat concluded")));
  finish.

(** Copying a held string, or its beginning, to another array. *)
Lemma copy_loop src dst s (l : list Z) (off : nat) a A w h :
  holds A src s -> no_nul s -> Z.of_nat (length s) < 2 ^ 31 -> src <> dst -> l `prefix_of` s ->
  A !! dst = Some a -> (off + length l <= length a)%nat ->
  for_each (seqZ 0 (Z.of_nat (length l)))
    (fun i => do c <- read_char (array src) i; write_char (array dst) (Z.of_nat off + i) c) (MkU A w h) =
    Ret tt (MkU (<[dst := take off a ++ (Some <$> l) ++ drop (off + length l) a]> A) w h).
Proof.
  intros Hs Hn Hb Hne [l' Hp] Ha Hl. rewrite (fill_loop dst _ l 0 off a (MkU A w h) Ha Hl); [done|].
  intros k c u' Hc Hu. rewrite Z.add_0_l. cbn [arrays] in Hu.
  assert (string_at (array src) s u') as Hat.
  { split_and!; [done..|]. destruct Hs as [rest Hr]. exists rest. cbn. by rewrite Hu. }
  rewrite (bind_ret _ _ _ _ _ (string_char _ s u' k c Hat ltac:(rewrite Hp; by apply lookup_app_l_Some))).
  f_equal. lia.
Qed.

(** The lines are joined without the last character of the first. *)
Definition joined (l1 l2 : list Z) : list Z := take (length l1 - 1) l1 ++ l2.

Lemma concat_rest_ok A w h (l1 l2 : list Z) :
  devices_ok -> holds A "buf" l1 -> holds A "buf2" l2 -> no_nul l1 -> no_nul l2 ->
  A !! "buf3" = Some (replicate 40 None) -> (1 <= length l1 <= 19)%nat -> (length l2 <= 19)%nat ->
  exists A', concat_rest (Z.of_nat (length l1)) (Z.of_nat (length l2)) (MkU A w h) =
    Stop Terminated (MkU A' w ((h ++ [Wrote WRITETERMINAL (joined l1 l2)]) ++
                               [line (String.append nl (String.append nl (ln "Strcat concluded")))])).
Proof.
  intros Hd H1 H2 N1 N2 H3 L1 L2. set (m1 := take (length l1 - 1) l1).
  assert (length m1 = length l1 - 1)%nat as Lm by (unfold m1; rewrite length_take; lia).
  unfold concat_rest. cbv zeta. replace (Z.of_nat (length l1) - 1) with (Z.of_nat (length m1)) by lia.
  pose proof (copy_loop "buf" "buf3" l1 m1 0 _ A w h H1 N1 ltac:(lia) ltac:(done) ltac:(apply prefix_take) H3) as C1.
  rewrite length_replicate in C1. specialize (C1 ltac:(lia)). rewrite (bind_ret _ _ _ _ _ C1). clear C1.
  cbn [take app Nat.add]. set (a1 := (Some <$> m1) ++ drop (length m1) (replicate 40 None)).
  assert (length a1 = 40)%nat as La by (unfold a1; rewrite length_app, length_fmap, length_drop, length_replicate; lia).
  assert (holds (<["buf3":=a1]> A) "buf2" l2) as H2'.
  { destruct H2 as [rest Hr]. exists rest. by rewrite lookup_insert_ne. }
  pose proof (copy_loop "buf2" "buf3" l2 l2 (length m1) a1 (<["buf3":=a1]> A) w h H2' N2 ltac:(lia) ltac:(done)
    ltac:(done) ltac:(apply lookup_insert_eq) ltac:(lia)) as C2.
  rewrite (bind_ret _ _ _ _ _ C2). clear C2. rewrite insert_insert_eq.
  assert (take (length m1) a1 = Some <$> m1) as -> by (unfold a1; rewrite take_app_length'; [done|by rewrite length_fmap]).
  assert (drop (length m1 + length l2) a1 = drop (length m1 + length l2) (replicate 40 None)) as ->.
  { unfold a1. rewrite <- drop_drop, drop_app_length' by (by rewrite length_fmap). by rewrite drop_drop. }
  assert (Some <$> joined l1 l2 = (Some <$> m1) ++ (Some <$> l2)) as Hj by (unfold joined; by rewrite fmap_app).
  assert (length (joined l1 l2) = length m1 + length l2)%nat as Lj by (unfold joined; rewrite length_app; fold m1; lia).
  rewrite app_assoc, <- Hj, <- Lj.
  replace (Z.of_nat (length l1) + Z.of_nat (length l2) - 1) with (Z.of_nat (length (joined l1 l2))) by lia.
  rewrite (bind_ret _ _ _ _ _ (end_line "buf3" A w h (replicate 40 None) (joined l1 l2) H3 ltac:(rewrite length_replicate; lia))).
  eexists. erewrite bind_ret; [|apply (print_array _ (joined l1 l2)); [done|eexists; apply lookup_insert_eq| |lia]].
  - by rewrite (bind_ret _ _ _ _ _ (say_at (String.append nl (String.append nl (ln "Strcat concluded"))) _ _ _ Hd eq_refl)).
  - unfold no_nul, joined. apply Forall_app. split; [by apply Forall_take|done].
Qed.

Lemma strConcat_rest u : strConcat_main u =
  (do! say (ln "Strcat Test starts");
   do! say "Enter a string: ";
   do status <- SYSCALL READTERMINAL (Address (array "buf")) 0 0;
   do! write_char (array "buf") status EOS;
   do! say nl;
   do! say "Enter another string: ";
   do status2 <- SYSCALL READTERMINAL (Address (array "buf2")) 0 0;
   do! write_char (array "buf2") status2 EOS;
   concat_rest status status2)
  (MkU (<["buf3" := replicate 40 None]> (<["buf2" := replicate 20 None]> (<["buf" := replicate 20 None]> (arrays u))))
    (words u) (calls u)).
Proof. reflexivity. Qed.

Ltac find_array := rewrite ?lookup_insert_ne by done; apply lookup_insert_eq.
Ltac say_line Hd s := rewrite (bind_ret _ _ _ _ _ (say_at s _ _ _ Hd eq_refl)).

Lemma strConcat_ok u (l1 l2 : list Z) :
  devices_ok -> types_line (prompt1 (calls u)) l1 -> types_line (prompt2 (calls u) l1) l2 ->
  (1 <= length l1 <= 19)%nat -> (length l2 <= 19)%nat ->
  exists A', strConcat_main u = Stop Terminated
    (MkU A' (words u) (((prompt2 (calls u) l1 ++ [ReadLine l2]) ++ [Wrote WRITETERMINAL (joined l1 l2)]) ++
                       [line (String.append nl (String.append nl (ln "Strcat concluded")))])).
Proof.
  intros Hd (T1 & R1 & N1) (T2 & R2 & N2) L1 L2. rewrite strConcat_rest.
  say_line Hd (ln "Strcat Test starts"). say_line Hd "Enter a string: "%string. fold (prompt1 (calls u)).
  set (A0 := <["buf3" := _]> _).
  assert (A0 !! "buf" = Some (replicate 20 None)) as B1 by (unfold A0; find_array).
  rewrite (bind_ret _ _ _ _ _ (read_line "buf" A0 _ _ _ B1 ltac:(rewrite T1, length_replicate; lia))), T1, R1.
  rewrite (bind_ret _ _ _ _ _ (end_line "buf" A0 _ _ _ l1 B1 ltac:(rewrite length_replicate; lia))).
  say_line Hd nl. say_line Hd "Enter another string: "%string. fold (prompt2 (calls u) l1).
  set (A1 := <["buf" := _]> A0).
  assert (A1 !! "buf2" = Some (replicate 20 None)) as B2 by (unfold A1, A0; find_array).
  rewrite (bind_ret _ _ _ _ _ (read_line "buf2" A1 _ _ _ B2 ltac:(rewrite T2, length_replicate; lia))), T2, R2.
  rewrite (bind_ret _ _ _ _ _ (end_line "buf2" A1 _ _ _ l2 B2 ltac:(rewrite length_replicate; lia))).
  apply concat_rest_ok; try done.
  - eexists. unfold A1. find_array.
  - eexists. find_array.
  - unfold A1, A0. find_array.
Qed.

(** A line that does not fit *)
Lemma write_chars_past n a u (l : list Z) :
  arrays u !! n = Some a -> (length a < length l)%nat ->
  exists u', write_chars (array n) l u = Stop (OutOfBounds (array n) (Z.of_nat (length a))) u'.
Proof.
  intros Ha Hl. unfold write_chars.
  replace (Z.of_nat (length l)) with (Z.of_nat (length a) + Z.of_nat (length l - length a)) by lia.
  rewrite seqZ_app by lia. rewrite for_each_app. rewrite Z.add_0_l.
  assert (length (take (length a) l) = length a) as Lt by (rewrite length_take; lia).
  pose proof (fill_loop n (fun i => write_char (array n) i (default 0 (l !! Z.to_nat i))) (take (length a) l) 0 0 a u Ha
    ltac:(lia)) as Hf. rewrite Lt in Hf. cbn [Nat.add take app] in Hf.
  rewrite (bind_ret _ _ _ _ _ (Hf ltac:(intros k c u' Hc _; rewrite Z.add_0_l, Nat2Z.id;
    apply lookup_take_Some in Hc as [-> _]; done))).
  rewrite seqZ_cons, for_each_cons by lia. eexists. apply bind_stop. eapply write_past.
  - cbn. apply lookup_insert_eq.
  - rewrite !length_app, length_fmap, length_drop, Lt. change (length (take 0 a)) with 0%nat. lia.
Qed.

Lemma read_past n A w h a (k : Z -> U unit) :
  A !! n = Some a -> (length a <= length (typed h))%nat -> read_reply h = Z.of_nat (length (typed h)) ->
  exists u', (do status <- SYSCALL READTERMINAL (Address (array n)) 0 0; do! write_char (array n) status EOS; k status)
    (MkU A w h) = Stop (OutOfBounds (array n) (Z.of_nat (length a))) u'.
Proof.
  intros Ha Hl Hr. destruct (decide (length (typed h) = length a)) as [E|Hne].
  - rewrite (bind_ret _ _ _ _ _ (read_line n A w h a Ha ltac:(lia))), Hr, E. eexists. apply bind_stop.
    eapply write_past; [cbn; apply lookup_insert_eq|]. rewrite length_app, length_fmap, length_drop. lia.
  - destruct (write_chars_past n a (MkU A w h) (typed h) Ha ltac:(lia)) as [u' Hu]. exists u'. apply bind_stop.
    unfold SYSCALL. rewrite bind_gets. cbv [READTERMINAL TERMINATE GET_TOD WRITEPRINTER WRITETERMINAL].
    cbn [Z.eqb Pos.eqb orb calls]. by apply bind_stop.
Qed.

Lemma strConcat_overflow u (l1 : list Z) :
  devices_ok -> types_line (prompt1 (calls u)) l1 -> (20 <= length l1)%nat ->
  exists u', strConcat_main u = Stop (OutOfBounds (array "buf") 20) u'.
Proof.
  intros Hd (T1 & R1 & N1) L1. rewrite strConcat_rest.
  say_line Hd (ln "Strcat Test starts"). say_line Hd "Enter a string: "%string. fold (prompt1 (calls u)).
  apply (read_past "buf" _ _ _ (replicate 20 None)); [find_array|rewrite T1; done|by rewrite R1, T1].
Qed.

(** ** terminalReader.c *)
Definition reader_prompt h : list call := (h ++ [line (ln "Terminal Read Test starts")]) ++ [line "Enter a string: "].

Lemma terminalReader_ok u (l : list Z) :
  devices_ok -> types_line (reader_prompt (calls u)) l -> (length l <= 14)%nat ->
  exists A', terminalReader_main u = Stop Terminated
    (MkU A' (words u) ((((reader_prompt (calls u) ++ [ReadLine l]) ++ [line nl]) ++ [Wrote WRITETERMINAL l]) ++
                       [line (String.append nl (String.append nl (ln "Terminal Read concluded")))])).
Proof.
  intros Hd (T1 & R1 & N1) L1. unfold terminalReader_main, declare. rewrite bind_modify. cbv zeta.
  unfold set_arrays. cbn [arrays words calls].
  say_line Hd (ln "Terminal Read Test starts"). say_line Hd "Enter a string: "%string. fold (reader_prompt (calls u)).
  set (A0 := <["buf" := _]> _). assert (A0 !! "buf" = Some (replicate 15 None)) as B1 by (unfold A0; find_array).
  rewrite (bind_ret _ _ _ _ _ (read_line "buf" A0 _ _ _ B1 ltac:(rewrite T1, length_replicate; lia))), T1, R1.
  rewrite (bind_ret _ _ _ _ _ (end_line "buf" A0 _ _ _ l B1 ltac:(rewrite length_replicate; lia))).
  say_line Hd nl.
  erewrite bind_ret; [|apply (print_array _ l); [done|eexists; find_array|done|lia]].
  say_line Hd (String.append nl (String.append nl (ln "Terminal Read concluded"))). by eexists.
Qed.

(** ** swapStress.c: user mode ends at the access to kseg1 *)
Definition pages (l : list Z) w : gmap Z Z := foldl (fun w i => <[SEG2 + i * PAGESIZE := i]> w) w l.

Lemma swap_store l A w h : Forall (fun i => 0 <= i) l ->
  for_each l (fun i => store_word (SEG2 + i * PAGESIZE) i) (MkU A w h) = Ret tt (MkU A (pages l w) h).
Proof.
  revert w. induction l as [|i l IH]; intros w Hl; [done|]. apply Forall_cons in Hl as [Hi Hl].
  rewrite for_each_cons. unfold store_word at 1. erewrite bind_ret.
  2: { unfold SEG2, PAGESIZE. rewrite (proj2 (Z.ltb_ge _ _)) by lia. reflexivity. }
  unfold set_words. cbn [arrays words calls]. by rewrite IH.
Qed.

Lemma pages_lookup l w i : NoDup l -> i ∈ l -> pages l w !! (SEG2 + i * PAGESIZE) = Some i.
Proof.
  assert (forall l w i, (i ∉ l) -> pages l w !! (SEG2 + i * PAGESIZE) = w !! (SEG2 + i * PAGESIZE)) as Hout.
  { intros l'. induction l' as [|j l' IH]; intros w' k Hk; [done|]. apply not_elem_of_cons in Hk as [Hne Hk].
    cbn. fold (pages l' (<[SEG2 + j * PAGESIZE := j]> w')). rewrite IH by done. apply lookup_insert_ne.
    unfold SEG2, PAGESIZE. lia. }
  revert w. induction l as [|j l IH]; intros w Hl Hi; [by apply not_elem_of_nil in Hi|].
  apply NoDup_cons in Hl as [Hj Hl]. cbn. fold (pages l (<[SEG2 + j * PAGESIZE := j]> w)).
  apply elem_of_cons in Hi as [->|Hi]; [|by apply IH]. rewrite Hout by done. apply lookup_insert_eq.
Qed.

Lemma swap_check_ok l A w h : (forall i, i ∈ l -> 0 <= i /\ w !! (SEG2 + i * PAGESIZE) = Some i) ->
  swap_check l (MkU A w h) = Ret false (MkU A w h).
Proof.
  induction l as [|i l IH]; intros Hl; [done|]. destruct (Hl i) as [Hi Hw]; [by left|]. cbn [swap_check].
  unfold load_word at 1. erewrite bind_ret.
  2: { unfold SEG2, PAGESIZE in *. rewrite (proj2 (Z.ltb_ge _ _)) by lia. cbn [words]. by rewrite Hw. }
  cbn [default from_option id]. rewrite Z.eqb_refl. apply IH. intros j Hj. apply Hl. by right.
Qed.

Lemma swapStress_ok u : devices_ok ->
  exists u', swapStress_main u = Stop Killed u' /\
    calls u' = ((calls u ++ [line (ln "swapTest starts")]) ++ [line (ln "swapTest ok: wrote to pages of seg kuseg")]) ++
               [line (ln "swapTest ok: data survived swapper")].
Proof.
  intros Hd. destruct u as [A w h]. unfold swapStress_main.
  say_line Hd (ln "swapTest starts").
  rewrite (bind_ret _ _ _ _ _ (swap_store (seqZ 20 10) A w _ ltac:(apply Forall_forall; intros i Hi%elem_of_seqZ; lia))).
  say_line Hd (ln "swapTest ok: wrote to pages of seg kuseg").
  erewrite bind_ret; [|apply swap_check_ok; intros i Hi; split;
    [apply elem_of_seqZ in Hi; lia|apply pages_lookup; [apply NoDup_seqZ|done]]].
  say_line Hd (ln "swapTest ok: data survived swapper"). by eexists.
Qed.

(** ** timeOfDay.c *)
Lemma get_tod A w h : SYSCALL GET_TOD (Int 0) 0 0 (MkU A w h) = Ret (time_of_day h) (MkU A w (h ++ [AskedTime])).
Proof. done. Qed.

(** With a clock that does not go back and three readings less than a second apart *)
Lemma timeOfDay_ok u : devices_ok ->
  let h1 := ((calls u ++ [AskedTime]) ++ [line (ln "todTest starts")]) in
  let h2 := h1 ++ [AskedTime] in
  let h3 := (h2 ++ [AskedTime]) ++ [line (ln "todTest ok: time increasing")] in
  u32 (time_of_day h1) <= u32 (time_of_day h2) ->
  exists u', timeOfDay_main u = Stop Killed u' /\
    calls u' = ((h3 ++ [AskedTime]) ++
                [line (ln (if u32 (time_of_day h3 - time_of_day h2) <? SECOND
                           then "todTest error: did not delay one second" else "todTest ok: one second delay"))]) ++
               [line (ln "todTest completed")].
Proof.
  intros Hd h1 h2 h3 Ht. destruct u as [A w h]. cbn [calls] in *. unfold timeOfDay_main.
  rewrite (bind_ret _ _ _ _ _ (get_tod _ _ _)). say_line Hd (ln "todTest starts"). fold h1.
  rewrite (bind_ret _ _ _ _ _ (get_tod _ _ _)). fold h2. rewrite (bind_ret _ _ _ _ _ (get_tod _ _ _)).
  rewrite (proj2 (Z.ltb_ge _ _)) by done. say_line Hd (ln "todTest ok: time increasing"). fold h3.
  rewrite (bind_ret _ _ _ _ _ (get_tod _ _ _)).
  destruct (_ <? SECOND).
  - say_line Hd (ln "todTest error: did not delay one second"). say_line Hd (ln "todTest completed"). by eexists.
  - say_line Hd (ln "todTest ok: one second delay"). say_line Hd (ln "todTest completed"). by eexists.
Qed.

(** ** asciiArt.c: the buffer has no NUL when it is printed *)
Lemma strlen_unterminated p s rest u : p_offset p = 0 -> no_nul s -> Z.of_nat (length s) < 2 ^ 31 ->
  elements (p_object p) u = Some ((Some <$> s) ++ None :: rest) -> forall fuel (k : nat),
  (k <= length s)%nat -> (length s - k < fuel)%nat ->
  strlen fuel p (Z.of_nat k) u = Stop (Uninitialised p (Z.of_nat (length s))) u.
Proof.
  intros Ho Hs Hb He. induction fuel as [|fuel IH]; intros k Hk Hf; [lia|]. cbn [strlen].
  assert (forall o, ((Some <$> s) ++ None :: rest) !! k = Some o ->
    read_char p (Z.of_nat k) u = match o with Some c => Ret c u | None => Stop (Uninitialised p (Z.of_nat k)) u end) as Hr.
  { intros o Hc. unfold read_char. rewrite He, Ho. cbv zeta.
    rewrite Z.add_0_l, Nat2Z.id, (proj2 (Z.ltb_ge _ 0)), Hc by lia. by destruct o. }
  destruct (decide (k = length s)) as [->|Hne].
  - apply bind_stop. rewrite (Hr None); [done|]. by rewrite lookup_app_r, length_fmap, Nat.sub_diag by by rewrite length_fmap.
  - destruct (lookup_lt_is_Some_2 s k ltac:(lia)) as [c Hc].
    rewrite (bind_ret _ _ _ _ _ (Hr (Some c) ltac:(apply lookup_app_l_Some; by rewrite list_lookup_fmap, Hc))).
    unfold no_nul in Hs. rewrite Forall_forall in Hs.
    rewrite (proj2 (Z.eqb_neq c EOS)) by (apply Hs; by eapply list_elem_of_lookup_2). cbn [negb].
    rewrite i32_small by (unfold in_i32; lia). replace (Z.of_nat k + 1) with (Z.of_nat (S k)) by lia. apply IH; lia.
Qed.

Lemma asciiArt_unterminated stevemcqueen u :
  printable stevemcqueen = true -> (100 <= length (codes stevemcqueen))%nat ->
  exists u', asciiArt_main stevemcqueen u = Stop (Uninitialised (array "prtBuf") 100) u' /\ calls u' = calls u.
Proof.
  intros Hp Hl. unfold asciiArt_main, declare. rewrite bind_modify. cbv zeta.
  set (u1 := set_arrays _ u). set (s := take 100 (codes stevemcqueen)).
  assert (length s = 100)%nat as Ls by (unfold s; rewrite length_take; lia).
  change ((fun k => 100 * k) <$> seqZ 0 259) with (0 :: ((fun k => 100 * k) <$> seqZ 1 258)).
  rewrite for_each_cons.
  assert (for_each (seqZ 0 100) (fun j => do c <- read_char (literal stevemcqueen) (0 + j); write_char (array "prtBuf") j c) u1 =
    Ret tt (set_arrays (<["prtBuf" := (Some <$> s) ++ [None]]> (arrays u1)) u1)) as Hfill.
  { pose proof (fill_loop "prtBuf" (fun j => do c <- read_char (literal stevemcqueen) (0 + j); write_char (array "prtBuf") j c)
      s 0 0 (replicate 101 None) u1 ltac:(apply lookup_insert_eq) ltac:(rewrite Ls, length_replicate; lia)) as Hf.
    rewrite Ls in Hf. apply Hf. intros k c u' Hc _. rewrite !Z.add_0_l. apply lookup_take_Some in Hc as [Hc _].
    by rewrite (bind_ret _ _ _ _ _ (string_char _ _ u' k c (literal_at stevemcqueen u' Hp) Hc)). }
  eexists. split; [apply bind_stop, bind_stop|].
  - rewrite (bind_ret _ _ _ _ _ Hfill). unfold print. rewrite bind_gets. apply bind_stop.
    change 0 with (Z.of_nat 0) at 1. replace 100 with (Z.of_nat (length s)) by lia.
    apply (strlen_unterminated (array "prtBuf") s []).
    + done.
    + pose proof (literal_at stevemcqueen u Hp) as (_ & Hn & _). by apply Forall_take.
    + lia.
    + cbn. apply lookup_insert_eq.
    + lia.
    + unfold strlen_fuel. cbn [elements p_object array arrays set_arrays]. rewrite lookup_insert_eq.
      cbn [default from_option id]. rewrite length_app, length_fmap. lia.
  - done.
Qed.
End arrays.
