(* ===== verification/TestersProps.v ===== *)
(** * The user programs of phase 3: the properties *)
From S2P Require Export TestersArrays.
From stdpp Require Import strings.
From Stdlib Require Import Ascii.
#[local] Open Scope Z_scope.
Import Testers.

Section testers.
Context {support : SupportLevel}.
Implicit Types (u : ustate).

(** C37: the recursive fib of the five Fibonacci testers computes the Fibonacci number of every n from 1
    on, with recursion depth n at most; the result is exact up to n = 46 and wraps around as an int
    beyond. *)
Theorem fib_is_fibonacci (n : nat) u :
  (1 <= n)%nat -> Z.of_nat n < 2 ^ 31 ->
  (forall fuel, (n <= fuel)%nat -> fib fuel (Z.of_nat n) u = Ret (i32 (fibonacci n)) u) /\
  ((n <= 46)%nat -> i32 (fibonacci n) = fibonacci n).
Proof.
  intros Hn Hb. split; [intros fuel Hf; by apply fib_ok|]. intros H. by apply i32_small, fibonacci_small.
Qed.




(** C39: strConcat reads two lines of at most 19 characters without NUL (the first not empty) and prints
    the first without its last character (the newline) followed by the second, all inside its three
    buffers; terminalReader prints back a line of at most 14 characters. *)
Theorem strConcat_concatenates u (l1 l2 : list Z) :
  devices_ok ->
  (types_line (prompt1 (calls u)) l1 -> types_line (prompt2 (calls u) l1) l2 ->
   (1 <= length l1 <= 19)%nat -> (length l2 <= 19)%nat ->
   exists A, strConcat_main u = Stop Terminated
     (MkU A (words u) (((prompt2 (calls u) l1 ++ [ReadLine l2]) ++
                        [Wrote WRITETERMINAL (take (length l1 - 1) l1 ++ l2)]) ++
                       [line (String.append nl (String.append nl (ln "Strcat concluded")))]))) /\
  (types_line (reader_prompt (calls u)) l1 -> (length l1 <= 14)%nat ->
   exists A, terminalReader_main u = Stop Terminated
     (MkU A (words u) ((((reader_prompt (calls u) ++ [ReadLine l1]) ++ [line nl]) ++ [Wrote WRITETERMINAL l1]) ++
                       [line (String.append nl (String.append nl (ln "Terminal Read concluded")))]))).
Proof. intros Hd. split; [by apply strConcat_ok|by apply terminalReader_ok]. Qed.

(** C40: where the testers leave C: when a write fails, print hands 26 bytes of a 25-byte literal to the
    support level; a first line of 20 characters or more runs strConcat past the end of buf;
    asciiArt prints a buffer of 101 characters of which it has set 100, so the search for its end
    reads an element that was never written. *)
Theorem testers_undefined u (l1 : list Z) (art : string) (p : pointer) (s : list Z) (device : Z) :
  (writes device -> string_at p s u -> write_reply (calls u) s < 0 ->
   print device p u =
     Stop (OutOfBounds (literal (ln "Bad device write status")) 25) (log (Wrote device s) u)) /\
  (devices_ok -> types_line (prompt1 (calls u)) l1 -> (20 <= length l1)%nat ->
   exists u', strConcat_main u = Stop (OutOfBounds (array "buf") 20) u') /\
  (printable art = true -> (100 <= length (codes art))%nat ->
   exists u', asciiArt_main art u = Stop (Uninitialised (array "prtBuf") 100) u' /\ calls u' = calls u).
Proof.
  split; [by apply print_fails|]. split; [by apply strConcat_overflow|by apply asciiArt_unterminated].
Qed.
End testers.

(** ** A concrete support level: everything is written, and two lines are typed *)
Definition abc : list Z := codes (ln "abc").
Definition de : list Z := codes (ln "de").
Definition no_read_yet (h : list call) : bool :=
  forallb (fun c => match c with ReadLine _ => false | _ => true end) h.
Definition good_support : SupportLevel := {|
  write_reply := fun _ bytes => Z.of_nat (length bytes);
  typed := fun h => if no_read_yet h then abc else de;
  read_reply := fun h => Z.of_nat (length (if no_read_yet h then abc else de));
  time_of_day := fun h => 100 * Z.of_nat (length h)
|}.
(** A support level whose devices fail, where a line of twenty characters is typed. *)
Definition bad_support : SupportLevel := {|
  write_reply := fun _ _ => -1;
  typed := fun _ => replicate 20 97;
  read_reply := fun _ => 20;
  time_of_day := fun _ => 0
|}.
Definition start : ustate := MkU ∅ ∅ [].

Lemma good_devices : devices_ok (support := good_support).
Proof. intros h bytes. cbn. lia. Qed.

Lemma fib_is_fibonacci_witness : fib 11 11 start = Ret 89 start.
Proof.
  destruct (fib_is_fibonacci 11 start) as [H1 H2]; [lia|lia|].
  change 89 with (fibonacci 11). rewrite <- H2 by lia. exact (H1 11%nat (le_n 11)).
Defined.


Lemma strConcat_concatenates_witness : exists A,
  strConcat_main (support := good_support) start = Stop Terminated
    (MkU A ∅ (((prompt2 [] abc ++ [ReadLine de]) ++ [Wrote WRITETERMINAL (codes (String.append "abc" (ln "de")))]) ++
              [line (String.append nl (String.append nl (ln "Strcat concluded")))])).
Proof.
  refine (proj1 (strConcat_concatenates (support := good_support) start abc de good_devices) _ _ _ _).
  - split_and!; [reflexivity|reflexivity|]. repeat (apply Forall_cons; split; [discriminate|]). apply Forall_nil_2.
  - split_and!; [reflexivity|reflexivity|]. repeat (apply Forall_cons; split; [discriminate|]). apply Forall_nil_2.
  - vm_compute. lia.
  - vm_compute. lia.
Defined.

Lemma testers_undefined_witness :
  print (support := bad_support) WRITEPRINTER (literal "x") start =
    Stop (OutOfBounds (literal (ln "Bad device write status")) 25) (log (Wrote WRITEPRINTER (codes "x")) start) /\
  exists u', asciiArt_main (support := bad_support) (String.concat "" (replicate 100 "a"%string)) start =
    Stop (Uninitialised (array "prtBuf") 100) u' /\ calls u' = [].
Proof.
  destruct (testers_undefined (support := bad_support) start (replicate 20 97)
    (String.concat "" (replicate 100 "a"%string)) (literal "x") (codes "x") WRITEPRINTER) as (H1 & _ & H3).
  split.
  - apply H1; [left; reflexivity|apply literal_at; reflexivity|reflexivity].
  - apply H3; [vm_compute; reflexivity|vm_compute; lia].
Defined.
